(* ===== verification/_CoqProject ===== *)
-Q . S2P
Prelude.v
Sys.v
Errors.v
Lib.v
Nlmsg.v
Parser.v
ParserImpls.v
Macros.v
Codec.v
Data.v
Objects.v
Exprs.v
ExprMod.v
Payload.v
Table.v
Chain.v
Rule.v
Sets.v
Batch.v
Query.v
Exchange.v
Progress.v
RuleMethods.v
RuleBuild.v
RuleSend.v
Semantics.v
Meaning.v
Kernel.v
Examples.v
ExamplesSpec.v
RuleTheorems.v
Expand.v
Declarations.v
Expansion.v
Typed.v
WireTheorems.v
TypeTheorems.v
ObjectTheorems.v
ExchangeTheorems.v
Bindings.v
MacroTheorems.v
