(* ===== verification/Prelude.v ===== *)
(** * rustables: a verified model of the nf_tables netlink library

    rustables builds nf_tables objects (tables, chains, rules, sets), serializes them to
    netlink messages, sends them to the kernel in batches, and lists the kernel's objects
    by parsing the messages it answers with.  This library models the crate's own code
    under [src/src], its attribute macros and the code they generate ([src/macros/src/lib.rs]),
    its build script ([src/build.rs]) and its example programs ([src/examples]).  It proves
    that what is written is laid out as netlink asks and when it is read back as itself, that
    no input makes the parsers read out of bounds or loop (they may panic), and that the rules the methods build
    select the packets they are meant to.

    ** The program and its model

    - [Prelude]: outcomes of Rust code ([Ok], [Err], [Panic], [Ub], [Diverge]), machine
      integers with their wrap-around and overflow checks, slices and their panics, byte
      orders, the shared lemmas, the [netlink] hint database and the tactics.
    - [Sys]: what the crate takes from C headers ([sys.rs], generated by bindgen, and the
      crate libc): the class [Sys] has the constants and the layouts of the four C structures,
      [SysLaws] what the code relies on (sizes, distinct attribute numbers, values of a
      few flags).  The instance [linux], for either byte order, has the values of the Linux
      headers and satisfies the laws.
    - [Errors] ([error.rs]) and [Lib] ([lib.rs]): error types, [MsgType], [ProtocolFamily].
    - [Nlmsg] ([nlmsg.rs]): alignment, the traits [NfNetlinkAttribute],
      [NfNetlinkDeserializable], [AttributeDecoder] and [NfNetlinkObject] as classes, and
      [NfNetlinkWriter].  A [&mut] slice handed to a callee is the buffer going in and the
      updated buffer coming out; [splice] is the end of the borrow.
    - [Parser] ([parser.rs]): [parse_nlmsg], [write_attribute], [read_attributes],
      [parse_object].  [ParserImpls] ([parser_impls.rs]): integers, strings, byte vectors
      and nested lists.
    - [Macros] ([macros/src/lib.rs]): the code [nfnetlink_struct] and [nfnetlink_enum]
      generate, as functions of the list of declared fields ([Field]) and of the table of
      variants ([NfnetlinkEnum]).  Each annotated type of the crate is a record or an inductive
      type with its field list or its instance.
    - [Expand] ([macros/src/lib.rs]): the macros themselves, from a parsed declaration to the
      parts of the generated code; [Declarations]: every declaration of the crate they are
      put on; [Expansion]: the macros run on the declarations, against the tables that the
      other files use.  [Bindings] ([build.rs]): the script that generates [sys.rs].
    - [Codec] and [Objects]: the interfaces between serialization and its clients.
      [Codec T] promises that values satisfying the executable condition [value_ok] are
      written in exactly their size and read back, and that any input is parsed without
      reading outside of it and without looping ([safe]); [ObjectCodec] promises the same of
      whole messages, for objects that satisfy [object_readable].  What can be sent is
      [object_sendable], which is weaker: rules with [masquerade], empty lists and dropping
      chains are sent, and not read back as themselves.  Theorems about lists, expressions,
      batches and queries are proved against these interfaces, and each type of the crate
      discharges them.  [Objects] has the blanket [deserialize] of top-level objects.
    - [Data], [Exprs], [ExprMod], [Payload] ([expr/*.rs], part of [parser_impls.rs]): registers,
      verdicts, the fifteen expressions, [RawExpression] with its decoder by name, and the
      tables of header fields.
    - [Table], [Chain], [Rule], [Sets] ([table.rs], [chain.rs], [rule.rs], [set.rs],
      [data_type.rs]): the objects and the set builder.  [RuleMethods]
      ([rule_methods.rs]): the methods that append expressions to a rule and the interface
      lookup, over the classes [IpNetworkCrate] and [IfNames] for the crate ipnetwork and the
      system; [RuleBuild] and [RuleSend]: the relations [built] and [assembled] of the rules
      they can produce.
    - [Semantics]: what a program of expressions does to a packet, over the class [NfTables]
      of the kernel's evaluation of one expression, with the laws [NfTablesLaws] that the
      kernel documents (loading metadata, headers and connection state, comparing, masking,
      verdicts); [Meaning]: packets described by their fields, and what each rule-building
      method selects; [Kernel]: an evaluator on concrete packets that satisfies the laws.
    - [Examples] ([examples/*.rs]): the three programs, each a Module; [ExamplesSpec]: what they
      send and what their chains decide.
    - [Typed]: the values that the Rust type of each part has, as a class discharged by every
      type that is read.
    - [Batch] ([batch.rs]) and [Query] ([query.rs], [Batch::send], the listing functions):
      a batch is a writer and a sequence number; the socket is a script of what each call of
      the kernel returns, and the calls made on it are recorded as events.  [Query] also
      describes the kernel's answers to a dump, and [Exchange] its acknowledgements, as
      independent descriptions.  [Progress]: the loops end.

    A function of the crate has its own name, a method [f] of [T] the name [f] or [T_f].

    ** The theorems

    - [WireTheorems]: messages are accepted exactly when well formed (C1); the index-based
      loop over attributes is equivalent to a structural walk (C3); the loops that read a
      buffer end (C20); attribute lists are read back (C36).  Also layout, skipped attributes,
      alignment.
    - [TypeTheorems]: what is read from what a generated structure writes (C5), which fills
      exactly its size (C31); expressions with data are read back (C22), unknown ones kept
      (C35); the payload of each header field is recognized (C38).  Also enumerations,
      decoders, lists, basic types.
    - [ObjectTheorems]: no parser of objects reads outside its input or loops, on any input
      (C2), and what they read has its types (C21); readable rules and other objects are read
      back (C6, C34); built rules are sent and read back (C7); the layout of messages (C32),
      the set builder (C37), and what is not read back (C40).
    - [ExchangeTheorems]: batches (C8, C9), the receive loop refines one datagram at a time
      (C4), listings (C18, C33), exchanges end, and return when what was received is regular
      (C19), life of the socket (C29).
    - [RuleTheorems]: addresses, protocols and ports, connection states and interfaces
      select the packets they name (C11 to C14), verdicts decide (C15), address translation
      has its operands (C27), assembled rules are batched as they are (C26), the interface
      lookup (C39), and the example programs: what they send (C23 to C25) and what the
      firewall lets through (C10).
    - [MacroTheorems]: the macros on the declarations of the crate generate the code that
      the model uses (C16, C17), their arguments (C28), the bindings (C30).

    Theorems hold for both build profiles ([BuildProfile]: with or without overflow checks)
    unless they say otherwise.  [safe] excludes accesses out of bounds and endless loops, not
    panics; [returns] excludes panics too.  C12, C13, C14, C25, C27, C29 and C40 also state
    behaviour that users of the crate should know: [sport] comparing the destination port,
    states, indexes and interface types compared in a fixed byte order, a family that does not
    follow the address, a socket left open when a [send] fails, a dropping policy listed as
    accepting and an empty last attribute refused.

    ** Fuel

    Loops that are not structural take fuel, and running out is the outcome [Diverge],
    which the safety theorems exclude.  [read_attributes], [list_read] and the loops over a
    buffer start with one more than the length of the buffer, and each turn that continues
    consumes at least the four bytes of a header; the loop over received messages consumes
    at least the sixteen bytes of a message header.  The loops over [recv] and
    [send] follow their scripts: the end of a script is a kernel that never answers, so
    [Diverge] there is a call that blocks.

    ** What is not modelled

    - [sys.rs] (generated by bindgen), the sockets of the crate nix, [ipnetwork], the crates
      syn, regex and bindgen, the kernel: parameters, with laws where the code relies on them.
    - The printing of Rust tokens: an expansion is a record of the parts of the code, and has
      the names of the generated getters and setters, not their bodies.
    - Logging, [Debug] output and what the programs print; the tests.
    - The alignment of the pointers the parsers cast: [Ub] stands for accesses out of bounds
      only.
    - Memory allocation: buffers grow without failing; the page size only sets a capacity.

    ** Plan

    Framing, parsing, generated code, objects, batches, queries, the meaning of rules, the
    examples, the macros and the build script are done.  What may follow: the attributes
    whose length exceeds sixteen bits, which [write_attribute] truncates; the error paths of
    the builders as complete case analyses; the kernel's side of a
    batch as a transaction on a rule set; the meaning of [set_mss], [clamp_mss_to_pmtu] and
    [masquerade], whose expressions change the packet. *)

From Stdlib Require Export ZArith Lia.
From Stdlib Require Export Btauto.
From coqutil Require Export Byte Word.LittleEndianList.
From stdpp Require Export base sets list strings numbers option.

#[export] Set Default Goal Selector "!".
Local Open Scope Z_scope.

(** ** Outcomes of Rust code

    A Rust call returns, returns an error, panics (an out-of-range index or
    slice, an overflow under overflow checks, an [unwrap] of [None]), performs an
    out-of-bounds access through a raw pointer ([Ub]), or, in the model of a loop,
    runs out of fuel ([Diverge]).  Theorems rule the last two out. *)
Inductive outcome (E A : Type) : Type :=
  | Ok (a : A)
  | Err (e : E)
  | Panic
  | Ub
  | Diverge.
Arguments Ok {E A} a.
Arguments Err {E A} e.
Arguments Panic {E A}.
Arguments Ub {E A}.
Arguments Diverge {E A}.

#[global] Instance outcome_ret (E : Type) : MRet (outcome E) := λ _ a, Ok a.
#[global] Instance outcome_bind (E : Type) : MBind (outcome E) := λ _ _ k m,
  match m with
  | Ok a => k a
  | Err e => Err e
  | Panic => Panic
  | Ub => Ub
  | Diverge => Diverge
  end.

(** The [?] operator on a result of another error type, through [From]. *)
Definition map_err {E F A : Type} (f : E → F) (m : outcome E A) : outcome F A :=
  match m with
  | Ok a => Ok a
  | Err e => Err (f e)
  | Panic => Panic
  | Ub => Ub
  | Diverge => Diverge
  end.

(** Code that cannot return an error, used where errors are possible. *)
Definition infallible {E A : Type} (m : outcome Empty_set A) : outcome E A :=
  map_err (λ e : Empty_set, match e with end) m.

(** No undefined behaviour and no endless loop: the code ends with a value, with an error or
    with a panic. *)
Definition safe {E A : Type} (m : outcome E A) : Prop := m ≠ Ub ∧ m ≠ Diverge.

(** The code returns to its caller, with a value or an error: it does not panic either. *)
Definition returns {E A : Type} (m : outcome E A) : Prop :=
  match m with Ok _ | Err _ => True | _ => False end.

(** ** Machine integers

    A [w]-bit integer is a [Z]; the [as] casts and the release-mode arithmetic
    wrap around explicitly. *)
Definition as_u8 (z : Z) : Z := z mod 2 ^ 8.
Definition as_u16 (z : Z) : Z := z mod 2 ^ 16.
Definition as_u32 (z : Z) : Z := z mod 2 ^ 32.
Definition as_i32 (z : Z) : Z := (z + 2 ^ 31) mod 2 ^ 32 - 2 ^ 31.
Definition wrap_usize (z : Z) : Z := z mod 2 ^ 64.

Definition u8_ok (z : Z) : Prop := 0 ≤ z < 2 ^ 8.
Definition u16_ok (z : Z) : Prop := 0 ≤ z < 2 ^ 16.
Definition u32_ok (z : Z) : Prop := 0 ≤ z < 2 ^ 32.
Definition u64_ok (z : Z) : Prop := 0 ≤ z < 2 ^ 64.
Definition i32_ok (z : Z) : Prop := - 2 ^ 31 ≤ z < 2 ^ 31.

(** [isize::MAX]: the standard library bounds the length of every slice by it. *)
Definition isize_max : Z := 2 ^ 63 - 1.

(** Whether the crate is compiled with overflow checks (the dev profile) or
    without (the release profile). *)
Class BuildProfile := overflow_checks : bool.
Definition dev_profile : BuildProfile := true.
Definition release_profile : BuildProfile := false.

Section Arithmetic.
Context `{BuildProfile} {E : Type}.

Definition usize_add (a b : Z) : outcome E Z :=
  if a + b <? 2 ^ 64 then Ok (a + b)
  else if overflow_checks then Panic else Ok (wrap_usize (a + b)).

Definition usize_sub (a b : Z) : outcome E Z :=
  if b <=? a then Ok (a - b)
  else if overflow_checks then Panic else Ok (wrap_usize (a - b)).

Definition u32_add (a b : Z) : outcome E Z :=
  if a + b <? 2 ^ 32 then Ok (a + b)
  else if overflow_checks then Panic else Ok (as_u32 (a + b)).

Definition u32_sub (a b : Z) : outcome E Z :=
  if b <=? a then Ok (a - b)
  else if overflow_checks then Panic else Ok (as_u32 (a - b)).

(** [i32::abs]: the absolute value of [i32::MIN] overflows. *)
Definition i32_abs (a : Z) : outcome E Z :=
  if a =? - 2 ^ 31 then (if overflow_checks then Panic else Ok a) else Ok (Z.abs a).
End Arithmetic.

(** ** Byte buffers and slices *)
#[global] Instance byte_eq_dec : EqDecision Init.Byte.byte := Byte.byte_eq_dec.

Definition bytes : Type := list byte.

Definition len {A : Type} (l : list A) : Z := Z.of_nat (length l).
Definition zeros (n : Z) : bytes := replicate (Z.to_nat n) Byte.x00.

(** [&buf[a..]], [&buf[..b]] and [&buf[a..b]]: out of range, the code panics. *)
Definition slice_from {E A : Type} (l : list A) (a : Z) : outcome E (list A) :=
  if a <=? len l then Ok (drop (Z.to_nat a) l) else Panic.
Definition slice_to {E A : Type} (l : list A) (b : Z) : outcome E (list A) :=
  if b <=? len l then Ok (take (Z.to_nat b) l) else Panic.
Definition slice {E A : Type} (l : list A) (a b : Z) : outcome E (list A) :=
  if (a <=? b) && (b <=? len l)
  then Ok (drop (Z.to_nat a) (take (Z.to_nat b) l)) else Panic.

(** [addr[0..n].copy_from_slice(src)] with [n = src.len()]. *)
Definition copy_prefix {E : Type} (addr src : bytes) : outcome E bytes :=
  if len src <=? len addr then Ok (src ++ drop (length src) addr) else Panic.

(** [to_be_bytes] and [from_be_bytes] at a width of [n] bytes. *)
Definition be_bytes (n : nat) (z : Z) : bytes := rev (le_split n z).
Definition be_value (bs : bytes) : Z := le_combine (rev bs).

(** ** Strings

    A Rust [String] is a byte buffer holding UTF-8; [utf8_valid] is the test
    [String::from_utf8] makes. *)
Definition str (s : string) : bytes := String.list_byte_of_string s.

Definition in_range (lo hi : Z) (b : byte) : bool :=
  (lo <=? byte.unsigned b) && (byte.unsigned b <=? hi).
Definition utf8_tail (b : byte) : bool := in_range 128 191 b.

Fixpoint utf8_valid (l : bytes) : bool :=
  match l with
  | [] => true
  | a :: l1 =>
      if in_range 0 127 a then utf8_valid l1
      else match l1 with
      | [] => false
      | b :: l2 =>
          if in_range 194 223 a then utf8_tail b && utf8_valid l2
          else match l2 with
          | [] => false
          | c :: l3 =>
              if in_range 224 224 a && in_range 160 191 b
                 || in_range 225 236 a && utf8_tail b
                 || in_range 237 237 a && in_range 128 159 b
                 || in_range 238 239 a && utf8_tail b
              then utf8_tail c && utf8_valid l3
              else match l3 with
              | [] => false
              | d :: l4 =>
                  (in_range 240 240 a && in_range 144 191 b
                   || in_range 241 243 a && utf8_tail b
                   || in_range 244 244 a && in_range 128 143 b)
                  && utf8_tail c && utf8_tail d && utf8_valid l4
              end
          end
      end
  end.

#[global] Arguments Z.pow : simpl never.
#[global] Arguments zeros : simpl never.
#[global] Arguments len : simpl never.

(** Method chaining: [x.f(..).g(..)]. *)
Declare Scope rust_scope.
Delimit Scope rust_scope with rust.
Notation "x |> f" := (f x) (at level 50, left associativity, only parsing) : rust_scope.
#[global] Open Scope rust_scope.

(** ** Tactics and hint databases *)
Create HintDb netlink.

(** Case on every boolean test and [match] of the goal and of [H]. *)
Ltac destruct_ifs :=
  cbv zeta; repeat match goal with
  | |- context [if ?b then _ else _] => destruct b eqn:?
  | H : context [if ?b then _ else _] |- _ => destruct b eqn:?
  end.

Ltac zbool :=
  repeat match goal with
  | H : (_ && _) = true |- _ => apply andb_true_iff in H as [? ?]
  | H : (_ && _) = false |- _ => apply andb_false_iff in H
  | H : (_ || _) = true |- _ => apply orb_true_iff in H
  | H : (_ || _) = false |- _ => apply orb_false_iff in H as [? ?]
  | H : (_ <? _) = true |- _ => apply Z.ltb_lt in H
  | H : (_ <? _) = false |- _ => apply Z.ltb_ge in H
  | H : (_ <=? _) = true |- _ => apply Z.leb_le in H
  | H : (_ <=? _) = false |- _ => apply Z.leb_gt in H
  | H : (_ =? _) = true |- _ => apply Z.eqb_eq in H
  | H : (_ =? _) = false |- _ => apply Z.eqb_neq in H
  | H : (_ >? _) = _ |- _ => rewrite Z.gtb_ltb in H
  | H : negb _ = true |- _ => apply negb_true_iff in H
  | H : negb _ = false |- _ => apply negb_false_iff in H
  end.

(** Decide the boolean comparisons of the goal that arithmetic settles. *)
Ltac ztest :=
  repeat match goal with
  | |- context [?a <? ?b] => first
      [ rewrite (proj2 (Z.ltb_lt a b)) by lia | rewrite (proj2 (Z.ltb_ge a b)) by lia ]
  | |- context [?a <=? ?b] => first
      [ rewrite (proj2 (Z.leb_le a b)) by lia | rewrite (proj2 (Z.leb_gt a b)) by lia ]
  | |- context [?a >? ?b] => rewrite (Z.gtb_ltb a b)
  | |- context [?a =? ?b] => first
      [ rewrite (proj2 (Z.eqb_eq a b)) by lia | rewrite (proj2 (Z.eqb_neq a b)) by lia ]
  end; cbn [andb orb negb].

(** Case on the comparisons of the goal. *)
Ltac zcases :=
  repeat match goal with
  | |- context [?a <? ?b] => destruct (Z.ltb_spec a b); try lia
  | |- context [?a <=? ?b] => destruct (Z.leb_spec a b); try lia
  | |- context [?a =? ?b] => destruct (Z.eqb_spec a b); try lia
  end; cbn [andb orb negb].

(** ** Generic lemmas *)
Section Outcome.
Context {E A B : Type}.

Lemma bind_ok (a : A) (k : A → outcome E B) : (Ok a ≫= k) = k a.
Proof. done. Qed.

Lemma bind_Ok_inv (m : outcome E A) (k : A → outcome E B) b :
  (m ≫= k) = Ok b → ∃ a, m = Ok a ∧ k a = Ok b.
Proof. destruct m; simpl; intros; try done. eauto. Qed.

Lemma bind_panic (k : A → outcome E B) : (Panic ≫= k) = Panic.
Proof. done. Qed.

Lemma safe_ok (a : A) : safe (Ok (E := E) a).
Proof. done. Qed.

Lemma safe_err (e : E) : safe (Err (A := A) e).
Proof. done. Qed.

Lemma safe_panic : safe (Panic (E := E) (A := A)).
Proof. done. Qed.

Lemma safe_bind (m : outcome E A) (k : A → outcome E B) :
  safe m → (∀ a, m = Ok a → safe (k a)) → safe (m ≫= k).
Proof. destruct m; simpl; intros [? ?] Hk; try done. by apply Hk. Qed.

Lemma returns_safe (m : outcome E A) : returns m → safe m.
Proof. by destruct m. Qed.

Lemma returns_bind (m : outcome E A) (k : A → outcome E B) :
  returns m → (∀ a, m = Ok a → returns (k a)) → returns (m ≫= k).
Proof. destruct m; cbn; try done. intros _ Hk. by apply Hk. Qed.

Lemma safe_returns (m : outcome E A) : safe m → m ≠ Panic → returns m.
Proof. destruct m; intros [? ?] ?; done. Qed.
End Outcome.

#[export] Hint Resolve safe_ok safe_err safe_panic : netlink.

(** Run the continuation of a computation that returned. *)
Ltac obind := repeat (first [rewrite bind_ok | rewrite bind_panic]; cbn beta iota).

Section Lists.
Context {A : Type}.
Implicit Types l k : list A.

Lemma len_nonneg l : 0 ≤ len l.
Proof. unfold len. lia. Qed.

Lemma len_app l k : len (l ++ k) = len l + len k.
Proof. unfold len. rewrite length_app. lia. Qed.

Lemma len_nil : len (@nil A) = 0.
Proof. done. Qed.

Lemma len_cons (x : A) l : len (x :: l) = 1 + len l.
Proof. unfold len. simpl. lia. Qed.

Lemma len_0_nil l : len l = 0 → l = [].
Proof. destruct l; [done|]. rewrite len_cons. pose proof (len_nonneg l). lia. Qed.

Lemma len_drop l n : 0 ≤ n ≤ len l → len (drop (Z.to_nat n) l) = len l - n.
Proof. unfold len. rewrite length_drop. lia. Qed.

Lemma len_take l n : 0 ≤ n ≤ len l → len (take (Z.to_nat n) l) = n.
Proof. unfold len. rewrite length_take. lia. Qed.

Lemma drop_app_len l k n : n = len l → drop (Z.to_nat n) (l ++ k) = k.
Proof. intros ->. apply drop_app_length'. unfold len. lia. Qed.

Lemma take_app_len l k n : n = len l → take (Z.to_nat n) (l ++ k) = l.
Proof. intros ->. apply take_app_length'. unfold len. lia. Qed.

Lemma drop_add l a b :
  0 ≤ a → 0 ≤ b → drop (Z.to_nat (a + b)) l = drop (Z.to_nat b) (drop (Z.to_nat a) l).
Proof. intros. rewrite drop_drop. f_equal. lia. Qed.

Lemma slice_from_ok {E} l a :
  a ≤ len l → slice_from (E := E) l a = Ok (drop (Z.to_nat a) l).
Proof. intros. unfold slice_from. ztest. done. Qed.

Lemma slice_from_panic {E} l a : len l < a → slice_from (E := E) l a = Panic.
Proof. intros. unfold slice_from. ztest. done. Qed.

Lemma slice_to_app {E} l k n : n = len l → slice_to (E := E) (l ++ k) n = Ok l.
Proof.
  intros ->. unfold slice_to. rewrite len_app. pose proof (len_nonneg k). ztest.
  by rewrite take_app_len.
Qed.

Lemma slice_from_app {E} l k n : n = len l → slice_from (E := E) (l ++ k) n = Ok k.
Proof.
  intros ->. unfold slice_from. rewrite len_app. pose proof (len_nonneg k). ztest.
  by rewrite drop_app_len.
Qed.

Lemma slice_panic {E} l a b : (b < a ∨ len l < b) → slice (E := E) l a b = Panic.
Proof. intros. unfold slice. by zcases. Qed.

(** A slice of the suffix of [l] at [a], seen from that suffix. *)
Lemma slice_suffix {E} l a b :
  0 ≤ a → a ≤ b → b ≤ len l →
  slice (E := E) l a b = Ok (take (Z.to_nat (b - a)) (drop (Z.to_nat a) l)).
Proof.
  intros. unfold slice. ztest. simpl. f_equal. rewrite take_drop_commute.
  f_equal. f_equal. lia.
Qed.

Lemma slice_len {E} l a b k : slice (E := E) l a b = Ok k → len k ≤ len l.
Proof.
  unfold slice. destruct (_ && _); [|done]. intros [= <-].
  unfold len. rewrite length_drop, length_take. lia.
Qed.

Lemma slice_from_inv {E} l a k :
  slice_from (E := E) l a = Ok k → a ≤ len l ∧ k = drop (Z.to_nat a) l.
Proof. unfold slice_from. destruct_ifs; zbool; naive_solver. Qed.
End Lists.

Lemma len_zeros n : 0 ≤ n → len (zeros n) = n.
Proof. intros. unfold len, zeros. rewrite length_replicate. lia. Qed.

Lemma zeros_add a b : 0 ≤ a → 0 ≤ b → zeros (a + b) = zeros a ++ zeros b.
Proof. intros. unfold zeros. rewrite Z2Nat.inj_add by lia. apply replicate_add. Qed.

Lemma len_be_bytes n z : len (be_bytes n z) = Z.of_nat n.
Proof. unfold len, be_bytes. by rewrite length_rev, length_le_split. Qed.

Lemma be_value_bytes n z : be_value (be_bytes n z) = z mod 2 ^ (Z.of_nat n * 8).
Proof. unfold be_value, be_bytes. by rewrite rev_involutive, le_combine_split. Qed.

Lemma be_value_bound (a : bytes) : 0 ≤ be_value a < 2 ^ (8 * len a).
Proof. unfold be_value, len. rewrite <- (length_rev a). apply le_combine_bound. Qed.

Lemma be_bytes_value bs : be_bytes (length bs) (be_value bs) = bs.
Proof.
  unfold be_value, be_bytes. rewrite <- (length_rev bs), split_le_combine.
  apply rev_involutive.
Qed.

Lemma as_u16_small z : 0 ≤ z < 2 ^ 16 → as_u16 z = z.
Proof. apply Z.mod_small. Qed.

Lemma as_u32_small z : 0 ≤ z < 2 ^ 32 → as_u32 z = z.
Proof. apply Z.mod_small. Qed.

Lemma as_u8_small z : 0 ≤ z < 2 ^ 8 → as_u8 z = z.
Proof. apply Z.mod_small. Qed.

Lemma as_i32_small z : i32_ok z → as_i32 z = z.
Proof. unfold i32_ok, as_i32. intros. rewrite Z.mod_small; lia. Qed.

Lemma as_u32_ok z : u32_ok (as_u32 z).
Proof. apply Z.mod_pos_bound. lia. Qed.

Lemma as_u16_ok z : u16_ok (as_u16 z).
Proof. apply Z.mod_pos_bound. lia. Qed.

Lemma lor_u16 a b : u16_ok a → u16_ok b → u16_ok (Z.lor a b).
Proof.
  unfold u16_ok. intros.
  assert (Z.lor a b mod 2 ^ 16 = Z.lor a b) as <-; [|apply Z.mod_pos_bound; lia].
  rewrite <- Z.land_ones, Z.land_lor_distr_l, !Z.land_ones by lia.
  by rewrite !Z.mod_small.
Qed.

Section ArithmeticLemmas.
Context `{BuildProfile} {E : Type}.

Lemma usize_add_small a b : a + b < 2 ^ 64 → usize_add (E := E) a b = Ok (a + b).
Proof. intros. unfold usize_add. by rewrite (proj2 (Z.ltb_lt _ _)). Qed.

Lemma usize_sub_small a b : b ≤ a → usize_sub (E := E) a b = Ok (a - b).
Proof. intros. unfold usize_sub. by rewrite (proj2 (Z.leb_le _ _)). Qed.

(** Below zero, the subtraction panics or wraps to the top of the range. *)
Lemma usize_sub_neg a b :
  a < b → b - a ≤ 2 ^ 64 →
  usize_sub (E := E) a b = Panic ∨ usize_sub (E := E) a b = Ok (2 ^ 64 - (b - a)).
Proof.
  intros. unfold usize_sub. rewrite (proj2 (Z.leb_gt _ _)) by lia.
  destruct overflow_checks; [by left|right]. unfold wrap_usize. f_equal.
  symmetry. apply (Z.mod_unique _ _ (-1)); lia.
Qed.

Lemma usize_add_big a b :
  2 ^ 64 ≤ a + b < 2 * 2 ^ 64 →
  usize_add (E := E) a b = Panic ∨ usize_add (E := E) a b = Ok (a + b - 2 ^ 64).
Proof.
  intros. unfold usize_add. rewrite (proj2 (Z.ltb_ge _ _)) by lia.
  destruct overflow_checks; [by left|right]. unfold wrap_usize. f_equal.
  symmetry. apply (Z.mod_unique _ _ 1); lia.
Qed.

Lemma u32_add_small a b : a + b < 2 ^ 32 → u32_add (E := E) a b = Ok (a + b).
Proof. intros. unfold u32_add. by rewrite (proj2 (Z.ltb_lt _ _)). Qed.
End ArithmeticLemmas.
