(* ===== verification/Sys.v ===== *)
(** * The system interface: [sys.rs] and [libc]

    [src/sys.rs] includes a file that the build generates from the kernel headers
    named by [include/wrapper.h]; the crate also takes constants from [libc].  None
    of that is source of this repository, so it is a parameter here: the class
    [Sys] has the constants, the list of identifiers the generated file declares
    (the procedural macro reads it to decide on optional attributes) and the memory
    layout of the four C structures the crate reads and writes through raw
    pointers.  [SysLaws] states what the code relies on, as the kernel headers
    document it.  [linux] is an instance, with the values of the Linux headers, for
    either byte order; [linux_laws] shows that the laws hold of it. *)

From S2P Require Import Prelude.
Local Open Scope Z_scope.

(** ** The C structures *)
Record nlmsghdr := {
  nlmsg_len : Z;
  nlmsg_type : Z;
  nlmsg_flags : Z;
  nlmsg_seq : Z;
  nlmsg_pid : Z }.

Record nfgenmsg := {
  nfgen_family : Z;
  version : Z;
  res_id : Z }.

Record nlattr := {
  nla_len : Z;
  nla_type : Z }.

Record nlmsgerr := {
  error : Z;
  msg : nlmsghdr }.

#[global] Instance nlmsghdr_eq_dec : EqDecision nlmsghdr.
Proof. solve_decision. Defined.
#[global] Instance nfgenmsg_eq_dec : EqDecision nfgenmsg.
Proof. solve_decision. Defined.
#[global] Instance nlattr_eq_dec : EqDecision nlattr.
Proof. solve_decision. Defined.
#[global] Instance nlmsgerr_eq_dec : EqDecision nlmsgerr.
Proof. solve_decision. Defined.

Definition nlmsghdr_ok (h : nlmsghdr) : Prop :=
  u32_ok (nlmsg_len h) ∧ u16_ok (nlmsg_type h) ∧ u16_ok (nlmsg_flags h)
  ∧ u32_ok (nlmsg_seq h) ∧ u32_ok (nlmsg_pid h).
Definition nfgenmsg_ok (m : nfgenmsg) : Prop :=
  u8_ok (nfgen_family m) ∧ u8_ok (version m) ∧ u16_ok (res_id m).
Definition nlattr_ok (a : nlattr) : Prop := u16_ok (nla_len a) ∧ u16_ok (nla_type a).
Definition nlmsgerr_ok (e : nlmsgerr) : Prop := i32_ok (error e) ∧ nlmsghdr_ok (msg e).

(** The in-memory representation of a structure: [size_of] and the bytes behind a
    pointer to it. *)
Record Layout (A : Type) := {
  size_of : Z;
  to_bytes : A → bytes;
  of_bytes : bytes → A }.
Arguments size_of {A} _.
Arguments to_bytes {A} _ _.
Arguments of_bytes {A} _ _.

(** [*(buf.as_ptr() as *const A)]: reading past the end of the buffer is undefined
    behaviour, not a panic. *)
Definition read_struct {E A : Type} (L : Layout A) (buf : bytes) : outcome E A :=
  if size_of L <=? len buf then Ok (of_bytes L (take (Z.to_nat (size_of L)) buf)) else Ub.

(** [*(buf.as_mut_ptr() as *mut A) = a]. *)
Definition write_struct {E A : Type} (L : Layout A) (buf : bytes) (a : A) : outcome E bytes :=
  if size_of L <=? len buf
  then Ok (to_bytes L a ++ drop (Z.to_nat (size_of L)) buf) else Ub.

(** ** The parameters *)
Class Sys := {
  (** the identifiers [sys.rs] declares as constants *)
  declared_identifiers : list string;
  (** what [sysconf(_SC_PAGESIZE)] returns *)
  sc_pagesize : Z;
  nlmsghdr_layout : Layout nlmsghdr;
  nfgenmsg_layout : Layout nfgenmsg;
  nlattr_layout : Layout nlattr;
  nlmsgerr_layout : Layout nlmsgerr;
  (** linux/netlink.h *)
  NLMSG_ALIGNTO : Z;
  NLMSG_NOOP : Z;
  NLMSG_ERROR : Z;
  NLMSG_DONE : Z;
  NLMSG_MIN_TYPE : Z;
  NLM_F_REQUEST : Z;
  NLM_F_MULTI : Z;
  NLM_F_ACK : Z;
  NLM_F_DUMP_INTR : Z;
  NLM_F_DUMP : Z;
  NLM_F_CREATE : Z;
  NLM_F_APPEND : Z;
  NLA_F_NESTED : Z;
  NLA_TYPE_MASK : Z;
  (** linux/netfilter/nfnetlink.h *)
  NFNETLINK_V0 : Z;
  NFNL_SUBSYS_NFTABLES : Z;
  NFNL_MSG_BATCH_BEGIN : Z;
  NFNL_MSG_BATCH_END : Z;
  (** linux/netfilter/nf_tables.h: message types *)
  NFT_MSG_NEWTABLE : Z;
  NFT_MSG_GETTABLE : Z;
  NFT_MSG_DELTABLE : Z;
  NFT_MSG_NEWCHAIN : Z;
  NFT_MSG_GETCHAIN : Z;
  NFT_MSG_DELCHAIN : Z;
  NFT_MSG_NEWRULE : Z;
  NFT_MSG_GETRULE : Z;
  NFT_MSG_DELRULE : Z;
  NFT_MSG_NEWSET : Z;
  NFT_MSG_DELSET : Z;
  NFT_MSG_NEWSETELEM : Z;
  NFT_MSG_DELSETELEM : Z;
  (** linux/netfilter/nf_tables.h: attribute types *)
  NFTA_LIST_ELEM : Z;
  NFTA_TABLE_NAME : Z;
  NFTA_TABLE_FLAGS : Z;
  NFTA_TABLE_USERDATA : Z;
  NFTA_CHAIN_TABLE : Z;
  NFTA_CHAIN_NAME : Z;
  NFTA_CHAIN_HOOK : Z;
  NFTA_CHAIN_POLICY : Z;
  NFTA_CHAIN_TYPE : Z;
  NFTA_CHAIN_FLAGS : Z;
  NFTA_CHAIN_USERDATA : Z;
  NFTA_HOOK_HOOKNUM : Z;
  NFTA_HOOK_PRIORITY : Z;
  NFTA_RULE_TABLE : Z;
  NFTA_RULE_CHAIN : Z;
  NFTA_RULE_HANDLE : Z;
  NFTA_RULE_EXPRESSIONS : Z;
  NFTA_RULE_POSITION : Z;
  NFTA_RULE_USERDATA : Z;
  NFTA_RULE_ID : Z;
  NFTA_SET_TABLE : Z;
  NFTA_SET_NAME : Z;
  NFTA_SET_FLAGS : Z;
  NFTA_SET_KEY_TYPE : Z;
  NFTA_SET_KEY_LEN : Z;
  NFTA_SET_ID : Z;
  NFTA_SET_USERDATA : Z;
  NFTA_SET_ELEM_KEY : Z;
  NFTA_SET_ELEM_LIST_TABLE : Z;
  NFTA_SET_ELEM_LIST_SET : Z;
  NFTA_SET_ELEM_LIST_ELEMENTS : Z;
  NFTA_DATA_VALUE : Z;
  NFTA_DATA_VERDICT : Z;
  NFTA_VERDICT_CODE : Z;
  NFTA_VERDICT_CHAIN : Z;
  NFTA_VERDICT_CHAIN_ID : Z;
  NFTA_EXPR_NAME : Z;
  NFTA_EXPR_DATA : Z;
  NFTA_BITWISE_SREG : Z;
  NFTA_BITWISE_DREG : Z;
  NFTA_BITWISE_LEN : Z;
  NFTA_BITWISE_MASK : Z;
  NFTA_BITWISE_XOR : Z;
  NFTA_BYTEORDER_SREG : Z;
  NFTA_BYTEORDER_DREG : Z;
  NFTA_BYTEORDER_OP : Z;
  NFTA_BYTEORDER_LEN : Z;
  NFTA_BYTEORDER_SIZE : Z;
  NFTA_CMP_SREG : Z;
  NFTA_CMP_OP : Z;
  NFTA_CMP_DATA : Z;
  NFTA_COUNTER_BYTES : Z;
  NFTA_COUNTER_PACKETS : Z;
  NFTA_CT_DREG : Z;
  NFTA_CT_KEY : Z;
  NFTA_CT_DIRECTION : Z;
  NFTA_CT_SREG : Z;
  NFTA_EXTHDR_DREG : Z;
  NFTA_EXTHDR_TYPE : Z;
  NFTA_EXTHDR_OFFSET : Z;
  NFTA_EXTHDR_LEN : Z;
  NFTA_EXTHDR_FLAGS : Z;
  NFTA_EXTHDR_OP : Z;
  NFTA_EXTHDR_SREG : Z;
  NFTA_IMMEDIATE_DREG : Z;
  NFTA_IMMEDIATE_DATA : Z;
  NFTA_LOG_GROUP : Z;
  NFTA_LOG_PREFIX : Z;
  NFTA_LOOKUP_SET : Z;
  NFTA_LOOKUP_SREG : Z;
  NFTA_LOOKUP_DREG : Z;
  NFTA_LOOKUP_SET_ID : Z;
  NFTA_META_DREG : Z;
  NFTA_META_KEY : Z;
  NFTA_META_SREG : Z;
  NFTA_NAT_TYPE : Z;
  NFTA_NAT_FAMILY : Z;
  NFTA_NAT_REG_ADDR_MIN : Z;
  NFTA_NAT_REG_PROTO_MIN : Z;
  NFTA_PAYLOAD_DREG : Z;
  NFTA_PAYLOAD_BASE : Z;
  NFTA_PAYLOAD_OFFSET : Z;
  NFTA_PAYLOAD_LEN : Z;
  NFTA_PAYLOAD_SREG : Z;
  NFTA_REJECT_TYPE : Z;
  NFTA_REJECT_ICMP_CODE : Z;
  NFTA_RT_DREG : Z;
  NFTA_RT_KEY : Z;
  (** linux/netfilter/nf_tables.h: enumerations *)
  NFT_REG_VERDICT : Z;
  NFT_REG_1 : Z;
  NFT_REG_2 : Z;
  NFT_REG_3 : Z;
  NFT_REG_4 : Z;
  NFT_BYTEORDER_NTOH : Z;
  NFT_BYTEORDER_HTON : Z;
  NFT_CMP_EQ : Z;
  NFT_CMP_NEQ : Z;
  NFT_CMP_LT : Z;
  NFT_CMP_LTE : Z;
  NFT_CMP_GT : Z;
  NFT_CMP_GTE : Z;
  NFT_CT_STATE : Z;
  NFT_CT_MARK : Z;
  NFT_EXTHDR_OP_IPV6 : Z;
  NFT_EXTHDR_OP_TCPOPT : Z;
  NFT_META_PROTOCOL : Z;
  NFT_META_MARK : Z;
  NFT_META_IIF : Z;
  NFT_META_OIF : Z;
  NFT_META_IIFNAME : Z;
  NFT_META_OIFNAME : Z;
  NFT_META_IIFTYPE : Z;
  NFT_META_OIFTYPE : Z;
  NFT_META_SKUID : Z;
  NFT_META_SKGID : Z;
  NFT_META_NFPROTO : Z;
  NFT_META_L4PROTO : Z;
  NFT_META_CGROUP : Z;
  NFT_META_PRANDOM : Z;
  NFT_NAT_SNAT : Z;
  NFT_NAT_DNAT : Z;
  NFT_PAYLOAD_LL_HEADER : Z;
  NFT_PAYLOAD_NETWORK_HEADER : Z;
  NFT_PAYLOAD_TRANSPORT_HEADER : Z;
  NFT_REJECT_ICMP_UNREACH : Z;
  NFT_REJECT_TCP_RST : Z;
  NFT_REJECT_ICMPX_UNREACH : Z;
  NFT_REJECT_ICMPX_NO_ROUTE : Z;
  NFT_REJECT_ICMPX_PORT_UNREACH : Z;
  NFT_REJECT_ICMPX_HOST_UNREACH : Z;
  NFT_REJECT_ICMPX_ADMIN_PROHIBITED : Z;
  NFT_RT_CLASSID : Z;
  NFT_RT_NEXTHOP4 : Z;
  NFT_RT_NEXTHOP6 : Z;
  NFT_RT_TCPMSS : Z;
  NFT_CONTINUE : Z;
  NFT_BREAK : Z;
  NFT_JUMP : Z;
  NFT_GOTO : Z;
  NFT_RETURN : Z;
  (** the libc crate *)
  NF_DROP : Z;
  NF_ACCEPT : Z;
  NF_QUEUE : Z;
  NF_INET_PRE_ROUTING : Z;
  NF_INET_LOCAL_IN : Z;
  NF_INET_FORWARD : Z;
  NF_INET_LOCAL_OUT : Z;
  NF_INET_POST_ROUTING : Z;
  NFPROTO_UNSPEC : Z;
  NFPROTO_INET : Z;
  NFPROTO_IPV4 : Z;
  NFPROTO_ARP : Z;
  NFPROTO_NETDEV : Z;
  NFPROTO_BRIDGE : Z;
  NFPROTO_IPV6 : Z;
  NFPROTO_DECNET : Z;
  IPPROTO_ICMP : Z;
  IPPROTO_IGMP : Z;
  IPPROTO_TCP : Z;
  IPPROTO_UDP : Z;
  IPPROTO_ICMPV6 : Z;
  IFNAMSIZ : Z }.

(** ** What the code relies on *)
Class LayoutLaws {A : Type} (L : Layout A) (ok : A → Prop) (n : Z) : Prop := {
  layout_size : size_of L = n;
  to_bytes_len : ∀ a, len (to_bytes L a) = n;
  of_to_bytes : ∀ a, ok a → of_bytes L (to_bytes L a) = a;
  to_of_bytes : ∀ b, len b = n → to_bytes L (of_bytes L b) = b;
  of_bytes_ok : ∀ b, len b = n → ok (of_bytes L b) }.

(** The attribute types of one object: distinct, and free of the two flag bits. *)
Definition attr_namespace (l : list Z) : Prop := NoDup l ∧ Forall (λ t, 0 ≤ t < 2 ^ 14) l.
(** The discriminants of one enumeration: distinct, and in the range of its type. *)
Definition enumeration (ok : Z → Prop) (l : list Z) : Prop := NoDup l ∧ Forall ok l.
(** The message types of tables, chains, rules and sets: distinct, and below those
    of the batch messages. *)
Definition message_types (l : list Z) : Prop := NoDup l ∧ Forall (λ t, 0 ≤ t < 16) l.

Class SysLaws (S : Sys) : Prop := {
  nlmsghdr_laws :: LayoutLaws nlmsghdr_layout nlmsghdr_ok 16;
  nfgenmsg_laws :: LayoutLaws nfgenmsg_layout nfgenmsg_ok 4;
  nlattr_laws :: LayoutLaws nlattr_layout nlattr_ok 4;
  nlmsgerr_laws :: LayoutLaws nlmsgerr_layout nlmsgerr_ok 20;
  nlmsghdr_zeros : of_bytes nlmsghdr_layout (zeros 16) = Build_nlmsghdr 0 0 0 0 0;
  sc_pagesize_ok : 0 < sc_pagesize < 2 ^ 27;
  alignto_4 : NLMSG_ALIGNTO = 4;
  noop_1 : NLMSG_NOOP = 1;
  error_2 : NLMSG_ERROR = 2;
  done_3 : NLMSG_DONE = 3;
  min_type_16 : NLMSG_MIN_TYPE = 16;
  f_request_1 : NLM_F_REQUEST = 1;
  f_multi_2 : NLM_F_MULTI = 2;
  f_ack_4 : NLM_F_ACK = 4;
  f_dump_intr_16 : NLM_F_DUMP_INTR = 16;
  f_dump_768 : NLM_F_DUMP = 768;
  f_create_1024 : NLM_F_CREATE = 1024;
  f_append_2048 : NLM_F_APPEND = 2048;
  f_nested_15 : NLA_F_NESTED = 2 ^ 15;
  type_mask_14 : as_u16 NLA_TYPE_MASK = 2 ^ 14 - 1;
  nfnetlink_v0_0 : NFNETLINK_V0 = 0;
  subsys_10 : NFNL_SUBSYS_NFTABLES = 10;
  batch_begin_16 : NFNL_MSG_BATCH_BEGIN = 16;
  batch_end_17 : NFNL_MSG_BATCH_END = 17;
  ifnamsiz_16 : IFNAMSIZ = 16;
  msg_types : message_types
    [NFT_MSG_NEWTABLE; NFT_MSG_GETTABLE; NFT_MSG_DELTABLE; NFT_MSG_NEWCHAIN;
     NFT_MSG_GETCHAIN; NFT_MSG_DELCHAIN; NFT_MSG_NEWRULE; NFT_MSG_GETRULE;
     NFT_MSG_DELRULE; NFT_MSG_NEWSET; NFT_MSG_DELSET; NFT_MSG_NEWSETELEM;
     NFT_MSG_DELSETELEM];
  (** a protocol family is sent in one byte *)
  family_u8 : Forall u8_ok
    [NFPROTO_UNSPEC; NFPROTO_INET; NFPROTO_IPV4; NFPROTO_ARP; NFPROTO_NETDEV;
     NFPROTO_BRIDGE; NFPROTO_IPV6; NFPROTO_DECNET];
  ns_table : attr_namespace
    [NFTA_TABLE_NAME; NFTA_TABLE_FLAGS; NFTA_TABLE_USERDATA];
  ns_chain : attr_namespace
    [NFTA_CHAIN_TABLE; NFTA_CHAIN_NAME; NFTA_CHAIN_HOOK; NFTA_CHAIN_POLICY;
    NFTA_CHAIN_TYPE; NFTA_CHAIN_FLAGS; NFTA_CHAIN_USERDATA];
  ns_hook : attr_namespace
    [NFTA_HOOK_HOOKNUM; NFTA_HOOK_PRIORITY];
  ns_rule : attr_namespace
    [NFTA_RULE_TABLE; NFTA_RULE_CHAIN; NFTA_RULE_HANDLE; NFTA_RULE_EXPRESSIONS;
    NFTA_RULE_POSITION; NFTA_RULE_USERDATA; NFTA_RULE_ID];
  ns_set : attr_namespace
    [NFTA_SET_TABLE; NFTA_SET_NAME; NFTA_SET_FLAGS; NFTA_SET_KEY_TYPE; NFTA_SET_KEY_LEN;
    NFTA_SET_ID; NFTA_SET_USERDATA];
  ns_set_elem_list : attr_namespace
    [NFTA_SET_ELEM_LIST_TABLE; NFTA_SET_ELEM_LIST_SET; NFTA_SET_ELEM_LIST_ELEMENTS];
  ns_set_elem : attr_namespace
    [NFTA_SET_ELEM_KEY];
  ns_list : attr_namespace
    [NFTA_LIST_ELEM];
  ns_data : attr_namespace
    [NFTA_DATA_VALUE; NFTA_DATA_VERDICT];
  ns_verdict : attr_namespace
    [NFTA_VERDICT_CODE; NFTA_VERDICT_CHAIN; NFTA_VERDICT_CHAIN_ID];
  ns_expr : attr_namespace
    [NFTA_EXPR_NAME; NFTA_EXPR_DATA];
  ns_bitwise : attr_namespace
    [NFTA_BITWISE_SREG; NFTA_BITWISE_DREG; NFTA_BITWISE_LEN; NFTA_BITWISE_MASK;
    NFTA_BITWISE_XOR];
  ns_byteorder : attr_namespace
    [NFTA_BYTEORDER_SREG; NFTA_BYTEORDER_DREG; NFTA_BYTEORDER_OP; NFTA_BYTEORDER_LEN;
    NFTA_BYTEORDER_SIZE];
  ns_cmp : attr_namespace
    [NFTA_CMP_SREG; NFTA_CMP_OP; NFTA_CMP_DATA];
  ns_counter : attr_namespace
    [NFTA_COUNTER_BYTES; NFTA_COUNTER_PACKETS];
  ns_ct : attr_namespace
    [NFTA_CT_DREG; NFTA_CT_KEY; NFTA_CT_DIRECTION; NFTA_CT_SREG];
  ns_exthdr : attr_namespace
    [NFTA_EXTHDR_DREG; NFTA_EXTHDR_TYPE; NFTA_EXTHDR_OFFSET; NFTA_EXTHDR_LEN;
    NFTA_EXTHDR_FLAGS; NFTA_EXTHDR_OP; NFTA_EXTHDR_SREG];
  ns_immediate : attr_namespace
    [NFTA_IMMEDIATE_DREG; NFTA_IMMEDIATE_DATA];
  ns_log : attr_namespace
    [NFTA_LOG_GROUP; NFTA_LOG_PREFIX];
  ns_lookup : attr_namespace
    [NFTA_LOOKUP_SET; NFTA_LOOKUP_SREG; NFTA_LOOKUP_DREG; NFTA_LOOKUP_SET_ID];
  ns_meta : attr_namespace
    [NFTA_META_DREG; NFTA_META_KEY; NFTA_META_SREG];
  ns_nat : attr_namespace
    [NFTA_NAT_TYPE; NFTA_NAT_FAMILY; NFTA_NAT_REG_ADDR_MIN; NFTA_NAT_REG_PROTO_MIN];
  ns_payload : attr_namespace
    [NFTA_PAYLOAD_DREG; NFTA_PAYLOAD_BASE; NFTA_PAYLOAD_OFFSET; NFTA_PAYLOAD_LEN;
    NFTA_PAYLOAD_SREG];
  ns_reject : attr_namespace
    [NFTA_REJECT_TYPE; NFTA_REJECT_ICMP_CODE];
  ns_rt : attr_namespace
    [NFTA_RT_DREG; NFTA_RT_KEY];
  en_family : enumeration i32_ok
    [NFPROTO_UNSPEC; NFPROTO_INET; NFPROTO_IPV4; NFPROTO_ARP; NFPROTO_NETDEV;
    NFPROTO_BRIDGE; NFPROTO_IPV6; NFPROTO_DECNET];
  en_register : enumeration u32_ok
    [NFT_REG_VERDICT; NFT_REG_1; NFT_REG_2; NFT_REG_3; NFT_REG_4];
  en_verdict_type : enumeration i32_ok
    [NF_DROP; NF_ACCEPT; NF_QUEUE; NFT_CONTINUE; NFT_BREAK; NFT_JUMP; NFT_GOTO;
    NFT_RETURN];
  en_byteorder_op : enumeration u32_ok
    [NFT_BYTEORDER_NTOH; NFT_BYTEORDER_HTON];
  en_cmp_op : enumeration u32_ok
    [NFT_CMP_EQ; NFT_CMP_NEQ; NFT_CMP_LT; NFT_CMP_LTE; NFT_CMP_GT; NFT_CMP_GTE];
  en_ct_key : enumeration u32_ok
    [NFT_CT_STATE; NFT_CT_MARK];
  en_exthdr_op : enumeration u32_ok
    [NFT_EXTHDR_OP_IPV6; NFT_EXTHDR_OP_TCPOPT];
  en_meta_type : enumeration u32_ok
    [NFT_META_PROTOCOL; NFT_META_MARK; NFT_META_IIF; NFT_META_OIF; NFT_META_IIFNAME;
    NFT_META_OIFNAME; NFT_META_IIFTYPE; NFT_META_OIFTYPE; NFT_META_SKUID;
    NFT_META_SKGID; NFT_META_NFPROTO; NFT_META_L4PROTO; NFT_META_CGROUP;
    NFT_META_PRANDOM];
  en_nat_type : enumeration i32_ok
    [NFT_NAT_SNAT; NFT_NAT_DNAT];
  en_reject_type : enumeration u32_ok
    [NFT_REJECT_ICMP_UNREACH; NFT_REJECT_TCP_RST; NFT_REJECT_ICMPX_UNREACH];
  en_icmp_code : enumeration u8_ok
    [NFT_REJECT_ICMPX_NO_ROUTE; NFT_REJECT_ICMPX_PORT_UNREACH;
    NFT_REJECT_ICMPX_HOST_UNREACH; NFT_REJECT_ICMPX_ADMIN_PROHIBITED];
  en_rt_key : enumeration u32_ok
    [NFT_RT_CLASSID; NFT_RT_NEXTHOP4; NFT_RT_NEXTHOP6; NFT_RT_TCPMSS];
  en_payload_base : enumeration u32_ok
    [NFT_PAYLOAD_LL_HEADER; NFT_PAYLOAD_NETWORK_HEADER; NFT_PAYLOAD_TRANSPORT_HEADER];
  en_policy : enumeration i32_ok
    [NF_ACCEPT; NF_DROP] }.

(** ** Raw accesses *)
Section RawAccess.
Context {A : Type} {L : Layout A} {ok : A → Prop} {n : Z} `{LayoutLaws A L ok n} {E : Type}.

Lemma size_of_eq : size_of L = n.
Proof. apply layout_size. Qed.

Lemma size_nonneg (a : A) : 0 ≤ n.
Proof. pose proof (to_bytes_len (n := n) a) as <-. apply len_nonneg. Qed.

Lemma read_struct_app (a : A) rest :
  ok a → read_struct (E := E) L (to_bytes L a ++ rest) = Ok a.
Proof.
  intros. unfold read_struct. rewrite size_of_eq, len_app, (to_bytes_len (L := L)).
  pose proof (len_nonneg rest). ztest.
  rewrite take_app_len by (by rewrite (to_bytes_len (L := L))). f_equal.
  by apply of_to_bytes.
Qed.

Lemma read_struct_prefix buf :
  0 ≤ n ≤ len buf →
  read_struct (E := E) L buf = Ok (of_bytes L (take (Z.to_nat n) buf))
  ∧ ok (of_bytes L (take (Z.to_nat n) buf)).
Proof.
  intros. unfold read_struct. rewrite size_of_eq. ztest. split; [done|].
  apply of_bytes_ok. by rewrite len_take.
Qed.

Lemma write_struct_app (a : A) old rest :
  len old = n → write_struct (E := E) L (old ++ rest) a = Ok (to_bytes L a ++ rest).
Proof.
  intros Hl. unfold write_struct. rewrite size_of_eq, len_app, Hl.
  pose proof (len_nonneg rest). ztest. by rewrite drop_app_len.
Qed.

Lemma write_struct_exact (a : A) old :
  len old = n → write_struct (E := E) L old a = Ok (to_bytes L a).
Proof.
  intros Hl. pose proof (write_struct_app a old [] Hl) as Hw. by rewrite !app_nil_r in Hw.
Qed.
End RawAccess.

(** ** The Linux instance *)
Section Linux.
(** Little-endian or big-endian host. *)
Context (le : bool).

Definition int_bytes (n : nat) (z : Z) : bytes := if le then le_split n z else be_bytes n z.
Definition int_value (b : bytes) : Z := if le then le_combine b else be_value b.
Definition at_ (a n : nat) (b : bytes) : bytes := take n (drop a b).

Definition linux_nlmsghdr : Layout nlmsghdr := {|
  size_of := 16;
  to_bytes h := int_bytes 4 (nlmsg_len h) ++ int_bytes 2 (nlmsg_type h)
    ++ int_bytes 2 (nlmsg_flags h) ++ int_bytes 4 (nlmsg_seq h) ++ int_bytes 4 (nlmsg_pid h);
  of_bytes b := {| nlmsg_len := int_value (at_ 0 4 b); nlmsg_type := int_value (at_ 4 2 b);
    nlmsg_flags := int_value (at_ 6 2 b); nlmsg_seq := int_value (at_ 8 4 b);
    nlmsg_pid := int_value (at_ 12 4 b) |} |}.

Definition linux_nfgenmsg : Layout nfgenmsg := {|
  size_of := 4;
  to_bytes m := int_bytes 1 (nfgen_family m) ++ int_bytes 1 (version m)
    ++ int_bytes 2 (res_id m);
  of_bytes b := {| nfgen_family := int_value (at_ 0 1 b); version := int_value (at_ 1 1 b);
    res_id := int_value (at_ 2 2 b) |} |}.

Definition linux_nlattr : Layout nlattr := {|
  size_of := 4;
  to_bytes a := int_bytes 2 (nla_len a) ++ int_bytes 2 (nla_type a);
  of_bytes b := {| nla_len := int_value (at_ 0 2 b); nla_type := int_value (at_ 2 2 b) |} |}.

Definition linux_nlmsgerr : Layout nlmsgerr := {|
  size_of := 20;
  to_bytes e := int_bytes 4 (error e) ++ to_bytes linux_nlmsghdr (msg e);
  of_bytes b := {| error := as_i32 (int_value (at_ 0 4 b));
    msg := of_bytes linux_nlmsghdr (drop 4 b) |} |}.

Definition linux : Sys := {|
  declared_identifiers :=
    ["NFTA_TABLE_USERDATA"; "NFTA_CHAIN_USERDATA"; "NFTA_VERDICT_CHAIN_ID"]%string;
  sc_pagesize := 4096;
  nlmsghdr_layout := linux_nlmsghdr; nfgenmsg_layout := linux_nfgenmsg;
  nlattr_layout := linux_nlattr; nlmsgerr_layout := linux_nlmsgerr;
  NLMSG_ALIGNTO := 4; NLMSG_NOOP := 1; NLMSG_ERROR := 2; NLMSG_DONE := 3; NLMSG_MIN_TYPE
  := 16; NLM_F_REQUEST := 1; NLM_F_MULTI := 2; NLM_F_ACK := 4; NLM_F_DUMP_INTR := 16;
  NLM_F_DUMP := 768; NLM_F_CREATE := 1024; NLM_F_APPEND := 2048; NLA_F_NESTED := 32768;
  NLA_TYPE_MASK := -49153;
  NFNETLINK_V0 := 0; NFNL_SUBSYS_NFTABLES := 10; NFNL_MSG_BATCH_BEGIN := 16;
  NFNL_MSG_BATCH_END := 17;
  NFT_MSG_NEWTABLE := 0; NFT_MSG_GETTABLE := 1; NFT_MSG_DELTABLE := 2; NFT_MSG_NEWCHAIN
  := 3; NFT_MSG_GETCHAIN := 4; NFT_MSG_DELCHAIN := 5; NFT_MSG_NEWRULE := 6;
  NFT_MSG_GETRULE := 7; NFT_MSG_DELRULE := 8; NFT_MSG_NEWSET := 9; NFT_MSG_DELSET := 11;
  NFT_MSG_NEWSETELEM := 12; NFT_MSG_DELSETELEM := 14;
  NFTA_LIST_ELEM := 1; NFTA_TABLE_NAME := 1; NFTA_TABLE_FLAGS := 2; NFTA_TABLE_USERDATA
  := 6; NFTA_CHAIN_TABLE := 1; NFTA_CHAIN_NAME := 3; NFTA_CHAIN_HOOK := 4;
  NFTA_CHAIN_POLICY := 5; NFTA_CHAIN_TYPE := 7; NFTA_CHAIN_FLAGS := 10;
  NFTA_CHAIN_USERDATA := 12; NFTA_HOOK_HOOKNUM := 1; NFTA_HOOK_PRIORITY := 2;
  NFTA_RULE_TABLE := 1; NFTA_RULE_CHAIN := 2; NFTA_RULE_HANDLE := 3;
  NFTA_RULE_EXPRESSIONS := 4; NFTA_RULE_POSITION := 6; NFTA_RULE_USERDATA := 7;
  NFTA_RULE_ID := 9; NFTA_SET_TABLE := 1; NFTA_SET_NAME := 2; NFTA_SET_FLAGS := 3;
  NFTA_SET_KEY_TYPE := 4; NFTA_SET_KEY_LEN := 5; NFTA_SET_ID := 10; NFTA_SET_USERDATA :=
  13; NFTA_SET_ELEM_KEY := 1; NFTA_SET_ELEM_LIST_TABLE := 1; NFTA_SET_ELEM_LIST_SET :=
  2; NFTA_SET_ELEM_LIST_ELEMENTS := 3; NFTA_DATA_VALUE := 1; NFTA_DATA_VERDICT := 2;
  NFTA_VERDICT_CODE := 1; NFTA_VERDICT_CHAIN := 2; NFTA_VERDICT_CHAIN_ID := 3;
  NFTA_EXPR_NAME := 1; NFTA_EXPR_DATA := 2; NFTA_BITWISE_SREG := 1; NFTA_BITWISE_DREG :=
  2; NFTA_BITWISE_LEN := 3; NFTA_BITWISE_MASK := 4; NFTA_BITWISE_XOR := 5;
  NFTA_BYTEORDER_SREG := 1; NFTA_BYTEORDER_DREG := 2; NFTA_BYTEORDER_OP := 3;
  NFTA_BYTEORDER_LEN := 4; NFTA_BYTEORDER_SIZE := 5; NFTA_CMP_SREG := 1; NFTA_CMP_OP :=
  2; NFTA_CMP_DATA := 3; NFTA_COUNTER_BYTES := 1; NFTA_COUNTER_PACKETS := 2;
  NFTA_CT_DREG := 1; NFTA_CT_KEY := 2; NFTA_CT_DIRECTION := 3; NFTA_CT_SREG := 4;
  NFTA_EXTHDR_DREG := 1; NFTA_EXTHDR_TYPE := 2; NFTA_EXTHDR_OFFSET := 3; NFTA_EXTHDR_LEN
  := 4; NFTA_EXTHDR_FLAGS := 5; NFTA_EXTHDR_OP := 6; NFTA_EXTHDR_SREG := 7;
  NFTA_IMMEDIATE_DREG := 1; NFTA_IMMEDIATE_DATA := 2; NFTA_LOG_GROUP := 1;
  NFTA_LOG_PREFIX := 2; NFTA_LOOKUP_SET := 1; NFTA_LOOKUP_SREG := 2; NFTA_LOOKUP_DREG :=
  3; NFTA_LOOKUP_SET_ID := 4; NFTA_META_DREG := 1; NFTA_META_KEY := 2; NFTA_META_SREG :=
  3; NFTA_NAT_TYPE := 1; NFTA_NAT_FAMILY := 2; NFTA_NAT_REG_ADDR_MIN := 3;
  NFTA_NAT_REG_PROTO_MIN := 5; NFTA_PAYLOAD_DREG := 1; NFTA_PAYLOAD_BASE := 2;
  NFTA_PAYLOAD_OFFSET := 3; NFTA_PAYLOAD_LEN := 4; NFTA_PAYLOAD_SREG := 5;
  NFTA_REJECT_TYPE := 1; NFTA_REJECT_ICMP_CODE := 2; NFTA_RT_DREG := 1; NFTA_RT_KEY :=
  2;
  NFT_REG_VERDICT := 0; NFT_REG_1 := 1; NFT_REG_2 := 2; NFT_REG_3 := 3; NFT_REG_4 := 4;
  NFT_BYTEORDER_NTOH := 0; NFT_BYTEORDER_HTON := 1; NFT_CMP_EQ := 0; NFT_CMP_NEQ := 1;
  NFT_CMP_LT := 2; NFT_CMP_LTE := 3; NFT_CMP_GT := 4; NFT_CMP_GTE := 5; NFT_CT_STATE :=
  0; NFT_CT_MARK := 3; NFT_EXTHDR_OP_IPV6 := 0; NFT_EXTHDR_OP_TCPOPT := 1;
  NFT_META_PROTOCOL := 1; NFT_META_MARK := 3; NFT_META_IIF := 4; NFT_META_OIF := 5;
  NFT_META_IIFNAME := 6; NFT_META_OIFNAME := 7; NFT_META_IIFTYPE := 8; NFT_META_OIFTYPE
  := 9; NFT_META_SKUID := 10; NFT_META_SKGID := 11; NFT_META_NFPROTO := 15;
  NFT_META_L4PROTO := 16; NFT_META_CGROUP := 23; NFT_META_PRANDOM := 24; NFT_NAT_SNAT :=
  0; NFT_NAT_DNAT := 1; NFT_PAYLOAD_LL_HEADER := 0; NFT_PAYLOAD_NETWORK_HEADER := 1;
  NFT_PAYLOAD_TRANSPORT_HEADER := 2; NFT_REJECT_ICMP_UNREACH := 0; NFT_REJECT_TCP_RST :=
  1; NFT_REJECT_ICMPX_UNREACH := 2; NFT_REJECT_ICMPX_NO_ROUTE := 0;
  NFT_REJECT_ICMPX_PORT_UNREACH := 1; NFT_REJECT_ICMPX_HOST_UNREACH := 2;
  NFT_REJECT_ICMPX_ADMIN_PROHIBITED := 3; NFT_RT_CLASSID := 0; NFT_RT_NEXTHOP4 := 1;
  NFT_RT_NEXTHOP6 := 2; NFT_RT_TCPMSS := 3; NFT_CONTINUE := -1; NFT_BREAK := -2;
  NFT_JUMP := -3; NFT_GOTO := -4; NFT_RETURN := -5;
  NF_DROP := 0; NF_ACCEPT := 1; NF_QUEUE := 3; NF_INET_PRE_ROUTING := 0;
  NF_INET_LOCAL_IN := 1; NF_INET_FORWARD := 2; NF_INET_LOCAL_OUT := 3;
  NF_INET_POST_ROUTING := 4; NFPROTO_UNSPEC := 0; NFPROTO_INET := 1; NFPROTO_IPV4 := 2;
  NFPROTO_ARP := 3; NFPROTO_NETDEV := 5; NFPROTO_BRIDGE := 7; NFPROTO_IPV6 := 10;
  NFPROTO_DECNET := 12; IPPROTO_ICMP := 1; IPPROTO_IGMP := 2; IPPROTO_TCP := 6;
  IPPROTO_UDP := 17; IPPROTO_ICMPV6 := 58; IFNAMSIZ := 16 |}.

Lemma len_int_bytes n z : len (int_bytes n z) = Z.of_nat n.
Proof.
  unfold int_bytes. destruct le; [|apply len_be_bytes].
  unfold len. by rewrite length_le_split.
Qed.

Lemma int_value_bytes n z : 0 ≤ z < 2 ^ (Z.of_nat n * 8) → int_value (int_bytes n z) = z.
Proof.
  intros. unfold int_value, int_bytes.
  destruct le; [rewrite le_combine_split|rewrite be_value_bytes]; by apply Z.mod_small.
Qed.

Lemma int_bytes_value n b : length b = n → int_bytes n (int_value b) = b.
Proof.
  intros <-. unfold int_value, int_bytes.
  destruct le; [apply split_le_combine|apply be_bytes_value].
Qed.

Lemma int_bytes_as_i32 z : int_bytes 4 (as_i32 z) = int_bytes 4 z.
Proof.
  assert (as_i32 z mod 2 ^ 32 = z mod 2 ^ 32) as Heq.
  { unfold as_i32. rewrite Zminus_mod_idemp_l. f_equal. lia. }
  unfold int_bytes, be_bytes.
  destruct le; [|f_equal]; rewrite (le_split_mod z 4), (le_split_mod (as_i32 z) 4);
    change (Z.of_nat 4 * 8) with 32; by rewrite Heq.
Qed.

Lemma int_value_range b : 0 ≤ int_value b < 2 ^ (8 * len b).
Proof.
  unfold int_value, be_value, len.
  destruct le; [|rewrite <- (length_rev b)]; apply le_combine_bound.
Qed.
End Linux.

(** *** The laws of the Linux layouts *)
Section LinuxLayouts.
Context (le : bool).

(** Spell a byte list of known length out. *)
Ltac spell b :=
  repeat (destruct b as [|? b]; [discriminate|]);
  destruct b; [|discriminate].

(** Replace the bytes of each integer by as many unknown bytes of that value. *)
Ltac spell_ints :=
  repeat match goal with
  | |- context [int_bytes le ?n ?z] =>
      let b := fresh "b" in
      let Hval := fresh "Hval" in
      assert (Hlen : length (int_bytes le n z) = n)
        by (pose proof (len_int_bytes le n z); unfold len in *; lia);
      pose proof (int_value_bytes le n z) as Hval;
      generalize dependent (int_bytes le n z); intros b Hlen Hval;
      spell b; clear Hlen
  end.

Ltac layout_of_to :=
  unfold nlmsghdr_ok, nfgenmsg_ok, nlattr_ok; intros [] H;
  cbn -[int_bytes int_value Z.pow] in H |- *; spell_ints;
  cbn -[int_value]; destruct_and?; f_equal;
  match goal with Hval : _ → _ = ?z |- _ = ?z => apply Hval; assumption end.

Ltac layout_to_of :=
  intros b Hb; assert (Hl : length b = Z.to_nat (len b)) by (unfold len; lia);
  rewrite Hb in Hl; simpl in Hl; clear Hb; spell b;
  cbn -[int_bytes int_value]; rewrite ?int_bytes_value by done; done.

Ltac layout_ok :=
  intros b Hb; assert (Hl : length b = Z.to_nat (len b)) by (unfold len; lia);
  rewrite Hb in Hl; simpl in Hl; clear Hb; spell b;
  cbn -[int_value]; repeat first [exact (int_value_range le _) | apply conj].

#[local] Instance linux_nlmsghdr_laws : LayoutLaws (linux_nlmsghdr le) nlmsghdr_ok 16.
Proof.
  split; [done| |layout_of_to|layout_to_of|layout_ok].
  intros. cbn -[int_bytes]. by rewrite !len_app, !len_int_bytes.
Qed.

#[local] Instance linux_nfgenmsg_laws : LayoutLaws (linux_nfgenmsg le) nfgenmsg_ok 4.
Proof.
  split; [done| |layout_of_to|layout_to_of|layout_ok].
  intros. cbn -[int_bytes]. by rewrite !len_app, !len_int_bytes.
Qed.

#[local] Instance linux_nlattr_laws : LayoutLaws (linux_nlattr le) nlattr_ok 4.
Proof.
  split; [done| |layout_of_to|layout_to_of|layout_ok].
  intros. cbn -[int_bytes]. by rewrite !len_app, !len_int_bytes.
Qed.

#[local] Instance linux_nlmsgerr_laws : LayoutLaws (linux_nlmsgerr le) nlmsgerr_ok 20.
Proof.
  split; [done| | | |].
  - intros. cbn -[int_bytes linux_nlmsghdr]. rewrite len_app, len_int_bytes.
    by rewrite (to_bytes_len (L := linux_nlmsghdr le)).
  - intros [e h] [He Hh]. cbn -[linux_nlmsghdr int_bytes int_value] in *. unfold at_.
    rewrite drop_0, take_app_length', drop_app_length'
      by (pose proof (len_int_bytes le 4 e); unfold len in *; lia).
    f_equal; [|by apply of_to_bytes].
    assert (int_value le (int_bytes le 4 e) = e mod 2 ^ 32) as ->.
    { unfold int_value, int_bytes. destruct le; [apply le_combine_split|apply be_value_bytes]. }
    unfold i32_ok, as_i32 in *. rewrite Zplus_mod_idemp_l, Z.mod_small; lia.
  - intros b Hb. cbn -[linux_nlmsghdr int_bytes int_value].
    rewrite (to_of_bytes (L := linux_nlmsghdr le)) by (unfold len in *; rewrite length_drop; lia).
    assert (int_bytes le 4 (as_i32 (int_value le (at_ 0 4 b))) = at_ 0 4 b) as ->;
      [|unfold at_; rewrite drop_0; apply take_drop].
    rewrite int_bytes_as_i32. apply int_bytes_value. unfold at_, len in *.
    rewrite length_take, length_drop. lia.
  - intros b Hb. split; cbn -[linux_nlmsghdr int_value].
    + unfold i32_ok, as_i32. pose proof (Z.mod_pos_bound
        (int_value le (at_ 0 4 b) + 2 ^ 31) (2 ^ 32)). lia.
    + apply (of_bytes_ok (L := linux_nlmsghdr le)). unfold len in *. rewrite length_drop. lia.
Qed.

(** The Linux headers meet everything the code relies on. *)
#[local] Instance linux_laws : SysLaws (linux le).
Proof.
  split; try exact _; try done; try (by destruct le);
    repeat split; cbn; try done; try (by apply (bool_decide_unpack _); vm_compute);
    repeat constructor; done.
Qed.
End LinuxLayouts.
