(* ===== verification/Errors.v ===== *)
(** * The error types of [src/error.rs]

    One constructor per variant, with the variant's payload.  A [FromUtf8Error]
    holds the bytes that failed to decode, a [nix::Error] an errno. *)

From S2P Require Import Prelude Sys.
Local Open Scope Z_scope.

Inductive DecodeError :=
  | BufTooSmall
  | NlMsgTooSmall
  | InvalidDataSize
  | InvalidSubsystem (subsys : Z)
  | InvalidVersion (v : Z)
  | InvalidPortId (id : Z)
  | InvalidSeq (seq : Z)
  | ConcurrentGenerationUpdate
  | UnsupportedType (ty : Z)
  | InvalidAttributeType
  | UnknownChainType
  | UnknownChainPolicy
  | UnknownMetaType (v : Z)
  | UnknownRejectType (v : Z)
  | UnknownRtKey (v : Z)
  | UnknownIcmpCode (v : Z)
  | UnknownRegister (v : Z)
  | UnknownVerdictType (v : Z)
  | UnknownNatType (v : Z)
  | UnknownPayloadType (v : Z)
  | UnknownByteorderOp (v : Z)
  | UnknownCmpOp (v : Z)
  | UnknownConntrackKey (v : Z)
  | UnknownExtHdrOp (v : Z)
  | UnknownLinkLayerHeaderField (offset field_len : Z)
  | UnknownIPv4HeaderField (offset field_len : Z)
  | UnknownIPv6HeaderField (offset field_len : Z)
  | UnknownTCPHeaderField (offset field_len : Z)
  | UnknownUDPHeaderField (offset field_len : Z)
  | UnknownICMPv6HeaderField (offset field_len : Z)
  | PayloadMissingBase
  | PayloadMissingOffset
  | PayloadMissingLen
  | MissingExpressionName
  | UnsupportedAttributeType (ty : Z)
  | UnexpectedType (ty : Z)
  | StringDecodeFailure (raw : bytes)
  | UnknownProtocolFamily (v : Z).

Inductive BuilderError :=
  | IncompatibleLength
  | MissingTableName
  | MissingChainInformationError
  | MissingSetName
  | InterfaceNameTooLong
  | TooLongLogPrefix.

Inductive QueryError :=
  | NetlinkOpenError (errno : Z)
  | NetlinkSendError (errno : Z)
  | NetlinkRecvError (errno : Z)
  | ProcessNetlinkError (e : DecodeError)
  | QueryBuilderError (e : BuilderError)
  | NetlinkError (e : nlmsgerr)
  | NetlinkAllocationFailed
  | NotNetlinkSocket
  | RetrievingSocketInfoFailed
  | TruncatedSend
  | UndecidableMessageTermination
  | CloseFailed (errno : Z).

#[global] Instance DecodeError_eq_dec : EqDecision DecodeError.
Proof. solve_decision. Defined.
#[global] Instance BuilderError_eq_dec : EqDecision BuilderError.
Proof. solve_decision. Defined.
#[global] Instance QueryError_eq_dec : EqDecision QueryError.
Proof. solve_decision. Defined.
