(* ===== verification/Lib.v ===== *)
(** * The crate's shared enumerations, [src/lib.rs] *)

From S2P Require Import Prelude Sys.
Local Open Scope Z_scope.

(** What to do with the object of a message. *)
Inductive MsgType := Add | Del.

Inductive ProtocolFamily :=
  | Unspec | Inet | Ipv4 | Arp | NetDev | Bridge | Ipv6 | DecNet.

Definition ProtocolFamily_default : ProtocolFamily := Unspec.

Section Discriminants.
Context `{Sys}.

(** The discriminants the enumeration is declared with. *)
Definition ProtocolFamily_value (f : ProtocolFamily) : Z :=
  match f with
  | Unspec => NFPROTO_UNSPEC
  | Inet => NFPROTO_INET
  | Ipv4 => NFPROTO_IPV4
  | Arp => NFPROTO_ARP
  | NetDev => NFPROTO_NETDEV
  | Bridge => NFPROTO_BRIDGE
  | Ipv6 => NFPROTO_IPV6
  | DecNet => NFPROTO_DECNET
  end.
End Discriminants.

#[global] Instance MsgType_eq_dec : EqDecision MsgType.
Proof. solve_decision. Defined.
#[global] Instance ProtocolFamily_eq_dec : EqDecision ProtocolFamily.
Proof. solve_decision. Defined.
