(* ===== verification/Nlmsg.v ===== *)
(** * Message framing: [src/nlmsg.rs]

    Alignment, the three traits through which the rest of the crate serializes and
    parses, and [NfNetlinkWriter], which lays messages out in a growing buffer.  A
    [&mut] slice handed to a callee is modelled by the buffer going in and the
    updated buffer coming out. *)

From S2P Require Import Prelude Sys Errors Lib.
Local Open Scope Z_scope.

Section Framing.
Context `{Sys}.

(** [u16::MAX] plus the page size, a [u32] addition far from its bound. *)
Definition nft_nlmsg_maxsize : Z := as_u32 (2 ^ 16 - 1 + as_u32 sc_pagesize).

(** Bitwise negation at the width of [usize]. *)
Definition not_usize (z : Z) : Z := Z.lxor z (2 ^ 64 - 1).

(** The callers' sizes are lengths of buffers and values of 32-bit fields, so the
    addition stays in range and is written with its wrap-around. *)
Definition pad_netlink_object_with_variable_size (size : Z) : Z :=
  Z.land (wrap_usize (size + (NLMSG_ALIGNTO - 1))) (not_usize (NLMSG_ALIGNTO - 1)).

Definition pad_netlink_object {A : Type} (L : Layout A) : Z :=
  pad_netlink_object_with_variable_size (size_of L).

Definition get_subsystem_from_nlmsghdr_type (x : Z) : Z :=
  as_u8 (Z.shiftr (Z.land x 0xff00) 8).

Definition get_operation_from_nlmsghdr_type (x : Z) : Z := as_u8 (Z.land x 0x00ff).
End Framing.

(** ** The traits *)

(** A value that can be written as the payload of an attribute.  [write_payload]
    writes to the front of the buffer it is given. *)
Class NfNetlinkAttribute (A : Type) := {
  is_nested : A → bool;
  get_size : A → Z;
  write_payload : A → bytes → outcome Empty_set bytes }.

Class NfNetlinkDeserializable (A : Type) := {
  deserialize : bytes → outcome DecodeError (A * bytes) }.

(** [decode_attribute] updates [self] only when it returns [Ok]: the updated value
    is its result. *)
Class AttributeDecoder (A : Type) := {
  decode_attribute : A → Z → bytes → outcome DecodeError A }.

(** A top-level object.  The default methods of the trait are the default values of
    [get_add_flags] and [get_del_flags] below. *)
Class NfNetlinkObject (A : Type) := {
  MSG_TYPE_ADD : Z;
  MSG_TYPE_DEL : Z;
  get_family : A → ProtocolFamily;
  set_family : ProtocolFamily → A → A;
  get_add_flags : A → Z;
  get_del_flags : A → Z }.

Definition default_add_flags `{Sys} : Z := NLM_F_CREATE.
Definition default_del_flags : Z := 0.

Definition with_family {A : Type} `{NfNetlinkObject A} (self : A) (family : ProtocolFamily) : A :=
  set_family family self.

(** ** The writer *)

(** The buffer, and the positions of the [nlmsghdr] and [nfgenmsg] of the object
    being written. *)
Record NfNetlinkWriter := {
  buf : bytes;
  headers : option (Z * Z) }.

Section Writer.
Context `{BuildProfile} `{Sys}.

Definition NfNetlinkWriter_new (b : bytes) : NfNetlinkWriter := {| buf := b; headers := None |}.

(** Store [b] back at position [start] of [base]: the end of a [&mut] borrow. *)
Definition splice (base : bytes) (start : Z) (b : bytes) : bytes :=
  take (Z.to_nat start) base ++ b ++ drop (Z.to_nat (start + len b)) base.

(** The slice [buf[start..start + size]] that the method returns is given by
    [start]. *)
Definition add_data_zeroed (w : NfNetlinkWriter) (size : Z)
    : outcome Empty_set (NfNetlinkWriter * Z) :=
  let padded_size := pad_netlink_object_with_variable_size size in
  let start := len (buf w) in
  let b := buf w ++ zeros padded_size in
  match headers w with
  | Some (msghdr_idx, _) =>
      tail ← slice_from b msghdr_idx;
      hdr ← read_struct nlmsghdr_layout tail;
      l ← u32_add (nlmsg_len hdr) (as_u32 padded_size);
      tail' ← write_struct nlmsghdr_layout tail
        {| nlmsg_len := l; nlmsg_type := nlmsg_type hdr; nlmsg_flags := nlmsg_flags hdr;
           nlmsg_seq := nlmsg_seq hdr; nlmsg_pid := nlmsg_pid hdr |};
      Ok ({| buf := splice b msghdr_idx tail'; headers := headers w |}, start)
  | None => Ok ({| buf := b; headers := None |}, start)
  end.

(** Run [write] on the slice of [size] bytes at [start]. *)
Definition with_slice (w : NfNetlinkWriter) (start size : Z)
    (write : bytes → outcome Empty_set bytes) : outcome Empty_set NfNetlinkWriter :=
  s ← slice (buf w) start (start + size);
  s' ← write s;
  Ok {| buf := splice (buf w) start s'; headers := headers w |}.

Definition is_batch_type (msg_type : Z) : bool :=
  (msg_type =? as_u16 NFNL_MSG_BATCH_BEGIN) || (msg_type =? as_u16 NFNL_MSG_BATCH_END).

(** Calling it with headers still open is only logged, as in the source. *)
Definition write_header (w : NfNetlinkWriter) (msg_type : Z) (family : ProtocolFamily)
    (flags seq : Z) (ressource_id : option Z) : outcome Empty_set NfNetlinkWriter :=
  let nlmsghdr_len := pad_netlink_object nlmsghdr_layout in
  let nfgenmsg_len := pad_netlink_object nfgenmsg_layout in
  '(w, start) ← add_data_zeroed w nlmsghdr_len;
  w ← with_slice w start nlmsghdr_len (λ nlmsghdr_buf,
    hdr ← read_struct nlmsghdr_layout nlmsghdr_buf;
    write_struct nlmsghdr_layout nlmsghdr_buf
      {| nlmsg_len := as_u32 (nlmsghdr_len + nfgenmsg_len);
         nlmsg_type := if is_batch_type msg_type then msg_type
           else Z.lor msg_type (as_u16 (Z.shiftl (as_u16 NFNL_SUBSYS_NFTABLES) 8));
         nlmsg_flags := Z.lor (as_u16 NLM_F_REQUEST) flags;
         nlmsg_seq := seq;
         nlmsg_pid := nlmsg_pid hdr |});
  '(w, start) ← add_data_zeroed w nfgenmsg_len;
  w ← with_slice w start nfgenmsg_len (λ nfgenmsg_buf,
    write_struct nfgenmsg_layout nfgenmsg_buf
      {| nfgen_family := as_u8 (ProtocolFamily_value family);
         version := as_u8 NFNETLINK_V0;
         res_id := default 0 ressource_id |});
  Ok {| buf := buf w;
        headers := Some (len (buf w) - (nlmsghdr_len + nfgenmsg_len),
                         len (buf w) - nfgenmsg_len) |}.

Definition finalize_writing_object (w : NfNetlinkWriter) : NfNetlinkWriter :=
  {| buf := buf w; headers := None |}.

Definition add_or_remove {A : Type} `{NfNetlinkObject A, NfNetlinkAttribute A}
    (self : A) (w : NfNetlinkWriter) (msg_type : MsgType) (seq : Z)
    : outcome Empty_set NfNetlinkWriter :=
  let raw_msg_type := as_u16 (match msg_type with
    | Add => MSG_TYPE_ADD
    | Del => MSG_TYPE_DEL
    end) in
  let flags := as_u16 (Z.lor (match msg_type with
    | Add => get_add_flags self
    | Del => get_del_flags self
    end) NLM_F_ACK) in
  w ← write_header w raw_msg_type (get_family self) flags seq None;
  '(w, start) ← add_data_zeroed w (get_size self);
  w ← with_slice w start (get_size self) (write_payload self);
  Ok (finalize_writing_object w).
End Writer.

#[global] Arguments pad_netlink_object_with_variable_size : simpl never.
#[global] Arguments pad_netlink_object : simpl never.
#[global] Arguments add_data_zeroed : simpl never.
#[global] Arguments with_slice : simpl never.
#[global] Arguments write_header : simpl never.

(** ** Alignment *)
Section Alignment.
Context `{SysLaws}.

Lemma land_not_3 x : 0 ≤ x < 2 ^ 64 → Z.land x (2 ^ 64 - 4) = 4 * (x / 4).
Proof.
  intros Hx. change (2 ^ 64 - 4) with (Z.ldiff (Z.ones 64) (Z.ones 2)).
  transitivity (Z.ldiff x (Z.ones 2)).
  - rewrite <- (Z.mod_small x (2 ^ 64)) at 2 by lia. rewrite <- Z.land_ones by lia.
    apply Z.bits_inj'. intros n Hn. rewrite !Z.land_spec, !Z.ldiff_spec, Z.land_spec. btauto.
  - rewrite Z.ldiff_ones_r, Z.shiftl_mul_pow2, Z.shiftr_div_pow2 by lia.
    change (2 ^ 2) with 4. lia.
Qed.

(** Alignment rounds up to a multiple of four. *)
Lemma pad_eq s :
  0 ≤ s < 2 ^ 64 - 3 →
  pad_netlink_object_with_variable_size s = 4 * ((s + 3) / 4).
Proof.
  intros. unfold pad_netlink_object_with_variable_size, wrap_usize.
  rewrite alignto_4, Z.mod_small by lia. change (not_usize (4 - 1)) with (2 ^ 64 - 4).
  apply land_not_3. lia.
Qed.

Lemma pad_bounds s :
  0 ≤ s < 2 ^ 64 - 3 → s ≤ pad_netlink_object_with_variable_size s < s + 4.
Proof. intros. rewrite pad_eq by done. Z.div_mod_to_equations. lia. Qed.

Lemma pad_mod s :
  0 ≤ s < 2 ^ 64 - 3 → pad_netlink_object_with_variable_size s mod 4 = 0.
Proof. intros. rewrite pad_eq by done. Z.div_mod_to_equations. lia. Qed.

Lemma pad_aligned s :
  0 ≤ s < 2 ^ 64 - 3 → s mod 4 = 0 → pad_netlink_object_with_variable_size s = s.
Proof. intros. rewrite pad_eq by done. Z.div_mod_to_equations. lia. Qed.

Lemma pad_add_4 s :
  0 ≤ s < 2 ^ 64 - 7 →
  pad_netlink_object_with_variable_size (4 + s)
  = 4 + pad_netlink_object_with_variable_size s.
Proof. intros. rewrite !pad_eq by lia. Z.div_mod_to_equations. lia. Qed.

Lemma pad_nlattr : pad_netlink_object nlattr_layout = 4.
Proof.
  unfold pad_netlink_object. rewrite (layout_size (L := nlattr_layout)). by apply pad_aligned.
Qed.

Lemma pad_nlmsghdr : pad_netlink_object nlmsghdr_layout = 16.
Proof.
  unfold pad_netlink_object. rewrite (layout_size (L := nlmsghdr_layout)). by apply pad_aligned.
Qed.

Lemma pad_nfgenmsg : pad_netlink_object nfgenmsg_layout = 4.
Proof.
  unfold pad_netlink_object. rewrite (layout_size (L := nfgenmsg_layout)). by apply pad_aligned.
Qed.
End Alignment.

(** Bounds of every alignment in the context. *)
Ltac pad_facts :=
  repeat match goal with
  | |- context [pad_netlink_object_with_variable_size ?s] =>
      lazymatch goal with
      | _ : s ≤ pad_netlink_object_with_variable_size s < s + 4 |- _ => fail
      | _ => assert (s ≤ pad_netlink_object_with_variable_size s < s + 4)
               by (apply pad_bounds; lia)
      end
  | _ : context [pad_netlink_object_with_variable_size ?s] |- _ =>
      lazymatch goal with
      | _ : s ≤ pad_netlink_object_with_variable_size s < s + 4 |- _ => fail
      | _ => assert (s ≤ pad_netlink_object_with_variable_size s < s + 4)
               by (apply pad_bounds; lia)
      end
  end.

(** ** Abstract view of serialization

    [encode a] is what [write_payload] leaves in a zeroed buffer of [get_size a]
    bytes.  A value is [writable] when it fills exactly those bytes, leaves what
    follows them alone and never leaves the buffer; it [roundtrips] when parsing its
    encoding gives it back and consumes everything. *)
Section Encoding.
Context {A : Type} `{NfNetlinkAttribute A}.

Definition encode (a : A) : bytes :=
  match write_payload a (zeros (get_size a)) with Ok b => b | _ => [] end.

Definition writable (a : A) : Prop :=
  0 ≤ get_size a ∧ len (encode a) = get_size a
  ∧ ∀ rest, write_payload a (zeros (get_size a) ++ rest) = Ok (encode a ++ rest).

Definition roundtrips `{NfNetlinkDeserializable A} (a : A) : Prop :=
  deserialize (encode a) = Ok (a, []).

(** It is enough to give the bytes. *)
Lemma writable_intro (a : A) (b : bytes) :
  0 ≤ get_size a → len b = get_size a →
  (∀ rest, write_payload a (zeros (get_size a) ++ rest) = Ok (b ++ rest)) →
  writable a ∧ encode a = b.
Proof.
  intros Hs Hb Hw.
  assert (encode a = b) as He.
  { unfold encode. pose proof (Hw []) as Hn. rewrite !app_nil_r in Hn. by rewrite Hn. }
  split; [|done]. unfold writable. rewrite He. done.
Qed.
End Encoding.

(** ** The writer lays messages out one after the other *)
Section WriterLemmas.
Context `{BuildProfile} `{SysLaws}.

Lemma splice_app (pre old new post : bytes) :
  len old = len new →
  splice (pre ++ old ++ post) (len pre) new = pre ++ new ++ post.
Proof.
  intros Hl. unfold splice. rewrite take_app_len by done. f_equal. f_equal.
  rewrite app_assoc. apply drop_app_len. rewrite len_app. lia.
Qed.

Lemma with_slice_app (pre old new post : bytes) h start size write :
  start = len pre → size = len old → len old = len new → write old = Ok new →
  with_slice {| buf := pre ++ old ++ post; headers := h |} start size write
  = Ok {| buf := pre ++ new ++ post; headers := h |}.
Proof.
  intros -> -> Hl Hw. unfold with_slice. simpl.
  rewrite slice_suffix; [|apply len_nonneg|pose proof (len_nonneg old); lia|].
  - rewrite drop_app_len, Z.add_simpl_l, take_app_len by done. simpl. rewrite Hw. simpl.
    by rewrite splice_app.
  - rewrite !len_app. pose proof (len_nonneg post). lia.
Qed.

Lemma add_data_zeroed_closed b size :
  add_data_zeroed {| buf := b; headers := None |} size
  = Ok ({| buf := b ++ zeros (pad_netlink_object_with_variable_size size); headers := None |},
        len b).
Proof. done. Qed.

(** Inside an object, its header's length grows with the data. *)
Lemma add_data_zeroed_open (pre post : bytes) (h : nlmsghdr) size j :
  nlmsghdr_ok h → 0 ≤ size →
  nlmsg_len h + pad_netlink_object_with_variable_size size < 2 ^ 32 →
  size < 2 ^ 64 - 3 →
  add_data_zeroed
    {| buf := pre ++ to_bytes nlmsghdr_layout h ++ post; headers := Some (len pre, j) |} size
  = Ok ({| buf := pre
             ++ to_bytes nlmsghdr_layout
                  {| nlmsg_len := nlmsg_len h + pad_netlink_object_with_variable_size size;
                     nlmsg_type := nlmsg_type h; nlmsg_flags := nlmsg_flags h;
                     nlmsg_seq := nlmsg_seq h; nlmsg_pid := nlmsg_pid h |}
             ++ post ++ zeros (pad_netlink_object_with_variable_size size);
           headers := Some (len pre, j) |},
        len pre + 16 + len post).
Proof.
  intros Hh Hs Hl Hb. pad_facts.
  assert (0 ≤ nlmsg_len h) by apply Hh.
  unfold add_data_zeroed. simpl. rewrite <- !app_assoc.
  rewrite slice_from_app by done. simpl. rewrite read_struct_app by done. simpl.
  rewrite as_u32_small, u32_add_small by lia. simpl.
  rewrite (write_struct_app (n := 16)) by apply to_bytes_len. simpl.
  do 2 f_equal; [f_equal|].
  - set (h' := Build_nlmsghdr _ _ _ _ _). set (rest := post ++ _).
    rewrite <- (app_nil_r (to_bytes nlmsghdr_layout h ++ rest)). rewrite splice_app.
    + by rewrite app_nil_r.
    + rewrite !len_app. by rewrite !(to_bytes_len (L := nlmsghdr_layout)).
  - rewrite !len_app, (to_bytes_len (L := nlmsghdr_layout)). lia.
Qed.

(** The header a message starts with. *)
Definition header_type (msg_type : Z) : Z :=
  if is_batch_type msg_type then msg_type
  else Z.lor msg_type (as_u16 (Z.shiftl (as_u16 NFNL_SUBSYS_NFTABLES) 8)).

Definition message_header (l msg_type flags seq : Z) : nlmsghdr :=
  {| nlmsg_len := l; nlmsg_type := header_type msg_type;
     nlmsg_flags := Z.lor (as_u16 NLM_F_REQUEST) flags; nlmsg_seq := seq; nlmsg_pid := 0 |}.

Definition message_genmsg (family : ProtocolFamily) (ressource_id : option Z) : nfgenmsg :=
  {| nfgen_family := as_u8 (ProtocolFamily_value family); version := as_u8 NFNETLINK_V0;
     res_id := default 0 ressource_id |}.

Definition message (hdr : nlmsghdr) (gen : nfgenmsg) (payload : bytes) : bytes :=
  to_bytes nlmsghdr_layout hdr ++ to_bytes nfgenmsg_layout gen ++ payload.

Lemma len_message hdr gen payload : len (message hdr gen payload) = 20 + len payload.
Proof.
  unfold message. rewrite !len_app, (to_bytes_len (L := nlmsghdr_layout)),
    (to_bytes_len (L := nfgenmsg_layout)). lia.
Qed.

Lemma write_header_closed b msg_type family flags seq rid :
  write_header {| buf := b; headers := None |} msg_type family flags seq rid
  = Ok {| buf := b ++ message (message_header 20 msg_type flags seq)
                              (message_genmsg family rid) [];
          headers := Some (len b, len b + 16) |}.
Proof.
  unfold write_header. rewrite pad_nlmsghdr, pad_nfgenmsg.
  rewrite add_data_zeroed_closed, pad_aligned by done. obind.
  rewrite <- (app_nil_r (b ++ zeros 16)), <- app_assoc.
  rewrite (with_slice_app _ _ (to_bytes nlmsghdr_layout (message_header 20 msg_type flags seq)));
    [|done|done|by rewrite (to_bytes_len (L := nlmsghdr_layout))|].
  2: { rewrite (proj1 (read_struct_prefix (ok := nlmsghdr_ok) (n := 16) (zeros 16) ltac:(done))).
       simpl. change (take _ (zeros 16)) with (zeros 16). rewrite nlmsghdr_zeros. simpl.
       by rewrite (write_struct_exact (n := 16)). }
  obind. rewrite !app_nil_r, add_data_zeroed_closed, pad_aligned by done. obind.
  set (b1 := b ++ to_bytes _ _).
  rewrite <- (app_nil_r (b1 ++ zeros 4)), <- app_assoc.
  rewrite (with_slice_app _ _ (to_bytes nfgenmsg_layout (message_genmsg family rid)));
    [|done|done|by rewrite (to_bytes_len (L := nfgenmsg_layout))|].
  2: { by rewrite (write_struct_exact (n := 4)). }
  simpl. unfold b1, message. rewrite <- !app_assoc. do 2 f_equal.
  rewrite !len_app, (to_bytes_len (L := nlmsghdr_layout)),
    (to_bytes_len (L := nfgenmsg_layout)), len_nil. f_equal. f_equal; lia.
Qed.

Lemma message_header_ok l msg_type flags seq :
  u32_ok l → u16_ok msg_type → u16_ok flags → u32_ok seq →
  nlmsghdr_ok (message_header l msg_type flags seq).
Proof.
  intros. unfold nlmsghdr_ok, message_header, header_type. simpl. split_and!; try done.
  - destruct is_batch_type; [done|]. apply lor_u16; [done|apply as_u16_ok].
  - apply lor_u16; [apply as_u16_ok|done].
Qed.

(** The type field of an nf_tables message: the subsystem above the operation. *)
Lemma header_type_op op : 0 ≤ op < 16 → header_type op = 10 * 2 ^ 8 + op.
Proof.
  intros. unfold header_type, is_batch_type.
  rewrite batch_begin_16, batch_end_17, subsys_10. rewrite !as_u16_small by (by rewrite ?Z.shiftl_mul_pow2 by lia; lia).
  ztest. change (Z.shiftl 10 8) with 2560.
  assert (op ∈ seqZ 0 16) as Hop by (apply elem_of_seqZ; lia).
  vm_compute in Hop. repeat (apply elem_of_cons in Hop as [->|Hop]; [done|]).
  by apply elem_of_nil in Hop.
Qed.

Lemma op_of_header_type op :
  0 ≤ op < 16 →
  get_operation_from_nlmsghdr_type (header_type op) = op
  ∧ get_subsystem_from_nlmsghdr_type (header_type op) = 10
  ∧ is_batch_type (header_type op) = false.
Proof.
  intros. rewrite header_type_op by done. unfold is_batch_type.
  rewrite batch_begin_16, batch_end_17.
  assert (op ∈ seqZ 0 16) as Hop by (apply elem_of_seqZ; lia).
  vm_compute in Hop. repeat (apply elem_of_cons in Hop as [->|Hop]; [done|]).
  by apply elem_of_nil in Hop.
Qed.

(** *** The message of an object *)
Section ObjectMessage.
Context {A : Type} `{NfNetlinkObject A, NfNetlinkAttribute A}.

Definition object_type (msg_type : MsgType) : Z :=
  as_u16 (match msg_type with Add => MSG_TYPE_ADD | Del => MSG_TYPE_DEL end).

Definition object_flags (self : A) (msg_type : MsgType) : Z :=
  as_u16 (Z.lor (match msg_type with
    | Add => get_add_flags self
    | Del => get_del_flags self
    end) NLM_F_ACK).

Definition object_payload (self : A) : bytes :=
  encode self ++ zeros (pad_netlink_object_with_variable_size (get_size self) - get_size self).

Definition object_header (self : A) (msg_type : MsgType) (seq : Z) : nlmsghdr :=
  message_header (20 + pad_netlink_object_with_variable_size (get_size self))
    (object_type msg_type) (object_flags self msg_type) seq.

Definition object_message (self : A) (msg_type : MsgType) (seq : Z) : bytes :=
  message (object_header self msg_type seq) (message_genmsg (get_family self) None)
    (object_payload self).

(** What fits in one netlink message. *)
Definition fits (self : A) : Prop :=
  20 + pad_netlink_object_with_variable_size (get_size self) < 2 ^ 32
  ∧ get_size self < 2 ^ 64 - 3.

Lemma object_header_ok self msg_type seq :
  writable self → fits self → u32_ok seq → nlmsghdr_ok (object_header self msg_type seq).
Proof.
  intros [Hs _] [Hf ?] ?.
  pad_facts.
  apply message_header_ok; [unfold u32_ok; lia|apply as_u16_ok|apply as_u16_ok|done].
Qed.

(** [add_or_remove] appends the object's message and closes it. *)
Lemma add_or_remove_message self b msg_type seq :
  writable self → fits self → u32_ok seq →
  add_or_remove self {| buf := b; headers := None |} msg_type seq
  = Ok {| buf := b ++ object_message self msg_type seq; headers := None |}.
Proof.
  intros (Hs & Hl & Hw) [Hf Hs'] Hseq.
  pad_facts.
  unfold add_or_remove. rewrite write_header_closed. obind. unfold message.
  rewrite add_data_zeroed_open; [|apply message_header_ok; (done || apply as_u16_ok)|simpl; lia..].
  obind. rewrite app_nil_r, (to_bytes_len (L := nfgenmsg_layout)).
  set (p := pad_netlink_object_with_variable_size (get_size self)) in *.
  replace (zeros p) with (zeros (get_size self) ++ zeros (p - get_size self))
    by (rewrite <- zeros_add by lia; f_equal; lia).
  set (hdr := to_bytes nlmsghdr_layout _). set (gen := to_bytes nfgenmsg_layout _).
  rewrite (app_assoc hdr gen), (app_assoc b (hdr ++ gen)).
  rewrite (with_slice_app _ (zeros (get_size self)) (encode self)).
  - obind. unfold finalize_writing_object, object_message, message, object_payload.
    simpl. by rewrite <- !app_assoc.
  - unfold hdr, gen. rewrite !len_app, (to_bytes_len (L := nlmsghdr_layout)),
      (to_bytes_len (L := nfgenmsg_layout)). lia.
  - by rewrite len_zeros.
  - by rewrite len_zeros.
  - pose proof (Hw []) as Hn. by rewrite !app_nil_r in Hn.
Qed.

Lemma len_object_message self msg_type seq :
  writable self → fits self →
  len (object_message self msg_type seq)
  = 20 + pad_netlink_object_with_variable_size (get_size self).
Proof.
  intros (Hs & Hl & _) [? ?].
  pad_facts.
  unfold object_message, object_payload. rewrite len_message, len_app, len_zeros, Hl by lia.
  lia.
Qed.
End ObjectMessage.
End WriterLemmas.
