(* ===== verification/Parser.v ===== *)
(** * Parsing messages and attributes: [src/parser.rs]

    Every access through a raw pointer is a [read_struct] or [write_struct], which
    is [Ub] when the buffer is too short, and every [usize] operation of the loops
    is checked or wraps according to the build profile; the theorems show that
    neither matters for any input. *)

From S2P Require Import Prelude Sys Errors Lib Nlmsg.
Local Open Scope Z_scope.

Inductive NlMsg :=
  | NlDone
  | NlNoop
  | NlError (e : nlmsgerr)
  | NlNfGenMsg (gen : nfgenmsg) (content : bytes).

Section Messages.
Context `{BuildProfile} `{Sys}.

Definition get_nlmsghdr (buf : bytes) : outcome DecodeError nlmsghdr :=
  let size_of_hdr := size_of nlmsghdr_layout in
  if len buf <? size_of_hdr then Err BufTooSmall
  else
    s ← slice buf 0 size_of_hdr;
    hdr ← read_struct nlmsghdr_layout s;
    if (nlmsg_len hdr >? len buf) || (nlmsg_len hdr <? size_of_hdr) then Err NlMsgTooSmall
    else if negb (Z.land (nlmsg_flags hdr) (as_u16 NLM_F_DUMP_INTR) =? 0)
    then Err ConcurrentGenerationUpdate
    else Ok hdr.

(** The control messages, whose type is below [NLMSG_MIN_TYPE]. *)
Definition parse_control (buf : bytes) (hdr : nlmsghdr) : outcome DecodeError (nlmsghdr * NlMsg) :=
  let size_of_hdr := pad_netlink_object nlmsghdr_layout in
  let size_of_err := size_of nlmsgerr_layout in
  if nlmsg_type hdr =? NLMSG_NOOP then Ok (hdr, NlNoop)
  else if nlmsg_type hdr =? NLMSG_ERROR then
    if nlmsg_len hdr <? size_of_hdr + size_of_err then Err NlMsgTooSmall
    else
      s ← slice buf size_of_hdr (size_of_hdr + size_of_err);
      err ← read_struct nlmsgerr_layout s;
      code ← i32_abs (error err);
      Ok (hdr, NlError {| error := code; msg := msg err |})
  else if nlmsg_type hdr =? NLMSG_DONE then Ok (hdr, NlDone)
  else Err (UnsupportedType (as_u16 (nlmsg_type hdr))).

Definition parse_nlmsg (buf : bytes) : outcome DecodeError (nlmsghdr * NlMsg) :=
  hdr ← get_nlmsghdr buf;
  let size_of_hdr := pad_netlink_object nlmsghdr_layout in
  if nlmsg_type hdr <? as_u16 NLMSG_MIN_TYPE then parse_control buf hdr
  else
    let subsys := get_subsystem_from_nlmsghdr_type (nlmsg_type hdr) in
    if negb (is_batch_type (nlmsg_type hdr)) && negb (subsys =? as_u8 NFNL_SUBSYS_NFTABLES)
    then Err (InvalidSubsystem subsys)
    else
      let size_of_nfgenmsg := pad_netlink_object nfgenmsg_layout in
      if (nlmsg_len hdr >? len buf) || (nlmsg_len hdr <? size_of_hdr + size_of_nfgenmsg)
      then Err NlMsgTooSmall
      else
        s ← slice buf size_of_hdr (size_of_hdr + size_of_nfgenmsg);
        gen ← read_struct nfgenmsg_layout s;
        if negb (version gen =? as_u8 NFNETLINK_V0) then Err (InvalidVersion (version gen))
        else
          raw_value ← slice buf (size_of_hdr + size_of_nfgenmsg) (nlmsg_len hdr);
          Ok (hdr, NlNfGenMsg gen raw_value).
End Messages.

Section Attributes.
Context `{BuildProfile} `{Sys}.

(** The header goes through a raw pointer, before any bounds check. *)
Definition write_attribute {A : Type} `{NfNetlinkAttribute A} (ty : Z) (obj : A) (buf : bytes)
    : outcome Empty_set bytes :=
  let header_len := pad_netlink_object nlattr_layout in
  let header := {|
    nla_len := as_u16 (header_len + get_size obj);
    nla_type := if is_nested obj then Z.lor ty (as_u16 NLA_F_NESTED) else ty |} in
  b ← write_struct nlattr_layout buf header;
  tail ← slice_from b header_len;
  tail' ← write_payload obj tail;
  Ok (take (Z.to_nat header_len) b ++ tail').

(** An attribute type the object does not know is logged and skipped. *)
Definition decode_or_skip {A : Type} `{AttributeDecoder A} (res : A) (ty : Z) (b : bytes)
    : outcome DecodeError A :=
  match decode_attribute res ty b with
  | Err (UnsupportedAttributeType _) => Ok res
  | o => o
  end.

Fixpoint read_attributes_loop {A : Type} `{AttributeDecoder A} (fuel : nat)
    (buf : bytes) (remaining_size pos : Z) (res : A) : outcome DecodeError (Z * A) :=
  if remaining_size >? pad_netlink_object nlattr_layout then
    match fuel with
    | O => Diverge
    | S fuel =>
        s ← slice_from buf pos;
        a ← read_struct nlattr_layout s;
        let ty := Z.land (nla_type a) (as_u16 NLA_TYPE_MASK) in
        pos ← usize_add pos (pad_netlink_object nlattr_layout);
        attr_remaining_size ← usize_sub (nla_len a) (pad_netlink_object nlattr_layout);
        stop ← usize_add pos attr_remaining_size;
        payload ← slice buf pos stop;
        res ← decode_or_skip res ty payload;
        pos ← usize_add pos (pad_netlink_object_with_variable_size attr_remaining_size);
        remaining_size ←
          usize_sub remaining_size (pad_netlink_object_with_variable_size (nla_len a));
        read_attributes_loop fuel buf remaining_size pos res
    end
  else Ok (remaining_size, res).

(** [read_attributes] starts from the [Default] value [dflt] of its type. *)
Definition read_attributes {A : Type} `{AttributeDecoder A} (dflt : A) (buf : bytes)
    : outcome DecodeError A :=
  '(remaining_size, res) ← read_attributes_loop (S (length buf)) buf (len buf) 0 dflt;
  if negb (remaining_size =? 0) then Err InvalidDataSize else Ok res.

Definition parse_object {A : Type} `{AttributeDecoder A} (dflt : A) (buf : bytes)
    (add_obj del_obj : Z) : outcome DecodeError (A * nfgenmsg * bytes) :=
  '(hdr, msg) ← parse_nlmsg buf;
  let op := get_operation_from_nlmsghdr_type (nlmsg_type hdr) in
  if negb (op =? add_obj) && negb (op =? del_obj) then Err (UnexpectedType (nlmsg_type hdr))
  else
    obj_size ← usize_sub (nlmsg_len hdr) (pad_netlink_object_with_variable_size
      (size_of nlmsghdr_layout + size_of nfgenmsg_layout));
    remaining_data ← slice_from buf (pad_netlink_object_with_variable_size (nlmsg_len hdr));
    match msg with
    | NlNfGenMsg gen content =>
        c ← slice_to content obj_size;
        res ← read_attributes dflt c;
        Ok (res, gen, remaining_data)
    | _ => Err (UnexpectedType (nlmsg_type hdr))
    end.
End Attributes.

#[global] Arguments get_nlmsghdr : simpl never.
#[global] Arguments parse_nlmsg : simpl never.
#[global] Arguments write_attribute : simpl never.
#[global] Arguments read_attributes : simpl never.
#[global] Arguments decode_or_skip : simpl never.

(** ** The attribute loop, on what is left of the buffer

    The reference reads the next attribute off the front of the remaining bytes:
    no positions, no machine arithmetic. *)
Section Walk.
Context `{Sys} {A : Type} `{AttributeDecoder A}.

Definition next_attr (rest : bytes) : nlattr :=
  of_bytes nlattr_layout (take 4 rest).

Fixpoint walk_attributes (fuel : nat) (rest : bytes) (res : A) : outcome DecodeError A :=
  if 4 <? len rest then
    match fuel with
    | O => Diverge
    | S fuel =>
        let l := nla_len (next_attr rest) in
        let ty := Z.land (nla_type (next_attr rest)) (as_u16 NLA_TYPE_MASK) in
        if (l <? 4) || (len rest <? l) then Panic
        else
          res ← decode_or_skip res ty (take (Z.to_nat (l - 4)) (drop 4 rest));
          if len rest <? pad_netlink_object_with_variable_size l then Panic
          else
            walk_attributes fuel
              (drop (Z.to_nat (pad_netlink_object_with_variable_size l)) rest) res
    end
  else if len rest =? 0 then Ok res else Err InvalidDataSize.
End Walk.

Section Refinement.
Context `{BuildProfile} `{SysLaws} {A : Type} `{AttributeDecoder A}.

(** An attribute shorter than its header: the subtraction panics, or it wraps and
    so does the end of the slice, which is then before its start. *)
Lemma short_attr_panics buf pos l :
  0 ≤ pos ≤ len buf → len buf ≤ isize_max → 0 ≤ l < 4 →
  usize_sub (E := DecodeError) l 4 = Panic
  ∨ ∃ r, usize_sub (E := DecodeError) l 4 = Ok r
    ∧ (usize_add (E := DecodeError) (pos + 4) r = Panic
       ∨ ∃ stop, usize_add (E := DecodeError) (pos + 4) r = Ok stop
           ∧ slice (E := DecodeError) (buf : bytes) (pos + 4) stop = Panic).
Proof.
  unfold isize_max. intros.
  destruct (usize_sub_neg (E := DecodeError) l 4) as [-> | ->]; [lia..|by left|right].
  eexists. split; [done|].
  destruct (usize_add_big (E := DecodeError) (pos + 4) (2 ^ 64 - (4 - l)))
    as [-> | ->]; [lia|by left|right].
  eexists. split; [done|]. apply slice_panic. lia.
Qed.

(** An attribute whose padding is past the end: the subtraction panics, or it wraps
    and the next turn of the loop starts past the end. *)
Lemma overrun_panics fuel buf rem pad pos res :
  0 ≤ rem < pad → pad < 2 ^ 17 → len buf < pos →
  (r ← usize_sub rem pad; read_attributes_loop (S fuel) buf r pos res) = Panic.
Proof.
  intros. destruct (usize_sub_neg (E := DecodeError) rem pad) as [-> | ->]; [lia..|done|].
  obind. cbn [read_attributes_loop]. rewrite pad_nlattr, Z.gtb_ltb.
  rewrite (proj2 (Z.ltb_lt _ _)) by lia. by rewrite slice_from_panic.
Qed.

Lemma loop_walk fuel buf pos res :
  len buf ≤ isize_max → 0 ≤ pos ≤ len buf → len buf - pos < Z.of_nat fuel →
  ('(r, x) ← read_attributes_loop fuel buf (len buf - pos) pos res;
   if negb (r =? 0) then Err InvalidDataSize else Ok x)
  = walk_attributes fuel (drop (Z.to_nat pos) buf) res.
Proof.
  revert pos res. induction fuel as [|fuel IH]; intros pos res Hmax Hpos Hfuel.
  all: cbn [read_attributes_loop walk_attributes].
  all: rewrite pad_nlattr, Z.gtb_ltb, len_drop by lia; destruct (Z.ltb_spec 4 (len buf - pos)) as [Hlt|Hge].
  1: lia.
  1, 3: obind; destruct (len buf - pos =? 0); done.
  rewrite slice_from_ok by lia. obind. set (rest := drop (Z.to_nat pos) buf).
  assert (len rest = len buf - pos) as Hrest by (apply len_drop; lia).
  destruct (read_struct_prefix (L := nlattr_layout) (E := DecodeError) (n := 4) rest)
    as [-> [Hl _]]; [lia|]. obind.
  change (of_bytes nlattr_layout (take (Z.to_nat 4) rest)) with (next_attr rest) in *.
  set (l := nla_len (next_attr rest)) in *. set (ty := Z.land _ _).
  clearbody l ty. unfold isize_max in Hmax. unfold u16_ok in Hl.
  rewrite (usize_add_small pos 4) by lia. obind.
  destruct (Z.ltb_spec l 4) as [Hl4|Hl4]; cbn [orb].
  { destruct (short_attr_panics buf pos l) as [-> | (r & -> & Hr)];
      [lia|unfold isize_max; lia|lia|done|]. obind.
    destruct Hr as [-> | (stop & -> & Hp)]; [done|]. obind. by rewrite Hp. }
  rewrite (usize_sub_small l 4) by lia. obind. rewrite (usize_add_small (pos + 4) (l - 4)) by lia. obind.
  destruct (Z.ltb_spec (len buf - pos) l) as [Hover|Hover].
  { by rewrite slice_panic by lia. }
  rewrite slice_suffix by lia. obind.
  replace (pos + 4 + (l - 4) - (pos + 4)) with (l - 4) by lia.
  rewrite (drop_add buf pos 4) by lia. fold rest. change (Z.to_nat 4) with 4%nat.
  destruct (decode_or_skip res ty _) as [res'| | | |]; [obind|done..].
  assert (pad_netlink_object_with_variable_size l
          = 4 + pad_netlink_object_with_variable_size (l - 4)) as Hpad.
  { rewrite <- pad_add_4 by lia. f_equal. lia. }
  pad_facts. rewrite (usize_add_small (pos + 4)) by lia. obind.
  replace (pos + 4 + pad_netlink_object_with_variable_size (l - 4))
    with (pos + pad_netlink_object_with_variable_size l) by lia.
  destruct (Z.ltb_spec (len buf - pos) (pad_netlink_object_with_variable_size l)).
  { destruct fuel as [|fuel]; [lia|]. by rewrite overrun_panics by lia. }
  rewrite usize_sub_small by lia. obind.
  rewrite <- Z.sub_add_distr, IH by (unfold isize_max; lia).
  unfold rest. by rewrite drop_add by lia.
Qed.

Lemma read_attributes_walk (dflt : A) buf :
  len buf ≤ isize_max →
  read_attributes dflt buf = walk_attributes (S (length buf)) buf dflt.
Proof.
  intros. unfold read_attributes. rewrite <- (Z.sub_0_r (len buf)).
  rewrite loop_walk; [by rewrite drop_0|done|..]; pose proof (len_nonneg buf);
    unfold len in *; lia.
Qed.

(** *** Memory safety and termination of the loop *)
Definition safe_decoder : Prop :=
  ∀ (res : A) ty b, len b ≤ isize_max → safe (decode_attribute res ty b).

Lemma decode_or_skip_safe (res : A) ty b :
  safe_decoder → len b ≤ isize_max → safe (decode_or_skip res ty b).
Proof.
  intros Hd Hb. pose proof (Hd res ty b Hb) as Hs. unfold decode_or_skip.
  destruct (decode_attribute res ty b) as [|e| | |]; auto with netlink.
  destruct e; auto with netlink.
Qed.

Lemma next_attr_ok rest : 4 ≤ len rest → nlattr_ok (next_attr rest).
Proof.
  intros. apply of_bytes_ok. change 4%nat with (Z.to_nat 4). apply len_take. lia.
Qed.

Lemma walk_safe fuel rest (res : A) :
  safe_decoder → len rest ≤ isize_max → len rest < Z.of_nat fuel →
  safe (walk_attributes fuel rest res).
Proof.
  intros Hd. revert rest res. induction fuel as [|fuel IH]; intros rest res Hmax Hfuel.
  { pose proof (len_nonneg rest). lia. }
  cbn [walk_attributes]. destruct (Z.ltb_spec 4 (len rest)).
  2: { destruct (len rest =? 0); auto with netlink. }
  pose proof (next_attr_ok rest ltac:(lia)) as [Hl _]. unfold u16_ok in Hl.
  set (l := nla_len (next_attr rest)) in *. clearbody l.
  destruct (Z.ltb_spec l 4); cbn [orb]; [auto with netlink|].
  destruct (Z.ltb_spec (len rest) l); cbn [orb]; [auto with netlink|].
  pad_facts. apply safe_bind.
  - apply decode_or_skip_safe; [done|]. rewrite len_take; [lia|].
    change 4%nat with (Z.to_nat 4). rewrite len_drop; lia.
  - intros res' _. destruct (Z.ltb_spec (len rest) (pad_netlink_object_with_variable_size l));
      [auto with netlink|]. apply IH; rewrite len_drop; lia.
Qed.

Lemma read_attributes_safe (dflt : A) buf :
  safe_decoder → len buf ≤ isize_max → safe (read_attributes dflt buf).
Proof.
  intros. rewrite read_attributes_walk by done. apply walk_safe; [done..|]. unfold len. lia.
Qed.
End Refinement.

(** ** Attribute lists and their encoding *)
Record Attr := {
  at_type : Z;
  at_nested : bool;
  at_payload : bytes }.

Section AttrLists.
Context `{Sys}.

Definition attr_header (a : Attr) : nlattr := {|
  nla_len := as_u16 (4 + len (at_payload a));
  nla_type := if at_nested a then Z.lor (at_type a) (as_u16 NLA_F_NESTED) else at_type a |}.

Definition padding (n : Z) : bytes := zeros (pad_netlink_object_with_variable_size n - n).

Definition encode_attr (a : Attr) : bytes :=
  to_bytes nlattr_layout (attr_header a) ++ at_payload a ++ padding (len (at_payload a)).

Definition encode_attrs (l : list Attr) : bytes := flat_map encode_attr l.

(** An attribute whose type and length fit in its header. *)
Definition attr_ok (a : Attr) : Prop :=
  0 ≤ at_type a < 2 ^ 14 ∧ 4 + len (at_payload a) < 2 ^ 16.

(** What reading the encoding of a list back does: each attribute is decoded in
    turn, except that an empty last one is not seen. *)
Fixpoint read_back {A : Type} `{AttributeDecoder A} (l : list Attr) (res : A)
    : outcome DecodeError A :=
  match l with
  | [] => Ok res
  | a :: l =>
      match at_payload a, l with
      | [], [] => Err InvalidDataSize
      | _, _ => res ← decode_or_skip res (at_type a) (at_payload a); read_back l res
      end
  end.
End AttrLists.

Section AttrListLemmas.
Context `{SysLaws}.

Lemma masked_type a :
  attr_ok a → Z.land (nla_type (attr_header a)) (as_u16 NLA_TYPE_MASK) = at_type a.
Proof.
  intros [Ht _]. rewrite type_mask_14. change (2 ^ 14 - 1) with (Z.ones 14).
  unfold attr_header. simpl. rewrite f_nested_15, as_u16_small by lia.
  destruct (at_nested a); rewrite ?Z.land_lor_distr_l, !Z.land_ones by lia.
  - rewrite Z.mod_small by lia. change (2 ^ 15 mod 2 ^ 14) with 0. apply Z.lor_0_r.
  - by apply Z.mod_small.
Qed.

Lemma attr_header_ok a : attr_ok a → nlattr_ok (attr_header a).
Proof.
  intros [Ht Hl]. split; simpl; [apply as_u16_ok|]. destruct (at_nested a).
  - apply lor_u16; [unfold u16_ok; lia|apply as_u16_ok].
  - unfold u16_ok. lia.
Qed.

Lemma nla_len_attr_header a : attr_ok a → nla_len (attr_header a) = 4 + len (at_payload a).
Proof. intros [_ ?]. pose proof (len_nonneg (at_payload a)). apply as_u16_small. lia. Qed.

Lemma len_padding n : 0 ≤ n < 2 ^ 63 → len (padding n) = pad_netlink_object_with_variable_size n - n.
Proof. intros. unfold padding. pad_facts. apply len_zeros. lia. Qed.

Lemma len_encode_attr a :
  len (at_payload a) < 2 ^ 63 →
  len (encode_attr a) = 4 + pad_netlink_object_with_variable_size (len (at_payload a)).
Proof.
  intros. pose proof (len_nonneg (at_payload a)). unfold encode_attr.
  rewrite !len_app, (to_bytes_len (L := nlattr_layout)), len_padding by lia. lia.
Qed.

Lemma len_encode_attrs_mod l :
  Forall attr_ok l → len (encode_attrs l) mod 4 = 0.
Proof.
  induction 1 as [|a l [_ Ha] _ IH]; [done|]. cbn [encode_attrs flat_map].
  pose proof (len_nonneg (at_payload a)).
  rewrite len_app, len_encode_attr by lia.
  pose proof (pad_mod (len (at_payload a)) ltac:(lia)). fold (encode_attrs l).
  Z.div_mod_to_equations. lia.
Qed.

(** The attribute a value is written as. *)
Definition value_attr {B} `{NfNetlinkAttribute B} (ty : Z) (v : B) : Attr :=
  {| at_type := ty; at_nested := is_nested v; at_payload := encode v |}.

Lemma write_attribute_encode {B} `{NfNetlinkAttribute B} ty (v : B) rest :
  writable v →
  write_attribute ty v (zeros (4 + get_size v) ++ rest)
  = Ok (to_bytes nlattr_layout (attr_header (value_attr ty v)) ++ encode v ++ rest).
Proof.
  intros (Hs & Hl & Hw). unfold write_attribute. rewrite pad_nlattr.
  rewrite zeros_add by lia. rewrite <- app_assoc, (write_struct_app (n := 4)) by done. obind.
  rewrite slice_from_app by (by rewrite (to_bytes_len (L := nlattr_layout))). obind.
  rewrite Hw. obind. rewrite take_app_len by (by rewrite (to_bytes_len (L := nlattr_layout))).
  unfold attr_header, value_attr. simpl. by rewrite Hl.
Qed.

Lemma walk_encode_attr {A} `{AttributeDecoder A} fuel a rest (res : A) :
  attr_ok a → at_payload a ≠ [] ∨ rest ≠ [] → len rest mod 4 = 0 →
  walk_attributes (S fuel) (encode_attr a ++ rest) res
  = (res ← decode_or_skip res (at_type a) (at_payload a); walk_attributes fuel rest res).
Proof.
  intros Ha Hne Hrest. pose proof Ha as [Ht Hl]. pose proof (len_nonneg (at_payload a)) as Hp.
  assert (next_attr (encode_attr a ++ rest) = attr_header a) as Hnext.
  { unfold next_attr, encode_attr. rewrite <- app_assoc. change 4%nat with (Z.to_nat 4).
    rewrite take_app_len by (by rewrite (to_bytes_len (L := nlattr_layout))).
    by apply of_to_bytes, attr_header_ok. }
  assert (len (encode_attr a ++ rest)
          = pad_netlink_object_with_variable_size (4 + len (at_payload a)) + len rest) as Hlen.
  { rewrite len_app, len_encode_attr, pad_add_4 by lia. done. }
  pose proof (len_nonneg rest). pad_facts.
  assert (4 < len (encode_attr a ++ rest)).
  { destruct Hne as [Hne|Hne]; [destruct (at_payload a) as [|x p]|destruct rest as [|x p]];
      try done; rewrite len_cons in *; pose proof (len_nonneg p); lia. }
  cbn [walk_attributes]. rewrite Hnext, nla_len_attr_header, masked_type by done.
  ztest. cbn [orb].
  assert (take (Z.to_nat (4 + len (at_payload a) - 4)) (drop 4 (encode_attr a ++ rest))
          = at_payload a) as ->.
  { rewrite Z.add_simpl_l. unfold encode_attr. rewrite <- !app_assoc.
    change 4%nat with (Z.to_nat 4).
    rewrite drop_app_len by (by rewrite (to_bytes_len (L := nlattr_layout))).
    by apply take_app_len. }
  destruct (decode_or_skip res _ _); [obind|done..].
  rewrite drop_app_len; [done|]. rewrite len_encode_attr, pad_add_4 by lia. done.
Qed.

(** Reading the encoding of an attribute list back. *)
Lemma walk_encode_attrs {A} `{AttributeDecoder A} fuel l (res : A) :
  Forall attr_ok l → (length l ≤ fuel)%nat →
  walk_attributes fuel (encode_attrs l) res = read_back l res.
Proof.
  intros Hl. revert fuel res. induction Hl as [|a l Ha Hl IH]; intros fuel res Hfuel.
  { by destruct fuel. }
  destruct fuel as [|fuel]; simpl in Hfuel; [lia|].
  cbn [encode_attrs flat_map read_back]. fold (encode_attrs l).
  destruct (decide (at_payload a = [] ∧ l = [])) as [[Hp ->]|Hne].
  - rewrite Hp. cbn [encode_attrs flat_map]. rewrite app_nil_r.
    assert (len (encode_attr a) = 4) as Hle.
    { rewrite len_encode_attr; rewrite Hp; [|done]. by rewrite pad_aligned. }
    cbn [walk_attributes]. by rewrite Hle.
  - rewrite walk_encode_attr; [|done| |by apply len_encode_attrs_mod].
    + assert (∀ r : A, walk_attributes fuel (encode_attrs l) r = read_back l r) as IH'
        by (intros; apply IH; lia).
      destruct (at_payload a), l; try (by exfalso; apply Hne);
        destruct decode_or_skip; try done; apply IH'.
    + destruct (decide (at_payload a = [])) as [Hp|]; [right|by left].
      destruct l as [|a' l]; [naive_solver|]. cbn [encode_attrs flat_map].
      intros [He _]%app_eq_nil. inversion Hl as [|? ? [_ Ha'] _]; subst.
      pose proof (len_encode_attr a') as Hlen. rewrite He in Hlen.
      pose proof (len_nonneg (at_payload a')). pad_facts.
      unfold len in Hlen at 2. simpl in Hlen. lia.
Qed.

Lemma read_encode_attrs `{BuildProfile} {A} `{AttributeDecoder A} (dflt : A) l :
  Forall attr_ok l → len (encode_attrs l) ≤ isize_max →
  read_attributes dflt (encode_attrs l) = read_back l dflt.
Proof.
  intros Hl Hmax. rewrite read_attributes_walk by done. apply walk_encode_attrs; [done|].
  clear Hmax. induction Hl as [|a l [_ Ha] _ IH]; [simpl; lia|].
  cbn [encode_attrs flat_map length]. rewrite length_app. fold (encode_attrs l).
  pose proof (len_encode_attr a) as Hlen. pose proof (len_nonneg (at_payload a)).
  pad_facts. unfold len in Hlen at 2. lia.
Qed.
End AttrListLemmas.

(** ** Message headers *)
Section MessageLemmas.
Context `{BuildProfile} `{SysLaws}.

(** A slice of the right length can be read through a raw pointer. *)
Lemma slice_read {A} {L : Layout A} {ok n} `{!LayoutLaws L ok n} buf a :
  0 ≤ a → 0 ≤ n → a + n ≤ len buf →
  ∃ x, (s ← slice (E := DecodeError) buf a (a + n); read_struct L s) = Ok x
    ∧ x = of_bytes L (take (Z.to_nat n) (drop (Z.to_nat a) buf)) ∧ ok x.
Proof.
  intros. rewrite slice_suffix by lia. obind. rewrite Z.add_simpl_l.
  destruct (read_struct_prefix (L := L) (E := DecodeError) (n := n)
    (take (Z.to_nat n) (drop (Z.to_nat a) buf))) as [-> Hok].
  { rewrite len_take; [lia|]. rewrite len_drop; lia. }
  rewrite take_take, Nat.min_id in *. eauto.
Qed.

Lemma get_nlmsghdr_long buf :
  16 ≤ len buf →
  let hdr := of_bytes nlmsghdr_layout (take 16 buf) in
  nlmsghdr_ok hdr ∧
  get_nlmsghdr buf =
    if (nlmsg_len hdr >? len buf) || (nlmsg_len hdr <? 16) then Err NlMsgTooSmall
    else if negb (Z.land (nlmsg_flags hdr) 16 =? 0) then Err ConcurrentGenerationUpdate
    else Ok hdr.
Proof.
  intros Hl hdr. unfold get_nlmsghdr. rewrite (layout_size (L := nlmsghdr_layout)).
  rewrite f_dump_intr_16, as_u16_small by lia.
  destruct (slice_read (L := nlmsghdr_layout) (n := 16) buf 0) as (x & Hr & -> & Hok); [lia..|].
  rewrite drop_0 in *. change (Z.to_nat 16) with 16%nat in *. fold hdr in Hok, Hr.
  split; [done|]. destruct (Z.ltb_spec (len buf) 16); [lia|].
  apply bind_Ok_inv in Hr as (s & Hs & Hr). change (0 + 16) with 16 in Hs.
  rewrite Hs. obind. by rewrite Hr.
Qed.

Lemma get_nlmsghdr_Ok buf hdr :
  get_nlmsghdr buf = Ok hdr →
  hdr = of_bytes nlmsghdr_layout (take 16 buf) ∧ nlmsghdr_ok hdr
  ∧ 16 ≤ nlmsg_len hdr ≤ len buf ∧ Z.land (nlmsg_flags hdr) 16 = 0.
Proof.
  intros Hg. destruct (Z.ltb_spec (len buf) 16) as [Hlt|Hge].
  { unfold get_nlmsghdr in Hg. rewrite (layout_size (L := nlmsghdr_layout)) in Hg.
    by rewrite (proj2 (Z.ltb_lt _ _) Hlt) in Hg. }
  destruct (get_nlmsghdr_long buf Hge) as [Hok Heq]. rewrite Heq in Hg.
  destruct_ifs; try done. injection Hg as <-. zbool. auto with lia.
Qed.

Lemma get_nlmsghdr_safe buf : safe (get_nlmsghdr buf).
Proof.
  destruct (Z.ltb_spec (len buf) 16) as [Hlt|Hge].
  - unfold get_nlmsghdr. rewrite (layout_size (L := nlmsghdr_layout)).
    rewrite (proj2 (Z.ltb_lt _ _) Hlt). auto with netlink.
  - destruct (get_nlmsghdr_long buf Hge) as [_ ->]. destruct_ifs; auto with netlink.
Qed.

Lemma i32_abs_safe {E} z : safe (i32_abs (E := E) z).
Proof. unfold i32_abs. destruct_ifs; auto with netlink. Qed.

Lemma slice_safe {E A} (l : list A) a b : safe (slice (E := E) l a b).
Proof. unfold slice. destruct_ifs; auto with netlink. Qed.

(** No input makes the message parser read out of bounds. *)
Lemma parse_nlmsg_safe buf : safe (parse_nlmsg buf).
Proof.
  apply safe_bind; [apply get_nlmsghdr_safe|]. intros hdr Hg.
  apply get_nlmsghdr_Ok in Hg as (_ & _ & Hlen & _).
  destruct (_ <? _).
  - unfold parse_control. rewrite pad_nlmsghdr, (layout_size (L := nlmsgerr_layout)).
    destruct_ifs; auto with netlink. zbool.
    destruct (slice_read (L := nlmsgerr_layout) (n := 20) buf 16) as (x & Hr & _ & _); [lia..|].
    apply bind_Ok_inv in Hr as (s & Hs & Hr). rewrite Hs. obind. rewrite Hr. obind.
    apply safe_bind; [apply i32_abs_safe|]. auto with netlink.
  - rewrite pad_nlmsghdr, pad_nfgenmsg. cbv zeta. destruct_ifs; auto with netlink. zbool.
    destruct (slice_read (L := nfgenmsg_layout) (n := 4) buf 16) as (x & Hr & _ & _); [lia..|].
    apply bind_Ok_inv in Hr as (s & Hs & Hr). rewrite Hs. obind. rewrite Hr. obind.
    destruct_ifs; auto with netlink. apply safe_bind; [apply slice_safe|]. auto with netlink.
Qed.

(** The header of a message that is parsed. *)
Lemma parse_nlmsg_header buf hdr m : parse_nlmsg buf = Ok (hdr, m) → get_nlmsghdr buf = Ok hdr.
Proof.
  unfold parse_nlmsg. intros (h & Hg & Hrest)%bind_Ok_inv. cbv zeta in Hrest. rewrite Hg.
  f_equal. unfold parse_control in Hrest. destruct_ifs; try done;
    repeat (apply bind_Ok_inv in Hrest as (? & ? & Hrest)); destruct_ifs; try congruence;
    repeat (apply bind_Ok_inv in Hrest as (? & ? & Hrest)); congruence.
Qed.

(** The error code that an error message carries has an absolute value, or overflow is not
    checked: the only case in which [parse_nlmsg] panics is excluded. *)
Definition code_in_range (buf : bytes) (hdr : nlmsghdr) : Prop :=
  nlmsg_type hdr = NLMSG_ERROR → 36 ≤ nlmsg_len hdr →
  error (of_bytes nlmsgerr_layout (take 20 (drop 16 buf))) = - 2 ^ 31 → overflow_checks = false.

Lemma parse_nlmsg_returns buf :
  (∀ hdr, get_nlmsghdr buf = Ok hdr → code_in_range buf hdr) → returns (parse_nlmsg buf).
Proof.
  intros Hc. apply safe_returns; [apply parse_nlmsg_safe|]. unfold parse_nlmsg.
  pose proof (get_nlmsghdr_safe buf) as [Hu Hd].
  assert (get_nlmsghdr buf ≠ Panic) as Hp.
  { unfold get_nlmsghdr. rewrite (layout_size (L := nlmsghdr_layout)).
    destruct (Z.ltb_spec (len buf) 16); [done|]. destruct (get_nlmsghdr_long buf) as [_ Heq]; [done|].
    unfold get_nlmsghdr in Heq. rewrite (layout_size (L := nlmsghdr_layout)) in Heq.
    destruct (Z.ltb_spec (len buf) 16); [lia|]. rewrite Heq. by destruct_ifs. }
  destruct (get_nlmsghdr buf) as [hdr|e| | |] eqn:Hg; try done. obind. specialize (Hc hdr eq_refl).
  apply get_nlmsghdr_Ok in Hg as (_ & _ & Hlen & _).
  destruct (_ <? _).
  - unfold parse_control. rewrite pad_nlmsghdr, (layout_size (L := nlmsgerr_layout)).
    destruct_ifs; try done. zbool.
    destruct (slice_read (L := nlmsgerr_layout) (n := 20) buf 16) as (x & Hr & Hx & _); [lia..|].
    apply bind_Ok_inv in Hr as (s & Hs & Hr). rewrite Hs. obind. rewrite Hr. obind.
    change (Z.to_nat 20) with 20%nat in Hx. change (Z.to_nat 16) with 16%nat in Hx.
    unfold i32_abs. destruct (Z.eqb_spec (error x) (- 2 ^ 31)) as [He|]; [|done].
    rewrite Hx in He. unfold code_in_range in Hc. rewrite Hc by (done || lia). done.
  - rewrite pad_nlmsghdr, pad_nfgenmsg. cbv zeta. destruct_ifs; try done. zbool.
    destruct (slice_read (L := nfgenmsg_layout) (n := 4) buf 16) as (x & Hr & _ & _); [lia..|].
    apply bind_Ok_inv in Hr as (s & Hs & Hr). rewrite Hs. obind. rewrite Hr. obind.
    destruct_ifs; try done. by rewrite slice_suffix by lia.
Qed.

(** *** Reading a message back *)
Definition parseable (hdr : nlmsghdr) (gen : nfgenmsg) (payload : bytes) : Prop :=
  nlmsghdr_ok hdr ∧ nfgenmsg_ok gen ∧ nlmsg_len hdr = 20 + len payload
  ∧ Z.land (nlmsg_flags hdr) 16 = 0 ∧ 16 ≤ nlmsg_type hdr
  ∧ (is_batch_type (nlmsg_type hdr) = true
     ∨ get_subsystem_from_nlmsghdr_type (nlmsg_type hdr) = 10)
  ∧ version gen = 0.

Lemma parse_message hdr gen payload rest :
  parseable hdr gen payload →
  parse_nlmsg (message hdr gen payload ++ rest) = Ok (hdr, NlNfGenMsg gen payload).
Proof.
  intros (Hh & Hg & Hlen & Hfl & Hty & Hsub & Hver).
  pose proof (len_nonneg payload) as Hp. pose proof (len_nonneg rest) as Hr.
  assert (len (message hdr gen payload ++ rest) = 20 + len payload + len rest) as Hall
    by (by rewrite len_app, len_message).
  assert (of_bytes nlmsghdr_layout (take 16 (message hdr gen payload ++ rest)) = hdr) as Hof.
  { unfold message. rewrite <- app_assoc. change 16%nat with (Z.to_nat 16).
    rewrite take_app_len by (by rewrite (to_bytes_len (L := nlmsghdr_layout))).
    by apply of_to_bytes. }
  assert (drop (Z.to_nat 16) (message hdr gen payload ++ rest)
          = to_bytes nfgenmsg_layout gen ++ payload ++ rest) as Hd16.
  { unfold message. rewrite <- !app_assoc. apply drop_app_len.
    by rewrite (to_bytes_len (L := nlmsghdr_layout)). }
  unfold parse_nlmsg.
  destruct (get_nlmsghdr_long (message hdr gen payload ++ rest)) as [_ ->]; [lia|].
  rewrite Hof, Hlen, Hfl, Hall. ztest. obind.
  rewrite min_type_16, as_u16_small by lia. rewrite subsys_10, as_u8_small by lia. ztest.
  assert (negb (is_batch_type (nlmsg_type hdr))
    && negb (get_subsystem_from_nlmsghdr_type (nlmsg_type hdr) =? 10) = false) as ->.
  { destruct Hsub as [-> | ->]; [done|]. by destruct is_batch_type. }
  rewrite pad_nlmsghdr, pad_nfgenmsg, ?Hlen. ztest.
  rewrite (slice_suffix _ 16 (16 + 4)) by lia. obind. change (16 + 4 - 16) with 4.
  rewrite Hd16, take_app_len by (by rewrite (to_bytes_len (L := nfgenmsg_layout))).
  rewrite <- (app_nil_r (to_bytes nfgenmsg_layout gen)), read_struct_app by done. obind.
  rewrite Hver, nfnetlink_v0_0. cbn [negb as_u8]. change (negb (0 =? as_u8 0)) with false.
  cbv iota. rewrite slice_suffix by lia. obind.
  rewrite (drop_add _ 16 4), Hd16, drop_app_len
    by (lia || by rewrite (to_bytes_len (L := nfgenmsg_layout))).
  rewrite take_app_len by lia. done.
Qed.

(** A buffer cut at [a] and [b]. *)
Lemma cut_buffer (buf : bytes) a b :
  0 ≤ a ≤ b → b ≤ len buf →
  drop (Z.to_nat a) buf = take (Z.to_nat (b - a)) (drop (Z.to_nat a) buf) ++ drop (Z.to_nat b) buf.
Proof.
  intros. replace (drop (Z.to_nat b) buf) with (drop (Z.to_nat (b - a)) (drop (Z.to_nat a) buf)).
  - by rewrite take_drop.
  - rewrite <- drop_add by lia. do 2 f_equal. lia.
Qed.

(** Conversely, what the parser accepts is such a message. *)
Lemma parse_message_inv buf hdr gen content :
  parse_nlmsg buf = Ok (hdr, NlNfGenMsg gen content) →
  ∃ rest, buf = message hdr gen content ++ rest ∧ parseable hdr gen content.
Proof.
  unfold parse_nlmsg. intros Hp. apply bind_Ok_inv in Hp as (h & Hg & Hp).
  apply get_nlmsghdr_Ok in Hg as (Hh & Hok & Hlen & Hfl). cbv zeta in Hp.
  rewrite min_type_16, pad_nlmsghdr, pad_nfgenmsg, subsys_10, nfnetlink_v0_0 in Hp.
  change (as_u16 16) with 16 in Hp. change (as_u8 10) with 10 in Hp. change (as_u8 0) with 0 in Hp.
  destruct (Z.ltb_spec (nlmsg_type h) 16) as [|Hty].
  { unfold parse_control in Hp. destruct_ifs; try done.
    repeat (apply bind_Ok_inv in Hp as (? & ? & Hp)). done. }
  destruct (negb _ && negb _) eqn:Hsub; [done|].
  destruct ((nlmsg_len h >? len buf) || _) eqn:Hl; [done|]. zbool.
  destruct (slice_read (L := nfgenmsg_layout) (n := 4) buf 16) as (x & Hr & Hx & Hxok); [lia..|].
  apply bind_Ok_inv in Hr as (s & Hs & Hr). rewrite Hs in Hp. rewrite bind_ok in Hp.
  rewrite Hr in Hp. rewrite bind_ok in Hp. destruct (Z.eqb_spec (version x) 0) as [Hv|]; [|done].
  cbn [negb] in Hp. rewrite (slice_suffix buf (16 + 4)), bind_ok in Hp by lia.
  injection Hp as <- <- <-. exists (drop (Z.to_nat (nlmsg_len h)) buf).
  assert (len (take (Z.to_nat (nlmsg_len h - (16 + 4))) (drop (Z.to_nat (16 + 4)) buf))
          = nlmsg_len h - 20) as Hc by (rewrite len_take; [lia|rewrite len_drop; lia]).
  split.
  - unfold message. rewrite <- !app_assoc, <- cut_buffer by lia.
    rewrite Hx, to_of_bytes by (rewrite len_take; [lia|rewrite len_drop; lia]).
    pose proof (cut_buffer buf 16 (16 + 4)) as Hcut. change (16 + 4 - 16) with 4 in Hcut.
    rewrite <- Hcut by lia. change 16%nat with (Z.to_nat 16) in Hh.
    rewrite Hh at 1. rewrite to_of_bytes by (rewrite len_take; lia). by rewrite take_drop.
  - unfold parseable. rewrite Hc. split_and!; try done; try lia.
    destruct (is_batch_type (nlmsg_type h)); [by left|right]. cbn [negb andb] in Hsub.
    destruct Hsub as [|Hsub]; [done|]. zbool. done.
Qed.

(** *** Objects *)
Lemma pad_headers :
  pad_netlink_object_with_variable_size (size_of nlmsghdr_layout + size_of nfgenmsg_layout) = 20.
Proof.
  rewrite (layout_size (L := nlmsghdr_layout)), (layout_size (L := nfgenmsg_layout)).
  by apply pad_aligned.
Qed.

Lemma parse_object_message {A} `{AttributeDecoder A} (dflt : A) hdr gen payload rest add del :
  parseable hdr gen payload → len payload mod 4 = 0 →
  get_operation_from_nlmsghdr_type (nlmsg_type hdr) = add
    ∨ get_operation_from_nlmsghdr_type (nlmsg_type hdr) = del →
  parse_object dflt (message hdr gen payload ++ rest) add del
  = (res ← read_attributes dflt payload; Ok (res, gen, rest)).
Proof.
  intros Hp Hmod Hop. unfold parse_object. rewrite parse_message by done. obind.
  destruct Hp as (Hh & _ & Hlen & _). pose proof (len_nonneg payload).
  assert (negb (get_operation_from_nlmsghdr_type (nlmsg_type hdr) =? add)
    && negb (get_operation_from_nlmsghdr_type (nlmsg_type hdr) =? del) = false) as ->.
  { destruct Hop as [-> | ->]; rewrite Z.eqb_refl; [done|]. by destruct (_ =? _). }
  assert (u32_ok (nlmsg_len hdr)) as Hu by apply Hh. unfold u32_ok in Hu.
  rewrite pad_headers, usize_sub_small by lia. obind.
  rewrite pad_aligned, Hlen by (lia || (rewrite Hlen; Z.div_mod_to_equations; lia)).
  rewrite slice_from_app by (by rewrite len_message). obind.
  rewrite <- (app_nil_r payload) at 1. by rewrite slice_to_app by lia.
Qed.

Lemma slice_from_safe {E A} (l : list A) a : safe (slice_from (E := E) l a).
Proof. unfold slice_from. destruct_ifs; auto with netlink. Qed.

Lemma usize_sub_safe {E} a b : safe (usize_sub (E := E) a b).
Proof. unfold usize_sub. destruct_ifs; auto with netlink. Qed.

(** The content of a message is a part of its buffer. *)
Lemma parse_nlmsg_content buf hdr gen content :
  parse_nlmsg buf = Ok (hdr, NlNfGenMsg gen content) → len content ≤ len buf.
Proof.
  unfold parse_nlmsg. intros Hp. apply bind_Ok_inv in Hp as (h & Hg & Hp).
  apply get_nlmsghdr_Ok in Hg as (_ & _ & Hlen & _). cbv zeta in Hp.
  destruct (_ <? _).
  { unfold parse_control in Hp. destruct_ifs; try done.
    repeat (apply bind_Ok_inv in Hp as (? & ? & Hp)). done. }
  destruct_ifs; try done.
  apply bind_Ok_inv in Hp as (? & ? & Hp). apply bind_Ok_inv in Hp as (? & ? & Hp).
  destruct_ifs; try done. apply bind_Ok_inv in Hp as (c & Hc & Hp).
  injection Hp as -> -> ->. by eapply slice_len.
Qed.

Lemma parse_object_safe {A} `{AttributeDecoder A} (dflt : A) buf add del :
  safe_decoder (A := A) → len buf ≤ isize_max → safe (parse_object dflt buf add del).
Proof.
  intros Hd Hmax. apply safe_bind; [apply parse_nlmsg_safe|]. intros [hdr m] Hp.
  destruct_ifs; auto with netlink. apply safe_bind; [apply usize_sub_safe|]. intros size _.
  apply safe_bind; [apply slice_from_safe|]. intros rest _.
  destruct m as [| | |gen content]; auto with netlink.
  apply parse_nlmsg_content in Hp. apply safe_bind.
  - unfold slice_to. destruct_ifs; auto with netlink.
  - intros c Hc. apply safe_bind; [|auto with netlink]. apply read_attributes_safe; [done|].
    unfold slice_to in Hc. destruct_ifs; [|done]. injection Hc as <-.
    unfold len in *. rewrite length_take. lia.
Qed.
End MessageLemmas.
