(* ===== verification/ParserImpls.v ===== *)
(** * Serialization of the basic types: [src/parser_impls.rs]

    Integers are big-endian, strings and byte vectors are copied, and a list is a
    sequence of [NFTA_LIST_ELEM] attributes.  Reading an integer from too few bytes
    is an out-of-range index, hence a panic. *)

From S2P Require Import Prelude Sys Errors Lib Nlmsg Parser.
Local Open Scope Z_scope.

(** The machine integers and the two byte containers, as distinct types. *)
Definition u8 : Type := Z.
Definition u16 : Type := Z.
Definition u32 : Type := Z.
Definition u64 : Type := Z.
Definition i32 : Type := Z.
Definition RString : Type := bytes.
Definition VecU8 : Type := bytes.
#[global] Instance u8_eq_dec : EqDecision u8 := Z.eq_dec.
#[global] Instance u16_eq_dec : EqDecision u16 := Z.eq_dec.
#[global] Instance u32_eq_dec : EqDecision u32 := Z.eq_dec.
#[global] Instance u64_eq_dec : EqDecision u64 := Z.eq_dec.
#[global] Instance i32_eq_dec : EqDecision i32 := Z.eq_dec.
#[global] Instance RString_eq_dec : EqDecision RString := List.list_eq_dec byte_eq_dec.
#[global] Instance VecU8_eq_dec : EqDecision VecU8 := List.list_eq_dec byte_eq_dec.
(** A string literal. *)
Definition rstr (s : string) : RString := str s.
#[global] Typeclasses Opaque u8 u16 u32 u64 i32 RString VecU8.

(** [addr[0..n].copy_from_slice(&self.to_be_bytes())] and
    [(from_be_bytes([buf[0], ..]), &buf[n..])]. *)
Definition int_write (n : nat) (z : Z) (addr : bytes) : outcome Empty_set bytes :=
  copy_prefix addr (be_bytes n z).
Definition int_read (n : nat) (buf : bytes) : outcome DecodeError (Z * bytes) :=
  if len buf <? Z.of_nat n then Panic else Ok (be_value (take n buf), drop n buf).

#[global] Instance u8_attribute : NfNetlinkAttribute u8 :=
  {| is_nested _ := false; get_size _ := 1; write_payload := int_write 1 |}.
#[global] Instance u8_deserializable : NfNetlinkDeserializable u8 :=
  {| deserialize := int_read 1 |}.

#[global] Instance u16_attribute : NfNetlinkAttribute u16 :=
  {| is_nested _ := false; get_size _ := 2; write_payload := int_write 2 |}.
#[global] Instance u16_deserializable : NfNetlinkDeserializable u16 :=
  {| deserialize := int_read 2 |}.

#[global] Instance u32_attribute : NfNetlinkAttribute u32 :=
  {| is_nested _ := false; get_size _ := 4; write_payload := int_write 4 |}.
#[global] Instance u32_deserializable : NfNetlinkDeserializable u32 :=
  {| deserialize := int_read 4 |}.

#[global] Instance u64_attribute : NfNetlinkAttribute u64 :=
  {| is_nested _ := false; get_size _ := 8; write_payload := int_write 8 |}.
#[global] Instance u64_deserializable : NfNetlinkDeserializable u64 :=
  {| deserialize := int_read 8 |}.

#[global] Instance i32_attribute : NfNetlinkAttribute i32 :=
  {| is_nested _ := false; get_size _ := 4; write_payload := int_write 4 |}.
#[global] Instance i32_deserializable : NfNetlinkDeserializable i32 :=
  {| deserialize buf := '(v, rest) ← int_read 4 buf; Ok (as_i32 v, rest) |}.

(** Drop one trailing NUL. *)
Definition strip_nul (buf : bytes) : bytes :=
  match buf !! (length buf - 1)%nat with
  | Some Byte.x00 => take (length buf - 1) buf
  | _ => buf
  end.

Definition string_deserialize (buf : bytes) : outcome DecodeError (RString * bytes) :=
  let buf := strip_nul buf in
  if utf8_valid buf then Ok (buf, []) else Err (StringDecodeFailure buf).

#[global] Instance string_attribute : NfNetlinkAttribute RString :=
  {| is_nested _ := false; get_size s := len s; write_payload s addr := copy_prefix addr s |}.
#[global] Instance string_deserializable : NfNetlinkDeserializable RString :=
  {| deserialize := string_deserialize |}.

#[global] Instance vec_attribute : NfNetlinkAttribute VecU8 :=
  {| is_nested _ := false; get_size v := len v; write_payload v addr := copy_prefix addr v |}.
#[global] Instance vec_deserializable : NfNetlinkDeserializable VecU8 :=
  {| deserialize buf := Ok (buf, []) |}.

(** ** Lists *)
Record NfNetlinkList (T : Type) := MkList { objs : list T }.
Arguments MkList {T} objs.
Arguments objs {T} _.

#[global] Instance NfNetlinkList_eq_dec {T : Type} `{EqDecision T} : EqDecision (NfNetlinkList T).
Proof. solve_decision. Defined.

Definition NfNetlinkList_default {T : Type} : NfNetlinkList T := MkList [].

(** [add_value] and [with_value], after the conversion of their argument. *)
Definition add_value {T : Type} (e : T) (l : NfNetlinkList T) : NfNetlinkList T :=
  MkList (objs l ++ [e]).
Definition with_value {T : Type} (l : NfNetlinkList T) (e : T) : NfNetlinkList T :=
  add_value e l.

(** [From<Vec<O>>], with the conversion [T::from]. *)
Definition list_from {O T : Type} (f : O → T) (v : list O) : NfNetlinkList T :=
  MkList (map f v).

Section ListImpl.
Context `{BuildProfile} `{Sys} {T : Type} `{NfNetlinkAttribute T} `{NfNetlinkDeserializable T}.

Definition list_get_size (l : NfNetlinkList T) : Z :=
  foldl (λ acc item, acc + get_size item + pad_netlink_object nlattr_layout) 0 (objs l).

(** The elements are laid out without padding. *)
Fixpoint list_write (items : list T) (addr : bytes) : outcome Empty_set bytes :=
  match items with
  | [] => Ok addr
  | item :: items =>
      addr ← write_attribute NFTA_LIST_ELEM item addr;
      let offset := pad_netlink_object nlattr_layout + get_size item in
      tail ← slice_from addr offset;
      tail' ← list_write items tail;
      Ok (take (Z.to_nat offset) addr ++ tail')
  end.

Fixpoint list_read_loop (fuel : nat) (buf : bytes) (pos : Z) (acc : list T)
    : outcome DecodeError (Z * list T) :=
  rem ← usize_sub (len buf) pos;
  if rem >? pad_netlink_object nlattr_layout then
    match fuel with
    | O => Diverge
    | S fuel =>
        s ← slice_from buf pos;
        a ← read_struct nlattr_layout s;
        let ty := Z.land (nla_type a) (as_u16 NLA_TYPE_MASK) in
        if negb (ty =? NFTA_LIST_ELEM) then Err (UnsupportedAttributeType ty)
        else
          start ← usize_add pos (pad_netlink_object nlattr_layout);
          stop ← usize_add pos (nla_len a);
          sub ← slice buf start stop;
          '(obj, remaining) ← deserialize sub;
          if negb (len remaining =? 0) then Err InvalidDataSize
          else
            pos ← usize_add pos (pad_netlink_object_with_variable_size (nla_len a));
            list_read_loop fuel buf pos (acc ++ [obj])
    end
  else Ok (pos, acc).

Definition list_read (buf : bytes) : outcome DecodeError (NfNetlinkList T * bytes) :=
  '(pos, acc) ← list_read_loop (S (length buf)) buf 0 [];
  if negb (pos =? len buf) then Err InvalidDataSize else Ok (MkList acc, []).

#[global] Instance list_attribute : NfNetlinkAttribute (NfNetlinkList T) :=
  {| is_nested _ := true; get_size := list_get_size;
     write_payload l addr := list_write (objs l) addr |}.
#[global] Instance list_deserializable : NfNetlinkDeserializable (NfNetlinkList T) :=
  {| deserialize := list_read |}.
End ListImpl.

(** ** Integers, strings and vectors round-trip *)
Section Basic.

Lemma copy_prefix_app {E} (old src rest : bytes) :
  len old = len src → copy_prefix (E := E) (old ++ rest) src = Ok (src ++ rest).
Proof.
  intros Hl. unfold copy_prefix. rewrite len_app. pose proof (len_nonneg rest). ztest.
  rewrite drop_app_length'; [done|]. unfold len in Hl. lia.
Qed.

Lemma copied {A} `{NfNetlinkAttribute A} (a : A) (b : bytes) :
  len b = get_size a → (∀ addr, write_payload a addr = copy_prefix addr b) →
  writable a ∧ encode a = b.
Proof.
  intros Hl Hw. pose proof (len_nonneg b). apply writable_intro; [lia|done|].
  intros rest. rewrite Hw. apply copy_prefix_app. rewrite len_zeros; lia.
Qed.

Lemma int_read_bytes n z :
  int_read n (be_bytes n z) = Ok (z mod 2 ^ (Z.of_nat n * 8), []).
Proof.
  unfold int_read. rewrite len_be_bytes. ztest.
  assert (length (be_bytes n z) = n) as Hn.
  { pose proof (len_be_bytes n z). unfold len in *. lia. }
  rewrite take_ge, drop_ge by lia. by rewrite be_value_bytes.
Qed.

Lemma u8_writable (v : u8) : writable v ∧ encode v = be_bytes 1 v.
Proof. by apply copied. Qed.
Lemma u16_writable (v : u16) : writable v ∧ encode v = be_bytes 2 v.
Proof. by apply copied. Qed.
Lemma u32_writable (v : u32) : writable v ∧ encode v = be_bytes 4 v.
Proof. by apply copied. Qed.
Lemma u64_writable (v : u64) : writable v ∧ encode v = be_bytes 8 v.
Proof. by apply copied. Qed.
Lemma i32_writable (v : i32) : writable v ∧ encode v = be_bytes 4 v.
Proof. by apply copied. Qed.
Lemma string_writable (v : RString) : writable v ∧ encode v = v.
Proof. by apply copied. Qed.
Lemma vec_writable (v : VecU8) : writable v ∧ encode v = v.
Proof. by apply copied. Qed.

Lemma u8_roundtrips (v : u8) : u8_ok v → roundtrips v.
Proof.
  intros. unfold roundtrips. rewrite (proj2 (u8_writable v)). cbn. rewrite int_read_bytes.
  by rewrite Z.mod_small.
Qed.
Lemma u16_roundtrips (v : u16) : u16_ok v → roundtrips v.
Proof.
  intros. unfold roundtrips. rewrite (proj2 (u16_writable v)). cbn. rewrite int_read_bytes.
  by rewrite Z.mod_small.
Qed.
Lemma u32_roundtrips (v : u32) : u32_ok v → roundtrips v.
Proof.
  intros. unfold roundtrips. rewrite (proj2 (u32_writable v)). cbn. rewrite int_read_bytes.
  by rewrite Z.mod_small.
Qed.
Lemma u64_roundtrips (v : u64) : u64_ok v → roundtrips v.
Proof.
  intros. unfold roundtrips. rewrite (proj2 (u64_writable v)). cbn. rewrite int_read_bytes.
  by rewrite Z.mod_small.
Qed.
Lemma i32_roundtrips (v : i32) : i32_ok v → roundtrips v.
Proof.
  intros Hv. unfold roundtrips. rewrite (proj2 (i32_writable v)). cbn. rewrite int_read_bytes.
  obind. unfold i32_ok, as_i32 in *. change (Z.of_nat 4 * 8) with 32.
  by rewrite Zplus_mod_idemp_l, Z.mod_small by lia; rewrite Z.add_simpl_r.
Qed.

(** A string a [CStr] could hold at its end: no trailing NUL. *)
Definition string_ok (s : bytes) : bool :=
  utf8_valid s && match s !! (length s - 1)%nat with Some Byte.x00 => false | _ => true end.

Lemma string_roundtrips (v : RString) : string_ok v = true → roundtrips v.
Proof.
  unfold string_ok. intros Hv. apply andb_true_iff in Hv as [Hu Hl]. unfold roundtrips.
  rewrite (proj2 (string_writable v)). cbn. unfold string_deserialize, strip_nul.
  destruct ((v : bytes) !! _) as [[]|]; try done; by rewrite Hu.
Qed.

Lemma strip_nul_app (l : bytes) : strip_nul (l ++ [Byte.x00]) = l.
Proof.
  unfold strip_nul. rewrite length_app. cbn [length]. rewrite Nat.add_sub.
  match goal with |- match ?o with _ => _ end = _ =>
    assert (o = Some Byte.x00) as -> by (by apply list_lookup_middle) end.
  apply take_app_length.
Qed.

Lemma vec_roundtrips (v : VecU8) : roundtrips v.
Proof. unfold roundtrips. by rewrite (proj2 (vec_writable v)). Qed.
End Basic.

(** ** The list loop, on what is left of the buffer *)
Section ListWalk.
Context `{Sys} {T : Type} `{NfNetlinkDeserializable T}.

Fixpoint walk_list (fuel : nat) (rest : bytes) (acc : list T) : outcome DecodeError (list T) :=
  if 4 <? len rest then
    match fuel with
    | O => Diverge
    | S fuel =>
        let l := nla_len (next_attr rest) in
        let ty := Z.land (nla_type (next_attr rest)) (as_u16 NLA_TYPE_MASK) in
        if negb (ty =? NFTA_LIST_ELEM) then Err (UnsupportedAttributeType ty)
        else if (l <? 4) || (len rest <? l) then Panic
        else
          '(obj, remaining) ← deserialize (take (Z.to_nat (l - 4)) (drop 4 rest));
          if negb (len remaining =? 0) then Err InvalidDataSize
          else if len rest <? pad_netlink_object_with_variable_size l then Panic
          else
            walk_list fuel (drop (Z.to_nat (pad_netlink_object_with_variable_size l)) rest)
              (acc ++ [obj])
    end
  else if len rest =? 0 then Ok acc else Err InvalidDataSize.
End ListWalk.

Section ListLemmas.
Context `{BuildProfile} `{SysLaws} {T : Type} `{NfNetlinkAttribute T} `{NfNetlinkDeserializable T}.

Lemma list_overrun_panics fuel buf pos (acc : list T) :
  len buf < pos → pos < 2 ^ 63 + 2 ^ 17 → len buf ≤ isize_max → pos - len buf < 2 ^ 17 →
  list_read_loop (S fuel) buf pos acc = Panic.
Proof.
  unfold isize_max. intros. pose proof (len_nonneg buf). cbn [list_read_loop].
  destruct (usize_sub_neg (E := DecodeError) (len buf) pos) as [-> | ->]; [lia..|done|].
  obind. rewrite pad_nlattr. ztest. by rewrite slice_from_panic.
Qed.

Lemma list_loop_walk fuel buf pos (acc : list T) :
  len buf ≤ isize_max → 0 ≤ pos ≤ len buf → len buf - pos < Z.of_nat fuel →
  ('(p, x) ← list_read_loop fuel buf pos acc;
   if negb (p =? len buf) then Err InvalidDataSize else Ok x)
  = walk_list fuel (drop (Z.to_nat pos) buf) acc.
Proof.
  revert pos acc. induction fuel as [|fuel IH]; intros pos acc Hmax Hpos Hfuel; [lia|].
  cbn [list_read_loop walk_list].
  rewrite (usize_sub_small (len buf) pos) by lia. obind.
  rewrite pad_nlattr, len_drop by lia.
  destruct (Z.ltb_spec 4 (len buf - pos)) as [Hlt|Hge]; ztest.
  2: { obind. destruct (Z.eqb_spec pos (len buf)); ztest; done. }
  rewrite slice_from_ok by lia. obind. set (rest := drop (Z.to_nat pos) buf).
  assert (len rest = len buf - pos) as Hrest by (apply len_drop; lia).
  destruct (read_struct_prefix (L := nlattr_layout) (E := DecodeError) (n := 4) rest)
    as [-> [Hl _]]; [lia|]. obind.
  change (of_bytes nlattr_layout (take (Z.to_nat 4) rest)) with (next_attr rest) in *.
  set (l := nla_len (next_attr rest)) in *. set (ty := Z.land _ _).
  clearbody l ty. unfold isize_max in Hmax. unfold u16_ok in Hl.
  destruct (ty =? NFTA_LIST_ELEM); cbn [negb]; [|done].
  rewrite (usize_add_small pos 4), (usize_add_small pos l) by lia. obind.
  destruct (Z.ltb_spec l 4); cbn [orb]; [by rewrite slice_panic by lia|].
  destruct (Z.ltb_spec (len buf - pos) l); [by rewrite slice_panic by lia|].
  rewrite slice_suffix by lia. obind. rewrite (drop_add buf pos 4) by lia. fold rest.
  replace (pos + l - (pos + 4)) with (l - 4) by lia. change (Z.to_nat 4) with 4%nat.
  destruct (deserialize _) as [[obj remaining]| | | |]; [obind|done..].
  destruct (len remaining =? 0); cbn [negb]; [|done].
  pad_facts. rewrite usize_add_small by lia. obind.
  destruct (Z.ltb_spec (len buf - pos) (pad_netlink_object_with_variable_size l)).
  { destruct fuel; [lia|]. by rewrite list_overrun_panics by (unfold isize_max; lia). }
  rewrite IH by (unfold isize_max; lia). unfold rest. by rewrite drop_add by lia.
Qed.

Lemma list_read_walk buf :
  len buf ≤ isize_max →
  list_read (T := T) buf = (l ← walk_list (S (length buf)) buf []; Ok (MkList l, [])).
Proof.
  intros. unfold list_read. pose proof (list_loop_walk (S (length buf)) buf 0 []) as Hw.
  rewrite drop_0 in Hw. rewrite <- Hw; clear Hw;
    [|done|pose proof (len_nonneg buf); lia|unfold len; lia].
  destruct (list_read_loop _ _ _ _) as [[p x]| | | |]; try done. obind. by destruct (p =? _).
Qed.

(** *** Memory safety and termination *)
Definition safe_deserializer : Prop :=
  ∀ b : bytes, len b ≤ isize_max → safe (deserialize (A := T) b).

Lemma walk_list_safe fuel rest (acc : list T) :
  safe_deserializer → len rest ≤ isize_max → len rest < Z.of_nat fuel →
  safe (walk_list fuel rest acc).
Proof.
  intros Hd. revert rest acc. induction fuel as [|fuel IH]; intros rest acc Hmax Hfuel.
  { pose proof (len_nonneg rest). lia. }
  cbn [walk_list]. destruct (Z.ltb_spec 4 (len rest)).
  2: { destruct (len rest =? 0); auto with netlink. }
  pose proof (next_attr_ok rest ltac:(lia)) as [Hl _]. unfold u16_ok in Hl.
  set (l := nla_len (next_attr rest)) in *. clearbody l. cbv zeta.
  destruct (_ =? NFTA_LIST_ELEM); cbn [negb]; [|auto with netlink].
  destruct (Z.ltb_spec l 4); cbn [orb]; [auto with netlink|].
  destruct (Z.ltb_spec (len rest) l); cbn [orb]; [auto with netlink|].
  pad_facts. apply safe_bind.
  - apply Hd. rewrite len_take; [lia|]. change 4%nat with (Z.to_nat 4). rewrite len_drop; lia.
  - intros [obj remaining] _. destruct (len remaining =? 0); cbn [negb]; [|auto with netlink].
    destruct (Z.ltb_spec (len rest) (pad_netlink_object_with_variable_size l));
      [auto with netlink|]. apply IH; rewrite len_drop; lia.
Qed.

Lemma list_read_safe buf :
  safe_deserializer → len buf ≤ isize_max → safe (list_read (T := T) buf).
Proof.
  intros. rewrite list_read_walk by done. apply safe_bind; [|auto with netlink].
  apply walk_list_safe; [done..|]. unfold len. lia.
Qed.
End ListLemmas.

(** ** Lists round-trip when their elements do *)
Section ListRoundtrip.
Context `{BuildProfile} `{SysLaws} {T : Type} `{NfNetlinkAttribute T} `{NfNetlinkDeserializable T}.

(** An element that fills whole words, as the writer assumes and the reader checks. *)
Definition aligned (item : T) : Prop :=
  writable item ∧ get_size item mod 4 = 0 ∧ get_size item < 2 ^ 63.

Definition list_attrs (items : list T) : list Attr := map (value_attr NFTA_LIST_ELEM) items.

Definition items_size (items : list T) : Z := foldr (λ i acc, 4 + get_size i + acc) 0 items.

Lemma list_get_size_sum items : list_get_size (MkList items) = items_size items.
Proof.
  unfold list_get_size. simpl. rewrite pad_nlattr.
  enough (∀ acc, foldl (λ acc item, acc + get_size item + 4) acc items
                 = acc + items_size items) as -> by lia.
  induction items as [|i items IH]; intros acc; simpl; [lia|]. rewrite IH. lia.
Qed.

Lemma items_size_nonneg items : Forall aligned items → 0 ≤ items_size items.
Proof. induction 1 as [|i items [[? _] _] _ IH]; simpl; lia. Qed.

Lemma encode_aligned item :
  aligned item →
  encode_attr (value_attr NFTA_LIST_ELEM item)
  = to_bytes nlattr_layout (attr_header (value_attr NFTA_LIST_ELEM item)) ++ encode item.
Proof.
  intros [(Hs & Hl & _) [Hm Hb]]. unfold encode_attr, padding. cbn [value_attr at_payload].
  rewrite Hl, pad_aligned by lia. by rewrite Z.sub_diag, app_nil_r.
Qed.

Lemma list_write_encode items rest :
  Forall aligned items →
  list_write items (zeros (items_size items) ++ rest)
  = Ok (encode_attrs (list_attrs items) ++ rest).
Proof.
  induction 1 as [|i items Hi Hitems IH]; [done|]. cbn [list_write items_size foldr].
  fold (items_size items). pose proof (items_size_nonneg _ Hitems).
  pose proof Hi as [Hw [_ Hb]]. pose proof Hw as (Hs & Hl & _).
  rewrite zeros_add, <- app_assoc, write_attribute_encode by (done || lia). obind.
  rewrite pad_nlattr, app_assoc, slice_from_app by
    (rewrite len_app, (to_bytes_len (L := nlattr_layout)), Hl; lia). obind.
  rewrite IH. obind.
  rewrite take_app_len by (rewrite len_app, (to_bytes_len (L := nlattr_layout)), Hl; lia).
  cbn [list_attrs map encode_attrs flat_map]. rewrite encode_aligned by done.
  by rewrite <- !app_assoc.
Qed.

Lemma len_list_attrs items :
  Forall aligned items → len (encode_attrs (list_attrs items)) = items_size items.
Proof.
  induction 1 as [|i items Hi _ IH]; [done|].
  cbn [list_attrs map encode_attrs flat_map items_size foldr]. rewrite len_app, encode_aligned by done.
  change (flat_map encode_attr (map _ items)) with (encode_attrs (list_attrs items)).
  destruct Hi as [(_ & Hl & _) _].
  rewrite len_app, (to_bytes_len (L := nlattr_layout)), IH, Hl. done.
Qed.

Lemma list_writable items :
  Forall aligned items →
  writable (MkList items) ∧ encode (MkList items) = encode_attrs (list_attrs items).
Proof.
  intros Hi. apply writable_intro; cbn [get_size write_payload list_attribute].
  - rewrite list_get_size_sum. by apply items_size_nonneg.
  - by rewrite list_get_size_sum, len_list_attrs.
  - intros rest. rewrite list_get_size_sum. by apply list_write_encode.
Qed.

(** The elements of a list that can be read back. *)
Definition readable (item : T) : Prop :=
  aligned item ∧ 4 + get_size item < 2 ^ 16 ∧ roundtrips item.

Definition last_nonempty (items : list T) : Prop :=
  match reverse items with [] => True | item :: _ => 0 < get_size item end.

Lemma last_nonempty_tail i items : items ≠ [] → last_nonempty (i :: items) → last_nonempty items.
Proof.
  unfold last_nonempty. intros Hne. rewrite reverse_cons.
  destruct (reverse items) eqn:Hr; [|done].
  apply (f_equal reverse) in Hr. by rewrite reverse_involutive in Hr.
Qed.

Context (elem_ok : 0 ≤ NFTA_LIST_ELEM < 2 ^ 14).

Lemma walk_list_step fuel item rest acc :
  readable item → (0 < get_size item ∨ rest ≠ []) →
  walk_list (S fuel) (encode_attr (value_attr NFTA_LIST_ELEM item) ++ rest) acc
  = walk_list fuel rest (acc ++ [item]).
Proof.
  intros (Ha & Hb & Hr) Hne. pose proof Ha as [(Hs & Hl & _) [Hm _]].
  set (a := value_attr NFTA_LIST_ELEM item). pose proof (len_nonneg rest).
  assert (at_payload a = encode item) as Hpa by done.
  assert (attr_ok a) as Haok by (split; [done|rewrite Hpa; lia]).
  assert (encode_attr a = to_bytes nlattr_layout (attr_header a) ++ encode item) as Hea
    by (by apply encode_aligned).
  assert (next_attr (encode_attr a ++ rest) = attr_header a) as Hnext.
  { rewrite Hea. unfold next_attr. rewrite <- app_assoc. change 4%nat with (Z.to_nat 4).
    rewrite take_app_len by (by rewrite (to_bytes_len (L := nlattr_layout))).
    by apply of_to_bytes, attr_header_ok. }
  assert (len (encode_attr a) = 4 + get_size item) as Hlen
    by (rewrite Hea, len_app, (to_bytes_len (L := nlattr_layout)); lia).
  assert (4 < len (encode_attr a ++ rest)).
  { rewrite len_app, Hlen. destruct Hne as [|Hne]; [lia|].
    destruct rest; [done|]. rewrite len_cons in *. pose proof (len_nonneg rest). lia. }
  cbn [walk_list]. rewrite Hnext, nla_len_attr_header, masked_type, Hpa, Hl by done.
  rewrite pad_aligned by (lia || (Z.div_mod_to_equations; lia)).
  cbn [a value_attr at_type]. rewrite Z.eqb_refl. rewrite len_app, Hlen in *. ztest.
  rewrite Z.add_simpl_l.
  assert (take (Z.to_nat (get_size item)) (drop 4 (encode_attr a ++ rest)) = encode item) as ->.
  { rewrite Hea, <- app_assoc. change 4%nat with (Z.to_nat 4).
    rewrite drop_app_len by (by rewrite (to_bytes_len (L := nlattr_layout))).
    by apply take_app_len. }
  unfold roundtrips in Hr. rewrite Hr. obind. cbn [len length]. ztest.
  by rewrite drop_app_len.
Qed.

Lemma walk_list_encode fuel items acc :
  Forall readable items → last_nonempty items → (length items < fuel)%nat →
  walk_list fuel (encode_attrs (list_attrs items)) acc = Ok (acc ++ items).
Proof.
  intros Hr. revert fuel acc. induction Hr as [|i items Hi Hitems IH]; intros fuel acc Hne Hf.
  { destruct fuel; by rewrite app_nil_r. }
  destruct fuel as [|fuel]; [lia|]. cbn [list_attrs map encode_attrs flat_map].
  change (flat_map encode_attr (map _ items)) with (encode_attrs (list_attrs items)).
  destruct (decide (items = [])) as [->|Hitems'].
  - rewrite walk_list_step by (done || by left). by destruct fuel.
  - rewrite walk_list_step; [|done|].
    + rewrite IH; [by rewrite <- app_assoc|by eapply last_nonempty_tail|simpl in Hf; lia].
    + right. destruct items as [|j items]; [done|]. cbn [list_attrs map encode_attrs flat_map].
      inversion Hitems as [|? ? [Hj _] _]; subst. rewrite encode_aligned by done.
      intros Hnil%(f_equal (len (A := _))). rewrite !len_app, (to_bytes_len (L := nlattr_layout)) in Hnil.
      pose proof (len_nonneg (encode j)). pose proof (len_nonneg (flat_map encode_attr (map (value_attr NFTA_LIST_ELEM) items))).
      unfold len in Hnil at 3. simpl in Hnil. lia.
Qed.

Lemma list_roundtrips items :
  Forall readable items → last_nonempty items → items_size items ≤ isize_max →
  roundtrips (MkList items).
Proof.
  intros Hr Hne Hmax.
  assert (Forall aligned items) as Ha by (eapply Forall_impl; [|done]; by intros ? [? _]).
  unfold roundtrips. rewrite (proj2 (list_writable _ Ha)). cbn [deserialize list_deserializable].
  pose proof (len_list_attrs _ Ha) as Hlen.
  rewrite list_read_walk by (by rewrite Hlen). rewrite walk_list_encode; [done..|].
  assert (Z.of_nat (length items) ≤ items_size items) as Hle.
  { clear -Ha. induction Ha as [|i items [[? _] _] _ IH]; [done|]. simpl. lia. }
  unfold len in Hlen. lia.
Qed.
End ListRoundtrip.
