(* ===== verification/Macros.v ===== *)
(** * The code the attribute macros generate: [macros/src/lib.rs]

    [nfnetlink_enum] and [nfnetlink_struct] are programs that write trait
    implementations.  The model is generic in the same way: an enumeration is
    described by its representation and its variants, a structure by its list of
    fields, and the definitions below are the generated bodies for any such
    description.  What is proved here once holds of every type of the crate that the
    macros implement. *)

From S2P Require Import Prelude Sys Errors Lib Nlmsg Parser ParserImpls.
Local Open Scope Z_scope.

(** ** [nfnetlink_enum] *)
Inductive Repr := ReprU8 | ReprI32 | ReprU32.

(** [as #repr_type]. *)
Definition repr_cast (r : Repr) (z : Z) : Z :=
  match r with ReprU8 => as_u8 z | ReprI32 => as_i32 z | ReprU32 => as_u32 z end.
Definition repr_size (r : Repr) : Z :=
  match r with ReprU8 => get_size (0 : u8) | ReprI32 => get_size (0 : i32)
  | ReprU32 => get_size (0 : u32) end.
Definition repr_write (r : Repr) (z : Z) (addr : bytes) : outcome Empty_set bytes :=
  match r with ReprU8 => write_payload (z : u8) addr | ReprI32 => write_payload (z : i32) addr
  | ReprU32 => write_payload (z : u32) addr end.
Definition repr_read (r : Repr) (buf : bytes) : outcome DecodeError (Z * bytes) :=
  match r with ReprU8 => deserialize (A := u8) buf | ReprI32 => deserialize (A := i32) buf
  | ReprU32 => deserialize (A := u32) buf end.

Class NfnetlinkEnum (E : Type) := {
  enum_repr : Repr;
  variants : list E;
  discriminant : E → Z;
  unknown_variant : Z → DecodeError }.

Section Enum.
Context {E : Type} `{NfnetlinkEnum E}.

(** [*self as #repr_type]. *)
Definition enum_value (x : E) : Z := repr_cast enum_repr (discriminant x).

Fixpoint try_from_variants (vs : list E) (val : Z) : outcome DecodeError E :=
  match vs with
  | [] => Err (unknown_variant val)
  | x :: vs => if val =? enum_value x then Ok x else try_from_variants vs val
  end.

Definition try_from (val : Z) : outcome DecodeError E := try_from_variants variants val.

Definition enum_deserialize (buf : bytes) : outcome DecodeError (E * bytes) :=
  '(v, remaining_data) ← repr_read enum_repr buf;
  x ← try_from v;
  Ok (x, remaining_data).

#[global] Instance enum_attribute : NfNetlinkAttribute E | 10 :=
  {| is_nested _ := false; get_size _ := repr_size enum_repr;
     write_payload x addr := repr_write enum_repr (enum_value x) addr |}.
#[global] Instance enum_deserializable : NfNetlinkDeserializable E | 10 :=
  {| deserialize := enum_deserialize |}.
End Enum.

(** ** [nfnetlink_struct] *)

(** A field annotated with [#[field(..)]]: its type with that type's trait
    implementations, the path of its netlink type and the value of that constant,
    the [optional] argument, and access to the field, an [Option] in the generated
    structure. *)
Record Field (S : Type) := MkField {
  field_type : Type;
  field_attribute : NfNetlinkAttribute field_type;
  field_deserializable : NfNetlinkDeserializable field_type;
  netlink_ident : string;
  netlink_type : Z;
  optional : bool;
  get_field : S → option field_type;
  set_field : field_type → S → S }.
Arguments field_type {S} _.
Arguments field_attribute {S} _.
Arguments field_deserializable {S} _.
Arguments netlink_ident {S} _.
Arguments netlink_type {S} _.
Arguments optional {S} _.
Arguments get_field {S} _ _.
Arguments set_field {S} _ _ _.
#[global] Existing Instance field_attribute.
#[global] Existing Instance field_deserializable.

Definition mk_field {S T : Type} `{NfNetlinkAttribute T} `{NfNetlinkDeserializable T}
    (ident : string) (ty : Z) (opt : bool) (get : S → option T) (set : T → S → S) : Field S :=
  MkField S T _ _ ident ty opt get set.

(** The reader of a field of a structure declared with [derive_decoder = false]: the
    macro generates no use of it. *)
Definition no_derived_reader {T : Type} : NfNetlinkDeserializable T :=
  {| deserialize _ := Panic |}.

Section Struct.
Context `{BuildProfile} `{Sys} {S : Type}.

(** An optional field is generated only when the headers declare its type. *)
Definition accept_fields (fs : list (Field S)) : list (Field S) :=
  filter (λ f, optional f = true → netlink_ident f ∈ declared_identifiers) fs.

Definition struct_get_size (fs : list (Field S)) (self : S) : Z :=
  foldl (λ size f,
    match get_field f self with
    | Some val => size + (pad_netlink_object nlattr_layout
                          + pad_netlink_object_with_variable_size (get_size val))
    | None => size
    end) 0 fs.

Fixpoint struct_write_payload (fs : list (Field S)) (self : S) (addr : bytes)
    : outcome Empty_set bytes :=
  match fs with
  | [] => Ok addr
  | f :: fs =>
      match get_field f self with
      | Some val =>
          addr ← write_attribute (netlink_type f) val addr;
          let size := pad_netlink_object nlattr_layout
            + pad_netlink_object_with_variable_size (get_size val) in
          tail ← slice_from addr size;
          tail' ← struct_write_payload fs self tail;
          Ok (take (Z.to_nat size) addr ++ tail')
      | None => struct_write_payload fs self addr
      end
  end.

Fixpoint struct_decode_attribute (fs : list (Field S)) (self : S) (attr_type : Z) (buf : bytes)
    : outcome DecodeError S :=
  match fs with
  | [] => Err (UnsupportedAttributeType attr_type)
  | f :: fs =>
      if attr_type =? netlink_type f then
        '(val, remaining) ← deserialize (A := field_type f) buf;
        if negb (len remaining =? 0) then Err InvalidDataSize
        else Ok (set_field f val self)
      else struct_decode_attribute fs self attr_type buf
  end.

Definition struct_attribute (fs : list (Field S)) (nested : bool) : NfNetlinkAttribute S :=
  {| is_nested _ := nested; get_size := struct_get_size fs;
     write_payload := struct_write_payload fs |}.

Definition struct_decoder (fs : list (Field S)) : AttributeDecoder S :=
  {| decode_attribute := struct_decode_attribute fs |}.

Definition struct_deserialize (dflt : S) `{AttributeDecoder S} (buf : bytes)
    : outcome DecodeError (S * bytes) :=
  res ← read_attributes dflt buf;
  Ok (res, []).

Definition struct_deserializable (dflt : S) `{AttributeDecoder S} : NfNetlinkDeserializable S :=
  {| deserialize := struct_deserialize dflt |}.
End Struct.

(** ** Enumerations round-trip *)

(** What the compiler checks of an enumeration: the variants are all of its values,
    with distinct discriminants, in the range of the representation. *)
Definition repr_ok (r : Repr) (z : Z) : Prop :=
  match r with ReprU8 => u8_ok z | ReprI32 => i32_ok z | ReprU32 => u32_ok z end.

Class EnumLaws (E : Type) `{NfnetlinkEnum E} : Prop := {
  variants_all : ∀ x : E, x ∈ variants;
  discriminants : enumeration (repr_ok enum_repr) (discriminant <$> variants) }.

Section EnumLemmas.
Context {E : Type} `{EnumLaws E}.

Lemma enum_value_eq (x : E) : enum_value x = discriminant x.
Proof.
  destruct discriminants as [_ Hok].
  assert (repr_ok enum_repr (discriminant x)) as Hx.
  { eapply (proj1 (list.Forall_forall _ _)); [exact Hok|]. apply list_elem_of_fmap. eauto using variants_all. }
  unfold enum_value. destruct enum_repr; [by apply as_u8_small|by apply as_i32_small|by apply as_u32_small].
Qed.

Lemma discriminant_inj (x y : E) : discriminant x = discriminant y → x = y.
Proof.
  intros Heq. destruct discriminants as [Hnd _].
  pose proof (variants_all x) as [i Hi]%list_elem_of_lookup.
  pose proof (variants_all y) as [j Hj]%list_elem_of_lookup.
  assert (i = j) as ->; [|congruence].
  eapply NoDup_lookup; [exact Hnd|..]; rewrite list_lookup_fmap.
  - by rewrite Hi.
  - rewrite Hj. simpl. by rewrite Heq.
Qed.

(** Converting back gives the variant, and nothing else converts. *)
Lemma try_from_Ok val (x : E) : try_from val = Ok x ↔ val = discriminant x.
Proof.
  unfold try_from. pose proof (variants_all x) as Hx. revert Hx.
  induction variants as [|y vs IH]; intros Hx; [by apply elem_of_nil in Hx|].
  cbn [try_from_variants]. rewrite enum_value_eq.
  destruct (Z.eqb_spec val (discriminant y)) as [->|Hne].
  - split; [by intros [= ->]|]. by intros ->%discriminant_inj.
  - apply elem_of_cons in Hx as [->|Hx]; [|by apply IH].
    split; [|by intros ->]. intros Ht. exfalso. apply Hne. clear -Ht H0.
    revert Ht. induction vs as [|z vs IH]; [done|]. cbn [try_from_variants].
    rewrite enum_value_eq. destruct (Z.eqb_spec val (discriminant z)) as [->|]; [|done].
    by intros [= ->].
Qed.

Lemma try_from_Err val :
  (∀ x : E, val ≠ discriminant x) → try_from val = Err (unknown_variant (E := E) val).
Proof.
  intros Hne. unfold try_from. induction variants as [|y vs IH]; [done|].
  cbn [try_from_variants]. rewrite enum_value_eq.
  by rewrite (proj2 (Z.eqb_neq _ _) (Hne y)).
Qed.

Lemma try_from_safe val : safe (try_from (E := E) val).
Proof.
  unfold try_from. induction variants; cbn [try_from_variants]; auto with netlink.
  destruct_ifs; auto with netlink.
Qed.

Lemma repr_ok_discriminant (x : E) : repr_ok enum_repr (discriminant x).
Proof.
  destruct discriminants as [_ Hok].
  eapply (proj1 (list.Forall_forall _ _)); [exact Hok|]. apply list_elem_of_fmap.
  eauto using variants_all.
Qed.

Lemma enum_writable (x : E) :
  writable x ∧ encode x = be_bytes (Z.to_nat (repr_size enum_repr)) (enum_value x).
Proof.
  apply copied; cbn [get_size write_payload enum_attribute].
  - by destruct enum_repr; rewrite len_be_bytes.
  - intros addr. by destruct enum_repr.
Qed.

Lemma enum_size (x : E) : 1 ≤ get_size x ≤ 4.
Proof. cbn [get_size enum_attribute]. by destruct enum_repr. Qed.

Lemma enum_roundtrips (x : E) : roundtrips x.
Proof.
  unfold roundtrips. rewrite (proj2 (enum_writable x)), enum_value_eq.
  cbn [deserialize enum_deserializable]. unfold enum_deserialize.
  pose proof (repr_ok_discriminant x) as Hok.
  assert (repr_read enum_repr
    (be_bytes (Z.to_nat (repr_size enum_repr)) (discriminant x)) = Ok (discriminant x, [])) as ->.
  { destruct enum_repr; simpl in *.
    - rewrite (int_read_bytes 1). by rewrite Z.mod_small.
    - pose proof (i32_roundtrips (discriminant x) Hok) as Hr. unfold roundtrips in Hr.
      by rewrite (proj2 (i32_writable (discriminant x))) in Hr.
    - rewrite (int_read_bytes 4). by rewrite Z.mod_small. }
  obind. by rewrite (proj2 (try_from_Ok (discriminant x) x)).
Qed.
End EnumLemmas.

Lemma int_read_safe n b : safe (int_read n b).
Proof. unfold int_read. destruct_ifs; auto with netlink. Qed.

Lemma enum_safe {E} `{EnumLaws E} : safe_deserializer (T := E).
Proof.
  intros b _. cbn [deserialize enum_deserializable]. unfold enum_deserialize.
  apply safe_bind.
  - destruct enum_repr; try apply int_read_safe. apply safe_bind; [apply int_read_safe|].
    intros [] _. auto with netlink.
  - intros [v rest] _. apply safe_bind; [apply try_from_safe|auto with netlink].
Qed.

(** ** Structures: sizes and writing *)
Section StructLemmas.
Context `{BuildProfile} `{SysLaws} {S : Type}.
Implicit Types fs : list (Field S).
Implicit Types s : S.

(** The attributes a structure is written as. *)
Fixpoint struct_attrs fs s : list Attr :=
  match fs with
  | [] => []
  | f :: fs =>
      match get_field f s with
      | Some v => value_attr (netlink_type f) v :: struct_attrs fs s
      | None => struct_attrs fs s
      end
  end.

Definition field_writable s (f : Field S) : Prop :=
  ∀ v, get_field f s = Some v → writable v ∧ get_size v < 2 ^ 62.

Fixpoint fields_size fs s : Z :=
  match fs with
  | [] => 0
  | f :: fs =>
      match get_field f s with
      | Some v => 4 + pad_netlink_object_with_variable_size (get_size v) + fields_size fs s
      | None => fields_size fs s
      end
  end.

Lemma struct_get_size_sum fs s : struct_get_size fs s = fields_size fs s.
Proof.
  unfold struct_get_size. rewrite pad_nlattr.
  match goal with |- foldl ?g 0 fs = _ =>
    enough (∀ acc, foldl g acc fs = acc + fields_size fs s) as -> by lia end.
  induction fs as [|f fs IH]; intros acc; cbn [foldl fields_size]; [lia|].
  destruct (get_field f s); rewrite IH; lia.
Qed.

Lemma fields_size_spec fs s :
  Forall (field_writable s) fs → 0 ≤ fields_size fs s ∧ fields_size fs s mod 4 = 0.
Proof.
  induction 1 as [|f fs Hf _ [IH1 IH2]]; cbn [fields_size]; [done|].
  destruct (get_field f s) as [v|] eqn:Hv; [|done].
  destruct (Hf v Hv) as [[Hs _] Hb]. pad_facts.
  assert (pad_netlink_object_with_variable_size (get_size v) mod 4 = 0) by (apply pad_mod; lia).
  Z.div_mod_to_equations. lia.
Qed.

Lemma struct_write_encode fs s rest :
  Forall (field_writable s) fs →
  struct_write_payload fs s (zeros (fields_size fs s) ++ rest)
  = Ok (encode_attrs (struct_attrs fs s) ++ rest).
Proof.
  intros Hfs. revert rest.
  induction Hfs as [|f fs Hf Hfs IH]; intros rest;
    cbn [struct_write_payload fields_size struct_attrs]; [done|].
  destruct (get_field f s) as [v|] eqn:Hv; [|done].
  destruct (Hf v Hv) as [Hw Hb]. pose proof Hw as (Hs & Hl & _).
  destruct (fields_size_spec fs s Hfs) as [Hrest _]. pad_facts.
  set (p := pad_netlink_object_with_variable_size (get_size v)) in *.
  replace (4 + p + fields_size fs s)
    with ((4 + get_size v) + ((p - get_size v) + fields_size fs s)) by lia.
  rewrite zeros_add, <- app_assoc by lia. rewrite write_attribute_encode by done. obind.
  rewrite pad_nlattr, zeros_add by lia. rewrite <- app_assoc.
  set (hdr := to_bytes nlattr_layout _).
  assert (len hdr = 4) as Hhdr by apply (to_bytes_len (L := nlattr_layout)).
  rewrite (app_assoc (encode v)), (app_assoc hdr), slice_from_app
    by (rewrite !len_app, len_zeros by lia; unfold p in *; lia). obind.
  rewrite IH. obind.
  rewrite take_app_len by (rewrite !len_app, len_zeros by lia; unfold p in *; lia).
  cbn [encode_attrs flat_map]. unfold encode_attr at 1, padding. cbn [value_attr at_payload].
  rewrite Hl. fold p. unfold hdr. by rewrite <- !app_assoc.
Qed.

Lemma len_struct_attrs fs s :
  Forall (field_writable s) fs → len (encode_attrs (struct_attrs fs s)) = fields_size fs s.
Proof.
  induction 1 as [|f fs Hf _ IH]; cbn [fields_size struct_attrs]; [done|].
  destruct (get_field f s) as [v|] eqn:Hv; [|done].
  destruct (Hf v Hv) as [(Hs & Hl & _) Hb]. cbn [encode_attrs flat_map].
  rewrite len_app, len_encode_attr; cbn [value_attr at_payload]; rewrite Hl; [|lia].
  change (flat_map encode_attr (struct_attrs fs s)) with (encode_attrs (struct_attrs fs s)). lia.
Qed.

(** A structure fills exactly the bytes its size announces, with its attributes. *)
Lemma struct_writable fs s nested :
  Forall (field_writable s) fs →
  @writable S (struct_attribute fs nested) s
  ∧ @encode S (struct_attribute fs nested) s = encode_attrs (struct_attrs fs s)
  ∧ struct_get_size fs s mod 4 = 0.
Proof.
  intros Hf. rewrite struct_get_size_sum. destruct (fields_size_spec fs s Hf) as [Hs Hm].
  rewrite assoc by apply _. split; [|done].
  apply (@writable_intro S (struct_attribute fs nested));
    cbn [get_size write_payload struct_attribute]; rewrite ?struct_get_size_sum;
    auto using len_struct_attrs, struct_write_encode.
Qed.
End StructLemmas.

(** ** Structures: reading back *)
Section StructRoundtrip.
Context `{BuildProfile} `{SysLaws} {S : Type}.
Implicit Types fs : list (Field S).
Implicit Types s : S.

(** A field whose value fits in an attribute. *)
Definition field_fits s (f : Field S) : Prop :=
  ∀ v, get_field f s = Some v → writable v ∧ 4 + get_size v < 2 ^ 16.

(** A field whose value can be read back from its attribute. *)
Definition field_readable s (f : Field S) : Prop :=
  ∀ v, get_field f s = Some v → writable v ∧ 4 + get_size v < 2 ^ 16 ∧ roundtrips v.

Lemma fits_writables fs s : Forall (field_fits s) fs → Forall (field_writable s) fs.
Proof.
  intros Hf. eapply Forall_impl; [|done]. intros f Hff v Hv. destruct (Hff v Hv).
  split; [done|lia].
Qed.

Lemma readable_fits fs s : Forall (field_readable s) fs → Forall (field_fits s) fs.
Proof.
  intros Hf. eapply Forall_impl; [|done]. intros f Hff v Hv. by destruct (Hff v Hv) as (? & ? & _).
Qed.

Lemma readable_writables fs s : Forall (field_readable s) fs → Forall (field_writable s) fs.
Proof. intros Hf. by apply fits_writables, readable_fits. Qed.

(** Set in [acc] every field that is present in [s]. *)
Definition rebuild fs s (acc : S) : S :=
  foldl (λ acc f, match get_field f s with Some v => set_field f v acc | None => acc end) acc fs.

(** The last attribute written has a payload. *)
Definition tail_ok (l : list Attr) : Prop :=
  match reverse l with [] => True | a :: _ => at_payload a ≠ [] end.

Lemma tail_ok_cons a l :
  tail_ok (a :: l) → (at_payload a ≠ [] ∨ l ≠ []) ∧ tail_ok l.
Proof.
  unfold tail_ok. rewrite reverse_cons. destruct (reverse l) as [|b l'] eqn:Hr.
  - apply (f_equal reverse) in Hr. rewrite reverse_involutive in Hr. subst. simpl. auto.
  - simpl. split; [right|done]. by intros ->.
Qed.

Lemma tail_ok_intro a l :
  (l = [] → at_payload a ≠ []) → tail_ok l → tail_ok (a :: l).
Proof.
  unfold tail_ok. rewrite reverse_cons. destruct (reverse l) as [|b l'] eqn:Hr; [|done].
  apply (f_equal reverse) in Hr. rewrite reverse_involutive in Hr. subst. cbn. auto.
Qed.

(** Two structures with the same fields present, whose values are empty alike. *)
Definition empty_alike s s' (f : Field S) : Prop :=
  match get_field f s, get_field f s' with
  | Some v, Some v' => encode v = [] → encode v' = []
  | None, None => True
  | _, _ => False
  end.

Lemma tail_ok_alike fs s s' :
  Forall (empty_alike s s') fs → tail_ok (struct_attrs fs s') →
  tail_ok (struct_attrs fs s) ∧ (struct_attrs fs s = [] → struct_attrs fs s' = []).
Proof.
  induction 1 as [|f fs Hf _ IH]; intros Ht; [done|]. unfold empty_alike in Hf.
  cbn [struct_attrs] in *.
  destruct (get_field f s) as [v|], (get_field f s') as [v'|]; try done; [|by apply IH].
  apply tail_ok_cons in Ht as [Hne Ht]. destruct (IH Ht) as [IHt IHe]. split; [|done].
  apply tail_ok_intro; [|done]. intros Hl Hv. cbn [value_attr at_payload] in *.
  destruct Hne; [|auto]. auto.
Qed.

Lemma read_back_cons {A} `{AttributeDecoder A} a l (res : A) :
  at_payload a ≠ [] ∨ l ≠ [] →
  read_back (a :: l) res
  = (res ← decode_or_skip res (at_type a) (at_payload a); read_back l res).
Proof.
  intros Hne. cbn [read_back]. destruct (at_payload a), l; try done. by destruct Hne.
Qed.

(** The generated decoder finds the field of an attribute type. *)
Lemma struct_decode_field fs f self b :
  NoDup (netlink_type <$> fs) → f ∈ fs →
  struct_decode_attribute fs self (netlink_type f) b
  = ('(val, remaining) ← deserialize (A := field_type f) b;
     if negb (len remaining =? 0) then Err InvalidDataSize else Ok (set_field f val self)).
Proof.
  induction fs as [|g fs IH]; intros Hnd Hin; [by apply elem_of_nil in Hin|].
  apply list.NoDup_cons in Hnd as [Hg Hnd]. cbn [struct_decode_attribute].
  apply elem_of_cons in Hin as [->|Hin]; [by rewrite Z.eqb_refl|].
  destruct (Z.eqb_spec (netlink_type f) (netlink_type g)) as [Heq|]; [|by apply IH].
  destruct Hg. apply list_elem_of_fmap. eauto.
Qed.

(** And ignores a type it does not know. *)
Lemma struct_decode_unknown fs self ty b :
  ty ∉ (netlink_type <$> fs) →
  struct_decode_attribute fs self ty b = Err (UnsupportedAttributeType ty).
Proof.
  induction fs as [|g fs IH]; intros Hty; [done|]. cbn [struct_decode_attribute].
  apply not_elem_of_cons in Hty as [Hne Hty].
  rewrite (proj2 (Z.eqb_neq _ _) Hne). by apply IH.
Qed.

(** The fields of [s'] are what the readers of the fields return for those of [s]. *)
Definition reads_as s s' (f : Field S) : Prop :=
  match get_field f s, get_field f s' with
  | Some v, Some v' => deserialize (encode v) = Ok (v', [])
  | None, None => True
  | _, _ => False
  end.

Lemma readable_reads fs s : Forall (field_readable s) fs → Forall (reads_as s s) fs.
Proof.
  intros Hf. eapply Forall_impl; [|done]. intros f Hff. unfold reads_as.
  destruct (get_field f s) as [v|] eqn:Hv; [|done]. by destruct (Hff v Hv) as (_ & _ & ?).
Qed.

(** A field that is the same in both. *)
Lemma same_reads s s' (f : Field S) :
  get_field f s = get_field f s' → field_readable s' f → reads_as s s' f.
Proof.
  intros Heq Hf. unfold reads_as. rewrite Heq. destruct (get_field f s') as [v|] eqn:Hv; [|done].
  by destruct (Hf v Hv) as (_ & _ & ?).
Qed.

Lemma same_empty s s' (f : Field S) : get_field f s = get_field f s' → empty_alike s s' f.
Proof. intros Heq. unfold empty_alike. rewrite Heq. by destruct (get_field f s'). Qed.

Lemma decode_field fs f (v v' : field_type f) acc :
  NoDup (netlink_type <$> fs) → f ∈ fs → deserialize (encode v) = Ok (v', []) →
  @decode_or_skip S (struct_decoder fs) acc (netlink_type f) (encode v)
  = Ok (set_field f v' acc).
Proof.
  intros Hnd Hin Hr. unfold decode_or_skip. cbn [decode_attribute struct_decoder].
  rewrite struct_decode_field by done. by rewrite Hr.
Qed.

Lemma read_back_struct all fs s s' acc :
  NoDup (netlink_type <$> all) → fs ⊆ all → Forall (reads_as s s') fs →
  tail_ok (struct_attrs fs s) →
  @read_back S (struct_decoder all) (struct_attrs fs s) acc = Ok (rebuild fs s' acc).
Proof.
  intros Hnd Hsub Hr. revert acc. induction Hr as [|f fs Hf _ IH]; intros acc Htail; [done|].
  cbn [struct_attrs] in *. unfold rebuild. cbn [foldl]. fold (rebuild fs s'). unfold reads_as in Hf.
  assert (f ∈ all ∧ fs ⊆ all) as [Hin Hsub'] by set_solver.
  destruct (get_field f s) as [v|], (get_field f s') as [v'|]; try done; [|by apply IH].
  apply tail_ok_cons in Htail as [Hne Htail]. rewrite read_back_cons by done.
  cbn [value_attr at_type at_payload]. rewrite (decode_field all f v v') by done. obind.
  by apply IH.
Qed.

(** An empty last attribute is not seen, and its header is left over. *)
Lemma read_back_struct_empty all fs s s' acc :
  NoDup (netlink_type <$> all) → fs ⊆ all → Forall (reads_as s s') fs →
  ¬ tail_ok (struct_attrs fs s) →
  @read_back S (struct_decoder all) (struct_attrs fs s) acc = Err InvalidDataSize.
Proof.
  intros Hnd Hsub Hr. revert acc. induction Hr as [|f fs Hf _ IH]; intros acc Htail; [done|].
  cbn [struct_attrs] in *. unfold reads_as in Hf.
  assert (f ∈ all ∧ fs ⊆ all) as [Hin Hsub'] by set_solver.
  destruct (get_field f s) as [v|], (get_field f s') as [v'|]; try done; [|by apply IH].
  destruct (decide (at_payload (value_attr (netlink_type f) v) = [] ∧ struct_attrs fs s = []))
    as [[Hp Hl]|Hne].
  { rewrite Hl. cbn [read_back]. by rewrite Hp. }
  rewrite read_back_cons.
  2: { destruct (decide (struct_attrs fs s = [])); [left; by intros ?; destruct Hne|by right]. }
  cbn [value_attr at_type at_payload]. rewrite (decode_field all f v v') by done. obind.
  apply IH; [done|]. intros Hok. apply Htail, tail_ok_intro; [|done]. intros Hl Hp.
  by destruct Hne.
Qed.

Lemma struct_attrs_ok fs s :
  Forall (λ t, 0 ≤ t < 2 ^ 14) (netlink_type <$> fs) → Forall (field_fits s) fs →
  Forall attr_ok (struct_attrs fs s).
Proof.
  intros Ht Hr. induction Hr as [|f fs Hf _ IH]; [constructor|].
  apply list.Forall_cons in Ht as [Hf' Ht]. cbn [struct_attrs].
  destruct (get_field f s) as [v|] eqn:Hv; [|by apply IH].
  constructor; [|by apply IH]. destruct (Hf v Hv) as ((_ & Hl & _) & Hb).
  split; cbn [value_attr at_type at_payload]; [done|lia].
Qed.

(** Reading a structure back, for any decoder that reads its attributes back. *)
Lemma read_attributes_encode fs s nested `{AttributeDecoder S} dflt res :
  attr_namespace (netlink_type <$> fs) → Forall (field_fits s) fs →
  struct_get_size fs s ≤ isize_max →
  read_back (struct_attrs fs s) dflt = res →
  read_attributes dflt (@encode S (struct_attribute fs nested) s) = res.
Proof.
  intros [Hnd Ht] Hr Hmax Hback. pose proof (fits_writables _ _ Hr) as Hw.
  destruct (struct_writable fs s nested Hw) as (_ & -> & _).
  rewrite read_encode_attrs; [done|by apply struct_attrs_ok|].
  by rewrite len_struct_attrs, <- struct_get_size_sum.
Qed.

(** A structure is read as the values its fields are read as, when the last attribute
    written has a payload; it round-trips when its fields do. *)
Lemma struct_reads fs s s' nested dflt :
  attr_namespace (netlink_type <$> fs) → Forall (field_fits s) fs → Forall (reads_as s s') fs →
  tail_ok (struct_attrs fs s) → struct_get_size fs s ≤ isize_max →
  @read_attributes _ _ S (struct_decoder fs) dflt (@encode S (struct_attribute fs nested) s)
  = Ok (rebuild fs s' dflt).
Proof.
  intros Hns Hf Hr Htail Hmax. eapply read_attributes_encode; [done..|].
  apply read_back_struct; [apply Hns|done..].
Qed.

Lemma struct_roundtrip fs s nested dflt :
  attr_namespace (netlink_type <$> fs) → Forall (field_readable s) fs →
  tail_ok (struct_attrs fs s) → struct_get_size fs s ≤ isize_max →
  @read_attributes _ _ S (struct_decoder fs) dflt (@encode S (struct_attribute fs nested) s)
  = Ok (rebuild fs s dflt).
Proof. intros. apply struct_reads; auto using readable_fits, readable_reads. Qed.

(** *** Safety *)
Lemma struct_decoder_safe fs :
  Forall (λ f, safe_deserializer (T := field_type f)) fs →
  @safe_decoder S (struct_decoder fs).
Proof.
  intros Hfs res ty b Hb. cbn [decode_attribute struct_decoder].
  induction Hfs as [|f fs Hf _ IH]; cbn [struct_decode_attribute]; [auto with netlink|].
  destruct (ty =? netlink_type f); [|done].
  apply safe_bind; [by apply Hf|]. intros [v r] _. destruct_ifs; auto with netlink.
Qed.

Lemma struct_deserialize_safe dflt `{AttributeDecoder S} :
  safe_decoder (A := S) → @safe_deserializer S (struct_deserializable dflt).
Proof.
  intros Hd b Hb. cbn [deserialize struct_deserializable]. unfold struct_deserialize.
  apply safe_bind; [by apply read_attributes_safe|auto with netlink].
Qed.
End StructRoundtrip.
