(* ===== verification/Codec.v ===== *)
(** * The interface between a type and the structures that contain it

    [Codec T] is what a container (a generated structure, a list, an expression)
    relies on when it holds a value of type [T]: which values it may hold, that
    writing such a value fills exactly its announced size and that reading those
    bytes gives it back, and that reading any bytes at all stays inside the buffer.
    The containers' theorems are proved against this interface; the basic types, the
    enumerations, the generated structures and the lists implement it. *)

From S2P Require Import Prelude Sys Errors Lib Nlmsg Parser ParserImpls Macros.
Local Open Scope Z_scope.

Class Codec (T : Type) `{NfNetlinkAttribute T} `{NfNetlinkDeserializable T} := {
  value_ok : T → bool;
  codec_writable (v : T) : value_ok v = true → writable v;
  codec_size (v : T) : value_ok v = true → 4 + get_size v < 2 ^ 16;
  codec_roundtrips (v : T) : value_ok v = true → roundtrips v;
  codec_safe : safe_deserializer (T := T) }.

(** Values that fill whole words, as the elements of a list must. *)
Class AlignedCodec (T : Type) `{Codec T} : Prop :=
  codec_aligned (v : T) : value_ok v = true → get_size v mod 4 = 0.

Definition in_width (lo hi v : Z) : bool := (lo <=? v) && (v <? hi).

Lemma in_width_spec lo hi v : in_width lo hi v = true → lo ≤ v < hi.
Proof. unfold in_width. intros. zbool. lia. Qed.

(** ** Basic types *)
Section BasicCodecs.

Lemma i32_safe : safe_deserializer (T := i32).
Proof.
  intros b _. cbn. apply safe_bind; [apply int_read_safe|]. intros [] _. auto with netlink.
Qed.

Lemma string_safe : safe_deserializer (T := RString).
Proof. intros b _. cbn. unfold string_deserialize. destruct_ifs; auto with netlink. Qed.

#[global] Instance u8_codec : Codec u8 := {|
  value_ok v := in_width 0 (2 ^ 8) v;
  codec_writable v _ := proj1 (u8_writable v);
  codec_size v _ := eq_refl;
  codec_roundtrips v Hv := u8_roundtrips v (in_width_spec _ _ _ Hv);
  codec_safe b _ := int_read_safe 1 b |}.
#[global] Instance u16_codec : Codec u16 := {|
  value_ok v := in_width 0 (2 ^ 16) v;
  codec_writable v _ := proj1 (u16_writable v);
  codec_size v _ := eq_refl;
  codec_roundtrips v Hv := u16_roundtrips v (in_width_spec _ _ _ Hv);
  codec_safe b _ := int_read_safe 2 b |}.
#[global] Instance u32_codec : Codec u32 := {|
  value_ok v := in_width 0 (2 ^ 32) v;
  codec_writable v _ := proj1 (u32_writable v);
  codec_size v _ := eq_refl;
  codec_roundtrips v Hv := u32_roundtrips v (in_width_spec _ _ _ Hv);
  codec_safe b _ := int_read_safe 4 b |}.
#[global] Instance u64_codec : Codec u64 := {|
  value_ok v := in_width 0 (2 ^ 64) v;
  codec_writable v _ := proj1 (u64_writable v);
  codec_size v _ := eq_refl;
  codec_roundtrips v Hv := u64_roundtrips v (in_width_spec _ _ _ Hv);
  codec_safe b _ := int_read_safe 8 b |}.
#[global] Instance i32_codec : Codec i32 := {|
  value_ok v := in_width (- 2 ^ 31) (2 ^ 31) v;
  codec_writable v _ := proj1 (i32_writable v);
  codec_size v _ := eq_refl;
  codec_roundtrips v Hv := i32_roundtrips v (in_width_spec _ _ _ Hv);
  codec_safe := i32_safe |}.

Lemma string_len_ok (v : RString) :
  string_ok v && (4 + len v <? 2 ^ 16) = true → string_ok v = true ∧ 4 + len v < 2 ^ 16.
Proof. intros [? ?%Z.ltb_lt]%andb_true_iff. done. Qed.

#[global] Instance string_codec : Codec RString := {|
  value_ok v := string_ok v && (4 + len v <? 2 ^ 16);
  codec_writable v _ := proj1 (string_writable v);
  codec_size v Hv := proj2 (string_len_ok v Hv);
  codec_roundtrips v Hv := string_roundtrips v (proj1 (string_len_ok v Hv));
  codec_safe := string_safe |}.
#[global] Instance vec_codec : Codec VecU8 := {|
  value_ok v := 4 + len v <? 2 ^ 16;
  codec_writable v _ := proj1 (vec_writable v);
  codec_size v Hv := proj1 (Z.ltb_lt _ _) Hv;
  codec_roundtrips v _ := vec_roundtrips v;
  codec_safe b _ := safe_ok _ |}.

(** Every variant of an enumeration can be read back. *)
Lemma enum_small {E} `{EnumLaws E} (x : E) : 4 + get_size x < 2 ^ 16.
Proof. pose proof (enum_size x). lia. Qed.

#[global] Instance enum_codec {E} `{EnumLaws E} : Codec E | 10 := {|
  value_ok _ := true;
  codec_writable x _ := proj1 (enum_writable x);
  codec_size x _ := enum_small x;
  codec_roundtrips x _ := enum_roundtrips x;
  codec_safe := enum_safe |}.
End BasicCodecs.

(** ** Lists *)
Section ListCodec.
Context `{BuildProfile} `{SysLaws} {T : Type} `{AlignedCodec T}.

Definition last_nonemptyb (items : list T) : bool :=
  match reverse items with [] => true | item :: _ => 0 <? get_size item end.

Definition list_ok (l : NfNetlinkList T) : bool :=
  forallb value_ok (objs l) && last_nonemptyb (objs l) && (4 + list_get_size l <? 2 ^ 16).

Lemma elem_type_ok : 0 ≤ NFTA_LIST_ELEM < 2 ^ 14.
Proof. destruct ns_list as [_ Hf]. by apply list.Forall_cons in Hf as [? _]. Qed.

Lemma value_readable v : value_ok v = true → readable v.
Proof.
  intros Hv. pose proof (codec_size v Hv). unfold readable, aligned.
  eauto 10 using codec_writable, codec_aligned, codec_roundtrips with lia.
Qed.

Lemma list_ok_spec l :
  list_ok l = true →
  Forall readable (objs l) ∧ last_nonempty (objs l) ∧ 4 + list_get_size l < 2 ^ 16.
Proof.
  intros [[Hv Hl]%andb_true_iff ?%Z.ltb_lt]%andb_true_iff. split_and!; [|clear Hv|done].
  - apply list.Forall_forall. intros v Hin. apply value_readable.
    by apply (proj1 (forallb_forall _ _) Hv), list_elem_of_In.
  - unfold last_nonempty, last_nonemptyb in *. destruct (reverse (objs l)); [done|].
    by apply Z.ltb_lt.
Qed.

Lemma readable_aligned (items : list T) : Forall readable items → Forall aligned items.
Proof. intros Hr. eapply Forall_impl; [|exact Hr]. by intros ? [? _]. Qed.

Lemma list_ok_writable l : list_ok l = true → writable l.
Proof.
  intros (Hr & _)%list_ok_spec. destruct l as [items].
  by apply list_writable, readable_aligned.
Qed.

Lemma list_ok_roundtrips l : list_ok l = true → roundtrips l.
Proof.
  intros (Hr & Hl & Hs)%list_ok_spec. destruct l as [items].
  apply list_roundtrips; [apply elem_type_ok|done..|].
  rewrite list_get_size_sum in Hs. unfold isize_max. lia.
Qed.

#[global] Instance list_codec : Codec (NfNetlinkList T) := {|
  value_ok := list_ok;
  codec_writable := list_ok_writable;
  codec_size l Hl := proj2 (proj2 (list_ok_spec l Hl));
  codec_roundtrips := list_ok_roundtrips;
  codec_safe b Hb := list_read_safe b codec_safe Hb |}.
End ListCodec.

(** ** Structures

    The codecs of the fields of a structure are found one field at a time. *)
Class FieldCodecs `{BuildProfile} `{Sys} {S : Type} (fs : list (Field S)) := {
  fields_ok : S → bool;
  fields_readable s : fields_ok s = true → Forall (field_readable s) fs;
  fields_safe : Forall (λ f, safe_deserializer (T := field_type f)) fs }.
#[global] Arguments fields_ok {_ _ _} fs {_} _.
#[global] Arguments fields_readable {_ _ _} fs {_} _ _.
#[global] Arguments fields_safe {_ _ _} fs {_}.

Definition option_ok {T : Type} (ok : T → bool) (o : option T) : bool :=
  match o with Some v => ok v | None => true end.

Section FieldCodecs.
Context `{BuildProfile} `{Sys} {S : Type}.

Lemma mk_field_readable {T} `{Codec T} ident ty opt (get : S → option T) set s :
  option_ok value_ok (get s) = true → field_readable s (mk_field ident ty opt get set).
Proof.
  intros Hok v Hv. cbn in *. rewrite Hv in Hok. cbn in Hok.
  split_and!; [by apply codec_writable|by apply codec_size|by apply codec_roundtrips].
Qed.

Lemma cons_readable {T} `{Codec T} ident ty opt (get : S → option T) set fs `{!FieldCodecs fs} s :
  option_ok value_ok (get s) && fields_ok fs s = true →
  Forall (field_readable s) (mk_field ident ty opt get set :: fs).
Proof.
  intros [? ?]%andb_true_iff. constructor; [by apply mk_field_readable|by apply (fields_readable fs)].
Qed.

Lemma cons_safe {T} `{Codec T} ident ty opt (get : S → option T) set fs `{!FieldCodecs fs} :
  Forall (λ f, safe_deserializer (T := field_type f)) (mk_field ident ty opt get set :: fs).
Proof. constructor; [apply codec_safe|apply (fields_safe fs)]. Qed.

#[global] Instance nil_codecs : FieldCodecs (@nil (Field S)) := {|
  fields_ok _ := true;
  fields_readable s _ := Forall_nil _;
  fields_safe := Forall_nil _ |}.

#[global] Instance cons_codecs {T} `{Codec T} ident ty opt (get : S → option T) set fs
    `{!FieldCodecs fs} : FieldCodecs (mk_field ident ty opt get set :: fs) := {|
  fields_ok s := option_ok value_ok (get s) && fields_ok fs s;
  fields_readable s Hs := cons_readable ident ty opt get set fs s Hs;
  fields_safe := cons_safe ident ty opt get set fs |}.

Lemma accept_subset {P : Field S → Prop} fs : Forall P fs → Forall P (accept_fields fs).
Proof.
  rewrite !list.Forall_forall. intros Hp f [_ Hf]%list_elem_of_filter. by apply Hp.
Qed.

#[global] Instance accept_codecs fs `{!FieldCodecs fs} : FieldCodecs (accept_fields fs) := {|
  fields_ok s := fields_ok fs s;
  fields_readable s Hs := accept_subset fs (fields_readable fs s Hs);
  fields_safe := accept_subset fs (fields_safe fs) |}.
End FieldCodecs.

Section StructCodec.
Context `{BuildProfile} `{SysLaws} {S : Type} (fs : list (Field S)) (nested : bool) (dflt : S)
  `{!FieldCodecs fs} (extra : S → bool).

Definition tail_okb (l : list Attr) : bool :=
  match reverse l with [] => true | a :: _ => 0 <? len (at_payload a) end.

Lemma tail_okb_ok l : tail_okb l = true → tail_ok l.
Proof.
  unfold tail_okb, tail_ok. destruct (reverse l) as [|a ?]; [done|].
  intros Hl%Z.ltb_lt. by destruct (at_payload a).
Qed.

Lemma ok_tail_okb l : tail_ok l → tail_okb l = true.
Proof.
  unfold tail_okb, tail_ok. destruct (reverse l) as [|a ?]; [done|]. intros Hp. apply Z.ltb_lt.
  destruct (at_payload a) as [|x p]; [done|]. rewrite len_cons. pose proof (len_nonneg p). lia.
Qed.

(** The values of a structure that can be read back inside another: its fields can, the
    last attribute has a payload, and everything fits in an attribute.  A structure
    with optional fields has one more condition, [extra]. *)
Definition struct_ok (s : S) : bool :=
  extra s && fields_ok fs s && tail_okb (struct_attrs fs s) && (4 + struct_get_size fs s <? 2 ^ 16).

Lemma struct_ok_spec s :
  struct_ok s = true →
  extra s = true ∧ fields_ok fs s = true ∧ tail_ok (struct_attrs fs s)
  ∧ 4 + struct_get_size fs s < 2 ^ 16.
Proof.
  intros [[[? ?]%andb_true_iff ?%tail_okb_ok]%andb_true_iff ?%Z.ltb_lt]%andb_true_iff. done.
Qed.

Lemma struct_ok_writable s :
  struct_ok s = true → @writable S (struct_attribute fs nested) s.
Proof.
  intros (_ & Hf & _)%struct_ok_spec. apply struct_writable.
  by apply readable_writables, (fields_readable fs).
Qed.

Lemma struct_ok_aligned s : struct_ok s = true → struct_get_size fs s mod 4 = 0.
Proof.
  intros (_ & Hf & _)%struct_ok_spec. apply (struct_writable fs s nested).
  by apply readable_writables, (fields_readable fs).
Qed.

(** Present fields that all have a payload. *)
Fixpoint fields_nonempty (l : list (Field S)) (s : S) : Prop :=
  match l with
  | [] => True
  | f :: l =>
      match get_field f s with Some v => 0 < get_size v | None => True end ∧ fields_nonempty l s
  end.

Lemma nonempty_tail l s :
  Forall (field_readable s) l → fields_nonempty l s → tail_okb (struct_attrs l s) = true.
Proof.
  intros Hr Hne. unfold tail_okb. destruct (reverse (struct_attrs l s)) as [|a rest] eqn:Hl; [done|].
  assert (a ∈ struct_attrs l s) as Hin.
  { apply elem_of_reverse. rewrite Hl. left. }
  clear Hl. induction Hr as [|f l Hf _ IH]; [by apply elem_of_nil in Hin|].
  destruct Hne as [Hf' Hne]. cbn [struct_attrs] in Hin.
  destruct (get_field f s) as [v|] eqn:Hv; [|by apply IH].
  apply elem_of_cons in Hin as [->|Hin]; [|by apply IH]. apply Z.ltb_lt.
  destruct (Hf v Hv) as ((_ & Hl & _) & _). cbn [value_attr at_payload]. lia.
Qed.

Lemma struct_ok_intro s :
  extra s = true → fields_ok fs s = true → fields_nonempty fs s →
  4 + fields_size fs s < 2 ^ 16 → struct_ok s = true.
Proof.
  intros Hx Hf Hne Hs. unfold struct_ok. rewrite Hx, Hf, struct_get_size_sum. cbn [andb].
  rewrite nonempty_tail by (done || by apply (fields_readable fs)). by apply Z.ltb_lt.
Qed.

Context (ns : attr_namespace (netlink_type <$> fs)).
Context (rebuilds : ∀ s, extra s = true → rebuild fs s dflt = s).

Lemma struct_ok_roundtrips s :
  struct_ok s = true →
  @roundtrips S (struct_attribute fs nested)
    (@struct_deserializable _ _ S dflt (struct_decoder fs)) s.
Proof.
  intros (Hx & Hf & Ht & Hs)%struct_ok_spec. unfold roundtrips.
  cbn [deserialize struct_deserializable]. unfold struct_deserialize.
  rewrite struct_roundtrip; [|done|by apply (fields_readable fs)|done|unfold isize_max; lia].
  by rewrite rebuilds by done.
Qed.

Definition struct_codec : @Codec S (struct_attribute fs nested)
    (@struct_deserializable _ _ S dflt (struct_decoder fs)) :=
  @Build_Codec S (struct_attribute fs nested)
    (@struct_deserializable _ _ S dflt (struct_decoder fs))
    struct_ok struct_ok_writable
    (λ s Hs, proj2 (proj2 (proj2 (struct_ok_spec s Hs))))
    struct_ok_roundtrips
    (struct_deserialize_safe dflt (H1 := struct_decoder fs) (struct_decoder_safe fs (fields_safe fs))).
End StructCodec.

(** ** Optional fields

    A field the kernel headers do not declare is not generated: in the model, it is
    absent from every value. *)
Section Optional.
Context `{Sys} {S : Type}.
Implicit Types fs : list (Field S).

Definition accepted (f : Field S) : bool :=
  bool_decide (optional f = true → netlink_ident f ∈ declared_identifiers).

Definition absent_ok fs (s : S) : bool :=
  forallb (λ f, accepted f || match get_field f s with None => true | _ => false end) fs.

(** Case on whether a field is generated. *)
Lemma accept_cons f fs s :
  absent_ok (f :: fs) s = true →
  absent_ok fs s = true
  ∧ (accept_fields (f :: fs) = f :: accept_fields fs
     ∨ accept_fields (f :: fs) = accept_fields fs ∧ get_field f s = None).
Proof.
  unfold absent_ok, accept_fields. cbn [forallb]. intros [Hf Hfs]%andb_true_iff. split; [done|].
  unfold accepted in Hf.
  destruct (decide (optional f = true → netlink_ident f ∈ declared_identifiers)) as [Ha|Ha].
  { left. by rewrite filter_cons_True. }
  right. rewrite filter_cons_False by done. split; [done|].
  rewrite bool_decide_false in Hf by done. cbn in Hf. by destruct (get_field f s).
Qed.

Lemma rebuild_accept fs s acc :
  absent_ok fs s = true → rebuild (accept_fields fs) s acc = rebuild fs s acc.
Proof.
  revert acc. induction fs as [|f fs IH]; intros acc; [done|].
  intros [Hfs [-> | [-> Hg]]]%accept_cons; unfold rebuild; cbn [foldl];
    rewrite ?Hg; by apply IH.
Qed.

Lemma accept_size fs s :
  absent_ok fs s = true → fields_size (accept_fields fs) s = fields_size fs s.
Proof.
  induction fs as [|f fs IH]; [done|]. intros [Hfs [-> | [-> Hg]]]%accept_cons;
    cbn [fields_size]; rewrite ?Hg, IH; done.
Qed.

Lemma accept_nonempty fs s :
  absent_ok fs s = true → fields_nonempty fs s → fields_nonempty (accept_fields fs) s.
Proof.
  induction fs as [|f fs IH]; [done|]. intros [Hfs [-> | [-> _]]]%accept_cons [? ?]; [|auto].
  split; auto.
Qed.

(** A required field is always generated. *)
Lemma accepted_required f : optional f = false → accepted f = true.
Proof. intros Hf. apply bool_decide_eq_true. by rewrite Hf. Qed.

Lemma accept_namespace fs :
  attr_namespace (netlink_type <$> fs) → attr_namespace (netlink_type <$> accept_fields fs).
Proof.
  intros [Hnd Ht].
  assert (netlink_type <$> accept_fields fs `sublist_of` netlink_type <$> fs) as Hsub
    by (apply fmap_sublist; apply sublist_filter).
  split; [by eapply sublist_NoDup|]. rewrite list.Forall_forall in Ht |- *.
  intros t Hin. apply Ht. by eapply elem_of_sublist.
Qed.

(** Without optional fields, every field is generated. *)
Lemma accept_fields_all fs :
  Forall (λ f, optional f = false) fs → accept_fields fs = fs.
Proof.
  unfold accept_fields. induction 1 as [|f fs Hf _ IH]; [done|].
  rewrite filter_cons_True by (by rewrite Hf). by rewrite IH.
Qed.
End Optional.

(** The codec of a structure with optional fields. *)
Definition optional_codec `{BuildProfile} `{SysLaws} {S : Type} (all : list (Field S))
    (nested : bool) (dflt : S) `{!FieldCodecs all} (ns : attr_namespace (netlink_type <$> all))
    (rebuilds : ∀ s, rebuild all s dflt = s) :=
  struct_codec (accept_fields all) nested dflt (absent_ok all) (accept_namespace all ns)
    (λ s Hs, eq_trans (rebuild_accept all s dflt Hs) (rebuilds s)).

(** Set every field of a concrete record again. *)
Ltac rebuilds :=
  intros; match goal with |- _ = ?s => destruct s end;
  unfold rebuild; cbn;
  repeat match goal with o : option _ |- _ => destruct o end; reflexivity.
