(* ===== verification/Data.v ===== *)
(** * Registers, verdicts and data: [src/expr/register.rs], [src/expr/verdict.rs] and
    [NfNetlinkData] of [src/parser_impls.rs]

    With the instance of [nfnetlink_enum] for [ProtocolFamily] of [src/lib.rs].  A
    structure of the crate is a record of options, its [with_] functions are the
    generated setters, and [.._fields] is the list of its annotated fields, from which
    the code the macro generates is obtained. *)

From S2P Require Import Prelude Sys Errors Lib Nlmsg Parser ParserImpls Macros Codec.
Local Open Scope Z_scope.

Inductive Register := RegVerdict | Reg1 | Reg2 | Reg3 | Reg4.

Inductive VerdictType := VerdictType_Drop | VerdictType_Accept | VerdictType_Queue
  | VerdictType_Continue | VerdictType_Break | VerdictType_Jump | VerdictType_Goto
  | VerdictType_Return.

Record Verdict := MkVerdict {
  verdict_code : option VerdictType;
  verdict_chain : option RString;
  verdict_chain_id : option u32 }.

Definition Verdict_default : Verdict := MkVerdict None None None.
Definition verdict_with_code (v : VerdictType) (s : Verdict) : Verdict :=
  MkVerdict (Some v) (verdict_chain s) (verdict_chain_id s).
Definition verdict_with_chain (v : RString) (s : Verdict) : Verdict :=
  MkVerdict (verdict_code s) (Some v) (verdict_chain_id s).
Definition verdict_with_chain_id (v : u32) (s : Verdict) : Verdict :=
  MkVerdict (verdict_code s) (verdict_chain s) (Some v).

Inductive VerdictKind :=
  | VerdictKind_Drop | VerdictKind_Accept | VerdictKind_Queue | VerdictKind_Continue
  | VerdictKind_Break | VerdictKind_Jump (chain : RString) | VerdictKind_Goto (chain : RString)
  | VerdictKind_Return.

Record NfNetlinkData := MkNfNetlinkData {
  data_value : option VecU8;
  data_verdict : option Verdict }.

Definition NfNetlinkData_default : NfNetlinkData := MkNfNetlinkData None None.
Definition data_with_value (v : VecU8) (s : NfNetlinkData) : NfNetlinkData :=
  MkNfNetlinkData (Some v) (data_verdict s).
Definition data_with_verdict (v : Verdict) (s : NfNetlinkData) : NfNetlinkData :=
  MkNfNetlinkData (data_value s) (Some v).

#[global] Instance Register_eq_dec : EqDecision Register.
Proof. solve_decision. Defined.
#[global] Instance VerdictType_eq_dec : EqDecision VerdictType.
Proof. solve_decision. Defined.
#[global] Instance Verdict_eq_dec : EqDecision Verdict.
Proof. solve_decision. Defined.
#[global] Instance NfNetlinkData_eq_dec : EqDecision NfNetlinkData.
Proof. solve_decision. Defined.

Section Data.
Context `{BuildProfile} `{Sys}.

#[global] Instance ProtocolFamily_enum : NfnetlinkEnum ProtocolFamily := {|
  enum_repr := ReprI32;
  variants := [Unspec; Inet; Ipv4; Arp; NetDev; Bridge; Ipv6; DecNet];
  discriminant := ProtocolFamily_value;
  unknown_variant := UnknownProtocolFamily |}.

#[global] Instance Register_enum : NfnetlinkEnum Register := {|
  enum_repr := ReprU32;
  variants := [RegVerdict; Reg1; Reg2; Reg3; Reg4];
  discriminant x := match x with
    | RegVerdict => NFT_REG_VERDICT
    | Reg1 => NFT_REG_1
    | Reg2 => NFT_REG_2
    | Reg3 => NFT_REG_3
    | Reg4 => NFT_REG_4
    end;
  unknown_variant := UnknownRegister |}.

#[global] Instance VerdictType_enum : NfnetlinkEnum VerdictType := {|
  enum_repr := ReprI32;
  variants := [VerdictType_Drop; VerdictType_Accept; VerdictType_Queue; VerdictType_Continue;
    VerdictType_Break; VerdictType_Jump; VerdictType_Goto; VerdictType_Return];
  discriminant x := match x with
    | VerdictType_Drop => NF_DROP
    | VerdictType_Accept => NF_ACCEPT
    | VerdictType_Queue => NF_QUEUE
    | VerdictType_Continue => NFT_CONTINUE
    | VerdictType_Break => NFT_BREAK
    | VerdictType_Jump => NFT_JUMP
    | VerdictType_Goto => NFT_GOTO
    | VerdictType_Return => NFT_RETURN
    end;
  unknown_variant := UnknownVerdictType |}.

Definition Verdict_fields : list (Field Verdict) := [
  mk_field "NFTA_VERDICT_CODE" NFTA_VERDICT_CODE false verdict_code verdict_with_code;
  mk_field "NFTA_VERDICT_CHAIN" NFTA_VERDICT_CHAIN false verdict_chain verdict_with_chain;
  mk_field "NFTA_VERDICT_CHAIN_ID" NFTA_VERDICT_CHAIN_ID true verdict_chain_id verdict_with_chain_id ].
#[global] Instance Verdict_attribute : NfNetlinkAttribute Verdict := struct_attribute (accept_fields Verdict_fields) true.
#[global] Instance Verdict_decoder : AttributeDecoder Verdict := struct_decoder (accept_fields Verdict_fields).
#[global] Instance Verdict_deserializable : NfNetlinkDeserializable Verdict := struct_deserializable Verdict_default.

Definition NfNetlinkData_fields : list (Field NfNetlinkData) := [
  mk_field "NFTA_DATA_VALUE" NFTA_DATA_VALUE false data_value data_with_value;
  mk_field "NFTA_DATA_VERDICT" NFTA_DATA_VERDICT false data_verdict data_with_verdict ].
#[global] Instance NfNetlinkData_attribute : NfNetlinkAttribute NfNetlinkData := struct_attribute NfNetlinkData_fields true.
#[global] Instance NfNetlinkData_decoder : AttributeDecoder NfNetlinkData := struct_decoder NfNetlinkData_fields.
#[global] Instance NfNetlinkData_deserializable : NfNetlinkDeserializable NfNetlinkData := struct_deserializable NfNetlinkData_default.
End Data.

(** ** Codecs *)
Section DataCodecs.
Context `{BuildProfile} `{SysLaws}.

#[global] Instance ProtocolFamily_laws : EnumLaws ProtocolFamily.
Proof. split; [by intros []; set_solver|exact en_family]. Qed.
#[global] Instance Register_laws : EnumLaws Register.
Proof. split; [by intros []; set_solver|exact en_register]. Qed.
#[global] Instance VerdictType_laws : EnumLaws VerdictType.
Proof. split; [by intros []; set_solver|exact en_verdict_type]. Qed.

Lemma Verdict_rebuild s : rebuild Verdict_fields s Verdict_default = s.
Proof. rebuilds. Qed.
#[global] Instance Verdict_codec : Codec Verdict :=
  optional_codec Verdict_fields true Verdict_default ns_verdict Verdict_rebuild.

Lemma NfNetlinkData_rebuild s : rebuild NfNetlinkData_fields s NfNetlinkData_default = s.
Proof. rebuilds. Qed.
#[global] Instance NfNetlinkData_codec : Codec NfNetlinkData :=
  struct_codec NfNetlinkData_fields true NfNetlinkData_default (λ _, true) ns_data (λ s _, NfNetlinkData_rebuild s).
End DataCodecs.
