(* ===== verification/Objects.v ===== *)
(** * Netlink objects: the blanket [deserialize] of [src/parser_impls.rs]

    A table, chain, rule, set or set element list is sent as one message.  The
    interface [ObjectCodec] is what batches and queries rely on; it is implemented by
    every structure whose fields have codecs. *)

From S2P Require Import Prelude Sys Errors Lib Nlmsg Parser ParserImpls Macros Codec Data.
Local Open Scope Z_scope.

Section Deserialize.
Context `{BuildProfile} `{Sys} {A : Type} `{NfNetlinkObject A, AttributeDecoder A}.

Definition object_deserialize (dflt : A) (buf : bytes) : outcome DecodeError (A * bytes) :=
  '(obj, gen, remaining_data) ← parse_object dflt buf MSG_TYPE_ADD MSG_TYPE_DEL;
  family ← try_from (nfgen_family gen);
  Ok (set_family family obj, remaining_data).

Definition object_deserializable (dflt : A) : NfNetlinkDeserializable A :=
  {| deserialize := object_deserialize dflt |}.
End Deserialize.

(** What a batch or a query relies on.  [object_readable] is the condition under which an
    object is read back from its message; what is needed to send it is weaker, and is
    [object_sendable] below. *)
Class ObjectCodec `{BuildProfile} `{Sys} (A : Type)
    `{NfNetlinkObject A, NfNetlinkAttribute A, NfNetlinkDeserializable A} := {
  object_readable : A → bool;
  object_readable_writable (a : A) : object_readable a = true → writable a ∧ fits a;
  object_readable_aligned (a : A) : object_readable a = true → get_size a mod 4 = 0;
  object_parseable (a : A) mt seq : object_readable a = true → u32_ok seq →
    parseable (object_header a mt seq) (message_genmsg (get_family a) None) (object_payload a);
  (** any message of the object's type and family that carries the payload, such as
      those the kernel sends, is read back as the object *)
  object_reads (a : A) hdr gen rest : object_readable a = true →
    parseable hdr gen (object_payload a) →
    get_operation_from_nlmsghdr_type (nlmsg_type hdr) = MSG_TYPE_ADD
      ∨ get_operation_from_nlmsghdr_type (nlmsg_type hdr) = MSG_TYPE_DEL →
    nfgen_family gen = ProtocolFamily_value (get_family a) →
    deserialize (message hdr gen (object_payload a) ++ rest) = Ok (a, rest);
  object_type_ok mt :
    0 ≤ object_type (A := A) mt < 16
    ∧ object_type (A := A) mt = match mt with Add => MSG_TYPE_ADD | Del => MSG_TYPE_DEL end;
  object_safe : safe_deserializer (T := A) }.

(** What an object needs to be sent: it writes exactly its size, whole words, and its
    message has a length that fits in its header.  It need not be readable. *)
Definition object_sendable `{Sys} {A : Type} `{NfNetlinkAttribute A} (a : A) : Prop :=
  writable a ∧ fits a ∧ get_size a mod 4 = 0.

Lemma object_readable_sendable `{BuildProfile} `{Sys} {A} `{NfNetlinkObject A, NfNetlinkAttribute A}
    `{NfNetlinkDeserializable A, !ObjectCodec A} (a : A) :
  object_readable a = true → object_sendable a.
Proof.
  intros Ha. destruct (object_readable_writable a Ha) as [Hw Hf].
  split_and!; [done..|by apply object_readable_aligned].
Qed.

(** ** The message of an object is a message of its family *)
Section ObjectMessages.
Context `{BuildProfile} `{SysLaws} {A : Type} `{NfNetlinkObject A, NfNetlinkAttribute A}.

(** What an object type fixes: message types of nf_tables, and flags that do not look
    like those of an interrupted dump. *)
Definition object_laws : Prop :=
  0 ≤ MSG_TYPE_ADD < 16 ∧ 0 ≤ MSG_TYPE_DEL < 16
  ∧ ∀ (a : A) mt, Z.land (object_flags a mt) 16 = 0.

Lemma object_type_small mt :
  object_laws →
  0 ≤ object_type mt < 16
  ∧ object_type mt = match mt with Add => MSG_TYPE_ADD | Del => MSG_TYPE_DEL end.
Proof.
  intros (? & ? & _). unfold object_type. destruct mt; rewrite as_u16_small by lia; auto.
Qed.

Lemma family_in_u8 f : u8_ok (ProtocolFamily_value f).
Proof.
  pose proof family_u8 as Hf. rewrite list.Forall_forall in Hf. apply Hf.
  destruct f; cbn; set_solver.
Qed.

Lemma object_message_parseable (a : A) mt seq :
  object_laws → writable a → fits a → u32_ok seq →
  parseable (object_header a mt seq) (message_genmsg (get_family a) None) (object_payload a).
Proof.
  intros Hl Hw Hf Hs. pose proof (object_type_small mt Hl) as [Hty _].
  pose proof (op_of_header_type (object_type mt) Hty) as (_ & Hsub & _).
  pose proof Hw as (Hsz & Hlen & _). pose proof Hf as [Hf1 Hf2]. split_and!.
  - by apply object_header_ok.
  - unfold message_genmsg. split_and!; cbn; try done; apply Z.mod_pos_bound; lia.
  - unfold object_payload, object_header. cbn. pad_facts.
    rewrite len_app, len_zeros, Hlen by lia. lia.
  - cbn. rewrite f_request_1. change (as_u16 1) with 1.
    rewrite Z.land_lor_distr_l. by rewrite (proj2 (proj2 Hl)).
  - cbn. rewrite header_type_op by done. lia.
  - by right.
  - cbn. by rewrite nfnetlink_v0_0.
Qed.

Lemma object_payload_aligned (a : A) :
  writable a → fits a → get_size a mod 4 = 0 → object_payload a = encode a.
Proof.
  intros (Hs & _) [_ Hf] Hm. unfold object_payload. rewrite pad_aligned by lia.
  by rewrite Z.sub_diag, app_nil_r.
Qed.
End ObjectMessages.

(** ** Structures that are objects *)
Section StructObject.
Context `{BuildProfile} `{SysLaws} {S : Type} (fs : list (Field S)) (nested : bool) (dflt : S)
  `{!FieldCodecs fs} (extra : S → bool) {obj : NfNetlinkObject S}.

Local Instance attr : NfNetlinkAttribute S := struct_attribute fs nested.
Local Instance dec : AttributeDecoder S := struct_decoder fs.
Local Instance deser : NfNetlinkDeserializable S := object_deserializable dflt.

Definition struct_object_readable (s : S) : bool :=
  extra s && fields_ok fs s && tail_okb (struct_attrs fs s)
  && (20 + struct_get_size fs s <? 2 ^ 32).

Lemma struct_object_readable_spec s :
  struct_object_readable s = true →
  extra s = true ∧ Forall (field_readable s) fs ∧ tail_ok (struct_attrs fs s)
  ∧ 20 + struct_get_size fs s < 2 ^ 32.
Proof.
  intros [[[? ?]%andb_true_iff ?%tail_okb_ok]%andb_true_iff ?%Z.ltb_lt]%andb_true_iff.
  split_and!; [done|by apply (fields_readable fs)|done..].
Qed.

Lemma struct_object_readable_intro s :
  extra s = true → fields_ok fs s = true → fields_nonempty fs s →
  20 + fields_size fs s < 2 ^ 32 → struct_object_readable s = true.
Proof.
  intros Hx Hf Hne Hs. unfold struct_object_readable. rewrite Hx, Hf, struct_get_size_sum. cbn [andb].
  rewrite nonempty_tail by (done || by apply (fields_readable fs)). by apply Z.ltb_lt.
Qed.

Lemma struct_object_aligned s :
  struct_object_readable s = true → writable s ∧ get_size s mod 4 = 0.
Proof.
  intros (_ & Hf & _)%struct_object_readable_spec.
  destruct (struct_writable fs s nested (readable_writables _ _ Hf)) as (? & _ & ?). done.
Qed.

Lemma struct_object_writable s : struct_object_readable s = true → writable s ∧ fits s.
Proof.
  intros Hs. destruct (struct_object_aligned s Hs) as [Hw Hm]. split; [done|].
  apply struct_object_readable_spec in Hs as (_ & _ & _ & Hl). pose proof Hw as (Hsz & _).
  change (struct_get_size fs s) with (get_size s) in Hl. unfold fits.
  rewrite pad_aligned by lia. lia.
Qed.

Context (ns : attr_namespace (netlink_type <$> fs)).
Context (laws : object_laws (A := S)).
Context (rebuilds : ∀ s, extra s = true → set_family (get_family s) (rebuild fs s dflt) = s).

Lemma struct_object_parseable s mt seq :
  struct_object_readable s = true → u32_ok seq →
  parseable (object_header s mt seq) (message_genmsg (get_family s) None) (object_payload s).
Proof.
  intros Hs Hseq. destruct (struct_object_writable s Hs). by apply object_message_parseable.
Qed.

(** What is read from a message that carries the payload of [s]: the object [s'] whose
    fields are those the readers return. *)
Lemma struct_object_reads_as s s' hdr gen rest :
  object_sendable s → Forall (field_fits s) fs → Forall (reads_as s s') fs →
  tail_ok (struct_attrs fs s) → 20 + struct_get_size fs s < 2 ^ 32 →
  set_family (get_family s) (rebuild fs s' dflt) = s' →
  parseable hdr gen (object_payload s) →
  get_operation_from_nlmsghdr_type (nlmsg_type hdr) = MSG_TYPE_ADD
    ∨ get_operation_from_nlmsghdr_type (nlmsg_type hdr) = MSG_TYPE_DEL →
  nfgen_family gen = ProtocolFamily_value (get_family s) →
  deserialize (message hdr gen (object_payload s) ++ rest) = Ok (s', rest).
Proof.
  intros (Hw & Hf & Hm) Hff Hr Ht Hl Hs' Hp Hop Hfam.
  cbn [deserialize deser object_deserializable]. unfold object_deserialize.
  rewrite parse_object_message; [|done| |done].
  2: { rewrite object_payload_aligned by done. by destruct Hw as (_ & -> & _). }
  rewrite object_payload_aligned by done.
  unfold attr, dec. rewrite (struct_reads fs s s') by (done || (unfold isize_max; lia)). obind.
  rewrite (proj2 (try_from_Ok _ (get_family s))) by done. obind.
  by rewrite Hs'.
Qed.

Lemma struct_object_reads s hdr gen rest :
  struct_object_readable s = true → parseable hdr gen (object_payload s) →
  get_operation_from_nlmsghdr_type (nlmsg_type hdr) = MSG_TYPE_ADD
    ∨ get_operation_from_nlmsghdr_type (nlmsg_type hdr) = MSG_TYPE_DEL →
  nfgen_family gen = ProtocolFamily_value (get_family s) →
  deserialize (message hdr gen (object_payload s) ++ rest) = Ok (s, rest).
Proof.
  intros Hs. destruct (struct_object_writable s Hs) as [Hw Hf].
  destruct (struct_object_aligned s Hs) as [_ Hm].
  apply struct_object_readable_spec in Hs as (Hx & Hr & Ht & Hl).
  apply struct_object_reads_as; auto using readable_fits, readable_reads. done.
Qed.

Lemma struct_object_safe : safe_deserializer (T := S).
Proof.
  intros b Hb. cbn [deserialize deser object_deserializable]. unfold object_deserialize.
  apply safe_bind.
  - apply parse_object_safe; [apply struct_decoder_safe, (fields_safe fs)|done].
  - intros [[o g] r] _. apply safe_bind; [apply try_from_safe|auto with netlink].
Qed.

Definition struct_object_codec : ObjectCodec S := {|
  object_readable := struct_object_readable;
  object_readable_writable := struct_object_writable;
  object_readable_aligned s Hs := proj2 (struct_object_aligned s Hs);
  object_parseable := struct_object_parseable;
  object_reads := struct_object_reads;
  object_type_ok mt := object_type_small mt laws;
  object_safe := struct_object_safe |}.
End StructObject.

(** ** Round trip of an object's own message *)
Section ObjectRoundtrip.
Context `{BuildProfile} `{SysLaws} {A : Type} `{NfNetlinkObject A, NfNetlinkAttribute A}
  `{NfNetlinkDeserializable A, !ObjectCodec A}.

Lemma object_header_op mt :
  get_operation_from_nlmsghdr_type (header_type (object_type (A := A) mt)) = MSG_TYPE_ADD
  ∨ get_operation_from_nlmsghdr_type (header_type (object_type (A := A) mt)) = MSG_TYPE_DEL.
Proof.
  destruct (object_type_ok mt) as [Hty Hop]. destruct (op_of_header_type _ Hty) as [-> _].
  rewrite Hop. destruct mt; auto.
Qed.

Lemma object_roundtrips (a : A) mt seq rest :
  object_readable a = true → u32_ok seq →
  deserialize (object_message a mt seq ++ rest) = Ok (a, rest).
Proof.
  intros Ha Hs. apply object_reads; [done|by apply object_parseable|apply object_header_op|].
  cbn. by rewrite as_u8_small by apply family_in_u8.
Qed.
End ObjectRoundtrip.

(** The message types come from the headers, the flags are those of a creation. *)
Lemma msg_type_ok `{SysLaws} ty :
  ty ∈ [NFT_MSG_NEWTABLE; NFT_MSG_GETTABLE; NFT_MSG_DELTABLE; NFT_MSG_NEWCHAIN;
        NFT_MSG_GETCHAIN; NFT_MSG_DELCHAIN; NFT_MSG_NEWRULE; NFT_MSG_GETRULE;
        NFT_MSG_DELRULE; NFT_MSG_NEWSET; NFT_MSG_DELSET; NFT_MSG_NEWSETELEM;
        NFT_MSG_DELSETELEM] → 0 ≤ ty < 16.
Proof. destruct msg_types as [_ Ht]. rewrite list.Forall_forall in Ht. apply Ht. Qed.

Ltac solve_object_laws :=
  refine (conj _ (conj _ _));
  [ apply msg_type_ok; set_solver | apply msg_type_ok; set_solver
  | intros a []; unfold object_flags; cbn; unfold default_add_flags, default_del_flags;
    rewrite ?f_create_1024, ?f_append_2048, f_ack_4; reflexivity ].
