(* ===== verification/Exprs.v ===== *)
(** * The expressions of a rule: [src/expr/*.rs]

    One record per expression of the crate, with its setters, its annotated fields and
    the instances its macro generates; then the constructors the files define; then the
    codecs.  [Payload] is in this file, its header fields in [Payload.v]. *)

From S2P Require Import Prelude Sys Errors Lib Nlmsg Parser ParserImpls Macros Codec Data.
Local Open Scope Z_scope.

(** The trait [Expression]: the name an expression is sent under. *)
Class Expression (T : Type) := expr_name : RString.

(** ** Data *)
Inductive ByteorderOp := NtoH | HtoN.

Inductive CmpOp := CmpOp_Eq | CmpOp_Neq | CmpOp_Lt | CmpOp_Lte | CmpOp_Gt | CmpOp_Gte.

Inductive ConntrackKey := ConntrackKey_State | ConntrackKey_Mark.

Inductive ExtHdrOp := ExtHdrOp_IPv6 | ExtHdrOp_TCPOpt.

Inductive MetaType := MetaType_Protocol | MetaType_Mark | MetaType_Iif | MetaType_Oif
  | MetaType_IifName | MetaType_OifName | MetaType_IifType | MetaType_OifType | MetaType_SkUid
  | MetaType_SkGid | MetaType_NfProto | MetaType_L4Proto | MetaType_Cgroup | MetaType_PRandom.

Inductive NatType := SNat | DNat.

Inductive RejectType := IcmpUnreach | TcpRst | IcmpxUnreach.

Inductive IcmpCode := NoRoute | PortUnreach | HostUnreach | AdminProhibited.

Inductive RtKey := ClassID | NextHop4 | NextHop6 | TCPMSS.

Record Bitwise := MkBitwise {
  bitwise_sreg : option Register;
  bitwise_dreg : option Register;
  bitwise_len : option u32;
  bitwise_mask : option NfNetlinkData;
  bitwise_xor : option NfNetlinkData }.

Definition Bitwise_default : Bitwise := MkBitwise None None None None None.
Definition bitwise_with_sreg (v : Register) (s : Bitwise) : Bitwise :=
  MkBitwise (Some v) (bitwise_dreg s) (bitwise_len s) (bitwise_mask s) (bitwise_xor s).
Definition bitwise_with_dreg (v : Register) (s : Bitwise) : Bitwise :=
  MkBitwise (bitwise_sreg s) (Some v) (bitwise_len s) (bitwise_mask s) (bitwise_xor s).
Definition bitwise_with_len (v : u32) (s : Bitwise) : Bitwise :=
  MkBitwise (bitwise_sreg s) (bitwise_dreg s) (Some v) (bitwise_mask s) (bitwise_xor s).
Definition bitwise_with_mask (v : NfNetlinkData) (s : Bitwise) : Bitwise :=
  MkBitwise (bitwise_sreg s) (bitwise_dreg s) (bitwise_len s) (Some v) (bitwise_xor s).
Definition bitwise_with_xor (v : NfNetlinkData) (s : Bitwise) : Bitwise :=
  MkBitwise (bitwise_sreg s) (bitwise_dreg s) (bitwise_len s) (bitwise_mask s) (Some v).

Record Byteorder := MkByteorder {
  byteorder_sreg : option Register;
  byteorder_dreg : option Register;
  byteorder_op : option ByteorderOp;
  byteorder_len : option u32;
  byteorder_siz : option u32 }.

Definition Byteorder_default : Byteorder := MkByteorder None None None None None.
Definition byteorder_with_sreg (v : Register) (s : Byteorder) : Byteorder :=
  MkByteorder (Some v) (byteorder_dreg s) (byteorder_op s) (byteorder_len s) (byteorder_siz s).
Definition byteorder_with_dreg (v : Register) (s : Byteorder) : Byteorder :=
  MkByteorder (byteorder_sreg s) (Some v) (byteorder_op s) (byteorder_len s) (byteorder_siz s).
Definition byteorder_with_op (v : ByteorderOp) (s : Byteorder) : Byteorder :=
  MkByteorder (byteorder_sreg s) (byteorder_dreg s) (Some v) (byteorder_len s)
    (byteorder_siz s).
Definition byteorder_with_len (v : u32) (s : Byteorder) : Byteorder :=
  MkByteorder (byteorder_sreg s) (byteorder_dreg s) (byteorder_op s) (Some v) (byteorder_siz s).
Definition byteorder_with_siz (v : u32) (s : Byteorder) : Byteorder :=
  MkByteorder (byteorder_sreg s) (byteorder_dreg s) (byteorder_op s) (byteorder_len s) (Some v).

Record Cmp := MkCmp {
  cmp_sreg : option Register;
  cmp_op : option CmpOp;
  cmp_data : option NfNetlinkData }.

Definition Cmp_default : Cmp := MkCmp None None None.
Definition cmp_with_sreg (v : Register) (s : Cmp) : Cmp :=
  MkCmp (Some v) (cmp_op s) (cmp_data s).
Definition cmp_with_op (v : CmpOp) (s : Cmp) : Cmp := MkCmp (cmp_sreg s) (Some v) (cmp_data s).
Definition cmp_with_data (v : NfNetlinkData) (s : Cmp) : Cmp :=
  MkCmp (cmp_sreg s) (cmp_op s) (Some v).

Record Counter := MkCounter {
  counter_nb_bytes : option u64;
  counter_nb_packets : option u64 }.

Definition Counter_default : Counter := MkCounter None None.
Definition counter_with_nb_bytes (v : u64) (s : Counter) : Counter :=
  MkCounter (Some v) (counter_nb_packets s).
Definition counter_with_nb_packets (v : u64) (s : Counter) : Counter :=
  MkCounter (counter_nb_bytes s) (Some v).

Record Conntrack := MkConntrack {
  ct_dreg : option Register;
  ct_key : option ConntrackKey;
  ct_direction : option u8;
  ct_sreg : option Register }.

Definition Conntrack_default : Conntrack := MkConntrack None None None None.
Definition ct_with_dreg (v : Register) (s : Conntrack) : Conntrack :=
  MkConntrack (Some v) (ct_key s) (ct_direction s) (ct_sreg s).
Definition ct_with_key (v : ConntrackKey) (s : Conntrack) : Conntrack :=
  MkConntrack (ct_dreg s) (Some v) (ct_direction s) (ct_sreg s).
Definition ct_with_direction (v : u8) (s : Conntrack) : Conntrack :=
  MkConntrack (ct_dreg s) (ct_key s) (Some v) (ct_sreg s).
Definition ct_with_sreg (v : Register) (s : Conntrack) : Conntrack :=
  MkConntrack (ct_dreg s) (ct_key s) (ct_direction s) (Some v).

Record ExtHdr := MkExtHdr {
  exthdr_dreg : option Register;
  exthdr_typ : option u8;
  exthdr_offset : option u32;
  exthdr_len : option u32;
  exthdr_flags : option u32;
  exthdr_op : option ExtHdrOp;
  exthdr_sreg : option Register }.

Definition ExtHdr_default : ExtHdr := MkExtHdr None None None None None None None.
Definition exthdr_with_dreg (v : Register) (s : ExtHdr) : ExtHdr :=
  MkExtHdr (Some v) (exthdr_typ s) (exthdr_offset s) (exthdr_len s) (exthdr_flags s)
    (exthdr_op s) (exthdr_sreg s).
Definition exthdr_with_typ (v : u8) (s : ExtHdr) : ExtHdr :=
  MkExtHdr (exthdr_dreg s) (Some v) (exthdr_offset s) (exthdr_len s) (exthdr_flags s)
    (exthdr_op s) (exthdr_sreg s).
Definition exthdr_with_offset (v : u32) (s : ExtHdr) : ExtHdr :=
  MkExtHdr (exthdr_dreg s) (exthdr_typ s) (Some v) (exthdr_len s) (exthdr_flags s) (exthdr_op s)
    (exthdr_sreg s).
Definition exthdr_with_len (v : u32) (s : ExtHdr) : ExtHdr :=
  MkExtHdr (exthdr_dreg s) (exthdr_typ s) (exthdr_offset s) (Some v) (exthdr_flags s)
    (exthdr_op s) (exthdr_sreg s).
Definition exthdr_with_flags (v : u32) (s : ExtHdr) : ExtHdr :=
  MkExtHdr (exthdr_dreg s) (exthdr_typ s) (exthdr_offset s) (exthdr_len s) (Some v)
    (exthdr_op s) (exthdr_sreg s).
Definition exthdr_with_op (v : ExtHdrOp) (s : ExtHdr) : ExtHdr :=
  MkExtHdr (exthdr_dreg s) (exthdr_typ s) (exthdr_offset s) (exthdr_len s) (exthdr_flags s)
    (Some v) (exthdr_sreg s).
Definition exthdr_with_sreg (v : Register) (s : ExtHdr) : ExtHdr :=
  MkExtHdr (exthdr_dreg s) (exthdr_typ s) (exthdr_offset s) (exthdr_len s) (exthdr_flags s)
    (exthdr_op s) (Some v).

Record Immediate := MkImmediate {
  immediate_dreg : option Register;
  immediate_data : option NfNetlinkData }.

Definition Immediate_default : Immediate := MkImmediate None None.
Definition immediate_with_dreg (v : Register) (s : Immediate) : Immediate :=
  MkImmediate (Some v) (immediate_data s).
Definition immediate_with_data (v : NfNetlinkData) (s : Immediate) : Immediate :=
  MkImmediate (immediate_dreg s) (Some v).

Record Log := MkLog {
  log_group : option u16;
  log_prefix : option RString }.

Definition Log_default : Log := MkLog None None.
Definition log_with_group (v : u16) (s : Log) : Log := MkLog (Some v) (log_prefix s).
Definition log_with_prefix (v : RString) (s : Log) : Log := MkLog (log_group s) (Some v).

Record Lookup := MkLookup {
  lookup_set : option RString;
  lookup_sreg : option Register;
  lookup_dreg : option Register;
  lookup_set_id : option u32 }.

Definition Lookup_default : Lookup := MkLookup None None None None.
Definition lookup_with_set (v : RString) (s : Lookup) : Lookup :=
  MkLookup (Some v) (lookup_sreg s) (lookup_dreg s) (lookup_set_id s).
Definition lookup_with_sreg (v : Register) (s : Lookup) : Lookup :=
  MkLookup (lookup_set s) (Some v) (lookup_dreg s) (lookup_set_id s).
Definition lookup_with_dreg (v : Register) (s : Lookup) : Lookup :=
  MkLookup (lookup_set s) (lookup_sreg s) (Some v) (lookup_set_id s).
Definition lookup_with_set_id (v : u32) (s : Lookup) : Lookup :=
  MkLookup (lookup_set s) (lookup_sreg s) (lookup_dreg s) (Some v).

Record Masquerade := MkMasquerade {}.
Definition Masquerade_default : Masquerade := MkMasquerade.

Record Meta := MkMeta {
  meta_dreg : option Register;
  meta_key : option MetaType;
  meta_sreg : option Register }.

Definition Meta_default : Meta := MkMeta None None None.
Definition meta_with_dreg (v : Register) (s : Meta) : Meta :=
  MkMeta (Some v) (meta_key s) (meta_sreg s).
Definition meta_with_key (v : MetaType) (s : Meta) : Meta :=
  MkMeta (meta_dreg s) (Some v) (meta_sreg s).
Definition meta_with_sreg (v : Register) (s : Meta) : Meta :=
  MkMeta (meta_dreg s) (meta_key s) (Some v).

Record Nat := MkNat {
  nat_nat_type : option NatType;
  nat_family : option ProtocolFamily;
  nat_ip_register : option Register;
  nat_port_register : option Register }.

Definition Nat_default : Nat := MkNat None None None None.
Definition nat_with_nat_type (v : NatType) (s : Nat) : Nat :=
  MkNat (Some v) (nat_family s) (nat_ip_register s) (nat_port_register s).
Definition nat_with_family (v : ProtocolFamily) (s : Nat) : Nat :=
  MkNat (nat_nat_type s) (Some v) (nat_ip_register s) (nat_port_register s).
Definition nat_with_ip_register (v : Register) (s : Nat) : Nat :=
  MkNat (nat_nat_type s) (nat_family s) (Some v) (nat_port_register s).
Definition nat_with_port_register (v : Register) (s : Nat) : Nat :=
  MkNat (nat_nat_type s) (nat_family s) (nat_ip_register s) (Some v).

Record Payload := MkPayload {
  payload_dreg : option Register;
  payload_base : option u32;
  payload_offset : option u32;
  payload_len : option u32;
  payload_sreg : option Register }.

Definition Payload_default : Payload := MkPayload None None None None None.
Definition payload_with_dreg (v : Register) (s : Payload) : Payload :=
  MkPayload (Some v) (payload_base s) (payload_offset s) (payload_len s) (payload_sreg s).
Definition payload_with_base (v : u32) (s : Payload) : Payload :=
  MkPayload (payload_dreg s) (Some v) (payload_offset s) (payload_len s) (payload_sreg s).
Definition payload_with_offset (v : u32) (s : Payload) : Payload :=
  MkPayload (payload_dreg s) (payload_base s) (Some v) (payload_len s) (payload_sreg s).
Definition payload_with_len (v : u32) (s : Payload) : Payload :=
  MkPayload (payload_dreg s) (payload_base s) (payload_offset s) (Some v) (payload_sreg s).
Definition payload_with_sreg (v : Register) (s : Payload) : Payload :=
  MkPayload (payload_dreg s) (payload_base s) (payload_offset s) (payload_len s) (Some v).

Record Reject := MkReject {
  reject_type : option RejectType;
  reject_icmp_code : option IcmpCode }.

Definition Reject_default : Reject := MkReject None None.
Definition reject_with_type (v : RejectType) (s : Reject) : Reject :=
  MkReject (Some v) (reject_icmp_code s).
Definition reject_with_icmp_code (v : IcmpCode) (s : Reject) : Reject :=
  MkReject (reject_type s) (Some v).

Record Rt := MkRt {
  rt_dreg : option Register;
  rt_key : option RtKey }.

Definition Rt_default : Rt := MkRt None None.
Definition rt_with_dreg (v : Register) (s : Rt) : Rt := MkRt (Some v) (rt_key s).
Definition rt_with_key (v : RtKey) (s : Rt) : Rt := MkRt (rt_dreg s) (Some v).

#[global] Instance ByteorderOp_eq_dec : EqDecision ByteorderOp.
Proof. solve_decision. Defined.
#[global] Instance CmpOp_eq_dec : EqDecision CmpOp.
Proof. solve_decision. Defined.
#[global] Instance ConntrackKey_eq_dec : EqDecision ConntrackKey.
Proof. solve_decision. Defined.
#[global] Instance ExtHdrOp_eq_dec : EqDecision ExtHdrOp.
Proof. solve_decision. Defined.
#[global] Instance MetaType_eq_dec : EqDecision MetaType.
Proof. solve_decision. Defined.
#[global] Instance NatType_eq_dec : EqDecision NatType.
Proof. solve_decision. Defined.
#[global] Instance RejectType_eq_dec : EqDecision RejectType.
Proof. solve_decision. Defined.
#[global] Instance IcmpCode_eq_dec : EqDecision IcmpCode.
Proof. solve_decision. Defined.
#[global] Instance RtKey_eq_dec : EqDecision RtKey.
Proof. solve_decision. Defined.
#[global] Instance Bitwise_eq_dec : EqDecision Bitwise.
Proof. solve_decision. Defined.
#[global] Instance Byteorder_eq_dec : EqDecision Byteorder.
Proof. solve_decision. Defined.
#[global] Instance Cmp_eq_dec : EqDecision Cmp.
Proof. solve_decision. Defined.
#[global] Instance Counter_eq_dec : EqDecision Counter.
Proof. solve_decision. Defined.
#[global] Instance Conntrack_eq_dec : EqDecision Conntrack.
Proof. solve_decision. Defined.
#[global] Instance ExtHdr_eq_dec : EqDecision ExtHdr.
Proof. solve_decision. Defined.
#[global] Instance Immediate_eq_dec : EqDecision Immediate.
Proof. solve_decision. Defined.
#[global] Instance Log_eq_dec : EqDecision Log.
Proof. solve_decision. Defined.
#[global] Instance Lookup_eq_dec : EqDecision Lookup.
Proof. solve_decision. Defined.
#[global] Instance Masquerade_eq_dec : EqDecision Masquerade.
Proof. solve_decision. Defined.
#[global] Instance Meta_eq_dec : EqDecision Meta.
Proof. solve_decision. Defined.
#[global] Instance Nat_eq_dec : EqDecision Nat.
Proof. solve_decision. Defined.
#[global] Instance Payload_eq_dec : EqDecision Payload.
Proof. solve_decision. Defined.
#[global] Instance Reject_eq_dec : EqDecision Reject.
Proof. solve_decision. Defined.
#[global] Instance Rt_eq_dec : EqDecision Rt.
Proof. solve_decision. Defined.

(** ** Instances *)
Section Instances.
Context `{BuildProfile} `{Sys}.

#[global] Instance ByteorderOp_enum : NfnetlinkEnum ByteorderOp := {|
  enum_repr := ReprU32;
  variants := [NtoH; HtoN];
  discriminant x := match x with
    | NtoH => NFT_BYTEORDER_NTOH
    | HtoN => NFT_BYTEORDER_HTON
    end;
  unknown_variant := UnknownByteorderOp |}.

#[global] Instance CmpOp_enum : NfnetlinkEnum CmpOp := {|
  enum_repr := ReprU32;
  variants := [CmpOp_Eq; CmpOp_Neq; CmpOp_Lt; CmpOp_Lte; CmpOp_Gt; CmpOp_Gte];
  discriminant x := match x with
    | CmpOp_Eq => NFT_CMP_EQ
    | CmpOp_Neq => NFT_CMP_NEQ
    | CmpOp_Lt => NFT_CMP_LT
    | CmpOp_Lte => NFT_CMP_LTE
    | CmpOp_Gt => NFT_CMP_GT
    | CmpOp_Gte => NFT_CMP_GTE
    end;
  unknown_variant := UnknownCmpOp |}.

#[global] Instance ConntrackKey_enum : NfnetlinkEnum ConntrackKey := {|
  enum_repr := ReprU32;
  variants := [ConntrackKey_State; ConntrackKey_Mark];
  discriminant x := match x with
    | ConntrackKey_State => NFT_CT_STATE
    | ConntrackKey_Mark => NFT_CT_MARK
    end;
  unknown_variant := UnknownConntrackKey |}.

#[global] Instance ExtHdrOp_enum : NfnetlinkEnum ExtHdrOp := {|
  enum_repr := ReprU32;
  variants := [ExtHdrOp_IPv6; ExtHdrOp_TCPOpt];
  discriminant x := match x with
    | ExtHdrOp_IPv6 => NFT_EXTHDR_OP_IPV6
    | ExtHdrOp_TCPOpt => NFT_EXTHDR_OP_TCPOPT
    end;
  unknown_variant := UnknownExtHdrOp |}.

#[global] Instance MetaType_enum : NfnetlinkEnum MetaType := {|
  enum_repr := ReprU32;
  variants := [MetaType_Protocol; MetaType_Mark; MetaType_Iif; MetaType_Oif; MetaType_IifName;
    MetaType_OifName; MetaType_IifType; MetaType_OifType; MetaType_SkUid; MetaType_SkGid;
    MetaType_NfProto; MetaType_L4Proto; MetaType_Cgroup; MetaType_PRandom];
  discriminant x := match x with
    | MetaType_Protocol => NFT_META_PROTOCOL
    | MetaType_Mark => NFT_META_MARK
    | MetaType_Iif => NFT_META_IIF
    | MetaType_Oif => NFT_META_OIF
    | MetaType_IifName => NFT_META_IIFNAME
    | MetaType_OifName => NFT_META_OIFNAME
    | MetaType_IifType => NFT_META_IIFTYPE
    | MetaType_OifType => NFT_META_OIFTYPE
    | MetaType_SkUid => NFT_META_SKUID
    | MetaType_SkGid => NFT_META_SKGID
    | MetaType_NfProto => NFT_META_NFPROTO
    | MetaType_L4Proto => NFT_META_L4PROTO
    | MetaType_Cgroup => NFT_META_CGROUP
    | MetaType_PRandom => NFT_META_PRANDOM
    end;
  unknown_variant := UnknownMetaType |}.

#[global] Instance NatType_enum : NfnetlinkEnum NatType := {|
  enum_repr := ReprI32;
  variants := [SNat; DNat];
  discriminant x := match x with
    | SNat => NFT_NAT_SNAT
    | DNat => NFT_NAT_DNAT
    end;
  unknown_variant := UnknownNatType |}.

#[global] Instance RejectType_enum : NfnetlinkEnum RejectType := {|
  enum_repr := ReprU32;
  variants := [IcmpUnreach; TcpRst; IcmpxUnreach];
  discriminant x := match x with
    | IcmpUnreach => NFT_REJECT_ICMP_UNREACH
    | TcpRst => NFT_REJECT_TCP_RST
    | IcmpxUnreach => NFT_REJECT_ICMPX_UNREACH
    end;
  unknown_variant := UnknownRejectType |}.

#[global] Instance IcmpCode_enum : NfnetlinkEnum IcmpCode := {|
  enum_repr := ReprU8;
  variants := [NoRoute; PortUnreach; HostUnreach; AdminProhibited];
  discriminant x := match x with
    | NoRoute => NFT_REJECT_ICMPX_NO_ROUTE
    | PortUnreach => NFT_REJECT_ICMPX_PORT_UNREACH
    | HostUnreach => NFT_REJECT_ICMPX_HOST_UNREACH
    | AdminProhibited => NFT_REJECT_ICMPX_ADMIN_PROHIBITED
    end;
  unknown_variant := UnknownIcmpCode |}.

#[global] Instance RtKey_enum : NfnetlinkEnum RtKey := {|
  enum_repr := ReprU32;
  variants := [ClassID; NextHop4; NextHop6; TCPMSS];
  discriminant x := match x with
    | ClassID => NFT_RT_CLASSID
    | NextHop4 => NFT_RT_NEXTHOP4
    | NextHop6 => NFT_RT_NEXTHOP6
    | TCPMSS => NFT_RT_TCPMSS
    end;
  unknown_variant := UnknownRtKey |}.

Definition Bitwise_fields : list (Field Bitwise) := [
  mk_field "NFTA_BITWISE_SREG" NFTA_BITWISE_SREG false bitwise_sreg bitwise_with_sreg;
  mk_field "NFTA_BITWISE_DREG" NFTA_BITWISE_DREG false bitwise_dreg bitwise_with_dreg;
  mk_field "NFTA_BITWISE_LEN" NFTA_BITWISE_LEN false bitwise_len bitwise_with_len;
  mk_field "NFTA_BITWISE_MASK" NFTA_BITWISE_MASK false bitwise_mask bitwise_with_mask;
  mk_field "NFTA_BITWISE_XOR" NFTA_BITWISE_XOR false bitwise_xor bitwise_with_xor ].
#[global] Instance Bitwise_attribute : NfNetlinkAttribute Bitwise := struct_attribute Bitwise_fields false.
#[global] Instance Bitwise_decoder : AttributeDecoder Bitwise := struct_decoder Bitwise_fields.
#[global] Instance Bitwise_deserializable : NfNetlinkDeserializable Bitwise := struct_deserializable Bitwise_default.

Definition Byteorder_fields : list (Field Byteorder) := [
  mk_field "NFTA_BYTEORDER_SREG" NFTA_BYTEORDER_SREG false byteorder_sreg byteorder_with_sreg;
  mk_field "NFTA_BYTEORDER_DREG" NFTA_BYTEORDER_DREG false byteorder_dreg byteorder_with_dreg;
  mk_field "NFTA_BYTEORDER_OP" NFTA_BYTEORDER_OP false byteorder_op byteorder_with_op;
  mk_field "NFTA_BYTEORDER_LEN" NFTA_BYTEORDER_LEN false byteorder_len byteorder_with_len;
  mk_field "NFTA_BYTEORDER_SIZE" NFTA_BYTEORDER_SIZE false byteorder_siz byteorder_with_siz ].
#[global] Instance Byteorder_attribute : NfNetlinkAttribute Byteorder := struct_attribute Byteorder_fields true.
#[global] Instance Byteorder_decoder : AttributeDecoder Byteorder := struct_decoder Byteorder_fields.
#[global] Instance Byteorder_deserializable : NfNetlinkDeserializable Byteorder := struct_deserializable Byteorder_default.

Definition Cmp_fields : list (Field Cmp) := [
  mk_field "NFTA_CMP_SREG" NFTA_CMP_SREG false cmp_sreg cmp_with_sreg;
  mk_field "NFTA_CMP_OP" NFTA_CMP_OP false cmp_op cmp_with_op;
  mk_field "NFTA_CMP_DATA" NFTA_CMP_DATA false cmp_data cmp_with_data ].
#[global] Instance Cmp_attribute : NfNetlinkAttribute Cmp := struct_attribute Cmp_fields false.
#[global] Instance Cmp_decoder : AttributeDecoder Cmp := struct_decoder Cmp_fields.
#[global] Instance Cmp_deserializable : NfNetlinkDeserializable Cmp := struct_deserializable Cmp_default.

Definition Counter_fields : list (Field Counter) := [
  mk_field "NFTA_COUNTER_BYTES" NFTA_COUNTER_BYTES false counter_nb_bytes counter_with_nb_bytes;
  mk_field "NFTA_COUNTER_PACKETS" NFTA_COUNTER_PACKETS false counter_nb_packets counter_with_nb_packets ].
#[global] Instance Counter_attribute : NfNetlinkAttribute Counter := struct_attribute Counter_fields false.
#[global] Instance Counter_decoder : AttributeDecoder Counter := struct_decoder Counter_fields.
#[global] Instance Counter_deserializable : NfNetlinkDeserializable Counter := struct_deserializable Counter_default.

Definition Conntrack_fields : list (Field Conntrack) := [
  mk_field "NFTA_CT_DREG" NFTA_CT_DREG false ct_dreg ct_with_dreg;
  mk_field "NFTA_CT_KEY" NFTA_CT_KEY false ct_key ct_with_key;
  mk_field "NFTA_CT_DIRECTION" NFTA_CT_DIRECTION false ct_direction ct_with_direction;
  mk_field "NFTA_CT_SREG" NFTA_CT_SREG false ct_sreg ct_with_sreg ].
#[global] Instance Conntrack_attribute : NfNetlinkAttribute Conntrack := struct_attribute Conntrack_fields true.
#[global] Instance Conntrack_decoder : AttributeDecoder Conntrack := struct_decoder Conntrack_fields.
#[global] Instance Conntrack_deserializable : NfNetlinkDeserializable Conntrack := struct_deserializable Conntrack_default.

Definition ExtHdr_fields : list (Field ExtHdr) := [
  mk_field "NFTA_EXTHDR_DREG" NFTA_EXTHDR_DREG false exthdr_dreg exthdr_with_dreg;
  mk_field "NFTA_EXTHDR_TYPE" NFTA_EXTHDR_TYPE false exthdr_typ exthdr_with_typ;
  mk_field "NFTA_EXTHDR_OFFSET" NFTA_EXTHDR_OFFSET false exthdr_offset exthdr_with_offset;
  mk_field "NFTA_EXTHDR_LEN" NFTA_EXTHDR_LEN false exthdr_len exthdr_with_len;
  mk_field "NFTA_EXTHDR_FLAGS" NFTA_EXTHDR_FLAGS false exthdr_flags exthdr_with_flags;
  mk_field "NFTA_EXTHDR_OP" NFTA_EXTHDR_OP false exthdr_op exthdr_with_op;
  mk_field "NFTA_EXTHDR_SREG" NFTA_EXTHDR_SREG false exthdr_sreg exthdr_with_sreg ].
#[global] Instance ExtHdr_attribute : NfNetlinkAttribute ExtHdr := struct_attribute ExtHdr_fields true.
#[global] Instance ExtHdr_decoder : AttributeDecoder ExtHdr := struct_decoder ExtHdr_fields.
#[global] Instance ExtHdr_deserializable : NfNetlinkDeserializable ExtHdr := struct_deserializable ExtHdr_default.

Definition Immediate_fields : list (Field Immediate) := [
  mk_field "NFTA_IMMEDIATE_DREG" NFTA_IMMEDIATE_DREG false immediate_dreg immediate_with_dreg;
  mk_field "NFTA_IMMEDIATE_DATA" NFTA_IMMEDIATE_DATA false immediate_data immediate_with_data ].
#[global] Instance Immediate_attribute : NfNetlinkAttribute Immediate := struct_attribute Immediate_fields false.
#[global] Instance Immediate_decoder : AttributeDecoder Immediate := struct_decoder Immediate_fields.
#[global] Instance Immediate_deserializable : NfNetlinkDeserializable Immediate := struct_deserializable Immediate_default.

Definition Log_fields : list (Field Log) := [
  mk_field "NFTA_LOG_GROUP" NFTA_LOG_GROUP false log_group log_with_group;
  mk_field "NFTA_LOG_PREFIX" NFTA_LOG_PREFIX false log_prefix log_with_prefix ].
#[global] Instance Log_attribute : NfNetlinkAttribute Log := struct_attribute Log_fields false.
#[global] Instance Log_decoder : AttributeDecoder Log := struct_decoder Log_fields.
#[global] Instance Log_deserializable : NfNetlinkDeserializable Log := struct_deserializable Log_default.

Definition Lookup_fields : list (Field Lookup) := [
  mk_field "NFTA_LOOKUP_SET" NFTA_LOOKUP_SET false lookup_set lookup_with_set;
  mk_field "NFTA_LOOKUP_SREG" NFTA_LOOKUP_SREG false lookup_sreg lookup_with_sreg;
  mk_field "NFTA_LOOKUP_DREG" NFTA_LOOKUP_DREG false lookup_dreg lookup_with_dreg;
  mk_field "NFTA_LOOKUP_SET_ID" NFTA_LOOKUP_SET_ID false lookup_set_id lookup_with_set_id ].
#[global] Instance Lookup_attribute : NfNetlinkAttribute Lookup := struct_attribute Lookup_fields false.
#[global] Instance Lookup_decoder : AttributeDecoder Lookup := struct_decoder Lookup_fields.
#[global] Instance Lookup_deserializable : NfNetlinkDeserializable Lookup := struct_deserializable Lookup_default.

Definition Masquerade_fields : list (Field Masquerade) := [].
#[global] Instance Masquerade_attribute : NfNetlinkAttribute Masquerade := struct_attribute Masquerade_fields true.
#[global] Instance Masquerade_decoder : AttributeDecoder Masquerade := struct_decoder Masquerade_fields.
#[global] Instance Masquerade_deserializable : NfNetlinkDeserializable Masquerade := struct_deserializable Masquerade_default.

Definition Meta_fields : list (Field Meta) := [
  mk_field "NFTA_META_DREG" NFTA_META_DREG false meta_dreg meta_with_dreg;
  mk_field "NFTA_META_KEY" NFTA_META_KEY false meta_key meta_with_key;
  mk_field "NFTA_META_SREG" NFTA_META_SREG false meta_sreg meta_with_sreg ].
#[global] Instance Meta_attribute : NfNetlinkAttribute Meta := struct_attribute Meta_fields false.
#[global] Instance Meta_decoder : AttributeDecoder Meta := struct_decoder Meta_fields.
#[global] Instance Meta_deserializable : NfNetlinkDeserializable Meta := struct_deserializable Meta_default.

Definition Nat_fields : list (Field Nat) := [
  mk_field "NFTA_NAT_TYPE" NFTA_NAT_TYPE false nat_nat_type nat_with_nat_type;
  mk_field "NFTA_NAT_FAMILY" NFTA_NAT_FAMILY false nat_family nat_with_family;
  mk_field "NFTA_NAT_REG_ADDR_MIN" NFTA_NAT_REG_ADDR_MIN false nat_ip_register nat_with_ip_register;
  mk_field "NFTA_NAT_REG_PROTO_MIN" NFTA_NAT_REG_PROTO_MIN false nat_port_register nat_with_port_register ].
#[global] Instance Nat_attribute : NfNetlinkAttribute Nat := struct_attribute Nat_fields true.
#[global] Instance Nat_decoder : AttributeDecoder Nat := struct_decoder Nat_fields.
#[global] Instance Nat_deserializable : NfNetlinkDeserializable Nat := struct_deserializable Nat_default.

Definition Payload_fields : list (Field Payload) := [
  mk_field "NFTA_PAYLOAD_DREG" NFTA_PAYLOAD_DREG false payload_dreg payload_with_dreg;
  mk_field "NFTA_PAYLOAD_BASE" NFTA_PAYLOAD_BASE false payload_base payload_with_base;
  mk_field "NFTA_PAYLOAD_OFFSET" NFTA_PAYLOAD_OFFSET false payload_offset payload_with_offset;
  mk_field "NFTA_PAYLOAD_LEN" NFTA_PAYLOAD_LEN false payload_len payload_with_len;
  mk_field "NFTA_PAYLOAD_SREG" NFTA_PAYLOAD_SREG false payload_sreg payload_with_sreg ].
#[global] Instance Payload_attribute : NfNetlinkAttribute Payload := struct_attribute Payload_fields true.
#[global] Instance Payload_decoder : AttributeDecoder Payload := struct_decoder Payload_fields.
#[global] Instance Payload_deserializable : NfNetlinkDeserializable Payload := struct_deserializable Payload_default.

Definition Reject_fields : list (Field Reject) := [
  mk_field "NFTA_REJECT_TYPE" NFTA_REJECT_TYPE false reject_type reject_with_type;
  mk_field "NFTA_REJECT_ICMP_CODE" NFTA_REJECT_ICMP_CODE false reject_icmp_code reject_with_icmp_code ].
#[global] Instance Reject_attribute : NfNetlinkAttribute Reject := struct_attribute Reject_fields false.
#[global] Instance Reject_decoder : AttributeDecoder Reject := struct_decoder Reject_fields.
#[global] Instance Reject_deserializable : NfNetlinkDeserializable Reject := struct_deserializable Reject_default.

Definition Rt_fields : list (Field Rt) := [
  mk_field "NFTA_RT_DREG" NFTA_RT_DREG false rt_dreg rt_with_dreg;
  mk_field "NFTA_RT_KEY" NFTA_RT_KEY false rt_key rt_with_key ].
#[global] Instance Rt_attribute : NfNetlinkAttribute Rt := struct_attribute Rt_fields true.
#[global] Instance Rt_decoder : AttributeDecoder Rt := struct_decoder Rt_fields.
#[global] Instance Rt_deserializable : NfNetlinkDeserializable Rt := struct_deserializable Rt_default.

End Instances.

#[global] Instance Bitwise_expression : Expression Bitwise := rstr "bitwise".
#[global] Instance Byteorder_expression : Expression Byteorder := rstr "byteorder".
#[global] Instance Cmp_expression : Expression Cmp := rstr "cmp".
#[global] Instance Counter_expression : Expression Counter := rstr "counter".
#[global] Instance Conntrack_expression : Expression Conntrack := rstr "ct".
#[global] Instance ExtHdr_expression : Expression ExtHdr := rstr "exthdr".
#[global] Instance Immediate_expression : Expression Immediate := rstr "immediate".
#[global] Instance Log_expression : Expression Log := rstr "log".
#[global] Instance Lookup_expression : Expression Lookup := rstr "lookup".
#[global] Instance Masquerade_expression : Expression Masquerade := rstr "masq".
#[global] Instance Meta_expression : Expression Meta := rstr "meta".
#[global] Instance Nat_expression : Expression Nat := rstr "nat".
#[global] Instance Payload_expression : Expression Payload := rstr "payload".
#[global] Instance Reject_expression : Expression Reject := rstr "reject".
#[global] Instance Rt_expression : Expression Rt := rstr "rt".

(** ** Constructors *)

(** The bits of [ConnTrackState]. *)
Definition ConnTrackState_INVALID : u32 := 1.
Definition ConnTrackState_ESTABLISHED : u32 := 2.
Definition ConnTrackState_RELATED : u32 := 4.
Definition ConnTrackState_NEW : u32 := 8.
Definition ConnTrackState_UNTRACKED : u32 := 64.

Definition Bitwise_new (mask xor : bytes) : outcome BuilderError Bitwise :=
  if negb (len mask =? len xor) then Err IncompatibleLength
  else Ok (Bitwise_default
    |> bitwise_with_sreg Reg1
    |> bitwise_with_dreg Reg1
    |> bitwise_with_len (as_u32 (len mask))
    |> bitwise_with_xor (NfNetlinkData_default |> data_with_value xor)
    |> bitwise_with_mask (NfNetlinkData_default |> data_with_value mask)).

Definition Cmp_new (op : CmpOp) (data : bytes) : Cmp := {|
  cmp_sreg := Some Reg1;
  cmp_op := Some op;
  cmp_data := Some (NfNetlinkData_default |> data_with_value data) |}.

Definition Conntrack_new (key : ConntrackKey) : Conntrack :=
  Conntrack_default |> ct_with_dreg Reg1 |> ct_with_key key.

(** [set_mark_value] and [with_mark_value]. *)
Definition ct_with_mark_value (reg : Register) (s : Conntrack) : Conntrack :=
  s |> ct_with_sreg reg |> ct_with_key ConntrackKey_Mark.

(** [retrieve_value] and [with_retrieve_value]. *)
Definition ct_with_retrieve_value (key : ConntrackKey) (s : Conntrack) : Conntrack :=
  s |> ct_with_key key |> ct_with_dreg Reg1.

Definition Immediate_new_data (data : bytes) (register : Register) : Immediate :=
  Immediate_default
    |> immediate_with_dreg register
    |> immediate_with_data (NfNetlinkData_default |> data_with_value data).

Definition verdict_code_of (kind : VerdictKind) : VerdictType :=
  match kind with
  | VerdictKind_Drop => VerdictType_Drop
  | VerdictKind_Accept => VerdictType_Accept
  | VerdictKind_Queue => VerdictType_Queue
  | VerdictKind_Continue => VerdictType_Continue
  | VerdictKind_Break => VerdictType_Break
  | VerdictKind_Jump _ => VerdictType_Jump
  | VerdictKind_Goto _ => VerdictType_Goto
  | VerdictKind_Return => VerdictType_Return
  end.

Definition Immediate_new_verdict (kind : VerdictKind) : Immediate :=
  let data := Verdict_default |> verdict_with_code (verdict_code_of kind) in
  let data := match kind with
    | VerdictKind_Jump chain | VerdictKind_Goto chain => data |> verdict_with_chain chain
    | _ => data
    end in
  Immediate_default
    |> immediate_with_dreg RegVerdict
    |> immediate_with_data (NfNetlinkData_default |> data_with_verdict data).

Definition Log_new (group : option u16) (prefix : option RString) : outcome BuilderError Log :=
  let res := Log_default in
  let res := match group with Some group => log_with_group group res | None => res end in
  match prefix with
  | Some prefix =>
      if len prefix >? 127 then Err TooLongLogPrefix
      else Ok (log_with_prefix prefix res)
  | None => Ok res
  end.

Definition Meta_new (ty : MetaType) : Meta :=
  Meta_default |> meta_with_dreg Reg1 |> meta_with_key ty.

(** ** Codecs *)
Section Codecs.
Context `{BuildProfile} `{SysLaws}.

#[global] Instance ByteorderOp_laws : EnumLaws ByteorderOp.
Proof. split; [by intros []; set_solver|exact en_byteorder_op]. Qed.
#[global] Instance CmpOp_laws : EnumLaws CmpOp.
Proof. split; [by intros []; set_solver|exact en_cmp_op]. Qed.
#[global] Instance ConntrackKey_laws : EnumLaws ConntrackKey.
Proof. split; [by intros []; set_solver|exact en_ct_key]. Qed.
#[global] Instance ExtHdrOp_laws : EnumLaws ExtHdrOp.
Proof. split; [by intros []; set_solver|exact en_exthdr_op]. Qed.
#[global] Instance MetaType_laws : EnumLaws MetaType.
Proof. split; [by intros []; set_solver|exact en_meta_type]. Qed.
#[global] Instance NatType_laws : EnumLaws NatType.
Proof. split; [by intros []; set_solver|exact en_nat_type]. Qed.
#[global] Instance RejectType_laws : EnumLaws RejectType.
Proof. split; [by intros []; set_solver|exact en_reject_type]. Qed.
#[global] Instance IcmpCode_laws : EnumLaws IcmpCode.
Proof. split; [by intros []; set_solver|exact en_icmp_code]. Qed.
#[global] Instance RtKey_laws : EnumLaws RtKey.
Proof. split; [by intros []; set_solver|exact en_rt_key]. Qed.

Lemma ns_empty : attr_namespace [].
Proof. split; constructor. Qed.

Lemma Bitwise_rebuild s : rebuild Bitwise_fields s Bitwise_default = s.
Proof. rebuilds. Qed.
#[global] Instance Bitwise_codec : Codec Bitwise :=
  struct_codec Bitwise_fields false Bitwise_default (λ _, true) ns_bitwise (λ s _, Bitwise_rebuild s).

Lemma Byteorder_rebuild s : rebuild Byteorder_fields s Byteorder_default = s.
Proof. rebuilds. Qed.
#[global] Instance Byteorder_codec : Codec Byteorder :=
  struct_codec Byteorder_fields true Byteorder_default (λ _, true) ns_byteorder (λ s _, Byteorder_rebuild s).

Lemma Cmp_rebuild s : rebuild Cmp_fields s Cmp_default = s.
Proof. rebuilds. Qed.
#[global] Instance Cmp_codec : Codec Cmp :=
  struct_codec Cmp_fields false Cmp_default (λ _, true) ns_cmp (λ s _, Cmp_rebuild s).

Lemma Counter_rebuild s : rebuild Counter_fields s Counter_default = s.
Proof. rebuilds. Qed.
#[global] Instance Counter_codec : Codec Counter :=
  struct_codec Counter_fields false Counter_default (λ _, true) ns_counter (λ s _, Counter_rebuild s).

Lemma Conntrack_rebuild s : rebuild Conntrack_fields s Conntrack_default = s.
Proof. rebuilds. Qed.
#[global] Instance Conntrack_codec : Codec Conntrack :=
  struct_codec Conntrack_fields true Conntrack_default (λ _, true) ns_ct (λ s _, Conntrack_rebuild s).

Lemma ExtHdr_rebuild s : rebuild ExtHdr_fields s ExtHdr_default = s.
Proof. rebuilds. Qed.
#[global] Instance ExtHdr_codec : Codec ExtHdr :=
  struct_codec ExtHdr_fields true ExtHdr_default (λ _, true) ns_exthdr (λ s _, ExtHdr_rebuild s).

Lemma Immediate_rebuild s : rebuild Immediate_fields s Immediate_default = s.
Proof. rebuilds. Qed.
#[global] Instance Immediate_codec : Codec Immediate :=
  struct_codec Immediate_fields false Immediate_default (λ _, true) ns_immediate (λ s _, Immediate_rebuild s).

Lemma Log_rebuild s : rebuild Log_fields s Log_default = s.
Proof. rebuilds. Qed.
#[global] Instance Log_codec : Codec Log :=
  struct_codec Log_fields false Log_default (λ _, true) ns_log (λ s _, Log_rebuild s).

Lemma Lookup_rebuild s : rebuild Lookup_fields s Lookup_default = s.
Proof. rebuilds. Qed.
#[global] Instance Lookup_codec : Codec Lookup :=
  struct_codec Lookup_fields false Lookup_default (λ _, true) ns_lookup (λ s _, Lookup_rebuild s).

Lemma Masquerade_rebuild s : rebuild Masquerade_fields s Masquerade_default = s.
Proof. rebuilds. Qed.
#[global] Instance Masquerade_codec : Codec Masquerade :=
  struct_codec Masquerade_fields true Masquerade_default (λ _, true) ns_empty (λ s _, Masquerade_rebuild s).

Lemma Meta_rebuild s : rebuild Meta_fields s Meta_default = s.
Proof. rebuilds. Qed.
#[global] Instance Meta_codec : Codec Meta :=
  struct_codec Meta_fields false Meta_default (λ _, true) ns_meta (λ s _, Meta_rebuild s).

Lemma Nat_rebuild s : rebuild Nat_fields s Nat_default = s.
Proof. rebuilds. Qed.
#[global] Instance Nat_codec : Codec Nat :=
  struct_codec Nat_fields true Nat_default (λ _, true) ns_nat (λ s _, Nat_rebuild s).

Lemma Payload_rebuild s : rebuild Payload_fields s Payload_default = s.
Proof. rebuilds. Qed.
#[global] Instance Payload_codec : Codec Payload :=
  struct_codec Payload_fields true Payload_default (λ _, true) ns_payload (λ s _, Payload_rebuild s).

Lemma Reject_rebuild s : rebuild Reject_fields s Reject_default = s.
Proof. rebuilds. Qed.
#[global] Instance Reject_codec : Codec Reject :=
  struct_codec Reject_fields false Reject_default (λ _, true) ns_reject (λ s _, Reject_rebuild s).

Lemma Rt_rebuild s : rebuild Rt_fields s Rt_default = s.
Proof. rebuilds. Qed.
#[global] Instance Rt_codec : Codec Rt :=
  struct_codec Rt_fields true Rt_default (λ _, true) ns_rt (λ s _, Rt_rebuild s).

End Codecs.
