(* ===== verification/ExprMod.v ===== *)
(** * Raw expressions and expression lists: [src/expr/mod.rs]

    An expression is sent as its name and its data; the type of the data is chosen by
    the name, so the decoder is written by [create_expr_variant!] and not derived. *)

From S2P Require Import Prelude Sys Errors Lib Nlmsg Parser ParserImpls Macros Codec Data Exprs.
Local Open Scope Z_scope.

(** The data of an expression of an unknown name. *)
Record ExpressionRaw := MkExpressionRaw { raw_bytes : VecU8 }.

#[global] Instance ExpressionRaw_attribute : NfNetlinkAttribute ExpressionRaw :=
  {| is_nested _ := false; get_size r := get_size (raw_bytes r);
     write_payload r addr := write_payload (raw_bytes r) addr |}.
#[global] Instance ExpressionRaw_deserializable : NfNetlinkDeserializable ExpressionRaw :=
  {| deserialize buf := Ok (MkExpressionRaw buf, []) |}.
#[global] Instance ExpressionRaw_expression : Expression ExpressionRaw := rstr "unknown_expression".

Inductive ExpressionVariant :=
  | EBitwise (val : Bitwise)
  | EByteorder (val : Byteorder)
  | ECmp (val : Cmp)
  | EConntrack (val : Conntrack)
  | ECounter (val : Counter)
  | EExpressionRaw (val : ExpressionRaw)
  | EExtHdr (val : ExtHdr)
  | EImmediate (val : Immediate)
  | ELog (val : Log)
  | ELookup (val : Lookup)
  | EMasquerade (val : Masquerade)
  | EMeta (val : Meta)
  | ENat (val : Nat)
  | EPayload (val : Payload)
  | EReject (val : Reject)
  | ERt (val : Rt).

Record RawExpression := MkRawExpression {
  raw_name : option RString;
  raw_data : option ExpressionVariant }.

Definition RawExpression_default : RawExpression := MkRawExpression None None.
Definition raw_with_name (v : RString) (s : RawExpression) : RawExpression :=
  MkRawExpression (Some v) (raw_data s).
Definition raw_with_data (v : ExpressionVariant) (s : RawExpression) : RawExpression :=
  MkRawExpression (raw_name s) (Some v).

#[global] Instance ExpressionRaw_eq_dec : EqDecision ExpressionRaw.
Proof. solve_decision. Defined.
#[global] Instance ExpressionVariant_eq_dec : EqDecision ExpressionVariant.
Proof. solve_decision. Defined.
#[global] Instance RawExpression_eq_dec : EqDecision RawExpression.
Proof. solve_decision. Defined.

(** [From<T> for ExpressionVariant]. *)
Class IntoVariant (T : Type) := into_variant : T → ExpressionVariant.
#[global] Instance Bitwise_variant : IntoVariant Bitwise := EBitwise.
#[global] Instance Byteorder_variant : IntoVariant Byteorder := EByteorder.
#[global] Instance Cmp_variant : IntoVariant Cmp := ECmp.
#[global] Instance Conntrack_variant : IntoVariant Conntrack := EConntrack.
#[global] Instance Counter_variant : IntoVariant Counter := ECounter.
#[global] Instance ExpressionRaw_variant : IntoVariant ExpressionRaw := EExpressionRaw.
#[global] Instance ExtHdr_variant : IntoVariant ExtHdr := EExtHdr.
#[global] Instance Immediate_variant : IntoVariant Immediate := EImmediate.
#[global] Instance Log_variant : IntoVariant Log := ELog.
#[global] Instance Lookup_variant : IntoVariant Lookup := ELookup.
#[global] Instance Masquerade_variant : IntoVariant Masquerade := EMasquerade.
#[global] Instance Meta_variant : IntoVariant Meta := EMeta.
#[global] Instance Nat_variant : IntoVariant Nat := ENat.
#[global] Instance Payload_variant : IntoVariant Payload := EPayload.
#[global] Instance Reject_variant : IntoVariant Reject := EReject.
#[global] Instance Rt_variant : IntoVariant Rt := ERt.

(** [From<T> for RawExpression]. *)
Definition RawExpression_from {T : Type} `{Expression T} `{IntoVariant T} (val : T) : RawExpression :=
  RawExpression_default |> raw_with_name (expr_name (T := T)) |> raw_with_data (into_variant val).

Section Instances.
Context `{BuildProfile} `{Sys}.

Definition variant_get_size (v : ExpressionVariant) : Z :=
  match v with
  | EBitwise val => get_size val
  | EByteorder val => get_size val
  | ECmp val => get_size val
  | EConntrack val => get_size val
  | ECounter val => get_size val
  | EExpressionRaw val => get_size val
  | EExtHdr val => get_size val
  | EImmediate val => get_size val
  | ELog val => get_size val
  | ELookup val => get_size val
  | EMasquerade val => get_size val
  | EMeta val => get_size val
  | ENat val => get_size val
  | EPayload val => get_size val
  | EReject val => get_size val
  | ERt val => get_size val
  end.

Definition variant_write_payload (v : ExpressionVariant) (addr : bytes)
    : outcome Empty_set bytes :=
  match v with
  | EBitwise val => write_payload val addr
  | EByteorder val => write_payload val addr
  | ECmp val => write_payload val addr
  | EConntrack val => write_payload val addr
  | ECounter val => write_payload val addr
  | EExpressionRaw val => write_payload val addr
  | EExtHdr val => write_payload val addr
  | EImmediate val => write_payload val addr
  | ELog val => write_payload val addr
  | ELookup val => write_payload val addr
  | EMasquerade val => write_payload val addr
  | EMeta val => write_payload val addr
  | ENat val => write_payload val addr
  | EPayload val => write_payload val addr
  | EReject val => write_payload val addr
  | ERt val => write_payload val addr
  end.

#[global] Instance ExpressionVariant_attribute : NfNetlinkAttribute ExpressionVariant :=
  {| is_nested _ := true; get_size := variant_get_size;
     write_payload := variant_write_payload |}.

(** One entry of the decoder's table. *)
Definition decode_variant {T : Type} `{NfNetlinkDeserializable T} `{IntoVariant T} (buf : bytes)
    : outcome DecodeError ExpressionVariant :=
  '(res, remaining) ← deserialize (A := T) buf;
  if negb (len remaining =? 0) then Err InvalidDataSize else Ok (into_variant res).

Definition variant_decoders : list (RString * (bytes → outcome DecodeError ExpressionVariant)) := [
  (expr_name (T := Bitwise), decode_variant (T := Bitwise));
  (expr_name (T := Byteorder), decode_variant (T := Byteorder));
  (expr_name (T := Cmp), decode_variant (T := Cmp));
  (expr_name (T := Conntrack), decode_variant (T := Conntrack));
  (expr_name (T := Counter), decode_variant (T := Counter));
  (expr_name (T := ExpressionRaw), decode_variant (T := ExpressionRaw));
  (expr_name (T := ExtHdr), decode_variant (T := ExtHdr));
  (expr_name (T := Immediate), decode_variant (T := Immediate));
  (expr_name (T := Log), decode_variant (T := Log));
  (expr_name (T := Lookup), decode_variant (T := Lookup));
  (expr_name (T := Masquerade), decode_variant (T := Masquerade));
  (expr_name (T := Meta), decode_variant (T := Meta));
  (expr_name (T := Nat), decode_variant (T := Nat));
  (expr_name (T := Payload), decode_variant (T := Payload));
  (expr_name (T := Reject), decode_variant (T := Reject));
  (expr_name (T := Rt), decode_variant (T := Rt)) ].

Fixpoint find_decoder (name : RString)
    (l : list (RString * (bytes → outcome DecodeError ExpressionVariant)))
    : option (bytes → outcome DecodeError ExpressionVariant) :=
  match l with
  | [] => None
  | (n, d) :: l => if decide (name = n) then Some d else find_decoder name l
  end.

Definition decode_data (name : RString) (buf : bytes) : outcome DecodeError ExpressionVariant :=
  match find_decoder name variant_decoders with
  | Some d => d buf
  | None =>
      '(res, _) ← deserialize (A := ExpressionRaw) buf;
      Ok (EExpressionRaw res)
  end.

Definition raw_decode_attribute (self : RawExpression) (attr_type : Z) (buf : bytes)
    : outcome DecodeError RawExpression :=
  if attr_type =? NFTA_EXPR_NAME then
    '(val, remaining) ← deserialize (A := RString) buf;
    if negb (len remaining =? 0) then Err InvalidDataSize
    else Ok (raw_with_name val self)
  else if attr_type =? NFTA_EXPR_DATA then
    match raw_name self with
    | None => Err MissingExpressionName
    | Some name => data ← decode_data name buf; Ok (raw_with_data data self)
    end
  else Err (UnsupportedAttributeType attr_type).

Definition RawExpression_fields : list (Field RawExpression) := [
  mk_field "NFTA_EXPR_NAME" NFTA_EXPR_NAME false raw_name raw_with_name;
  mk_field (H0 := no_derived_reader) "NFTA_EXPR_DATA" NFTA_EXPR_DATA false raw_data raw_with_data ].
#[global] Instance RawExpression_attribute : NfNetlinkAttribute RawExpression :=
  struct_attribute RawExpression_fields true.
#[global] Instance RawExpression_decoder : AttributeDecoder RawExpression :=
  {| decode_attribute := raw_decode_attribute |}.
#[global] Instance RawExpression_deserializable : NfNetlinkDeserializable RawExpression :=
  struct_deserializable RawExpression_default.
End Instances.

Definition ExpressionList : Type := NfNetlinkList RawExpression.

#[global] Arguments variant_decoders : simpl never.
#[global] Arguments decode_data : simpl never.

(** ** Which expressions can be sent and read back *)
Section Codecs.
Context `{BuildProfile} `{SysLaws}.

Lemma ExpressionRaw_writable (r : ExpressionRaw) : writable r ∧ encode r = raw_bytes r.
Proof. by apply copied. Qed.

#[global] Instance ExpressionRaw_codec : Codec ExpressionRaw := {|
  value_ok r := 4 + len (raw_bytes r) <? 2 ^ 16;
  codec_writable r _ := proj1 (ExpressionRaw_writable r);
  codec_size r Hr := proj1 (Z.ltb_lt _ _) Hr;
  codec_roundtrips r _ := ltac:(unfold roundtrips; rewrite (proj2 (ExpressionRaw_writable r)); by destruct r);
  codec_safe b _ := safe_ok _ |}.

Definition variant_ok (v : ExpressionVariant) : bool :=
  match v with
  | EBitwise val => value_ok val
  | EByteorder val => value_ok val
  | ECmp val => value_ok val
  | EConntrack val => value_ok val
  | ECounter val => value_ok val
  | EExpressionRaw val => value_ok val
  | EExtHdr val => value_ok val
  | EImmediate val => value_ok val
  | ELog val => value_ok val
  | ELookup val => value_ok val
  | EMasquerade val => value_ok val
  | EMeta val => value_ok val
  | ENat val => value_ok val
  | EPayload val => value_ok val
  | EReject val => value_ok val
  | ERt val => value_ok val
  end.

(** The names that select a type other than [ExpressionRaw]. *)
Definition known_names : list RString := [
  expr_name (T := Bitwise);
  expr_name (T := Byteorder);
  expr_name (T := Cmp);
  expr_name (T := Conntrack);
  expr_name (T := Counter);
  expr_name (T := ExtHdr);
  expr_name (T := Immediate);
  expr_name (T := Log);
  expr_name (T := Lookup);
  expr_name (T := Masquerade);
  expr_name (T := Meta);
  expr_name (T := Nat);
  expr_name (T := Payload);
  expr_name (T := Reject);
  expr_name (T := Rt) ].

(** The data is of the type its name selects. *)
Definition name_matches (name : RString) (v : ExpressionVariant) : bool :=
  match v with
  | EExpressionRaw _ => negb (bool_decide (name ∈ known_names))
  | EBitwise _ => bool_decide (name = expr_name (T := Bitwise))
  | EByteorder _ => bool_decide (name = expr_name (T := Byteorder))
  | ECmp _ => bool_decide (name = expr_name (T := Cmp))
  | EConntrack _ => bool_decide (name = expr_name (T := Conntrack))
  | ECounter _ => bool_decide (name = expr_name (T := Counter))
  | EExtHdr _ => bool_decide (name = expr_name (T := ExtHdr))
  | EImmediate _ => bool_decide (name = expr_name (T := Immediate))
  | ELog _ => bool_decide (name = expr_name (T := Log))
  | ELookup _ => bool_decide (name = expr_name (T := Lookup))
  | EMasquerade _ => bool_decide (name = expr_name (T := Masquerade))
  | EMeta _ => bool_decide (name = expr_name (T := Meta))
  | ENat _ => bool_decide (name = expr_name (T := Nat))
  | EPayload _ => bool_decide (name = expr_name (T := Payload))
  | EReject _ => bool_decide (name = expr_name (T := Reject))
  | ERt _ => bool_decide (name = expr_name (T := Rt))
  end.

Lemma variant_writable v :
  variant_ok v = true → writable v ∧ 4 + get_size v < 2 ^ 16.
Proof.
  intros Hv. destruct v; cbn [variant_ok] in Hv;
    pose proof (codec_writable _ Hv) as Hw; pose proof (codec_size _ Hv) as Hs; done.
Qed.

Lemma decode_variant_encode {T} `{Codec T} `{IntoVariant T} (val : T) :
  value_ok val = true → decode_variant (T := T) (encode val) = Ok (into_variant val).
Proof. intros Hv. unfold decode_variant. by rewrite (codec_roundtrips val Hv). Qed.

Lemma find_decoder_None name l : name ∉ l.*1 → find_decoder name l = None.
Proof.
  induction l as [|[n d] l IH]; [done|]. cbn. intros [Hn Hl]%not_elem_of_cons.
  rewrite decide_False by done. by apply IH.
Qed.

(** An expression of a name the crate does not know is kept as it is. *)
Lemma decode_unknown name buf :
  name ∉ known_names → decode_data name buf = Ok (EExpressionRaw (MkExpressionRaw buf)).
Proof.
  intros Hn. unfold decode_data.
  destruct (decide (name = expr_name (T := ExpressionRaw))) as [->|Hne]; [done|].
  rewrite find_decoder_None; [done|].
  unfold known_names, variant_decoders in *. cbn [fmap list_fmap fst].
  rewrite !not_elem_of_cons in *. tauto.
Qed.

Lemma decode_data_encode name v :
  variant_ok v = true → name_matches name v = true → decode_data name (encode v) = Ok v.
Proof.
  intros Hv Hn. destruct v; cbn [name_matches variant_ok] in *.
  6: { apply negb_true_iff, bool_decide_eq_false in Hn. rewrite decode_unknown by done.
       destruct val. do 3 f_equal. apply vec_writable. }
  all: apply bool_decide_eq_true in Hn as ->; exact (decode_variant_encode val Hv).
Qed.

Definition RawExpression_ok (s : RawExpression) : bool :=
  match raw_name s, raw_data s with
  | None, None => true
  | None, Some _ => false
  | Some name, None => value_ok name && (0 <? len name)
  | Some name, Some v =>
      value_ok name && variant_ok v && name_matches name v && (0 <? get_size v)
  end && (4 + get_size s <? 2 ^ 16).

Lemma RawExpression_ok_spec s :
  RawExpression_ok s = true →
  option_ok value_ok (raw_name s) = true ∧ option_ok variant_ok (raw_data s) = true
  ∧ 4 + get_size s < 2 ^ 16.
Proof.
  intros [Hs ?%Z.ltb_lt]%andb_true_iff. destruct s as [[n|] [v|]]; cbn [raw_name raw_data] in *;
    cbn [option_ok]; rewrite ?andb_true_iff in Hs; intuition done.
Qed.

Lemma raw_fields_fit s :
  RawExpression_ok s = true → Forall (field_fits s) RawExpression_fields.
Proof.
  intros (Hn & Hd & _)%RawExpression_ok_spec. constructor; [|constructor; [|constructor]];
    intros v Hv; cbn in Hv; rewrite Hv in *.
  - split; [by apply codec_writable|by apply codec_size].
  - by apply variant_writable.
Qed.

Lemma raw_writable s :
  RawExpression_ok s = true → writable s ∧ get_size s mod 4 = 0.
Proof.
  intros Hf%raw_fields_fit%fits_writables.
  by destruct (struct_writable RawExpression_fields s true Hf) as (? & _ & ?).
Qed.

Lemma expr_types_differ : NFTA_EXPR_DATA ≠ NFTA_EXPR_NAME.
Proof.
  destruct ns_expr as [Hnd _]. apply list.NoDup_cons in Hnd as [Hn _]. intros Heq.
  apply Hn. rewrite Heq. apply list_elem_of_singleton. done.
Qed.

Lemma decode_name s n :
  value_ok n = true →
  decode_or_skip s NFTA_EXPR_NAME (encode n) = Ok (raw_with_name n s).
Proof.
  intros Hn. unfold decode_or_skip. cbn [decode_attribute RawExpression_decoder].
  unfold raw_decode_attribute. rewrite Z.eqb_refl, (codec_roundtrips n Hn). done.
Qed.

Lemma decode_expr_data s n v :
  raw_name s = Some n → variant_ok v = true → name_matches n v = true →
  decode_or_skip s NFTA_EXPR_DATA (encode v) = Ok (raw_with_data v s).
Proof.
  intros Hn Hv Hm. unfold decode_or_skip. cbn [decode_attribute RawExpression_decoder].
  unfold raw_decode_attribute.
  rewrite (proj2 (Z.eqb_neq _ _) expr_types_differ), Z.eqb_refl, Hn.
  by rewrite decode_data_encode.
Qed.

Lemma encode_nonempty {A} `{NfNetlinkAttribute A} (a : A) :
  writable a → 0 < get_size a → encode a ≠ [].
Proof. intros (_ & Hl & _) Hs He. rewrite He, len_nil in Hl. lia. Qed.

Lemma raw_read_back s :
  RawExpression_ok s = true →
  read_back (struct_attrs RawExpression_fields s) RawExpression_default = Ok s.
Proof.
  intros Hs. pose proof (RawExpression_ok_spec s Hs) as (Hwn & Hwv & _).
  apply andb_true_iff in Hs as [Hs _]. unfold RawExpression_fields.
  destruct s as [[n|] [v|]]; cbn [raw_name raw_data option_ok] in *; try done;
    cbn [struct_attrs get_field mk_field raw_name raw_data netlink_type];
    rewrite ?andb_true_iff in Hs.
  - destruct Hs as [[[Hn Hv] Hm] Hl%Z.ltb_lt]. rewrite read_back_cons by (by right).
    cbn [value_attr at_type at_payload]. rewrite decode_name by done. obind.
    rewrite read_back_cons.
    + cbn [value_attr at_type at_payload]. by rewrite (decode_expr_data _ n).
    + left. apply encode_nonempty; [by apply variant_writable|done].
  - destruct Hs as [Hn Hl%Z.ltb_lt]. rewrite read_back_cons.
    + cbn [value_attr at_type at_payload]. by rewrite decode_name.
    + left. apply encode_nonempty; [by apply codec_writable|done].
Qed.

Lemma raw_roundtrips s : RawExpression_ok s = true → roundtrips s.
Proof.
  intros Hs. unfold roundtrips. cbn [deserialize RawExpression_deserializable struct_deserializable].
  unfold struct_deserialize, RawExpression_attribute.
  rewrite (read_attributes_encode RawExpression_fields s true RawExpression_default (Ok s)); [done|..].
  - exact ns_expr.
  - by apply raw_fields_fit.
  - apply RawExpression_ok_spec in Hs as (_ & _ & Hl).
    change (struct_get_size RawExpression_fields s) with (get_size s). unfold isize_max. lia.
  - by apply raw_read_back.
Qed.

(** Whatever the name, the data is decoded inside its bytes. *)
Lemma decode_variant_safe {T} `{Codec T} `{IntoVariant T} buf :
  len buf ≤ isize_max → safe (decode_variant (T := T) buf).
Proof.
  intros Hb. apply safe_bind; [by apply codec_safe|]. intros [] _.
  destruct_ifs; auto with netlink.
Qed.

Lemma decode_data_safe name buf : len buf ≤ isize_max → safe (decode_data name buf).
Proof.
  intros Hb. unfold decode_data.
  assert (Forall (λ e, safe (e.2 buf)) variant_decoders) as Hsafe
    by (repeat (apply List.Forall_cons; [by apply decode_variant_safe|]); apply List.Forall_nil).
  induction Hsafe as [|[n d] l Hd _ IH]; cbn [find_decoder]; [apply safe_ok|].
  by destruct (decide (name = n)).
Qed.

Lemma raw_safe : safe_deserializer (T := RawExpression).
Proof.
  apply struct_deserialize_safe. intros s ty b Hb.
  cbn [decode_attribute RawExpression_decoder]. unfold raw_decode_attribute.
  destruct (ty =? NFTA_EXPR_NAME); [|destruct (ty =? NFTA_EXPR_DATA); [|auto with netlink]].
  - apply safe_bind; [by apply codec_safe|]. intros [] _. destruct_ifs; auto with netlink.
  - destruct (raw_name s); [|auto with netlink].
    apply safe_bind; [by apply decode_data_safe|auto with netlink].
Qed.

#[global] Instance RawExpression_codec : Codec RawExpression := {|
  value_ok := RawExpression_ok;
  codec_writable s Hs := proj1 (raw_writable s Hs);
  codec_size s Hs := proj2 (proj2 (RawExpression_ok_spec s Hs));
  codec_roundtrips := raw_roundtrips;
  codec_safe := raw_safe |}.
#[global] Instance RawExpression_aligned : AlignedCodec RawExpression :=
  λ s Hs, proj2 (raw_writable s Hs).

#[global] Instance ExpressionList_codec : Codec ExpressionList := list_codec.
End Codecs.
