(* ===== verification/Payload.v ===== *)
(** * Packet header fields: [src/expr/payload.rs]

    A header field is an offset and a length; each table of fields has a reader that
    recognizes the pair. *)

From S2P Require Import Prelude Sys Errors Lib Nlmsg Parser ParserImpls Macros Codec Data Exprs.
Local Open Scope Z_scope.

(** The trait [HeaderField]. *)
Class HeaderField (T : Type) := {
  hf_offset : T → u32;
  hf_len : T → u32 }.

Inductive LLHeaderField := LL_Daddr | LL_Saddr | LL_EtherType.
#[global] Instance LLHeaderField_header : HeaderField LLHeaderField := {|
  hf_offset f := match f with LL_Daddr => 0 | LL_Saddr => 6 | LL_EtherType => 12 end;
  hf_len f := match f with LL_Daddr => 6 | LL_Saddr => 6 | LL_EtherType => 2 end |}.

Inductive IPv4HeaderField := IPv4_Ttl | IPv4_Protocol | IPv4_Saddr | IPv4_Daddr.
#[global] Instance IPv4HeaderField_header : HeaderField IPv4HeaderField := {|
  hf_offset f := match f with IPv4_Ttl => 8 | IPv4_Protocol => 9 | IPv4_Saddr => 12 | IPv4_Daddr => 16 end;
  hf_len f := match f with IPv4_Ttl => 1 | IPv4_Protocol => 1 | IPv4_Saddr => 4 | IPv4_Daddr => 4 end |}.

Inductive IPv6HeaderField := IPv6_NextHeader | IPv6_HopLimit | IPv6_Saddr | IPv6_Daddr.
#[global] Instance IPv6HeaderField_header : HeaderField IPv6HeaderField := {|
  hf_offset f := match f with IPv6_NextHeader => 6 | IPv6_HopLimit => 7 | IPv6_Saddr => 8 | IPv6_Daddr => 24 end;
  hf_len f := match f with IPv6_NextHeader => 1 | IPv6_HopLimit => 1 | IPv6_Saddr => 16 | IPv6_Daddr => 16 end |}.

Inductive TCPHeaderField := TCP_Sport | TCP_Dport.
#[global] Instance TCPHeaderField_header : HeaderField TCPHeaderField := {|
  hf_offset f := match f with TCP_Sport => 0 | TCP_Dport => 2 end;
  hf_len f := match f with TCP_Sport => 2 | TCP_Dport => 2 end |}.

Inductive UDPHeaderField := UDP_Sport | UDP_Dport | UDP_Len.
#[global] Instance UDPHeaderField_header : HeaderField UDPHeaderField := {|
  hf_offset f := match f with UDP_Sport => 0 | UDP_Dport => 2 | UDP_Len => 4 end;
  hf_len f := match f with UDP_Sport => 2 | UDP_Dport => 2 | UDP_Len => 2 end |}.

Inductive ICMPv6HeaderField := ICMPv6_Type | ICMPv6_Code | ICMPv6_Checksum.
#[global] Instance ICMPv6HeaderField_header : HeaderField ICMPv6HeaderField := {|
  hf_offset f := match f with ICMPv6_Type => 0 | ICMPv6_Code => 1 | ICMPv6_Checksum => 2 end;
  hf_len f := match f with ICMPv6_Type => 1 | ICMPv6_Code => 1 | ICMPv6_Checksum => 2 end |}.

Inductive NetworkHeaderField := Network_IPv4 (f : IPv4HeaderField) | Network_IPv6 (f : IPv6HeaderField).
#[global] Instance NetworkHeaderField_header : HeaderField NetworkHeaderField := {|
  hf_offset x := match x with Network_IPv4 f => hf_offset f | Network_IPv6 f => hf_offset f end;
  hf_len x := match x with Network_IPv4 f => hf_len f | Network_IPv6 f => hf_len f end |}.

Inductive TransportHeaderField :=
  | Transport_Tcp (f : TCPHeaderField)
  | Transport_Udp (f : UDPHeaderField)
  | Transport_ICMPv6 (f : ICMPv6HeaderField).
#[global] Instance TransportHeaderField_header : HeaderField TransportHeaderField := {|
  hf_offset x := match x with
    | Transport_Tcp f => hf_offset f | Transport_Udp f => hf_offset f
    | Transport_ICMPv6 f => hf_offset f end;
  hf_len x := match x with
    | Transport_Tcp f => hf_len f | Transport_Udp f => hf_len f
    | Transport_ICMPv6 f => hf_len f end |}.

Inductive HighLevelPayload :=
  | HLP_LinkLayer (f : LLHeaderField)
  | HLP_Network (f : NetworkHeaderField)
  | HLP_Transport (f : TransportHeaderField).

Inductive PayloadType := PT_LinkLayer (f : LLHeaderField) | PT_Network | PT_Transport.

Definition LLHeaderField_from_raw_data (offset len : u32) : outcome DecodeError LLHeaderField :=
  if (offset =? 0) && (len =? 6) then Ok LL_Daddr
  else if (offset =? 6) && (len =? 6) then Ok LL_Saddr
  else if (offset =? 12) && (len =? 2) then Ok LL_EtherType
  else Err (UnknownLinkLayerHeaderField offset len).

Definition IPv4HeaderField_from_raw_data (offset len : u32) : outcome DecodeError IPv4HeaderField :=
  if (offset =? 8) && (len =? 1) then Ok IPv4_Ttl
  else if (offset =? 9) && (len =? 1) then Ok IPv4_Protocol
  else if (offset =? 12) && (len =? 4) then Ok IPv4_Saddr
  else if (offset =? 16) && (len =? 4) then Ok IPv4_Daddr
  else Err (UnknownIPv4HeaderField offset len).

Definition IPv6HeaderField_from_raw_data (offset len : u32) : outcome DecodeError IPv6HeaderField :=
  if (offset =? 6) && (len =? 1) then Ok IPv6_NextHeader
  else if (offset =? 7) && (len =? 1) then Ok IPv6_HopLimit
  else if (offset =? 8) && (len =? 16) then Ok IPv6_Saddr
  else if (offset =? 24) && (len =? 16) then Ok IPv6_Daddr
  else Err (UnknownIPv6HeaderField offset len).

Definition TCPHeaderField_from_raw_data (offset len : u32) : outcome DecodeError TCPHeaderField :=
  if (offset =? 0) && (len =? 2) then Ok TCP_Sport
  else if (offset =? 2) && (len =? 2) then Ok TCP_Dport
  else Err (UnknownTCPHeaderField offset len).

Definition UDPHeaderField_from_raw_data (offset len : u32) : outcome DecodeError UDPHeaderField :=
  if (offset =? 0) && (len =? 2) then Ok UDP_Sport
  else if (offset =? 2) && (len =? 2) then Ok UDP_Dport
  else if (offset =? 4) && (len =? 2) then Ok UDP_Len
  else Err (UnknownUDPHeaderField offset len).

Definition ICMPv6HeaderField_from_raw_data (offset len : u32) : outcome DecodeError ICMPv6HeaderField :=
  if (offset =? 0) && (len =? 1) then Ok ICMPv6_Type
  else if (offset =? 1) && (len =? 1) then Ok ICMPv6_Code
  else if (offset =? 2) && (len =? 2) then Ok ICMPv6_Checksum
  else Err (UnknownICMPv6HeaderField offset len).

Section Build.
Context `{Sys}.

Definition HighLevelPayload_build (self : HighLevelPayload) : Payload :=
  match self with
  | HLP_LinkLayer f => Payload_default
      |> payload_with_base NFT_PAYLOAD_LL_HEADER
      |> payload_with_offset (hf_offset f)
      |> payload_with_len (hf_len f)
  | HLP_Network f => Payload_default
      |> payload_with_base NFT_PAYLOAD_NETWORK_HEADER
      |> payload_with_offset (hf_offset f)
      |> payload_with_len (hf_len f)
  | HLP_Transport f => Payload_default
      |> payload_with_base NFT_PAYLOAD_TRANSPORT_HEADER
      |> payload_with_offset (hf_offset f)
      |> payload_with_len (hf_len f)
  end |> payload_with_dreg Reg1.

(** The three [is_none] tests come before the match, so its [unwrap]s return. *)
Definition parse_from_payload (raw : Payload) : outcome DecodeError PayloadType :=
  match payload_base raw with
  | None => Err PayloadMissingBase
  | Some base =>
      match payload_len raw with
      | None => Err PayloadMissingLen
      | Some len =>
          match payload_offset raw with
          | None => Err PayloadMissingOffset
          | Some offset =>
              if base =? NFT_PAYLOAD_LL_HEADER then
                f ← LLHeaderField_from_raw_data offset len; Ok (PT_LinkLayer f)
              else if base =? NFT_PAYLOAD_NETWORK_HEADER then Ok PT_Network
              else if base =? NFT_PAYLOAD_TRANSPORT_HEADER then Ok PT_Transport
              else Err (UnknownPayloadType base)
          end
      end
  end.
End Build.

(** ** Reading a field's offset and length back *)

(** A table of fields and its reader: reading finds exactly the field that has the
    offset and the length. *)
Definition reads_fields {T : Type} `{HeaderField T} (from : u32 → u32 → outcome DecodeError T)
    (unknown : u32 → u32 → DecodeError) : Prop :=
  (∀ offset len f, from offset len = Ok f ↔ hf_offset f = offset ∧ hf_len f = len)
  ∧ ∀ offset len, (∀ f, ¬ (hf_offset f = offset ∧ hf_len f = len)) →
      from offset len = Err (unknown offset len).

Lemma reads_fields_intro {T} `{HeaderField T} from unknown :
  (∀ f : T, from (hf_offset f) (hf_len f) = Ok f) →
  (∀ offset len, from offset len = Err (unknown offset len)
    ∨ ∃ f, from offset len = Ok f ∧ hf_offset f = offset ∧ hf_len f = len) →
  reads_fields from unknown.
Proof.
  intros Hback Hcases. split.
  - intros offset len f. split; [|by intros [<- <-]]. intros Hf.
    destruct (Hcases offset len) as [Hu|(g & Hg & ?)]; congruence.
  - intros offset len Hno. destruct (Hcases offset len) as [?|(g & _ & Hg)]; [done|].
    by destruct (Hno g).
Qed.

Ltac solve_reads from :=
  apply reads_fields_intro; [by intros []|];
  intros; unfold from; destruct_ifs; zbool; subst; eauto.

Lemma LL_reads : reads_fields LLHeaderField_from_raw_data UnknownLinkLayerHeaderField.
Proof. solve_reads LLHeaderField_from_raw_data. Qed.
Lemma IPv4_reads : reads_fields IPv4HeaderField_from_raw_data UnknownIPv4HeaderField.
Proof. solve_reads IPv4HeaderField_from_raw_data. Qed.
Lemma IPv6_reads : reads_fields IPv6HeaderField_from_raw_data UnknownIPv6HeaderField.
Proof. solve_reads IPv6HeaderField_from_raw_data. Qed.
Lemma TCP_reads : reads_fields TCPHeaderField_from_raw_data UnknownTCPHeaderField.
Proof. solve_reads TCPHeaderField_from_raw_data. Qed.
Lemma UDP_reads : reads_fields UDPHeaderField_from_raw_data UnknownUDPHeaderField.
Proof. solve_reads UDPHeaderField_from_raw_data. Qed.
Lemma ICMPv6_reads : reads_fields ICMPv6HeaderField_from_raw_data UnknownICMPv6HeaderField.
Proof. solve_reads ICMPv6HeaderField_from_raw_data. Qed.

(** The part of the packet a high-level payload refers to. *)
Definition payload_type_of (h : HighLevelPayload) : PayloadType :=
  match h with
  | HLP_LinkLayer f => PT_LinkLayer f
  | HLP_Network _ => PT_Network
  | HLP_Transport _ => PT_Transport
  end.

Section PayloadLemmas.
Context `{BuildProfile} `{SysLaws}.

Lemma payload_bases :
  NFT_PAYLOAD_NETWORK_HEADER ≠ NFT_PAYLOAD_LL_HEADER
  ∧ NFT_PAYLOAD_TRANSPORT_HEADER ≠ NFT_PAYLOAD_LL_HEADER
  ∧ NFT_PAYLOAD_TRANSPORT_HEADER ≠ NFT_PAYLOAD_NETWORK_HEADER
  ∧ Forall u32_ok [NFT_PAYLOAD_LL_HEADER; NFT_PAYLOAD_NETWORK_HEADER; NFT_PAYLOAD_TRANSPORT_HEADER].
Proof.
  destruct en_payload_base as [Hnd Hok].
  rewrite !list.NoDup_cons, !not_elem_of_cons in Hnd. intuition congruence.
Qed.

Lemma parse_built h : parse_from_payload (HighLevelPayload_build h) = Ok (payload_type_of h).
Proof.
  pose proof payload_bases as (H1 & H2 & H3 & _).
  destruct h as [f|f|f]; unfold parse_from_payload; cbn;
    rewrite ?Z.eqb_refl, ?(proj2 (Z.eqb_neq _ _) H1), ?(proj2 (Z.eqb_neq _ _) H2),
      ?(proj2 (Z.eqb_neq _ _) H3); try done.
  by destruct f.
Qed.
End PayloadLemmas.
