(* ===== verification/Table.v ===== *)
(** * Tables: [src/table.rs] *)

From S2P Require Import Prelude Sys Errors Lib Nlmsg Parser ParserImpls Macros Codec Data Objects.
Local Open Scope Z_scope.

Record Table := MkTable {
  table_family : ProtocolFamily;
  table_name : option RString;
  table_flags : option u32;
  table_userdata : option VecU8 }.

Definition Table_default : Table := MkTable ProtocolFamily_default None None None.
Definition table_with_name (v : RString) (s : Table) : Table :=
  MkTable (table_family s) (Some v) (table_flags s) (table_userdata s).
Definition table_with_flags (v : u32) (s : Table) : Table :=
  MkTable (table_family s) (table_name s) (Some v) (table_userdata s).
Definition table_with_userdata (v : VecU8) (s : Table) : Table :=
  MkTable (table_family s) (table_name s) (table_flags s) (Some v).
Definition table_with_family (f : ProtocolFamily) (s : Table) : Table :=
  MkTable f (table_name s) (table_flags s) (table_userdata s).

Definition Table_new (family : ProtocolFamily) : Table := Table_default |> table_with_family family.

#[global] Instance Table_eq_dec : EqDecision Table.
Proof. solve_decision. Defined.

Section Instances.
Context `{BuildProfile} `{Sys}.

Definition Table_fields : list (Field Table) := [
  mk_field "NFTA_TABLE_NAME" NFTA_TABLE_NAME false table_name table_with_name;
  mk_field "NFTA_TABLE_FLAGS" NFTA_TABLE_FLAGS false table_flags table_with_flags;
  mk_field "NFTA_TABLE_USERDATA" NFTA_TABLE_USERDATA true table_userdata table_with_userdata ].
#[global] Instance Table_attribute : NfNetlinkAttribute Table := struct_attribute (accept_fields Table_fields) false.
#[global] Instance Table_decoder : AttributeDecoder Table := struct_decoder (accept_fields Table_fields).
#[global] Instance Table_object : NfNetlinkObject Table := {|
  MSG_TYPE_ADD := NFT_MSG_NEWTABLE;
  MSG_TYPE_DEL := NFT_MSG_DELTABLE;
  get_family := table_family;
  set_family := table_with_family;
  get_add_flags _ := default_add_flags;
  get_del_flags _ := default_del_flags |}.
#[global] Instance Table_deserializable : NfNetlinkDeserializable Table := object_deserializable Table_default.
End Instances.

(** ** Sending and reading back *)
Section Codecs.
Context `{BuildProfile} `{SysLaws}.

Lemma Table_rebuild s :
  table_with_family (table_family s) (rebuild Table_fields s Table_default) = s.
Proof. rebuilds. Qed.

Lemma Table_object_laws : object_laws (A := Table).
Proof. solve_object_laws. Qed.

Lemma Table_accept_rebuild s :
  absent_ok Table_fields s = true →
  set_family (get_family s) (rebuild (accept_fields Table_fields) s Table_default) = s.
Proof. intros Hs. rewrite rebuild_accept by done. apply Table_rebuild. Qed.

#[global] Instance Table_object_codec : ObjectCodec Table :=
  struct_object_codec (accept_fields Table_fields) false Table_default (absent_ok Table_fields)
    (accept_namespace Table_fields ns_table) Table_object_laws Table_accept_rebuild.
End Codecs.
