(* ===== verification/Chain.v ===== *)
(** * Chains: [src/chain.rs]

    [ChainPolicy] and [ChainType] have hand-written trait implementations.  The reader
    of [ChainPolicy] returns [Accept] for both policies, as the code does. *)

From S2P Require Import Prelude Sys Errors Lib Nlmsg Parser ParserImpls Macros Codec Data Objects.
From S2P Require Import Table.
Local Open Scope Z_scope.

Inductive HookClass := PreRouting | In | Forward | Out | PostRouting.
Inductive ChainPolicy := Policy_Accept | Policy_Drop.
Inductive ChainType := ChainType_Filter | ChainType_Route | ChainType_Nat.

Record Hook := MkHook {
  hook_class : option u32;
  hook_priority : option u32 }.

Definition Hook_default : Hook := MkHook None None.
Definition hook_with_class (v : u32) (s : Hook) : Hook := MkHook (Some v) (hook_priority s).
Definition hook_with_priority (v : u32) (s : Hook) : Hook := MkHook (hook_class s) (Some v).

Record Chain := MkChain {
  chain_family : ProtocolFamily;
  chain_table : option RString;
  chain_name : option RString;
  chain_hook : option Hook;
  chain_policy : option ChainPolicy;
  chain_type : option ChainType;
  chain_flags : option u32;
  chain_userdata : option VecU8 }.

Definition Chain_default : Chain := MkChain ProtocolFamily_default None None None None None None None.
Definition chain_with_table (v : RString) (s : Chain) : Chain :=
  MkChain (chain_family s) (Some v) (chain_name s) (chain_hook s) (chain_policy s)
    (chain_type s) (chain_flags s) (chain_userdata s).
Definition chain_with_name (v : RString) (s : Chain) : Chain :=
  MkChain (chain_family s) (chain_table s) (Some v) (chain_hook s) (chain_policy s)
    (chain_type s) (chain_flags s) (chain_userdata s).
Definition chain_with_hook (v : Hook) (s : Chain) : Chain :=
  MkChain (chain_family s) (chain_table s) (chain_name s) (Some v) (chain_policy s)
    (chain_type s) (chain_flags s) (chain_userdata s).
Definition chain_with_policy (v : ChainPolicy) (s : Chain) : Chain :=
  MkChain (chain_family s) (chain_table s) (chain_name s) (chain_hook s) (Some v) (chain_type s)
    (chain_flags s) (chain_userdata s).
Definition chain_with_type (v : ChainType) (s : Chain) : Chain :=
  MkChain (chain_family s) (chain_table s) (chain_name s) (chain_hook s) (chain_policy s)
    (Some v) (chain_flags s) (chain_userdata s).
Definition chain_with_flags (v : u32) (s : Chain) : Chain :=
  MkChain (chain_family s) (chain_table s) (chain_name s) (chain_hook s) (chain_policy s)
    (chain_type s) (Some v) (chain_userdata s).
Definition chain_with_userdata (v : VecU8) (s : Chain) : Chain :=
  MkChain (chain_family s) (chain_table s) (chain_name s) (chain_hook s) (chain_policy s)
    (chain_type s) (chain_flags s) (Some v).
Definition chain_with_family (f : ProtocolFamily) (s : Chain) : Chain :=
  MkChain f (chain_table s) (chain_name s) (chain_hook s) (chain_policy s) (chain_type s)
    (chain_flags s) (chain_userdata s).

#[global] Instance HookClass_eq_dec : EqDecision HookClass.
Proof. solve_decision. Defined.
#[global] Instance ChainPolicy_eq_dec : EqDecision ChainPolicy.
Proof. solve_decision. Defined.
#[global] Instance ChainType_eq_dec : EqDecision ChainType.
Proof. solve_decision. Defined.
#[global] Instance Hook_eq_dec : EqDecision Hook.
Proof. solve_decision. Defined.
#[global] Instance Chain_eq_dec : EqDecision Chain.
Proof. solve_decision. Defined.

Definition ChainType_as_str (t : ChainType) : RString :=
  match t with
  | ChainType_Filter => rstr "filter"
  | ChainType_Route => rstr "route"
  | ChainType_Nat => rstr "nat"
  end.

#[global] Instance ChainType_attribute : NfNetlinkAttribute ChainType :=
  {| is_nested _ := false; get_size t := len (ChainType_as_str t);
     write_payload t addr := write_payload (ChainType_as_str t) addr |}.

Definition ChainType_deserialize (buf : bytes) : outcome DecodeError (ChainType * bytes) :=
  '(s, remaining_data) ← deserialize (A := RString) buf;
  if decide (s = rstr "filter") then Ok (ChainType_Filter, remaining_data)
  else if decide (s = rstr "route") then Ok (ChainType_Route, remaining_data)
  else if decide (s = rstr "nat") then Ok (ChainType_Nat, remaining_data)
  else Err UnknownChainType.

#[global] Instance ChainType_deserializable : NfNetlinkDeserializable ChainType :=
  {| deserialize := ChainType_deserialize |}.

Section Instances.
Context `{BuildProfile} `{Sys}.

Definition HookClass_value (c : HookClass) : i32 :=
  match c with
  | PreRouting => NF_INET_PRE_ROUTING
  | In => NF_INET_LOCAL_IN
  | Forward => NF_INET_FORWARD
  | Out => NF_INET_LOCAL_OUT
  | PostRouting => NF_INET_POST_ROUTING
  end.

Definition Hook_new (class : HookClass) (priority : i32) : Hook :=
  Hook_default
    |> hook_with_class (as_u32 (HookClass_value class))
    |> hook_with_priority (as_u32 priority).

Definition ChainPolicy_value (p : ChainPolicy) : i32 :=
  match p with Policy_Accept => NF_ACCEPT | Policy_Drop => NF_DROP end.

#[global] Instance ChainPolicy_attribute : NfNetlinkAttribute ChainPolicy :=
  {| is_nested _ := false; get_size p := get_size (ChainPolicy_value p);
     write_payload p addr := write_payload (ChainPolicy_value p) addr |}.

(** The [match] of [deserialize]. *)
Definition ChainPolicy_of_value (v : i32) : outcome DecodeError ChainPolicy :=
  if v =? NF_ACCEPT then Ok Policy_Accept
  else if v =? NF_DROP then Ok Policy_Accept
  else Err UnknownChainPolicy.

Definition ChainPolicy_deserialize (buf : bytes) : outcome DecodeError (ChainPolicy * bytes) :=
  '(v, remaining_data) ← deserialize (A := i32) buf;
  policy ← ChainPolicy_of_value v;
  Ok (policy, remaining_data).

#[global] Instance ChainPolicy_deserializable : NfNetlinkDeserializable ChainPolicy :=
  {| deserialize := ChainPolicy_deserialize |}.

Definition Hook_fields : list (Field Hook) := [
  mk_field "NFTA_HOOK_HOOKNUM" NFTA_HOOK_HOOKNUM false hook_class hook_with_class;
  mk_field "NFTA_HOOK_PRIORITY" NFTA_HOOK_PRIORITY false hook_priority hook_with_priority ].
#[global] Instance Hook_attribute : NfNetlinkAttribute Hook := struct_attribute Hook_fields true.
#[global] Instance Hook_decoder : AttributeDecoder Hook := struct_decoder Hook_fields.
#[global] Instance Hook_deserializable : NfNetlinkDeserializable Hook := struct_deserializable Hook_default.

Definition Chain_fields : list (Field Chain) := [
  mk_field "NFTA_CHAIN_TABLE" NFTA_CHAIN_TABLE false chain_table chain_with_table;
  mk_field "NFTA_CHAIN_NAME" NFTA_CHAIN_NAME false chain_name chain_with_name;
  mk_field "NFTA_CHAIN_HOOK" NFTA_CHAIN_HOOK false chain_hook chain_with_hook;
  mk_field "NFTA_CHAIN_POLICY" NFTA_CHAIN_POLICY false chain_policy chain_with_policy;
  mk_field "NFTA_CHAIN_TYPE" NFTA_CHAIN_TYPE false chain_type chain_with_type;
  mk_field "NFTA_CHAIN_FLAGS" NFTA_CHAIN_FLAGS false chain_flags chain_with_flags;
  mk_field "NFTA_CHAIN_USERDATA" NFTA_CHAIN_USERDATA true chain_userdata chain_with_userdata ].
#[global] Instance Chain_attribute : NfNetlinkAttribute Chain := struct_attribute (accept_fields Chain_fields) false.
#[global] Instance Chain_decoder : AttributeDecoder Chain := struct_decoder (accept_fields Chain_fields).
#[global] Instance Chain_object : NfNetlinkObject Chain := {|
  MSG_TYPE_ADD := NFT_MSG_NEWCHAIN;
  MSG_TYPE_DEL := NFT_MSG_DELCHAIN;
  get_family := chain_family;
  set_family := chain_with_family;
  get_add_flags _ := default_add_flags;
  get_del_flags _ := default_del_flags |}.
#[global] Instance Chain_deserializable : NfNetlinkDeserializable Chain := object_deserializable Chain_default.

Definition Chain_new (table : Table) : Chain :=
  let chain := Chain_default |> chain_with_family (get_family table) in
  match table_name table with
  | Some table_name => chain |> chain_with_table table_name
  | None => chain
  end.
End Instances.

(** ** Sending and reading back *)
Section Codecs.
Context `{BuildProfile} `{SysLaws}.

Lemma policy_values : i32_ok NF_ACCEPT ∧ i32_ok NF_DROP ∧ NF_DROP ≠ NF_ACCEPT.
Proof.
  destruct en_policy as [Hnd Hok]. rewrite !list.Forall_cons in Hok.
  rewrite list.NoDup_cons, list_elem_of_singleton in Hnd. intuition congruence.
Qed.

Lemma policy_writable (p : ChainPolicy) :
  writable p ∧ encode p = encode (ChainPolicy_value p : i32).
Proof.
  rewrite (proj2 (i32_writable (ChainPolicy_value p))). apply copied; [|done].
  by rewrite len_be_bytes.
Qed.

(** Both policies are read back as [Accept]. *)
Lemma policy_reads (p : ChainPolicy) :
  deserialize (A := ChainPolicy) (encode p) = Ok (Policy_Accept, []).
Proof.
  destruct policy_values as (Ha & Hd & Hne). rewrite (proj2 (policy_writable p)).
  cbn [deserialize ChainPolicy_deserializable]. unfold ChainPolicy_deserialize.
  rewrite (i32_roundtrips (ChainPolicy_value p)) by (by destruct p). obind.
  unfold ChainPolicy_of_value. destruct p; cbn [ChainPolicy_value]; rewrite ?Z.eqb_refl; [done|].
  by rewrite (proj2 (Z.eqb_neq _ _) Hne).
Qed.

Lemma policy_safe : safe_deserializer (T := ChainPolicy).
Proof.
  intros b Hb. apply safe_bind; [by apply i32_safe|]. intros [] _.
  unfold ChainPolicy_of_value. apply safe_bind; [|auto with netlink].
  destruct_ifs; auto with netlink.
Qed.

Definition policy_ok (p : ChainPolicy) : bool := bool_decide (p = Policy_Accept).

Lemma policy_roundtrips p : policy_ok p = true → roundtrips p.
Proof. intros ->%bool_decide_eq_true. apply policy_reads. Qed.

#[global] Instance ChainPolicy_codec : Codec ChainPolicy := {|
  value_ok := policy_ok;
  codec_writable p _ := proj1 (policy_writable p);
  codec_size p _ := eq_refl;
  codec_roundtrips := policy_roundtrips;
  codec_safe := policy_safe |}.

Lemma ChainType_writable (t : ChainType) : writable t ∧ encode t = ChainType_as_str t.
Proof. by apply copied. Qed.

Lemma ChainType_roundtrips (t : ChainType) : roundtrips t.
Proof. unfold roundtrips. rewrite (proj2 (ChainType_writable t)). by destruct t. Qed.

Lemma ChainType_small (t : ChainType) : 4 + get_size t < 2 ^ 16.
Proof. by destruct t. Qed.

Lemma ChainType_safe : safe_deserializer (T := ChainType).
Proof.
  intros b Hb. apply safe_bind; [by apply string_safe|]. intros [] _.
  repeat case_decide; auto with netlink.
Qed.

#[global] Instance ChainType_codec : Codec ChainType := {|
  value_ok _ := true;
  codec_writable t _ := proj1 (ChainType_writable t);
  codec_size t _ := ChainType_small t;
  codec_roundtrips t _ := ChainType_roundtrips t;
  codec_safe := ChainType_safe |}.

Lemma Hook_rebuild s : rebuild Hook_fields s Hook_default = s.
Proof. rebuilds. Qed.
#[global] Instance Hook_codec : Codec Hook :=
  struct_codec Hook_fields true Hook_default (λ _, true) ns_hook (λ s _, Hook_rebuild s).

Lemma Chain_rebuild s :
  chain_with_family (chain_family s) (rebuild Chain_fields s Chain_default) = s.
Proof. rebuilds. Qed.

Lemma Chain_object_laws : object_laws (A := Chain).
Proof. solve_object_laws. Qed.

Lemma Chain_accept_rebuild s :
  absent_ok Chain_fields s = true →
  set_family (get_family s) (rebuild (accept_fields Chain_fields) s Chain_default) = s.
Proof. intros Hs. rewrite rebuild_accept by done. apply Chain_rebuild. Qed.

#[global] Instance Chain_object_codec : ObjectCodec Chain :=
  struct_object_codec (accept_fields Chain_fields) false Chain_default (absent_ok Chain_fields)
    (accept_namespace Chain_fields ns_chain) Chain_object_laws Chain_accept_rebuild.

(** *** Chains that drop

    A policy of [Drop] is sent like the other, and read as [Accept]. *)
Definition chain_accepting (c : Chain) : Chain :=
  match chain_policy c with Some _ => chain_with_policy Policy_Accept c | None => c end.

(** The two chains have the same fields, of the same sizes. *)
Lemma chain_field_fits c :
  Forall (λ f, field_readable (chain_accepting c) f → field_fits c f) Chain_fields.
Proof.
  repeat apply List.Forall_cons; [..|apply List.Forall_nil]; intros Hf v Hv.
  4: { split; [apply policy_writable|done]. }
  all: destruct (Hf v) as (? & ? & _); [|done].
  all: cbn in *; unfold chain_accepting; by destruct (chain_policy c).
Qed.

Lemma chain_fields_size c fs :
  Forall (λ f, f ∈ Chain_fields) fs → fields_size fs c = fields_size fs (chain_accepting c).
Proof.
  induction 1 as [|f fs Hf _ IH]; [done|]. cbn [fields_size]. rewrite IH. f_equal.
  unfold chain_accepting. destruct (chain_policy c) eqn:Hp; [|done]. unfold Chain_fields in Hf.
  repeat (apply elem_of_cons in Hf as [->|Hf]; [cbn; by rewrite ?Hp|]). by apply elem_of_nil in Hf.
Qed.

(** A chain is read as the chain that accepts. *)
Lemma chain_field_reads c :
  Forall (λ f, (field_readable (chain_accepting c) f → reads_as c (chain_accepting c) f)
               ∧ empty_alike c (chain_accepting c) f) Chain_fields.
Proof.
  repeat apply List.Forall_cons; [..|apply List.Forall_nil].
  4: { unfold reads_as, empty_alike, chain_accepting. cbn.
       destruct (chain_policy c) as [p|] eqn:Hp; cbn; rewrite ?Hp; [|done].
       split; [intros _; apply policy_reads|]. intros Hn%(f_equal len).
       by rewrite (proj2 (policy_writable p)), (proj2 (i32_writable _)), len_be_bytes in Hn. }
  all: split; [apply same_reads|apply same_empty]; cbn; unfold chain_accepting;
    by destruct (chain_policy c).
Qed.

(** The conditions on the chain that accepts give those on the chain. *)
Lemma chain_accepting_fields c :
  object_readable (chain_accepting c) = true →
  let fs := accept_fields Chain_fields in
  absent_ok Chain_fields (chain_accepting c) = true
  ∧ Forall (field_fits c) fs ∧ Forall (reads_as c (chain_accepting c)) fs
  ∧ tail_ok (struct_attrs fs c)
  ∧ struct_get_size fs c = struct_get_size fs (chain_accepting c)
  ∧ 20 + struct_get_size fs c < 2 ^ 32.
Proof.
  intros (Hx & Hr & Ht & Hl)%struct_object_readable_spec fs.
  assert (∀ f, f ∈ fs → f ∈ Chain_fields) as Hsub by (by intros f [_ ?]%list_elem_of_filter).
  pose proof (chain_field_fits c) as Hf. pose proof (chain_field_reads c) as Hrd.
  rewrite list.Forall_forall in Hr, Hf, Hrd.
  assert (struct_get_size fs c = struct_get_size fs (chain_accepting c)) as Hs.
  { rewrite !struct_get_size_sum. apply chain_fields_size. by apply list.Forall_forall. }
  split_and!; [done| | | |done|by rewrite Hs].
  - apply list.Forall_forall. intros f Hin. apply Hf; auto.
  - apply list.Forall_forall. intros f Hin. apply Hrd; auto.
  - apply tail_ok_alike with (s' := chain_accepting c); [|done].
    apply list.Forall_forall. intros f Hin. apply Hrd; auto.
Qed.

Lemma chain_sendable c : object_readable (chain_accepting c) = true → object_sendable c.
Proof.
  intros (_ & Hf & _ & _ & _ & Hl)%chain_accepting_fields. pose proof (fits_writables _ _ Hf) as Hw.
  destruct (struct_writable (accept_fields Chain_fields) c false Hw) as (? & _ & Hm).
  pose proof (fields_size_spec _ _ Hw) as Hsz. rewrite <- struct_get_size_sum in Hsz.
  split_and!; [done| |done]. unfold fits.
  change (get_size c) with (struct_get_size (accept_fields Chain_fields) c).
  rewrite pad_aligned by lia. lia.
Qed.

(** A chain is read back from its message with [Accept] for its policy, if it has one. *)
Lemma chain_reads c mt seq rest :
  object_readable (chain_accepting c) = true → u32_ok seq →
  deserialize (object_message c mt seq ++ rest) = Ok (chain_accepting c, rest).
Proof.
  intros Hc Hs. pose proof (chain_sendable c Hc) as Hsend.
  destruct (chain_accepting_fields c Hc) as (Hx & Hf & Hr & Ht & _ & Hl).
  apply (struct_object_reads_as (accept_fields Chain_fields) false Chain_default
    (obj := Chain_object)); try done.
  - by apply accept_namespace, ns_chain.
  - replace (get_family c) with (get_family (chain_accepting c)) by
      (unfold chain_accepting; by destruct (chain_policy c)).
    by apply Chain_accept_rebuild.
  - destruct Hsend as (? & ? & _). by apply object_message_parseable; [apply Chain_object_laws|..].
  - apply (object_header_op (A := Chain)).
  - cbn. by rewrite as_u8_small by apply family_in_u8.
Qed.

Lemma chain_accepting_id c : chain_policy c ≠ Some Policy_Drop → chain_accepting c = c.
Proof. unfold chain_accepting. destruct c as [? ? ? ? [[]|] ? ? ?]; done. Qed.
End Codecs.
