(* ===== verification/Rule.v ===== *)
(** * Rules: [src/rule.rs] *)

From S2P Require Import Prelude Sys Errors Lib Nlmsg Parser ParserImpls Macros Codec Data Objects.
From S2P Require Import Table Chain Exprs ExprMod.
Local Open Scope Z_scope.

Record Rule := MkRule {
  rule_family : ProtocolFamily;
  rule_table : option RString;
  rule_chain : option RString;
  rule_handle : option u64;
  rule_expressions : option ExpressionList;
  rule_position : option u64;
  rule_userdata : option VecU8;
  rule_id : option u32 }.

Definition Rule_default : Rule := MkRule ProtocolFamily_default None None None None None None None.
Definition rule_with_table (v : RString) (s : Rule) : Rule :=
  MkRule (rule_family s) (Some v) (rule_chain s) (rule_handle s) (rule_expressions s)
    (rule_position s) (rule_userdata s) (rule_id s).
Definition rule_with_chain (v : RString) (s : Rule) : Rule :=
  MkRule (rule_family s) (rule_table s) (Some v) (rule_handle s) (rule_expressions s)
    (rule_position s) (rule_userdata s) (rule_id s).
Definition rule_with_handle (v : u64) (s : Rule) : Rule :=
  MkRule (rule_family s) (rule_table s) (rule_chain s) (Some v) (rule_expressions s)
    (rule_position s) (rule_userdata s) (rule_id s).
Definition rule_with_expressions (v : ExpressionList) (s : Rule) : Rule :=
  MkRule (rule_family s) (rule_table s) (rule_chain s) (rule_handle s) (Some v)
    (rule_position s) (rule_userdata s) (rule_id s).
Definition rule_with_position (v : u64) (s : Rule) : Rule :=
  MkRule (rule_family s) (rule_table s) (rule_chain s) (rule_handle s) (rule_expressions s)
    (Some v) (rule_userdata s) (rule_id s).
Definition rule_with_userdata (v : VecU8) (s : Rule) : Rule :=
  MkRule (rule_family s) (rule_table s) (rule_chain s) (rule_handle s) (rule_expressions s)
    (rule_position s) (Some v) (rule_id s).
Definition rule_with_id (v : u32) (s : Rule) : Rule :=
  MkRule (rule_family s) (rule_table s) (rule_chain s) (rule_handle s) (rule_expressions s)
    (rule_position s) (rule_userdata s) (Some v).
Definition rule_with_family (f : ProtocolFamily) (s : Rule) : Rule :=
  MkRule f (rule_table s) (rule_chain s) (rule_handle s) (rule_expressions s) (rule_position s)
    (rule_userdata s) (rule_id s).

(** The error of [ok_or] is returned by the [?] of the caller. *)
Definition ok_or {A E : Type} (o : option A) (e : E) : outcome E A :=
  match o with Some a => Ok a | None => Err e end.

Definition Rule_new (chain : Chain) : outcome BuilderError Rule :=
  table ← ok_or (chain_table chain) MissingChainInformationError;
  name ← ok_or (chain_name chain) MissingChainInformationError;
  Ok (Rule_default
    |> rule_with_family (chain_family chain)
    |> rule_with_table table
    |> rule_with_chain name).

(** [add_expr] and [with_expr], after the conversion of their argument. *)
Definition add_raw (e : RawExpression) (self : Rule) : Rule :=
  let exprs := default NfNetlinkList_default (rule_expressions self) in
  self |> rule_with_expressions (add_value e exprs).

Definition add_expr {T : Type} `{Expression T} `{IntoVariant T} (e : T) (self : Rule) : Rule :=
  add_raw (RawExpression_from e) self.

#[global] Instance ExpressionList_eq_dec : EqDecision ExpressionList := NfNetlinkList_eq_dec.
#[global] Instance Rule_eq_dec : EqDecision Rule.
Proof. solve_decision. Defined.

Section Instances.
Context `{BuildProfile} `{Sys}.

Definition Rule_fields : list (Field Rule) := [
  mk_field "NFTA_RULE_TABLE" NFTA_RULE_TABLE false rule_table rule_with_table;
  mk_field "NFTA_RULE_CHAIN" NFTA_RULE_CHAIN false rule_chain rule_with_chain;
  mk_field "NFTA_RULE_HANDLE" NFTA_RULE_HANDLE false rule_handle rule_with_handle;
  mk_field "NFTA_RULE_EXPRESSIONS" NFTA_RULE_EXPRESSIONS false rule_expressions rule_with_expressions;
  mk_field "NFTA_RULE_POSITION" NFTA_RULE_POSITION false rule_position rule_with_position;
  mk_field "NFTA_RULE_USERDATA" NFTA_RULE_USERDATA false rule_userdata rule_with_userdata;
  mk_field "NFTA_RULE_ID" NFTA_RULE_ID false rule_id rule_with_id ].
#[global] Instance Rule_attribute : NfNetlinkAttribute Rule := struct_attribute Rule_fields false.
#[global] Instance Rule_decoder : AttributeDecoder Rule := struct_decoder Rule_fields.
#[global] Instance Rule_object : NfNetlinkObject Rule := {|
  MSG_TYPE_ADD := NFT_MSG_NEWRULE;
  MSG_TYPE_DEL := NFT_MSG_DELRULE;
  get_family := rule_family;
  set_family := rule_with_family;
  get_add_flags _ := Z.lor NLM_F_CREATE NLM_F_APPEND;
  get_del_flags _ := default_del_flags |}.
#[global] Instance Rule_deserializable : NfNetlinkDeserializable Rule := object_deserializable Rule_default.
End Instances.

(** ** Sending and reading back *)
Section Codecs.
Context `{BuildProfile} `{SysLaws}.

Lemma Rule_rebuild s :
  rule_with_family (rule_family s) (rebuild Rule_fields s Rule_default) = s.
Proof. rebuilds. Qed.

Lemma Rule_object_laws : object_laws (A := Rule).
Proof. solve_object_laws. Qed.

#[global] Instance Rule_object_codec : ObjectCodec Rule :=
  struct_object_codec Rule_fields false Rule_default (λ _, true)
    ns_rule Rule_object_laws (λ s _, Rule_rebuild s).
End Codecs.
