(* ===== verification/Sets.v ===== *)
(** * Sets: [src/set.rs] and [src/data_type.rs], with [Lookup::new] of [src/expr/lookup.rs] *)

From stdpp Require Import vector.
From S2P Require Import Prelude Sys Errors Lib Nlmsg Parser ParserImpls Macros Codec Data Objects.
From S2P Require Import Table Exprs.
Local Open Scope Z_scope.

Record NfSet := MkNfSet {
  nfset_family : ProtocolFamily;
  nfset_table : option RString;
  nfset_name : option RString;
  nfset_flags : option u32;
  nfset_key_type : option u32;
  nfset_key_len : option u32;
  nfset_id : option u32;
  nfset_userdata : option RString }.

Definition NfSet_default : NfSet := MkNfSet ProtocolFamily_default None None None None None None None.
Definition nfset_with_table (v : RString) (s : NfSet) : NfSet :=
  MkNfSet (nfset_family s) (Some v) (nfset_name s) (nfset_flags s) (nfset_key_type s)
    (nfset_key_len s) (nfset_id s) (nfset_userdata s).
Definition nfset_with_name (v : RString) (s : NfSet) : NfSet :=
  MkNfSet (nfset_family s) (nfset_table s) (Some v) (nfset_flags s) (nfset_key_type s)
    (nfset_key_len s) (nfset_id s) (nfset_userdata s).
Definition nfset_with_flags (v : u32) (s : NfSet) : NfSet :=
  MkNfSet (nfset_family s) (nfset_table s) (nfset_name s) (Some v) (nfset_key_type s)
    (nfset_key_len s) (nfset_id s) (nfset_userdata s).
Definition nfset_with_key_type (v : u32) (s : NfSet) : NfSet :=
  MkNfSet (nfset_family s) (nfset_table s) (nfset_name s) (nfset_flags s) (Some v)
    (nfset_key_len s) (nfset_id s) (nfset_userdata s).
Definition nfset_with_key_len (v : u32) (s : NfSet) : NfSet :=
  MkNfSet (nfset_family s) (nfset_table s) (nfset_name s) (nfset_flags s) (nfset_key_type s)
    (Some v) (nfset_id s) (nfset_userdata s).
Definition nfset_with_id (v : u32) (s : NfSet) : NfSet :=
  MkNfSet (nfset_family s) (nfset_table s) (nfset_name s) (nfset_flags s) (nfset_key_type s)
    (nfset_key_len s) (Some v) (nfset_userdata s).
Definition nfset_with_userdata (v : RString) (s : NfSet) : NfSet :=
  MkNfSet (nfset_family s) (nfset_table s) (nfset_name s) (nfset_flags s) (nfset_key_type s)
    (nfset_key_len s) (nfset_id s) (Some v).
Definition nfset_with_family (f : ProtocolFamily) (s : NfSet) : NfSet :=
  MkNfSet f (nfset_table s) (nfset_name s) (nfset_flags s) (nfset_key_type s) (nfset_key_len s)
    (nfset_id s) (nfset_userdata s).

Record SetElement := MkSetElement {
  set_element_key : option NfNetlinkData }.

Definition SetElement_default : SetElement := MkSetElement None.
Definition set_element_with_key (v : NfNetlinkData) (s : SetElement) : SetElement :=
  MkSetElement (Some v).

Definition SetElementListElements : Type := NfNetlinkList SetElement.

Record SetElementList := MkSetElementList {
  set_list_table : option RString;
  set_list_set : option RString;
  set_list_elements : option SetElementListElements }.

Definition SetElementList_default : SetElementList := MkSetElementList None None None.
Definition set_list_with_table (v : RString) (s : SetElementList) : SetElementList :=
  MkSetElementList (Some v) (set_list_set s) (set_list_elements s).
Definition set_list_with_set (v : RString) (s : SetElementList) : SetElementList :=
  MkSetElementList (set_list_table s) (Some v) (set_list_elements s).
Definition set_list_with_elements (v : SetElementListElements) (s : SetElementList) : SetElementList :=
  MkSetElementList (set_list_table s) (set_list_set s) (Some v).

#[global] Instance NfSet_eq_dec : EqDecision NfSet.
Proof. solve_decision. Defined.
#[global] Instance SetElement_eq_dec : EqDecision SetElement.
Proof. solve_decision. Defined.

#[global] Instance SetElementListElements_eq_dec : EqDecision SetElementListElements := NfNetlinkList_eq_dec.
#[global] Instance SetElementList_eq_dec : EqDecision SetElementList.
Proof. solve_decision. Defined.

(** ** Key types: [src/data_type.rs]

    An address is its octets, an array its bytes. *)
Record Ipv4Addr := MkIpv4Addr { ipv4_octets : vec byte 4 }.
Record Ipv6Addr := MkIpv6Addr { ipv6_octets : vec byte 16 }.
Record ByteArray (n : nat) := MkByteArray { array_bytes : vec byte n }.
Arguments MkByteArray {n} array_bytes.
Arguments array_bytes {n} _.
Inductive IpAddr := IpAddr_V4 (x : Ipv4Addr) | IpAddr_V6 (x : Ipv6Addr).

Class DataType (K : Type) := {
  TYPE : u32;
  LEN : u32;
  data : K → VecU8 }.

#[global] Instance Ipv4Addr_data : DataType Ipv4Addr :=
  {| TYPE := 7; LEN := 4; data x := vec_to_list (ipv4_octets x) |}.
#[global] Instance Ipv6Addr_data : DataType Ipv6Addr :=
  {| TYPE := 8; LEN := 16; data x := vec_to_list (ipv6_octets x) |}.
#[global] Instance ByteArray_data (n : nat) : DataType (ByteArray n) :=
  {| TYPE := 5; LEN := as_u32 (Z.of_nat n); data x := vec_to_list (array_bytes x) |}.

Definition ip_to_vec (ip : IpAddr) : VecU8 :=
  match ip with IpAddr_V4 x => data x | IpAddr_V6 x => data x end.

(** ** Instances *)
Section Instances.
Context `{BuildProfile} `{Sys}.

Definition NfSet_fields : list (Field NfSet) := [
  mk_field "NFTA_SET_TABLE" NFTA_SET_TABLE false nfset_table nfset_with_table;
  mk_field "NFTA_SET_NAME" NFTA_SET_NAME false nfset_name nfset_with_name;
  mk_field "NFTA_SET_FLAGS" NFTA_SET_FLAGS false nfset_flags nfset_with_flags;
  mk_field "NFTA_SET_KEY_TYPE" NFTA_SET_KEY_TYPE false nfset_key_type nfset_with_key_type;
  mk_field "NFTA_SET_KEY_LEN" NFTA_SET_KEY_LEN false nfset_key_len nfset_with_key_len;
  mk_field "NFTA_SET_ID" NFTA_SET_ID false nfset_id nfset_with_id;
  mk_field "NFTA_SET_USERDATA" NFTA_SET_USERDATA false nfset_userdata nfset_with_userdata ].
#[global] Instance NfSet_attribute : NfNetlinkAttribute NfSet := struct_attribute NfSet_fields false.
#[global] Instance NfSet_decoder : AttributeDecoder NfSet := struct_decoder NfSet_fields.
#[global] Instance NfSet_object : NfNetlinkObject NfSet := {|
  MSG_TYPE_ADD := NFT_MSG_NEWSET;
  MSG_TYPE_DEL := NFT_MSG_DELSET;
  get_family := nfset_family;
  set_family := nfset_with_family;
  get_add_flags _ := default_add_flags;
  get_del_flags _ := default_del_flags |}.
#[global] Instance NfSet_deserializable : NfNetlinkDeserializable NfSet := object_deserializable NfSet_default.

Definition SetElement_fields : list (Field SetElement) := [
  mk_field "NFTA_SET_ELEM_KEY" NFTA_SET_ELEM_KEY false set_element_key set_element_with_key ].
#[global] Instance SetElement_attribute : NfNetlinkAttribute SetElement := struct_attribute SetElement_fields true.
#[global] Instance SetElement_decoder : AttributeDecoder SetElement := struct_decoder SetElement_fields.
#[global] Instance SetElement_deserializable : NfNetlinkDeserializable SetElement := struct_deserializable SetElement_default.

Definition SetElementList_fields : list (Field SetElementList) := [
  mk_field "NFTA_SET_ELEM_LIST_TABLE" NFTA_SET_ELEM_LIST_TABLE false set_list_table set_list_with_table;
  mk_field "NFTA_SET_ELEM_LIST_SET" NFTA_SET_ELEM_LIST_SET false set_list_set set_list_with_set;
  mk_field "NFTA_SET_ELEM_LIST_ELEMENTS" NFTA_SET_ELEM_LIST_ELEMENTS false set_list_elements set_list_with_elements ].
#[global] Instance SetElementList_attribute : NfNetlinkAttribute SetElementList := struct_attribute SetElementList_fields true.
#[global] Instance SetElementList_decoder : AttributeDecoder SetElementList := struct_decoder SetElementList_fields.
#[global] Instance SetElementList_object : NfNetlinkObject SetElementList := {|
  MSG_TYPE_ADD := NFT_MSG_NEWSETELEM;
  MSG_TYPE_DEL := NFT_MSG_DELSETELEM;
  get_family _ := Unspec;
  set_family _ s := s;
  get_add_flags _ := default_add_flags;
  get_del_flags _ := default_del_flags |}.
#[global] Instance SetElementList_deserializable : NfNetlinkDeserializable SetElementList := object_deserializable SetElementList_default.
End Instances.

(** ** The builder *)
Record SetBuilder (K : Type) := MkSetBuilder {
  inner : NfSet;
  builder_list : SetElementList }.
Arguments MkSetBuilder {K} inner builder_list.
Arguments inner {K} _.
Arguments builder_list {K} _.

Section Builder.
Context {K : Type} `{DataType K}.

Definition SetBuilder_new (name : RString) (table : Table) : outcome BuilderError (SetBuilder K) :=
  match table_name table with
  | None => Err MissingTableName
  | Some table_name =>
      let set := NfSet_default
        |> nfset_with_key_type (TYPE (K := K))
        |> nfset_with_key_len (LEN (K := K))
        |> nfset_with_table table_name
        |> nfset_with_name name in
      Ok {| inner := set;
            builder_list := {|
              set_list_table := Some table_name;
              set_list_set := Some name;
              set_list_elements := Some NfNetlinkList_default |} |}
  end.

Definition set_element_of (key : K) : SetElement :=
  {| set_element_key := Some (NfNetlinkData_default |> data_with_value (data key)) |}.

(** The [unwrap] panics on a list without elements. *)
Definition SetBuilder_add (key : K) (self : SetBuilder K) : outcome Empty_set (SetBuilder K) :=
  match set_list_elements (builder_list self) with
  | None => Panic
  | Some elements =>
      Ok {| inner := inner self;
            builder_list := builder_list self
              |> set_list_with_elements (add_value (set_element_of key) elements) |}
  end.

Definition SetBuilder_finish (self : SetBuilder K) : NfSet * SetElementList :=
  (inner self, builder_list self).

(** One call of [add] per key. *)
Fixpoint SetBuilder_add_all (keys : list K) (self : SetBuilder K)
    : outcome Empty_set (SetBuilder K) :=
  match keys with
  | [] => Ok self
  | key :: keys => self ← SetBuilder_add key self; SetBuilder_add_all keys self
  end.
End Builder.

(** [Lookup::new]. *)
Definition Lookup_new (set : NfSet) : outcome BuilderError Lookup :=
  match nfset_name set with
  | None => Err MissingSetName
  | Some name =>
      let res := Lookup_default |> lookup_with_set name |> lookup_with_sreg Reg1 in
      Ok (match nfset_id set with
          | Some id => res |> lookup_with_set_id id
          | None => res
          end)
  end.

(** ** Sending and reading back *)
Section Codecs.
Context `{BuildProfile} `{SysLaws}.

Lemma NfSet_rebuild s :
  nfset_with_family (nfset_family s) (rebuild NfSet_fields s NfSet_default) = s.
Proof. rebuilds. Qed.

Lemma NfSet_object_laws : object_laws (A := NfSet).
Proof. solve_object_laws. Qed.

#[global] Instance NfSet_object_codec : ObjectCodec NfSet :=
  struct_object_codec NfSet_fields false NfSet_default (λ _, true)
    ns_set NfSet_object_laws (λ s _, NfSet_rebuild s).

Lemma SetElement_rebuild s : rebuild SetElement_fields s SetElement_default = s.
Proof. rebuilds. Qed.
#[global] Instance SetElement_codec : Codec SetElement :=
  struct_codec SetElement_fields true SetElement_default (λ _, true) ns_set_elem (λ s _, SetElement_rebuild s).
#[global] Instance SetElement_aligned : AlignedCodec SetElement :=
  λ s Hs, struct_ok_aligned SetElement_fields true (λ _, true) s Hs.

Lemma SetElementList_rebuild s :
  rebuild SetElementList_fields s SetElementList_default = s.
Proof. rebuilds. Qed.

Lemma SetElementList_object_laws : object_laws (A := SetElementList).
Proof. solve_object_laws. Qed.

#[global] Instance SetElementList_object_codec : ObjectCodec SetElementList :=
  struct_object_codec SetElementList_fields true SetElementList_default (λ _, true)
    ns_set_elem_list SetElementList_object_laws (λ s _, SetElementList_rebuild s).
End Codecs.

(** ** The builder collects its keys in order *)
Section BuilderLemmas.
Context {K : Type} `{DataType K}.

Lemma add_all_elements keys (b : SetBuilder K) elements :
  set_list_elements (builder_list b) = Some elements →
  SetBuilder_add_all keys b = Ok {|
    inner := inner b;
    builder_list := builder_list b |> set_list_with_elements
      (MkList (objs elements ++ (set_element_of <$> keys))) |}.
Proof.
  revert b elements. induction keys as [|key keys IH]; intros [i l] elements He; cbn in He.
  - cbn. rewrite app_nil_r. destruct l, elements; cbn in *. by subst.
  - cbn [SetBuilder_add_all]. unfold SetBuilder_add. cbn [builder_list]. rewrite He. obind.
    erewrite IH by done. cbn. by rewrite <- app_assoc.
Qed.
End BuilderLemmas.
