(* ===== verification/Batch.v ===== *)
(** * Batches: [src/batch.rs]

    A batch is a writer and the next sequence number; the buffer it owns is the
    writer's.  [send] is modelled in [Query.v] with the socket. *)

From S2P Require Import Prelude Sys Errors Lib Nlmsg Parser ParserImpls Macros Codec Data Objects.
Local Open Scope Z_scope.

Record Batch := {
  batch_writer : NfNetlinkWriter;
  batch_seq : Z }.

Section Batch.
Context `{BuildProfile} `{Sys}.

(** [u32] multiplication. *)
Definition default_batch_page_size {E : Type} : outcome E Z :=
  let size := as_u32 sc_pagesize * 32 in
  if size <? 2 ^ 32 then Ok size
  else if overflow_checks then Panic else Ok (as_u32 size).

(** The page size is the capacity of the buffer, which starts empty. *)
Definition Batch_new : outcome Empty_set Batch :=
  _ ← default_batch_page_size;
  let seq := 0 in
  w ← write_header (NfNetlinkWriter_new []) (as_u16 NFNL_MSG_BATCH_BEGIN) Unspec 0 seq
        (Some (as_u16 NFNL_SUBSYS_NFTABLES));
  seq' ← u32_add seq 1;
  Ok {| batch_writer := finalize_writing_object w; batch_seq := seq' |}.

Definition Batch_add {A : Type} `{NfNetlinkObject A, NfNetlinkAttribute A}
    (msg : A) (msg_type : MsgType) (self : Batch) : outcome Empty_set Batch :=
  w ← add_or_remove msg (batch_writer self) msg_type (batch_seq self);
  seq ← u32_add (batch_seq self) 1;
  Ok {| batch_writer := w; batch_seq := seq |}.

Fixpoint Batch_add_iter {A : Type} `{NfNetlinkObject A, NfNetlinkAttribute A}
    (msg_iter : list A) (msg_type : MsgType) (self : Batch) : outcome Empty_set Batch :=
  match msg_iter with
  | [] => Ok self
  | msg :: msg_iter =>
      self ← Batch_add msg msg_type self;
      Batch_add_iter msg_iter msg_type self
  end.

Definition Batch_finalize (self : Batch) : outcome Empty_set bytes :=
  w ← write_header (batch_writer self) (as_u16 NFNL_MSG_BATCH_END) Unspec 0 (batch_seq self)
        (Some (as_u16 NFNL_SUBSYS_NFTABLES));
  Ok (buf (finalize_writing_object w)).

(** [add_to_batch] of tables, chains and rules. *)
Definition add_to_batch {A : Type} `{NfNetlinkObject A, NfNetlinkAttribute A}
    (self : A) (batch : Batch) : outcome Empty_set Batch :=
  Batch_add self Add batch.
End Batch.

(** ** What a batch holds *)
Section Spec.
Context `{BuildProfile} `{Sys}.

(** An object of any type, and what to do with it. *)
Record BatchItem := MkBatchItem {
  item_type : Type;
  item_object : NfNetlinkObject item_type;
  item_attribute : NfNetlinkAttribute item_type;
  item_laws : object_laws (A := item_type);
  item : item_type;
  item_msg : MsgType }.

#[global] Existing Instance item_object.
#[global] Existing Instance item_attribute.

Definition mk_item {A : Type} `{NfNetlinkObject A, NfNetlinkAttribute A}
    (laws : object_laws (A := A)) (a : A) (mt : MsgType) : BatchItem :=
  MkBatchItem A _ _ laws a mt.

Definition Batch_add_item (i : BatchItem) (b : Batch) : outcome Empty_set Batch :=
  Batch_add (item i) (item_msg i) b.

Fixpoint Batch_add_items (l : list BatchItem) (b : Batch) : outcome Empty_set Batch :=
  match l with
  | [] => Ok b
  | i :: l => b ← Batch_add_item i b; Batch_add_items l b
  end.

(** The whole life of a batch. *)
Definition Batch_build (l : list BatchItem) : outcome Empty_set bytes :=
  b ← Batch_new;
  b ← Batch_add_items l b;
  Batch_finalize b.

Definition item_ok (i : BatchItem) : Prop := object_sendable (item i).

(** The messages a batch must consist of: begin, the objects with consecutive sequence
    numbers, end. *)
Definition control_message (ty seq : Z) : bytes :=
  message (message_header 20 (as_u16 ty) 0 seq)
    (message_genmsg Unspec (Some (as_u16 NFNL_SUBSYS_NFTABLES))) [].

Definition item_message (i : BatchItem) (seq : Z) : bytes :=
  object_message (item i) (item_msg i) seq.

Fixpoint item_messages (l : list BatchItem) (seq : Z) : bytes :=
  match l with
  | [] => []
  | i :: l => item_message i seq ++ item_messages l (seq + 1)
  end.

Definition batch_bytes (l : list BatchItem) : bytes :=
  control_message NFNL_MSG_BATCH_BEGIN 0 ++ item_messages l 1
  ++ control_message NFNL_MSG_BATCH_END (1 + len l).
End Spec.

Section Lemmas.
Context `{BuildProfile} `{SysLaws}.

Lemma page_size_ok {E} : default_batch_page_size (E := E) = Ok (sc_pagesize * 32).
Proof.
  pose proof sc_pagesize_ok. unfold default_batch_page_size. rewrite as_u32_small by lia.
  by ztest.
Qed.

Lemma Batch_new_spec :
  Batch_new = Ok {| batch_writer := {| buf := control_message NFNL_MSG_BATCH_BEGIN 0;
                                       headers := None |};
                    batch_seq := 1 |}.
Proof.
  unfold Batch_new. rewrite page_size_ok. obind. unfold NfNetlinkWriter_new.
  by rewrite write_header_closed.
Qed.

Lemma Batch_add_spec {A} `{NfNetlinkObject A, NfNetlinkAttribute A} (a : A) mt b seq :
  object_sendable a → 0 ≤ seq < 2 ^ 32 - 1 →
  Batch_add a mt {| batch_writer := {| buf := b; headers := None |}; batch_seq := seq |}
  = Ok {| batch_writer := {| buf := b ++ object_message a mt seq; headers := None |};
          batch_seq := seq + 1 |}.
Proof.
  intros (Hw & Hf & _) Hs. unfold Batch_add. cbn [batch_writer batch_seq].
  rewrite add_or_remove_message by (done || (unfold u32_ok; lia)). obind.
  by rewrite u32_add_small by lia.
Qed.

Lemma Batch_add_items_spec l b seq :
  Forall item_ok l → 0 ≤ seq → seq + len l < 2 ^ 32 →
  Batch_add_items l {| batch_writer := {| buf := b; headers := None |}; batch_seq := seq |}
  = Ok {| batch_writer := {| buf := b ++ item_messages l seq; headers := None |};
          batch_seq := seq + len l |}.
Proof.
  revert b seq. induction l as [|i l IH]; intros b seq Hok Hs Hl.
  - cbn. by rewrite app_nil_r, Z.add_0_r.
  - apply list.Forall_cons in Hok as [Hi Hok]. rewrite len_cons in *.
    pose proof (len_nonneg l). cbn [Batch_add_items]. unfold Batch_add_item.
    rewrite Batch_add_spec by (done || lia). obind. rewrite IH by (done || lia).
    cbn [item_messages]. rewrite <- app_assoc. do 2 f_equal. lia.
Qed.

Lemma Batch_finalize_spec b seq :
  Batch_finalize {| batch_writer := {| buf := b; headers := None |}; batch_seq := seq |}
  = Ok (b ++ control_message NFNL_MSG_BATCH_END seq).
Proof. unfold Batch_finalize. cbn [batch_writer batch_seq]. by rewrite write_header_closed. Qed.

(** Building a batch writes exactly its messages. *)
Lemma Batch_build_spec l :
  Forall item_ok l → 1 + len l < 2 ^ 32 → Batch_build l = Ok (batch_bytes l).
Proof.
  intros Hok Hl. unfold Batch_build. rewrite Batch_new_spec. obind.
  rewrite Batch_add_items_spec by (done || lia). obind.
  rewrite Batch_finalize_spec. unfold batch_bytes. by rewrite <- app_assoc.
Qed.

(** A message of an object that can be sent is shorter than 2^32 bytes. *)
Lemma item_message_len i seq : item_ok i → 0 ≤ len (item_message i seq) < 2 ^ 32.
Proof.
  intros ((Hs & Hl & _) & [Hf1 Hf2] & Hm). unfold item_message, object_message.
  rewrite len_message. unfold object_payload. pad_facts.
  rewrite len_app, len_zeros, Hl by lia. lia.
Qed.

Lemma batch_bytes_len l :
  Forall item_ok l → 40 ≤ len (batch_bytes l) ≤ 40 + (2 ^ 32 - 1) * len l.
Proof.
  intros Hl. assert (∀ seq, 0 ≤ len (item_messages l seq) ≤ (2 ^ 32 - 1) * len l) as Hi.
  { induction Hl as [|i l Hi _ IH]; intros seq; cbn [item_messages]; [done|].
    rewrite len_app, len_cons. pose proof (item_message_len i seq Hi).
    specialize (IH (seq + 1)). lia. }
  unfold batch_bytes, control_message. rewrite len_app, len_app, !len_message.
  change (len (@nil byte)) with 0. specialize (Hi 1). lia.
Qed.
End Lemmas.

(** ** Reading a batch back, message by message *)
Section Stream.
Context `{BuildProfile} `{SysLaws}.

(** The messages of a buffer, as the receive loop cuts them: parse one, skip its aligned
    length. *)
Fixpoint split_messages (fuel : nat) (buf : bytes) : outcome DecodeError (list (nlmsghdr * NlMsg)) :=
  if len buf =? 0 then Ok []
  else match fuel with
  | O => Diverge
  | S fuel =>
      '(hdr, m) ← parse_nlmsg buf;
      rest ← slice_from buf (pad_netlink_object_with_variable_size (nlmsg_len hdr));
      l ← split_messages fuel rest;
      Ok ((hdr, m) :: l)
  end.

Lemma split_message fuel hdr gen payload rest :
  parseable hdr gen payload → len payload mod 4 = 0 →
  split_messages (S fuel) (message hdr gen payload ++ rest)
  = (l ← split_messages fuel rest; Ok ((hdr, NlNfGenMsg gen payload) :: l)).
Proof.
  intros Hp Hm. cbn [split_messages]. pose proof (len_nonneg payload). pose proof (len_nonneg rest).
  rewrite len_app, len_message. ztest. rewrite parse_message by done. obind.
  destruct Hp as (Hok & _ & Hlen & _). assert (u32_ok (nlmsg_len hdr)) as Hu by apply Hok.
  unfold u32_ok in Hu.
  rewrite pad_aligned, Hlen by (lia || (rewrite Hlen; Z.div_mod_to_equations; lia)).
  by rewrite slice_from_app by (by rewrite len_message).
Qed.

Definition control_parsed (ty seq : Z) : nlmsghdr * NlMsg :=
  (message_header 20 (as_u16 ty) 0 seq,
   NlNfGenMsg (message_genmsg Unspec (Some (as_u16 NFNL_SUBSYS_NFTABLES))) []).

Definition item_parsed (i : BatchItem) (seq : Z) : nlmsghdr * NlMsg :=
  (object_header (item i) (item_msg i) seq,
   NlNfGenMsg (message_genmsg (get_family (item i)) None) (object_payload (item i))).

Fixpoint items_parsed (l : list BatchItem) (seq : Z) : list (nlmsghdr * NlMsg) :=
  match l with
  | [] => []
  | i :: l => item_parsed i seq :: items_parsed l (seq + 1)
  end.

Lemma control_parseable ty seq :
  ty = NFNL_MSG_BATCH_BEGIN ∨ ty = NFNL_MSG_BATCH_END → u32_ok seq →
  parseable (message_header 20 (as_u16 ty) 0 seq)
    (message_genmsg Unspec (Some (as_u16 NFNL_SUBSYS_NFTABLES))) [].
Proof.
  intros Hty Hs. pose proof (family_in_u8 Unspec) as Hf.
  assert ((ty = 16 ∨ ty = 17) ∧ is_batch_type (as_u16 ty) = true) as [Hty' Hb].
  { rewrite batch_begin_16, batch_end_17 in Hty. unfold is_batch_type.
    rewrite batch_begin_16, batch_end_17. by destruct Hty as [-> | ->]; auto. }
  unfold parseable. split_and!; try done.
  - apply message_header_ok; done || apply as_u16_ok.
  - unfold nfgenmsg_ok. cbn. rewrite as_u8_small by done. split_and!; [done| |apply as_u16_ok].
    apply Z.mod_pos_bound. lia.
  - cbn. rewrite f_request_1. done.
  - cbn. unfold header_type. rewrite Hb, as_u16_small by lia. lia.
  - left. cbn. unfold header_type. by rewrite Hb.
  - cbn. by rewrite nfnetlink_v0_0.
Qed.

Lemma split_items fuel l seq rest :
  Forall item_ok l → 0 ≤ seq → seq + len l < 2 ^ 32 →
  split_messages (length l + fuel) (item_messages l seq ++ rest)
  = (k ← split_messages fuel rest; Ok (items_parsed l seq ++ k)).
Proof.
  revert seq. induction l as [|i l IH]; intros seq Hok Hs Hl.
  { cbn [length item_messages items_parsed app Nat.add]. by destruct (split_messages fuel rest). }
  apply list.Forall_cons in Hok as [Hi Hok]. rewrite len_cons in Hl.
  pose proof (len_nonneg l). cbn [length Nat.add item_messages items_parsed].
  unfold item_message, object_message. rewrite <- app_assoc.
  destruct Hi as (Hw & Hf & Hm).
  rewrite split_message.
  - rewrite IH by (done || lia). by destruct (split_messages fuel rest).
  - apply object_message_parseable; [apply item_laws|done..|]. unfold u32_ok. lia.
  - rewrite object_payload_aligned by done. by destruct Hw as (_ & -> & _).
Qed.

Lemma split_batch l :
  Forall item_ok l → 1 + len l < 2 ^ 32 →
  split_messages (length l + 3) (batch_bytes l)
  = Ok (control_parsed NFNL_MSG_BATCH_BEGIN 0 :: items_parsed l 1
        ++ [control_parsed NFNL_MSG_BATCH_END (1 + len l)]).
Proof.
  intros Hok Hl. pose proof (len_nonneg l). unfold batch_bytes, control_message.
  rewrite Nat.add_comm. cbn [Nat.add].
  rewrite split_message by (done || (apply control_parseable; [by left|done])).
  replace (S (S (length l))) with (length l + 2)%nat by lia.
  rewrite split_items by (done || lia).
  rewrite <- (app_nil_r (message (message_header 20 (as_u16 NFNL_MSG_BATCH_END) _ _) _ _)).
  rewrite split_message by (done || (apply control_parseable; [by right|unfold u32_ok; lia])).
  done.
Qed.
End Stream.
