(* ===== verification/Query.v ===== *)
(** * Queries and the receive loop: [src/query.rs], [Batch::send], [list_tables],
      [list_chains_for_table] and [list_rules_for_chain]

    The socket is a parameter: what each call of the kernel returns is given by a
    script, one entry per call, and a receive past the end of the script waits forever
    ([Diverge]).  What the crate does to the socket is recorded as a list of events.  The
    code in this crate that calls [recv_and_process] returns its error and drops the
    working data, so an error carries no data. *)

From S2P Require Import Prelude Sys Errors Lib Nlmsg Parser ParserImpls Macros Codec Data Objects.
From S2P Require Import Table Chain Exprs ExprMod Rule Batch.
Local Open Scope Z_scope.

(** What [recv] returns: an errno, or the bytes of a datagram. *)
Inductive RecvResult := RecvErr (errno : Z) | RecvData (datagram : bytes).
(** What [send] returns: an errno, or a number of bytes. *)
Inductive SendResult := SendErr (errno : Z) | Sent (count : Z).

Record Socket := {
  open_error : option Z;
  bind_error : option Z;
  sends : list SendResult;
  recvs : list RecvResult;
  close_error : option Z }.

(** The calls made on the socket: [Sending b count] is a [send] of [b] of which the kernel
    took [count] bytes. *)
Inductive Event := Opened | Bound | Sending (b : bytes) (count : Z) | Closed.

(** Code that uses the socket: the events, in order, and its outcome. *)
Definition io (A : Type) : Type := list Event * outcome QueryError A.

#[global] Instance io_ret : MRet io := λ _ a, ([], Ok a).
#[global] Instance io_bind : MBind io := λ _ _ k m,
  match m.2 with
  | Ok a => (m.1 ++ (k a).1, (k a).2)
  | Err e => (m.1, Err e)
  | Panic => (m.1, Panic)
  | Ub => (m.1, Ub)
  | Diverge => (m.1, Diverge)
  end.

Definition lift {A : Type} (m : outcome QueryError A) : io A := ([], m).
Definition emit (e : Event) : io unit := ([e], Ok tt).

Section Receive.
Context `{BuildProfile} `{Sys} {T : Type}.
Context (max_seq : option Z) (cb : option (bytes → T → outcome QueryError T)).

(** One turn of the inner loop: the working data and, unless the function returns, the
    aligned length of the message. *)
Definition handle_message (buf : bytes) (working_data : T) : outcome QueryError (T * option Z) :=
  '(hdr, msg) ← map_err ProcessNetlinkError (parse_nlmsg buf);
  match msg with
  | NlDone => Ok (working_data, None)
  | _ =>
      working_data ← match msg with
        | NlError e => if negb (error e =? 0) then Err (NetlinkError e) else Ok working_data
        | NlNfGenMsg _ _ =>
            match cb with
            | Some cb => m ← slice buf 0 (nlmsg_len hdr); cb m working_data
            | None => Ok working_data
            end
        | _ => Ok working_data
        end;
      let aligned_length := pad_netlink_object_with_variable_size (nlmsg_len hdr) in
      match max_seq with
      | None =>
          if Z.land (nlmsg_flags hdr) (as_u16 NLM_F_MULTI) =? 0
          then Err UndecidableMessageTermination
          else Ok (working_data, Some aligned_length)
      | Some max_seq =>
          if max_seq <=? nlmsg_seq hdr then Ok (working_data, None)
          else Ok (working_data, Some aligned_length)
      end
  end.

(** The inner loop: [None] when the function returns, or the new [buf_start]. *)
Fixpoint process_loop (fuel : nat) (msg_buffer : bytes) (buf_start end_pos : Z)
    (working_data : T) : outcome QueryError (T * option Z) :=
  buf ← slice msg_buffer buf_start end_pos;
  if len buf =? 0 then Ok (working_data, Some buf_start)
  else match fuel with
  | O => Diverge
  | S fuel =>
      '(working_data, next) ← handle_message buf working_data;
      match next with
      | None => Ok (working_data, None)
      | Some aligned_length =>
          buf_start ← usize_add buf_start aligned_length;
          process_loop fuel msg_buffer buf_start end_pos working_data
      end
  end.

(** The outer loop, one turn per [recv], which fills at most the space it is given. *)
Fixpoint recv_loop (script : list RecvResult) (msg_buffer : bytes) (buf_start end_pos : Z)
    (working_data : T) : outcome QueryError T :=
  match script with
  | [] => Diverge
  | r :: script =>
      space ← slice_from msg_buffer end_pos;
      match r with
      | RecvErr errno => Err (NetlinkRecvError errno)
      | RecvData datagram =>
          let received := take (length space) datagram in
          if len received <=? 0 then Ok working_data
          else
            let msg_buffer := splice msg_buffer end_pos received in
            end_pos ← usize_add end_pos (len received);
            '(working_data, next) ←
              process_loop (S (length msg_buffer)) msg_buffer buf_start end_pos working_data;
            match next with
            | None => Ok working_data
            | Some buf_start =>
                if nft_nlmsg_maxsize <=? end_pos then
                  msg_buffer ← (if buf_start <? end_pos
                    then pending ← slice msg_buffer buf_start end_pos;
                         Ok (splice msg_buffer 0 pending)
                    else Ok msg_buffer);
                  end_pos ← usize_sub end_pos buf_start;
                  recv_loop script msg_buffer 0 end_pos working_data
                else recv_loop script msg_buffer buf_start end_pos working_data
            end
      end
  end.

Definition recv_and_process (script : list RecvResult) (working_data : T) : outcome QueryError T :=
  recv_loop script (zeros (2 * nft_nlmsg_maxsize)) 0 0 working_data.
End Receive.

Section Queries.
Context `{BuildProfile} `{Sys}.

(** Opening the socket. *)
Definition socket_open (s : Socket) : io unit :=
  match open_error s with
  | Some errno => lift (Err (NetlinkOpenError errno))
  | None => emit Opened
  end.

(** The callback ran on the open socket and gave [ret]. *)
Definition socket_close_wrapper {A : Type} (s : Socket) (ret : outcome QueryError A) : io A :=
  match ret with
  | Ok _ | Err _ =>
      _ ← emit Closed;
      match close_error s with
      | Some errno => lift (Err (CloseFailed errno))
      | None => lift ret
      end
  | _ => lift ret
  end.

Definition get_list_of_objects {A : Type} `{NfNetlinkAttribute A} (msg_type seq : Z)
    (filter : option A) : outcome Empty_set bytes :=
  w ← write_header (NfNetlinkWriter_new []) msg_type Unspec (as_u16 NLM_F_DUMP) seq None;
  w ← match filter with
      | Some filter =>
          '(w, start) ← add_data_zeroed w (get_size filter);
          with_slice w start (get_size filter) (write_payload filter)
      | None => Ok w
      end;
  Ok (buf (finalize_writing_object w)).

(** The closure that [list_objects_with_data] gives the receive loop. *)
Definition object_callback {A T : Type} `{NfNetlinkDeserializable A}
    (cb : A → T → outcome QueryError T) (buf : bytes) (working_data : T) : outcome QueryError T :=
  '(obj, _) ← map_err ProcessNetlinkError (deserialize (A := A) buf);
  cb obj working_data.

(** The request goes out with one [send], whose count is not looked at. *)
Definition list_objects_with_data {A T : Type} `{NfNetlinkAttribute A}
    `{NfNetlinkDeserializable A} (data_type : Z) (cb : A → T → outcome QueryError T)
    (filter : option A) (s : Socket) (working_data : T) : io T :=
  _ ← socket_open s;
  chains_buf ← lift (infallible (get_list_of_objects data_type 0 filter));
  _ ← match sends s with
      | [] => lift Diverge
      | SendErr errno :: _ => lift (Err (NetlinkSendError errno))
      | Sent count :: _ => emit (Sending chains_buf count)
      end;
  socket_close_wrapper s
    (recv_and_process None (Some (object_callback cb)) (recvs s) working_data).

Definition list_tables (s : Socket) : io (list Table) :=
  list_objects_with_data (as_u16 NFT_MSG_GETTABLE)
    (λ (table : Table) tables, Ok (tables ++ [table])) None s [].

Definition list_chains_for_table (table : Table) (s : Socket) : io (list Chain) :=
  list_objects_with_data (as_u16 NFT_MSG_GETCHAIN)
    (λ (chain : Chain) chains,
       Ok (if decide (chain_table chain = table_name table) then chains ++ [chain]
           else chains)) None s [].

Definition list_rules_for_chain (chain : Chain) (s : Socket) : io (list Rule) :=
  filter ← lift (map_err QueryBuilderError (Rule_new chain));
  list_objects_with_data (as_u16 NFT_MSG_GETRULE)
    (λ (rule : Rule) rules, Ok (rules ++ [rule])) (Some filter) s [].

(** The [send] loop: each call sends a part of what is left. *)
Fixpoint send_loop (script : list SendResult) (to_send : bytes) (sent : Z) : io unit :=
  if sent =? len to_send then mret tt
  else
    part ← lift (slice_from to_send sent);
    match script with
    | [] => lift Diverge
    | SendErr errno :: _ => lift (Err (NetlinkSendError errno))
    | Sent count :: script =>
        _ ← emit (Sending part count);
        sent ← lift (usize_add sent count);
        send_loop script to_send sent
    end.

Definition Batch_send (self : Batch) (s : Socket) : io unit :=
  _ ← socket_open s;
  max_seq ← lift (u32_sub (batch_seq self) 1);
  _ ← match bind_error s with Some _ => lift Panic | None => emit Bound end;
  to_send ← lift (infallible (Batch_finalize self));
  _ ← send_loop (sends s) to_send 0;
  socket_close_wrapper s (recv_and_process (Some max_seq) None (recvs s) tt).
End Queries.

(** *** Events *)

Definition after {A : Type} (es : list Event) (m : io A) : io A := (es ++ m.1, m.2).

Lemma lift_bind {A B : Type} (a : A) (k : A → io B) : lift (Ok a) ≫= k = k a.
Proof. unfold mbind, io_bind, lift. cbn. by destruct (k a). Qed.

Lemma emit_bind {B : Type} (e : Event) (k : unit → io B) : emit e ≫= k = after [e] (k tt).
Proof. done. Qed.

Lemma io_ok_bind {A B : Type} (es : list Event) (a : A) (k : A → io B) :
  (es, Ok a) ≫= k = after es (k a).
Proof. done. Qed.

(** The event of closing follows when the receive loop returned. *)
Definition closing {A : Type} (ret : outcome QueryError A) : list Event :=
  match ret with Ok _ | Err _ => [Closed] | _ => [] end.

Lemma close_working {A : Type} (s : Socket) (ret : outcome QueryError A) :
  close_error s = None → socket_close_wrapper s ret = (closing ret, ret).
Proof. intros Hc. unfold socket_close_wrapper. rewrite Hc. by destruct ret. Qed.

(** The bytes the kernel took. *)
Definition wire (es : list Event) : bytes :=
  flat_map (λ e, match e with Sending b count => take (Z.to_nat count) b | _ => [] end) es.

(** ** The receive loop, one datagram at a time

    The reference has no shared buffer: each datagram is cut into messages by itself. *)
Section Reference.
Context `{BuildProfile} `{Sys} {T : Type}.
Context (max_seq : option Z) (cb : option (bytes → T → outcome QueryError T)).

(** The messages of one datagram; the boolean tells whether to receive another one. *)
Fixpoint process_buffer (fuel : nat) (buf : bytes) (working_data : T)
    : outcome QueryError (T * bool) :=
  if len buf =? 0 then Ok (working_data, true)
  else match fuel with
  | O => Diverge
  | S fuel =>
      '(working_data, next) ← handle_message max_seq cb buf working_data;
      match next with
      | None => Ok (working_data, false)
      | Some n =>
          if len buf <? n then Panic
          else process_buffer fuel (drop (Z.to_nat n) buf) working_data
      end
  end.

Fixpoint process_datagrams (script : list RecvResult) (working_data : T) : outcome QueryError T :=
  match script with
  | [] => Diverge
  | RecvErr errno :: _ => Err (NetlinkRecvError errno)
  | RecvData [] :: _ => Ok working_data
  | RecvData datagram :: script =>
      '(working_data, more) ← process_buffer (S (length datagram)) datagram working_data;
      if (more : bool) then process_datagrams script working_data else Ok working_data
  end.
End Reference.

Section Refinement.
Context `{BuildProfile} `{SysLaws} {T : Type}.
Context (max_seq : option Z) (cb : option (bytes → T → outcome QueryError T)).

(** A message takes its length, rounded up to a whole number of words. *)
Lemma handle_message_length buf data data' n :
  handle_message max_seq cb buf data = Ok (data', Some n) →
  ∃ hdr, get_nlmsghdr buf = Ok hdr ∧ n = pad_netlink_object_with_variable_size (nlmsg_len hdr).
Proof.
  unfold handle_message. intros Hh. apply bind_Ok_inv in Hh as ([hdr m] & Hp & Hh).
  exists hdr. split.
  { destruct (parse_nlmsg buf) as [[h' m']| | | |] eqn:Hparse; try done.
    injection Hp as -> ->. by eapply parse_nlmsg_header. }
  assert (∀ (o : outcome QueryError T) k, (o ≫= k) = Ok (data', Some n) →
    ∃ d, k d = Ok (data', Some n)) as Hinv.
  { intros o k (d & _ & Hd)%bind_Ok_inv. eauto. }
  destruct m; [done|..]; apply Hinv in Hh as (d & Hh); destruct_ifs; try done;
    destruct max_seq; destruct_ifs; try done; by injection Hh as <- <-.
Qed.

Lemma handle_message_next buf data data' n :
  handle_message max_seq cb buf data = Ok (data', Some n) → 16 ≤ n < 2 ^ 32 + 4.
Proof.
  intros (hdr & Hg & ->)%handle_message_length.
  apply get_nlmsghdr_Ok in Hg as (_ & [Hu _] & Hl & _). unfold u32_ok in Hu. pad_facts. lia.
Qed.

Lemma process_buffer_fuel f1 f2 buf data :
  len buf < Z.of_nat f1 → len buf < Z.of_nat f2 →
  process_buffer max_seq cb f1 buf data = process_buffer max_seq cb f2 buf data.
Proof.
  revert f2 buf data. induction f1 as [|f1 IH]; intros f2 buf data H1 H2;
    pose proof (len_nonneg buf); [lia|]. destruct f2 as [|f2]; [lia|]. cbn [process_buffer].
  destruct (len buf =? 0); [done|].
  destruct (handle_message max_seq cb buf data) as [[d [n|]]| | | |] eqn:Hh; try done. obind.
  apply handle_message_next in Hh. destruct (Z.ltb_spec (len buf) n); [done|].
  apply IH; rewrite len_drop; lia.
Qed.

(** The inner loop works on the part of the buffer between its two positions. *)
Lemma process_loop_buffer fuel msg_buffer buf_start end_pos data :
  0 ≤ buf_start ≤ end_pos → end_pos ≤ len msg_buffer → len msg_buffer < 2 ^ 62 →
  end_pos - buf_start < Z.of_nat fuel →
  process_loop max_seq cb fuel msg_buffer buf_start end_pos data
  = ('(d, more) ← process_buffer max_seq cb fuel
       (take (Z.to_nat (end_pos - buf_start)) (drop (Z.to_nat buf_start) msg_buffer)) data;
     Ok (d, if (more : bool) then Some end_pos else None)).
Proof.
  revert buf_start data. induction fuel as [|fuel IH]; intros buf_start data Hb He Hm Hf; [lia|].
  cbn [process_loop process_buffer]. rewrite slice_suffix by lia. obind.
  set (b := take _ _). assert (len b = end_pos - buf_start) as Hlb.
  { unfold b. rewrite len_take; [lia|]. rewrite len_drop; lia. }
  rewrite Hlb. destruct (Z.eqb_spec (end_pos - buf_start) 0) as [Heq|Hne].
  { obind. do 3 f_equal. lia. }
  destruct (handle_message max_seq cb b data) as [[d [n|]]| | | |] eqn:Hh; try done. obind.
  apply handle_message_next in Hh. rewrite usize_add_small by lia. obind.
  destruct (Z.ltb_spec (end_pos - buf_start) n).
  { destruct fuel; cbn [process_loop]; by rewrite slice_panic by lia. }
  rewrite IH by lia. do 2 f_equal. unfold b.
  rewrite drop_add, skipn_firstn_comm by lia. do 2 f_equal; lia.
Qed.

Definition datagram_fits (r : RecvResult) : Prop :=
  match r with RecvErr _ => True | RecvData d => len d ≤ nft_nlmsg_maxsize end.

Lemma maxsize_bounds : 2 ^ 16 - 1 ≤ nft_nlmsg_maxsize < 2 ^ 28.
Proof.
  pose proof sc_pagesize_ok. unfold nft_nlmsg_maxsize.
  rewrite !as_u32_small; rewrite ?as_u32_small; lia.
Qed.

(** Between two receives everything received has been processed, and a whole message
    fits behind it. *)
Lemma recv_loop_datagrams script msg_buffer pos data :
  Forall datagram_fits script → len msg_buffer = 2 * nft_nlmsg_maxsize →
  0 ≤ pos < nft_nlmsg_maxsize →
  recv_loop max_seq cb script msg_buffer pos pos data
  = process_datagrams max_seq cb script data.
Proof.
  intros Hs. pose proof maxsize_bounds as Hmax.
  revert msg_buffer pos data. induction Hs as [|r script Hr _ IH];
    intros msg_buffer pos data Hl Hpos; [done|]. cbn [recv_loop process_datagrams].
  rewrite slice_from_ok by lia. obind. destruct r as [errno|d]; [done|]. cbn in Hr.
  set (space := drop (Z.to_nat pos) msg_buffer).
  assert (len space = len msg_buffer - pos) as Hspace by (apply len_drop; lia).
  rewrite take_ge by (unfold len in *; lia).
  destruct d as [|x d]; [done|]. set (dg := x :: d) in *.
  assert (0 < len dg) as Hpos' by (unfold dg; rewrite len_cons; pose proof (len_nonneg d); lia).
  clearbody dg. ztest. rewrite usize_add_small by lia. obind.
  set (mb := splice msg_buffer pos dg).
  assert (len mb = len msg_buffer) as Hmb.
  { unfold mb, splice. rewrite !len_app, len_take, len_drop by lia. lia. }
  assert (take (Z.to_nat (pos + len dg - pos)) (drop (Z.to_nat pos) mb) = dg) as Hdg.
  { unfold mb, splice. rewrite drop_app_len by (rewrite len_take; lia).
    by apply take_app_len; lia. }
  rewrite process_loop_buffer by (unfold len in *; lia). rewrite Hdg.
  rewrite (process_buffer_fuel (S (length mb)) (S (length dg))) by (unfold len in *; lia).
  destruct (process_buffer _ _ _ dg data) as [[d' []]| | | |]; try done. obind. ztest.
  destruct (Z.leb_spec nft_nlmsg_maxsize (pos + len dg)).
  - obind. rewrite usize_sub_small by lia. obind. rewrite Z.sub_diag. apply IH; lia.
  - apply IH; lia.
Qed.

Lemma recv_and_process_datagrams script data :
  Forall datagram_fits script →
  recv_and_process max_seq cb script data = process_datagrams max_seq cb script data.
Proof.
  intros Hs. pose proof maxsize_bounds. apply recv_loop_datagrams; [done| |lia].
  apply len_zeros. lia.
Qed.
End Refinement.

(** ** Memory safety: whatever arrives, nothing is read out of bounds *)
Section NoUb.
Context `{BuildProfile} `{SysLaws} {T : Type}.
Context (max_seq : option Z) (cb : option (bytes → T → outcome QueryError T)).

Definition safe_callback : Prop :=
  ∀ f b d, cb = Some f → len b ≤ isize_max → safe (f b d).

Lemma map_err_safe {E F A} (f : E → F) (m : outcome E A) : safe m → safe (map_err f m).
Proof. destruct m; intros [? ?]; done. Qed.

Lemma handle_message_safe buf data :
  safe_callback → len buf ≤ isize_max → safe (handle_message max_seq cb buf data).
Proof.
  intros Hcb Hb. apply safe_bind; [apply map_err_safe, parse_nlmsg_safe|]. intros [hdr m] _.
  assert (∀ o : outcome QueryError T, safe o → safe (o ≫= λ d,
    match max_seq with
    | None => if Z.land (nlmsg_flags hdr) (as_u16 NLM_F_MULTI) =? 0
              then Err UndecidableMessageTermination
              else Ok (d, Some (pad_netlink_object_with_variable_size (nlmsg_len hdr)))
    | Some max_seq => if max_seq <=? nlmsg_seq hdr then Ok (d, None)
        else Ok (d, Some (pad_netlink_object_with_variable_size (nlmsg_len hdr)))
    end)) as Hk.
  { intros o Ho. apply safe_bind; [done|]. intros d _.
    destruct max_seq; destruct_ifs; auto with netlink. }
  destruct m; [auto with netlink|..]; apply Hk; [auto with netlink|destruct_ifs; auto with netlink|].
  destruct cb as [f|] eqn:Hf; [|auto with netlink].
  apply safe_bind; [apply slice_safe|]. intros s Hs%slice_len. eapply Hcb; [done|lia].
Qed.

Lemma process_buffer_safe fuel buf data :
  safe_callback → len buf ≤ isize_max → len buf < Z.of_nat fuel →
  safe (process_buffer max_seq cb fuel buf data).
Proof.
  intros Hcb. revert buf data. induction fuel as [|fuel IH]; intros buf data Hb Hf.
  { pose proof (len_nonneg buf). lia. }
  cbn [process_buffer]. destruct (len buf =? 0); [auto with netlink|].
  apply safe_bind; [by apply handle_message_safe|]. intros [d [n|]] Hh; [|auto with netlink].
  apply handle_message_next in Hh. destruct (Z.ltb_spec (len buf) n); [auto with netlink|].
  apply IH; rewrite len_drop; lia.
Qed.

Lemma process_datagrams_no_ub script data :
  safe_callback → Forall datagram_fits script →
  process_datagrams max_seq cb script data ≠ Ub.
Proof.
  intros Hcb Hs. pose proof maxsize_bounds. revert data.
  induction Hs as [|r script Hr _ IH]; intros data; [done|]. destruct r as [|[|x d]]; try done.
  cbn [datagram_fits process_datagrams] in *. set (dg := x :: d) in *. clearbody dg.
  pose proof (process_buffer_safe (S (length dg)) dg data Hcb) as [Hu _];
    [unfold isize_max; lia|unfold len; lia|].
  destruct (process_buffer _ _ _ dg data) as [[d' more]| | | |];
    [obind; destruct more; [apply IH|discriminate]|discriminate..|done|discriminate].
Qed.

(** A socket that at last reports an error lets the loop end. *)
Lemma process_datagrams_safe script errno data :
  safe_callback → Forall datagram_fits script →
  safe (process_datagrams max_seq cb (script ++ [RecvErr errno]) data).
Proof.
  intros Hcb Hs. pose proof maxsize_bounds. revert data.
  induction Hs as [|r script Hr _ IH]; intros data; [by auto with netlink|].
  destruct r as [|[|x d]]; try by auto with netlink.
  cbn [datagram_fits process_datagrams app] in *. set (dg := x :: d) in *. clearbody dg.
  apply safe_bind; [apply process_buffer_safe; [done|unfold isize_max; lia|unfold len; lia]|].
  intros [d' []] _; [apply IH|by auto with netlink].
Qed.
End NoUb.

(** ** Reading a dump

    How the kernel answers a dump request: multipart messages, in any number of datagrams,
    then a [NLMSG_DONE] message. *)

(** The end of a dump. *)
Section Done.
Context `{BuildProfile} `{SysLaws}.

Definition done_header (pid : Z) : nlmsghdr :=
  {| nlmsg_len := 20; nlmsg_type := NLMSG_DONE; nlmsg_flags := NLM_F_MULTI;
     nlmsg_seq := 0; nlmsg_pid := pid |}.

Definition done_message (pid : Z) : bytes := to_bytes nlmsghdr_layout (done_header pid) ++ zeros 4.

Lemma parse_done pid rest :
  u32_ok pid → parse_nlmsg (done_message pid ++ rest) = Ok (done_header pid, NlDone).
Proof.
  intros Hp. unfold parse_nlmsg.
  assert (nlmsghdr_ok (done_header pid)) as Hok.
  { unfold nlmsghdr_ok, done_header. cbn. rewrite done_3, f_multi_2.
    unfold u32_ok, u16_ok in *. split_and!; lia. }
  assert (len (done_message pid ++ rest) = 20 + len rest) as Hl.
  { unfold done_message. rewrite !len_app, (to_bytes_len (L := nlmsghdr_layout)).
    change (len (zeros 4)) with 4. lia. }
  pose proof (len_nonneg rest).
  destruct (get_nlmsghdr_long (done_message pid ++ rest)) as [_ ->]; [lia|].
  assert (of_bytes nlmsghdr_layout (take 16 (done_message pid ++ rest)) = done_header pid) as ->.
  { unfold done_message. rewrite <- app_assoc. change 16%nat with (Z.to_nat 16).
    rewrite take_app_len by (by rewrite (to_bytes_len (L := nlmsghdr_layout))).
    by apply of_to_bytes. }
  cbn [done_header nlmsg_len nlmsg_flags nlmsg_type]. rewrite Hl, f_multi_2. ztest.
  change (negb (Z.land 2 16 =? 0)) with false. cbv iota. obind. unfold parse_control.
  cbn [done_header nlmsg_type]. by rewrite done_3, min_type_16, noop_1, error_2.
Qed.

Lemma process_done {T} max_seq (cb : option (bytes → T → outcome QueryError T)) pid rest after t :
  u32_ok pid → process_datagrams max_seq cb (RecvData (done_message pid ++ rest) :: after) t = Ok t.
Proof.
  intros Hp. cbn [process_datagrams].
  assert (0 < len (done_message pid ++ rest)) as Hl.
  { unfold done_message. rewrite !len_app, (to_bytes_len (L := nlmsghdr_layout)).
    change (len (zeros 4)) with 4. pose proof (len_nonneg rest). lia. }
  pose proof (parse_done pid rest Hp) as Hd.
  destruct (done_message pid ++ rest) as [|x d]; [by vm_compute in Hl|].
  cbn [process_buffer]. ztest. unfold handle_message. by rewrite Hd.
Qed.
End Done.

(** A message of the kernel: any header and any bytes behind it. *)
Record Answer := MkAnswer {
  answer_header : nlmsghdr;
  answer_genmsg : nfgenmsg;
  answer_payload : bytes }.

Section Answers.
Context `{BuildProfile} `{SysLaws}.

Definition answer_bytes (m : Answer) : bytes :=
  message (answer_header m) (answer_genmsg m) (answer_payload m).

Definition answer_ok (m : Answer) : Prop :=
  parseable (answer_header m) (answer_genmsg m) (answer_payload m).

(** A multipart message, of whole words, that the reader of [A] reads as [a]. *)
Definition answers {A : Type} `{NfNetlinkDeserializable A} (m : Answer) (a : A) : Prop :=
  answer_ok m ∧ len (answer_payload m) mod 4 = 0
  ∧ Z.land (nlmsg_flags (answer_header m)) NLM_F_MULTI ≠ 0
  ∧ ∃ rest, deserialize (answer_bytes m) = Ok (a, rest).

(** A message that it refuses. *)
Definition refused {A : Type} `{NfNetlinkDeserializable A} (m : Answer) (e : DecodeError) : Prop :=
  answer_ok m ∧ deserialize (A := A) (answer_bytes m) = Err e.

(** Datagrams of several messages each, and the objects they are read as. *)
Definition answer_script (groups : list (list Answer)) : list RecvResult :=
  map (λ g, RecvData (flat_map answer_bytes g)) groups.

Definition read_as {A : Type} `{NfNetlinkDeserializable A} (groups : list (list Answer))
    (objects : list (list A)) : Prop :=
  Forall2 (λ g os, g ≠ [] ∧ Forall2 answers g os) groups objects.

Lemma len_answer m : len (answer_bytes m) = 20 + len (answer_payload m).
Proof. apply len_message. Qed.

Lemma answer_nonempty m rest : answer_bytes m ++ rest ≠ [].
Proof.
  intros He%(f_equal len). rewrite len_app, len_answer, len_nil in He.
  pose proof (len_nonneg (answer_payload m)). pose proof (len_nonneg rest). lia.
Qed.

Context {A T : Type} `{NfNetlinkDeserializable A} (cb : A → T → T).

(** The callback sees the message alone. *)
Lemma handle_answer m rest t :
  answer_ok m →
  handle_message None (Some (object_callback (λ a t, Ok (cb a t)))) (answer_bytes m ++ rest) t
  = (t ← object_callback (λ a t, Ok (cb a t)) (answer_bytes m) t;
     if Z.land (nlmsg_flags (answer_header m)) (as_u16 NLM_F_MULTI) =? 0
     then Err UndecidableMessageTermination
     else Ok (t, Some (pad_netlink_object_with_variable_size (nlmsg_len (answer_header m))))).
Proof.
  intros Hm. unfold handle_message, answer_bytes at 1. rewrite (parse_message _ _ _ rest Hm).
  cbn [map_err]. obind. destruct Hm as (_ & _ & Hl & _). pose proof (len_answer m) as Hlen.
  pose proof (len_nonneg (answer_payload m)). pose proof (len_nonneg rest).
  rewrite slice_suffix by (rewrite ?len_app; lia). obind.
  by rewrite drop_0, Z.sub_0_r, take_app_len by lia.
Qed.

Lemma handle_answers m a rest t :
  answers m a →
  handle_message None (Some (object_callback (λ a t, Ok (cb a t)))) (answer_bytes m ++ rest) t
  = Ok (cb a t, Some (len (answer_bytes m))).
Proof.
  intros (Hm & H4 & Hf & r & Hd). rewrite handle_answer by done. unfold object_callback. rewrite Hd.
  cbn [map_err]. obind. rewrite f_multi_2 in *. change (as_u16 2) with 2.
  rewrite (proj2 (Z.eqb_neq _ _) Hf). do 3 f_equal. destruct Hm as (Hh & _ & Hl & _).
  rewrite len_answer, Hl. destruct Hh as [Hu _]. unfold u32_ok in Hu.
  pose proof (len_nonneg (answer_payload m)). apply pad_aligned; [lia|].
  Z.div_mod_to_equations. lia.
Qed.

(** The messages at the front of a datagram. *)
Lemma process_answers g os rest fuel t :
  Forall2 answers g os →
  process_buffer None (Some (object_callback (λ a t, Ok (cb a t)))) (length g + fuel) (flat_map answer_bytes g ++ rest) t
  = process_buffer None (Some (object_callback (λ a t, Ok (cb a t)))) fuel rest (foldl (λ t a, cb a t) t os).
Proof.
  intros Hg. revert t. induction Hg as [|m a g os Hm _ IH]; intros t; [done|].
  cbn [length Nat.add flat_map foldl process_buffer]. rewrite <- app_assoc.
  pose proof (len_answer m) as Hl. pose proof (len_nonneg (answer_payload m)).
  pose proof (len_nonneg (flat_map answer_bytes g ++ rest)).
  assert (0 < len (answer_bytes m ++ flat_map answer_bytes g ++ rest)) by (rewrite len_app; lia).
  ztest. rewrite (handle_answers m a) by done. obind. rewrite len_app. ztest.
  by rewrite drop_app_len.
Qed.

Lemma answers_long g : (length g ≤ length (flat_map answer_bytes g))%nat.
Proof.
  induction g as [|m g IH]; [done|]. cbn [length flat_map]. rewrite length_app.
  pose proof (len_answer m) as Hl. pose proof (len_nonneg (answer_payload m)). unfold len in *. lia.
Qed.

(** Any fuel larger than the datagram will do. *)
Lemma process_answers_whole g os rest t :
  Forall2 answers g os →
  process_buffer None (Some (object_callback (λ a t, Ok (cb a t)))) (S (length (flat_map answer_bytes g ++ rest)))
    (flat_map answer_bytes g ++ rest) t
  = process_buffer None (Some (object_callback (λ a t, Ok (cb a t)))) (S (length rest)) rest (foldl (λ t a, cb a t) t os).
Proof.
  intros Hg. pose proof (answers_long g) as Hl. set (n := S _).
  replace n with (length g + (n - length g))%nat by (subst n; rewrite length_app; lia).
  rewrite (process_answers g os) by done.
  apply process_buffer_fuel; subst n; unfold len; rewrite ?length_app; lia.
Qed.

(** Datagrams that are read go to the callback, in order. *)
Lemma process_script groups objects script t :
  read_as groups objects →
  process_datagrams None (Some (object_callback (λ a t, Ok (cb a t)))) (answer_script groups ++ script) t
  = process_datagrams None (Some (object_callback (λ a t, Ok (cb a t)))) script (foldl (λ t a, cb a t) t (concat objects)).
Proof.
  intros Hg. revert t. induction Hg as [|g os groups objects [Hne Hg] _ IH]; intros t; [done|].
  cbn [answer_script map app process_datagrams concat]. rewrite foldl_app, <- IH.
  pose proof (process_answers_whole g os [] t Hg) as Hp. rewrite app_nil_r in Hp.
  destruct (flat_map answer_bytes g) as [|x d] eqn:Hd.
  { destruct g as [|m g]; [done|]. by apply answer_nonempty in Hd. }
  rewrite Hp. by cbn.
Qed.

(** The first message that is refused ends the listing with its error. *)
Lemma process_refused g os bad e rest after t :
  Forall2 answers g os → refused (A := A) bad e →
  process_datagrams None (Some (object_callback (λ a t, Ok (cb a t))))
    (RecvData (flat_map answer_bytes g ++ answer_bytes bad ++ rest) :: after) t
  = Err (ProcessNetlinkError e).
Proof.
  intros Hg [Hb He]. cbn [process_datagrams].
  pose proof (process_answers_whole g os (answer_bytes bad ++ rest) t Hg) as Hp.
  destruct (flat_map answer_bytes g ++ answer_bytes bad ++ rest) as [|x d] eqn:Hd.
  { apply app_eq_nil in Hd as [_ Hd]. by apply answer_nonempty in Hd. }
  rewrite Hp. cbn [process_buffer].
  assert (0 < len (answer_bytes bad ++ rest)).
  { rewrite len_app, len_answer. pose proof (len_nonneg (answer_payload bad)).
    pose proof (len_nonneg rest). lia. }
  ztest. rewrite handle_answer by done. unfold object_callback. by rewrite He.
Qed.
End Answers.

(** *** Answers in the crate's own encoding *)
Section Dump.
Context `{BuildProfile} `{SysLaws} {A : Type} `{NfNetlinkObject A, NfNetlinkAttribute A}
  `{NfNetlinkDeserializable A, !ObjectCodec A}.

(** One multipart message for an object. *)
Definition reply_header (pid : Z) (a : A) : nlmsghdr :=
  {| nlmsg_len := 20 + get_size a; nlmsg_type := header_type MSG_TYPE_ADD;
     nlmsg_flags := NLM_F_MULTI; nlmsg_seq := 0; nlmsg_pid := pid |}.

Definition reply_genmsg (generation : Z) (a : A) : nfgenmsg :=
  {| nfgen_family := ProtocolFamily_value (get_family a); version := 0; res_id := generation |}.

Definition reply_answer (pid generation : Z) (a : A) : Answer :=
  MkAnswer (reply_header pid a) (reply_genmsg generation a) (object_payload a).

Definition reply (pid generation : Z) (a : A) : bytes := answer_bytes (reply_answer pid generation a).

(** The datagrams of a dump: groups of objects, then the end. *)
Definition dump_script (pid generation : Z) (groups : list (list A)) : list RecvResult :=
  map (λ g, RecvData (flat_map (reply pid generation) g)) groups ++ [RecvData (done_message pid)].

Lemma dump_script_answers pid generation groups :
  dump_script pid generation groups
  = answer_script (map (reply_answer pid generation) <$> groups) ++ [RecvData (done_message pid ++ [])].
Proof.
  unfold dump_script, answer_script. rewrite app_nil_r. f_equal.
  induction groups as [|g groups IH]; [done|]. cbn. rewrite IH. do 2 f_equal.
  induction g as [|a g IHg]; [done|]. cbn. by rewrite IHg.
Qed.

Lemma len_payload a : object_readable a = true → len (object_payload a) = get_size a.
Proof.
  intros Ha. destruct (object_readable_writable a Ha) as [Hw Hf].
  rewrite object_payload_aligned by eauto using object_readable_aligned. by destruct Hw as (_ & ? & _).
Qed.

Lemma add_type :
  0 ≤ MSG_TYPE_ADD (A := A) < 16.
Proof. by destruct (object_type_ok (A := A) Add) as [Hs <-]. Qed.

Lemma reply_parseable pid generation a :
  object_readable a = true → u32_ok pid → u16_ok generation → answer_ok (reply_answer pid generation a).
Proof.
  intros Ha Hp Hg. destruct (object_readable_writable a Ha) as [[Hs _] [Hf ?]].
  pose proof add_type as Hty. pose proof (op_of_header_type _ Hty) as (_ & Hsub & _).
  pose proof (family_in_u8 (get_family a)) as Hfam.
  assert (0 ≤ get_size a < 2 ^ 32 - 20) as Hsz by (pad_facts; lia).
  unfold answer_ok, parseable, nlmsghdr_ok, nfgenmsg_ok. cbn. rewrite len_payload by done.
  rewrite f_multi_2, header_type_op in * by done. unfold u32_ok, u16_ok, u8_ok in *.
  split_and!; auto; lia.
Qed.

Lemma reply_answers pid generation a :
  object_readable a = true → u32_ok pid → u16_ok generation → answers (reply_answer pid generation a) a.
Proof.
  intros Ha Hp Hg. pose proof (reply_parseable pid generation a Ha Hp Hg) as Hpar.
  split_and!; [done| |cbn; by rewrite f_multi_2|].
  - cbn. rewrite len_payload by done. by apply object_readable_aligned.
  - exists []. rewrite <- (app_nil_r (answer_bytes _)).
    apply object_reads; [done|done| |done]. left. apply (op_of_header_type _ add_type).
Qed.

Lemma replies_read pid generation groups :
  Forall (λ g, g ≠ [] ∧ forallb object_readable g = true) groups → u32_ok pid → u16_ok generation →
  read_as (map (reply_answer pid generation) <$> groups) groups.
Proof.
  intros Hg Hp Hgen. induction Hg as [|g groups [Hne Hok] _ IH]; [constructor|].
  cbn. constructor; [|done]. split; [by destruct g|]. clear Hne.
  induction g as [|a g IHg]; [constructor|]. cbn in Hok. apply andb_true_iff in Hok as [Ha Hok].
  cbn. constructor; [by apply reply_answers|by apply IHg].
Qed.
End Dump.
