(* ===== verification/Exchange.v ===== *)
(** * Whole exchanges with the kernel: a listing, and a batch and its acknowledgements

    The receive loop of [Query.v] against what the kernel documents it answers: a dump
    is a sequence of multipart messages closed by [NLMSG_DONE], and every message of a
    batch that asks for it is acknowledged with an [NLMSG_ERROR] message carrying the
    sequence number and zero, or minus an errno. *)

From S2P Require Import Prelude Sys Errors Lib Nlmsg Parser ParserImpls Macros Codec Data Objects.
From S2P Require Import Table Chain Exprs ExprMod Rule Batch Query.
Local Open Scope Z_scope.

(** ** Requests *)
Section Requests.
Context `{BuildProfile} `{SysLaws} {A : Type} `{NfNetlinkAttribute A}.

(** A dump request: no family, and the attributes of the filter. *)
Definition request_message (msg_type seq : Z) (filter : option A) : bytes :=
  let payload := match filter with Some a => encode a | None => [] end in
  message (message_header (20 + len payload) msg_type (as_u16 NLM_F_DUMP) seq)
    (message_genmsg Unspec None) payload.

Lemma request_spec msg_type seq filter :
  u16_ok msg_type → u32_ok seq → (∀ a, filter = Some a → object_sendable a) →
  get_list_of_objects msg_type seq filter = Ok (request_message msg_type seq filter).
Proof.
  intros Ht Hs Hf. unfold get_list_of_objects, NfNetlinkWriter_new.
  rewrite write_header_closed. obind. destruct filter as [a|]; [|done].
  destruct (Hf a eq_refl) as ((Hsz & Hl & Hw) & [Hf1 Hf2] & Hm).
  assert (pad_netlink_object_with_variable_size (get_size a) = get_size a) as Hpad
    by (apply pad_aligned; [lia|done]).
  rewrite Hpad in Hf1.
  rewrite app_nil_l. unfold message. rewrite <- (app_nil_l (to_bytes nlmsghdr_layout _ ++ _)).
  change (len []) with (len (@nil byte)).
  rewrite add_data_zeroed_open;
    [|apply message_header_ok; done || apply as_u16_ok|lia|cbn; rewrite Hpad; lia|lia].
  obind. rewrite Hpad, app_nil_l, app_nil_r, (to_bytes_len (L := nfgenmsg_layout)).
  set (hdr := to_bytes nlmsghdr_layout _). set (gen := to_bytes nfgenmsg_layout _).
  rewrite (app_assoc hdr gen), <- (app_nil_r ((hdr ++ gen) ++ _)), <- app_assoc.
  rewrite (with_slice_app _ (zeros (get_size a)) (encode a)).
  - obind. cbn. unfold request_message, message. rewrite Hl. fold hdr gen.
    by rewrite app_nil_r, <- app_assoc.
  - unfold hdr, gen. rewrite len_app, (to_bytes_len (L := nlmsghdr_layout)),
      (to_bytes_len (L := nfgenmsg_layout)). done.
  - by rewrite len_zeros.
  - by rewrite len_zeros.
  - pose proof (Hw []) as Hn. by rewrite !app_nil_r in Hn.
Qed.
End Requests.

(** ** Listings *)

(** A socket on which every call succeeds. *)
Definition working_socket (snd : list SendResult) (script : list RecvResult) : Socket := {|
  open_error := None; bind_error := None; sends := snd; recvs := script; close_error := None |}.

Section Listing.
Context `{BuildProfile} `{SysLaws} {A : Type} `{NfNetlinkAttribute A} `{NfNetlinkDeserializable A}.

(** The request goes out, and the result is what the receive loop returns. *)
Lemma list_objects_script {T} (cb : A → T → outcome QueryError T) data_type filter script count t :
  u16_ok data_type → (∀ a, filter = Some a → object_sendable a) → Forall datagram_fits script →
  let ret := process_datagrams None (Some (object_callback cb)) script t in
  list_objects_with_data data_type cb filter (working_socket [Sent count] script) t
  = ([Opened; Sending (request_message data_type 0 filter) count] ++ closing ret, ret).
Proof.
  intros Ht Hf Hfit ret. unfold list_objects_with_data.
  unfold socket_open. cbn [open_error sends recvs working_socket].
  rewrite request_spec by done. cbn [infallible map_err].
  rewrite emit_bind, lift_bind, emit_bind, recv_and_process_datagrams by done.
  by rewrite close_working.
Qed.

(** A listing folds the callback over the objects of the answers, in order. *)
Lemma list_objects_answers {T} (cb : A → T → T) data_type filter groups objects pid rest after count t :
  u16_ok data_type → (∀ a, filter = Some a → object_sendable a) → read_as groups objects →
  u32_ok pid →
  let script := answer_script groups ++ RecvData (done_message pid ++ rest) :: after in
  Forall datagram_fits script →
  list_objects_with_data data_type (λ a t, Ok (cb a t)) filter (working_socket [Sent count] script) t
  = ([Opened; Sending (request_message data_type 0 filter) count; Closed],
     Ok (foldl (λ t a, cb a t) t (concat objects))).
Proof.
  intros Ht Hf Hr Hp script Hfit. rewrite list_objects_script by done. unfold script.
  by rewrite (process_script cb groups objects), process_done by done.
Qed.

(** And ends with the error of the first message that is refused. *)
Lemma list_objects_refused {T} (cb : A → T → T) data_type filter groups objects g os bad e rest after
    count t :
  u16_ok data_type → (∀ a, filter = Some a → object_sendable a) → read_as groups objects →
  Forall2 answers g os → refused (A := A) bad e →
  let script := answer_script groups
    ++ RecvData (flat_map answer_bytes g ++ answer_bytes bad ++ rest) :: after in
  Forall datagram_fits script →
  list_objects_with_data data_type (λ a t, Ok (cb a t)) filter (working_socket [Sent count] script) t
  = ([Opened; Sending (request_message data_type 0 filter) count; Closed],
     Err (ProcessNetlinkError e)).
Proof.
  intros Ht Hf Hr Hg Hb script Hfit. rewrite list_objects_script by done. unfold script.
  by rewrite (process_script cb groups objects), (process_refused cb g os bad e) by done.
Qed.
End Listing.

Section DumpListing.
Context `{BuildProfile} `{SysLaws} {A : Type} `{NfNetlinkObject A, NfNetlinkAttribute A}
  `{NfNetlinkDeserializable A, !ObjectCodec A}.

(** A dump whose datagrams are not empty and fit in the receive buffer. *)
Definition dump_ok (pid generation : Z) (groups : list (list A)) : Prop :=
  Forall (λ g, g ≠ [] ∧ forallb object_readable g = true) groups
  ∧ u32_ok pid ∧ u16_ok generation
  ∧ Forall datagram_fits (dump_script pid generation groups).

Lemma list_objects_dump {T} (cb : A → T → T) data_type filter pid generation groups count t :
  u16_ok data_type → (∀ a, filter = Some a → object_sendable a) → dump_ok pid generation groups →
  list_objects_with_data data_type (λ a t, Ok (cb a t)) filter
    (working_socket [Sent count] (dump_script pid generation groups)) t
  = ([Opened; Sending (request_message data_type 0 filter) count; Closed],
     Ok (foldl (λ t a, cb a t) t (concat groups))).
Proof.
  intros Ht Hf (Hg & Hp & Hgen & Hfit). rewrite dump_script_answers in *.
  apply list_objects_answers; [done..|by apply replies_read|done|done].
Qed.
End DumpListing.

Section Folds.
Context {A : Type}.

Lemma foldl_snoc (l acc : list A) : foldl (λ t a, t ++ [a]) acc l = acc ++ l.
Proof.
  revert acc. induction l as [|a l IH]; intros acc; cbn; [by rewrite app_nil_r|].
  by rewrite IH, <- app_assoc.
Qed.

Lemma foldl_filter (P : A → Prop) `{!∀ a, Decision (P a)} (l acc : list A) :
  foldl (λ t a, if decide (P a) then t ++ [a] else t) acc l = acc ++ filter P l.
Proof.
  revert acc. induction l as [|a l IH]; intros acc; cbn [foldl]; [by rewrite app_nil_r|].
  rewrite IH. destruct (decide (P a)).
  - rewrite filter_cons_True by done. by rewrite <- app_assoc.
  - by rewrite filter_cons_False.
Qed.
End Folds.

(** ** Acknowledgements *)
Section Acks.
Context `{BuildProfile} `{SysLaws}.

(** An acknowledgement: the sequence number, an error code and the header of the message it
    is about, the flags the kernel sets, and what it appends: a part of the message, or
    attributes that explain an error. *)
Record Ack := MkAck {
  ack_seq : Z;
  ack_code : Z;
  ack_about : nlmsghdr;
  ack_flags : Z;
  ack_appended : bytes }.

Definition ack_header (pid : Z) (a : Ack) : nlmsghdr :=
  {| nlmsg_len := 36 + len (ack_appended a); nlmsg_type := NLMSG_ERROR;
     nlmsg_flags := ack_flags a; nlmsg_seq := ack_seq a; nlmsg_pid := pid |}.

Definition ack_message (pid : Z) (a : Ack) : bytes :=
  to_bytes nlmsghdr_layout (ack_header pid a)
  ++ to_bytes nlmsgerr_layout {| error := ack_code a; msg := ack_about a |} ++ ack_appended a.

(** Its numbers are in range, the flag of an interrupted dump is not set, and it is whole
    words that fit in the receive buffer. *)
Definition ack_ok (pid : Z) (a : Ack) : Prop :=
  u32_ok pid ∧ u32_ok (ack_seq a) ∧ - 2 ^ 31 < ack_code a ≤ 0 ∧ nlmsghdr_ok (ack_about a)
  ∧ u16_ok (ack_flags a) ∧ Z.land (ack_flags a) NLM_F_DUMP_INTR = 0
  ∧ len (ack_appended a) mod 4 = 0 ∧ 36 + len (ack_appended a) ≤ nft_nlmsg_maxsize.

Lemma len_ack pid a : len (ack_message pid a) = 36 + len (ack_appended a).
Proof.
  unfold ack_message. rewrite !len_app, (to_bytes_len (L := nlmsghdr_layout)),
    (to_bytes_len (L := nlmsgerr_layout)). lia.
Qed.

Lemma parse_ack pid a rest :
  ack_ok pid a →
  parse_nlmsg (ack_message pid a ++ rest)
  = Ok (ack_header pid a, NlError {| error := - ack_code a; msg := ack_about a |}).
Proof.
  intros (Hp & Hs & Hc & Ha & Hf & Hi & _ & Hl). unfold parse_nlmsg.
  pose proof maxsize_bounds. pose proof (len_nonneg (ack_appended a)). pose proof (len_nonneg rest).
  assert (len (ack_message pid a ++ rest) = 36 + len (ack_appended a) + len rest) as Hlen
    by (by rewrite len_app, len_ack).
  assert (nlmsghdr_ok (ack_header pid a)) as Hok.
  { unfold nlmsghdr_ok, ack_header. cbn. rewrite error_2. unfold u32_ok, u16_ok in *.
    split_and!; lia. }
  destruct (get_nlmsghdr_long (ack_message pid a ++ rest)) as [_ ->]; [lia|].
  assert (of_bytes nlmsghdr_layout (take 16 (ack_message pid a ++ rest)) = ack_header pid a) as ->.
  { unfold ack_message. rewrite <- app_assoc. change 16%nat with (Z.to_nat 16).
    rewrite take_app_len by (by rewrite (to_bytes_len (L := nlmsghdr_layout))).
    by apply of_to_bytes. }
  rewrite f_dump_intr_16 in Hi. cbn [ack_header nlmsg_len nlmsg_flags]. rewrite Hlen, Hi. ztest. obind.
  unfold parse_control. cbn [ack_header nlmsg_type nlmsg_len].
  rewrite error_2, min_type_16, noop_1, pad_nlmsghdr, (layout_size (L := nlmsgerr_layout)).
  change (2 <? as_u16 16) with true. change (2 =? 1) with false. change (2 =? 2) with true.
  ztest. rewrite slice_suffix by lia. obind. change (16 + 20 - 16) with 20.
  unfold ack_message. rewrite <- !app_assoc.
  rewrite drop_app_len by (by rewrite (to_bytes_len (L := nlmsghdr_layout))).
  rewrite take_app_len by (by rewrite (to_bytes_len (L := nlmsgerr_layout))).
  rewrite <- (app_nil_r (to_bytes nlmsgerr_layout _)), read_struct_app
    by (split; [unfold i32_ok; cbn; lia|done]). obind.
  unfold i32_abs. cbn [error msg]. ztest. obind. by rewrite Z.abs_neq by lia.
Qed.

(** The loop of [Batch::send] skips the acknowledgements of the first messages, fails on
    the first error and ends with the last sequence number. *)
Lemma handle_ack max_seq cb pid a rest (t : unit) :
  ack_ok pid a →
  handle_message (Some max_seq) cb (ack_message pid a ++ rest) t
  = if negb (ack_code a =? 0) then Err (NetlinkError {| error := - ack_code a; msg := ack_about a |})
    else if max_seq <=? ack_seq a then Ok (t, None) else Ok (t, Some (len (ack_message pid a))).
Proof.
  intros Ha. unfold handle_message. rewrite parse_ack by done. cbn [map_err]. obind.
  destruct Ha as (_ & _ & Hc & _ & _ & _ & Hm & Hl). pose proof maxsize_bounds.
  pose proof (len_nonneg (ack_appended a)).
  cbn [error nlmsg_seq nlmsg_len ack_header]. rewrite len_ack, pad_aligned;
    [|lia|Z.div_mod_to_equations; lia].
  destruct (Z.eqb_spec (ack_code a) 0) as [->|Hne]; [done|].
  by rewrite (proj2 (Z.eqb_neq (- ack_code a) 0)) by lia.
Qed.

(** One datagram per acknowledgement. *)
Definition ack_script (pid : Z) (acks : list Ack) : list RecvResult :=
  map (λ a, RecvData (ack_message pid a)) acks.

Fixpoint acks_result (max_seq : Z) (acks : list Ack) : outcome QueryError unit :=
  match acks with
  | [] => Diverge
  | a :: acks =>
      if negb (ack_code a =? 0)
      then Err (NetlinkError {| error := - ack_code a; msg := ack_about a |})
      else if max_seq <=? ack_seq a then Ok tt
      else acks_result max_seq acks
  end.

Lemma process_acks max_seq pid acks :
  Forall (ack_ok pid) acks →
  process_datagrams (Some max_seq) None (ack_script pid acks) tt = acks_result max_seq acks.
Proof.
  induction 1 as [|a acks Ha _ IH]; [done|]. cbn [ack_script map process_datagrams acks_result].
  pose proof (len_ack pid a) as Hl. pose proof (len_nonneg (ack_appended a)).
  pose proof (handle_ack max_seq None pid a [] tt Ha) as Hh. rewrite app_nil_r in Hh.
  destruct (ack_message pid a) as [|x d] eqn:Hd; [rewrite len_nil in Hl; lia|]. rewrite <- Hd in *.
  cbn [process_buffer]. ztest. rewrite Hh. destruct (negb (ack_code a =? 0)); [done|].
  destruct (max_seq <=? ack_seq a); [done|]. obind. ztest.
  rewrite drop_ge by (unfold len in *; lia).
  assert (process_buffer (Some max_seq) None (length (ack_message pid a)) [] tt = Ok (tt, true))
    as -> by (by rewrite Hd). obind. apply IH.
Qed.

Lemma ack_fits pid a : ack_ok pid a → datagram_fits (RecvData (ack_message pid a)).
Proof. intros Ha. cbn. rewrite len_ack. apply Ha. Qed.

Lemma acks_fit pid acks : Forall (ack_ok pid) acks → Forall datagram_fits (ack_script pid acks).
Proof. intros Ha. apply Forall_map. eapply Forall_impl; [|exact Ha]. apply ack_fits. Qed.

(** Sending takes the batch's bytes in as many parts as the kernel wants. *)
Lemma send_loop_parts counts (to_send : bytes) sent :
  Forall (λ c, 0 < c) counts → len to_send < 2 ^ 64 → 0 ≤ sent →
  sent + foldr Z.add 0 counts = len to_send →
  ∃ es, send_loop (map Sent counts) to_send sent = (es, Ok tt)
    ∧ wire es = drop (Z.to_nat sent) to_send.
Proof.
  intros Hc Hl. revert sent. induction Hc as [|c counts Hc Hcs IH]; intros sent Hs Hsum.
  { exists []. cbn in *. ztest. split; [done|]. rewrite drop_ge; [done|]. unfold len in *. lia. }
  assert (0 ≤ foldr Z.add 0 counts) as Hnn.
  { clear -Hcs. induction Hcs; cbn; lia. }
  cbn [foldr] in Hsum. cbn [map send_loop]. ztest. rewrite slice_from_ok by lia.
  rewrite lift_bind, emit_bind, usize_add_small by lia. rewrite lift_bind.
  destruct (IH (sent + c)) as (es & -> & Hw); [lia..|].
  eexists. split; [done|]. cbn [after fst app wire flat_map]. fold (wire es). rewrite Hw.
  rewrite <- (take_drop (Z.to_nat c) (drop (Z.to_nat sent) to_send)) at 2.
  rewrite drop_drop. do 2 f_equal. lia.
Qed.

(** A batch of items on a working socket: everything is written, then the answers decide. *)
Lemma Batch_send_script (l : list BatchItem) (b : Batch) counts script :
  (b0 ← Batch_new; Batch_add_items l b0) = Ok b →
  Forall item_ok l → 1 + len l < 2 ^ 32 →
  Forall (λ c, 0 < c) counts → foldr Z.add 0 counts = len (batch_bytes l) →
  let ret := recv_and_process (Some (len l)) None script tt in
  ∃ es, Batch_send b (working_socket (map Sent counts) script)
    = ([Opened; Bound] ++ es ++ closing ret, ret)
    ∧ wire es = batch_bytes l.
Proof.
  rewrite Batch_new_spec. obind. intros Hadd Hok Hl Hc Hsum ret.
  pose proof (batch_bytes_len l Hok) as Hlen.
  rewrite Batch_add_items_spec in Hadd by (done || lia).
  injection Hadd as <-. pose proof (len_nonneg l).
  destruct (send_loop_parts counts (batch_bytes l) 0) as (es & Hes & Hw); [done|lia..|].
  exists es. split; [|done]. unfold Batch_send, socket_open, working_socket.
  cbn [open_error bind_error sends recvs]. rewrite emit_bind. cbn [batch_seq]. unfold u32_sub.
  ztest. rewrite lift_bind, emit_bind, Batch_finalize_spec. cbn [infallible map_err].
  rewrite lift_bind, <- app_assoc.
  change (control_message NFNL_MSG_BATCH_BEGIN 0 ++ _) with (batch_bytes l).
  by rewrite Hes, io_ok_bind, Z.add_simpl_l, close_working.
Qed.

Lemma Batch_send_acks (l : list BatchItem) (b : Batch) counts pid acks :
  (b0 ← Batch_new; Batch_add_items l b0) = Ok b →
  Forall item_ok l → 1 + len l < 2 ^ 32 →
  Forall (λ c, 0 < c) counts → foldr Z.add 0 counts = len (batch_bytes l) →
  Forall (ack_ok pid) acks →
  ∃ es, Batch_send b (working_socket (map Sent counts) (ack_script pid acks))
    = ([Opened; Bound] ++ es ++ closing (acks_result (len l) acks), acks_result (len l) acks)
    ∧ wire es = batch_bytes l.
Proof.
  intros Hb Hok Hl Hc Hsum Hacks.
  destruct (Batch_send_script l b counts (ack_script pid acks)) as (es & Hes & Hw); try done.
  rewrite recv_and_process_datagrams, process_acks in Hes by (done || by apply acks_fit). eauto.
Qed.
End Acks.

(** ** The life of the socket *)

(** The errors the receive loop can return: not those of opening or sending. *)
Definition receive_error (e : QueryError) : Prop :=
  match e with
  | NetlinkOpenError _ | NetlinkSendError _ | QueryBuilderError _ => False
  | _ => True
  end.

Definition receive_errors {A : Type} (m : outcome QueryError A) : Prop :=
  ∀ e, m = Err e → receive_error e.

Section ReceiveErrors.
Context `{BuildProfile} `{Sys} {T : Type}.
Context (max_seq : option Z) (cb : option (bytes → T → outcome QueryError T)).
Context (cb_errors : ∀ f b d, cb = Some f → receive_errors (f b d)).

Lemma receive_errors_bind {A B} (m : outcome QueryError A) (k : A → outcome QueryError B) :
  receive_errors m → (∀ a, receive_errors (k a)) → receive_errors (m ≫= k).
Proof. intros Hm Hk e. destruct m; cbn; [apply Hk|by intros [= ->]; apply Hm|done..]. Qed.

Lemma slice_errors {A} (l : list A) a b : receive_errors (slice l a b).
Proof. intros e. unfold slice. by destruct_ifs. Qed.

Lemma usize_add_errors a b : receive_errors (usize_add a b).
Proof. intros e. unfold usize_add. by destruct_ifs. Qed.

Lemma usize_sub_errors a b : receive_errors (usize_sub a b).
Proof. intros e. unfold usize_sub. by destruct_ifs. Qed.

Lemma decode_errors {A} (m : outcome DecodeError A) :
  receive_errors (map_err ProcessNetlinkError m).
Proof. intros e. by destruct m; intros [= <-]. Qed.

Lemma handle_message_errors buf data : receive_errors (handle_message max_seq cb buf data).
Proof.
  apply receive_errors_bind; [apply decode_errors|]. intros [hdr msg].
  assert (∀ o : outcome QueryError T, receive_errors o → receive_errors (o ≫= λ d,
    match max_seq with
    | None => if Z.land (nlmsg_flags hdr) (as_u16 NLM_F_MULTI) =? 0
              then Err UndecidableMessageTermination
              else Ok (d, Some (pad_netlink_object_with_variable_size (nlmsg_len hdr)))
    | Some max_seq => if max_seq <=? nlmsg_seq hdr then Ok (d, None)
        else Ok (d, Some (pad_netlink_object_with_variable_size (nlmsg_len hdr)))
    end)) as Hk.
  { intros o Ho. apply receive_errors_bind; [done|]. intros d e.
    destruct max_seq; destruct_ifs; by intros [= <-]. }
  destruct msg; [done|apply Hk..]; [done| |].
  - intros e'. destruct_ifs; by intros [= <-].
  - destruct cb as [f|] eqn:Hf; [|done].
    apply receive_errors_bind; [apply slice_errors|]. intros b. by apply (cb_errors f).
Qed.

Lemma process_loop_errors fuel b start stop data :
  receive_errors (process_loop max_seq cb fuel b start stop data).
Proof.
  revert start data. induction fuel as [|fuel IH]; intros start data; cbn [process_loop];
    apply receive_errors_bind; try apply slice_errors; intros s; destruct (len s =? 0); try done.
  apply receive_errors_bind; [apply handle_message_errors|]. intros [d [n|]]; [|done].
  apply receive_errors_bind; [apply usize_add_errors|]. intros start'. apply IH.
Qed.

Lemma recv_errors script data : receive_errors (recv_and_process max_seq cb script data).
Proof.
  unfold recv_and_process. generalize (zeros (2 * nft_nlmsg_maxsize)) as b.
  generalize 0 at 1 as start. generalize 0 as stop. revert data.
  induction script as [|r script IH]; intros data stop start b; [done|]. cbn [recv_loop].
  apply receive_errors_bind; [unfold slice_from; by destruct_ifs|]. intros space.
  destruct r as [errno|dg]; [by intros e [= <-]|]. destruct (_ <=? 0); [done|].
  apply receive_errors_bind; [apply usize_add_errors|]. intros stop'.
  apply receive_errors_bind; [apply process_loop_errors|]. intros [d [n|]]; [|done].
  destruct (_ <=? stop'); [|apply IH].
  apply receive_errors_bind.
  { destruct (n <? stop'); [|done].
    apply receive_errors_bind; [apply slice_errors|]. by intros p. }
  intros b'. apply receive_errors_bind; [apply usize_sub_errors|]. intros stop''. apply IH.
Qed.
End ReceiveErrors.

(** What a call that returns leaves behind: nothing was opened when it failed before or
    while opening; the socket stays open when a [send] failed; otherwise it was opened
    once, at first, and closed once, at last. *)
Definition lifecycle {A : Type} (m : io A) : Prop :=
  match m.2 with
  | Err (NetlinkOpenError _) | Err (QueryBuilderError _) => m.1 = []
  | Err (NetlinkSendError _) => Opened ∈ m.1 ∧ Closed ∉ m.1
  | Ok _ | Err _ => ∃ es, m.1 = Opened :: es ++ [Closed] ∧ (Opened ∉ es) ∧ (Closed ∉ es)
  | _ => True
  end.

(** Closing an opened socket after the receive loop. *)
Lemma lifecycle_close {A} (s : Socket) (es : list Event) (ret : outcome QueryError A) :
  Opened ∉ es → Closed ∉ es → receive_errors ret →
  lifecycle (after (Opened :: es) (socket_close_wrapper s ret)).
Proof.
  intros Ho Hc He. unfold lifecycle, socket_close_wrapper.
  destruct ret as [a|e| | |]; [| |done..]; rewrite ?emit_bind; destruct (close_error s);
    cbn; try (by exists es).
  specialize (He e eq_refl). destruct e; try done; by exists es.
Qed.

Lemma lifecycle_list_objects `{BuildProfile} `{Sys} {A T : Type} `{NfNetlinkAttribute A}
    `{NfNetlinkDeserializable A} data_type (cb : A → T → outcome QueryError T) filter s data :
  (∀ a t, receive_errors (cb a t)) →
  lifecycle (list_objects_with_data data_type cb filter s data).
Proof.
  intros Hcb. unfold list_objects_with_data, socket_open.
  destruct (open_error s) as [errno|]; [done|].
  destruct (get_list_of_objects data_type 0 filter) as [b|[]| | |]; try done.
  cbn [infallible map_err]. rewrite emit_bind, lift_bind.
  destruct (sends s) as [|[errno|count] snd]; [done| |].
  - split; [left|]. by intros ?%list_elem_of_singleton.
  - rewrite emit_bind.
    apply (lifecycle_close s [Sending b count]); [by intros ?%list_elem_of_singleton..|].
    apply recv_errors. intros f b' d [= <-]. unfold object_callback.
    apply receive_errors_bind; [apply decode_errors|]. intros [a rest]. apply Hcb.
Qed.

(** Code that neither opens nor closes the socket and fails only in [send]. *)
Definition only_sends (m : io unit) : Prop :=
  (Opened ∉ m.1) ∧ (Closed ∉ m.1) ∧ ∀ e, m.2 = Err e → ∃ errno, e = NetlinkSendError errno.

Lemma only_sends_lift (m : outcome QueryError unit) :
  (∀ e, m = Err e → ∃ errno, e = NetlinkSendError errno) → only_sends (lift m).
Proof. intros He. split_and!; [apply not_elem_of_nil..|done]. Qed.

Lemma only_sends_after b count m : only_sends m → only_sends (after [Sending b count] m).
Proof. intros (Ho & Hc & He). split_and!; [by intros [?|?]%elem_of_cons..|done]. Qed.

Lemma send_loop_events `{BuildProfile} script to_send sent :
  only_sends (send_loop script to_send sent).
Proof.
  revert sent. induction script as [|r script IH]; intros sent; cbn [send_loop];
    (destruct (sent =? len to_send); [by apply only_sends_lift|]);
    unfold slice_from; (destruct (sent <=? len to_send); [|by apply (only_sends_lift Panic)]);
    rewrite lift_bind; [by apply only_sends_lift|].
  destruct r as [errno|count]; [apply only_sends_lift; intros e [= <-]; by exists errno|].
  rewrite emit_bind. apply only_sends_after. unfold usize_add.
  destruct_ifs; rewrite ?lift_bind; [apply IH|by apply (only_sends_lift Panic)|apply IH].
Qed.

Lemma lifecycle_send `{BuildProfile} `{Sys} (b : Batch) (s : Socket) : lifecycle (Batch_send b s).
Proof.
  unfold Batch_send, socket_open. destruct (open_error s) as [errno|]; [done|].
  rewrite emit_bind.
  destruct (u32_sub (batch_seq b) 1) as [n|e| | |] eqn:Hn; try done.
  2: { unfold u32_sub in Hn. revert Hn. by destruct_ifs. }
  rewrite lift_bind. destruct (bind_error s); [done|]. rewrite emit_bind.
  destruct (Batch_finalize b) as [to_send|[]| | |]; try done. cbn [infallible map_err].
  rewrite lift_bind. destruct (send_loop_events (sends s) to_send 0) as (Ho & Hc & He).
  destruct (send_loop (sends s) to_send 0) as [es [[]|e| | |]]; try done.
  - rewrite io_ok_bind. unfold after. cbn [fst snd]. rewrite (app_assoc [Opened] [Bound]), app_assoc.
    apply (lifecycle_close s (Bound :: es)); [by intros [?|?]%elem_of_cons..|].
    by apply recv_errors.
  - destruct (He e eq_refl) as [errno ->]. cbn in *. split; [left|].
    rewrite !elem_of_cons. intros [?|[?|?]]; done.
Qed.
