(* ===== verification/Progress.v ===== *)
(** * The loops end

    The loops of the model take fuel.  Those that read a buffer stop on their own: every turn
    consumes at least a header, so any fuel larger than the buffer gives the same result.  The
    loop that receives stops when an answer ends the exchange, whatever was received before. *)

From S2P Require Import Prelude Sys Errors Lib Nlmsg Parser ParserImpls Macros Batch Query Exchange.
Local Open Scope Z_scope.

(** ** Reading a buffer *)
Section Fuel.
Context `{BuildProfile} `{SysLaws}.

Lemma walk_attributes_fuel {A} `{AttributeDecoder A} f1 f2 rest (res : A) :
  len rest < Z.of_nat f1 → len rest < Z.of_nat f2 →
  walk_attributes f1 rest res = walk_attributes f2 rest res.
Proof.
  revert f2 rest res. induction f1 as [|f1 IH]; intros f2 rest res H1' H2';
    pose proof (len_nonneg rest); [lia|]. destruct f2 as [|f2]; [lia|]. cbn [walk_attributes].
  destruct (Z.ltb_spec 4 (len rest)); [|done].
  pose proof (next_attr_ok rest ltac:(lia)) as [Hl _]. unfold u16_ok in Hl.
  set (l := nla_len (next_attr rest)) in *. clearbody l. cbv zeta.
  destruct (Z.ltb_spec l 4); cbn [orb]; [done|]. destruct (len rest <? l); [done|].
  destruct (decode_or_skip _ _ _) as [res'| | | |]; try done. obind.
  destruct (Z.ltb_spec (len rest) (pad_netlink_object_with_variable_size l)); [done|].
  pad_facts. apply IH; rewrite len_drop; lia.
Qed.

Lemma walk_list_fuel {T} `{NfNetlinkDeserializable T} f1 f2 rest (acc : list T) :
  len rest < Z.of_nat f1 → len rest < Z.of_nat f2 →
  walk_list f1 rest acc = walk_list f2 rest acc.
Proof.
  revert f2 rest acc. induction f1 as [|f1 IH]; intros f2 rest acc H1' H2';
    pose proof (len_nonneg rest); [lia|]. destruct f2 as [|f2]; [lia|]. cbn [walk_list].
  destruct (Z.ltb_spec 4 (len rest)); [|done].
  pose proof (next_attr_ok rest ltac:(lia)) as [Hl _]. unfold u16_ok in Hl.
  set (l := nla_len (next_attr rest)) in *. clearbody l. cbv zeta.
  destruct (negb _); [done|]. destruct (Z.ltb_spec l 4); cbn [orb]; [done|].
  destruct (len rest <? l); [done|].
  destruct (deserialize _) as [[obj remaining]| | | |]; try done. obind.
  destruct (negb _); [done|].
  destruct (Z.ltb_spec (len rest) (pad_netlink_object_with_variable_size l)); [done|].
  pad_facts. apply IH; rewrite len_drop; lia.
Qed.

Lemma read_loop_end {A} `{AttributeDecoder A} (dflt : A) buf fuel :
  len buf ≤ isize_max → len buf < Z.of_nat fuel →
  ('(remaining, res) ← read_attributes_loop fuel buf (len buf) 0 dflt;
   if negb (remaining =? 0) then Err InvalidDataSize else Ok res) = read_attributes dflt buf.
Proof.
  intros Hm Hf. rewrite read_attributes_walk by done. rewrite <- (Z.sub_0_r (len buf)).
  pose proof (len_nonneg buf). rewrite loop_walk by lia. rewrite drop_0.
  apply walk_attributes_fuel; [done|unfold len; lia].
Qed.

Lemma list_loop_end {T} `{NfNetlinkDeserializable T} buf fuel :
  len buf ≤ isize_max → len buf < Z.of_nat fuel →
  ('(pos, acc) ← list_read_loop (T := T) fuel buf 0 [];
   if negb (pos =? len buf) then Err InvalidDataSize else Ok (MkList acc, [])) = list_read buf.
Proof.
  intros Hm Hf. pose proof (len_nonneg buf). rewrite list_read_walk by done.
  rewrite (walk_list_fuel _ fuel) by (unfold len in *; lia).
  pose proof (list_loop_walk fuel buf 0 ([] : list T)) as Hw. rewrite drop_0 in Hw.
  rewrite <- Hw by lia. destruct (list_read_loop _ _ _ _) as [[p x]| | | |]; try done. obind.
  by destruct (p =? _).
Qed.

Lemma process_loop_whole {T} max_seq (cb : option (bytes → T → outcome QueryError T)) fuel buf data :
  len buf < 2 ^ 62 → len buf < Z.of_nat fuel →
  process_loop max_seq cb fuel buf 0 (len buf) data
  = ('(d, more) ← process_buffer max_seq cb fuel buf data;
     Ok (d, if (more : bool) then Some (len buf) else None)).
Proof.
  intros Hm Hf. pose proof (len_nonneg buf). rewrite process_loop_buffer by lia.
  rewrite drop_0, Z.sub_0_r, take_ge by (unfold len; lia). done.
Qed.

Lemma process_loop_end {T} max_seq (cb : option (bytes → T → outcome QueryError T)) fuel buf data :
  len buf < 2 ^ 62 → len buf < Z.of_nat fuel →
  process_loop max_seq cb fuel buf 0 (len buf) data
  = process_loop max_seq cb (S (length buf)) buf 0 (len buf) data.
Proof.
  intros Hm Hf. rewrite !process_loop_whole by (done || unfold len; lia).
  by rewrite (process_buffer_fuel _ _ fuel (S (length buf))) by (done || unfold len; lia).
Qed.

Lemma process_loop_safe {T} max_seq (cb : option (bytes → T → outcome QueryError T)) fuel buf data :
  safe_callback cb → len buf < 2 ^ 62 → len buf < Z.of_nat fuel →
  safe (process_loop max_seq cb fuel buf 0 (len buf) data).
Proof.
  intros Hcb Hm Hf. rewrite process_loop_whole by done. apply safe_bind.
  - apply process_buffer_safe; [done|unfold isize_max; lia|done].
  - intros [d []] _; auto with netlink.
Qed.
End Fuel.

(** ** Receiving *)
Section Receiving.
Context `{BuildProfile} `{SysLaws} {T : Type}.
Context (max_seq : option Z) (cb : option (bytes → T → outcome QueryError T)).

(** If the bytes start with a message, its error code has an absolute value, and the callback
    returns on the message. *)
Definition message_returns (buf : bytes) : Prop :=
  ∀ hdr, get_nlmsghdr buf = Ok hdr →
    code_in_range buf hdr
    ∧ ∀ f t, cb = Some f → returns (f (take (Z.to_nat (nlmsg_len hdr)) buf) t).

(** A datagram on which nothing panics: a whole number of words, where this holds from every
    word on, since messages start at multiples of four. *)
Definition regular (d : bytes) : Prop :=
  len d mod 4 = 0 ∧ ∀ n, message_returns (drop (4 * n) d).

Definition regular_result (r : RecvResult) : Prop :=
  match r with RecvErr _ => True | RecvData d => regular d end.

Lemma handle_message_returns buf data :
  message_returns buf → returns (handle_message max_seq cb buf data).
Proof.
  intros Hm. unfold handle_message.
  assert (returns (parse_nlmsg buf)) as Hr by (apply parse_nlmsg_returns; intros; by apply Hm).
  destruct (parse_nlmsg buf) as [[hdr m]|e| | |] eqn:Hp; try done. cbn [map_err]. obind.
  pose proof (parse_nlmsg_header _ _ _ Hp) as Hg. destruct (Hm hdr Hg) as [_ Hcb].
  apply get_nlmsghdr_Ok in Hg as (_ & _ & Hl & _).
  destruct m; [done|..]; (apply returns_bind; [|intros d _; destruct max_seq; by destruct_ifs]).
  - done.
  - by destruct_ifs.
  - destruct cb as [f|]; [|done]. rewrite slice_suffix by lia. obind.
    rewrite Z.sub_0_r, drop_0. by apply Hcb.
Qed.

Lemma regular_drop n d : regular d → (n * 4 ≤ length d)%nat → regular (drop (4 * n) d).
Proof.
  intros [Hl Hm] Hn. split.
  - unfold len in *. rewrite length_drop. Z.div_mod_to_equations. lia.
  - intros k. rewrite drop_drop. replace (4 * n + 4 * k)%nat with (4 * (n + k))%nat by lia. apply Hm.
Qed.

Lemma process_buffer_returns fuel buf data :
  regular buf → len buf < Z.of_nat fuel → returns (process_buffer max_seq cb fuel buf data).
Proof.
  revert buf data. induction fuel as [|fuel IH]; intros buf data Hr Hf.
  { pose proof (len_nonneg buf). lia. }
  cbn [process_buffer]. destruct (len buf =? 0); [done|]. pose proof Hr as [Hl Hm].
  apply returns_bind; [apply handle_message_returns, (Hm 0%nat)|]. intros [d [n|]] Hh; [|done].
  pose proof (handle_message_next max_seq cb _ _ _ _ Hh) as Hn.
  apply handle_message_length in Hh as (hdr & Hg & Heq).
  apply get_nlmsghdr_Ok in Hg as (_ & [Hu _] & Hlen & _). unfold u32_ok in Hu.
  pose proof (pad_bounds (nlmsg_len hdr) ltac:(lia)) as Hpad.
  pose proof (pad_mod (nlmsg_len hdr) ltac:(lia)) as Hn4. rewrite <- Heq in Hpad, Hn4.
  assert (n ≤ len buf) as Hle by (Z.div_mod_to_equations; lia).
  destruct (Z.ltb_spec (len buf) n); [lia|].
  replace (Z.to_nat n) with (4 * Z.to_nat (n / 4))%nat by (Z.div_mod_to_equations; lia).
  unfold len in *. apply IH; [apply regular_drop; [done|Z.div_mod_to_equations; lia]|].
  rewrite length_drop. Z.div_mod_to_equations. lia.
Qed.

(** A datagram after which no other is waited for. *)
Definition ends_exchange (d : bytes) : Prop :=
  d ≠ [] ∧ ∀ data, match process_buffer max_seq cb (S (length d)) d data with
    | Ok (_, more) => more = false
    | Err _ => True
    | _ => False
    end.

(** The first message of the datagram decides. *)
Lemma first_message_ends b rest :
  b ≠ [] →
  (∀ data, match handle_message max_seq cb (b ++ rest) data with
     | Ok (_, next) => next = None | Err _ => True | _ => False end) →
  ends_exchange (b ++ rest).
Proof.
  intros Hb Hh. split; [by destruct b|]. intros data. cbn [process_buffer].
  destruct (Z.eqb_spec (len (b ++ rest)) 0) as [H0'|_].
  { destruct b; [done|]. cbn [app] in H0'. rewrite len_cons in H0'.
    pose proof (len_nonneg (b0 ++ rest)). lia. }
  specialize (Hh data). destruct (handle_message _ _ _ data) as [[d [n|]]| | | |]; done.
Qed.

Lemma process_end d after data :
  ends_exchange d → returns (process_datagrams max_seq cb (RecvData d :: after) data).
Proof.
  intros [Hne He]. cbn [process_datagrams]. destruct d as [|x d]; [done|].
  specialize (He data). destruct (process_buffer _ _ _ _ data) as [[d' []]| | | |]; done.
Qed.

(** Whatever came before, the loop ends when such a datagram arrives. *)
Lemma process_datagrams_ends before d after data :
  safe_callback cb → Forall datagram_fits before → ends_exchange d →
  safe (process_datagrams max_seq cb (before ++ RecvData d :: after) data).
Proof.
  intros Hcb Hs He. pose proof maxsize_bounds. revert data.
  induction Hs as [|r before Hr _ IH]; intros data.
  - apply returns_safe. by apply process_end.
  - cbn [app process_datagrams]. destruct r as [|[|x b]]; try by auto with netlink.
    cbn in Hr. apply safe_bind.
    + apply process_buffer_safe; [done|unfold isize_max; lia|unfold len; lia].
    + intros [d' []] _; [apply IH|by auto with netlink].
Qed.

(** And it returns when what came before is regular. *)
Lemma process_datagrams_returns before d after data :
  Forall regular_result before → ends_exchange d →
  returns (process_datagrams max_seq cb (before ++ RecvData d :: after) data).
Proof.
  intros Hs He. revert data. induction Hs as [|r before Hr _ IH]; intros data.
  - by apply process_end.
  - cbn [app process_datagrams]. destruct r as [|[|x b]]; try done. apply returns_bind.
    + apply process_buffer_returns; [done|unfold len; lia].
    + by intros [d' []] _.
Qed.

Lemma recv_ends before d after data :
  safe_callback cb → Forall datagram_fits (before ++ RecvData d :: after) → ends_exchange d →
  safe (recv_and_process max_seq cb (before ++ RecvData d :: after) data)
  ∧ (Forall regular_result before →
     returns (recv_and_process max_seq cb (before ++ RecvData d :: after) data)).
Proof.
  intros Hcb Hs He. rewrite recv_and_process_datagrams by done.
  apply Forall_app in Hs as [Hb _].
  split; [by apply process_datagrams_ends|intros; by apply process_datagrams_returns].
Qed.
End Receiving.

Section Endings.
Context `{BuildProfile} `{SysLaws}.

(** The acknowledgement of the last message of a batch, or of a failed one. *)
Lemma ack_ends max_seq pid a rest :
  ack_ok pid a → max_seq ≤ ack_seq a ∨ ack_code a ≠ 0 →
  ends_exchange (T := unit) (Some max_seq) None (ack_message pid a ++ rest).
Proof.
  intros Ha Hseq. apply first_message_ends.
  - intros He. pose proof (len_ack pid a) as Hl. rewrite He, len_nil in Hl.
    pose proof (len_nonneg (ack_appended a)). lia.
  - intros data. rewrite handle_ack by done.
    destruct (Z.eqb_spec (ack_code a) 0); cbn [negb]; [|done].
    destruct Hseq; [|done]. by rewrite (proj2 (Z.leb_le _ _)).
Qed.

(** The end of a dump. *)
Lemma done_ends {T} max_seq (cb : option (bytes → T → outcome QueryError T)) pid rest :
  u32_ok pid → ends_exchange max_seq cb (done_message pid ++ rest).
Proof.
  intros Hp. apply first_message_ends.
  - intros He%(f_equal len). unfold done_message in He.
    by rewrite len_app, (to_bytes_len (L := nlmsghdr_layout)) in He.
  - intros data. unfold handle_message. by rewrite parse_done.
Qed.
End Endings.
