(* ===== verification/RuleMethods.v ===== *)
(** * The rule-building methods: [src/rule_methods.rs]

    Each method appends expressions to a rule.  [IpNetwork] is a type of the crate
    [ipnetwork]: the model takes its operations as a class, and what the code relies on
    as its laws.  [iface_index] asks the operating system, whose answer is a parameter. *)

From stdpp Require Import vector.
From S2P Require Import Prelude Sys Errors Lib Nlmsg Parser ParserImpls Macros Codec Data Objects.
From S2P Require Import Table Chain Exprs ExprMod Payload Rule Sets.
Local Open Scope Z_scope.

Inductive Protocol := TCP | UDP.

(** The networks of the crate: [IpNetwork::new] and [Ipv4Network::new] (the latter wrapped
    in [IpNetwork::V4]) fail with [None]; [net_ip] is the method [ip]. *)
Class IpNetworkCrate := {
  IpNetwork : Type;
  IpNetwork_new : IpAddr → u8 → option IpNetwork;
  Ipv4Network_new : Ipv4Addr → u8 → option IpNetwork;
  is_v4 : IpNetwork → bool;
  net_ip : IpNetwork → IpAddr;
  prefix : IpNetwork → u8;
  mask : IpNetwork → IpAddr;
  network : IpNetwork → IpAddr }.

Definition ip_is_v4 (ip : IpAddr) : bool :=
  match ip with IpAddr_V4 _ => true | IpAddr_V6 _ => false end.

(** The number an address spells, and its width in bits. *)
Definition ip_value (ip : IpAddr) : Z := be_value (ip_to_vec ip).
Definition ip_width (v4 : bool) : Z := if v4 then 32 else 128.

(** What the crate documents: addresses are of the family of their network, the mask has
    the bits of the prefix, the network address is the masked address, and a network is
    made for every prefix that fits. *)
Class IpNetworkLaws (C : IpNetworkCrate) : Prop := {
  mask_family : ∀ n, ip_is_v4 (mask n) = is_v4 n;
  network_family : ∀ n, ip_is_v4 (network n) = is_v4 n;
  ip_family : ∀ n, ip_is_v4 (net_ip n) = is_v4 n;
  prefix_range : ∀ n, 0 ≤ prefix n ≤ ip_width (is_v4 n);
  mask_value : ∀ n,
    ip_value (mask n) = 2 ^ ip_width (is_v4 n) - 2 ^ (ip_width (is_v4 n) - prefix n);
  network_value : ∀ n, ip_value (network n) = Z.land (ip_value (net_ip n)) (ip_value (mask n));
  new_spec : ∀ ip p n, IpNetwork_new ip p = Some n → net_ip n = ip ∧ prefix n = p;
  new_total : ∀ ip p, 0 ≤ p → is_Some (IpNetwork_new ip p) ↔ p ≤ ip_width (ip_is_v4 ip);
  new_v4 : ∀ ip p, Ipv4Network_new ip p = IpNetwork_new (IpAddr_V4 ip) p }.

(** [[x as u8]]. *)
Definition one_byte (x : Z) : bytes := be_bytes 1 (as_u8 x).

Section Methods.
Context `{Sys}.

Definition protocol (p : Protocol) (self : Rule) : Rule :=
  self
    |> add_expr (Meta_new MetaType_L4Proto)
    |> add_expr (Cmp_new CmpOp_Eq
         (one_byte (match p with TCP => IPPROTO_TCP | UDP => IPPROTO_UDP end))).

Definition match_port (port : u16) (p : Protocol) (source : bool) (self : Rule) : Rule :=
  self
    |> protocol p
    |> add_expr (HighLevelPayload_build (HLP_Transport (match p with
         | TCP => Transport_Tcp (if source then TCP_Sport else TCP_Dport)
         | UDP => Transport_Udp (if source then UDP_Sport else UDP_Dport)
         end)))
    |> add_expr (Cmp_new CmpOp_Eq (be_bytes 2 port)).

Definition match_ip (ip : IpAddr) (source : bool) (self : Rule) : Rule :=
  let self := self |> add_expr (Meta_new MetaType_NfProto) in
  match ip with
  | IpAddr_V4 addr =>
      self
        |> add_expr (Cmp_new CmpOp_Eq (one_byte NFPROTO_IPV4))
        |> add_expr (HighLevelPayload_build (HLP_Network
             (Network_IPv4 (if source then IPv4_Saddr else IPv4_Daddr))))
        |> add_expr (Cmp_new CmpOp_Eq (data addr))
  | IpAddr_V6 addr =>
      self
        |> add_expr (Cmp_new CmpOp_Eq (one_byte NFPROTO_IPV6))
        |> add_expr (HighLevelPayload_build (HLP_Network
             (Network_IPv6 (if source then IPv6_Saddr else IPv6_Daddr))))
        |> add_expr (Cmp_new CmpOp_Eq (data addr))
  end.

Definition match_network `{IpNetworkCrate} (net : IpNetwork) (source : bool) (self : Rule)
    : outcome BuilderError Rule :=
  let self := self |> add_expr (Meta_new MetaType_NfProto) in
  self ← (if is_v4 net then
      let self := self
        |> add_expr (Cmp_new CmpOp_Eq (one_byte NFPROTO_IPV4))
        |> add_expr (HighLevelPayload_build (HLP_Network
             (Network_IPv4 (if source then IPv4_Saddr else IPv4_Daddr)))) in
      b ← Bitwise_new (ip_to_vec (mask net)) (be_bytes 4 0);
      Ok (add_expr b self)
    else
      let self := self
        |> add_expr (Cmp_new CmpOp_Eq (one_byte NFPROTO_IPV6))
        |> add_expr (HighLevelPayload_build (HLP_Network
             (Network_IPv6 (if source then IPv6_Saddr else IPv6_Daddr)))) in
      b ← Bitwise_new (ip_to_vec (mask net)) (be_bytes 16 0);
      Ok (add_expr b self));
  Ok (self |> add_expr (Cmp_new CmpOp_Eq (ip_to_vec (network net)))).

Definition icmp (self : Rule) : Rule :=
  self
    |> add_expr (Meta_new MetaType_L4Proto)
    |> add_expr (Cmp_new CmpOp_Eq (one_byte IPPROTO_ICMP)).

Definition icmpv6 (self : Rule) : Rule :=
  self
    |> add_expr (Meta_new MetaType_L4Proto)
    |> add_expr (Cmp_new CmpOp_Eq (one_byte IPPROTO_ICMPV6)).

Definition igmp (self : Rule) : Rule :=
  self
    |> add_expr (Meta_new MetaType_L4Proto)
    |> add_expr (Cmp_new CmpOp_Eq (one_byte IPPROTO_IGMP)).

Definition ip6in4 (self : Rule) : Rule :=
  self
    |> add_expr (Meta_new MetaType_NfProto)
    |> add_expr (Cmp_new CmpOp_Eq (one_byte NFPROTO_IPV4))
    |> add_expr (HighLevelPayload_build (HLP_Network (Network_IPv4 IPv4_Protocol)))
    |> add_expr (Cmp_new CmpOp_Eq (one_byte 41)).

Definition sport (port : u16) (p : Protocol) (self : Rule) : Rule := match_port port p false self.
Definition dport (port : u16) (p : Protocol) (self : Rule) : Rule := match_port port p false self.

Definition established (self : Rule) : outcome BuilderError Rule :=
  let allowed_states := ConnTrackState_ESTABLISHED in
  let self := self |> add_expr (Conntrack_new ConntrackKey_State) in
  b ← Bitwise_new (le_split 4 allowed_states) (be_bytes 4 0);
  Ok (self |> add_expr b |> add_expr (Cmp_new CmpOp_Neq (be_bytes 4 0))).

Definition iface_id (iface_index : u32) (self : Rule) : Rule :=
  self
    |> add_expr (Meta_new MetaType_Iif)
    |> add_expr (Cmp_new CmpOp_Eq (be_bytes 4 iface_index)).

Definition iface (iface_name : RString) (self : Rule) : outcome BuilderError Rule :=
  if len iface_name >=? IFNAMSIZ then Err InterfaceNameTooLong
  else Ok (self
    |> add_expr (Meta_new MetaType_IifName)
    |> add_expr (Cmp_new CmpOp_Eq (iface_name ++ [Byte.x00]))).

Definition oface_id (oface_index : u32) (self : Rule) : Rule :=
  self
    |> add_expr (Meta_new MetaType_Oif)
    |> add_expr (Cmp_new CmpOp_Eq (be_bytes 4 oface_index)).

Definition oface (oface_name : RString) (self : Rule) : outcome BuilderError Rule :=
  if len oface_name >=? IFNAMSIZ then Err InterfaceNameTooLong
  else Ok (self
    |> add_expr (Meta_new MetaType_OifName)
    |> add_expr (Cmp_new CmpOp_Eq (oface_name ++ [Byte.x00]))).

Definition saddr (ip : IpAddr) (self : Rule) : Rule := match_ip ip true self.
Definition daddr (ip : IpAddr) (self : Rule) : Rule := match_ip ip false self.
Definition snetwork `{IpNetworkCrate} (net : IpNetwork) (self : Rule) : outcome BuilderError Rule :=
  match_network net true self.
Definition dnetwork `{IpNetworkCrate} (net : IpNetwork) (self : Rule) : outcome BuilderError Rule :=
  match_network net false self.

Definition accept (self : Rule) : Rule :=
  self |> add_expr (Immediate_new_verdict VerdictKind_Accept).
(** [drop]. *)
Definition drop_packet (self : Rule) : Rule :=
  self |> add_expr (Immediate_new_verdict VerdictKind_Drop).
Definition masquerade (self : Rule) : Rule := self |> add_expr MkMasquerade.

Definition dnat (dst : IpAddr) (port : option u16) (self : Rule) : Rule :=
  let self := self |> add_expr (Immediate_new_data (ip_to_vec dst) Reg1) in
  let self := match port with
    | Some port => self |> add_expr (Immediate_new_data (be_bytes 2 port) Reg2)
    | None => self
    end in
  self |> add_expr {|
    nat_nat_type := Some DNat;
    nat_family := Some Ipv4;
    nat_ip_register := Some Reg1;
    nat_port_register := (λ _, Reg2) <$> port |}.

(** The expression that writes the maximum segment size option. *)
Definition mss_exthdr : ExtHdr :=
  ExtHdr_default
    |> exthdr_with_sreg Reg1
    |> exthdr_with_typ 2
    |> exthdr_with_offset 2
    |> exthdr_with_len 2
    |> exthdr_with_op ExtHdrOp_TCPOpt.

Definition set_mss (mss : u16) (self : Rule) : Rule :=
  self
    |> add_expr (Immediate_new_data (be_bytes 2 mss) Reg1)
    |> add_expr mss_exthdr.

Definition clamp_mss_to_pmtu (self : Rule) : Rule :=
  self
    |> add_expr (Rt_default |> rt_with_dreg Reg1 |> rt_with_key TCPMSS)
    |> add_expr (Byteorder_default
         |> byteorder_with_sreg Reg1
         |> byteorder_with_dreg Reg1
         |> byteorder_with_op HtoN
         |> byteorder_with_len 2
         |> byteorder_with_siz 2)
    |> add_expr mss_exthdr.

Definition syn (self : Rule) : outcome BuilderError Rule :=
  let self := self |> add_expr (Payload_default
    |> payload_with_base NFT_PAYLOAD_TRANSPORT_HEADER
    |> payload_with_offset 13
    |> payload_with_len 1
    |> payload_with_dreg Reg1) in
  b ← Bitwise_new (be_bytes 1 2) (be_bytes 1 0);
  Ok (self |> add_expr b |> add_expr (Cmp_new CmpOp_Neq (be_bytes 1 0))).
End Methods.

(** ** Interface lookup *)

(** The errors of [iface_index], both [std::io::Error]s: the name has a NUL byte at a
    position, or the operating system refused with an errno. *)
Inductive IoError := NulError (position : Z) | OsError (errno : Z).

(** [if_nametoindex] of the C library, on the bytes before the terminating NUL: the index
    of the interface or 0, and [errno]. *)
Class IfNames := { if_nametoindex : bytes → u32 * Z }.

Fixpoint find_nul (i : Z) (b : bytes) : option Z :=
  match b with
  | [] => None
  | x :: b => if decide (x = Byte.x00) then Some i else find_nul (i + 1) b
  end.

(** [CString::new]. *)
Definition CString_new (name : RString) : outcome IoError bytes :=
  match find_nul 0 name with
  | Some position => Err (NulError position)
  | None => Ok name
  end.

Definition iface_index `{IfNames} (name : RString) : outcome IoError u32 :=
  c_name ← CString_new name;
  match if_nametoindex c_name with
  | (index, errno) => if index =? 0 then Err (OsError errno) else Ok (index : u32)
  end.

Lemma find_nul_None i b : find_nul i b = None ↔ Byte.x00 ∉ b.
Proof.
  revert i. induction b as [|x b IH]; intros i; cbn [find_nul].
  { split; [intros _; apply not_elem_of_nil|done]. }
  rewrite not_elem_of_cons. case_decide as Hx; [split; [done|by intros []]|].
  rewrite IH. split; [done|by intros []].
Qed.

Lemma find_nul_Some i b j :
  find_nul i b = Some j → i ≤ j ∧ b !! Z.to_nat (j - i) = Some Byte.x00.
Proof.
  revert i. induction b as [|x b IH]; intros i; cbn [find_nul]; [done|]. case_decide as Hx.
  - intros [= ->]. rewrite Z.sub_diag. subst. done.
  - intros [Hi Hj]%IH. split; [lia|].
    by replace (Z.to_nat (j - i)) with (S (Z.to_nat (j - (i + 1)))) by lia.
Qed.

(** ** Networks as an address and a prefix

    An instance of the interface: a network is an address and a prefix that fits. *)
Section PrefixNetworks.

Definition ip_of_value (v4 : bool) (z : Z) : IpAddr :=
  if v4 then IpAddr_V4 (MkIpv4Addr (list_to_vec (be_bytes 4 z)))
  else IpAddr_V6 (MkIpv6Addr (list_to_vec (be_bytes 16 z))).

Definition mask_bits (v4 : bool) (p : Z) : Z := 2 ^ ip_width v4 - 2 ^ (ip_width v4 - p).

Definition prefix_ok (n : IpAddr * Z) : Prop :=
  bool_decide (0 ≤ n.2 ≤ ip_width (ip_is_v4 n.1)) = true.

Definition prefix_new (ip : IpAddr) (p : Z) : option { n | prefix_ok n } :=
  match Bool.bool_dec (bool_decide (0 ≤ p ≤ ip_width (ip_is_v4 ip))) true with
  | left H => Some (exist prefix_ok (ip, p) H)
  | right _ => None
  end.

Definition prefix_networks : IpNetworkCrate := {|
  IpNetwork := { n | prefix_ok n };
  IpNetwork_new := prefix_new;
  Ipv4Network_new ip p := prefix_new (IpAddr_V4 ip) p;
  is_v4 n := ip_is_v4 (`n).1;
  net_ip n := (`n).1;
  prefix n := (`n).2;
  mask n := ip_of_value (ip_is_v4 (`n).1) (mask_bits (ip_is_v4 (`n).1) (`n).2);
  network n := ip_of_value (ip_is_v4 (`n).1)
    (Z.land (ip_value (`n).1) (mask_bits (ip_is_v4 (`n).1) (`n).2)) |}.

Lemma ip_of_value_family v4 z : ip_is_v4 (ip_of_value v4 z) = v4.
Proof. by destruct v4. Qed.

Lemma ip_value_of v4 z : 0 ≤ z < 2 ^ ip_width v4 → ip_value (ip_of_value v4 z) = z.
Proof.
  intros Hz. unfold ip_value. destruct v4.
  - change (ip_to_vec (ip_of_value true z)) with (vec_to_list (list_to_vec (be_bytes 4 z))).
    rewrite vec_to_list_to_vec, be_value_bytes. by apply Z.mod_small.
  - change (ip_to_vec (ip_of_value false z)) with (vec_to_list (list_to_vec (be_bytes 16 z))).
    rewrite vec_to_list_to_vec, be_value_bytes. by apply Z.mod_small.
Qed.

Lemma mask_bits_range v4 p : 0 ≤ p ≤ ip_width v4 → 0 ≤ mask_bits v4 p < 2 ^ ip_width v4.
Proof.
  intros Hp. unfold mask_bits.
  assert (0 < 2 ^ (ip_width v4 - p)) by (apply Z.pow_pos_nonneg; lia).
  assert (2 ^ (ip_width v4 - p) ≤ 2 ^ ip_width v4) by (apply Z.pow_le_mono_r; lia). lia.
Qed.

Lemma land_range a b n : 0 ≤ n → 0 ≤ b < 2 ^ n → 0 ≤ Z.land a b < 2 ^ n.
Proof.
  intros Hn Hb. rewrite <- (Z.mod_small b (2 ^ n)), <- Z.land_ones, Z.land_assoc by lia.
  rewrite Z.land_ones by lia. apply Z.mod_pos_bound. lia.
Qed.

Lemma prefix_new_Some ip p n : prefix_new ip p = Some n → `n = (ip, p).
Proof. unfold prefix_new. destruct (Bool.bool_dec _ _); [by intros [= <-]|done]. Qed.

Lemma prefix_new_total ip p :
  is_Some (prefix_new ip p) ↔ 0 ≤ p ≤ ip_width (ip_is_v4 ip).
Proof.
  unfold prefix_new. destruct (Bool.bool_dec _ _) as [Hb|Hb].
  - pose proof (bool_decide_eq_true_1 _ Hb). split; [done|]. eauto.
  - apply not_true_is_false, bool_decide_eq_false_1 in Hb. split; [by intros []|done].
Qed.

Lemma prefix_networks_laws : IpNetworkLaws prefix_networks.
Proof.
  assert (∀ n : { n | prefix_ok n }, 0 ≤ (`n).2 ≤ ip_width (ip_is_v4 (`n).1)) as Hok.
  { intros [n Hn]. exact (bool_decide_eq_true_1 _ Hn). }
  split; cbn.
  - intros n. apply ip_of_value_family.
  - intros n. apply ip_of_value_family.
  - done.
  - apply Hok.
  - intros n. rewrite ip_value_of; [done|]. by apply mask_bits_range.
  - intros n. pose proof (mask_bits_range _ _ (Hok n)).
    rewrite !ip_value_of; [done|done|]. apply land_range; [by destruct ip_is_v4|done].
  - intros ip p n Hn%prefix_new_Some. by rewrite Hn.
  - intros ip p Hp. rewrite prefix_new_total. lia.
  - done.
Qed.
End PrefixNetworks.
