(* ===== verification/RuleBuild.v ===== *)
(** * Rules built with the methods can be sent and read back

    The calls that build a rule are a step relation; by induction on the calls, every
    rule that is reached from [Rule::new] without [masquerade] satisfies the conditions
    of the round-trip theorem, as long as it is small enough for one attribute. *)

From stdpp Require Import vector.
From S2P Require Import Prelude Sys Errors Lib Nlmsg Parser ParserImpls Macros Codec Data Objects.
From S2P Require Import Table Chain Exprs ExprMod Payload Rule Sets RuleMethods.
Local Open Scope Z_scope.

(** ** Expressions that can be read back, with a bound on their size *)
Definition sendable {T : Type} `{Codec T} (val : T) (n : Z) : Prop :=
  value_ok val = true ∧ 0 < get_size val ≤ n.

(** The size of the attribute of a value. *)
#[local] Abbreviation attr_size v := (4 + pad_netlink_object_with_variable_size (get_size v)).

Section Expressions.
Context `{BuildProfile} `{SysLaws}.

(** Sizes of small values, evaluated. *)
Lemma pad_4 : pad_netlink_object_with_variable_size 4 = 4.
Proof. by apply pad_aligned. Qed.
Lemma pad_1 : pad_netlink_object_with_variable_size 1 = 4.
Proof. rewrite pad_eq by lia. done. Qed.

Lemma struct_sendable {S} (fs : list (Field S)) nested dflt `{!FieldCodecs fs} ns rb s n :
  fields_ok fs s = true → fields_nonempty fs s → 0 < fields_size fs s ≤ n → n < 2 ^ 15 →
  @sendable S _ _ (struct_codec fs nested dflt (λ _, true) ns rb) s n.
Proof.
  intros Hf Hne Hs Hn. split.
  - by apply struct_ok_intro; [..|lia].
  - change (@get_size S _ s) with (struct_get_size fs s). by rewrite struct_get_size_sum.
Qed.

Lemma data_sendable v n :
  0 < len v ≤ n → n ≤ 1024 → sendable (NfNetlinkData_default |> data_with_value v) (7 + n).
Proof.
  intros Hv Hn. apply struct_sendable; [| | |lia].
  - cbn. rewrite andb_true_r. apply Z.ltb_lt. lia.
  - cbn. lia.
  - cbn. pad_facts. lia.
Qed.

(** Evaluate the size of a structure with known fields. *)
Ltac eval_size :=
  match goal with |- context [fields_size ?fs ?s] =>
    let e := eval cbn in (fields_size fs s) in change (fields_size fs s) with e end;
  rewrite ?pad_4, ?pad_1.

(** A structure with known fields: check them, then bound its size. *)
Ltac solve_sendable :=
  apply struct_sendable; [cbn; try done|cbn; try done; try lia|eval_size; try lia|try lia].

Lemma Meta_sendable ty : sendable (Meta_new ty) 16.
Proof. solve_sendable. Qed.

Lemma Conntrack_sendable key : sendable (Conntrack_new key) 16.
Proof. solve_sendable. Qed.

Lemma mss_exthdr_sendable : sendable mss_exthdr 40.
Proof. solve_sendable. Qed.

Lemma Rt_sendable key : sendable (Rt_default |> rt_with_dreg Reg1 |> rt_with_key key) 16.
Proof. solve_sendable. Qed.

Lemma Byteorder_sendable op :
  sendable (Byteorder_default |> byteorder_with_sreg Reg1 |> byteorder_with_dreg Reg1
    |> byteorder_with_op op |> byteorder_with_len 2 |> byteorder_with_siz 2) 40.
Proof. solve_sendable. Qed.

Lemma Nat_sendable ty family ip port :
  sendable {| nat_nat_type := Some ty; nat_family := Some family; nat_ip_register := Some ip;
              nat_port_register := port |} 32.
Proof. destruct port; solve_sendable. Qed.

Lemma u32_small z : u32_ok z → value_ok (z : u32) = true.
Proof. unfold u32_ok. intros. apply andb_true_iff. split; [apply Z.leb_le|apply Z.ltb_lt]; lia. Qed.

Lemma Log_group_sendable group :
  u16_ok group → sendable (Log_default |> log_with_group group) 8.
Proof.
  unfold u16_ok. intros Hg. solve_sendable.
  - rewrite andb_true_r. apply andb_true_iff. split; [apply Z.leb_le|apply Z.ltb_lt]; lia.
  - rewrite pad_eq by lia. change (4 * ((2 + 3) / 4)) with 4. lia.
Qed.

Lemma Log_prefix_sendable (prefix : RString) :
  value_ok prefix = true → 0 < len prefix ≤ 127 →
  sendable (Log_default |> log_with_prefix prefix) 134.
Proof.
  intros Hp Hl. apply struct_sendable; [| | |lia].
  - change (value_ok prefix && true = true). by rewrite Hp.
  - repeat split. apply Hl.
  - change (fields_size _ _) with (attr_size prefix + 0). change (get_size prefix) with (len prefix).
    pad_facts. lia.
Qed.

Lemma Payload_sendable base offset len :
  u32_ok base → u32_ok offset → u32_ok len →
  sendable (Payload_default |> payload_with_base base |> payload_with_offset offset
    |> payload_with_len len |> payload_with_dreg Reg1) 32.
Proof.
  intros Hb Ho Hl. solve_sendable. change (value_ok (base : u32) && (value_ok (offset : u32) && (value_ok (len : u32) && true)) = true).
  by rewrite !u32_small.
Qed.

Lemma built_sendable h : sendable (HighLevelPayload_build h) 32.
Proof.
  destruct payload_bases as (_ & _ & _ & Hok). rewrite !list.Forall_cons in Hok.
  destruct Hok as (? & ? & ? & _).
  destruct h as [f|[f|f]|[f|f|f]]; apply Payload_sendable; try done; by destruct f.
Qed.

(** A byte string of at most 16 bytes as the data of an expression. *)
Lemma small_data v :
  0 < len v ≤ 16 → sendable (NfNetlinkData_default |> data_with_value v) 23.
Proof. intros. by apply (data_sendable v 16). Qed.

Lemma Cmp_sendable op v : 0 < len v ≤ 16 → sendable (Cmp_new op v) 46.
Proof.
  intros Hv. destruct (small_data v Hv) as [Hok Hs]. set (d := data_with_value v _) in *.
  apply struct_sendable; [| | |lia].
  - change (value_ok d && true = true). by rewrite Hok.
  - repeat split; done || apply (proj1 Hs).
  - change (fields_size _ _)
      with (attr_size Reg1 + (attr_size op + (attr_size d + 0))).
    change (get_size Reg1) with 4. change (get_size op) with 4. rewrite pad_4. pad_facts. lia.
Qed.

Lemma Immediate_data_sendable v reg : 0 < len v ≤ 16 → sendable (Immediate_new_data v reg) 38.
Proof.
  intros Hv. destruct (small_data v Hv) as [Hok Hs]. set (d := data_with_value v _) in *.
  apply struct_sendable; [| | |lia].
  - change (value_ok d && true = true). by rewrite Hok.
  - repeat split; done || apply (proj1 Hs).
  - change (fields_size _ _) with (attr_size reg + (attr_size d + 0)).
    change (get_size reg) with 4. rewrite pad_4. pad_facts. lia.
Qed.

Lemma Bitwise_sendable mask xor :
  len mask = len xor → 0 < len mask ≤ 16 →
  ∃ b, Bitwise_new mask xor = Ok b ∧ sendable b 84.
Proof.
  intros Heq Hm. unfold Bitwise_new. rewrite Heq, Z.eqb_refl. cbn [negb].
  eexists. split; [done|]. rewrite <- Heq.
  destruct (small_data mask Hm) as [Hok1 Hs1]. assert (0 < len xor ≤ 16) as Hx by lia.
  destruct (small_data xor Hx) as [Hok2 Hs2].
  set (m := data_with_value mask _) in *. set (x := data_with_value xor _) in *.
  apply struct_sendable; [| | |lia].
  - change (value_ok (as_u32 (len mask) : u32) && (value_ok m && (value_ok x && true)) = true).
    rewrite Hok1, Hok2, u32_small; [done|]. apply as_u32_ok.
  - repeat split; done || apply (proj1 Hs1) || apply (proj1 Hs2).
  - change (fields_size _ _) with (attr_size Reg1 + (attr_size Reg1
      + (attr_size (as_u32 (len mask) : u32) + (attr_size m + (attr_size x + 0))))).
    change (get_size Reg1) with 4. change (get_size (as_u32 (len mask) : u32)) with 4.
    rewrite pad_4. pad_facts. lia.
Qed.

(** A verdict without a chain. *)
Lemma code_sendable code : sendable (Verdict_default |> verdict_with_code code) 8.
Proof.
  set (v := verdict_with_code code _).
  assert (absent_ok Verdict_fields v = true) as Ha.
  { unfold absent_ok, Verdict_fields. cbn [forallb].
    rewrite !accepted_required by done. cbn [orb andb get_field mk_field v verdict_with_code].
    by rewrite orb_true_r. }
  assert (fields_size Verdict_fields v = 8) as Hs.
  { change (fields_size _ _) with (4 + pad_netlink_object_with_variable_size 4 + 0).
    by rewrite pad_4. }
  split.
  - apply struct_ok_intro; [done|done|by apply accept_nonempty|].
    rewrite accept_size by done. lia.
  - change (get_size v) with (struct_get_size (accept_fields Verdict_fields) v).
    rewrite struct_get_size_sum, accept_size by done. lia.
Qed.

Lemma verdict_sendable kind :
  kind = VerdictKind_Accept ∨ kind = VerdictKind_Drop →
  sendable (Immediate_new_verdict kind) 30.
Proof.
  intros Hk. destruct (code_sendable (verdict_code_of kind)) as [Hok Hs].
  set (v := verdict_with_code _ _) in *.
  assert (Immediate_new_verdict kind = (Immediate_default |> immediate_with_dreg RegVerdict
    |> immediate_with_data (NfNetlinkData_default |> data_with_verdict v))) as ->
    by (by destruct Hk as [-> | ->]).
  assert (sendable (NfNetlinkData_default |> data_with_verdict v) 15) as [Hok' Hs'].
  { apply struct_sendable; [| | |lia].
    - change (value_ok v && true = true). by rewrite Hok.
    - repeat split; done || apply (proj1 Hs).
    - change (fields_size _ _) with (attr_size v + 0). pad_facts. lia. }
  set (d := data_with_verdict v _) in *. apply struct_sendable; [| | |lia].
  - change (value_ok d && true = true). by rewrite Hok'.
  - repeat split; done || apply (proj1 Hs').
  - change (fields_size _ _) with (attr_size RegVerdict + (attr_size d + 0)).
    change (get_size RegVerdict) with 4. rewrite pad_4. pad_facts. lia.
Qed.

(** ** Expressions inside a rule *)

(** What [create_expr_variant!] makes of a type it lists. *)
Class KnownExpression (T : Type) `{Codec T} `{Expression T} `{IntoVariant T} : Prop := {
  variant_ok_into (v : T) : variant_ok (into_variant v) = value_ok v;
  variant_size_into (v : T) : get_size (into_variant v) = get_size v;
  name_matches_into (v : T) : name_matches (expr_name (T := T)) (into_variant v) = true;
  name_ok : value_ok (expr_name (T := T)) = true ∧ 0 < len (expr_name (T := T)) ≤ 9 }.

#[global] Instance Bitwise_known : KnownExpression Bitwise.
Proof. by repeat split. Qed.
#[global] Instance Byteorder_known : KnownExpression Byteorder.
Proof. by repeat split. Qed.
#[global] Instance Cmp_known : KnownExpression Cmp.
Proof. by repeat split. Qed.
#[global] Instance Conntrack_known : KnownExpression Conntrack.
Proof. by repeat split. Qed.
#[global] Instance Counter_known : KnownExpression Counter.
Proof. by repeat split. Qed.
#[global] Instance ExtHdr_known : KnownExpression ExtHdr.
Proof. by repeat split. Qed.
#[global] Instance Immediate_known : KnownExpression Immediate.
Proof. by repeat split. Qed.
#[global] Instance Log_known : KnownExpression Log.
Proof. by repeat split. Qed.
#[global] Instance Lookup_known : KnownExpression Lookup.
Proof. by repeat split. Qed.
#[global] Instance Masquerade_known : KnownExpression Masquerade.
Proof. by repeat split. Qed.
#[global] Instance Meta_known : KnownExpression Meta.
Proof. by repeat split. Qed.
#[global] Instance Nat_known : KnownExpression Nat.
Proof. by repeat split. Qed.
#[global] Instance Payload_known : KnownExpression Payload.
Proof. by repeat split. Qed.
#[global] Instance Reject_known : KnownExpression Reject.
Proof. by repeat split. Qed.
#[global] Instance Rt_known : KnownExpression Rt.
Proof. by repeat split. Qed.

Lemma raw_sendable {T} `{KnownExpression T} (val : T) n :
  sendable val n → n ≤ 65505 → sendable (RawExpression_from val) (n + 26).
Proof.
  intros [Hok Hs] Hn. destruct name_ok as [Hname Hl].
  set (e := RawExpression_from val).
  assert (get_size e = 4 + pad_netlink_object_with_variable_size (len (expr_name (T := T)))
    + (4 + pad_netlink_object_with_variable_size (get_size val) + 0)) as Hsize.
  { change (get_size e) with (struct_get_size RawExpression_fields e).
    rewrite struct_get_size_sum, <- variant_size_into. done. }
  pad_facts. split; [|lia].
  change (value_ok e) with (RawExpression_ok e). unfold RawExpression_ok.
  cbn [e RawExpression_from raw_with_name raw_with_data raw_name raw_data].
  rewrite Hname, variant_ok_into, Hok, name_matches_into, variant_size_into. fold e.
  cbn [andb]. apply andb_true_iff. split; apply Z.ltb_lt; lia.
Qed.

(** An expression without data: its last attribute is empty. *)
Lemma raw_empty_refused {T} `{KnownExpression T} (val : T) :
  value_ok val = true → get_size val = 0 →
  deserialize (A := RawExpression) (encode (RawExpression_from val)) = Err InvalidDataSize.
Proof.
  intros Hv Hs. destruct name_ok as [Hname Hl].
  assert (writable (into_variant val) ∧ 4 + get_size (into_variant val) < 2 ^ 16) as Hw
    by (apply variant_writable; by rewrite variant_ok_into).
  assert (encode (into_variant val) = []) as He.
  { destruct Hw as [(_ & Hlen & _) _]. rewrite variant_size_into, Hs in Hlen.
    by apply len_0_nil. }
  cbn [deserialize RawExpression_deserializable struct_deserializable].
  unfold struct_deserialize, RawExpression_attribute.
  rewrite (read_attributes_encode RawExpression_fields (RawExpression_from val) true
    RawExpression_default (Err InvalidDataSize)); [done|exact ns_expr| | |].
  - constructor; [|constructor; [|constructor]]; intros v [= <-]; [|done].
    split; [by apply codec_writable|by apply codec_size].
  - rewrite struct_get_size_sum.
    change (fields_size _ _) with (4 + pad_netlink_object_with_variable_size (len (expr_name (T := T)))
      + (4 + pad_netlink_object_with_variable_size (get_size (into_variant val)) + 0)).
    rewrite variant_size_into, Hs. pad_facts. unfold isize_max. lia.
  - cbn [struct_attrs RawExpression_fields get_field mk_field RawExpression_from raw_with_name
      raw_with_data raw_name raw_data netlink_type].
    rewrite read_back_cons by (by right). cbn [value_attr at_type at_payload].
    rewrite decode_name by done. obind. cbn [read_back].
    change (at_payload (value_attr NFTA_EXPR_DATA (into_variant val))) with (encode (into_variant val)).
    by rewrite He.
Qed.
End Expressions.

(** ** The calls that build a rule *)
Definition exprs (r : Rule) : list RawExpression :=
  objs (default NfNetlinkList_default (rule_expressions r)).

(** One call of a method, [masquerade] excepted. *)
Inductive method_step `{Sys} `{IpNetworkCrate} (r : Rule) : Rule → Prop :=
  | step_protocol p : method_step r (protocol p r)
  | step_icmp : method_step r (icmp r)
  | step_icmpv6 : method_step r (icmpv6 r)
  | step_igmp : method_step r (igmp r)
  | step_ip6in4 : method_step r (ip6in4 r)
  | step_sport port p : method_step r (sport port p r)
  | step_dport port p : method_step r (dport port p r)
  | step_established r' : established r = Ok r' → method_step r r'
  | step_iface_id i : method_step r (iface_id i r)
  | step_iface name r' : iface name r = Ok r' → method_step r r'
  | step_oface_id i : method_step r (oface_id i r)
  | step_oface name r' : oface name r = Ok r' → method_step r r'
  | step_saddr ip : method_step r (saddr ip r)
  | step_daddr ip : method_step r (daddr ip r)
  | step_snetwork net r' : snetwork net r = Ok r' → method_step r r'
  | step_dnetwork net r' : dnetwork net r = Ok r' → method_step r r'
  | step_accept : method_step r (accept r)
  | step_drop : method_step r (drop_packet r)
  | step_dnat dst port : method_step r (dnat dst port r)
  | step_set_mss mss : method_step r (set_mss mss r)
  | step_clamp : method_step r (clamp_mss_to_pmtu r)
  | step_syn r' : syn r = Ok r' → method_step r r'.

Inductive built `{Sys} `{IpNetworkCrate} (base : Rule) : nat → Rule → Prop :=
  | built_base : built base 0 base
  | built_step n r r' : built base n r → method_step r r' → built base (S n) r'.

Section Steps.
Context `{BuildProfile} `{SysLaws} `{IpNetworkLaws}.

(** The rule [r'] is [r] with more expressions, of at most [n] bytes, that can be read back. *)
Definition extends (n : Z) (r r' : Rule) : Prop :=
  ∃ l, l ≠ [] ∧ Forall (λ e, value_ok e = true ∧ 0 < get_size e) l ∧ items_size l ≤ n
    ∧ r' = rule_with_expressions (MkList (exprs r ++ l)) r.

Lemma items_size_app (l k : list RawExpression) : items_size (l ++ k) = items_size l + items_size k.
Proof.
  induction l as [|e l IH]; [done|].
  change (4 + get_size e + items_size (l ++ k) = 4 + get_size e + items_size l + items_size k). lia.
Qed.

Lemma extends_trans n m r1 r2 r3 : extends n r1 r2 → extends m r2 r3 → extends (n + m) r1 r3.
Proof.
  intros (l & Hl & Hok & Hs & ->) (k & Hk & Hok' & Hs' & ->). exists (l ++ k). split_and!.
  - by destruct l.
  - by apply Forall_app.
  - rewrite items_size_app. lia.
  - destruct r1. cbn. by rewrite <- app_assoc.
Qed.

Lemma extends_add {T} `{NfNetlinkAttribute T, NfNetlinkDeserializable T, !Codec T}
    `{Expression T, IntoVariant T, !KnownExpression T} (val : T) n r :
  sendable val n → n ≤ 1024 → extends (n + 30) r (add_expr val r).
Proof.
  intros Hv Hn. destruct (raw_sendable val n Hv ltac:(lia)) as [Hok Hs].
  exists [RawExpression_from val]. split_and!; [done| | |by destruct r].
  2: { change (4 + get_size (RawExpression_from val) + 0 ≤ n + 30). lia. }
  constructor; [|constructor]. split; [done|lia].
Qed.

Lemma extends_le n m r r' : extends n r r' → n ≤ m → extends m r r'.
Proof. intros (l & ? & ? & ? & ?) ?. exists l. split_and!; auto with lia. Qed.

Lemma len_be n z : 0 < Z.of_nat n ≤ 16 → 0 < len (be_bytes n z) ≤ 16.
Proof. by rewrite len_be_bytes. Qed.

Lemma len_one x : 0 < len (one_byte x) ≤ 16.
Proof. by apply len_be. Qed.

Lemma len_vec {n} (v : vec byte n) : len (vec_to_list v) = Z.of_nat n.
Proof. unfold len. by rewrite length_vec_to_list. Qed.

Lemma len_ip ip : len (ip_to_vec ip) = if ip_is_v4 ip then 4 else 16.
Proof. destruct ip; cbn; by rewrite len_vec. Qed.

Lemma len_ip_small ip : 0 < len (ip_to_vec ip) ≤ 16.
Proof. rewrite len_ip. by destruct ip_is_v4. Qed.

(** One more expression at the end of a method. *)
Lemma extends_then {T} `{NfNetlinkAttribute T, NfNetlinkDeserializable T, !Codec T}
    `{Expression T, IntoVariant T, !KnownExpression T} (val : T) n m k r r' :
  extends m r r' → sendable val n → n ≤ 1024 → m + n + 30 ≤ k → extends k r (add_expr val r').
Proof.
  intros Hr Hv Hn Hk. apply (extends_le (m + (n + 30))); [|lia].
  eapply extends_trans; [done|by apply extends_add].
Qed.

(** Meta data compared with at most 16 bytes. *)
Lemma extends_meta_cmp ty op v r :
  0 < len v ≤ 16 → extends 130 r (r |> add_expr (Meta_new ty) |> add_expr (Cmp_new op v)).
Proof.
  intros Hv. eapply extends_then; [eapply extends_add; [apply Meta_sendable|lia]
    |by apply Cmp_sendable|lia|lia].
Qed.

(** A part of the packet compared with at most 16 bytes. *)
Lemma extends_payload_cmp h op v n k r r' :
  extends n r r' → 0 < len v ≤ 16 → n + 138 ≤ k →
  extends k r (r' |> add_expr (HighLevelPayload_build h) |> add_expr (Cmp_new op v)).
Proof.
  intros Hr Hv Hk. eapply extends_then; [eapply extends_then; [done|apply built_sendable|lia|]
    |by apply Cmp_sendable|lia|]; [done|lia].
Qed.

Lemma protocol_extends p r : extends 130 r (protocol p r).
Proof. apply extends_meta_cmp, len_one. Qed.

Lemma match_port_extends port p source r : extends 420 r (match_port port p source r).
Proof.
  eapply extends_payload_cmp; [apply protocol_extends|by apply len_be|lia].
Qed.

Lemma match_ip_extends ip source r : extends 420 r (match_ip ip source r).
Proof.
  pose proof (len_ip_small ip) as Hl. destruct ip;
    (eapply extends_payload_cmp; [apply extends_meta_cmp, len_one|done|lia]).
Qed.

Lemma match_network_extends net source r :
  ∃ r', match_network net source r = Ok r' ∧ extends 420 r r'.
Proof.
  pose proof (len_ip_small (mask net)) as Hm.
  pose proof (len_ip (mask net)) as Hlm. rewrite mask_family in Hlm.
  pose proof (len_ip_small (network net)) as Hn. unfold match_network.
  destruct (is_v4 net).
  - destruct (Bitwise_sendable (ip_to_vec (mask net)) (be_bytes 4 0)) as (b & -> & Hb);
      [by rewrite Hlm|done|]. obind. eexists. split; [done|].
    eapply extends_then; [eapply extends_then; [eapply extends_then;
      [apply extends_meta_cmp, len_one|apply built_sendable|lia|done]|done|lia|done]
      |by apply Cmp_sendable|lia|lia].
  - destruct (Bitwise_sendable (ip_to_vec (mask net)) (be_bytes 16 0)) as (b & -> & Hb);
      [by rewrite Hlm|done|]. obind. eexists. split; [done|].
    eapply extends_then; [eapply extends_then; [eapply extends_then;
      [apply extends_meta_cmp, len_one|apply built_sendable|lia|done]|done|lia|done]
      |by apply Cmp_sendable|lia|lia].
Qed.

Lemma established_extends r : ∃ r', established r = Ok r' ∧ extends 420 r r'.
Proof.
  unfold established.
  destruct (Bitwise_sendable (le_split 4 ConnTrackState_ESTABLISHED) (be_bytes 4 0))
    as (b & -> & Hb); [done..|]. obind. eexists. split; [done|].
  eapply extends_then; [eapply extends_then; [eapply extends_add; [apply Conntrack_sendable|lia]
    |done|lia|done]|by apply Cmp_sendable, len_be|lia|lia].
Qed.

Lemma syn_extends r : ∃ r', syn r = Ok r' ∧ extends 420 r r'.
Proof.
  destruct payload_bases as (_ & _ & _ & Hok). rewrite !list.Forall_cons in Hok.
  destruct Hok as (_ & _ & Ht & _). unfold syn.
  destruct (Bitwise_sendable (be_bytes 1 2) (be_bytes 1 0)) as (b & -> & Hb); [done..|].
  obind. eexists. split; [done|].
  eapply extends_then; [eapply extends_then; [eapply extends_add; [by apply Payload_sendable|lia]
    |done|lia|done]|by apply Cmp_sendable, len_be|lia|lia].
Qed.

Lemma name_bytes (name : RString) :
  len name < IFNAMSIZ → 0 < len (name ++ [Byte.x00]) ≤ 16.
Proof.
  rewrite ifnamsiz_16, len_app. pose proof (len_nonneg name). change (len [Byte.x00]) with 1. lia.
Qed.

Lemma dnat_extends dst port r : extends 420 r (dnat dst port r).
Proof.
  pose proof (len_ip_small dst) as Hd. unfold dnat. destruct port as [port|].
  - eapply extends_then; [eapply extends_then; [eapply extends_add;
      [by apply Immediate_data_sendable|lia]|by apply Immediate_data_sendable, len_be|lia|done]
      |apply Nat_sendable|lia|lia].
  - eapply extends_then; [eapply extends_add; [by apply Immediate_data_sendable|lia]
      |apply Nat_sendable|lia|lia].
Qed.

(** Every call adds at most 420 bytes of expressions that can be read back. *)
Lemma step_extends r r' : method_step r r' → extends 420 r r'.
Proof.
  assert (∀ r r', extends 130 r r' → extends 420 r r') as Hle
    by (intros; eapply extends_le; [done|lia]).
  destruct 1 as [p| | | | |port p|port p|r' Hr|i|name r' Hr|i|name r' Hr|ip|ip|net r' Hr
    |net r' Hr| | |dst port|mss| |r' Hr].
  - apply Hle, protocol_extends.
  - apply Hle, extends_meta_cmp, len_one.
  - apply Hle, extends_meta_cmp, len_one.
  - apply Hle, extends_meta_cmp, len_one.
  - eapply extends_payload_cmp; [apply extends_meta_cmp, len_one|apply len_one|lia].
  - apply match_port_extends.
  - apply match_port_extends.
  - destruct (established_extends r) as (? & He & ?). rewrite Hr in He.
    by injection He as ->.
  - by apply Hle, extends_meta_cmp, len_be.
  - unfold iface in Hr. destruct (_ >=? _) eqn:Hl; [done|]. injection Hr as <-.
    apply Hle, extends_meta_cmp, name_bytes. lia.
  - by apply Hle, extends_meta_cmp, len_be.
  - unfold oface in Hr. destruct (_ >=? _) eqn:Hl; [done|]. injection Hr as <-.
    apply Hle, extends_meta_cmp, name_bytes. lia.
  - apply match_ip_extends.
  - apply match_ip_extends.
  - destruct (match_network_extends net true r) as (? & He & ?).
    unfold snetwork in Hr. rewrite Hr in He. by injection He as ->.
  - destruct (match_network_extends net false r) as (? & He & ?).
    unfold dnetwork in Hr. rewrite Hr in He. by injection He as ->.
  - eapply extends_le; [apply extends_add; [apply verdict_sendable; auto|lia]|lia].
  - eapply extends_le; [apply extends_add; [apply verdict_sendable; auto|lia]|lia].
  - apply dnat_extends.
  - eapply extends_then; [apply extends_add; [by apply Immediate_data_sendable, len_be|lia]
      |apply mss_exthdr_sendable|lia|lia].
  - eapply extends_then; [eapply extends_then; [apply extends_add; [apply Rt_sendable|lia]
      |apply Byteorder_sendable|lia|done]|apply mss_exthdr_sendable|lia|lia].
  - destruct (syn_extends r) as (? & He & ?). rewrite Hr in He.
    by injection He as ->.
Qed.

Lemma built_extends base n r :
  built base n r → r = base ∧ n = 0%nat ∨ extends (420 * Z.of_nat n) base r.
Proof.
  induction 1 as [|n r r' _ IH Hstep]; [by left|right]. apply step_extends in Hstep.
  destruct IH as [[-> ->]|IH].
  - eapply extends_le; [done|lia].
  - eapply extends_le; [by eapply extends_trans|lia].
Qed.

(** A name that can be read back as the last attribute. *)
Definition sendable_name (s : RString) : bool := value_ok s && (0 <? len s).

(** A rule with a table, a chain and expressions that can be read back. *)
Lemma rule_object_readable family table chain (l : list RawExpression) :
  sendable_name table = true → sendable_name chain = true →
  Forall (λ e, value_ok e = true ∧ 0 < get_size e) l → l ≠ [] → items_size l ≤ 65528 →
  object_readable (Rule_default |> rule_with_family family |> rule_with_table table
    |> rule_with_chain chain |> rule_with_expressions (MkList l)) = true.
Proof.
  unfold sendable_name. intros [Ht ?%Z.ltb_lt]%andb_true_iff [Hc ?%Z.ltb_lt]%andb_true_iff Hl Hne Hs.
  pose proof (codec_size table Ht) as Hts. pose proof (codec_size chain Hc) as Hcs.
  assert (value_ok (MkList l : ExpressionList) = true) as Hlist.
  { change (list_ok (MkList l) = true). unfold list_ok. rewrite list_get_size_sum.
    cbn [objs]. apply andb_true_iff. split; [apply andb_true_iff; split|apply Z.ltb_lt; lia].
    - apply forallb_forall. intros e He%list_elem_of_In. rewrite list.Forall_forall in Hl.
      by destruct (Hl e He).
    - unfold last_nonemptyb. destruct (reverse l) as [|e k] eqn:Hr; [done|].
      apply Z.ltb_lt. rewrite list.Forall_forall in Hl. apply Hl.
      apply elem_of_reverse. rewrite Hr. left. }
  assert (0 < get_size (MkList l : ExpressionList) < 2 ^ 16) as Hlsize.
  { change (0 < list_get_size (MkList l) < 2 ^ 16). rewrite list_get_size_sum.
    destruct Hl as [|e k [_ He] Hk]; [done|].
    assert (0 ≤ items_size k).
    { clear -Hk. induction Hk as [|? ? [_ ?] _ IH]; [done|]. cbn [items_size foldr].
      fold (items_size l). lia. }
    change (items_size (e :: k)) with (4 + get_size e + items_size k) in *. lia. }
  apply struct_object_readable_intro.
  - done.
  - change (value_ok table && (value_ok chain && (value_ok (MkList l : ExpressionList) && true))
      = true). by rewrite Ht, Hc, Hlist.
  - repeat split; done || apply (proj1 Hlsize).
  - change (fields_size _ _) with (attr_size table + (attr_size chain
      + (attr_size (MkList l : ExpressionList) + 0))).
    change (get_size table) with (len table) in *. change (get_size chain) with (len chain) in *.
    pad_facts. lia.
Qed.

Lemma Rule_new_Ok chain r :
  Rule_new chain = Ok r →
  ∃ table name, chain_table chain = Some table ∧ chain_name chain = Some name
    ∧ r = (Rule_default |> rule_with_family (chain_family chain) |> rule_with_table table
           |> rule_with_chain name).
Proof.
  unfold Rule_new. destruct (chain_table chain) as [table|], (chain_name chain) as [name|];
    try done. cbn. intros [= <-]. eauto.
Qed.

(** Rules built from a chain with names that can be read back. *)
Lemma built_object_readable chain base n r :
  option_ok sendable_name (chain_table chain) = true →
  option_ok sendable_name (chain_name chain) = true →
  Rule_new chain = Ok base → built base n r → (0 < n ≤ 150)%nat → object_readable r = true.
Proof.
  intros Ht Hc (table & name & Ht' & Hc' & ->)%Rule_new_Ok Hb Hn. rewrite Ht', Hc' in *.
  apply built_extends in Hb as [[_ ->]|(l & Hne & Hl & Hs & ->)]; [lia|].
  apply rule_object_readable; [done..|]. change (items_size l ≤ 65528). lia.
Qed.
End Steps.
