(* ===== verification/RuleSend.v ===== *)
(** * Rules that can be sent

    A rule with any expressions the crate can write can be sent, even one that is not
    read back: [masquerade] and [Counter::default()] are written as an empty attribute.
    The relation [assembled] adds to the methods of [RuleBuild.v] the addition of any
    such expression ([with_expr], [add_expr]). *)

From S2P Require Import Prelude Sys Errors Lib Nlmsg Parser ParserImpls Macros Codec Data Objects.
From S2P Require Import Table Chain Exprs ExprMod Payload Rule Sets RuleMethods RuleBuild.
Local Open Scope Z_scope.

Section Send.
Context `{BuildProfile} `{SysLaws} `{IpNetworkLaws}.

(** The rule [r'] is [r] with more expressions, of at most [n] bytes, that are written in
    whole words. *)
Definition appends (n : Z) (r r' : Rule) : Prop :=
  ∃ l, Forall aligned l ∧ items_size l ≤ n
    ∧ r' = rule_with_expressions (MkList (exprs r ++ l)) r.

Lemma extends_appends n r r' : extends n r r' → appends n r r'.
Proof.
  intros (l & _ & Hl & Hs & ->). exists l. split_and!; [|done..].
  eapply Forall_impl; [|exact Hl]. intros e [He _]. pose proof (codec_size e He).
  split_and!; [by apply codec_writable|by apply codec_aligned|lia].
Qed.

Lemma appends_trans n m r1 r2 r3 : appends n r1 r2 → appends m r2 r3 → appends (n + m) r1 r3.
Proof.
  intros (l & Hok & Hs & ->) (k & Hok' & Hs' & ->). exists (l ++ k). split_and!.
  - by apply Forall_app.
  - rewrite items_size_app. lia.
  - destruct r1. cbn. by rewrite <- app_assoc.
Qed.

Lemma appends_le n m r r' : appends n r r' → n ≤ m → appends m r r'.
Proof. intros (l & ? & ? & ?) ?. exists l. split_and!; auto with lia. Qed.

(** An expression without data is sent too. *)
Lemma raw_sent {T} `{KnownExpression T} (val : T) n :
  value_ok val = true → get_size val ≤ n → n ≤ 1024 →
  aligned (RawExpression_from val) ∧ get_size (RawExpression_from val) ≤ n + 26.
Proof.
  intros Hok Hs Hn. destruct name_ok as [Hname Hl]. set (e := RawExpression_from val).
  assert (get_size e = 4 + pad_netlink_object_with_variable_size (len (expr_name (T := T)))
    + (4 + pad_netlink_object_with_variable_size (get_size val) + 0)) as Hsize.
  { change (get_size e) with (struct_get_size RawExpression_fields e).
    rewrite struct_get_size_sum, <- variant_size_into. done. }
  pose proof (codec_writable val Hok) as (Hpos & _). pad_facts.
  assert (Forall (field_fits e) RawExpression_fields) as Hf.
  { constructor; [|constructor; [|constructor]]; intros v [= <-].
    - split; [by apply codec_writable|by apply codec_size].
    - apply variant_writable. by rewrite variant_ok_into. }
  destruct (struct_writable RawExpression_fields e true (fits_writables _ _ Hf)) as (Hw & _ & Hm).
  split; [|lia]. split_and!; [done|done|lia].
Qed.

Lemma appends_add {T} `{NfNetlinkAttribute T, NfNetlinkDeserializable T, !Codec T}
    `{Expression T, IntoVariant T, !KnownExpression T} (val : T) n r :
  value_ok val = true → get_size val ≤ n → n ≤ 1024 → appends (n + 30) r (add_expr val r).
Proof.
  intros Hv Hs Hn. destruct (raw_sent val n Hv Hs Hn) as [Ha Hr].
  exists [RawExpression_from val]. split_and!; [constructor; [done|constructor]| |by destruct r].
  change (4 + get_size (RawExpression_from val) + 0 ≤ n + 30). lia.
Qed.

(** The calls that assemble a rule. *)
Inductive assembled (base : Rule) : nat → Rule → Prop :=
  | assembled_base : assembled base 0 base
  | assembled_method n r r' : assembled base n r → method_step r r' → assembled base (S n) r'
  | assembled_expr n r T `{NfNetlinkAttribute T, NfNetlinkDeserializable T, !Codec T}
      `{Expression T, IntoVariant T, !KnownExpression T} (e : T) :
      assembled base n r → value_ok e = true → get_size e ≤ 390 →
      assembled base (S n) (add_expr e r).

Lemma assembled_appends base n r :
  assembled base n r → r = base ∧ n = 0%nat ∨ appends (420 * Z.of_nat n) base r.
Proof.
  induction 1 as [|n r r' _ IH Hstep|n r T ?????? e _ IH He Hs]; [by left|right..].
  - apply step_extends, extends_appends in Hstep. destruct IH as [[-> ->]|IH].
    + eapply appends_le; [done|lia].
    + eapply appends_le; [by eapply appends_trans|lia].
  - pose proof (appends_add e 390 r He Hs ltac:(lia)) as Hstep. destruct IH as [[-> ->]|IH].
    + eapply appends_le; [done|lia].
    + eapply appends_le; [by eapply appends_trans|lia].
Qed.

Lemma masquerade_assembled base n r : assembled base n r → assembled base (S n) (masquerade r).
Proof. intros Hr. by apply (assembled_expr base n r Masquerade MkMasquerade). Qed.

(** A rule with a table, a chain and expressions that are written. *)
Lemma rule_sendable family table chain (l : list RawExpression) :
  sendable_name table = true → sendable_name chain = true →
  Forall aligned l → items_size l < 2 ^ 16 →
  object_sendable (Rule_default |> rule_with_family family |> rule_with_table table
    |> rule_with_chain chain |> rule_with_expressions (MkList l)).
Proof.
  unfold sendable_name. intros [Ht _]%andb_true_iff [Hc _]%andb_true_iff Hl Hs.
  set (r := rule_with_expressions _ _).
  pose proof (codec_size table Ht) as Hts. pose proof (codec_size chain Hc) as Hcs.
  change (get_size table) with (len table) in Hts. change (get_size chain) with (len chain) in Hcs.
  pose proof (items_size_nonneg l Hl) as Hpos.
  assert (Forall (field_writable r) Rule_fields) as Hw.
  { repeat apply List.Forall_cons; [..|apply List.Forall_nil]; intros v Hv; cbn in Hv;
      try done; injection Hv as <-.
    - split; [by apply codec_writable|]. change (len table < 2 ^ 62). lia.
    - split; [by apply codec_writable|]. change (len chain < 2 ^ 62). lia.
    - split; [by apply list_writable|]. change (list_get_size (MkList l) < 2 ^ 62).
      rewrite list_get_size_sum. lia. }
  destruct (struct_writable Rule_fields r false Hw) as (Hwr & _ & Hm).
  assert (get_size r = (4 + pad_netlink_object_with_variable_size (len table))
    + ((4 + pad_netlink_object_with_variable_size (len chain))
       + ((4 + pad_netlink_object_with_variable_size (items_size l)) + 0))) as Hsize.
  { change (get_size r) with (struct_get_size Rule_fields r). rewrite struct_get_size_sum.
    rewrite <- list_get_size_sum. done. }
  pose proof (len_nonneg table). pose proof (len_nonneg chain). pad_facts.
  split_and!; [done| |done]. unfold fits.
  rewrite pad_aligned by (done || lia). lia.
Qed.

Lemma assembled_sendable chain base n r :
  option_ok sendable_name (chain_table chain) = true →
  option_ok sendable_name (chain_name chain) = true →
  Rule_new chain = Ok base → assembled base n r → (0 < n ≤ 150)%nat → object_sendable r.
Proof.
  intros Ht Hc (table & name & Ht' & Hc' & ->)%Rule_new_Ok Hb Hn. rewrite Ht', Hc' in *.
  apply assembled_appends in Hb as [[_ ->]|(l & Hl & Hs & ->)]; [lia|].
  apply rule_sendable; [done..|]. change (items_size l < 2 ^ 16). lia.
Qed.
End Send.
