(* ===== verification/Semantics.v ===== *)
(** * What the kernel does with a rule: the interface of nf_tables evaluation

    The kernel is not part of the crate, so its evaluation of expressions is a
    parameter: the class [NfTables] has packets, registers and [eval], and [NfTablesLaws]
    states what nf_tables documents of the expressions the crate builds (what each loads,
    compares, masks or decides).  On top of the interface, this file defines what a rule
    and a chain decide, and the relation [narrows] between a rule and the rule with more
    conditions, which the theorems about the rule-building methods use. *)

From S2P Require Import Prelude Sys Errors Lib Nlmsg Parser ParserImpls Macros Codec Data Objects.
From S2P Require Import Table Chain Exprs ExprMod Payload Rule Sets RuleMethods RuleBuild.
Local Open Scope Z_scope.

(** ** Byte strings as masks and numbers *)
Definition bytes_and (a b : bytes) : bytes := zip_with byte.and a b.
Definition bytes_xor (a b : bytes) : bytes := zip_with byte.xor a b.

(** The order of [memcmp] on byte strings of one length. *)
Definition cmp_holds (op : CmpOp) (a b : bytes) : bool :=
  match op with
  | CmpOp_Eq => be_value a =? be_value b
  | CmpOp_Neq => negb (be_value a =? be_value b)
  | CmpOp_Lt => be_value a <? be_value b
  | CmpOp_Lte => be_value a <=? be_value b
  | CmpOp_Gt => be_value b <? be_value a
  | CmpOp_Gte => be_value b <=? be_value a
  end.

Section Bytes.

Lemma testbit_high a n i : 0 ≤ n → 0 ≤ a < 2 ^ n → n ≤ i → Z.testbit a i = false.
Proof.
  intros Hn Ha Hi. rewrite <- (Z.mod_small a (2 ^ n)) by done. by apply Z.mod_pow2_bits_high.
Qed.

Lemma byte_and_unsigned a b :
  byte.unsigned (byte.and a b) = Z.land (byte.unsigned a) (byte.unsigned b).
Proof.
  unfold byte.and. rewrite byte.unsigned_of_Z. unfold byte.wrap.
  pose proof (byte.unsigned_range a). rewrite <- Z.land_ones by lia.
  rewrite <- Z.land_assoc, (Z.land_comm (byte.unsigned b)), Z.land_assoc.
  by rewrite Z.land_ones, Z.mod_small by lia.
Qed.

Lemma byte_xor_zero a : byte.xor a Byte.x00 = a.
Proof.
  unfold byte.xor. change (byte.unsigned Byte.x00) with 0. by rewrite Z.lxor_0_r, byte.of_Z_unsigned.
Qed.

Lemma le_combine_cons x l :
  le_combine (x :: l) = Z.lor (byte.unsigned x) (Z.shiftl (le_combine l) 8).
Proof. done. Qed.

Lemma le_combine_and a b :
  length a = length b →
  le_combine (zip_with byte.and a b) = Z.land (le_combine a) (le_combine b).
Proof.
  revert b. induction a as [|x a IH]; intros [|y b] Hl; try done.
  injection Hl as Hl. specialize (IH b Hl). simpl.
  rewrite !le_combine_cons, IH, byte_and_unsigned.
  apply Z.bits_inj'. intros n Hn.
  pose proof (byte.unsigned_range x). pose proof (byte.unsigned_range y).
  rewrite Z.land_spec, !Z.lor_spec, Z.land_spec, !Z.shiftl_spec by lia.
  destruct (Z.ltb_spec n 8).
  - rewrite !(Z.testbit_neg_r _ (n - 8)) by lia. by rewrite !orb_false_r.
  - rewrite Z.land_spec. by rewrite !(testbit_high (byte.unsigned _) 8 n) by lia.
Qed.

Lemma rev_zip_with {A} (f : A → A → A) (a b : list A) :
  length a = length b → rev (zip_with f a b) = zip_with f (rev a) (rev b).
Proof.
  revert b. induction a as [|x a IH]; intros [|y b] Hl; try done. injection Hl as Hl.
  simpl. rewrite IH by done. by rewrite zip_with_app by (by rewrite !length_rev).
Qed.

(** Masking two byte strings masks the numbers they spell. *)
Lemma be_value_and a b :
  len a = len b → be_value (bytes_and a b) = Z.land (be_value a) (be_value b).
Proof.
  intros Hl%Nat2Z.inj. unfold be_value, bytes_and. rewrite rev_zip_with by done.
  apply le_combine_and. by rewrite !length_rev.
Qed.

Lemma len_bytes_and a b : len a = len b → len (bytes_and a b) = len b.
Proof. unfold len, bytes_and. rewrite length_zip_with. lia. Qed.

Lemma bytes_xor_zeros a : bytes_xor a (zeros (len a)) = a.
Proof.
  unfold bytes_xor, zeros, len. rewrite Nat2Z.id.
  induction a as [|x a IH]; [done|]. simpl. by rewrite byte_xor_zero, IH.
Qed.

Lemma be_bytes_zero n : be_bytes n 0 = zeros (Z.of_nat n).
Proof.
  unfold be_bytes, zeros. rewrite Nat2Z.id. induction n as [|n IH]; [done|].
  change (le_split (S n) 0) with (Byte.x00 :: le_split n 0). cbn [rev]. rewrite IH.
  by rewrite <- replicate_cons_app.
Qed.

Lemma be_value_inj a b : len a = len b → be_value a = be_value b → a = b.
Proof.
  intros Hl%Nat2Z.inj Hv. rewrite <- (be_bytes_value a), <- (be_bytes_value b). by rewrite Hl, Hv.
Qed.

Lemma cmp_eq_bytes a b : len a = len b → cmp_holds CmpOp_Eq a b = bool_decide (a = b).
Proof.
  intros Hl. cbn. destruct (Z.eqb_spec (be_value a) (be_value b)) as [Hv|Hv].
  - rewrite bool_decide_true; [done|by apply be_value_inj].
  - rewrite bool_decide_false; [done|by intros ->].
Qed.
End Bytes.

(** ** The evaluator *)

(** After one expression: go on with new registers, leave the rule, or decide. *)
Inductive Step (R : Type) := Continue (rs : R) | Break (rs : R) | Halt (v : Verdict).
Arguments Continue {R} rs.
Arguments Break {R} rs.
Arguments Halt {R} v.

Class NfTables := {
  Packet : Type;
  Registers : Type;
  (** the first bytes of a register *)
  read_register : Registers → Register → Z → bytes;
  (** the bytes a [meta] or [ct] expression loads, when the packet has them *)
  metadata : Packet → MetaType → option bytes;
  conntrack : Packet → ConntrackKey → option bytes;
  (** the link, network or transport header and what follows it *)
  header : Packet → u32 → option bytes;
  little_endian : bool;
  eval : ExpressionVariant → Packet → Registers → Step Registers }.

Section Loads.
Context `{NfTables}.

(** Register [d] of [rs'] starts with [v]; the other registers are those of [rs]. *)
Definition loads (d : Register) (v : bytes) (rs rs' : Registers) : Prop :=
  (∀ n, 0 ≤ n ≤ len v → read_register rs' d n = take (Z.to_nat n) v)
  ∧ ∀ d' n, d' ≠ d → read_register rs' d' n = read_register rs d' n.

(** An expression that loads a value, and leaves the rule without one. *)
Definition loading (d : Register) (o : option bytes) (rs : Registers) (s : Step Registers) : Prop :=
  match o with
  | Some v => ∃ rs', s = Continue rs' ∧ loads d v rs rs'
  | None => ∃ rs', s = Break rs'
  end.

(** A part of a header, when the packet is long enough. *)
Definition header_part (p : Packet) (base offset n : u32) : option bytes :=
  h ← header p base;
  if offset + n <=? len h then Some (take (Z.to_nat n) (drop (Z.to_nat offset) h)) else None.

(** Integers in the byte order of the machine. *)
Definition host_bytes (n : nat) (z : Z) : bytes :=
  if little_endian then le_split n z else be_bytes n z.
End Loads.

(** How many bytes a [meta] expression loads. *)
Definition metadata_size (k : MetaType) : Z :=
  match k with
  | MetaType_NfProto | MetaType_L4Proto => 1
  | MetaType_Protocol | MetaType_IifType | MetaType_OifType => 2
  | MetaType_IifName | MetaType_OifName => 16
  | _ => 4
  end.

Definition value_data (v : bytes) : NfNetlinkData := MkNfNetlinkData (Some v) None.
Definition verdict_data (v : Verdict) : NfNetlinkData := MkNfNetlinkData None (Some v).

(** The documented behaviour of the expressions. *)
Class NfTablesLaws (K : NfTables) : Prop := {
  eval_meta p rs d k :
    loading d (metadata p k) rs (eval (EMeta (MkMeta (Some d) (Some k) None)) p rs);
  eval_ct p rs d k :
    loading d (conntrack p k) rs (eval (EConntrack (MkConntrack (Some d) (Some k) None None)) p rs);
  eval_payload p rs d base offset n :
    0 ≤ offset → 0 ≤ n →
    loading d (header_part p base offset n) rs
      (eval (EPayload (MkPayload (Some d) (Some base) (Some offset) (Some n) None)) p rs);
  eval_immediate p rs d v :
    d ≠ RegVerdict → 0 < len v ≤ 16 →
    loading d (Some v) rs (eval (EImmediate (MkImmediate (Some d) (Some (value_data v)))) p rs);
  eval_bitwise p rs s d n m x :
    len m = n → len x = n → 0 < n ≤ 16 →
    loading d (Some (bytes_xor (bytes_and (read_register rs s n) m) x)) rs
      (eval (EBitwise (MkBitwise (Some s) (Some d) (Some n) (Some (value_data m))
         (Some (value_data x)))) p rs);
  eval_cmp p rs s op v :
    0 < len v ≤ 16 →
    eval (ECmp (MkCmp (Some s) (Some op) (Some (value_data v)))) p rs
    = if cmp_holds op (read_register rs s (len v)) v then Continue rs else Break rs;
  eval_verdict p rs v code :
    verdict_code v = Some code → code ≠ VerdictType_Continue → code ≠ VerdictType_Break →
    eval (EImmediate (MkImmediate (Some RegVerdict) (Some (verdict_data v)))) p rs = Halt v;
  eval_counter p rs c : eval (ECounter c) p rs = Continue rs;
  eval_log p rs l : eval (ELog l) p rs = Continue rs;
  metadata_len p k v : metadata p k = Some v → len v = metadata_size k;
  conntrack_len p k v : conntrack p k = Some v → len v = 4 }.

(** ** Rules and chains *)
Section Rules.
Context `{NfTables}.

(** Expressions are evaluated from first to last. *)
Fixpoint run (l : list ExpressionVariant) (p : Packet) (rs : Registers) : Step Registers :=
  match l with
  | [] => Continue rs
  | e :: l =>
      match eval e p rs with
      | Continue rs => run l p rs
      | s => s
      end
  end.

Definition program (r : Rule) : list ExpressionVariant := omap raw_data (exprs r).
Definition rule_eval (r : Rule) : Packet → Registers → Step Registers := run (program r).

(** A chain tries its rules in order; [None] is the end of the chain. *)
Fixpoint chain_eval (rules : list Rule) (p : Packet) (rs : Registers) : option Verdict :=
  match rules with
  | [] => None
  | r :: rules =>
      match rule_eval r p rs with
      | Continue rs | Break rs => chain_eval rules p rs
      | Halt v => Some v
      end
  end.

(** What a base chain decides when no other chain is involved: [Some true] lets the packet
    through, and the default policy of the kernel is to accept. *)
Definition decision (c : Chain) (rules : list Rule) (p : Packet) (rs : Registers) : option bool :=
  match chain_eval rules p rs with
  | None => Some (match chain_policy c with Some Policy_Drop => false | _ => true end)
  | Some v =>
      match verdict_code v with
      | Some VerdictType_Accept => Some true
      | Some VerdictType_Drop => Some false
      | _ => None
      end
  end.

(** The rule [r'] does what [r] does, but goes on only for packets that satisfy [T]. *)
Definition narrows (r r' : Rule) (T : Packet → bool) : Prop :=
  ∀ p rs,
    match rule_eval r p rs with
    | Continue _ =>
        ∃ rs', rule_eval r' p rs = if T p then Continue rs' else Break rs'
    | s => rule_eval r' p rs = s
    end.

(** A rule that decides [v] for the packets that satisfy [T], and nothing for others. *)
Definition decides (r : Rule) (T : Packet → bool) (v : VerdictType) : Prop :=
  ∀ p rs,
    if T p then rule_eval r p rs = Halt (Verdict_default |> verdict_with_code v)
    else ∃ rs', rule_eval r p rs = Continue rs' ∨ rule_eval r p rs = Break rs'.

Definition selects (l : list ExpressionVariant) (T : Packet → bool) : Prop :=
  ∀ p rs, ∃ rs', run l p rs = if T p then Continue rs' else Break rs'.
End Rules.
