(* ===== verification/Meaning.v ===== *)
(** * The packets a rule-building method selects

    Against the interface of [Semantics.v]: how conditions compose, what a load followed
    by a comparison selects, and the condition each method of [rule_methods.rs] adds. *)

From stdpp Require Import vector.
From S2P Require Import Prelude Sys Errors Lib Nlmsg Parser ParserImpls Macros Codec Data Objects.
From S2P Require Import Table Chain Exprs ExprMod Payload Rule Sets RuleMethods RuleBuild Semantics.
Local Open Scope Z_scope.

(** ** Composition *)
Section Composition.
Context `{NfTables}.

Lemma run_cons e l p rs :
  run (e :: l) p rs = match eval e p rs with Continue rs => run l p rs | s => s end.
Proof. done. Qed.

Lemma run_app l k p rs :
  run (l ++ k) p rs = match run l p rs with Continue rs => run k p rs | s => s end.
Proof.
  revert rs. induction l as [|e l IH]; intros rs; cbn [app run]; [done|].
  destruct (eval e p rs); [apply IH|done..].
Qed.

Lemma program_add {T} `{Expression T, IntoVariant T} (e : T) r :
  program (add_expr e r) = program r ++ [into_variant e].
Proof.
  unfold program, add_expr, add_raw, exprs. cbn [rule_expressions rule_with_expressions].
  destruct (default NfNetlinkList_default (rule_expressions r)) as [l].
  change (omap raw_data (l ++ [RawExpression_from e]) = omap raw_data l ++ [into_variant e]).
  by rewrite omap_app.
Qed.

Lemma selects_app l k T U :
  selects l T → selects k U → selects (l ++ k) (λ p, T p && U p).
Proof.
  intros Hl Hk p rs. destruct (Hl p rs) as [rs1 H1]. rewrite run_app, H1.
  destruct (T p); cbn [andb]; [apply Hk|by exists rs1].
Qed.

Lemma selects_ext l T U : selects l T → (∀ p, T p = U p) → selects l U.
Proof. intros Hl Hx p rs. rewrite <- Hx. apply Hl. Qed.

Lemma narrows_selects r r' l T : program r' = program r ++ l → selects l T → narrows r r' T.
Proof.
  intros Hp Hl p rs. unfold rule_eval. rewrite Hp, run_app.
  destruct (run (program r) p rs) as [rs1|rs1|v]; [apply Hl|done..].
Qed.

Lemma narrows_trans r1 r2 r3 T U :
  narrows r1 r2 T → narrows r2 r3 U → narrows r1 r3 (λ p, T p && U p).
Proof.
  intros H1 H2 p rs. specialize (H1 p rs). specialize (H2 p rs).
  destruct (rule_eval r1 p rs).
  - destruct H1 as [rs1 H1]. rewrite H1 in H2. destruct (T p); cbn [andb]; [done|by exists rs1].
  - by rewrite H1 in H2.
  - by rewrite H1 in H2.
Qed.

Lemma narrows_ext r r' T U : narrows r r' T → (∀ p, T p = U p) → narrows r r' U.
Proof. intros Hr Hx p rs. specialize (Hr p rs). by rewrite <- Hx. Qed.

(** A rule without expressions, and what its narrowing decides. *)
Lemma narrows_fresh r r' T p rs :
  program r = [] → narrows r r' T →
  ∃ rs', rule_eval r' p rs = if T p then Continue rs' else Break rs'.
Proof. intros Hp Hr. specialize (Hr p rs). unfold rule_eval at 1 in Hr. by rewrite Hp in Hr. Qed.

Lemma chain_decides r T v rules p rs o :
  decides r T v → (∀ rs, chain_eval rules p rs = o) →
  chain_eval (r :: rules) p rs
  = if T p then Some (Verdict_default |> verdict_with_code v) else o.
Proof.
  intros Hr Ho. specialize (Hr p rs). cbn [chain_eval]. destruct (T p); [by rewrite Hr|].
  destruct Hr as [rs' [-> | ->]]; apply Ho.
Qed.
End Composition.

(** ** Loads and comparisons *)
Section Atoms.
Context `{NfTablesLaws}.

Definition holding (d : Register) (v : bytes) (rs : Registers) : Prop :=
  ∀ n, 0 ≤ n ≤ len v → read_register rs d n = take (Z.to_nat n) v.

Lemma holding_all d v rs : holding d v rs → read_register rs d (len v) = v.
Proof.
  intros Hv. pose proof (len_nonneg v). rewrite Hv by lia. apply take_ge. unfold len. lia.
Qed.

Lemma selects_load e k (o : Packet → option bytes) (test : bytes → bool) :
  (∀ p rs, loading Reg1 (o p) rs (eval e p rs)) →
  (∀ p rs v, o p = Some v → holding Reg1 v rs →
    ∃ rs', run k p rs = if test v then Continue rs' else Break rs') →
  selects (e :: k) (λ p, match o p with Some v => test v | None => false end).
Proof.
  intros He Hk p rs. rewrite run_cons. specialize (He p rs). destruct (o p) as [v|] eqn:Hv; cbn in He.
  - destruct He as (rs1 & -> & Hl & _). by apply (Hk p rs1 v).
  - destruct He as (rs1 & ->). by exists rs1.
Qed.

(** What [Cmp::new] makes. *)
Definition cmp_reg1 (op : CmpOp) (w : bytes) : ExpressionVariant :=
  ECmp (MkCmp (Some Reg1) (Some op) (Some (value_data w))).

Lemma cmp_test op v w p rs :
  holding Reg1 v rs → 0 < len w ≤ 16 → len w ≤ len v →
  run [cmp_reg1 op w] p rs
  = if cmp_holds op (take (Z.to_nat (len w)) v) w then Continue rs else Break rs.
Proof.
  intros Hv Hw Hl. cbn [run]. unfold cmp_reg1. rewrite eval_cmp by done.
  rewrite Hv by lia. by destruct (cmp_holds _ _ _).
Qed.

Definition mask_reg1 (m : bytes) : ExpressionVariant :=
  EBitwise (MkBitwise (Some Reg1) (Some Reg1) (Some (as_u32 (len m))) (Some (value_data m))
    (Some (value_data (zeros (len m))))).

(** What [Bitwise::new] makes of a mask and a zero. *)
Lemma Bitwise_new_mask m n :
  len m = Z.of_nat n → ∃ b, Bitwise_new m (be_bytes n 0) = Ok b ∧ into_variant b = mask_reg1 m.
Proof.
  intros Hm. unfold Bitwise_new. rewrite len_be_bytes, <- Hm, Z.eqb_refl. cbn [negb].
  eexists. split; [done|]. unfold mask_reg1. by rewrite Hm, be_bytes_zero.
Qed.

Lemma masked_test op v m w p rs :
  holding Reg1 v rs → len m = len v → len w = len v → 0 < len v ≤ 16 →
  ∃ rs', run [mask_reg1 m; cmp_reg1 op w] p rs
    = if cmp_holds op (bytes_and v m) w then Continue rs' else Break rs'.
Proof.
  intros Hv Hm Hw Hl. unfold mask_reg1. rewrite as_u32_small by lia.
  rewrite run_cons.
  destruct (eval_bitwise p rs Reg1 Reg1 (len m) m (zeros (len m)) eq_refl
    ltac:(rewrite len_zeros by lia; done) ltac:(lia)) as (rs1 & -> & Hr & _).
  cbn beta iota. rewrite Hm, (holding_all _ _ _ Hv) in Hr.
  assert (len (bytes_and v m) = len v) as Hlen by (rewrite len_bytes_and; lia).
  rewrite <- Hlen, bytes_xor_zeros in Hr. exists rs1.
  rewrite (cmp_test op (bytes_and v m)) by (done || lia).
  by rewrite take_ge by (unfold len in *; lia).
Qed.

(** *** Meta data, connection tracking and header fields *)

Lemma selects_meta k op w :
  0 < len w ≤ metadata_size k →
  selects [into_variant (Meta_new k); cmp_reg1 op w]
    (λ p, match metadata p k with
          | Some v => cmp_holds op (take (Z.to_nat (len w)) v) w
          | None => false
          end).
Proof.
  intros Hw. apply (selects_load _ _ (λ p, metadata p k)); [intros; apply eval_meta|].
  intros p rs v Hv Hh. apply metadata_len in Hv. exists rs.
  apply cmp_test; [done| |lia]. assert (metadata_size k ≤ 16) by (by destruct k). lia.
Qed.

Lemma header_part_len p base offset n v :
  0 ≤ offset → 0 ≤ n → header_part p base offset n = Some v → len v = n.
Proof.
  intros Ho Hn Hv. unfold header_part in Hv. destruct (header p base) as [h|]; [|done].
  cbn in Hv. destruct (Z.leb_spec (offset + n) (len h)); [|done]. injection Hv as <-.
  rewrite len_take; [done|]. rewrite len_drop; lia.
Qed.

Lemma selects_header base offset op w :
  0 ≤ offset → 0 < len w ≤ 16 →
  selects [EPayload (MkPayload (Some Reg1) (Some base) (Some offset) (Some (len w)) None);
           cmp_reg1 op w]
    (λ p, match header_part p base offset (len w) with
          | Some v => cmp_holds op v w
          | None => false
          end).
Proof.
  intros Ho Hw.
  apply (selects_load _ _ (λ p, header_part p base offset (len w)));
    [intros; apply eval_payload; lia|].
  intros p rs v Hv%header_part_len Hh; [|lia..]. exists rs.
  rewrite (cmp_test op v) by (done || lia). by rewrite take_ge by (unfold len in *; lia).
Qed.

Lemma selects_masked_header base offset op m w :
  0 ≤ offset → 0 < len w ≤ 16 → len m = len w →
  selects [EPayload (MkPayload (Some Reg1) (Some base) (Some offset) (Some (len w)) None);
           mask_reg1 m; cmp_reg1 op w]
    (λ p, match header_part p base offset (len w) with
          | Some v => cmp_holds op (bytes_and v m) w
          | None => false
          end).
Proof.
  intros Ho Hw Hm.
  apply (selects_load _ _ (λ p, header_part p base offset (len w)));
    [intros; apply eval_payload; lia|].
  intros p rs v Hv%header_part_len Hh; [|lia..]. apply masked_test; [done|lia..].
Qed.

Lemma selects_masked_ct k op m w :
  len m = 4 → len w = 4 →
  selects [into_variant (Conntrack_new k); mask_reg1 m; cmp_reg1 op w]
    (λ p, match conntrack p k with
          | Some v => cmp_holds op (bytes_and v m) w
          | None => false
          end).
Proof.
  intros Hm Hw. apply (selects_load _ _ (λ p, conntrack p k)); [intros; apply eval_ct|].
  intros p rs v Hv%conntrack_len Hh. apply masked_test; [done|lia..].
Qed.
End Atoms.

(** ** What a packet is, for the methods *)
Section PacketSpec.
Context `{Sys} `{NfTables}.

(** The network and transport protocols, as numbers. *)
Definition nf_protocol (p : Packet) : option Z := be_value <$> metadata p MetaType_NfProto.
Definition l4_protocol (p : Packet) : option Z := be_value <$> metadata p MetaType_L4Proto.
Definition is_nf (x : Z) (p : Packet) : bool := bool_decide (nf_protocol p = Some (as_u8 x)).
Definition is_l4 (x : Z) (p : Packet) : bool := bool_decide (l4_protocol p = Some (as_u8 x)).

(** The source or destination address of an IPv4 or IPv6 packet (RFC 791, RFC 8200). *)
Definition packet_address (source v4 : bool) (p : Packet) : option bytes :=
  if is_nf (if v4 then NFPROTO_IPV4 else NFPROTO_IPV6) p
  then header_part p NFT_PAYLOAD_NETWORK_HEADER
         (if v4 then (if source then 12 else 16) else (if source then 8 else 24))
         (if v4 then 4 else 16)
  else None.

Definition has_address (source : bool) (ip : IpAddr) (p : Packet) : bool :=
  bool_decide (packet_address source (ip_is_v4 ip) p = Some (ip_to_vec ip : bytes)).

(** The address agrees with that of the network on the bits of its prefix. *)
Definition in_network `{IpNetworkCrate} (source : bool) (n : IpNetwork) (p : Packet) : bool :=
  let host_bits := ip_width (is_v4 n) - prefix n in
  match packet_address source (is_v4 n) p with
  | Some a => Z.shiftr (be_value a) host_bits =? Z.shiftr (ip_value (net_ip n)) host_bits
  | None => false
  end.

Definition protocol_number (proto : Protocol) : Z :=
  match proto with TCP => IPPROTO_TCP | UDP => IPPROTO_UDP end.

(** The source or destination port of a TCP or UDP packet (RFC 9293, RFC 768). *)
Definition packet_port (source : bool) (proto : Protocol) (p : Packet) : option Z :=
  if is_l4 (protocol_number proto) p
  then be_value <$> header_part p NFT_PAYLOAD_TRANSPORT_HEADER (if source then 0 else 2) 2
  else None.

Definition has_port (source : bool) (proto : Protocol) (port : u16) (p : Packet) : bool :=
  bool_decide (packet_port source proto p = Some (port : Z)).

(** The flags byte of a TCP header; SYN is its second bit. *)
Definition syn_flag (p : Packet) : bool :=
  match header_part p NFT_PAYLOAD_TRANSPORT_HEADER 13 1 with
  | Some flags => Z.testbit (be_value flags) 1
  | None => false
  end.

(** A number in the byte order of the machine. *)
Definition host_value (v : bytes) : Z := if little_endian then le_combine v else be_value v.

(** The state of the connection: one bit per state; the bit of ESTABLISHED. *)
Definition in_established (p : Packet) : bool :=
  match conntrack p ConntrackKey_State with
  | Some v => Z.testbit (host_value v) 1
  | None => false
  end.

(** The index, the hardware type and the name of an interface; the first two are in the byte
    order of the machine. *)
Definition interface_type (k : MetaType) (p : Packet) : option Z := host_value <$> metadata p k.
Definition interface_index (k : MetaType) (p : Packet) : option Z := host_value <$> metadata p k.

Fixpoint until_nul (b : bytes) : bytes :=
  match b with
  | [] => []
  | x :: b => if decide (x = Byte.x00) then [] else x :: until_nul b
  end.

Definition interface_name (k : MetaType) (p : Packet) : option bytes := until_nul <$> metadata p k.
End PacketSpec.

(** ** The methods *)
Section Methods.
Context `{SysLaws} `{NfTablesLaws}.

(** Unfold the expressions a method appends. *)
Ltac appended := unfold rule_eval; rewrite ?program_add, <- ?app_assoc; reflexivity.

Lemma be_value_one x : be_value (one_byte x) = as_u8 x.
Proof. unfold one_byte. rewrite be_value_bytes. apply Z.mod_mod. lia. Qed.

(** A byte of meta data compared with a constant. *)
Lemma selects_meta_byte k x :
  metadata_size k = 1 →
  selects [into_variant (Meta_new k); cmp_reg1 CmpOp_Eq (one_byte x)]
    (λ p, bool_decide (be_value <$> metadata p k = Some (as_u8 x))).
Proof.
  intros Hk. eapply selects_ext.
  { apply selects_meta. rewrite Hk. change (len (one_byte x)) with 1. lia. }
  intros p. cbn beta. change (len (one_byte x)) with 1.
  destruct (metadata p k) as [v|] eqn:Hv; [|by rewrite bool_decide_false]. cbn.
  apply metadata_len in Hv. rewrite take_ge by (unfold len in Hv; lia).
  rewrite be_value_one. destruct (Z.eqb_spec (be_value v) (as_u8 x)) as [->|Hne].
  - by rewrite bool_decide_true.
  - rewrite bool_decide_false; congruence.
Qed.

Lemma narrows_meta_byte k x r :
  metadata_size k = 1 →
  narrows r (r |> add_expr (Meta_new k) |> add_expr (Cmp_new CmpOp_Eq (one_byte x)))
    (λ p, bool_decide (be_value <$> metadata p k = Some (as_u8 x))).
Proof. intros Hk. eapply narrows_selects; [appended|by apply selects_meta_byte]. Qed.

Lemma protocol_narrows proto r : narrows r (protocol proto r) (is_l4 (protocol_number proto)).
Proof. by apply narrows_meta_byte. Qed.

Lemma icmp_narrows r : narrows r (icmp r) (is_l4 IPPROTO_ICMP).
Proof. by apply narrows_meta_byte. Qed.

Lemma icmpv6_narrows r : narrows r (icmpv6 r) (is_l4 IPPROTO_ICMPV6).
Proof. by apply narrows_meta_byte. Qed.

Lemma igmp_narrows r : narrows r (igmp r) (is_l4 IPPROTO_IGMP).
Proof. by apply narrows_meta_byte. Qed.

(** A header field compared with a constant of its length. *)
Lemma narrows_field payload base offset w r :
  payload = MkPayload (Some Reg1) (Some base) (Some offset) (Some (len w)) None →
  0 ≤ offset → 0 < len w ≤ 16 →
  narrows r (r |> add_expr payload |> add_expr (Cmp_new CmpOp_Eq w))
    (λ p, bool_decide (header_part p base offset (len w) = Some w)).
Proof.
  intros -> Ho Hw. eapply narrows_selects; [appended|].
  eapply selects_ext; [by apply selects_header|]. intros p. cbn beta.
  destruct (header_part p base offset (len w)) as [v|] eqn:Hv; [|by rewrite bool_decide_false].
  apply header_part_len in Hv; [|lia..]. rewrite cmp_eq_bytes by done.
  apply bool_decide_ext. split; [by intros ->|by intros [= ->]].
Qed.

(** A test, then a part of the packet that is defined when the test succeeds. *)
Lemma guarded_eq {A} `{EqDecision A} (b : bool) (o : option A) (x : A) :
  b && bool_decide (o = Some x) = bool_decide ((if b then o else None) = Some x).
Proof. destruct b; cbn [andb]; [done|]. by rewrite bool_decide_false. Qed.

(** The load of an address, after the test of the protocol. *)
Definition load_address (source v4 : bool) : Payload :=
  HighLevelPayload_build (HLP_Network (if v4
    then Network_IPv4 (if source then IPv4_Saddr else IPv4_Daddr)
    else Network_IPv6 (if source then IPv6_Saddr else IPv6_Daddr))).

Definition test_family (v4 : bool) (r : Rule) : Rule :=
  r |> add_expr (Meta_new MetaType_NfProto)
    |> add_expr (Cmp_new CmpOp_Eq (one_byte (if v4 then NFPROTO_IPV4 else NFPROTO_IPV6))).

Lemma test_family_narrows v4 r :
  narrows r (test_family v4 r) (is_nf (if v4 then NFPROTO_IPV4 else NFPROTO_IPV6)).
Proof. by apply narrows_meta_byte. Qed.

Lemma match_ip_eq ip source r :
  match_ip ip source r
  = (test_family (ip_is_v4 ip) r |> add_expr (load_address source (ip_is_v4 ip))
       |> add_expr (Cmp_new CmpOp_Eq (ip_to_vec ip))).
Proof. by destruct ip. Qed.

Lemma load_address_eq source v4 :
  load_address source v4 = MkPayload (Some Reg1) (Some NFT_PAYLOAD_NETWORK_HEADER)
    (Some (if v4 then (if source then 12 else 16) else (if source then 8 else 24)))
    (Some (if v4 then 4 else 16)) None.
Proof. by destruct source, v4. Qed.

Lemma match_ip_narrows ip source r : narrows r (match_ip ip source r) (has_address source ip).
Proof.
  pose proof (len_ip ip) as Hlen. rewrite match_ip_eq, load_address_eq, <- Hlen.
  eapply narrows_ext.
  - eapply narrows_trans; [apply test_family_narrows|].
    eapply narrows_field; [done|by destruct source, (ip_is_v4 ip)|apply len_ip_small].
  - intros p. unfold has_address, packet_address. by rewrite guarded_eq, Hlen.
Qed.

Lemma packet_port_narrows port proto source r :
  u16_ok port → narrows r (match_port port proto source r) (has_port source proto port).
Proof.
  intros Hp. eapply narrows_ext.
  - eapply narrows_trans; [apply protocol_narrows|].
    eapply (narrows_field _ NFT_PAYLOAD_TRANSPORT_HEADER (if source then 0 else 2));
      [by destruct proto, source|by destruct source|done].
  - intros p. unfold has_port, packet_port. cbn beta. rewrite <- guarded_eq. f_equal.
    change (len (be_bytes 2 port)) with 2.
    destruct (header_part p _ _ 2) as [v|] eqn:Hv; [|by rewrite !bool_decide_false].
    apply header_part_len in Hv; [|by destruct source|done].
    apply bool_decide_ext. cbn. split.
    + intros [= ->]. rewrite be_value_bytes, Z.mod_small by done. done.
    + intros [= <-]. f_equal. unfold len in Hv. rewrite <- (be_bytes_value v) at 1. f_equal. lia.
Qed.

(** *** Networks *)

(** Masking with the bits of a prefix clears the bits of the host. *)
Lemma land_mask a w k :
  0 ≤ k ≤ w → 0 ≤ a < 2 ^ w → Z.land a (2 ^ w - 2 ^ k) = Z.shiftl (Z.shiftr a k) k.
Proof.
  intros Hk Ha.
  assert (2 ^ w - 2 ^ k = Z.shiftl (Z.ones (w - k)) k) as ->.
  { rewrite Z.ones_equiv, Z.shiftl_mul_pow2 by lia.
    replace w with ((w - k) + k) at 1 by lia. rewrite Z.pow_add_r by lia. lia. }
  apply Z.bits_inj'. intros i Hi. rewrite Z.land_spec, !Z.shiftl_spec by lia.
  destruct (Z.ltb_spec i k).
  { rewrite !(Z.testbit_neg_r _ (i - k)) by lia. apply andb_false_r. }
  rewrite Z.shiftr_spec by lia. replace (i - k + k) with i by lia.
  destruct (Z.ltb_spec i w).
  - rewrite Z.ones_spec_low by lia. apply andb_true_r.
  - by rewrite (testbit_high a w i) by lia.
Qed.

Lemma mask_agree a b w k :
  0 ≤ k ≤ w → 0 ≤ a < 2 ^ w → 0 ≤ b < 2 ^ w →
  (Z.land a (2 ^ w - 2 ^ k) =? Z.land b (2 ^ w - 2 ^ k)) = (Z.shiftr a k =? Z.shiftr b k).
Proof.
  intros Hk Ha Hb. rewrite !land_mask, !Z.shiftl_mul_pow2 by lia.
  assert (0 < 2 ^ k) by (apply Z.pow_pos_nonneg; lia).
  destruct (Z.eqb_spec (Z.shiftr a k) (Z.shiftr b k)) as [->|Hne]; [apply Z.eqb_refl|].
  apply Z.eqb_neq. intros Heq. apply Hne. by apply (Z.mul_cancel_r _ _ (2 ^ k)); [lia|].
Qed.

Lemma match_network_eq `{IpNetworkLaws} n source r :
  ∃ b : Bitwise, into_variant b = mask_reg1 (ip_to_vec (mask n))
    ∧ match_network n source r
      = Ok (test_family (is_v4 n) r |> add_expr (load_address source (is_v4 n))
              |> add_expr b |> add_expr (Cmp_new CmpOp_Eq (ip_to_vec (network n)))).
Proof.
  pose proof (len_ip (mask n)) as Hm. rewrite mask_family in Hm. unfold match_network.
  destruct (is_v4 n).
  - destruct (Bitwise_new_mask (ip_to_vec (mask n)) 4 Hm) as (b & -> & Hb). by exists b.
  - destruct (Bitwise_new_mask (ip_to_vec (mask n)) 16 Hm) as (b & -> & Hb). by exists b.
Qed.

Lemma match_network_narrows `{IpNetworkLaws} n source r :
  ∃ r', match_network n source r = Ok r' ∧ narrows r r' (in_network source n).
Proof.
  destruct (match_network_eq n source r) as (b & Hb & ->). eexists. split; [done|].
  pose proof (len_ip (mask n)) as Hm. rewrite mask_family in Hm.
  pose proof (len_ip (network n)) as Hn. rewrite network_family in Hn.
  pose proof (prefix_range n) as Hp. rewrite load_address_eq, <- Hn.
  eapply narrows_ext.
  - eapply narrows_trans; [apply test_family_narrows|]. eapply narrows_selects; [appended|].
    rewrite Hb. apply selects_masked_header; [by destruct source, (is_v4 n)| |by rewrite Hm].
    apply len_ip_small.
  - intros p. unfold in_network, packet_address. destruct (is_nf _ p); [|done]. cbn [andb].
    rewrite Hn. destruct (header_part p _ _ _) as [v|] eqn:Hv; [|done].
    apply header_part_len in Hv; [|by destruct source, (is_v4 n)|by destruct (is_v4 n)].
    cbn [cmp_holds]. rewrite be_value_and by congruence.
    change (be_value (ip_to_vec (network n))) with (ip_value (network n)).
    change (be_value (ip_to_vec (mask n))) with (ip_value (mask n)).
    rewrite network_value, mask_value.
    pose proof (be_value_bound v) as Hbv. pose proof (be_value_bound (ip_to_vec (net_ip n))) as Hbn.
    rewrite len_ip, ip_family in Hbn. rewrite Hv in Hbv.
    apply mask_agree; [lia|..]; destruct (is_v4 n); done.
Qed.

(** *** Flags, connections and interfaces *)
Lemma land_bit a i : 0 ≤ i → negb (Z.land a (2 ^ i) =? 0) = Z.testbit a i.
Proof.
  intros Hi. destruct (Z.testbit a i) eqn:Hb.
  - apply negb_true_iff, Z.eqb_neq. intros Hz. apply (f_equal (λ z, Z.testbit z i)) in Hz.
    rewrite Z.land_spec, Hb, Z.pow2_bits_true, Z.bits_0 in Hz by done. done.
  - apply negb_false_iff, Z.eqb_eq. apply Z.bits_inj'. intros j Hj.
    rewrite Z.land_spec, Z.bits_0, Z.pow2_bits_eqb by done.
    destruct (Z.eqb_spec i j) as [->|]; [by rewrite Hb|apply andb_false_r].
Qed.

Lemma syn_narrows r : ∃ r', syn r = Ok r' ∧ narrows r r' syn_flag.
Proof.
  unfold syn. destruct (Bitwise_new_mask (be_bytes 1 2) 1) as (b & -> & Hb); [done|].
  eexists. split; [done|]. eapply narrows_selects; [appended|]. rewrite Hb.
  eapply selects_ext.
  { apply (selects_masked_header NFT_PAYLOAD_TRANSPORT_HEADER 13 CmpOp_Neq _ (be_bytes 1 0)); done. }
  intros p. unfold syn_flag. change (len (be_bytes 1 0)) with 1.
  destruct (header_part p _ 13 1) as [v|] eqn:Hv; [|done]. apply header_part_len in Hv; [|done..].
  cbn [cmp_holds]. rewrite be_value_and by done. change (be_value (be_bytes 1 0)) with 0.
  change (be_value (be_bytes 1 2)) with (2 ^ 1). by apply land_bit.
Qed.

(** On a little-endian machine: the mask is written in that order. *)
Lemma established_narrows r :
  little_endian = true → ∃ r', established r = Ok r' ∧ narrows r r' in_established.
Proof.
  intros Hle. unfold established.
  destruct (Bitwise_new_mask (le_split 4 ConnTrackState_ESTABLISHED) 4) as (b & -> & Hb); [done|].
  eexists. split; [done|]. eapply narrows_selects; [appended|]. rewrite Hb.
  eapply selects_ext; [by apply selects_masked_ct|]. intros p. unfold in_established, host_value.
  rewrite Hle. cbn beta. destruct (conntrack p ConntrackKey_State) as [v|] eqn:Hv; [|done].
  apply conntrack_len in Hv. cbn [cmp_holds]. rewrite <- land_bit by done.
  assert (length v = 4%nat) as Hl by (unfold len in Hv; lia).
  change (2 ^ 1) with (le_combine (le_split 4 ConnTrackState_ESTABLISHED)).
  rewrite <- le_combine_and by done. fold (bytes_and v (le_split 4 ConnTrackState_ESTABLISHED)).
  set (x := bytes_and _ _). change (be_value (be_bytes 4 0)) with 0. f_equal.
  assert (length x = 4%nat) as Hx by (unfold x, bytes_and; by rewrite length_zip_with, Hl).
  destruct (Z.eqb_spec (le_combine x) 0) as [Hz|Hz].
  - apply Z.eqb_eq. rewrite (le_combine_inj x (zeros 4)); [done|done|by rewrite Hz].
  - apply Z.eqb_neq. intros Hb0. apply Hz.
    rewrite (be_value_inj x (zeros 4)); [done|unfold len; by rewrite Hx|by rewrite Hb0].
Qed.

(** All the bytes of a piece of meta data compared. *)
Lemma narrows_meta_all k w r :
  len w = metadata_size k →
  narrows r (r |> add_expr (Meta_new k) |> add_expr (Cmp_new CmpOp_Eq w))
    (λ p, bool_decide (metadata p k = Some w)).
Proof.
  intros Hw. eapply narrows_selects; [appended|].
  assert (0 < metadata_size k) by (by destruct k).
  eapply selects_ext; [apply selects_meta; lia|]. intros p. cbn beta.
  destruct (metadata p k) as [v|] eqn:Hv; [|by rewrite bool_decide_false].
  apply metadata_len in Hv. rewrite take_ge by (unfold len in *; lia).
  rewrite cmp_eq_bytes by congruence. apply bool_decide_ext. split; [by intros ->|by intros [= ->]].
Qed.

(** The number with the bytes of [z] in the opposite order. *)
Definition swap_bytes (z : Z) : Z := le_combine (be_bytes 4 z).

(** The index is compared in network order: on a little-endian machine, with the index
    whose bytes are swapped. *)
Lemma interface_index_narrows k i r :
  metadata_size k = 4 → u32_ok i →
  narrows r (r |> add_expr (Meta_new k) |> add_expr (Cmp_new CmpOp_Eq (be_bytes 4 i)))
    (λ p, bool_decide (interface_index k p = Some (if little_endian then swap_bytes i else i))).
Proof.
  intros Hk Hi. eapply narrows_ext; [apply narrows_meta_all; by rewrite Hk|]. intros p.
  unfold interface_index, host_value, swap_bytes. apply bool_decide_ext.
  destruct (metadata p k) as [v|] eqn:Hv; [|done]. apply metadata_len in Hv. rewrite Hk in Hv.
  cbn. split.
  - intros [= ->]. destruct little_endian; [done|]. by rewrite be_value_bytes, Z.mod_small.
  - intros [= Hx]. f_equal. destruct little_endian.
    + apply le_combine_inj; [|done]. change (length (be_bytes 4 i)) with 4%nat.
      unfold len in Hv. lia.
    + apply be_value_inj; [done|]. by rewrite Hx, be_value_bytes, Z.mod_small.
Qed.

(** The type is compared in little-endian order. *)
Lemma interface_type_narrows k x r :
  metadata_size k = 2 → u16_ok x → little_endian = true →
  narrows r (r |> add_expr (Meta_new k) |> add_expr (Cmp_new CmpOp_Eq (le_split 2 x)))
    (λ p, bool_decide (interface_type k p = Some x)).
Proof.
  intros Hk Hx Hle. eapply narrows_ext; [apply narrows_meta_all; by rewrite Hk|]. intros p.
  unfold interface_type, host_value. rewrite Hle. apply bool_decide_ext.
  destruct (metadata p k) as [v|] eqn:Hv; [|done]. apply metadata_len in Hv. rewrite Hk in Hv.
  assert (le_combine (le_split 2 x) = x) as Hc.
  { rewrite le_combine_split. by apply Z.mod_small. }
  cbn. split.
  - intros [= ->]. by rewrite Hc.
  - intros [= Heq]. f_equal. apply le_combine_inj; [|by rewrite Hc].
    rewrite length_le_split. unfold len in Hv. lia.
Qed.

(** Comparing a name and its terminator compares names. *)
Lemma until_nul_prefix name v :
  Byte.x00 ∉ name → (length name < length v)%nat →
  take (S (length name)) v = name ++ [Byte.x00] ↔ until_nul v = name.
Proof.
  revert v. induction name as [|x name IH]; intros [|y v] Hn Hl; cbn [length] in Hl; try lia.
  - cbn. rewrite take_0. case_decide as Hy; [by rewrite Hy|]. split; [by intros [= ?]|done].
  - apply not_elem_of_cons in Hn as [Hx Hn]. cbn [until_nul app length].
    rewrite firstn_cons. specialize (IH v Hn ltac:(lia)).
    case_decide as Hy; [split; [intros [= -> _]; by subst|done]|].
    split; intros [= -> Hv]; f_equal; by apply IH.
Qed.

Lemma interface_name_narrows k name r :
  metadata_size k = 16 → Byte.x00 ∉ name → len name < 16 →
  narrows r (r |> add_expr (Meta_new k) |> add_expr (Cmp_new CmpOp_Eq (name ++ [Byte.x00])))
    (λ p, bool_decide (interface_name k p = Some name)).
Proof.
  intros Hk Hn Hl. eapply narrows_selects; [appended|]. pose proof (len_nonneg name).
  assert (len (name ++ [Byte.x00]) = len name + 1) as Hlen by (by rewrite len_app).
  eapply selects_ext; [apply selects_meta; lia|]. intros p. unfold interface_name. cbn beta.
  destruct (metadata p k) as [v|] eqn:Hv; [|by rewrite bool_decide_false].
  cbn [fmap option_fmap option_map]. apply metadata_len in Hv. rewrite Hlen. replace (Z.to_nat (len name + 1)) with (S (length name))
    by (unfold len; lia).
  rewrite cmp_eq_bytes by (rewrite Hlen; unfold len in *; rewrite length_take; lia).
  apply bool_decide_ext. rewrite until_nul_prefix; [|done|unfold len in *; lia].
  split; [by intros ->|by intros [= ->]].
Qed.

Lemma ip6in4_narrows r :
  narrows r (ip6in4 r)
    (λ p, is_nf NFPROTO_IPV4 p
          && bool_decide (header_part p NFT_PAYLOAD_NETWORK_HEADER 9 1 = Some (one_byte 41))).
Proof.
  eapply narrows_trans; [apply (test_family_narrows true)|].
  by apply (narrows_field _ NFT_PAYLOAD_NETWORK_HEADER 9 (one_byte 41)).
Qed.

(** *** Verdicts *)
Lemma verdict_eval kind p rs :
  kind = VerdictKind_Accept ∨ kind = VerdictKind_Drop →
  eval (into_variant (Immediate_new_verdict kind)) p rs
  = Halt (Verdict_default |> verdict_with_code (verdict_code_of kind)).
Proof.
  intros Hk. pose proof (eval_verdict p rs (Verdict_default
    |> verdict_with_code (verdict_code_of kind)) (verdict_code_of kind) eq_refl) as He.
  destruct Hk as [-> | ->]; by apply He.
Qed.

(** A rule with more expressions behind its own. *)
Definition followed_by (r : Rule) (l : list RawExpression) : Rule :=
  rule_with_expressions (MkList (exprs r ++ l)) r.

Lemma program_followed r l : program (followed_by r l) = program r ++ omap raw_data l.
Proof. unfold program. change (exprs (followed_by r l)) with (exprs r ++ l). apply omap_app. Qed.

(** What comes after a verdict is not evaluated: the packets that satisfy [T] are decided
    before it, and for the others the rule has been left before it. *)
Lemma verdict_decides code r0 r T kind l :
  program r0 = [] → narrows r0 r T → verdict_code_of kind = code →
  kind = VerdictKind_Accept ∨ kind = VerdictKind_Drop →
  decides (followed_by (r |> add_expr (Immediate_new_verdict kind)) l) T code.
Proof.
  intros Hr0 Hr Hc Hk p rs. destruct (narrows_fresh r0 r T p rs Hr0 Hr) as [rs' He].
  unfold rule_eval in *. rewrite program_followed, program_add, <- app_assoc, run_app, He.
  destruct (T p); [|by eauto]. cbn [app]. by rewrite run_cons, verdict_eval, Hc.
Qed.

Lemma decides_program r r' T v : program r = program r' → decides r T v → decides r' T v.
Proof. intros Hp Hd p rs. specialize (Hd p rs). unfold rule_eval in *. by rewrite <- Hp. Qed.

Lemma decides_nothing_after r T v : decides (followed_by r []) T v → decides r T v.
Proof. apply decides_program. by rewrite program_followed, app_nil_r. Qed.

Lemma accept_decides_before r0 r T l :
  program r0 = [] → narrows r0 r T → decides (followed_by (accept r) l) T VerdictType_Accept.
Proof. intros. eapply (verdict_decides _ r0); eauto. Qed.

Lemma drop_decides_before r0 r T l :
  program r0 = [] → narrows r0 r T → decides (followed_by (drop_packet r) l) T VerdictType_Drop.
Proof. intros. eapply (verdict_decides _ r0); eauto. Qed.

Lemma accept_decides r0 r T :
  program r0 = [] → narrows r0 r T → decides (accept r) T VerdictType_Accept.
Proof. intros. eapply decides_nothing_after, accept_decides_before; eauto. Qed.

Lemma drop_decides r0 r T :
  program r0 = [] → narrows r0 r T → decides (drop_packet r) T VerdictType_Drop.
Proof. intros. eapply decides_nothing_after, drop_decides_before; eauto. Qed.

(** An expression that goes on, behind a rule that decides. *)
Lemma decides_after {E} `{Expression E, IntoVariant E} (e : E) r T v :
  (∀ p rs, ∃ rs', eval (into_variant e) p rs = Continue rs') →
  decides r T v → decides (add_expr e r) T v.
Proof.
  intros Hc Hr p rs. specialize (Hr p rs). unfold rule_eval in *. rewrite program_add, run_app.
  destruct (T p); [by rewrite Hr|]. destruct Hr as [rs1 [-> | ->]]; [|by eauto].
  rewrite run_cons. destruct (Hc p rs1) as [rs2 ->]. eauto.
Qed.

(** *** Destination NAT: the operands are in the registers the expression names *)
Lemma immediate_eval v d p rs :
  d ≠ RegVerdict → 0 < len v ≤ 16 →
  ∃ rs', eval (into_variant (Immediate_new_data v d)) p rs = Continue rs' ∧ loads d v rs rs'.
Proof. intros Hd Hv. exact (eval_immediate p rs d v Hd Hv). Qed.

Lemma dnat_operands dst port r p rs rs1 :
  rule_eval r p rs = Continue rs1 →
  ∃ l rs2,
    program (dnat dst port r)
      = l ++ [ENat (MkNat (Some DNat) (Some Ipv4) (Some Reg1) ((λ _, Reg2) <$> port))]
    ∧ run l p rs = Continue rs2
    ∧ read_register rs2 Reg1 (len (ip_to_vec dst)) = ip_to_vec dst
    ∧ ∀ q, port = Some q → read_register rs2 Reg2 2 = be_bytes 2 q.
Proof.
  intros Hr. pose proof (len_ip_small dst) as Hl. unfold rule_eval in Hr.
  destruct (immediate_eval (ip_to_vec dst) Reg1 p rs1) as (rs2 & He & Hd & _); [done..|].
  destruct port as [q|]; unfold dnat; rewrite !program_add.
  - destruct (immediate_eval (be_bytes 2 q) Reg2 p rs2) as (rs3 & He3 & Hq & Ho); [done..|].
    eexists _, rs3. split; [done|]. rewrite !run_app, Hr, run_cons, He. cbn [run].
    rewrite He3. split_and!; [done| |].
    + rewrite Ho by done. by apply holding_all.
    + intros q' [= <-]. by apply (holding_all Reg2 (be_bytes 2 q)).
  - eexists _, rs2. split; [done|]. rewrite run_app, Hr. cbn [run]. rewrite He.
    split_and!; [done|by apply holding_all|done].
Qed.
End Methods.
