(* ===== verification/Kernel.v ===== *)
(** * An executable evaluator

    An instance of the interface of [Semantics.v]: packets are their meta data, their
    connection tracking data and their headers, registers are functions.  It satisfies the
    laws, so that the theorems about rules apply to it and can be evaluated. *)

From S2P Require Import Prelude Sys Errors Lib Nlmsg Parser ParserImpls Macros Codec Data Objects.
From S2P Require Import Table Chain Exprs ExprMod Payload Rule Sets RuleMethods RuleBuild Semantics.
Local Open Scope Z_scope.

Record SimplePacket := {
  packet_meta : MetaType → option bytes;
  packet_ct : ConntrackKey → option bytes;
  packet_headers : Z → option bytes }.

Definition SimpleRegisters : Type := Register → bytes.

Definition of_size (n : Z) (o : option bytes) : option bytes :=
  match o with Some v => if len v =? n then Some v else None | None => None end.

Definition store (d : Register) (v : bytes) (rs : SimpleRegisters) : SimpleRegisters :=
  λ d', if decide (d' = d) then v else rs d'.

Definition load (d : Register) (o : option bytes) (rs : SimpleRegisters) : Step SimpleRegisters :=
  match o with Some v => Continue (store d v rs) | None => Break rs end.

Definition simple_part (p : SimplePacket) (base offset n : Z) : option bytes :=
  h ← packet_headers p base;
  if offset + n <=? len h then Some (take (Z.to_nat n) (drop (Z.to_nat offset) h)) else None.

(** Expressions the laws say nothing about have no effect. *)
Definition simple_eval (e : ExpressionVariant) (p : SimplePacket) (rs : SimpleRegisters)
    : Step SimpleRegisters :=
  match e with
  | EMeta (MkMeta (Some d) (Some k) None) =>
      load d (of_size (metadata_size k) (packet_meta p k)) rs
  | EConntrack (MkConntrack (Some d) (Some k) None None) => load d (of_size 4 (packet_ct p k)) rs
  | EPayload (MkPayload (Some d) (Some base) (Some offset) (Some n) None) =>
      load d (simple_part p base offset n) rs
  | EImmediate (MkImmediate (Some d) (Some (MkNfNetlinkData (Some v) None))) => load d (Some v) rs
  | EImmediate (MkImmediate (Some RegVerdict) (Some (MkNfNetlinkData None (Some v)))) => Halt v
  | EBitwise (MkBitwise (Some s) (Some d) (Some n) (Some (MkNfNetlinkData (Some m) None))
      (Some (MkNfNetlinkData (Some x) None))) =>
      load d (Some (bytes_xor (bytes_and (take (Z.to_nat n) (rs s)) m) x)) rs
  | ECmp (MkCmp (Some s) (Some op) (Some (MkNfNetlinkData (Some v) None))) =>
      if cmp_holds op (take (Z.to_nat (len v)) (rs s)) v then Continue rs else Break rs
  | _ => Continue rs
  end.

Definition simple_kernel : NfTables := {|
  Packet := SimplePacket;
  Registers := SimpleRegisters;
  read_register rs d n := take (Z.to_nat n) (rs d);
  metadata p k := of_size (metadata_size k) (packet_meta p k);
  conntrack p k := of_size 4 (packet_ct p k);
  header := packet_headers;
  little_endian := true;
  eval := simple_eval |}.

Lemma of_size_len n o v : of_size n o = Some v → len v = n.
Proof. unfold of_size. destruct o; [|done]. destruct_ifs; zbool; naive_solver. Qed.

Lemma load_loading d o (rs : @Registers simple_kernel) :
  @loading simple_kernel d o rs (load d o rs).
Proof.
  destruct o as [v|]; cbn; [|by eexists]. eexists. split; [done|]. split; cbn.
  - intros n Hn. unfold store. by rewrite decide_True.
  - intros d' n Hd. unfold store. by rewrite decide_False.
Qed.

Lemma simple_kernel_laws : NfTablesLaws simple_kernel.
Proof.
  split; cbn -[load bytes_and bytes_xor cmp_holds]; intros; try apply (load_loading); try done.
  - pose proof (load_loading d (Some v) rs). by destruct d.
  - exact (load_loading d (Some _) rs).
  - by eapply of_size_len.
  - by eapply of_size_len.
Qed.
