(* ===== verification/Examples.v ===== *)
(** * The example programs: [examples/firewall.rs], [examples/add-rules.rs] and
      [examples/filter-ethernet.rs]

    Each program builds a batch and sends it.  A program that uses the socket returns the
    events and its outcome, as in [Query.v].  What the programs print and log is not
    modelled. *)

From stdpp Require Import vector.
From S2P Require Import Prelude Sys Errors Lib Nlmsg Parser ParserImpls Macros Codec Data Objects.
From S2P Require Import Table Chain Exprs ExprMod Payload Rule Sets Batch Query RuleMethods.
Local Open Scope Z_scope.

(** A program: its calls on the socket and its outcome. *)
Definition program_io (E A : Type) : Type := list Event * outcome E A.

(** Sending the batch is the last thing the programs do. *)
Definition then_send `{BuildProfile} `{Sys} {E : Type} (from_query : QueryError → E)
    (m : outcome E Batch) (s : Socket) : program_io E unit :=
  match m with
  | Ok batch => let sent := Batch_send batch s in (sent.1, map_err from_query sent.2)
  | Err e => ([], Err e)
  | Panic => ([], Panic)
  | Ub => ([], Ub)
  | Diverge => ([], Diverge)
  end.

(** [unwrap] of a [Result]. *)
Definition unwrap {E F A : Type} (m : outcome E A) : outcome F A :=
  match m with
  | Ok a => Ok a
  | Err _ | Panic => Panic
  | Ub => Ub
  | Diverge => Diverge
  end.

Definition Ipv4Addr_new (a b c d : byte) : Ipv4Addr := MkIpv4Addr [# a; b; c; d].

(** ** [examples/firewall.rs] *)
Module Firewall.
Inductive Error := BuildError (e : BuilderError) | ApplyError (e : QueryError).

Definition TABLE_NAME : RString := rstr "main-table".
Definition INBOUND_CHAIN_NAME : RString := rstr "in-chain".
Definition FORWARD_CHAIN_NAME : RString := rstr "forward-chain".
Definition OUTBOUND_CHAIN_NAME : RString := rstr "out-chain".

Record Firewall := {
  fw_batch : Batch;
  fw_inbound : Chain;
  fw_outbound : Chain;
  fw_forward : Chain;
  fw_table : Table }.

Section Firewall.
Context `{BuildProfile} `{Sys} `{IpNetworkCrate}.

Definition Firewall_new : outcome Error Firewall :=
  batch ← infallible Batch_new;
  let table := Table_new Inet |> table_with_name TABLE_NAME in
  batch ← infallible (Batch_add table Add batch);
  let inbound := Chain_new table
    |> chain_with_name INBOUND_CHAIN_NAME
    |> chain_with_hook (Hook_new In 0)
    |> chain_with_policy Policy_Drop in
  batch ← infallible (add_to_batch inbound batch);
  let outbound := Chain_new table
    |> chain_with_name OUTBOUND_CHAIN_NAME
    |> chain_with_hook (Hook_new Out 0)
    |> chain_with_policy Policy_Accept in
  batch ← infallible (add_to_batch outbound batch);
  let forward := Chain_new table
    |> chain_with_name FORWARD_CHAIN_NAME
    |> chain_with_hook (Hook_new Forward 0)
    |> chain_with_policy Policy_Accept in
  batch ← infallible (add_to_batch forward batch);
  Ok {| fw_batch := batch; fw_inbound := inbound; fw_outbound := outbound;
        fw_forward := forward; fw_table := table |}.

(** The rules of [start], in order. *)
Definition allow_established (inbound : Chain) : outcome Error Rule :=
  r ← map_err BuildError (Rule_new inbound);
  r ← map_err BuildError (established r);
  Ok (r |> accept).

Definition allow_loopback (inbound : Chain) : outcome Error Rule :=
  r ← map_err BuildError (Rule_new inbound);
  r ← map_err BuildError (iface (rstr "lo") r);
  Ok (r |> accept).

Definition allow_ssh (inbound : Chain) : outcome Error Rule :=
  r ← map_err BuildError (Rule_new inbound);
  let r := r |> dport 22 TCP |> accept in
  log ← map_err BuildError (Log_new None (Some (rstr "allow ssh connection:")));
  Ok (r |> add_expr log).

(** [IpNetwork::new([192, 168, 1, 0].into(), 24).unwrap()]. *)
Definition local_net : outcome Error IpNetwork :=
  unwrap (ok_or (IpNetwork_new (IpAddr_V4 (Ipv4Addr_new Byte.xc0 Byte.xa8 Byte.x01 Byte.x00)) 24)
    tt).

Definition allow_http (inbound : Chain) (net : IpNetwork) : outcome Error Rule :=
  r ← map_err BuildError (Rule_new inbound);
  let r := r |> dport 80 TCP in
  r ← map_err BuildError (snetwork net r);
  Ok (r |> accept).

Definition allow_icmp (inbound : Chain) : outcome Error Rule :=
  r ← map_err BuildError (Rule_new inbound);
  Ok (r |> icmp |> accept).

Definition drop_igmp (inbound : Chain) : outcome Error Rule :=
  r ← map_err BuildError (Rule_new inbound);
  Ok (r |> igmp |> drop_packet).

Definition log_others (inbound : Chain) : outcome Error Rule :=
  r ← map_err BuildError (Rule_new inbound);
  log ← map_err BuildError (Log_new (Some 1) None);
  Ok (r |> add_expr log).

Definition Firewall_start_batch (self : Firewall) : outcome Error Batch :=
  let inbound := fw_inbound self in
  rule ← allow_established inbound;
  batch ← infallible (add_to_batch rule (fw_batch self));
  rule ← allow_loopback inbound;
  batch ← infallible (add_to_batch rule batch);
  rule ← allow_ssh inbound;
  batch ← infallible (add_to_batch rule batch);
  net ← local_net;
  rule ← allow_http inbound net;
  batch ← infallible (add_to_batch rule batch);
  rule ← allow_icmp inbound;
  batch ← infallible (add_to_batch rule batch);
  rule ← drop_igmp inbound;
  batch ← infallible (add_to_batch rule batch);
  rule ← log_others inbound;
  infallible (add_to_batch rule batch).

Definition Firewall_start (self : Firewall) (s : Socket) : program_io Error unit :=
  then_send ApplyError (Firewall_start_batch self) s.

Definition Firewall_stop (self : Firewall) (s : Socket) : program_io Error unit :=
  then_send ApplyError
    (batch ← infallible (Batch_add (fw_table self) Add (fw_batch self));
     infallible (Batch_add (fw_table self) Del batch)) s.

Definition main (s : Socket) : program_io Error unit :=
  match Firewall_new with
  | Ok fw => Firewall_start fw s
  | Err e => ([], Err e)
  | Panic => ([], Panic)
  | Ub => ([], Ub)
  | Diverge => ([], Diverge)
  end.
End Firewall.
End Firewall.

(** ** [examples/add-rules.rs] *)
Module AddRules.
(** The program turns every error into its text; the model keeps the error. *)
Inductive Error :=
  | FromBuilder (e : BuilderError)
  | FromIo (e : IoError)
  | FromNetwork
  | FromQuery (e : QueryError).

Definition TABLE_NAME : RString := rstr "example-table".
Definition OUT_CHAIN_NAME : RString := rstr "chain-for-outgoing-packets".
Definition IN_CHAIN_NAME : RString := rstr "chain-for-incoming-packets".

Section AddRules.
Context `{BuildProfile} `{Sys} `{IpNetworkCrate} `{IfNames}.

Definition table : Table := Table_new Inet |> table_with_name TABLE_NAME.
Definition out_chain : Chain :=
  Chain_new table |> chain_with_name OUT_CHAIN_NAME
    |> chain_with_hook (Hook_new Out 0) |> chain_with_policy Policy_Accept.
Definition in_chain : Chain :=
  Chain_new table |> chain_with_name IN_CHAIN_NAME
    |> chain_with_hook (Hook_new In 0) |> chain_with_policy Policy_Accept.

Definition allow_loopback_in_rule (lo_iface_index : u32) : outcome Error Rule :=
  r ← map_err FromBuilder (Rule_new in_chain);
  Ok (r
    |> add_expr (Meta_new MetaType_Iif)
    |> add_expr (Cmp_new CmpOp_Eq (le_split 4 lo_iface_index))
    |> add_expr (Immediate_new_verdict VerdictKind_Accept)).

Definition private_net : outcome Error IpNetwork :=
  ok_or (Ipv4Network_new (Ipv4Addr_new Byte.x0a Byte.x01 Byte.x00 Byte.x00) 24) FromNetwork.

Definition block_out_to_private_net_rule (net : IpNetwork) : outcome Error Rule :=
  r ← map_err FromBuilder (Rule_new out_chain);
  let r := r
    |> add_expr (Meta_new MetaType_NfProto)
    |> add_expr (Cmp_new CmpOp_Eq (one_byte NFPROTO_IPV4))
    |> add_expr (HighLevelPayload_build (HLP_Network (Network_IPv4 IPv4_Daddr))) in
  b ← map_err FromBuilder (Bitwise_new (ip_to_vec (mask net)) (zeros 4));
  Ok (r
    |> add_expr b
    |> add_expr (Cmp_new CmpOp_Eq (ip_to_vec (net_ip net)))
    |> add_expr Counter_default
    |> add_expr (Immediate_new_verdict VerdictKind_Accept)).

Definition allow_router_solicitation : outcome Error Rule :=
  r ← map_err FromBuilder (Rule_new out_chain);
  Ok (r
    |> add_expr (Meta_new MetaType_NfProto)
    |> add_expr (Cmp_new CmpOp_Eq (one_byte NFPROTO_IPV6))
    |> add_expr (Meta_new MetaType_L4Proto)
    |> add_expr (Cmp_new CmpOp_Eq (one_byte IPPROTO_ICMPV6))
    |> add_expr (HighLevelPayload_build (HLP_Transport (Transport_ICMPv6 ICMPv6_Type)))
    |> add_expr (Cmp_new CmpOp_Eq (one_byte 133))
    |> add_expr (HighLevelPayload_build (HLP_Transport (Transport_ICMPv6 ICMPv6_Code)))
    |> add_expr (Cmp_new CmpOp_Eq (one_byte (discriminant NoRoute)))
    |> add_expr (Immediate_new_verdict VerdictKind_Accept)).

Definition main_batch : outcome Error Batch :=
  batch ← infallible Batch_new;
  batch ← infallible (Batch_add table Add batch);
  batch ← infallible (Batch_add out_chain Add batch);
  batch ← infallible (Batch_add in_chain Add batch);
  lo_iface_index ← map_err FromIo (iface_index (rstr "lo"));
  rule ← allow_loopback_in_rule lo_iface_index;
  batch ← infallible (Batch_add rule Add batch);
  net ← private_net;
  rule ← block_out_to_private_net_rule net;
  batch ← infallible (Batch_add rule Add batch);
  rule ← allow_router_solicitation;
  infallible (Batch_add rule Add batch).

Definition main (s : Socket) : program_io Error unit := then_send FromQuery main_batch s.
End AddRules.
End AddRules.

(** ** [examples/filter-ethernet.rs]

    The program unwraps every result.  [ARPHRD_ETHER] is a constant of the crate libc. *)
Module FilterEthernet.
Definition TABLE_NAME : RString := rstr "example-filter-ethernet".
Definition OUT_CHAIN_NAME : RString := rstr "chain-for-outgoing-packets".
Definition BLOCK_THIS_MAC : bytes := [Byte.x01; Byte.x02; Byte.x03; Byte.x04; Byte.x05; Byte.x06].

Section FilterEthernet.
Context `{BuildProfile} `{Sys} (ARPHRD_ETHER : Z).

Definition table : Table := Table_new Inet |> table_with_name TABLE_NAME.
Definition out_chain : Chain :=
  Chain_new table |> chain_with_name OUT_CHAIN_NAME
    |> chain_with_hook (Hook_new Out 3) |> chain_with_policy Policy_Accept.

(** [with_value] converts its argument to a raw expression. *)
Definition with_expr_value {T : Type} `{Expression T} `{IntoVariant T} (e : T) (l : ExpressionList)
    : ExpressionList :=
  with_value l (RawExpression_from e).

Definition block_ethernet_rule : outcome Empty_set Rule :=
  r ← unwrap (Rule_new out_chain);
  Ok (r |> rule_with_expressions (NfNetlinkList_default
    |> with_expr_value (Meta_new MetaType_IifType)
    |> with_expr_value (Cmp_new CmpOp_Eq (le_split 2 (as_u16 ARPHRD_ETHER)))
    |> with_expr_value (HighLevelPayload_build (HLP_LinkLayer LL_Daddr))
    |> with_expr_value (Cmp_new CmpOp_Eq BLOCK_THIS_MAC)
    |> with_expr_value (Immediate_new_verdict VerdictKind_Drop))).

Definition random_rule : outcome Empty_set Rule :=
  r ← unwrap (Rule_new out_chain);
  Ok (r |> rule_with_expressions (NfNetlinkList_default
    |> with_expr_value Counter_default
    |> with_expr_value (Meta_new MetaType_PRandom)
    |> with_expr_value (Cmp_new CmpOp_Gt (be_bytes 4 ((2 ^ 32 - 1) / 2)))
    |> with_expr_value Counter_default)).

Definition main_batch : outcome Empty_set Batch :=
  batch ← Batch_new;
  batch ← Batch_add table Add batch;
  batch ← Batch_add out_chain Add batch;
  rule ← block_ethernet_rule;
  batch ← Batch_add rule Add batch;
  rule ← random_rule;
  Batch_add rule Add batch.

Definition main (s : Socket) : program_io QueryError unit :=
  let run := then_send (λ e : QueryError, e) (infallible main_batch) s in
  (run.1, unwrap run.2).
End FilterEthernet.
End FilterEthernet.
