(* ===== verification/ExamplesSpec.v ===== *)
(** * The example programs: what they send and what their rules decide

    For each rule of the examples: that it is built, that it can be sent, and which
    packets it decides about.  The theorems are in [RuleTheorems.v]. *)

From stdpp Require Import vector.
From S2P Require Import Prelude Sys Errors Lib Nlmsg Parser ParserImpls Macros Codec Data Objects.
From S2P Require Import Table Chain Exprs ExprMod Payload Rule Sets Batch Query Exchange RuleMethods.
From S2P Require Import RuleBuild RuleSend Semantics Meaning Examples.
Local Open Scope Z_scope.

(** ** Sending the batch of a program *)
Section Programs.
Context `{BuildProfile} `{SysLaws}.

Lemma infallible_bind {E A B : Type} (m : outcome Empty_set A) (k : A → outcome Empty_set B) :
  infallible (E := E) (m ≫= k) = (infallible m ≫= λ a, infallible (k a)).
Proof. by destruct m. Qed.

(** The batch of a list of items, as the programs build it. *)
Definition batch_of_items (l : list BatchItem) : outcome Empty_set Batch :=
  b ← Batch_new; Batch_add_items l b.

Lemma batch_of_items_Ok l :
  Forall item_ok l → 1 + len l < 2 ^ 32 → ∃ b, batch_of_items l = Ok b.
Proof.
  intros Hl Hn. unfold batch_of_items. rewrite Batch_new_spec. obind.
  rewrite Batch_add_items_spec by (done || lia). eauto.
Qed.

(** The program's events and result, when the socket works and the kernel answers. *)
Definition sends_items {E : Type} (from_query : QueryError → E) (l : list BatchItem)
    (main : Socket → program_io E unit) : Prop :=
  ∀ counts pid acks,
    Forall (λ c, 0 < c) counts → foldr Z.add 0 counts = len (batch_bytes l) →
    Forall (ack_ok pid) acks →
    ∃ es, main (working_socket (map Sent counts) (ack_script pid acks))
      = ([Opened; Bound] ++ es ++ closing (acks_result (len l) acks),
         map_err from_query (acks_result (len l) acks))
      ∧ wire es = batch_bytes l.

Lemma then_send_items {E} (from_query : QueryError → E) l :
  Forall item_ok l → 1 + len l < 2 ^ 32 →
  sends_items from_query l (then_send from_query (infallible (batch_of_items l))).
Proof.
  intros Hl Hn counts pid acks Hc Hsum Ha.
  destruct (batch_of_items_Ok l Hl Hn) as [b Hbatch]. rewrite Hbatch.
  cbn [infallible map_err then_send].
  destruct (Batch_send_acks l b counts pid acks) as (es & -> & Hw); eauto.
Qed.

Lemma sends_items_ext {E} (f : QueryError → E) l m m' :
  (∀ s, m s = m' s) → sends_items f l m → sends_items f l m'.
Proof. intros Hm Hs counts pid acks. rewrite <- Hm. apply Hs. Qed.
End Programs.

(** Both sides add the same object to the same batch. *)
Ltac add_step :=
  match goal with |- context [infallible (Batch_add ?x ?m ?b)] =>
    destruct (Batch_add x m b) as [?b|[]| | |]; [|done..]; cbn [infallible map_err]; obind
  end.

(** ** Tables and base chains *)
Section BaseChains.
Context `{BuildProfile} `{SysLaws}.

Definition inet_table (name : RString) : Table := Table_new Inet |> table_with_name name.
Definition base_chain (table name : RString) (class : HookClass) (priority : i32)
    (policy : ChainPolicy) : Chain :=
  Chain_new (inet_table table) |> chain_with_name name |> chain_with_hook (Hook_new class priority)
    |> chain_with_policy policy.

Lemma inet_table_sendable name : sendable_name name = true → object_sendable (inet_table name).
Proof.
  unfold sendable_name. intros [Hn ?%Z.ltb_lt]%andb_true_iff. apply object_readable_sendable.
  pose proof (codec_size name Hn) as Hs. change (get_size name) with (len name) in Hs.
  assert (absent_ok Table_fields (inet_table name) = true) as Ha.
  { unfold absent_ok, Table_fields. cbn [forallb]. rewrite !accepted_required by done.
    cbn [orb andb]. by rewrite orb_true_r. }
  apply struct_object_readable_intro; [done| |apply accept_nonempty; [done|]|rewrite accept_size by done].
  - change (value_ok name && true = true). by rewrite Hn.
  - by repeat split.
  - change (fields_size _ _) with ((4 + pad_netlink_object_with_variable_size (len name)) + 0).
    pad_facts. lia.
Qed.

(** Base chains can be sent. *)
Lemma base_chain_sendable table name class priority policy :
  sendable_name table = true → sendable_name name = true →
  object_sendable (base_chain table name class priority policy).
Proof.
  unfold sendable_name. intros [Ht ?%Z.ltb_lt]%andb_true_iff [Hn ?%Z.ltb_lt]%andb_true_iff.
  apply chain_sendable.
  set (c := chain_accepting _). pose proof (codec_size name Hn) as Hs.
  pose proof (codec_size table Ht) as Hts. change (get_size table) with (len table) in Hts.
  change (get_size name) with (len name) in Hs.
  assert (sendable (Hook_new class priority) 16) as [Hh Hhs].
  { apply struct_sendable; [| | |lia].
    - change (value_ok (as_u32 (HookClass_value class) : u32)
        && (value_ok (as_u32 priority : u32) && true) = true).
      by rewrite !u32_small by apply as_u32_ok.
    - done.
    - change (fields_size _ _) with (4 + pad_netlink_object_with_variable_size 4
        + (4 + pad_netlink_object_with_variable_size 4 + 0)). rewrite pad_4. lia. }
  assert (absent_ok Chain_fields c = true) as Ha.
  { unfold absent_ok, Chain_fields. cbn [forallb]. rewrite !accepted_required by done.
    cbn [orb andb]. by rewrite orb_true_r. }
  apply struct_object_readable_intro; [done| |apply accept_nonempty; [done|]|rewrite accept_size by done].
  - change (value_ok table && (value_ok name && (value_ok (Hook_new class priority) && true)) = true).
    by rewrite Ht, Hn, Hh.
  - repeat split; done || apply (proj1 Hhs).
  - change (fields_size _ _) with ((4 + pad_netlink_object_with_variable_size (len table))
      + ((4 + pad_netlink_object_with_variable_size (len name))
      + ((4 + pad_netlink_object_with_variable_size (get_size (Hook_new class priority)))
      + ((4 + pad_netlink_object_with_variable_size 4) + 0)))).
    pad_facts. lia.
Qed.
End BaseChains.

(** ** Rules that are assembled from a fresh one *)
Section Assembly.
Context `{BuildProfile} `{SysLaws} `{IpNetworkLaws}.
Context (base : Rule).

Definition built_by {E : Type} (m : outcome E Rule) : Prop :=
  ∃ r n, m = Ok r ∧ assembled base n r ∧ (0 < n ≤ 150)%nat.

Lemma built_by_intro {E} (m : outcome E Rule) r n :
  m = Ok r → assembled base n r → (0 < n ≤ 150)%nat → built_by m.
Proof. intros. by exists r, n. Qed.

Lemma accept_assembled n r : assembled base n r → assembled base (S n) (accept r).
Proof. intros Hr. eapply assembled_method; [done|apply step_accept]. Qed.

Lemma sendable_assembled {T} `{NfNetlinkAttribute T, NfNetlinkDeserializable T, !Codec T}
    `{Expression T, IntoVariant T, !KnownExpression T} (e : T) k n r :
  sendable e k → k ≤ 390 → assembled base n r → assembled base (S n) (add_expr e r).
Proof. intros [He Hs] Hk Hr. apply (assembled_expr base n r T e); [done..|lia]. Qed.

Lemma built_by_sendable {E} (m : outcome E Rule) c :
  option_ok sendable_name (chain_table c) = true →
  option_ok sendable_name (chain_name c) = true →
  Rule_new c = Ok base → built_by m → ∃ r, m = Ok r ∧ object_sendable r.
Proof.
  intros Ht Hc Hnew (r & n & Hm & Ha & Hn). exists r. split; [done|].
  by apply (assembled_sendable c base n).
Qed.

Lemma counter_assembled n r : assembled base n r → assembled base (S n) (add_expr Counter_default r).
Proof. intros Hr. by apply (assembled_expr base n r Counter Counter_default). Qed.
End Assembly.

(** Close a chain of [add_expr]. *)
Ltac assemble :=
  repeat lazymatch goal with
  | |- assembled _ _ (add_expr Counter_default _) => apply counter_assembled
  | |- assembled _ _ (add_expr (Meta_new ?k) _) =>
      apply (sendable_assembled _ (Meta_new k) 16); [apply Meta_sendable|lia|]
  | |- assembled _ _ (add_expr (HighLevelPayload_build ?h) _) =>
      apply (sendable_assembled _ (HighLevelPayload_build h) 32); [apply built_sendable|lia|]
  | |- assembled _ _ (add_expr (Cmp_new ?op ?v) _) =>
      apply (sendable_assembled _ (Cmp_new op v) 46);
        [apply Cmp_sendable; lazymatch v with
           | one_byte _ => apply len_one
           | ip_to_vec _ => apply len_ip_small
           | be_bytes _ _ => by apply len_be
           | _ => done
           end|lia|]
  | |- assembled _ _ (add_expr (Immediate_new_verdict ?v) _) =>
      apply (sendable_assembled _ (Immediate_new_verdict v) 30); [apply verdict_sendable; auto|lia|]
  | |- assembled _ _ (add_expr ?b _) =>
      apply (sendable_assembled _ b 84); [assumption|lia|]
  | |- _ => apply assembled_base
  end.

(** ** Networks of 24 bits and expressions without an effect *)
Section Decisions.
Context `{SysLaws} `{NfTablesLaws}.

Lemma be_value_snoc l d : Z.shiftr (be_value (l ++ [d])) 8 = be_value l.
Proof.
  unfold be_value. rewrite rev_unit, le_combine_cons, Z.shiftr_lor.
  rewrite Z.shiftr_shiftl_l by lia. rewrite Z.sub_diag, Z.shiftl_0_r.
  pose proof (byte.unsigned_range d). rewrite (Z.shiftr_div_pow2 (byte.unsigned d)) by lia.
  by rewrite Z.div_small.
Qed.

(** Two addresses agree on 24 bits when they have the same first three bytes. *)
Lemma agree_24 a x y z w :
  len a = 4 →
  (Z.shiftr (be_value a) 8 =? Z.shiftr (be_value [x; y; z; w]) 8)
  = bool_decide (take 3 a = [x; y; z]).
Proof.
  intros Ha. assert (∃ l d, a = l ++ [d] ∧ length l = 3%nat) as (l & d & -> & Hl).
  { destruct a as [|a0 [|a1 [|a2 [|a3 [|]]]]]; try (unfold len in Ha; cbn in Ha; lia).
    by exists [a0; a1; a2], a3. }
  rewrite be_value_snoc, take_app_length' by done.
  change [x; y; z; w] with ([x; y; z] ++ [w]). rewrite be_value_snoc.
  apply cmp_eq_bytes. unfold len. by rewrite Hl.
Qed.

(** The first three bytes of the source or destination address of an IPv4 packet. *)
Definition address_24 (source : bool) (x y z : byte) (p : Packet) : bool :=
  match packet_address source true p with
  | Some a => bool_decide (take 3 a = [x; y; z])
  | None => false
  end.

Lemma narrows_continue {T} `{Expression T, IntoVariant T} (e : T) r0 r U :
  (∀ p rs, eval (into_variant e) p rs = Continue rs) → narrows r0 r U → narrows r0 (add_expr e r) U.
Proof.
  intros He Hr. eapply narrows_ext; [eapply narrows_trans; [exact Hr|]|].
  - apply (narrows_selects _ _ [into_variant e] (λ _, true)); [apply program_add|].
    intros p rs. exists rs. by rewrite run_cons, He.
  - intros p. apply andb_true_r.
Qed.

Lemma new_program c base : Rule_new c = Ok base → program base = [].
Proof. by intros (? & ? & _ & _ & ->)%Rule_new_Ok. Qed.
End Decisions.

(** ** The rules of the firewall *)
Module FirewallSpec.
Import Firewall.

(** The rules of [start], in order. *)
Definition inbound_rules `{Sys} `{IpNetworkCrate} (c : Chain) : outcome Error (list Rule) :=
  r1 ← allow_established c;
  r2 ← allow_loopback c;
  r3 ← allow_ssh c;
  net ← local_net;
  r4 ← allow_http c net;
  r5 ← allow_icmp c;
  r6 ← drop_igmp c;
  r7 ← log_others c;
  Ok [r1; r2; r3; r4; r5; r6; r7].

Section Built.
Context `{BuildProfile} `{SysLaws} `{IpNetworkLaws}.
Context (c : Chain) (base : Rule) (new : Rule_new c = Ok base).

Lemma allow_established_built : built_by base (allow_established c).
Proof.
  unfold allow_established. rewrite new. cbn [map_err]. obind.
  destruct (established_extends base) as (r & Hr & _). rewrite Hr.
  apply (built_by_intro _ _ _ 2 eq_refl); [|lia]. apply accept_assembled.
  eapply assembled_method; [apply assembled_base|by apply step_established].
Qed.

Lemma allow_loopback_built : built_by base (allow_loopback c).
Proof.
  unfold allow_loopback. rewrite new. cbn [map_err]. obind.
  assert (∃ r, iface (rstr "lo") base = Ok r) as [r Hr].
  { unfold iface. rewrite ifnamsiz_16. by eexists. }
  rewrite Hr. apply (built_by_intro _ _ _ 2 eq_refl); [|lia]. apply accept_assembled.
  eapply assembled_method; [apply assembled_base|by eapply step_iface].
Qed.

Lemma allow_ssh_built : built_by base (allow_ssh c).
Proof.
  unfold allow_ssh. rewrite new. cbn [map_err]. obind.
  apply (built_by_intro _ _ _ 3 eq_refl); [|lia].
  eapply (sendable_assembled _ _ 134); [by apply Log_prefix_sendable|lia|]. apply accept_assembled.
  eapply assembled_method; [apply assembled_base|apply step_dport].
Qed.

Lemma local_net_Ok :
  ∃ net, local_net = Ok net
    ∧ net_ip net = IpAddr_V4 (Ipv4Addr_new Byte.xc0 Byte.xa8 Byte.x01 Byte.x00) ∧ prefix net = 24.
Proof.
  unfold local_net.
  destruct (proj2 (new_total (IpAddr_V4 (Ipv4Addr_new Byte.xc0 Byte.xa8 Byte.x01 Byte.x00)) 24
    ltac:(lia)) ltac:(cbn; lia)) as [net Hnet].
  rewrite Hnet. exists net. split; [done|by apply new_spec].
Qed.

Lemma allow_http_built net : built_by base (allow_http c net).
Proof.
  unfold allow_http. rewrite new. cbn [map_err]. obind.
  destruct (match_network_extends net true (dport 80 TCP base)) as (r & Hr & _).
  change (snetwork net (dport 80 TCP base)) with (match_network net true (dport 80 TCP base)).
  rewrite Hr. apply (built_by_intro _ _ _ 3 eq_refl); [|lia]. apply accept_assembled.
  eapply assembled_method; [eapply assembled_method; [apply assembled_base|apply step_dport]|].
  by eapply step_snetwork.
Qed.

Lemma allow_icmp_built : built_by base (allow_icmp c).
Proof.
  unfold allow_icmp. rewrite new. apply (built_by_intro _ _ _ 2 eq_refl); [|lia].
  apply accept_assembled. eapply assembled_method; [apply assembled_base|apply step_icmp].
Qed.

Lemma drop_igmp_built : built_by base (drop_igmp c).
Proof.
  unfold drop_igmp. rewrite new. apply (built_by_intro _ _ _ 2 eq_refl); [|lia].
  eapply assembled_method; [eapply assembled_method; [apply assembled_base|apply step_igmp]|].
  apply step_drop.
Qed.

Lemma log_others_built : built_by base (log_others c).
Proof.
  unfold log_others. rewrite new. apply (built_by_intro _ _ _ 1 eq_refl); [|lia].
  eapply (sendable_assembled _ _ 8); [by apply Log_group_sendable|lia|apply assembled_base].
Qed.
End Built.

(** What [main] sends. *)
Section Sent.
Context `{BuildProfile} `{SysLaws} `{IpNetworkLaws}.

Definition table : Table := inet_table TABLE_NAME.
Definition inbound : Chain := base_chain TABLE_NAME INBOUND_CHAIN_NAME In 0 Policy_Drop.
Definition outbound : Chain := base_chain TABLE_NAME OUTBOUND_CHAIN_NAME Out 0 Policy_Accept.
Definition forward : Chain := base_chain TABLE_NAME FORWARD_CHAIN_NAME Forward 0 Policy_Accept.

Definition items (rules : list Rule) : list BatchItem :=
  [mk_item Table_object_laws table Add; mk_item Chain_object_laws inbound Add;
   mk_item Chain_object_laws outbound Add; mk_item Chain_object_laws forward Add]
  ++ map (λ r, mk_item Rule_object_laws r Add) rules.

Lemma firewall_rules_built :
  ∃ rules, inbound_rules inbound = Ok rules ∧ Forall object_sendable rules ∧ len rules = 7.
Proof.
  assert (∃ base, Rule_new inbound = Ok base) as [base new] by (by eexists).
  pose proof (λ m, built_by_sendable (E := Error) base m inbound eq_refl eq_refl new) as Hs.
  destruct (Hs _ (allow_established_built _ _ new)) as (r1 & E1 & S1).
  destruct (Hs _ (allow_loopback_built _ _ new)) as (r2 & E2 & S2).
  destruct (Hs _ (allow_ssh_built _ _ new)) as (r3 & E3 & S3).
  destruct local_net_Ok as (net & Hnet & _).
  destruct (Hs _ (allow_http_built _ _ new net)) as (r4 & E4 & S4).
  destruct (Hs _ (allow_icmp_built _ _ new)) as (r5 & E5 & S5).
  destruct (Hs _ (drop_igmp_built _ _ new)) as (r6 & E6 & S6).
  destruct (Hs _ (log_others_built _ _ new)) as (r7 & E7 & S7).
  exists [r1; r2; r3; r4; r5; r6; r7]. split; [|split; [|done]].
  2: { repeat (apply List.Forall_cons; [done|]). apply List.Forall_nil. }
  unfold inbound_rules. rewrite E1, E2, E3, Hnet. obind. by rewrite E4, E5, E6, E7.
Qed.

Lemma firewall_items_ok rules : Forall object_sendable rules → Forall item_ok (items rules).
Proof.
  intros Hr. repeat apply List.Forall_cons.
  - by apply inet_table_sendable.
  - by apply base_chain_sendable.
  - by apply base_chain_sendable.
  - by apply base_chain_sendable.
  - by apply List.Forall_map.
Qed.

(** [main] builds exactly the batch of the items. *)
Lemma firewall_main_items rules s :
  inbound_rules inbound = Ok rules →
  main s = then_send ApplyError (infallible (batch_of_items (items rules))) s.
Proof.
  unfold inbound_rules. intros Hr.
  repeat (let E := fresh "E" in apply bind_Ok_inv in Hr as (? & E & Hr)). injection Hr as <-.
  unfold main, Firewall_new, batch_of_items. cbn [items app map Batch_add_items].
  unfold Batch_add_item, Firewall_start, Firewall_start_batch, add_to_batch.
  cbn [item_type item_object item_attribute item item_msg mk_item]. fold (inet_table TABLE_NAME).
  fold (base_chain TABLE_NAME INBOUND_CHAIN_NAME In 0 Policy_Drop) inbound.
  fold (base_chain TABLE_NAME OUTBOUND_CHAIN_NAME Out 0 Policy_Accept) outbound.
  fold (base_chain TABLE_NAME FORWARD_CHAIN_NAME Forward 0 Policy_Accept) forward.
  fold table. destruct Batch_new as [b0|[]| | |]; [|done..]. cbn [infallible map_err]. obind.
  do 4 add_step. cbn [fw_inbound fw_batch].
  rewrite E, E0, E1, E2. obind. add_step. add_step. add_step. rewrite E3, E4, E5, E6. obind.
  by do 4 add_step.
Qed.

Lemma firewall_main_sends :
  ∃ rules, inbound_rules inbound = Ok rules
    ∧ Forall item_ok (items rules) ∧ sends_items ApplyError (items rules) main.
Proof.
  destruct firewall_rules_built as (rules & Hr & Hs & Hl). exists rules.
  pose proof (firewall_items_ok rules Hs) as Hi. split_and!; [done..|].
  eapply sends_items_ext; [intros s; symmetry; by apply firewall_main_items|].
  apply then_send_items; [done|]. unfold items. rewrite len_app. unfold len in *.
  rewrite length_map. cbn. lia.
Qed.
End Sent.

(** *** What the rules decide *)
Section Decisions.
Context `{BuildProfile} `{SysLaws} `{IpNetworkLaws} `{NfTablesLaws}.

(** A packet from 192.168.1.0/24. *)
Definition from_lan : Packet → bool := address_24 true Byte.xc0 Byte.xa8 Byte.x01.

Definition on_loopback (p : Packet) : bool :=
  bool_decide (interface_name MetaType_IifName p = Some (rstr "lo" : bytes)).

Definition allowed (p : Packet) : bool :=
  in_established p || on_loopback p || has_port false TCP 22 p
  || (has_port false TCP 80 p && from_lan p) || is_l4 IPPROTO_ICMP p.

Lemma in_local_net net p :
  local_net = Ok net → in_network true net p = from_lan p.
Proof.
  intros Hnet. destruct local_net_Ok as (net' & Hnet' & Hip & Hp).
  assert (net' = net) as -> by congruence.
  pose proof (ip_family net) as Hv4. rewrite Hip in Hv4. cbn in Hv4.
  unfold in_network, from_lan, address_24. rewrite <- Hv4, Hp, Hip. cbv zeta.
  destruct (packet_address true true p) as [a|] eqn:Ha; [|done].
  unfold packet_address in Ha. destruct (is_nf _ p); [|done].
  apply header_part_len in Ha; [|done..]. change (ip_width true - 24) with 8.
  by apply agree_24.
Qed.

Context (c : Chain).

Lemma allow_established_decides r :
  little_endian = true → allow_established c = Ok r →
  decides r in_established VerdictType_Accept.
Proof.
  intros Hle. unfold allow_established. destruct (Rule_new c) as [base| | | |] eqn:Hb; try done.
  cbn [map_err]. obind. destruct (established_narrows base Hle) as (r' & -> & Hn).
  intros [= <-]. eapply accept_decides; [by eapply new_program|done].
Qed.

Lemma allow_loopback_decides r :
  allow_loopback c = Ok r → decides r on_loopback VerdictType_Accept.
Proof.
  unfold allow_loopback. destruct (Rule_new c) as [base| | | |] eqn:Hb; try done.
  unfold iface. rewrite ifnamsiz_16. intros [= <-].
  eapply accept_decides; [by eapply new_program|].
  apply (interface_name_narrows MetaType_IifName (rstr "lo")); [done| |done].
  by apply (find_nul_None 0).
Qed.

Lemma allow_ssh_decides r :
  allow_ssh c = Ok r → decides r (has_port false TCP 22) VerdictType_Accept.
Proof.
  unfold allow_ssh. destruct (Rule_new c) as [base| | | |] eqn:Hb; try done. intros [= <-].
  apply decides_after; [intros; rewrite eval_log; eauto|].
  eapply accept_decides; [by eapply new_program|by apply packet_port_narrows].
Qed.

Lemma allow_http_decides net r :
  local_net = Ok net → allow_http c net = Ok r →
  decides r (λ p, has_port false TCP 80 p && from_lan p) VerdictType_Accept.
Proof.
  intros Hnet. unfold allow_http. destruct (Rule_new c) as [base| | | |] eqn:Hb; try done.
  cbn [map_err]. obind. unfold snetwork.
  destruct (match_network_narrows net true (dport 80 TCP base)) as (r' & -> & Hn).
  intros [= <-]. eapply accept_decides; [by eapply new_program|].
  eapply narrows_ext; [eapply narrows_trans; [by apply (packet_port_narrows 80 TCP false)|exact Hn]|].
  intros p. cbn beta. by rewrite (in_local_net net).
Qed.

Lemma allow_icmp_decides r : allow_icmp c = Ok r → decides r (is_l4 IPPROTO_ICMP) VerdictType_Accept.
Proof.
  unfold allow_icmp. destruct (Rule_new c) as [base| | | |] eqn:Hb; try done. intros [= <-].
  eapply accept_decides; [by eapply new_program|apply icmp_narrows].
Qed.

Lemma drop_igmp_decides r : drop_igmp c = Ok r → decides r (is_l4 IPPROTO_IGMP) VerdictType_Drop.
Proof.
  unfold drop_igmp. destruct (Rule_new c) as [base| | | |] eqn:Hb; try done. intros [= <-].
  eapply drop_decides; [by eapply new_program|apply igmp_narrows].
Qed.

Lemma log_others_continues r p rs :
  log_others c = Ok r → ∃ rs', rule_eval r p rs = Continue rs'.
Proof.
  unfold log_others. destruct (Rule_new c) as [base| | | |] eqn:Hb; try done. intros [= <-].
  unfold rule_eval. rewrite program_add, (new_program c base Hb). cbn [app run].
  rewrite eval_log. eauto.
Qed.

Lemma rules_decide rules p rs :
  little_endian = true → inbound_rules c = Ok rules → chain_policy c = Some Policy_Drop →
  decision c rules p rs = Some (allowed p).
Proof.
  intros Hle Hr Hc. unfold inbound_rules in Hr.
  repeat (let E := fresh "E" in apply bind_Ok_inv in Hr as (? & E & Hr)). injection Hr as <-.
  unfold decision.
  erewrite chain_decides; [|by apply allow_established_decides|intros rs1].
  2: { eapply chain_decides; [by apply allow_loopback_decides|intros rs2].
       eapply chain_decides; [by apply allow_ssh_decides|intros rs3].
       eapply chain_decides; [by eapply allow_http_decides|intros rs4].
       eapply chain_decides; [by apply allow_icmp_decides|intros rs5].
       eapply chain_decides; [by apply drop_igmp_decides|intros rs6].
       cbn [chain_eval]. destruct (log_others_continues x6 p rs6 E6) as [rs7 ->].
       done. }
  rewrite Hc. unfold allowed. by destruct (in_established p), (on_loopback p),
    (has_port false TCP 22 p), (has_port false TCP 80 p && from_lan p), (is_l4 IPPROTO_ICMP p),
    (is_l4 IPPROTO_IGMP p).
Qed.
End Decisions.
End FirewallSpec.

(** ** [examples/add-rules.rs] *)
Module AddRulesSpec.
Import AddRules.

Section Sent.
Context `{BuildProfile} `{SysLaws} `{IpNetworkLaws}.

Definition incoming : Chain := base_chain TABLE_NAME IN_CHAIN_NAME In 0 Policy_Accept.
Definition outgoing : Chain := base_chain TABLE_NAME OUT_CHAIN_NAME Out 0 Policy_Accept.

(** The rules, given the index of the loopback interface. *)
Definition rules (lo : u32) : outcome Error (Rule * Rule * Rule) :=
  r1 ← allow_loopback_in_rule lo;
  net ← private_net;
  r2 ← block_out_to_private_net_rule net;
  r3 ← allow_router_solicitation;
  Ok (r1, r2, r3).

Definition items (rs : Rule * Rule * Rule) : list BatchItem :=
  [mk_item Table_object_laws (inet_table TABLE_NAME) Add;
   mk_item Chain_object_laws outgoing Add; mk_item Chain_object_laws incoming Add;
   mk_item Rule_object_laws rs.1.1 Add; mk_item Rule_object_laws rs.1.2 Add;
   mk_item Rule_object_laws rs.2 Add].

Lemma private_net_Ok :
  ∃ net, private_net = Ok net
    ∧ net_ip net = IpAddr_V4 (Ipv4Addr_new Byte.x0a Byte.x01 Byte.x00 Byte.x00) ∧ prefix net = 24.
Proof.
  unfold private_net. rewrite new_v4.
  destruct (proj2 (new_total (IpAddr_V4 (Ipv4Addr_new Byte.x0a Byte.x01 Byte.x00 Byte.x00)) 24
    ltac:(lia)) ltac:(cbn; lia)) as [net Hnet].
  rewrite Hnet. exists net. split; [done|by apply new_spec].
Qed.

Lemma add_rules_built lo :
  ∃ rs, rules lo = Ok rs ∧ object_sendable rs.1.1 ∧ object_sendable rs.1.2 ∧ object_sendable rs.2.
Proof.
  assert (∃ base, Rule_new in_chain = Ok base) as [inb Hin] by (by eexists).
  assert (∃ base, Rule_new out_chain = Ok base) as [outb Hout] by (by eexists).
  destruct private_net_Ok as (net & Hnet & Hip & _).
  pose proof (ip_family net) as Hv4. rewrite Hip in Hv4. cbn in Hv4.
  destruct (Bitwise_sendable (ip_to_vec (mask net)) (zeros 4)) as (b & Hb & Hbs).
  { rewrite len_ip, mask_family, <- Hv4. done. }
  { apply len_ip_small. }
  destruct (built_by_sendable inb (allow_loopback_in_rule lo) in_chain eq_refl eq_refl Hin)
    as (r1 & E1 & S1).
  { unfold allow_loopback_in_rule. rewrite Hin. apply (built_by_intro _ _ _ 3 eq_refl); [|lia].
    assemble. }
  destruct (built_by_sendable outb (block_out_to_private_net_rule net) out_chain eq_refl eq_refl Hout)
    as (r2 & E2 & S2).
  { unfold block_out_to_private_net_rule. rewrite Hout. cbn [map_err]. obind. rewrite Hb.
    apply (built_by_intro _ _ _ 7 eq_refl); [|lia]. assemble. }
  destruct (built_by_sendable outb allow_router_solicitation out_chain eq_refl eq_refl Hout)
    as (r3 & E3 & S3).
  { unfold allow_router_solicitation. rewrite Hout. apply (built_by_intro _ _ _ 9 eq_refl); [|lia].
    assemble. }
  exists (r1, r2, r3). split; [|done]. unfold rules. rewrite E1. obind. rewrite Hnet. obind.
  by rewrite E2, E3.
Qed.

Lemma add_rules_items_ok rs :
  object_sendable rs.1.1 → object_sendable rs.1.2 → object_sendable rs.2 → Forall item_ok (items rs).
Proof.
  intros. repeat apply List.Forall_cons; [..|apply List.Forall_nil]; try done.
  - by apply inet_table_sendable.
  - by apply base_chain_sendable.
  - by apply base_chain_sendable.
Qed.

Context `{IfNames}.

Lemma add_rules_main_items lo rs s :
  iface_index (rstr "lo") = Ok lo → rules lo = Ok rs →
  main s = then_send FromQuery (infallible (batch_of_items (items rs))) s.
Proof.
  intros Hlo Hr. unfold rules in Hr.
  repeat (let E := fresh "E" in apply bind_Ok_inv in Hr as (? & E & Hr)). injection Hr as <-.
  unfold main, main_batch, batch_of_items. cbn [items Batch_add_items fst snd].
  unfold Batch_add_item. cbn [item_type item_object item_attribute item item_msg mk_item].
  fold table. change (base_chain TABLE_NAME IN_CHAIN_NAME In 0 Policy_Accept) with in_chain.
  change outgoing with out_chain. change incoming with in_chain.
  change (inet_table TABLE_NAME) with table.
  destruct Batch_new as [b0|[]| | |]; [|done..]. cbn [infallible map_err]. obind.
  do 3 add_step. rewrite Hlo. cbn [map_err]. obind. rewrite E. obind. add_step. rewrite E0. obind.
  rewrite E1. obind. add_step. rewrite E2. obind. by add_step.
Qed.

(** The batch is sent when there is a loopback interface; otherwise nothing is. *)
Lemma add_rules_main_sends :
  (∀ lo, iface_index (rstr "lo") = Ok lo →
     ∃ rs, rules lo = Ok rs ∧ sends_items FromQuery (items rs) main)
  ∧ (∀ e s, iface_index (rstr "lo") = Err e → main s = ([], Err (FromIo e))).
Proof.
  split.
  - intros lo Hlo. destruct (add_rules_built lo) as (rs & Hr & S1 & S2 & S3). exists rs.
    split; [done|]. eapply sends_items_ext; [intros s; symmetry; by eapply add_rules_main_items|].
    apply then_send_items; [by apply add_rules_items_ok|done].
  - intros e s He. unfold main, main_batch.
    destruct (add_rules_built 0) as (rs & _ & S1 & S2 & S3).
    pose proof (add_rules_items_ok rs S1 S2 S3) as Hi. unfold items in Hi. rewrite !list.Forall_cons in Hi.
    destruct Hi as (I1 & I2 & I3 & _). rewrite Batch_new_spec. cbn [infallible map_err]. obind.
    change table with (inet_table TABLE_NAME). change out_chain with outgoing.
    change in_chain with incoming.
    do 3 (rewrite Batch_add_spec by (exact I1 || exact I2 || exact I3 || lia);
          cbn [infallible map_err]; obind).
    by rewrite He.
Qed.
End Sent.

(** *** What the rules decide *)
Section Decisions.
Context `{BuildProfile} `{SysLaws} `{IpNetworkLaws} `{NfTablesLaws}.

(** A router solicitation: an ICMPv6 message of type 133 and code 0. *)
Definition router_solicitation (p : Packet) : bool :=
  is_nf NFPROTO_IPV6 p && is_l4 IPPROTO_ICMPV6 p
  && bool_decide (header_part p NFT_PAYLOAD_TRANSPORT_HEADER 0 1 = Some (one_byte 133))
  && bool_decide (header_part p NFT_PAYLOAD_TRANSPORT_HEADER 1 1
       = Some (one_byte (discriminant NoRoute))).

Lemma loopback_decides lo r :
  little_endian = true → u32_ok lo → allow_loopback_in_rule lo = Ok r →
  decides r (λ p, bool_decide (interface_index MetaType_Iif p = Some lo)) VerdictType_Accept.
Proof.
  intros Hle Hlo. unfold allow_loopback_in_rule.
  destruct (Rule_new in_chain) as [base| | | |] eqn:Hb; try done. intros [= <-].
  eapply accept_decides; [by eapply new_program|].
  eapply narrows_ext; [by apply (narrows_meta_all MetaType_Iif (le_split 4 lo))|]. intros p.
  unfold interface_index, host_value. rewrite Hle. apply bool_decide_ext.
  destruct (metadata p MetaType_Iif) as [v|] eqn:Hv; [|done]. apply metadata_len in Hv. cbn. split.
  - intros [= ->]. by rewrite le_combine_split, Z.mod_small.
  - intros [= <-]. f_equal. rewrite <- (split_le_combine v) at 1. f_equal. unfold len in Hv.
    cbn in Hv. lia.
Qed.

Lemma private_decides net r :
  private_net = Ok net → block_out_to_private_net_rule net = Ok r →
  decides r (address_24 false Byte.x0a Byte.x01 Byte.x00) VerdictType_Accept.
Proof.
  intros Hnet. destruct private_net_Ok as (net' & Hnet' & Hip & Hp).
  assert (net' = net) as -> by congruence.
  pose proof (ip_family net) as Hv4. rewrite Hip in Hv4. cbn in Hv4.
  pose proof (len_ip (mask net)) as Hlm. rewrite mask_family, <- Hv4 in Hlm.
  unfold block_out_to_private_net_rule.
  destruct (Rule_new out_chain) as [base| | | |] eqn:Hb; try done. cbn [map_err]. obind.
  destruct (Bitwise_new_mask (ip_to_vec (mask net)) 4 Hlm) as (b & Hbit & Hvar).
  rewrite be_bytes_zero in Hbit. change (Z.of_nat 4) with 4 in Hbit. rewrite Hbit. intros [= <-].
  eapply accept_decides; [by eapply new_program|].
  apply narrows_continue; [intros; apply eval_counter|].
  eapply narrows_ext.
  - change (add_expr (Cmp_new CmpOp_Eq (one_byte NFPROTO_IPV4)) _) with (test_family true base).
    eapply narrows_trans; [apply (test_family_narrows true)|].
    eapply narrows_selects; [rewrite !program_add, <- !app_assoc; reflexivity|]. rewrite Hvar, Hip.
    by apply (selects_masked_header NFT_PAYLOAD_NETWORK_HEADER 16 CmpOp_Eq (ip_to_vec (mask net))
      [Byte.x0a; Byte.x01; Byte.x00; Byte.x00]).
  - intros p. unfold address_24, packet_address. destruct (is_nf _ p); [|done]. cbn [andb].
    change (len [_; _; _; _]) with 4. cbn beta.
    destruct (header_part p _ 16 4) as [a|] eqn:Ha; [|done].
    apply header_part_len in Ha; [|done..]. rewrite <- (agree_24 a _ _ _ Byte.x00) by done.
    pose proof (be_value_bound a) as Hba. rewrite Ha in Hba.
    rewrite <- (mask_agree _ _ 32 8) by done. cbn [cmp_holds]. rewrite be_value_and by congruence.
    change (be_value (ip_to_vec (mask net))) with (ip_value (mask net)).
    rewrite mask_value, <- Hv4, Hp. done.
Qed.

Lemma solicitation_decides r :
  allow_router_solicitation = Ok r → decides r router_solicitation VerdictType_Accept.
Proof.
  unfold allow_router_solicitation.
  destruct (Rule_new out_chain) as [base| | | |] eqn:Hb; try done. intros [= <-].
  eapply accept_decides; [by eapply new_program|]. eapply narrows_ext.
  - eapply narrows_trans; [eapply narrows_trans; [eapply narrows_trans|]|].
    + apply (test_family_narrows false).
    + by apply (narrows_meta_byte MetaType_L4Proto IPPROTO_ICMPV6).
    + by apply (narrows_field
        (HighLevelPayload_build (HLP_Transport (Transport_ICMPv6 ICMPv6_Type)))
        NFT_PAYLOAD_TRANSPORT_HEADER 0 (one_byte 133)).
    + change (add_expr (Cmp_new CmpOp_Eq (one_byte NFPROTO_IPV6)) _) with (test_family false base).
      by apply (narrows_field
        (HighLevelPayload_build (HLP_Transport (Transport_ICMPv6 ICMPv6_Code)))
        NFT_PAYLOAD_TRANSPORT_HEADER 1 (one_byte NFT_REJECT_ICMPX_NO_ROUTE)).
  - done.
Qed.

(** Nothing is blocked. *)
Lemma nothing_blocked lo rs p regs :
  little_endian = true → u32_ok lo → rules lo = Ok rs →
  decision incoming [rs.1.1] p regs = Some true
  ∧ decision outgoing [rs.1.2; rs.2] p regs = Some true.
Proof.
  intros Hle Hlo Hr. unfold rules in Hr.
  repeat (let E := fresh "E" in apply bind_Ok_inv in Hr as (? & E & Hr)). injection Hr as <-.
  unfold decision. cbn [fst snd]. split.
  - rewrite (chain_decides x _ VerdictType_Accept [] p regs None (loopback_decides lo x Hle Hlo E))
      by done.
    by destruct (bool_decide _).
  - erewrite chain_decides; [|by eapply private_decides|intros rs1].
    2: { by apply (chain_decides _ _ _ [] p rs1 None (solicitation_decides _ E2)). }
    by destruct (address_24 _ _ _ _ p), (router_solicitation p).
Qed.
End Decisions.
End AddRulesSpec.

(** ** [examples/filter-ethernet.rs] *)
Module FilterEthernetSpec.
Import FilterEthernet.

Section Sent.
Context `{BuildProfile} `{SysLaws} `{IpNetworkLaws} (ARPHRD_ETHER : Z).

Definition outgoing : Chain := base_chain TABLE_NAME OUT_CHAIN_NAME Out 3 Policy_Accept.

Definition rules : outcome Empty_set (Rule * Rule) :=
  r1 ← block_ethernet_rule ARPHRD_ETHER;
  r2 ← random_rule;
  Ok (r1, r2).

Definition items (rs : Rule * Rule) : list BatchItem :=
  [mk_item Table_object_laws (inet_table TABLE_NAME) Add; mk_item Chain_object_laws outgoing Add;
   mk_item Rule_object_laws rs.1 Add; mk_item Rule_object_laws rs.2 Add].

(** The list given to [set_expressions] is that of as many [add_expr]. *)
Lemma block_rule_eq base :
  Rule_new out_chain = Ok base →
  block_ethernet_rule ARPHRD_ETHER = Ok (base
    |> add_expr (Meta_new MetaType_IifType)
    |> add_expr (Cmp_new CmpOp_Eq (le_split 2 (as_u16 ARPHRD_ETHER)))
    |> add_expr (HighLevelPayload_build (HLP_LinkLayer LL_Daddr))
    |> add_expr (Cmp_new CmpOp_Eq BLOCK_THIS_MAC)
    |> add_expr (Immediate_new_verdict VerdictKind_Drop)).
Proof.
  intros Hb. unfold block_ethernet_rule. rewrite Hb.
  by apply Rule_new_Ok in Hb as (? & ? & _ & _ & ->).
Qed.

Lemma random_rule_eq base :
  Rule_new out_chain = Ok base →
  random_rule = Ok (base
    |> add_expr Counter_default
    |> add_expr (Meta_new MetaType_PRandom)
    |> add_expr (Cmp_new CmpOp_Gt (be_bytes 4 ((2 ^ 32 - 1) / 2)))
    |> add_expr Counter_default).
Proof.
  intros Hb. unfold random_rule. rewrite Hb.
  by apply Rule_new_Ok in Hb as (? & ? & _ & _ & ->).
Qed.

Lemma ethernet_rules_built :
  ∃ rs, rules = Ok rs ∧ object_sendable rs.1 ∧ object_sendable rs.2.
Proof.
  assert (∃ base, Rule_new out_chain = Ok base) as [base Hb] by (by eexists).
  destruct (built_by_sendable base (block_ethernet_rule ARPHRD_ETHER) out_chain eq_refl eq_refl Hb)
    as (r1 & E1 & S1).
  { rewrite (block_rule_eq base Hb). apply (built_by_intro _ _ _ 5 eq_refl); [|lia]. assemble. }
  destruct (built_by_sendable base random_rule out_chain eq_refl eq_refl Hb) as (r2 & E2 & S2).
  { rewrite (random_rule_eq base Hb). apply (built_by_intro _ _ _ 4 eq_refl); [|lia]. assemble. }
  exists (r1, r2). split; [|done]. unfold rules. by rewrite E1, E2.
Qed.

Lemma ethernet_items_ok rs : object_sendable rs.1 → object_sendable rs.2 → Forall item_ok (items rs).
Proof.
  intros. repeat apply List.Forall_cons; [..|apply List.Forall_nil]; try done.
  - by apply inet_table_sendable.
  - by apply base_chain_sendable.
Qed.

Lemma main_batch_items rs :
  rules = Ok rs → main_batch ARPHRD_ETHER = batch_of_items (items rs).
Proof.
  intros Hr. unfold rules in Hr.
  repeat (let E := fresh "E" in apply bind_Ok_inv in Hr as (? & E & Hr)). injection Hr as <-.
  unfold main_batch, batch_of_items. cbn [items Batch_add_items fst snd].
  unfold Batch_add_item. cbn [item_type item_object item_attribute item item_msg mk_item].
  change outgoing with out_chain. change (inet_table TABLE_NAME) with table.
  destruct Batch_new as [b0|[]| | |]; [|done..]. obind.
  destruct (Batch_add table Add b0) as [b1|[]| | |]; [|done..]. obind.
  destruct (Batch_add out_chain Add b1) as [b2|[]| | |]; [|done..]. obind. rewrite E. obind.
  destruct (Batch_add x Add b2) as [b3|[]| | |]; [|done..]. obind. rewrite E0. obind.
  by destruct (Batch_add x0 Add b3) as [b4|[]| | |].
Qed.

(** The program panics when the kernel refuses. *)
Lemma ethernet_main_sends rs :
  rules = Ok rs →
  ∀ counts pid acks,
    Forall (λ c, 0 < c) counts → foldr Z.add 0 counts = len (batch_bytes (items rs)) →
    Forall (ack_ok pid) acks →
    ∃ es, main ARPHRD_ETHER (working_socket (map Sent counts) (ack_script pid acks))
      = ([Opened; Bound] ++ es ++ closing (acks_result 4 acks), unwrap (acks_result 4 acks))
      ∧ wire es = batch_bytes (items rs).
Proof.
  intros Hr counts pid acks Hc Hsum Ha. destruct ethernet_rules_built as (rs' & Hr' & S1 & S2).
  assert (rs' = rs) as -> by congruence.
  pose proof (ethernet_items_ok rs S1 S2) as Hi. unfold main. rewrite (main_batch_items rs Hr).
  destruct (then_send_items (λ e : QueryError, e) (items rs) Hi ltac:(done) counts pid acks Hc Hsum Ha)
    as (es & Hes & Hw). exists es. split; [|done]. rewrite Hes. change (len (items rs)) with 4.
  cbn [fst snd]. f_equal. by destruct (acks_result 4 acks).
Qed.
End Sent.

Section Decisions.
Context `{BuildProfile} `{SysLaws} `{NfTablesLaws} (ARPHRD_ETHER : Z).

(** A packet on an interface of the type of ethernet, to the MAC address 01:02:03:04:05:06. *)
Definition to_blocked_mac (p : Packet) : bool :=
  bool_decide (interface_type MetaType_IifType p = Some ARPHRD_ETHER)
  && bool_decide (header_part p NFT_PAYLOAD_LL_HEADER 0 6
       = Some [Byte.x01; Byte.x02; Byte.x03; Byte.x04; Byte.x05; Byte.x06]).

Lemma block_decides r :
  little_endian = true → u16_ok ARPHRD_ETHER →
  block_ethernet_rule ARPHRD_ETHER = Ok r → decides r to_blocked_mac VerdictType_Drop.
Proof.
  intros Hle Hx. assert (∃ base, Rule_new out_chain = Ok base) as [base Hb] by (by eexists).
  rewrite (block_rule_eq ARPHRD_ETHER base Hb), as_u16_small by done. intros [= <-].
  eapply drop_decides; [by eapply new_program|]. eapply narrows_ext.
  - eapply narrows_trans; [by apply (interface_type_narrows MetaType_IifType ARPHRD_ETHER)|].
    by apply (narrows_field (HighLevelPayload_build (HLP_LinkLayer LL_Daddr))
      NFT_PAYLOAD_LL_HEADER 0 BLOCK_THIS_MAC).
  - done.
Qed.

Lemma random_continues r p regs :
  random_rule = Ok r → ∃ regs', rule_eval r p regs = Continue regs' ∨ rule_eval r p regs = Break regs'.
Proof.
  assert (∃ base, Rule_new out_chain = Ok base) as [base Hb] by (by eexists).
  rewrite (random_rule_eq base Hb). intros [= <-].
  unfold rule_eval. rewrite !program_add, (new_program _ _ Hb). cbn [app].
  rewrite run_cons, eval_counter.
  set (w := be_bytes 4 ((2 ^ 32 - 1) / 2)).
  assert (∃ T, selects [into_variant (Meta_new MetaType_PRandom); cmp_reg1 CmpOp_Gt w] T)
    as [T Hs] by (eexists; by apply selects_meta).
  change [_; _; into_variant Counter_default]
    with ([into_variant (Meta_new MetaType_PRandom); cmp_reg1 CmpOp_Gt w]
          ++ [into_variant Counter_default]).
  rewrite run_app. destruct (Hs p regs) as [regs' ->]. exists regs'.
  destruct (T p); [left|by right]. by rewrite run_cons, eval_counter.
Qed.

Lemma only_mac_blocked rs p regs :
  little_endian = true → u16_ok ARPHRD_ETHER → rules ARPHRD_ETHER = Ok rs →
  decision outgoing [rs.1; rs.2] p regs = Some (negb (to_blocked_mac p)).
Proof.
  intros Hle Hx Hr. unfold rules in Hr.
  repeat (let E := fresh "E" in apply bind_Ok_inv in Hr as (? & E & Hr)). injection Hr as <-.
  unfold decision. cbn [fst snd]. rewrite (chain_decides x to_blocked_mac VerdictType_Drop [x0] p regs None).
  - by destruct (to_blocked_mac p).
  - by apply block_decides.
  - intros regs1. cbn [chain_eval]. by destruct (random_continues x0 p regs1 E0) as [? [-> | ->]].
Qed.
End Decisions.
End FilterEthernetSpec.
