(* ===== verification/RuleTheorems.v ===== *)
(** * Theorems: what rules select, and the example programs

    The theorems about packets are against the interface of [Semantics.v]; the witnesses
    apply them to the evaluator of [Kernel.v]. *)

From stdpp Require Import vector.
From S2P Require Import Prelude Sys Errors Lib Nlmsg Parser ParserImpls Macros Codec Data Objects.
From S2P Require Import Table Chain Exprs ExprMod Payload Rule Sets Batch Query Exchange RuleMethods.
From S2P Require Import RuleBuild RuleSend Semantics Meaning Kernel Examples ExamplesSpec.
Local Open Scope Z_scope.

(** ** Packets and rules for the witnesses *)
Section Witnesses.
Definition ex_ip : IpAddr := IpAddr_V4 (Ipv4Addr_new Byte.xc0 Byte.xa8 Byte.x01 Byte.x07).

(** An IPv4 header from 192.168.1.7 to 10.1.0.9. *)
Definition ex_ip_header : bytes :=
  zeros 12 ++ [Byte.xc0; Byte.xa8; Byte.x01; Byte.x07; Byte.x0a; Byte.x01; Byte.x00; Byte.x09].

(** A TCP packet to port 80, with SYN, on the interface 1, named lo. *)
Definition ex_packet : SimplePacket := {|
  packet_meta k := match k with
    | MetaType_NfProto => Some [Byte.x02]
    | MetaType_L4Proto => Some [Byte.x06]
    | MetaType_Iif => Some (le_split 4 1)
    | MetaType_IifName => Some (str "lo" ++ zeros 14)
    | _ => None
    end;
  packet_ct _ := Some (le_split 4 8);
  packet_headers base :=
    if base =? 1 then Some ex_ip_header
    else if base =? 2 then Some ([Byte.x30; Byte.x39; Byte.x00; Byte.x50] ++ zeros 9 ++ [Byte.x02])
    else None |}.

Definition no_registers : SimpleRegisters := λ _, [].
End Witnesses.

(** C11: [saddr] and [daddr] go on exactly with the packets of the address's family whose
    source or destination address is the argument; [snetwork] and [dnetwork] never fail,
    and go on exactly with those whose address agrees with the network's on the bits of
    its prefix. *)
Theorem addresses_selected `{SysLaws} `{NfTablesLaws} `{IpNetworkLaws} (ip : IpAddr)
    (n : IpNetwork) (r : Rule) :
  narrows r (saddr ip r) (has_address true ip)
  ∧ narrows r (daddr ip r) (has_address false ip)
  ∧ (∃ r', snetwork n r = Ok r' ∧ narrows r r' (in_network true n))
  ∧ (∃ r', dnetwork n r = Ok r' ∧ narrows r r' (in_network false n)).
Proof.
  split_and!; [apply match_ip_narrows..|apply match_network_narrows|apply match_network_narrows].
Qed.

Lemma addresses_selected_witness :
  ∃ n, prefix_new ex_ip 24 = Some n
  ∧ @narrows simple_kernel Rule_default (@saddr (linux true) ex_ip Rule_default)
      (@has_address (linux true) simple_kernel true ex_ip)
  ∧ @has_address (linux true) simple_kernel true ex_ip ex_packet = true
  ∧ @in_network (linux true) simple_kernel prefix_networks true n ex_packet = true
  ∧ @in_network (linux true) simple_kernel prefix_networks false n ex_packet = false.
Proof.
  eexists. split; [reflexivity|].
  destruct (@addresses_selected (linux true) (linux_laws true) simple_kernel simple_kernel_laws
    prefix_networks prefix_networks_laws ex_ip (exist prefix_ok (ex_ip, 24) eq_refl) Rule_default)
    as (Hs & _).
  split; [exact Hs|]. by vm_compute.
Defined.

(** C12: [protocol], [icmp], [icmpv6], [igmp] and [ip6in4] select packets by their
    protocol; [dport] selects the TCP or UDP packets with that destination port; [sport]
    selects by the destination port as well. *)
Theorem protocols_and_ports_selected `{SysLaws} `{NfTablesLaws} (proto : Protocol) (port : u16)
    (r : Rule) :
  u16_ok port →
  narrows r (protocol proto r) (is_l4 (protocol_number proto))
  ∧ narrows r (icmp r) (is_l4 IPPROTO_ICMP)
  ∧ narrows r (icmpv6 r) (is_l4 IPPROTO_ICMPV6)
  ∧ narrows r (igmp r) (is_l4 IPPROTO_IGMP)
  ∧ narrows r (ip6in4 r) (λ p, is_nf NFPROTO_IPV4 p
      && bool_decide (header_part p NFT_PAYLOAD_NETWORK_HEADER 9 1 = Some (one_byte 41)))
  ∧ narrows r (dport port proto r) (has_port false proto port)
  ∧ narrows r (sport port proto r) (has_port false proto port).
Proof.
  intros Hp. split_and!; [apply protocol_narrows|apply icmp_narrows|apply icmpv6_narrows
    |apply igmp_narrows|apply ip6in4_narrows|by apply packet_port_narrows..].
Qed.

Lemma protocols_and_ports_selected_witness :
  (∃ rs, @rule_eval simple_kernel (@sport (linux true) 80 TCP Rule_default) ex_packet no_registers
         = Continue rs)
  ∧ @has_port (linux true) simple_kernel true TCP 80 ex_packet = false.
Proof.
  destruct (@protocols_and_ports_selected (linux true) (linux_laws true) simple_kernel
    simple_kernel_laws TCP 80 Rule_default) as (_ & _ & _ & _ & _ & _ & Hs); [by vm_compute|].
  split; [|by vm_compute]. destruct (Hs ex_packet no_registers) as [rs Hrs]. exists rs.
  assert (@has_port (linux true) simple_kernel false TCP 80 ex_packet = true) as Ht by (by vm_compute).
  rewrite Ht in Hrs. exact Hrs.
Defined.

(** C14: [iface] and [oface] refuse names that do not fit with their terminator, and
    select the packets of the interface of that name; [iface_id] and [oface_id] compare the
    index in network byte order, so that on a little-endian machine they select the
    interface whose index has the bytes of the argument in the opposite order. *)
Theorem interfaces_selected `{SysLaws} `{NfTablesLaws} (name : RString) (i : u32) (r : Rule) :
  Byte.x00 ∉ (name : bytes) → u32_ok i →
  (if len name >=? IFNAMSIZ
   then iface name r = Err InterfaceNameTooLong ∧ oface name r = Err InterfaceNameTooLong
   else (∃ r', iface name r = Ok r' ∧ narrows r r'
           (λ p, bool_decide (interface_name MetaType_IifName p = Some (name : bytes))))
        ∧ (∃ r', oface name r = Ok r' ∧ narrows r r'
           (λ p, bool_decide (interface_name MetaType_OifName p = Some (name : bytes)))))
  ∧ narrows r (iface_id i r) (λ p, bool_decide
      (interface_index MetaType_Iif p = Some (if little_endian then swap_bytes i else i)))
  ∧ narrows r (oface_id i r) (λ p, bool_decide
      (interface_index MetaType_Oif p = Some (if little_endian then swap_bytes i else i))).
Proof.
  intros Hn Hi. split; [|split; by apply interface_index_narrows].
  unfold iface, oface. rewrite ifnamsiz_16. destruct (Z.geb_spec (len name) 16); [done|].
  split; (eexists; split; [done|by apply interface_name_narrows]).
Qed.

Lemma interfaces_selected_witness :
  swap_bytes 1 = 16777216
  ∧ @narrows simple_kernel Rule_default (@iface_id 1 Rule_default)
      (λ p, bool_decide (@interface_index simple_kernel MetaType_Iif p = Some 16777216))
  ∧ ∃ r, @iface (linux true) (rstr "lo") Rule_default = Ok r
      ∧ @narrows simple_kernel Rule_default r (λ p, bool_decide
          (@interface_name simple_kernel MetaType_IifName p = Some (rstr "lo" : bytes))).
Proof.
  destruct (@interfaces_selected (linux true) (linux_laws true) simple_kernel simple_kernel_laws
    (rstr "lo") 1 Rule_default) as [[Hn _] [Hi _]].
  - by apply (find_nul_None 0).
  - by vm_compute.
  - split; [by vm_compute|]. split; [exact Hi|exact Hn].
Defined.

(** C13: [established] never fails and, on a little-endian machine, selects the packets
    whose connection has the state ESTABLISHED; [syn] never fails and selects the packets
    with the bit of SYN in the byte where TCP has its flags, whatever their protocol. *)
Theorem connections_selected `{SysLaws} `{NfTablesLaws} (r : Rule) :
  (∃ r', established r = Ok r' ∧ (little_endian = true → narrows r r' in_established))
  ∧ ∃ r', syn r = Ok r' ∧ narrows r r' syn_flag.
Proof.
  split; [|apply syn_narrows]. destruct (established_extends (H := dev_profile) r) as (r' & Hr & _).
  exists r'. split; [done|]. intros Hle. destruct (established_narrows r Hle) as (r2 & Hr2 & Hn).
  assert (r2 = r') as -> by congruence. done.
Qed.

Lemma connections_selected_witness :
  (∃ r rs, @syn (linux true) Rule_default = Ok r
     ∧ @rule_eval simple_kernel r ex_packet no_registers = Continue rs)
  ∧ @in_established simple_kernel ex_packet = false.
Proof.
  destruct (@connections_selected (linux true) (linux_laws true) simple_kernel simple_kernel_laws
    Rule_default) as [_ (r & Hr & Hs)].
  split; [|by vm_compute]. destruct (Hs ex_packet no_registers) as [rs Hrs].
  assert (@syn_flag (linux true) simple_kernel ex_packet = true) as Ht by (by vm_compute).
  rewrite Ht in Hrs. by exists r, rs.
Defined.

(** C15: when a fresh rule has been narrowed to the packets that satisfy a condition,
    [accept] makes it let exactly those through and [drop] makes it drop exactly those, and
    the other packets go to the next rule; expressions that follow the verdict, however many
    and whatever they are, change nothing. *)
Theorem verdicts_decide `{NfTablesLaws} (c : Chain) (base r : Rule) (T : Packet → bool) :
  Rule_new c = Ok base → narrows base r T →
  decides (accept r) T VerdictType_Accept ∧ decides (drop_packet r) T VerdictType_Drop
  ∧ (∀ l : list RawExpression, decides (followed_by (accept r) l) T VerdictType_Accept
       ∧ decides (followed_by (drop_packet r) l) T VerdictType_Drop).
Proof.
  intros Hb Hr. pose proof (new_program c base Hb) as Hp.
  split_and!; [by eapply accept_decides|by eapply drop_decides|].
  intros l. split; [by eapply accept_decides_before|by eapply drop_decides_before].
Qed.

Lemma verdicts_decide_witness :
  let c := Chain_default |> chain_with_table (rstr "filter") |> chain_with_name (rstr "in") in
  ∃ base, Rule_new c = Ok base
    ∧ @decides simple_kernel (drop_packet base) (λ _, true) VerdictType_Drop
    ∧ @decides simple_kernel (drop_packet base |> accept) (λ _, true) VerdictType_Drop.
Proof.
  intros c. eexists. split; [reflexivity|].
  match goal with |- decides (drop_packet ?b) _ _ ∧ _ =>
    destruct (@verdicts_decide simple_kernel simple_kernel_laws c b b (λ _, true))
      as (_ & Hd & Hl) end.
  - reflexivity.
  - intros p rs. by exists rs.
  - split; [exact Hd|].
    exact (proj2 (Hl [RawExpression_from (Immediate_new_verdict VerdictKind_Accept)])).
Defined.

(** C27: [dnat] puts the destination address in the first register, and the port, when
    there is one, in the second, in network order, and ends with a NAT expression that
    names exactly those registers; its family is IPv4, also for an IPv6 address. *)
Theorem dnat_loads_operands `{NfTablesLaws} (dst : IpAddr) (port : option u16) (r : Rule)
    (p : Packet) (rs rs1 : Registers) :
  rule_eval r p rs = Continue rs1 →
  ∃ l rs2,
    program (dnat dst port r)
      = l ++ [ENat (MkNat (Some DNat) (Some Ipv4) (Some Reg1) ((λ _, Reg2) <$> port))]
    ∧ run l p rs = Continue rs2
    ∧ read_register rs2 Reg1 (len (ip_to_vec dst)) = ip_to_vec dst
    ∧ ∀ q, port = Some q → read_register rs2 Reg2 2 = be_bytes 2 q.
Proof. apply dnat_operands. Qed.

Lemma dnat_loads_operands_witness :
  ∃ l rs2, program (dnat ex_ip (Some 8080) Rule_default)
      = l ++ [ENat (MkNat (Some DNat) (Some Ipv4) (Some Reg1) (Some Reg2))]
    ∧ @run simple_kernel l ex_packet no_registers = Continue rs2
    ∧ @read_register simple_kernel rs2 Reg2 2 = [Byte.x1f; Byte.x90].
Proof.
  destruct (@dnat_loads_operands simple_kernel simple_kernel_laws ex_ip (Some 8080) Rule_default
    ex_packet no_registers no_registers) as (l & rs2 & Hp & Hr & _ & Hq); [reflexivity|].
  exists l, rs2. split; [exact Hp|]. split; [exact Hr|]. rewrite (Hq 8080 eq_refl). by vm_compute.
Defined.

(** C26: every rule obtained from a chain with names that are UTF-8, not empty and fit in an
    attribute by 1 to 150 calls of the rule-building methods and additions of expressions
    whose fields read back, of up to 390 bytes, in any order,
    [masquerade] and expressions without data included, is appended to a batch as exactly
    its message. *)
Theorem assembled_rules_batched `{BuildProfile} `{SysLaws} `{IpNetworkLaws} (chain : Chain)
    (base r : Rule) (n : nat) (mt : MsgType) (b : bytes) (seq : Z) :
  option_ok sendable_name (chain_table chain) = true →
  option_ok sendable_name (chain_name chain) = true →
  Rule_new chain = Ok base → assembled base n r → (0 < n ≤ 150)%nat → 0 ≤ seq < 2 ^ 32 - 1 →
  Batch_add r mt {| batch_writer := {| buf := b; headers := None |}; batch_seq := seq |}
  = Ok {| batch_writer := {| buf := b ++ object_message r mt seq; headers := None |};
          batch_seq := seq + 1 |}.
Proof. intros. apply Batch_add_spec; [|done]. by eapply assembled_sendable. Qed.

Lemma assembled_rules_batched_witness :
  let c := Chain_default |> chain_with_table (rstr "nat") |> chain_with_name (rstr "out") in
  let r := masquerade (Rule_default |> rule_with_table (rstr "nat") |> rule_with_chain (rstr "out")) in
  @Batch_add dev_profile (linux true) Rule (@Rule_object (linux true))
    (@Rule_attribute dev_profile (linux true)) r Add {| batch_writer := {| buf := []; headers := None |}; batch_seq := 1 |}
  = Ok {| batch_writer := {| buf := [] ++ @object_message (linux true) Rule
            (@Rule_object (linux true)) (@Rule_attribute dev_profile (linux true)) r Add 1;
            headers := None |};
          batch_seq := 1 + 1 |}.
Proof.
  intros c r.
  apply (@assembled_rules_batched dev_profile (linux true) (linux_laws true) prefix_networks
    prefix_networks_laws c (Rule_default |> rule_with_table (rstr "nat")
      |> rule_with_chain (rstr "out")) r 1 Add [] 1).
  - by vm_compute.
  - by vm_compute.
  - reflexivity.
  - apply masquerade_assembled. apply assembled_base.
  - lia.
  - lia.
Defined.

(** C39: [iface_index] refuses a name with a NUL byte without asking the system, and
    otherwise returns the index the system gives, or its error when that is 0. *)
Theorem iface_index_spec `{IfNames} (name : RString) :
  match iface_index name with
  | Ok i => (Byte.x00 ∉ (name : bytes)) ∧ i ≠ 0 ∧ i = (if_nametoindex name).1
  | Err (NulError position) => (name : bytes) !! Z.to_nat position = Some Byte.x00
  | Err (OsError errno) => (Byte.x00 ∉ (name : bytes)) ∧ if_nametoindex name = (0, errno)
  | _ => False
  end.
Proof.
  unfold iface_index, CString_new. destruct (find_nul 0 name) as [i|] eqn:Hn.
  - cbn. apply find_nul_Some in Hn as [_ Hn]. by rewrite Z.sub_0_r in Hn.
  - apply find_nul_None in Hn. obind. destruct (if_nametoindex name) as [i errno] eqn:Hi.
    destruct (Z.eqb_spec i 0) as [->|]; [done|]. by rewrite ?Hi.
Qed.

(** ** The example programs *)

(** The acknowledgements of the messages 1 to [n]. *)
Definition all_acked (n : nat) : list Ack :=
  map (λ i, MkAck (Z.of_nat i) 0 (Build_nlmsghdr 40 2560 5 (Z.of_nat i) 0) 256 []) (seq 1 n).

(** C23: [examples/firewall.rs] builds all its rules without an error and sends the
    table, the three chains and the seven rules, in order, in one batch, whatever parts the
    kernel takes it in; it returns when the kernel has acknowledged the last rule, or with
    the first error the kernel reports. *)
Theorem firewall_sends `{BuildProfile} `{SysLaws} `{IpNetworkLaws} :
  ∃ rules, FirewallSpec.inbound_rules FirewallSpec.inbound = Ok rules ∧ len rules = 7
    ∧ sends_items Firewall.ApplyError (FirewallSpec.items rules) Firewall.main.
Proof.
  destruct FirewallSpec.firewall_main_sends as (rules & Hr & _ & Hs). exists rules. split_and!; [done| |done].
  destruct FirewallSpec.firewall_rules_built as (rules' & Hr' & _ & Hl).
  assert (rules' = rules) as -> by congruence. done.
Qed.

Lemma firewall_sends_witness :
  ∃ n, (@Firewall.main dev_profile (linux true) prefix_networks
    (working_socket [Sent n] (@ack_script (linux true) 9 (all_acked 11)))).2 = Ok tt.
Proof.
  destruct (@firewall_sends dev_profile (linux true) (linux_laws true) prefix_networks
    prefix_networks_laws) as (rules & Hr & Hl & Hs).
  assert (Forall item_ok (@FirewallSpec.items dev_profile (linux true) (linux_laws true) rules)) as Hi.
  { destruct (@FirewallSpec.firewall_rules_built dev_profile (linux true) (linux_laws true) prefix_networks
      prefix_networks_laws) as (rules' & Hr' & Hok & _).
    assert (rules' = rules) as -> by congruence. by apply FirewallSpec.firewall_items_ok. }
  pose proof (linux_laws true) as L. pose proof (batch_bytes_len _ Hi) as Hlen.
  exists (len (@batch_bytes (linux true) (@FirewallSpec.items dev_profile (linux true) (linux_laws true) rules))).
  destruct (Hs [len (@batch_bytes (linux true) (@FirewallSpec.items dev_profile (linux true)
    (linux_laws true) rules))] 9 (all_acked 11)) as (es & Hes & _).
  - constructor; [|constructor]. apply Z.lt_le_trans with 40; [done|apply Hlen].
  - apply Z.add_0_r.
  - repeat constructor; by vm_compute.
  - pose proof (f_equal snd Hes) as H. cbn [snd] in H.
    assert (len (@FirewallSpec.items dev_profile (linux true) (linux_laws true) rules) = 11) as Hn.
    { unfold FirewallSpec.items. rewrite len_app. unfold len in *. rewrite length_map.
      cbn [length]. lia. }
    rewrite Hn in H. exact H.
Defined.

(** C10: with the rules of [examples/firewall.rs] and its policy, the inbound chain lets
    through exactly the packets of established connections, those on the interface lo, those
    to TCP port 22, those to TCP port 80 from 192.168.1.0/24 and ICMP packets, on a
    little-endian machine. *)
Theorem firewall_decides `{BuildProfile} `{SysLaws} `{IpNetworkLaws} `{NfTablesLaws}
    (rules : list Rule) (p : Packet) (rs : Registers) :
  little_endian = true → FirewallSpec.inbound_rules FirewallSpec.inbound = Ok rules →
  decision FirewallSpec.inbound rules p rs
  = Some (in_established p || FirewallSpec.on_loopback p || has_port false TCP 22 p
          || (has_port false TCP 80 p && address_24 true Byte.xc0 Byte.xa8 Byte.x01 p)
          || is_l4 IPPROTO_ICMP p).
Proof. intros Hle Hr. by apply FirewallSpec.rules_decide. Qed.

Lemma firewall_decides_witness :
  ∃ rules, @FirewallSpec.inbound_rules (linux true) prefix_networks
      (@FirewallSpec.inbound (linux true)) = Ok rules
    ∧ @decision simple_kernel (@FirewallSpec.inbound (linux true)) rules ex_packet no_registers
      = Some true.
Proof.
  destruct (@FirewallSpec.firewall_rules_built dev_profile (linux true) (linux_laws true) prefix_networks
    prefix_networks_laws) as (rules & Hr & _).
  exists rules. split; [exact Hr|].
  rewrite (@firewall_decides dev_profile (linux true) (linux_laws true) prefix_networks
    prefix_networks_laws simple_kernel simple_kernel_laws rules ex_packet no_registers eq_refl Hr).
  by vm_compute.
Defined.



(** C25: [examples/filter-ethernet.rs] sends its table, chain and two rules in one batch
    and panics when the kernel refuses one of them; with the rules, on a little-endian
    machine, the chain drops exactly the packets of interfaces whose type, a number in the
    byte order of the machine, is that of ethernet, to 01:02:03:04:05:06. *)
Theorem filter_ethernet_example `{BuildProfile} `{SysLaws} `{IpNetworkLaws} `{NfTablesLaws}
    (ARPHRD_ETHER : Z) :
  ∃ rules, FilterEthernetSpec.rules ARPHRD_ETHER = Ok rules
    ∧ (∀ counts pid acks,
         Forall (λ c, 0 < c) counts →
         foldr Z.add 0 counts = len (batch_bytes (FilterEthernetSpec.items rules)) →
         Forall (ack_ok pid) acks →
         ∃ es, FilterEthernet.main ARPHRD_ETHER
             (working_socket (map Sent counts) (ack_script pid acks))
           = ([Opened; Bound] ++ es ++ closing (acks_result 4 acks), unwrap (acks_result 4 acks))
           ∧ wire es = batch_bytes (FilterEthernetSpec.items rules))
    ∧ (little_endian = true → u16_ok ARPHRD_ETHER → ∀ p rs,
       decision FilterEthernetSpec.outgoing [rules.1; rules.2] p rs
        = Some (negb (FilterEthernetSpec.to_blocked_mac ARPHRD_ETHER p))).
Proof.
  destruct (FilterEthernetSpec.ethernet_rules_built ARPHRD_ETHER) as (rules & Hr & _). exists rules.
  split_and!; [done| |].
  - by apply FilterEthernetSpec.ethernet_main_sends.
  - intros Hle Hx p rs. by apply FilterEthernetSpec.only_mac_blocked.
Qed.

(** A packet on an ethernet interface, to the blocked address. *)
Definition ex_frame : SimplePacket := {|
  packet_meta k := match k with MetaType_IifType => Some [Byte.x01; Byte.x00] | _ => None end;
  packet_ct _ := None;
  packet_headers base :=
    if base =? 0 then Some [Byte.x01; Byte.x02; Byte.x03; Byte.x04; Byte.x05; Byte.x06; Byte.xff]
    else None |}.

Lemma filter_ethernet_example_witness :
  ∃ rules, @FilterEthernetSpec.rules (linux true) 1 = Ok rules
    ∧ @decision simple_kernel (@FilterEthernetSpec.outgoing (linux true)) [rules.1; rules.2]
        ex_frame no_registers = Some false
    ∧ @decision simple_kernel (@FilterEthernetSpec.outgoing (linux true)) [rules.1; rules.2]
        ex_packet no_registers = Some true.
Proof.
  destruct (@filter_ethernet_example dev_profile (linux true) (linux_laws true) prefix_networks
    prefix_networks_laws simple_kernel simple_kernel_laws 1) as (rules & Hr & _ & Hd).
  exists rules. split; [exact Hr|].
  split; (rewrite Hd; [by vm_compute|reflexivity|by vm_compute]).
Defined.
