(* ===== verification/Expand.v ===== *)
(** * The attribute macros: [macros/src/lib.rs]

    [Macros.v] has the code the macros generate; this file has the macros themselves, as
    functions from the declaration they are put on to the code.  Parsing of Rust syntax is
    the work of the crate syn: a declaration arrives parsed, and arguments that syn does not
    parse are [None].  The generated code is a record of its parts.  The macros stop with a
    message ([abort!]) or panic ([expect], [unwrap]). *)

From S2P Require Import Prelude.
Local Open Scope Z_scope.

(** ** Syntax, as syn gives it *)
Record PathSegment := MkSegment { seg_ident : string; seg_arguments : bool }.
Record Path := MkPath { leading_colon : bool; segments : list PathSegment }.

(** [Path::get_ident]: the identifier of a path that is one. *)
Definition get_ident (p : Path) : option string :=
  match leading_colon p, segments p with
  | false, [s] => if seg_arguments s then None else Some (seg_ident s)
  | _, _ => None
  end.

Inductive Lit := Lit_Str (value : string) | Lit_Bool (value : bool) | Lit_Other.
Inductive SynMeta :=
  | Meta_Path (path : Path)
  | Meta_NameValue (path : Path) (lit : Lit)
  | Meta_List.

(** An attribute and its arguments. *)
Record Attribute := MkAttribute { attr_path : Path; attr_args : option (list SynMeta) }.

(** Types and visibilities are token sequences, which the macros copy. *)
Record SynField := MkSynField {
  syn_attrs : list Attribute;
  syn_vis : string;
  syn_ident : option string;
  syn_ty : string }.
Record ItemStruct := MkItemStruct {
  item_attrs : list Attribute;
  item_vis : string;
  item_ident : string;
  item_fields : list SynField }.

Inductive SynExpr := Expr_Path (path : Path) | Expr_Cast (expr : SynExpr) (ty : Path) | Expr_Other.
Record SynVariant := MkSynVariant { variant_ident : string; variant_value : option SynExpr }.
Record ItemEnum := MkItemEnum {
  ienum_attrs : list Attribute;
  ienum_vis : string;
  ienum_ident : string;
  ienum_variants : list SynVariant }.

#[global] Instance PathSegment_eq_dec : EqDecision PathSegment.
Proof. solve_decision. Defined.
#[global] Instance Path_eq_dec : EqDecision Path.
Proof. solve_decision. Defined.
#[global] Instance Lit_eq_dec : EqDecision Lit.
Proof. solve_decision. Defined.

(** A path of one identifier, and one of several. *)
Definition ident_path (s : string) : Path := MkPath false [MkSegment s false].
Definition mod_path (l : list string) : Path := MkPath false (map (λ s, MkSegment s false) l).

(** How a macro fails: a syntax error, passed on with [?], or a message. *)
Inductive MacroError := SynError | AbortWith (message : string).
Definition abort {A : Type} (message : string) : outcome MacroError A := Err (AbortWith message).

(** [expect] on an option. *)
Definition expect {E A : Type} (o : option A) : outcome E A :=
  match o with Some a => Ok a | None => Panic end.

(** A loop that updates its arguments. *)
Fixpoint for_each {A S : Type} (step : S → A → outcome MacroError S) (l : list A) (s : S)
    : outcome MacroError S :=
  match l with
  | [] => Ok s
  | a :: l => s ← step s a; for_each step l s
  end.

(** ** Arguments *)
Record FieldArgs := MkFieldArgs {
  args_netlink_type : option Path;
  args_override : option string;
  args_optional : bool }.
Definition FieldArgs_default : FieldArgs := MkFieldArgs None None false.

Definition field_arg (args : FieldArgs) (arg : SynMeta) : outcome MacroError FieldArgs :=
  match arg with
  | Meta_Path path =>
      match args_netlink_type args with
      | None => Ok (MkFieldArgs (Some path) (args_override args) (args_optional args))
      | Some _ => abort "Only a single netlink value can exist for a given field"
      end
  | Meta_NameValue path lit =>
      key ← expect (get_ident path);
      if decide (key = "name_in_functions"%string) then
        match lit with
        | Lit_Str val => Ok (MkFieldArgs (args_netlink_type args) (Some val) (args_optional args))
        | _ => abort "Expected a string literal"
        end
      else if decide (key = "optional"%string) then
        match lit with
        | Lit_Bool boolean => Ok (MkFieldArgs (args_netlink_type args) (args_override args) boolean)
        | _ => abort "Expected a boolean"
        end
      else abort "Unsupported macro parameter"
  | Meta_List => abort "Unrecognized argument"
  end.

Definition parse_field_args (input : option (list SynMeta)) : outcome MacroError FieldArgs :=
  match input with
  | None => Err SynError
  | Some attribute_args => for_each field_arg attribute_args FieldArgs_default
  end.

Record StructArgs := MkStructArgs {
  args_nested : bool;
  args_derive_decoder : bool;
  args_derive_deserialize : bool }.
Definition StructArgs_default : StructArgs := MkStructArgs false true true.

Definition struct_arg (args : StructArgs) (arg : SynMeta) : outcome MacroError StructArgs :=
  match arg with
  | Meta_NameValue path lit =>
      key ← expect (get_ident path);
      if decide (key = "derive_decoder"%string) then
        match lit with
        | Lit_Bool boolean =>
            Ok (MkStructArgs (args_nested args) boolean (args_derive_deserialize args))
        | _ => abort "Expected a boolean"
        end
      else if decide (key = "nested"%string) then
        match lit with
        | Lit_Bool boolean =>
            Ok (MkStructArgs boolean (args_derive_decoder args) (args_derive_deserialize args))
        | _ => abort "Expected a boolean"
        end
      else if decide (key = "derive_deserialize"%string) then
        match lit with
        | Lit_Bool boolean =>
            Ok (MkStructArgs (args_nested args) (args_derive_decoder args) boolean)
        | _ => abort "Expected a boolean"
        end
      else abort "Unsupported macro parameter"
  | _ => abort "Unrecognized argument"
  end.

Definition parse_struct_args (input : option (list SynMeta)) : outcome MacroError StructArgs :=
  match input with
  | None => Err SynError
  | Some attribute_args => for_each struct_arg attribute_args StructArgs_default
  end.

Record EnumArgs := MkEnumArgs { args_enum_nested : bool; args_ty : option Path }.
Definition EnumArgs_default : EnumArgs := MkEnumArgs false None.

Definition enum_arg (args : EnumArgs) (arg : SynMeta) : outcome MacroError EnumArgs :=
  match arg with
  | Meta_Path path =>
      match args_ty args with
      | None => Ok (MkEnumArgs (args_enum_nested args) (Some path))
      | Some _ => abort "A value can only have a single representation"
      end
  | Meta_NameValue path lit =>
      key ← expect (get_ident path);
      if decide (key = "nested"%string) then
        match lit with
        | Lit_Bool boolean => Ok (MkEnumArgs boolean (args_ty args))
        | _ => abort "Expected a boolean"
        end
      else abort "Unsupported macro parameter"
  | Meta_List => abort "Unrecognized argument"
  end.

Definition parse_enum_args (input : option (list SynMeta)) : outcome MacroError EnumArgs :=
  match input with
  | None => Err SynError
  | Some attribute_args => for_each enum_arg attribute_args EnumArgs_default
  end.

(** The match on the result of a parser of arguments: a syntax error becomes a message. *)
Definition or_abort {A : Type} (message : string) (m : outcome MacroError A) : outcome MacroError A :=
  match m with Err SynError => abort message | _ => m end.

(** ** The identifiers of the headers *)

(** An item of [sys.rs]: the constants it declares are kept, once, in [STATE]. *)
Inductive SysItem := Item_Const (ident : string) | Item_Other.

Fixpoint const_idents (items : list SysItem) : list string :=
  match items with
  | [] => []
  | Item_Const ident :: items => ident :: const_idents items
  | Item_Other :: items => const_idents items
  end.

(** [get_state]: the cell is filled by the first call; the file may be missing, unreadable
    or not parsed, and then the macro panics. *)
Definition get_state (cell : option (list string)) (sys_file : option (list SysItem))
    : outcome MacroError (list string) :=
  match cell with
  | Some declared_identifiers => Ok declared_identifiers
  | None => items ← expect sys_file; Ok (const_idents items)
  end.

(** ** [nfnetlink_struct] *)
Record MacroField := MkMacroField {
  mf_name : string;
  mf_ty : string;
  mf_args : FieldArgs;
  mf_netlink_type : Path;
  mf_vis : string;
  mf_attrs : list Attribute }.

Definition last_ident (p : Path) : option string :=
  match reverse (segments p) with s :: _ => Some (seg_ident s) | [] => None end.

(** What the loop does with a field: generates it, leaves it out, or keeps it as it is. *)
Inductive FieldKind := Generated (f : MacroField) | Rejected | Identical.

Section Struct.
Context (declared_identifiers : list string).

(** The body of the inner loop for an attribute named [field]. *)
Definition annotated_field (field : SynField) (attr : Attribute) : outcome MacroError FieldKind :=
  field_args ← or_abort "Could not parse the field attributes" (parse_field_args (attr_args attr));
  match args_netlink_type field_args with
  | Some netlink_type =>
      rejected ← (if args_optional field_args then
          ident ← expect (last_ident netlink_type);
          Ok (negb (bool_decide (ident ∈ declared_identifiers)))
        else Ok false);
      if rejected : bool then Ok Rejected
      else
        name ← expect (syn_ident field);
        Ok (Generated {|
          mf_name := name; mf_ty := syn_ty field; mf_args := field_args;
          mf_netlink_type := netlink_type; mf_vis := syn_vis field;
          mf_attrs := filter (λ x, get_ident (attr_path x) ≠ get_ident (attr_path attr))
            (syn_attrs field) |})
  | None => abort "Missing Netlink Type in field"
  end.

Fixpoint classify (field : SynField) (attrs : list Attribute) : outcome MacroError FieldKind :=
  match attrs with
  | [] => Ok Identical
  | attr :: attrs =>
      if decide (get_ident (attr_path attr) = Some "field"%string) then annotated_field field attr
      else classify field attrs
  end.

(** The generated fields and the identical ones. *)
Fixpoint split_fields (l : list SynField) : outcome MacroError (list MacroField * list SynField) :=
  match l with
  | [] => Ok ([], [])
  | field :: l =>
      kind ← classify field (syn_attrs field);
      '(fields, identical_fields) ← split_fields l;
      match kind with
      | Generated f => Ok (f :: fields, identical_fields)
      | Rejected => Ok (fields, identical_fields)
      | Identical => Ok (fields, field :: identical_fields)
      end
  end.

(** The names of the getter, the mutable getter, the setter and the in-place setter. *)
Definition method_names (f : MacroField) : list string :=
  let field_str := default (mf_name f) (args_override (mf_args f)) in
  [String.append "get_" field_str; String.append "get_mut_" field_str;
   String.append "set_" field_str; String.append "with_" field_str].

(** The field of the new structure: an [Option]. *)
Definition new_field (f : MacroField) : SynField := {|
  syn_attrs := mf_attrs f; syn_vis := mf_vis f; syn_ident := Some (mf_name f);
  syn_ty := String.append "Option<" (String.append (mf_ty f) ">") |}.

(** The generated code. *)
Record StructExpansion := MkStructExpansion {
  exp_attrs : list Attribute;
  exp_vis : string;
  exp_ident : string;
  exp_fields : list SynField;
  (** the field and its four methods *)
  exp_methods : list (string * list string);
  (** [decode_attribute]: one entry per attribute type, with the field it sets *)
  exp_decoder : option (list (Path * string));
  exp_is_nested : bool;
  (** [get_size] and [write_payload]: the fields in order, with their attribute types *)
  exp_size : list string;
  exp_write : list (Path * string);
  exp_deserialize : bool }.

End Struct.

(** The macro parses its input, then its arguments, then asks for the declared
    identifiers. *)
Definition nfnetlink_struct (cell : option (list string)) (sys_file : option (list SysItem))
    (attrs : option (list SynMeta)) (item : option ItemStruct)
    : outcome MacroError StructExpansion :=
  ast ← expect item;
  args ← or_abort "Could not parse the macro arguments" (parse_struct_args attrs);
  declared_identifiers ← get_state cell sys_file;
  '(fields, identical_fields) ← split_fields declared_identifiers (item_fields ast);
  Ok {|
    exp_attrs := item_attrs ast;
    exp_vis := item_vis ast;
    exp_ident := item_ident ast;
    exp_fields := map new_field fields ++ identical_fields;
    exp_methods := map (λ f, (mf_name f, method_names f)) fields;
    exp_decoder := if args_derive_decoder args
      then Some (map (λ f, (mf_netlink_type f, mf_name f)) fields) else None;
    exp_is_nested := args_nested args;
    exp_size := map mf_name fields;
    exp_write := map (λ f, (mf_netlink_type f, mf_name f)) fields;
    exp_deserialize := args_derive_deserialize args |}.

(** ** [nfnetlink_enum] *)
Record EnumExpansion := MkEnumExpansion {
  exp_enum_attrs : list Attribute;
  exp_enum_vis : string;
  exp_enum_ident : string;
  exp_repr : Path;
  (** the variants of the new enumeration *)
  exp_variants : list SynVariant;
  (** the entries of [try_from]: the value and the variant *)
  exp_entries : list (Path * string);
  exp_unknown : string }.

Record MacroVariant := MkMacroVariant { mv_inner : SynVariant; mv_name : string; mv_value : Path }.

Definition enum_variant (variants : list MacroVariant) (variant : SynVariant)
    : outcome MacroError (list MacroVariant) :=
  match variant_value variant with
  | None => abort "Missing value"
  | Some (Expr_Path path) => Ok (variants ++ [MkMacroVariant variant (variant_ident variant) path])
  | Some _ => abort "Expected a path"
  end.

(** The discriminant is cast to the representation. *)
Definition cast_variant (repr_type : Path) (x : MacroVariant) : SynVariant := {|
  variant_ident := variant_ident (mv_inner x);
  variant_value := option_map (λ cur_value, Expr_Cast cur_value repr_type)
    (variant_value (mv_inner x)) |}.

Definition nfnetlink_enum (attrs : option (list SynMeta)) (item : option ItemEnum)
    : outcome MacroError EnumExpansion :=
  ast ← expect item;
  args ← or_abort "Could not parse the macro arguments" (parse_enum_args attrs);
  match args_ty args with
  | None => abort "The target type representation is unspecified"
  | Some repr_type =>
      variants ← for_each enum_variant (ienum_variants ast) [];
      Ok {|
        exp_enum_attrs := ienum_attrs ast;
        exp_enum_vis := ienum_vis ast;
        exp_enum_ident := ienum_ident ast;
        exp_repr := repr_type;
        exp_variants := map (cast_variant repr_type) variants;
        exp_entries := map (λ v, (mv_value v, mv_name v)) variants;
        exp_unknown := String.append "Unknown" (ienum_ident ast) |}
  end.

(** ** What the arguments mean *)

(** The netlink types among the arguments. *)
Definition arg_paths (l : list SynMeta) : list Path :=
  omap (λ a, match a with Meta_Path p => Some p | _ => None end) l.

(** The value of a boolean, or string, parameter. *)
Definition bool_value (key : string) (a : SynMeta) : option bool :=
  match a with
  | Meta_NameValue p (Lit_Bool b) => if decide (get_ident p = Some key) then Some b else None
  | _ => None
  end.
Definition str_value (key : string) (a : SynMeta) : option string :=
  match a with
  | Meta_NameValue p (Lit_Str v) => if decide (get_ident p = Some key) then Some v else None
  | _ => None
  end.

(** The value a parameter is given among the arguments: the last one counts. *)
Definition last_value {A : Type} (value : SynMeta → option A) (l : list SynMeta) : option A :=
  list.last (omap value l).

Definition is_path (a : SynMeta) : bool := match a with Meta_Path _ => true | _ => false end.

Definition field_arg_ok (a : SynMeta) : Prop :=
  is_path a = true ∨ is_Some (str_value "name_in_functions" a) ∨ is_Some (bool_value "optional" a).
Definition struct_arg_ok (a : SynMeta) : Prop :=
  is_Some (bool_value "derive_decoder" a) ∨ is_Some (bool_value "nested" a)
  ∨ is_Some (bool_value "derive_deserialize" a).
Definition enum_arg_ok (a : SynMeta) : Prop :=
  is_path a = true ∨ is_Some (bool_value "nested" a).

Section ArgumentLemmas.

Lemma for_each_cons {A S} (step : S → A → outcome MacroError S) a l s s' :
  for_each step (a :: l) s = Ok s' ↔ ∃ s1, step s a = Ok s1 ∧ for_each step l s1 = Ok s'.
Proof.
  cbn [for_each]. split; [apply bind_Ok_inv|]. by intros (s1 & -> & H).
Qed.

(** Case on an argument, on its key and on the parameters it may name. *)
Ltac arg_cases a :=
  let p := fresh "p" in
  destruct a as [p|p [v|v|]|]; cbn; try destruct (get_ident p) as [key|] eqn:?; cbn;
  repeat case_decide; cbn; simplify_eq.

(** Each case either returns the collected arguments or fails on an argument that is not
    well-formed. *)
Ltac arg_solve :=
  unfold last_value; cbn; split;
  [ unfold abort; intros [=]; subst; split_and!;
    first [reflexivity | lia | by left | by left; eexists | by right; eexists
          | by right; left; eexists | by right; right; eexists]
  | let Hok := fresh "Hok" in
    intros Hok; destruct_and? Hok; subst; first [reflexivity | exfalso];
    first [lia | discriminate
          | repeat match goal with H : _ ∨ _ |- _ => destruct H end;
            repeat match goal with H : is_Some _ |- _ => destruct H end; discriminate] ].

Lemma field_arg_spec t n o a args :
  field_arg (MkFieldArgs t n o) a = Ok args ↔
  field_arg_ok a ∧ (length (option_list t ++ arg_paths [a]) ≤ 1)%nat
  ∧ args = MkFieldArgs (head (option_list t ++ arg_paths [a]))
      (from_option Some n (str_value "name_in_functions" a))
      (default o (bool_value "optional" a)).
Proof. unfold field_arg, field_arg_ok. arg_cases a; destruct t; cbn; arg_solve. Qed.

Lemma struct_arg_spec n d e a args :
  struct_arg (MkStructArgs n d e) a = Ok args ↔
  struct_arg_ok a
  ∧ args = MkStructArgs (default n (bool_value "nested" a))
      (default d (bool_value "derive_decoder" a)) (default e (bool_value "derive_deserialize" a)).
Proof. unfold struct_arg, struct_arg_ok. arg_cases a; arg_solve. Qed.

Lemma enum_arg_spec n t a args :
  enum_arg (MkEnumArgs n t) a = Ok args ↔
  enum_arg_ok a ∧ (length (option_list t ++ arg_paths [a]) ≤ 1)%nat
  ∧ args = MkEnumArgs (default n (bool_value "nested" a)) (head (option_list t ++ arg_paths [a])).
Proof. unfold enum_arg, enum_arg_ok. arg_cases a; destruct t; cbn; arg_solve. Qed.

(** A later argument overrides an earlier one. *)
Lemma last_value_cons {A B} (g : A → B) (b : B) (f : SynMeta → option A) a l :
  from_option g b (last_value f (a :: l))
  = from_option g (from_option g b (f a)) (last_value f l).
Proof.
  unfold last_value. cbn. destruct (f a) as [x|]; [|done].
  rewrite last_cons. by destruct (list.last (omap f l)).
Qed.

Lemma arg_paths_cons a l : arg_paths (a :: l) = arg_paths [a] ++ arg_paths l.
Proof. by destruct a. Qed.

(** A netlink type that was found first stays. *)
Lemma option_list_head {A} (t : option A) (l : list A) :
  (length (option_list t ++ l) ≤ 1)%nat → option_list (head (option_list t ++ l)) = option_list t ++ l.
Proof. destruct t as [x|], l as [|y [|z l]]; cbn; done || lia. Qed.

Lemma option_list_fits {A} (t : option A) (l1 l2 : list A) :
  ((length (option_list t ++ l1) ≤ 1)
   ∧ length (option_list (head (option_list t ++ l1)) ++ l2) ≤ 1)%nat
  ↔ (length (option_list t ++ l1 ++ l2) ≤ 1)%nat.
Proof.
  rewrite app_assoc. split.
  - intros [H1 H2]. by rewrite option_list_head in H2.
  - intros H. assert (length (option_list t ++ l1) ≤ 1)%nat by (rewrite length_app in H; lia).
    by rewrite option_list_head.
Qed.

Lemma field_args_spec l t n o args :
  for_each field_arg l (MkFieldArgs t n o) = Ok args ↔
  Forall field_arg_ok l ∧ (length (option_list t ++ arg_paths l) ≤ 1)%nat
  ∧ args = MkFieldArgs (head (option_list t ++ arg_paths l))
      (from_option Some n (last_value (str_value "name_in_functions") l))
      (default o (last_value (bool_value "optional") l)).
Proof.
  revert t n o. induction l as [|a l IH]; intros t n o.
  { cbn. rewrite app_nil_r. destruct t; cbn; split; (intros [= <-] || intros (_ & _ & ->));
      split_and?; done || lia || by constructor. }
  rewrite for_each_cons, list.Forall_cons, arg_paths_cons, <- option_list_fits, !last_value_cons.
  setoid_rewrite field_arg_spec. rewrite app_assoc. split.
  - intros (s & (Hok & Hl & ->) & (Hf & Hl' & ->)%IH).
    split_and!; try done. by rewrite option_list_head.
  - intros ((Hok & Hf) & (Hl & Hl') & ->). eexists. split; [done|].
    apply IH. split_and!; try done. by rewrite option_list_head.
Qed.

Lemma struct_args_spec l n d e args :
  for_each struct_arg l (MkStructArgs n d e) = Ok args ↔
  Forall struct_arg_ok l
  ∧ args = MkStructArgs (default n (last_value (bool_value "nested") l))
      (default d (last_value (bool_value "derive_decoder") l))
      (default e (last_value (bool_value "derive_deserialize") l)).
Proof.
  revert n d e. induction l as [|a l IH]; intros n d e.
  { cbn. split; [by intros [= <-]|by intros (_ & ->)]. }
  rewrite for_each_cons, list.Forall_cons, !last_value_cons.
  setoid_rewrite struct_arg_spec. split.
  - by intros (s & (Hok & ->) & (Hf & ->)%IH).
  - intros ((Hok & Hf) & ->). eexists. split; [done|]. by apply IH.
Qed.

Lemma enum_args_spec l n t args :
  for_each enum_arg l (MkEnumArgs n t) = Ok args ↔
  Forall enum_arg_ok l ∧ (length (option_list t ++ arg_paths l) ≤ 1)%nat
  ∧ args = MkEnumArgs (default n (last_value (bool_value "nested") l))
      (head (option_list t ++ arg_paths l)).
Proof.
  revert n t. induction l as [|a l IH]; intros n t.
  { cbn. rewrite app_nil_r. destruct t; cbn; split; (intros [= <-] || intros (_ & _ & ->));
      split_and?; done || lia || by constructor. }
  rewrite for_each_cons, list.Forall_cons, arg_paths_cons, <- option_list_fits, !last_value_cons.
  setoid_rewrite enum_arg_spec. rewrite app_assoc. split.
  - intros (s & (Hok & Hl & ->) & (Hf & Hl' & ->)%IH).
    split_and!; try done. by rewrite option_list_head.
  - intros ((Hok & Hf) & (Hl & Hl') & ->). eexists. split; [done|].
    apply IH. split_and!; try done. by rewrite option_list_head.
Qed.
End ArgumentLemmas.
