(* ===== verification/Declarations.v ===== *)
(** * The declarations the attribute macros are applied to

    Every [#[nfnetlink_struct]] and [#[nfnetlink_enum]] of the crate, as syn parses it: the
    arguments of the macro and the item, in the order of the files.  [Expansion.v] runs the
    macros of [Expand.v] on them and compares the result with the tables the other files use. *)

From S2P Require Import Prelude Expand.
Local Open Scope string_scope.

(** A doc comment is an attribute, whose tokens are not a group. *)
Definition doc_attr : Attribute := MkAttribute (ident_path "doc") None.
Definition bare_attr (name : string) : Attribute := MkAttribute (ident_path name) None.
Definition derive_attr (l : list string) : Attribute :=
  MkAttribute (ident_path "derive") (Some (map (λ s, Meta_Path (ident_path s)) l)).
Definition field_attr (l : list SynMeta) : Attribute := MkAttribute (ident_path "field") (Some l).

(** The forms the declarations use. *)
Definition here (s : string) : Path := ident_path s.
Definition sys (s : string) : Path := mod_path ["sys"; s].
Definition crate_sys (s : string) : Path := mod_path ["crate"; "sys"; s].
Definition libc (s : string) : Path := mod_path ["libc"; s].
Definition flag (key : string) (b : bool) : SynMeta := Meta_NameValue (ident_path key) (Lit_Bool b).
Definition text (key value : string) : SynMeta := Meta_NameValue (ident_path key) (Lit_Str value).
Definition field (attrs : list Attribute) (vis name ty : string) : SynField :=
  MkSynField attrs vis (Some name) ty.
Definition variant (name : string) (value : Path) : SynVariant :=
  MkSynVariant name (Some (Expr_Path value)).

(** ** [src/lib.rs] *)
Definition ProtocolFamily_args : list SynMeta := [Meta_Path (here "i32")].
Definition ProtocolFamily_item : ItemEnum := {|
  ienum_attrs := [doc_attr; derive_attr ["Debug"; "Copy"; "Clone"; "PartialEq"; "Eq"]];
  ienum_vis := "pub"; ienum_ident := "ProtocolFamily";
  ienum_variants := [
    variant "Unspec" (libc "NFPROTO_UNSPEC");
    variant "Inet" (libc "NFPROTO_INET");
    variant "Ipv4" (libc "NFPROTO_IPV4");
    variant "Arp" (libc "NFPROTO_ARP");
    variant "NetDev" (libc "NFPROTO_NETDEV");
    variant "Bridge" (libc "NFPROTO_BRIDGE");
    variant "Ipv6" (libc "NFPROTO_IPV6");
    variant "DecNet" (libc "NFPROTO_DECNET")] |}.

(** ** [src/parser_impls.rs] *)
Definition NfNetlinkData_args : list SynMeta := [flag "nested" true].
Definition NfNetlinkData_item : ItemStruct := {|
  item_attrs := [derive_attr ["Clone"; "PartialEq"; "Eq"; "Default"; "Debug"]];
  item_vis := "pub"; item_ident := "NfNetlinkData";
  item_fields := [
    field [field_attr [Meta_Path (here "NFTA_DATA_VALUE")]] "" "value" "Vec<u8>";
    field [field_attr [Meta_Path (here "NFTA_DATA_VERDICT")]] "" "verdict" "Verdict"] |}.

(** ** [src/table.rs] *)
Definition Table_args : list SynMeta := [flag "derive_deserialize" false].
Definition Table_item : ItemStruct := {|
  item_attrs := [doc_attr; doc_attr; doc_attr; doc_attr; derive_attr ["Default"; "PartialEq"; "Eq"; "Debug"]];
  item_vis := "pub"; item_ident := "Table";
  item_fields := [
    field [] "" "family" "ProtocolFamily";
    field [field_attr [Meta_Path (here "NFTA_TABLE_NAME")]] "" "name" "String";
    field [field_attr [Meta_Path (here "NFTA_TABLE_FLAGS")]] "" "flags" "u32";
    field [field_attr [flag "optional" true; Meta_Path (crate_sys "NFTA_TABLE_USERDATA")]] "" "userdata" "Vec<u8>"] |}.

(** ** [src/chain.rs] *)
Definition Hook_args : list SynMeta := [flag "nested" true].
Definition Hook_item : ItemStruct := {|
  item_attrs := [derive_attr ["Clone"; "PartialEq"; "Eq"; "Default"; "Debug"]];
  item_vis := "pub"; item_ident := "Hook";
  item_fields := [
    field [doc_attr; field_attr [Meta_Path (here "NFTA_HOOK_HOOKNUM")]] "" "class" "u32";
    field [field_attr [Meta_Path (here "NFTA_HOOK_PRIORITY")]] "" "priority" "u32"] |}.

Definition Chain_args : list SynMeta := [flag "derive_deserialize" false].
Definition Chain_item : ItemStruct := {|
  item_attrs := [doc_attr; doc_attr; doc_attr; doc_attr; derive_attr ["PartialEq"; "Eq"; "Default"; "Debug"]];
  item_vis := "pub"; item_ident := "Chain";
  item_fields := [
    field [] "" "family" "ProtocolFamily";
    field [field_attr [Meta_Path (here "NFTA_CHAIN_TABLE")]] "" "table" "String";
    field [field_attr [Meta_Path (here "NFTA_CHAIN_NAME")]] "" "name" "String";
    field [field_attr [Meta_Path (here "NFTA_CHAIN_HOOK")]] "" "hook" "Hook";
    field [field_attr [Meta_Path (here "NFTA_CHAIN_POLICY")]] "" "policy" "ChainPolicy";
    field [field_attr [Meta_Path (here "NFTA_CHAIN_TYPE"); text "name_in_functions" "type"]] "" "chain_type" "ChainType";
    field [field_attr [Meta_Path (here "NFTA_CHAIN_FLAGS")]] "" "flags" "u32";
    field [field_attr [flag "optional" true; Meta_Path (crate_sys "NFTA_CHAIN_USERDATA")]] "" "userdata" "Vec<u8>"] |}.

(** ** [src/rule.rs] *)
Definition Rule_args : list SynMeta := [flag "derive_deserialize" false].
Definition Rule_item : ItemStruct := {|
  item_attrs := [doc_attr; derive_attr ["Clone"; "PartialEq"; "Eq"; "Default"; "Debug"]];
  item_vis := "pub"; item_ident := "Rule";
  item_fields := [
    field [] "" "family" "ProtocolFamily";
    field [field_attr [Meta_Path (here "NFTA_RULE_TABLE")]] "" "table" "String";
    field [field_attr [Meta_Path (here "NFTA_RULE_CHAIN")]] "" "chain" "String";
    field [field_attr [Meta_Path (here "NFTA_RULE_HANDLE")]] "" "handle" "u64";
    field [field_attr [Meta_Path (here "NFTA_RULE_EXPRESSIONS")]] "" "expressions" "ExpressionList";
    field [field_attr [Meta_Path (here "NFTA_RULE_POSITION")]] "" "position" "u64";
    field [field_attr [Meta_Path (here "NFTA_RULE_USERDATA")]] "" "userdata" "Vec<u8>";
    field [field_attr [Meta_Path (here "NFTA_RULE_ID")]] "" "id" "u32"] |}.

(** ** [src/set.rs] *)
Definition NfSet_args : list SynMeta := [flag "derive_deserialize" false].
Definition NfSet_item : ItemStruct := {|
  item_attrs := [derive_attr ["Default"; "Debug"; "Clone"; "PartialEq"; "Eq"]];
  item_vis := "pub"; item_ident := "Set";
  item_fields := [
    field [] "pub" "family" "ProtocolFamily";
    field [field_attr [Meta_Path (here "NFTA_SET_TABLE")]] "pub" "table" "String";
    field [field_attr [Meta_Path (here "NFTA_SET_NAME")]] "pub" "name" "String";
    field [field_attr [Meta_Path (here "NFTA_SET_FLAGS")]] "pub" "flags" "u32";
    field [field_attr [Meta_Path (here "NFTA_SET_KEY_TYPE")]] "pub" "key_type" "u32";
    field [field_attr [Meta_Path (here "NFTA_SET_KEY_LEN")]] "pub" "key_len" "u32";
    field [field_attr [Meta_Path (here "NFTA_SET_ID")]] "pub" "id" "u32";
    field [field_attr [Meta_Path (here "NFTA_SET_USERDATA")]] "pub" "userdata" "String"] |}.

Definition SetElementList_args : list SynMeta := [flag "nested" true; flag "derive_deserialize" false].
Definition SetElementList_item : ItemStruct := {|
  item_attrs := [derive_attr ["Default"; "Debug"; "Clone"; "PartialEq"; "Eq"]];
  item_vis := "pub"; item_ident := "SetElementList";
  item_fields := [
    field [field_attr [Meta_Path (here "NFTA_SET_ELEM_LIST_TABLE")]] "pub" "table" "String";
    field [field_attr [Meta_Path (here "NFTA_SET_ELEM_LIST_SET")]] "pub" "set" "String";
    field [field_attr [Meta_Path (here "NFTA_SET_ELEM_LIST_ELEMENTS")]] "pub" "elements" "SetElementListElements"] |}.

Definition SetElement_args : list SynMeta := [flag "nested" true].
Definition SetElement_item : ItemStruct := {|
  item_attrs := [derive_attr ["Default"; "Debug"; "Clone"; "PartialEq"; "Eq"]];
  item_vis := "pub"; item_ident := "SetElement";
  item_fields := [
    field [field_attr [Meta_Path (here "NFTA_SET_ELEM_KEY")]] "pub" "key" "NfNetlinkData"] |}.

(** ** [src/expr/bitwise.rs] *)
Definition Bitwise_args : list SynMeta := [].
Definition Bitwise_item : ItemStruct := {|
  item_attrs := [derive_attr ["Clone"; "PartialEq"; "Eq"; "Default"; "Debug"]];
  item_vis := "pub"; item_ident := "Bitwise";
  item_fields := [
    field [field_attr [Meta_Path (here "NFTA_BITWISE_SREG")]] "" "sreg" "Register";
    field [field_attr [Meta_Path (here "NFTA_BITWISE_DREG")]] "" "dreg" "Register";
    field [field_attr [Meta_Path (here "NFTA_BITWISE_LEN")]] "" "len" "u32";
    field [field_attr [Meta_Path (here "NFTA_BITWISE_MASK")]] "" "mask" "NfNetlinkData";
    field [field_attr [Meta_Path (here "NFTA_BITWISE_XOR")]] "" "xor" "NfNetlinkData"] |}.

(** ** [src/expr/byteorder.rs] *)
Definition ByteorderOp_args : list SynMeta := [Meta_Path (here "u32"); flag "nested" true].
Definition ByteorderOp_item : ItemEnum := {|
  ienum_attrs := [doc_attr; derive_attr ["Debug"; "Copy"; "Clone"; "Eq"; "PartialEq"]];
  ienum_vis := "pub"; ienum_ident := "ByteorderOp";
  ienum_variants := [
    variant "NtoH" (here "NFT_BYTEORDER_NTOH");
    variant "HtoN" (here "NFT_BYTEORDER_HTON")] |}.

Definition Byteorder_args : list SynMeta := [flag "nested" true].
Definition Byteorder_item : ItemStruct := {|
  item_attrs := [doc_attr; derive_attr ["Default"; "Debug"; "Clone"; "PartialEq"; "Eq"]];
  item_vis := "pub"; item_ident := "Byteorder";
  item_fields := [
    field [field_attr [Meta_Path (here "NFTA_BYTEORDER_SREG")]] "" "sreg" "Register";
    field [field_attr [Meta_Path (here "NFTA_BYTEORDER_DREG")]] "" "dreg" "Register";
    field [field_attr [Meta_Path (here "NFTA_BYTEORDER_OP")]] "" "op" "ByteorderOp";
    field [field_attr [Meta_Path (here "NFTA_BYTEORDER_LEN")]] "" "len" "u32";
    field [field_attr [Meta_Path (here "NFTA_BYTEORDER_SIZE")]] "" "siz" "u32"] |}.

(** ** [src/expr/cmp.rs] *)
Definition CmpOp_args : list SynMeta := [Meta_Path (here "u32"); flag "nested" true].
Definition CmpOp_item : ItemEnum := {|
  ienum_attrs := [doc_attr; derive_attr ["Debug"; "Copy"; "Clone"; "Eq"; "PartialEq"]];
  ienum_vis := "pub"; ienum_ident := "CmpOp";
  ienum_variants := [
    variant "Eq" (here "NFT_CMP_EQ");
    variant "Neq" (here "NFT_CMP_NEQ");
    variant "Lt" (here "NFT_CMP_LT");
    variant "Lte" (here "NFT_CMP_LTE");
    variant "Gt" (here "NFT_CMP_GT");
    variant "Gte" (here "NFT_CMP_GTE")] |}.

Definition Cmp_args : list SynMeta := [].
Definition Cmp_item : ItemStruct := {|
  item_attrs := [doc_attr; derive_attr ["Default"; "Debug"; "Clone"; "PartialEq"; "Eq"]];
  item_vis := "pub"; item_ident := "Cmp";
  item_fields := [
    field [field_attr [Meta_Path (here "NFTA_CMP_SREG")]] "" "sreg" "Register";
    field [field_attr [Meta_Path (here "NFTA_CMP_OP")]] "" "op" "CmpOp";
    field [field_attr [Meta_Path (here "NFTA_CMP_DATA")]] "" "data" "NfNetlinkData"] |}.

(** ** [src/expr/counter.rs] *)
Definition Counter_args : list SynMeta := [].
Definition Counter_item : ItemStruct := {|
  item_attrs := [doc_attr; doc_attr; derive_attr ["Default"; "Clone"; "Debug"; "PartialEq"; "Eq"]];
  item_vis := "pub"; item_ident := "Counter";
  item_fields := [
    field [field_attr [Meta_Path (sys "NFTA_COUNTER_BYTES")]] "pub" "nb_bytes" "u64";
    field [field_attr [Meta_Path (sys "NFTA_COUNTER_PACKETS")]] "pub" "nb_packets" "u64"] |}.

(** ** [src/expr/ct.rs] *)
Definition ConntrackKey_args : list SynMeta := [Meta_Path (here "u32"); flag "nested" true].
Definition ConntrackKey_item : ItemEnum := {|
  ienum_attrs := [derive_attr ["Copy"; "Clone"; "Debug"; "PartialEq"; "Eq"]];
  ienum_vis := "pub"; ienum_ident := "ConntrackKey";
  ienum_variants := [
    variant "State" (here "NFT_CT_STATE");
    variant "Mark" (here "NFT_CT_MARK")] |}.

Definition Conntrack_args : list SynMeta := [flag "nested" true].
Definition Conntrack_item : ItemStruct := {|
  item_attrs := [derive_attr ["Default"; "Clone"; "Debug"; "PartialEq"; "Eq"]];
  item_vis := "pub"; item_ident := "Conntrack";
  item_fields := [
    field [field_attr [Meta_Path (here "NFTA_CT_DREG")]] "pub" "dreg" "Register";
    field [field_attr [Meta_Path (here "NFTA_CT_KEY")]] "pub" "key" "ConntrackKey";
    field [field_attr [Meta_Path (here "NFTA_CT_DIRECTION")]] "pub" "direction" "u8";
    field [field_attr [Meta_Path (here "NFTA_CT_SREG")]] "pub" "sreg" "Register"] |}.

(** ** [src/expr/exthdr.rs] *)
Definition ExtHdrOp_args : list SynMeta := [Meta_Path (here "u32"); flag "nested" true].
Definition ExtHdrOp_item : ItemEnum := {|
  ienum_attrs := [doc_attr; derive_attr ["Debug"; "Copy"; "Clone"; "Eq"; "PartialEq"]];
  ienum_vis := "pub"; ienum_ident := "ExtHdrOp";
  ienum_variants := [
    variant "IPv6" (here "NFT_EXTHDR_OP_IPV6");
    variant "TCPOpt" (here "NFT_EXTHDR_OP_TCPOPT")] |}.

Definition ExtHdr_args : list SynMeta := [flag "nested" true].
Definition ExtHdr_item : ItemStruct := {|
  item_attrs := [doc_attr; derive_attr ["Default"; "Debug"; "Clone"; "PartialEq"; "Eq"]];
  item_vis := "pub"; item_ident := "ExtHdr";
  item_fields := [
    field [field_attr [Meta_Path (here "NFTA_EXTHDR_DREG")]] "" "dreg" "Register";
    field [field_attr [Meta_Path (here "NFTA_EXTHDR_TYPE")]] "" "typ" "u8";
    field [field_attr [Meta_Path (here "NFTA_EXTHDR_OFFSET")]] "" "offset" "u32";
    field [field_attr [Meta_Path (here "NFTA_EXTHDR_LEN")]] "" "len" "u32";
    field [field_attr [Meta_Path (here "NFTA_EXTHDR_FLAGS")]] "" "flags" "u32";
    field [field_attr [Meta_Path (here "NFTA_EXTHDR_OP")]] "" "op" "ExtHdrOp";
    field [field_attr [Meta_Path (here "NFTA_EXTHDR_SREG")]] "" "sreg" "Register"] |}.

(** ** [src/expr/immediate.rs] *)
Definition Immediate_args : list SynMeta := [].
Definition Immediate_item : ItemStruct := {|
  item_attrs := [derive_attr ["Clone"; "PartialEq"; "Eq"; "Default"; "Debug"]];
  item_vis := "pub"; item_ident := "Immediate";
  item_fields := [
    field [field_attr [Meta_Path (here "NFTA_IMMEDIATE_DREG")]] "" "dreg" "Register";
    field [field_attr [Meta_Path (here "NFTA_IMMEDIATE_DATA")]] "" "data" "NfNetlinkData"] |}.

(** ** [src/expr/log.rs] *)
Definition Log_args : list SynMeta := [].
Definition Log_item : ItemStruct := {|
  item_attrs := [derive_attr ["Clone"; "PartialEq"; "Eq"; "Default"; "Debug"]; doc_attr];
  item_vis := "pub"; item_ident := "Log";
  item_fields := [
    field [field_attr [Meta_Path (here "NFTA_LOG_GROUP")]] "" "group" "u16";
    field [field_attr [Meta_Path (here "NFTA_LOG_PREFIX")]] "" "prefix" "String"] |}.

(** ** [src/expr/lookup.rs] *)
Definition Lookup_args : list SynMeta := [].
Definition Lookup_item : ItemStruct := {|
  item_attrs := [derive_attr ["Clone"; "PartialEq"; "Eq"; "Default"; "Debug"]];
  item_vis := "pub"; item_ident := "Lookup";
  item_fields := [
    field [field_attr [Meta_Path (here "NFTA_LOOKUP_SET")]] "" "set" "String";
    field [field_attr [Meta_Path (here "NFTA_LOOKUP_SREG")]] "" "sreg" "Register";
    field [field_attr [Meta_Path (here "NFTA_LOOKUP_DREG")]] "" "dreg" "Register";
    field [field_attr [Meta_Path (here "NFTA_LOOKUP_SET_ID")]] "" "set_id" "u32"] |}.

(** ** [src/expr/masquerade.rs] *)
Definition Masquerade_args : list SynMeta := [flag "nested" true].
Definition Masquerade_item : ItemStruct := {|
  item_attrs := [doc_attr; derive_attr ["Default"; "Debug"; "PartialEq"; "Eq"]];
  item_vis := "pub"; item_ident := "Masquerade";
  item_fields := [] |}.

(** ** [src/expr/meta.rs] *)
Definition MetaType_args : list SynMeta := [Meta_Path (here "u32")].
Definition MetaType_item : ItemEnum := {|
  ienum_attrs := [doc_attr; derive_attr ["Debug"; "Copy"; "Clone"; "Eq"; "PartialEq"]; bare_attr "non_exhaustive"];
  ienum_vis := "pub"; ienum_ident := "MetaType";
  ienum_variants := [
    variant "Protocol" (sys "NFT_META_PROTOCOL");
    variant "Mark" (sys "NFT_META_MARK");
    variant "Iif" (sys "NFT_META_IIF");
    variant "Oif" (sys "NFT_META_OIF");
    variant "IifName" (sys "NFT_META_IIFNAME");
    variant "OifName" (sys "NFT_META_OIFNAME");
    variant "IifType" (libc "NFT_META_IIFTYPE");
    variant "OifType" (sys "NFT_META_OIFTYPE");
    variant "SkUid" (sys "NFT_META_SKUID");
    variant "SkGid" (sys "NFT_META_SKGID");
    variant "NfProto" (sys "NFT_META_NFPROTO");
    variant "L4Proto" (sys "NFT_META_L4PROTO");
    variant "Cgroup" (sys "NFT_META_CGROUP");
    variant "PRandom" (sys "NFT_META_PRANDOM")] |}.

Definition Meta_args : list SynMeta := [].
Definition Meta_item : ItemStruct := {|
  item_attrs := [derive_attr ["Clone"; "PartialEq"; "Eq"; "Default"; "Debug"]];
  item_vis := "pub"; item_ident := "Meta";
  item_fields := [
    field [field_attr [Meta_Path (sys "NFTA_META_DREG")]] "" "dreg" "Register";
    field [field_attr [Meta_Path (sys "NFTA_META_KEY")]] "" "key" "MetaType";
    field [field_attr [Meta_Path (sys "NFTA_META_SREG")]] "" "sreg" "Register"] |}.

(** ** [src/expr/mod.rs] *)
Definition RawExpression_args : list SynMeta := [flag "nested" true; flag "derive_decoder" false].
Definition RawExpression_item : ItemStruct := {|
  item_attrs := [derive_attr ["Clone"; "PartialEq"; "Eq"; "Default"; "Debug"]];
  item_vis := "pub"; item_ident := "RawExpression";
  item_fields := [
    field [field_attr [Meta_Path (here "NFTA_EXPR_NAME")]] "" "name" "String";
    field [field_attr [Meta_Path (here "NFTA_EXPR_DATA")]] "" "data" "ExpressionVariant"] |}.

(** ** [src/expr/nat.rs] *)
Definition NatType_args : list SynMeta := [Meta_Path (here "i32")].
Definition NatType_item : ItemEnum := {|
  ienum_attrs := [derive_attr ["Debug"; "Copy"; "Clone"; "Eq"; "PartialEq"; "Hash"]];
  ienum_vis := "pub"; ienum_ident := "NatType";
  ienum_variants := [
    variant "SNat" (here "NFT_NAT_SNAT");
    variant "DNat" (here "NFT_NAT_DNAT")] |}.

Definition Nat_args : list SynMeta := [flag "nested" true].
Definition Nat_item : ItemStruct := {|
  item_attrs := [doc_attr; doc_attr; derive_attr ["Default"; "Debug"; "Clone"; "PartialEq"; "Eq"]];
  item_vis := "pub"; item_ident := "Nat";
  item_fields := [
    field [field_attr [Meta_Path (sys "NFTA_NAT_TYPE")]] "pub" "nat_type" "NatType";
    field [field_attr [Meta_Path (sys "NFTA_NAT_FAMILY")]] "pub" "family" "ProtocolFamily";
    field [field_attr [Meta_Path (sys "NFTA_NAT_REG_ADDR_MIN")]] "pub" "ip_register" "Register";
    field [field_attr [Meta_Path (sys "NFTA_NAT_REG_PROTO_MIN")]] "pub" "port_register" "Register"] |}.

(** ** [src/expr/payload.rs] *)
Definition Payload_args : list SynMeta := [flag "nested" true].
Definition Payload_item : ItemStruct := {|
  item_attrs := [doc_attr; derive_attr ["Default"; "Debug"; "Copy"; "Clone"; "PartialEq"; "Eq"]];
  item_vis := "pub"; item_ident := "Payload";
  item_fields := [
    field [field_attr [Meta_Path (sys "NFTA_PAYLOAD_DREG")]] "" "dreg" "Register";
    field [field_attr [Meta_Path (sys "NFTA_PAYLOAD_BASE")]] "" "base" "u32";
    field [field_attr [Meta_Path (sys "NFTA_PAYLOAD_OFFSET")]] "" "offset" "u32";
    field [field_attr [Meta_Path (sys "NFTA_PAYLOAD_LEN")]] "" "len" "u32";
    field [field_attr [Meta_Path (sys "NFTA_PAYLOAD_SREG")]] "" "sreg" "Register"] |}.

(** ** [src/expr/register.rs] *)
Definition Register_args : list SynMeta := [Meta_Path (here "u32")].
Definition Register_item : ItemEnum := {|
  ienum_attrs := [doc_attr; doc_attr; derive_attr ["Debug"; "Copy"; "Clone"; "Eq"; "PartialEq"; "Hash"]];
  ienum_vis := "pub"; ienum_ident := "Register";
  ienum_variants := [
    variant "Verdict" (here "NFT_REG_VERDICT");
    variant "Reg1" (here "NFT_REG_1");
    variant "Reg2" (here "NFT_REG_2");
    variant "Reg3" (here "NFT_REG_3");
    variant "Reg4" (here "NFT_REG_4")] |}.

(** ** [src/expr/reject.rs] *)
Definition Reject_args : list SynMeta := [].
Definition Reject_item : ItemStruct := {|
  item_attrs := [derive_attr ["Clone"; "PartialEq"; "Eq"; "Default"; "Debug"]; doc_attr];
  item_vis := "pub"; item_ident := "Reject";
  item_fields := [
    field [field_attr [Meta_Path (sys "NFTA_REJECT_TYPE"); text "name_in_functions" "type"]] "" "reject_type" "RejectType";
    field [field_attr [Meta_Path (sys "NFTA_REJECT_ICMP_CODE")]] "" "icmp_code" "IcmpCode"] |}.

Definition RejectType_args : list SynMeta := [Meta_Path (here "u32")].
Definition RejectType_item : ItemEnum := {|
  ienum_attrs := [doc_attr; derive_attr ["Debug"; "Clone"; "Copy"; "Eq"; "PartialEq"; "Hash"]];
  ienum_vis := "pub"; ienum_ident := "RejectType";
  ienum_variants := [
    variant "IcmpUnreach" (sys "NFT_REJECT_ICMP_UNREACH");
    variant "TcpRst" (sys "NFT_REJECT_TCP_RST");
    variant "IcmpxUnreach" (sys "NFT_REJECT_ICMPX_UNREACH")] |}.

Definition IcmpCode_args : list SynMeta := [Meta_Path (here "u8")].
Definition IcmpCode_item : ItemEnum := {|
  ienum_attrs := [doc_attr; derive_attr ["Debug"; "Clone"; "Copy"; "Eq"; "PartialEq"; "Hash"]];
  ienum_vis := "pub"; ienum_ident := "IcmpCode";
  ienum_variants := [
    variant "NoRoute" (sys "NFT_REJECT_ICMPX_NO_ROUTE");
    variant "PortUnreach" (sys "NFT_REJECT_ICMPX_PORT_UNREACH");
    variant "HostUnreach" (sys "NFT_REJECT_ICMPX_HOST_UNREACH");
    variant "AdminProhibited" (sys "NFT_REJECT_ICMPX_ADMIN_PROHIBITED")] |}.

(** ** [src/expr/rt.rs] *)
Definition RtKey_args : list SynMeta := [Meta_Path (here "u32"); flag "nested" true].
Definition RtKey_item : ItemEnum := {|
  ienum_attrs := [doc_attr; derive_attr ["Debug"; "Copy"; "Clone"; "Eq"; "PartialEq"]];
  ienum_vis := "pub"; ienum_ident := "RtKey";
  ienum_variants := [
    variant "ClassID" (here "NFT_RT_CLASSID");
    variant "NextHop4" (here "NFT_RT_NEXTHOP4");
    variant "NextHop6" (here "NFT_RT_NEXTHOP6");
    variant "TCPMSS" (here "NFT_RT_TCPMSS")] |}.

Definition Rt_args : list SynMeta := [flag "nested" true].
Definition Rt_item : ItemStruct := {|
  item_attrs := [doc_attr; derive_attr ["Default"; "Debug"; "Clone"; "PartialEq"; "Eq"]];
  item_vis := "pub"; item_ident := "Rt";
  item_fields := [
    field [field_attr [Meta_Path (here "NFTA_RT_DREG")]] "" "dreg" "Register";
    field [field_attr [Meta_Path (here "NFTA_RT_KEY")]] "" "key" "RtKey"] |}.

(** ** [src/expr/verdict.rs] *)
Definition VerdictType_args : list SynMeta := [Meta_Path (here "i32")].
Definition VerdictType_item : ItemEnum := {|
  ienum_attrs := [derive_attr ["Debug"; "Copy"; "Clone"; "Eq"; "PartialEq"; "Hash"]];
  ienum_vis := "pub"; ienum_ident := "VerdictType";
  ienum_variants := [
    variant "Drop" (here "NF_DROP");
    variant "Accept" (here "NF_ACCEPT");
    variant "Queue" (here "NF_QUEUE");
    variant "Continue" (here "NFT_CONTINUE");
    variant "Break" (here "NFT_BREAK");
    variant "Jump" (here "NFT_JUMP");
    variant "Goto" (here "NFT_GOTO");
    variant "Return" (here "NFT_RETURN")] |}.

Definition Verdict_args : list SynMeta := [flag "nested" true].
Definition Verdict_item : ItemStruct := {|
  item_attrs := [derive_attr ["Clone"; "PartialEq"; "Eq"; "Default"; "Debug"]];
  item_vis := "pub"; item_ident := "Verdict";
  item_fields := [
    field [field_attr [Meta_Path (here "NFTA_VERDICT_CODE")]] "" "code" "VerdictType";
    field [field_attr [Meta_Path (here "NFTA_VERDICT_CHAIN")]] "" "chain" "String";
    field [field_attr [flag "optional" true; Meta_Path (crate_sys "NFTA_VERDICT_CHAIN_ID")]] "" "chain_id" "u32"] |}.

