(* ===== verification/Expansion.v ===== *)
(** * The macros on the crate's declarations

    The tables of fields and variants in the other files are what the macros of [Expand.v]
    generate from the declarations of [Declarations.v]. *)

From S2P Require Import Prelude Sys Errors Lib Nlmsg Parser ParserImpls Macros Codec Data.
From S2P Require Import Objects Exprs ExprMod Table Chain Rule Sets Expand Declarations.
Local Open Scope Z_scope.

(** ** What a declaration says of its fields *)

(** The arguments of the first attribute named [field]. *)
Fixpoint annotation (attrs : list Attribute) : option Attribute :=
  match attrs with
  | [] => None
  | a :: attrs => if decide (get_ident (attr_path a) = Some "field"%string) then Some a
                  else annotation attrs
  end.

Definition is_annotated (f : SynField) : Prop := is_Some (annotation (syn_attrs f)).
#[global] Instance is_annotated_dec f : Decision (is_annotated f).
Proof. unfold is_annotated. apply _. Defined.

(** The name and the identifier of an annotated field, and whether it is optional. *)
Definition field_summary (f : SynField) : option (string * string * bool) :=
  match annotation (syn_attrs f) with
  | Some a =>
      match parse_field_args (attr_args a), syn_ident f with
      | Ok (MkFieldArgs (Some p) _ o), Some name => ident ← last_ident p; Some (name, ident, o)
      | _, _ => None
      end
  | None => None
  end.

Section Refinement.
Context `{BuildProfile} `{Sys}.

(** The declaration [item] has the fields [fs]. *)
Definition describes {S : Type} (item : ItemStruct) (fs : list (Field S)) : Prop :=
  map (λ f, option_map (λ '(_, ident, o), (ident, o)) (field_summary f))
    (filter is_annotated (item_fields item))
  = map (λ f, Some (netlink_ident f, optional f)) fs.

Lemma classify_annotation ids field attrs :
  classify ids field attrs
  = match annotation attrs with Some a => annotated_field ids field a | None => Ok Identical end.
Proof. induction attrs as [|a attrs IH]; cbn; [done|]. by case_decide. Qed.

(** An annotated field is generated when its identifier is declared or not optional. *)
Lemma classify_summary ids field name ident o :
  field_summary field = Some (name, ident, o) →
  (o = true → ident ∈ ids) →
  ∃ m, classify ids field (syn_attrs field) = Ok (Generated m)
    ∧ mf_name m = name ∧ last_ident (mf_netlink_type m) = Some ident.
Proof.
  unfold field_summary. rewrite classify_annotation. destruct (annotation _) as [a|]; [|done].
  unfold annotated_field. destruct (parse_field_args _) as [[[p|] n o']| | | |]; try done.
  destruct (syn_ident field) as [name'|]; [|done].
  destruct (last_ident p) as [i|] eqn:Hi; [|done]. intros [= -> -> ->] Ho. cbn. rewrite Hi.
  destruct o; cbn; [rewrite bool_decide_true by auto|]; cbn; by eexists.
Qed.

Lemma classify_rejected ids field name ident :
  field_summary field = Some (name, ident, true) → ident ∉ ids →
  classify ids field (syn_attrs field) = Ok Rejected.
Proof.
  unfold field_summary. rewrite classify_annotation. destruct (annotation _) as [a|]; [|done].
  unfold annotated_field. destruct (parse_field_args _) as [[[p|] n o']| | | |]; try done.
  destruct (syn_ident field) as [name'|]; [|done].
  destruct (last_ident p) as [i|] eqn:Hi; [|done]. intros [= -> -> ->] Ho. cbn. rewrite Hi.
  cbn. by rewrite bool_decide_false.
Qed.

(** The fields that are generated are the accepted ones, in order; those without an
    annotation stay as they are. *)
Lemma split_fields_accept {S : Type} l (fs : list (Field S)) :
  map (λ f, option_map (λ '(_, ident, o), (ident, o)) (field_summary f)) (filter is_annotated l)
  = map (λ f, Some (netlink_ident f, optional f)) fs →
  ∃ gen, split_fields declared_identifiers l = Ok (gen, filter (λ f, ¬ is_annotated f) l)
    ∧ map (λ m, last_ident (mf_netlink_type m)) gen
      = map (λ f, Some (netlink_ident f)) (accept_fields fs).
Proof.
  revert fs. induction l as [|d l IH]; intros fs.
  { destruct fs; [|done]. intros _. by exists []. }
  cbn [split_fields]. rewrite !filter_cons. destruct (decide (is_annotated d)) as [Ha|Ha].
  - rewrite decide_False by auto. destruct fs as [|f fs]; cbn [map]; [done|].
    intros [= Hd Hl]. destruct (field_summary d) as [[[name ident] o]|] eqn:Hs; [|done].
    cbn in Hd. injection Hd as -> ->. destruct (IH fs Hl) as (gen & -> & Hgen).
    unfold accept_fields. rewrite filter_cons. case_decide as Hacc.
    + destruct (classify_summary _ _ _ _ _ Hs Hacc) as (m & -> & _ & Hm). cbn.
      eexists. split; [done|]. cbn. by rewrite Hm, Hgen.
    + destruct (optional f) eqn:Ho; [|naive_solver].
      rewrite (classify_rejected _ _ _ _ Hs) by naive_solver. cbn. by eexists.
  - rewrite decide_True by done. intros Hl. destruct (IH fs Hl) as (gen & -> & Hgen).
    rewrite classify_annotation. unfold is_annotated in Ha.
    destruct (annotation (syn_attrs d)); [by destruct Ha|]. cbn. by eexists.
Qed.

(** The macro succeeds on such a declaration, and the code it generates handles the accepted
    fields, in their order, under their identifiers. *)
Lemma nfnetlink_struct_accept {S : Type} cell sys_file attrs args item (fs : list (Field S)) :
  get_state cell sys_file = Ok declared_identifiers →
  parse_struct_args attrs = Ok args →
  describes item fs →
  ∃ e, nfnetlink_struct cell sys_file attrs (Some item) = Ok e
    ∧ exp_ident e = item_ident item
    ∧ exp_is_nested e = args_nested args
    ∧ exp_deserialize e = args_derive_deserialize args
    ∧ exp_decoder e = (if args_derive_decoder args then Some (exp_write e) else None)
    ∧ exp_size e = map snd (exp_write e)
    ∧ map (λ w, last_ident (fst w)) (exp_write e)
      = map (λ f, Some (netlink_ident f)) (accept_fields fs).
Proof.
  intros Hst Hargs Hd. unfold nfnetlink_struct. rewrite Hargs, Hst. cbn.
  destruct (split_fields_accept _ _ Hd) as (gen & -> & Hgen). cbn.
  eexists. split_and!; try done; cbn; by rewrite map_map.
Qed.

(** ** The identifiers the declarations use *)
Definition sys_constants : list (string * Z) := [
  ("NFPROTO_UNSPEC", NFPROTO_UNSPEC); ("NFPROTO_INET", NFPROTO_INET);
   ("NFPROTO_IPV4", NFPROTO_IPV4); ("NFPROTO_ARP", NFPROTO_ARP);
   ("NFPROTO_NETDEV", NFPROTO_NETDEV); ("NFPROTO_BRIDGE", NFPROTO_BRIDGE);
   ("NFPROTO_IPV6", NFPROTO_IPV6); ("NFPROTO_DECNET", NFPROTO_DECNET);
   ("NFTA_DATA_VALUE", NFTA_DATA_VALUE); ("NFTA_DATA_VERDICT", NFTA_DATA_VERDICT);
   ("NFTA_TABLE_NAME", NFTA_TABLE_NAME); ("NFTA_TABLE_FLAGS", NFTA_TABLE_FLAGS);
   ("NFTA_TABLE_USERDATA", NFTA_TABLE_USERDATA); ("NFTA_HOOK_HOOKNUM", NFTA_HOOK_HOOKNUM);
   ("NFTA_HOOK_PRIORITY", NFTA_HOOK_PRIORITY); ("NFTA_CHAIN_TABLE", NFTA_CHAIN_TABLE);
   ("NFTA_CHAIN_NAME", NFTA_CHAIN_NAME); ("NFTA_CHAIN_HOOK", NFTA_CHAIN_HOOK);
   ("NFTA_CHAIN_POLICY", NFTA_CHAIN_POLICY); ("NFTA_CHAIN_TYPE", NFTA_CHAIN_TYPE);
   ("NFTA_CHAIN_FLAGS", NFTA_CHAIN_FLAGS); ("NFTA_CHAIN_USERDATA", NFTA_CHAIN_USERDATA);
   ("NFTA_RULE_TABLE", NFTA_RULE_TABLE); ("NFTA_RULE_CHAIN", NFTA_RULE_CHAIN);
   ("NFTA_RULE_HANDLE", NFTA_RULE_HANDLE); ("NFTA_RULE_EXPRESSIONS", NFTA_RULE_EXPRESSIONS);
   ("NFTA_RULE_POSITION", NFTA_RULE_POSITION); ("NFTA_RULE_USERDATA", NFTA_RULE_USERDATA);
   ("NFTA_RULE_ID", NFTA_RULE_ID); ("NFTA_SET_TABLE", NFTA_SET_TABLE);
   ("NFTA_SET_NAME", NFTA_SET_NAME); ("NFTA_SET_FLAGS", NFTA_SET_FLAGS);
   ("NFTA_SET_KEY_TYPE", NFTA_SET_KEY_TYPE); ("NFTA_SET_KEY_LEN", NFTA_SET_KEY_LEN);
   ("NFTA_SET_ID", NFTA_SET_ID); ("NFTA_SET_USERDATA", NFTA_SET_USERDATA);
   ("NFTA_SET_ELEM_LIST_TABLE", NFTA_SET_ELEM_LIST_TABLE);
   ("NFTA_SET_ELEM_LIST_SET", NFTA_SET_ELEM_LIST_SET);
   ("NFTA_SET_ELEM_LIST_ELEMENTS", NFTA_SET_ELEM_LIST_ELEMENTS);
   ("NFTA_SET_ELEM_KEY", NFTA_SET_ELEM_KEY); ("NFTA_BITWISE_SREG", NFTA_BITWISE_SREG);
   ("NFTA_BITWISE_DREG", NFTA_BITWISE_DREG); ("NFTA_BITWISE_LEN", NFTA_BITWISE_LEN);
   ("NFTA_BITWISE_MASK", NFTA_BITWISE_MASK); ("NFTA_BITWISE_XOR", NFTA_BITWISE_XOR);
   ("NFT_BYTEORDER_NTOH", NFT_BYTEORDER_NTOH); ("NFT_BYTEORDER_HTON", NFT_BYTEORDER_HTON);
   ("NFTA_BYTEORDER_SREG", NFTA_BYTEORDER_SREG); ("NFTA_BYTEORDER_DREG", NFTA_BYTEORDER_DREG);
   ("NFTA_BYTEORDER_OP", NFTA_BYTEORDER_OP); ("NFTA_BYTEORDER_LEN", NFTA_BYTEORDER_LEN);
   ("NFTA_BYTEORDER_SIZE", NFTA_BYTEORDER_SIZE); ("NFT_CMP_EQ", NFT_CMP_EQ);
   ("NFT_CMP_NEQ", NFT_CMP_NEQ); ("NFT_CMP_LT", NFT_CMP_LT); ("NFT_CMP_LTE", NFT_CMP_LTE);
   ("NFT_CMP_GT", NFT_CMP_GT); ("NFT_CMP_GTE", NFT_CMP_GTE); ("NFTA_CMP_SREG", NFTA_CMP_SREG);
   ("NFTA_CMP_OP", NFTA_CMP_OP); ("NFTA_CMP_DATA", NFTA_CMP_DATA);
   ("NFTA_COUNTER_BYTES", NFTA_COUNTER_BYTES); ("NFTA_COUNTER_PACKETS", NFTA_COUNTER_PACKETS);
   ("NFT_CT_STATE", NFT_CT_STATE); ("NFT_CT_MARK", NFT_CT_MARK); ("NFTA_CT_DREG", NFTA_CT_DREG);
   ("NFTA_CT_KEY", NFTA_CT_KEY); ("NFTA_CT_DIRECTION", NFTA_CT_DIRECTION);
   ("NFTA_CT_SREG", NFTA_CT_SREG); ("NFT_EXTHDR_OP_IPV6", NFT_EXTHDR_OP_IPV6);
   ("NFT_EXTHDR_OP_TCPOPT", NFT_EXTHDR_OP_TCPOPT); ("NFTA_EXTHDR_DREG", NFTA_EXTHDR_DREG);
   ("NFTA_EXTHDR_TYPE", NFTA_EXTHDR_TYPE); ("NFTA_EXTHDR_OFFSET", NFTA_EXTHDR_OFFSET);
   ("NFTA_EXTHDR_LEN", NFTA_EXTHDR_LEN); ("NFTA_EXTHDR_FLAGS", NFTA_EXTHDR_FLAGS);
   ("NFTA_EXTHDR_OP", NFTA_EXTHDR_OP); ("NFTA_EXTHDR_SREG", NFTA_EXTHDR_SREG);
   ("NFTA_IMMEDIATE_DREG", NFTA_IMMEDIATE_DREG); ("NFTA_IMMEDIATE_DATA", NFTA_IMMEDIATE_DATA);
   ("NFTA_LOG_GROUP", NFTA_LOG_GROUP); ("NFTA_LOG_PREFIX", NFTA_LOG_PREFIX);
   ("NFTA_LOOKUP_SET", NFTA_LOOKUP_SET); ("NFTA_LOOKUP_SREG", NFTA_LOOKUP_SREG);
   ("NFTA_LOOKUP_DREG", NFTA_LOOKUP_DREG); ("NFTA_LOOKUP_SET_ID", NFTA_LOOKUP_SET_ID);
   ("NFT_META_PROTOCOL", NFT_META_PROTOCOL); ("NFT_META_MARK", NFT_META_MARK);
   ("NFT_META_IIF", NFT_META_IIF); ("NFT_META_OIF", NFT_META_OIF);
   ("NFT_META_IIFNAME", NFT_META_IIFNAME); ("NFT_META_OIFNAME", NFT_META_OIFNAME);
   ("NFT_META_IIFTYPE", NFT_META_IIFTYPE); ("NFT_META_OIFTYPE", NFT_META_OIFTYPE);
   ("NFT_META_SKUID", NFT_META_SKUID); ("NFT_META_SKGID", NFT_META_SKGID);
   ("NFT_META_NFPROTO", NFT_META_NFPROTO); ("NFT_META_L4PROTO", NFT_META_L4PROTO);
   ("NFT_META_CGROUP", NFT_META_CGROUP); ("NFT_META_PRANDOM", NFT_META_PRANDOM);
   ("NFTA_META_DREG", NFTA_META_DREG); ("NFTA_META_KEY", NFTA_META_KEY);
   ("NFTA_META_SREG", NFTA_META_SREG); ("NFTA_EXPR_NAME", NFTA_EXPR_NAME);
   ("NFTA_EXPR_DATA", NFTA_EXPR_DATA); ("NFT_NAT_SNAT", NFT_NAT_SNAT);
   ("NFT_NAT_DNAT", NFT_NAT_DNAT); ("NFTA_NAT_TYPE", NFTA_NAT_TYPE);
   ("NFTA_NAT_FAMILY", NFTA_NAT_FAMILY); ("NFTA_NAT_REG_ADDR_MIN", NFTA_NAT_REG_ADDR_MIN);
   ("NFTA_NAT_REG_PROTO_MIN", NFTA_NAT_REG_PROTO_MIN); ("NFTA_PAYLOAD_DREG", NFTA_PAYLOAD_DREG);
   ("NFTA_PAYLOAD_BASE", NFTA_PAYLOAD_BASE); ("NFTA_PAYLOAD_OFFSET", NFTA_PAYLOAD_OFFSET);
   ("NFTA_PAYLOAD_LEN", NFTA_PAYLOAD_LEN); ("NFTA_PAYLOAD_SREG", NFTA_PAYLOAD_SREG);
   ("NFT_REG_VERDICT", NFT_REG_VERDICT); ("NFT_REG_1", NFT_REG_1); ("NFT_REG_2", NFT_REG_2);
   ("NFT_REG_3", NFT_REG_3); ("NFT_REG_4", NFT_REG_4); ("NFTA_REJECT_TYPE", NFTA_REJECT_TYPE);
   ("NFTA_REJECT_ICMP_CODE", NFTA_REJECT_ICMP_CODE);
   ("NFT_REJECT_ICMP_UNREACH", NFT_REJECT_ICMP_UNREACH);
   ("NFT_REJECT_TCP_RST", NFT_REJECT_TCP_RST);
   ("NFT_REJECT_ICMPX_UNREACH", NFT_REJECT_ICMPX_UNREACH);
   ("NFT_REJECT_ICMPX_NO_ROUTE", NFT_REJECT_ICMPX_NO_ROUTE);
   ("NFT_REJECT_ICMPX_PORT_UNREACH", NFT_REJECT_ICMPX_PORT_UNREACH);
   ("NFT_REJECT_ICMPX_HOST_UNREACH", NFT_REJECT_ICMPX_HOST_UNREACH);
   ("NFT_REJECT_ICMPX_ADMIN_PROHIBITED", NFT_REJECT_ICMPX_ADMIN_PROHIBITED);
   ("NFT_RT_CLASSID", NFT_RT_CLASSID); ("NFT_RT_NEXTHOP4", NFT_RT_NEXTHOP4);
   ("NFT_RT_NEXTHOP6", NFT_RT_NEXTHOP6); ("NFT_RT_TCPMSS", NFT_RT_TCPMSS);
   ("NFTA_RT_DREG", NFTA_RT_DREG); ("NFTA_RT_KEY", NFTA_RT_KEY); ("NF_DROP", NF_DROP);
   ("NF_ACCEPT", NF_ACCEPT); ("NF_QUEUE", NF_QUEUE); ("NFT_CONTINUE", NFT_CONTINUE);
   ("NFT_BREAK", NFT_BREAK); ("NFT_JUMP", NFT_JUMP); ("NFT_GOTO", NFT_GOTO);
   ("NFT_RETURN", NFT_RETURN); ("NFTA_VERDICT_CODE", NFTA_VERDICT_CODE);
   ("NFTA_VERDICT_CHAIN", NFTA_VERDICT_CHAIN); ("NFTA_VERDICT_CHAIN_ID", NFTA_VERDICT_CHAIN_ID)].

Fixpoint assoc {A : Type} (key : string) (l : list (string * A)) : option A :=
  match l with
  | [] => None
  | (k, a) :: l => if decide (k = key) then Some a else assoc key l
  end.

(** The value of the constant a path names. *)
Definition path_value (p : Path) : option Z := ident ← last_ident p; assoc ident sys_constants.

(** ** The structures *)
Record StructModel := MkStructModel {
  sm_args : list SynMeta;
  sm_item : ItemStruct;
  sm_type : Type;
  sm_fields : list (Field sm_type);
  sm_attribute : NfNetlinkAttribute sm_type;
  sm_decoder : AttributeDecoder sm_type;
  sm_deserializable : NfNetlinkDeserializable sm_type;
  sm_default : sm_type }.

Definition struct_model {S : Type} `{NfNetlinkAttribute S} `{AttributeDecoder S}
    `{NfNetlinkDeserializable S} args item (fs : list (Field S)) (dflt : S) : StructModel :=
  MkStructModel args item S fs _ _ _ dflt.

Definition crate_structs : list StructModel := [
  struct_model NfNetlinkData_args NfNetlinkData_item NfNetlinkData_fields NfNetlinkData_default;
  struct_model Table_args Table_item Table_fields Table_default;
  struct_model Hook_args Hook_item Hook_fields Hook_default;
  struct_model Chain_args Chain_item Chain_fields Chain_default;
  struct_model Rule_args Rule_item Rule_fields Rule_default;
  struct_model NfSet_args NfSet_item NfSet_fields NfSet_default;
  struct_model SetElementList_args SetElementList_item SetElementList_fields SetElementList_default;
  struct_model SetElement_args SetElement_item SetElement_fields SetElement_default;
  struct_model Bitwise_args Bitwise_item Bitwise_fields Bitwise_default;
  struct_model Byteorder_args Byteorder_item Byteorder_fields Byteorder_default;
  struct_model Cmp_args Cmp_item Cmp_fields Cmp_default;
  struct_model Counter_args Counter_item Counter_fields Counter_default;
  struct_model Conntrack_args Conntrack_item Conntrack_fields Conntrack_default;
  struct_model ExtHdr_args ExtHdr_item ExtHdr_fields ExtHdr_default;
  struct_model Immediate_args Immediate_item Immediate_fields Immediate_default;
  struct_model Log_args Log_item Log_fields Log_default;
  struct_model Lookup_args Lookup_item Lookup_fields Lookup_default;
  struct_model Masquerade_args Masquerade_item Masquerade_fields Masquerade_default;
  struct_model Meta_args Meta_item Meta_fields Meta_default;
  struct_model RawExpression_args RawExpression_item RawExpression_fields RawExpression_default;
  struct_model Nat_args Nat_item Nat_fields Nat_default;
  struct_model Payload_args Payload_item Payload_fields Payload_default;
  struct_model Reject_args Reject_item Reject_fields Reject_default;
  struct_model Rt_args Rt_item Rt_fields Rt_default;
  struct_model Verdict_args Verdict_item Verdict_fields Verdict_default].

(** The values of a table of identifiers. *)
Lemma path_values {S : Type} (ws : list (Path * string)) (fs : list (Field S)) :
  Forall (λ f, assoc (netlink_ident f) sys_constants = Some (netlink_type f)) fs →
  map (λ w, last_ident (fst w)) ws = map (λ f, Some (netlink_ident f)) (accept_fields fs) →
  map (λ w, path_value (fst w)) ws = map (λ f, Some (netlink_type f)) (accept_fields fs).
Proof.
  intros Hv. assert (Forall (λ f, assoc (netlink_ident f) sys_constants = Some (netlink_type f))
    (accept_fields fs)) as Ha.
  { apply list.Forall_forall. intros f [_ Hf]%list_elem_of_filter.
    by apply (proj1 (list.Forall_forall _ _) Hv). }
  revert ws. induction Ha as [|f l Hf _ IH]; intros [|w ws]; try done.
  cbn [map]. intros [= Hw Hws]. rewrite (IH ws) by done. unfold path_value. rewrite Hw.
  cbn [mbind option_bind]. by rewrite Hf.
Qed.

(** The trait implementations of the model are those of the generated code, whose attribute
    types have the values of the constants the declaration names. *)
Definition struct_model_ok (m : StructModel) (args : StructArgs) : Prop :=
  let fs := accept_fields (sm_fields m) in
  parse_struct_args (Some (sm_args m)) = Ok args
  ∧ describes (sm_item m) (sm_fields m)
  ∧ Forall (λ f, assoc (netlink_ident f) sys_constants = Some (netlink_type f)) (sm_fields m)
  ∧ sm_attribute m = struct_attribute fs (args_nested args)
  ∧ (args_derive_decoder args = true → sm_decoder m = struct_decoder fs)
  ∧ (args_derive_deserialize args = true →
     sm_deserializable m = struct_deserializable (H1 := sm_decoder m) (sm_default m)).

Lemma crate_structs_ok : Forall (λ m, ∃ args, struct_model_ok m args) crate_structs.
Proof.
  unfold crate_structs. repeat (apply list.Forall_cons; split); [..|by apply list.Forall_nil].
  all: eexists; split; [reflexivity|]; split; [reflexivity|];
    split; [by repeat (apply list.Forall_cons; split; [reflexivity|])|].
  all: split; [reflexivity|]; split; intros Hd; first [discriminate Hd | reflexivity].
Qed.

(** ** The enumerations *)
Record EnumModel := MkEnumModel {
  em_args : list SynMeta;
  em_item : ItemEnum;
  em_type : Type;
  em_enum : NfnetlinkEnum em_type }.

Definition crate_enums : list EnumModel := [
  MkEnumModel ProtocolFamily_args ProtocolFamily_item _ ProtocolFamily_enum;
  MkEnumModel ByteorderOp_args ByteorderOp_item _ ByteorderOp_enum;
  MkEnumModel CmpOp_args CmpOp_item _ CmpOp_enum;
  MkEnumModel ConntrackKey_args ConntrackKey_item _ ConntrackKey_enum;
  MkEnumModel ExtHdrOp_args ExtHdrOp_item _ ExtHdrOp_enum;
  MkEnumModel MetaType_args MetaType_item _ MetaType_enum;
  MkEnumModel NatType_args NatType_item _ NatType_enum;
  MkEnumModel Register_args Register_item _ Register_enum;
  MkEnumModel RejectType_args RejectType_item _ RejectType_enum;
  MkEnumModel IcmpCode_args IcmpCode_item _ IcmpCode_enum;
  MkEnumModel RtKey_args RtKey_item _ RtKey_enum;
  MkEnumModel VerdictType_args VerdictType_item _ VerdictType_enum].

Definition repr_path (r : Repr) : Path :=
  ident_path match r with ReprU8 => "u8" | ReprI32 => "i32" | ReprU32 => "u32" end.

(** The name of an error with an unknown value. *)
Definition unknown_name (e : DecodeError) : option string :=
  match e with
  | UnknownProtocolFamily _ => Some "UnknownProtocolFamily"%string
  | UnknownByteorderOp _ => Some "UnknownByteorderOp"%string
  | UnknownCmpOp _ => Some "UnknownCmpOp"%string
  | UnknownConntrackKey _ => Some "UnknownConntrackKey"%string
  | UnknownExtHdrOp _ => Some "UnknownExtHdrOp"%string
  | UnknownMetaType _ => Some "UnknownMetaType"%string
  | UnknownNatType _ => Some "UnknownNatType"%string
  | UnknownRegister _ => Some "UnknownRegister"%string
  | UnknownRejectType _ => Some "UnknownRejectType"%string
  | UnknownIcmpCode _ => Some "UnknownIcmpCode"%string
  | UnknownRtKey _ => Some "UnknownRtKey"%string
  | UnknownVerdictType _ => Some "UnknownVerdictType"%string
  | _ => None
  end.

(** The loop over the variants collects those whose value is a path. *)
Definition variant_entry (v : SynVariant) : option (Path * string) :=
  match variant_value v with Some (Expr_Path p) => Some (p, variant_ident v) | _ => None end.

Lemma enum_variants_spec vs acc res :
  for_each enum_variant vs acc = Ok res ↔
  Forall (λ v, is_Some (variant_entry v)) vs
  ∧ res = acc ++ omap (λ v, '(p, name) ← variant_entry v; Some (MkMacroVariant v name p)) vs.
Proof.
  revert acc. induction vs as [|v vs IH]; intros acc.
  { cbn. rewrite app_nil_r. split; [by intros [= ->]|by intros [_ ->]]. }
  rewrite for_each_cons, list.Forall_cons. cbn [omap list_omap].
  unfold enum_variant, variant_entry at 1 3.
  destruct (variant_value v) as [[p|? ?|]|]; cbn; unfold abort;
    try (by split; [intros (? & [=] & _)|intros [[[? [=]] _] _]]).
  split.
  - intros (s & [= <-] & [Hvs ->]%IH). split; [by eauto|]. by rewrite <- app_assoc.
  - intros [[_ Hvs] ->]. eexists. split; [done|]. apply IH. by rewrite <- app_assoc.
Qed.

(** The expansion of an enumeration: the entries are the variants with their values, in order,
    and the new variants have them cast to the representation. *)
Definition enum_expansion (repr_type : Path) (item : ItemEnum) : EnumExpansion := {|
  exp_enum_attrs := ienum_attrs item;
  exp_enum_vis := ienum_vis item;
  exp_enum_ident := ienum_ident item;
  exp_repr := repr_type;
  exp_variants := map (λ v, MkSynVariant (variant_ident v)
    (option_map (λ x, Expr_Cast x repr_type) (variant_value v))) (ienum_variants item);
  exp_entries := omap variant_entry (ienum_variants item);
  exp_unknown := String.append "Unknown" (ienum_ident item) |}.

Lemma macro_variants vs repr_type :
  Forall (λ v, is_Some (variant_entry v)) vs →
  let ms := omap (λ v, '(p, name) ← variant_entry v; Some (MkMacroVariant v name p)) vs in
  map (λ v, (mv_value v, mv_name v)) ms = omap variant_entry vs
  ∧ map (cast_variant repr_type) ms
    = map (λ v, MkSynVariant (variant_ident v)
        (option_map (λ x, Expr_Cast x repr_type) (variant_value v))) vs.
Proof.
  intros Hvs ms. unfold ms. induction Hvs as [|v vs [[p name] Hv] _ [IH1 IH2]]; [done|].
  cbn [omap list_omap]. rewrite Hv. cbn [mbind option_bind map]. by rewrite IH1, IH2.
Qed.

Lemma nfnetlink_enum_spec l item e :
  nfnetlink_enum (Some l) (Some item) = Ok e ↔
  Forall enum_arg_ok l
  ∧ Forall (λ v, is_Some (variant_entry v)) (ienum_variants item)
  ∧ ∃ repr_type, arg_paths l = [repr_type] ∧ e = enum_expansion repr_type item.
Proof.
  unfold nfnetlink_enum. cbn [expect]. obind. split.
  - intros H1. apply bind_Ok_inv in H1 as (args & Hargs & H1).
    destruct (parse_enum_args (Some l)) as [a|[]| | |] eqn:Ha; try done. injection Hargs as ->.
    apply enum_args_spec in Ha as (Hok & Hl & ->). cbn in Hl, H1.
    destruct (arg_paths l) as [|r [|]]; cbn in Hl, H1; [done| |lia].
    apply bind_Ok_inv in H1 as (vs & [Hvs ->]%enum_variants_spec & [= <-]).
    split_and!; try done. exists r. split; [done|]. unfold enum_expansion. cbn [app].
    by destruct (macro_variants _ r Hvs) as [-> ->].
  - intros (Hok & Hvs & r & Hl & ->).
    assert (parse_enum_args (Some l)
      = Ok (MkEnumArgs (default false (last_value (bool_value "nested") l)) (Some r))) as ->.
    { apply enum_args_spec. cbn. rewrite Hl. auto. }
    cbn. rewrite (proj2 (enum_variants_spec _ [] _) (conj Hvs eq_refl)). cbn [app].
    obind. unfold enum_expansion. by destruct (macro_variants _ r Hvs) as [-> ->].
Qed.

Definition enum_model_ok (m : EnumModel) : Prop :=
  ∃ e, nfnetlink_enum (Some (em_args m)) (Some (em_item m)) = Ok e
    ∧ exp_repr e = repr_path (enum_repr (NfnetlinkEnum := em_enum m))
    ∧ map (λ entry, path_value (fst entry)) (exp_entries e)
      = map (λ x, Some (discriminant (NfnetlinkEnum := em_enum m) x))
          (variants (NfnetlinkEnum := em_enum m))
    ∧ NoDup (map snd (exp_entries e))
    ∧ ∀ v, unknown_name (unknown_variant (NfnetlinkEnum := em_enum m) v) = Some (exp_unknown e).

Lemma crate_enums_ok : Forall enum_model_ok crate_enums.
Proof.
  unfold crate_enums. repeat (apply list.Forall_cons; split); [..|by apply list.Forall_nil].
  all: eexists; split; [reflexivity|]; split; [reflexivity|]; split; [vm_compute; reflexivity|].
  all: split; [|done]; apply (bool_decide_unpack _); vm_compute; exact I.
Qed.
End Refinement.
