(* ===== verification/Typed.v ===== *)
(** * Types of the values read

    The integers of the crate are [Z] in the model, and its strings byte sequences.  [Typed T]
    states which values of [T] the Rust type has: integers in the range of their width,
    strings that are UTF-8, structures whose fields are of their types.  Every value that is
    read from a buffer is such a value, whatever the buffer holds. *)

From S2P Require Import Prelude Sys Errors Lib Nlmsg Parser ParserImpls Macros Codec Data.
From S2P Require Import Objects Exprs ExprMod Table Chain Rule Sets.
Local Open Scope Z_scope.

Class Typed (T : Type) `{NfNetlinkDeserializable T} := {
  typed : T → Prop;
  deserialize_typed b (v : T) rest : deserialize (A := T) b = Ok (v, rest) → typed v }.

Definition option_typed {T : Type} (P : T → Prop) (o : option T) : Prop :=
  match o with Some v => P v | None => True end.

(** ** Basic types *)
Lemma int_read_bound n b v rest :
  int_read n b = Ok (v, rest) → 0 ≤ v < 2 ^ (8 * Z.of_nat n).
Proof.
  unfold int_read. destruct (Z.ltb_spec (len b) (Z.of_nat n)); [done|]. intros [= <- _].
  pose proof (be_value_bound (take n b)) as Hb.
  by replace (len (take n b)) with (Z.of_nat n) in Hb by (unfold len in *; rewrite length_take; lia).
Qed.

Lemma string_read_valid b v rest : string_deserialize b = Ok (v, rest) → utf8_valid v = true.
Proof. unfold string_deserialize. destruct (utf8_valid _) eqn:Hv; [|done]. by intros [= <- _]. Qed.

Lemma i32_read_bound b (v : i32) rest :
  deserialize (NfNetlinkDeserializable := i32_deserializable) b = Ok (v, rest) → i32_ok v.
Proof.
  cbn. intros ([z r] & _ & [= <- _])%bind_Ok_inv. unfold as_i32, i32_ok.
  pose proof (Z.mod_pos_bound (z + 2 ^ 31) (2 ^ 32)). lia.
Qed.

#[global] Instance u8_typed : @Typed u8 u8_deserializable := Build_Typed u8 u8_deserializable u8_ok (int_read_bound 1).
#[global] Instance u16_typed : @Typed u16 u16_deserializable := Build_Typed u16 u16_deserializable u16_ok (int_read_bound 2).
#[global] Instance u32_typed : @Typed u32 u32_deserializable := Build_Typed u32 u32_deserializable u32_ok (int_read_bound 4).
#[global] Instance u64_typed : @Typed u64 u64_deserializable := Build_Typed u64 u64_deserializable u64_ok (int_read_bound 8).
#[global] Instance i32_typed : @Typed i32 i32_deserializable := Build_Typed i32 i32_deserializable i32_ok i32_read_bound.
#[global] Instance string_typed : @Typed RString string_deserializable :=
  Build_Typed RString string_deserializable (λ v, utf8_valid v = true) string_read_valid.
#[global] Instance vec_typed : @Typed VecU8 vec_deserializable :=
  Build_Typed VecU8 vec_deserializable (λ _, True) (λ _ _ _ _, I).
(** An enumeration is an inductive type: its values are its variants. *)
#[global] Instance enum_typed {E} `{NfnetlinkEnum E} : Typed E | 10 := {|
  typed x := True; deserialize_typed _ _ _ _ := I |}.

(** ** Structures *)
Class FieldTypes {S : Type} (fs : list (Field S)) := fields_typed : S → Prop.
#[global] Arguments fields_typed {S} fs {_} _.

#[global] Instance nil_types {S} : FieldTypes (@nil (Field S)) := λ _, True.
#[global] Instance cons_types {S T} `{NfNetlinkAttribute T} `{Typed T} ident ty opt
    (get : S → option T) set fs `{!FieldTypes fs} : FieldTypes (mk_field ident ty opt get set :: fs) :=
  λ s, option_typed typed (get s) ∧ fields_typed fs s.

(** Setting any of the fields to a value that was read keeps the structure typed. *)
Definition sets_typed {S : Type} (fs : list (Field S)) `{!FieldTypes fs} (f : Field S) : Prop :=
  ∀ b v rest s, deserialize (A := field_type f) b = Ok (v, rest) →
    fields_typed fs s → fields_typed fs (set_field f v s).

Lemma mk_sets {S T} `{NfNetlinkAttribute T} `{Typed T} ident ty opt (get : S → option T) set
    (fs : list (Field S)) `{!FieldTypes fs} :
  (∀ v s, typed v → fields_typed fs s → fields_typed fs (set v s)) →
  sets_typed fs (mk_field ident ty opt get set).
Proof. intros Hset b v rest s Hv. by apply Hset, (deserialize_typed b v rest). Qed.

Section Structs.
Context `{BuildProfile} `{Sys}.

Lemma decode_or_skip_keeps {A} `{AttributeDecoder A} (P : A → Prop) res ty b res' :
  (∀ res', decode_attribute res ty b = Ok res' → P res') → P res →
  decode_or_skip res ty b = Ok res' → P res'.
Proof.
  unfold decode_or_skip. intros Hd Hres. destruct (decode_attribute res ty b) as [r|e| | |]; try done.
  - intros [= <-]. by apply Hd.
  - destruct e; try done. by intros [= <-].
Qed.

(** What the decoder keeps, the loop keeps. *)
Lemma read_loop_keeps {A} `{AttributeDecoder A} (P : A → Prop) fuel b rem pos res rem' r :
  (∀ res ty b res', P res → decode_attribute res ty b = Ok res' → P res') → P res →
  read_attributes_loop fuel b rem pos res = Ok (rem', r) → P r.
Proof.
  intros Hd. revert rem pos res.
  induction fuel as [|fuel IH]; intros rem pos res Hres; cbn [read_attributes_loop];
    (destruct (rem >? _); [|by intros [= _ <-]]); [done|].
  intros Hl. do 6 apply bind_Ok_inv in Hl as (? & _ & Hl).
  apply bind_Ok_inv in Hl as (res' & Hres' & Hl).
  do 2 apply bind_Ok_inv in Hl as (? & _ & Hl).
  eapply IH; [|exact Hl]. eapply decode_or_skip_keeps; [|exact Hres|exact Hres']. eauto.
Qed.

Lemma read_attributes_keeps {A} `{AttributeDecoder A} (P : A → Prop) dflt b r :
  (∀ res ty b res', P res → decode_attribute res ty b = Ok res' → P res') → P dflt →
  read_attributes dflt b = Ok r → P r.
Proof.
  intros Hd Hres ([rem r'] & Hl & Hr)%bind_Ok_inv. destruct (negb (rem =? 0)); [done|].
  injection Hr as <-. by eapply read_loop_keeps.
Qed.

Context {S : Type} (fs : list (Field S)) `{!FieldTypes fs}.

Lemma struct_decode_typed l s ty b s' :
  Forall (sets_typed fs) l → fields_typed fs s →
  struct_decode_attribute l s ty b = Ok s' → fields_typed fs s'.
Proof.
  intros Hl Hs. induction Hl as [|f l Hf _ IH]; cbn [struct_decode_attribute]; [done|].
  destruct (ty =? netlink_type f); [|done].
  intros ([v rest] & Hv & Hd)%bind_Ok_inv. destruct (negb _); [done|]. injection Hd as <-.
  by eapply Hf.
Qed.

Lemma struct_read_typed dflt b s :
  Forall (sets_typed fs) fs → fields_typed fs dflt →
  @read_attributes _ _ S (struct_decoder (accept_fields fs)) dflt b = Ok s → fields_typed fs s.
Proof.
  intros Hfs. apply read_attributes_keeps. intros res ty b' res' Hres.
  apply struct_decode_typed; [|done]. by apply accept_subset.
Qed.

Lemma struct_deserialize_typed dflt b s rest :
  Forall (sets_typed fs) fs → fields_typed fs dflt →
  @struct_deserialize _ _ S dflt (struct_decoder (accept_fields fs)) b = Ok (s, rest) →
  fields_typed fs s.
Proof.
  intros Hfs Hd (r & Hr & [= <- _])%bind_Ok_inv. by eapply struct_read_typed.
Qed.

Lemma object_deserialize_typed `{NfNetlinkObject S} dflt b s rest :
  Forall (sets_typed fs) fs → fields_typed fs dflt →
  (∀ family s, fields_typed fs s → fields_typed fs (set_family family s)) →
  @object_deserialize _ _ S _ (struct_decoder (accept_fields fs)) dflt b = Ok (s, rest) →
  fields_typed fs s.
Proof.
  intros Hfs Hd Hset. unfold object_deserialize.
  intros ([[o g] r] & Ho & (family & _ & [= <- _])%bind_Ok_inv)%bind_Ok_inv.
  apply Hset. unfold parse_object in Ho. apply bind_Ok_inv in Ho as ([hdr m] & _ & Ho).
  destruct (_ && _); [done|].
  apply bind_Ok_inv in Ho as (n & _ & (rem & _ & Ho)%bind_Ok_inv).
  destruct m; try done. apply bind_Ok_inv in Ho as (c & _ & (res & Hr & [= <- _ _])%bind_Ok_inv).
  by eapply struct_read_typed.
Qed.

Definition struct_typed dflt (Hsets : Forall (sets_typed fs) fs) (Hd : fields_typed fs dflt)
    : @Typed S (@struct_deserializable _ _ S dflt (struct_decoder (accept_fields fs))) :=
  Build_Typed S (@struct_deserializable _ _ S dflt (struct_decoder (accept_fields fs)))
    (fields_typed fs) (λ b s rest, struct_deserialize_typed dflt b s rest Hsets Hd).

Definition object_typed `{NfNetlinkObject S} dflt (Hsets : Forall (sets_typed fs) fs)
    (Hd : fields_typed fs dflt)
    (Hset : ∀ family s, fields_typed fs s → fields_typed fs (set_family family s))
    : @Typed S (@object_deserializable _ _ S _ (struct_decoder (accept_fields fs)) dflt) :=
  Build_Typed S (@object_deserializable _ _ S _ (struct_decoder (accept_fields fs)) dflt)
    (fields_typed fs) (λ b s rest, object_deserialize_typed dflt b s rest Hsets Hd Hset).
End Structs.

(** Setting a field: it is the value read, and the others are as before. *)
Ltac sets_typed :=
  match goal with |- Forall ?P ?l => let l := eval red in l in change (Forall P l) end;
  repeat (apply list.Forall_cons; split;
    [ let Hv := fresh "Hv" in let Hs := fresh "Hs" in
      apply mk_sets; intros ? ? Hv Hs;
      cbv [fields_typed cons_types nil_types] in Hs |- *; cbn [option_typed] in Hs |- *;
      repeat match goal with H : _ ∧ _ |- _ => destruct H end;
      repeat (split; [assumption|]); exact I
    | ]); by apply list.Forall_nil.

(** An empty structure is typed. *)
Ltac empty_typed := cbv [fields_typed cons_types nil_types]; cbn; repeat split.

Section Instances.
Context `{BuildProfile} `{Sys}.

#[global] Instance Verdict_typed : Typed Verdict :=
  struct_typed Verdict_fields Verdict_default ltac:(sets_typed) ltac:(empty_typed).
#[global] Instance NfNetlinkData_typed : Typed NfNetlinkData :=
  struct_typed NfNetlinkData_fields NfNetlinkData_default ltac:(sets_typed) ltac:(empty_typed).
#[global] Instance Hook_typed : Typed Hook :=
  struct_typed Hook_fields Hook_default ltac:(sets_typed) ltac:(empty_typed).
#[global] Instance Bitwise_typed : Typed Bitwise :=
  struct_typed Bitwise_fields Bitwise_default ltac:(sets_typed) ltac:(empty_typed).
#[global] Instance Byteorder_typed : Typed Byteorder :=
  struct_typed Byteorder_fields Byteorder_default ltac:(sets_typed) ltac:(empty_typed).
#[global] Instance Cmp_typed : Typed Cmp :=
  struct_typed Cmp_fields Cmp_default ltac:(sets_typed) ltac:(empty_typed).
#[global] Instance Counter_typed : Typed Counter :=
  struct_typed Counter_fields Counter_default ltac:(sets_typed) ltac:(empty_typed).
#[global] Instance Conntrack_typed : Typed Conntrack :=
  struct_typed Conntrack_fields Conntrack_default ltac:(sets_typed) ltac:(empty_typed).
#[global] Instance ExtHdr_typed : Typed ExtHdr :=
  struct_typed ExtHdr_fields ExtHdr_default ltac:(sets_typed) ltac:(empty_typed).
#[global] Instance Immediate_typed : Typed Immediate :=
  struct_typed Immediate_fields Immediate_default ltac:(sets_typed) ltac:(empty_typed).
#[global] Instance Log_typed : Typed Log :=
  struct_typed Log_fields Log_default ltac:(sets_typed) ltac:(empty_typed).
#[global] Instance Lookup_typed : Typed Lookup :=
  struct_typed Lookup_fields Lookup_default ltac:(sets_typed) ltac:(empty_typed).
#[global] Instance Masquerade_typed : Typed Masquerade :=
  struct_typed Masquerade_fields Masquerade_default ltac:(sets_typed) ltac:(empty_typed).
#[global] Instance Meta_typed : Typed Meta :=
  struct_typed Meta_fields Meta_default ltac:(sets_typed) ltac:(empty_typed).
#[global] Instance Nat_typed : Typed Nat :=
  struct_typed Nat_fields Nat_default ltac:(sets_typed) ltac:(empty_typed).
#[global] Instance Payload_typed : Typed Payload :=
  struct_typed Payload_fields Payload_default ltac:(sets_typed) ltac:(empty_typed).
#[global] Instance Reject_typed : Typed Reject :=
  struct_typed Reject_fields Reject_default ltac:(sets_typed) ltac:(empty_typed).
#[global] Instance Rt_typed : Typed Rt :=
  struct_typed Rt_fields Rt_default ltac:(sets_typed) ltac:(empty_typed).
#[global] Instance SetElement_typed : Typed SetElement :=
  struct_typed SetElement_fields SetElement_default ltac:(sets_typed) ltac:(empty_typed).

(** ** Lists *)
Lemma walk_list_typed {T} `{Typed T} fuel buf pos (acc : list T) pos' l :
  Forall typed acc → list_read_loop fuel buf pos acc = Ok (pos', l) → Forall typed l.
Proof.
  revert pos acc. induction fuel as [|fuel IH]; intros pos acc Hacc; cbn [list_read_loop];
    intros (rem & _ & Hl)%bind_Ok_inv; (destruct (rem >? _); [|by injection Hl as _ <-]); [done|].
  do 2 apply bind_Ok_inv in Hl as (? & _ & Hl). destruct (negb _); [done|].
  do 3 apply bind_Ok_inv in Hl as (? & _ & Hl).
  apply bind_Ok_inv in Hl as ([obj rest] & Hobj%deserialize_typed & Hl). destruct (negb _); [done|].
  apply bind_Ok_inv in Hl as (? & _ & Hl). eapply IH; [|exact Hl].
  apply Forall_app. split; [done|]. by constructor.
Qed.

Lemma list_read_typed {T} `{Typed T} b (l : NfNetlinkList T) rest :
  list_read b = Ok (l, rest) → Forall typed (objs l).
Proof.
  intros ([pos acc] & Hl & Hr)%bind_Ok_inv. destruct (negb _); [done|]. injection Hr as <- _.
  cbn. eapply walk_list_typed; [|exact Hl]. constructor.
Qed.

#[global] Instance list_typed {T} `{Typed T} : Typed (NfNetlinkList T) :=
  Build_Typed (NfNetlinkList T) _ (λ l, Forall typed (objs l)) list_read_typed.

(** ** Expressions *)
#[global] Instance ExpressionRaw_typed : Typed ExpressionRaw :=
  Build_Typed ExpressionRaw _ (λ _, True) (λ _ _ _ _, I).

Definition variant_typed (v : ExpressionVariant) : Prop :=
  match v with
  | EBitwise val => typed val
  | EByteorder val => typed val
  | ECmp val => typed val
  | EConntrack val => typed val
  | ECounter val => typed val
  | EExpressionRaw val => typed val
  | EExtHdr val => typed val
  | EImmediate val => typed val
  | ELog val => typed val
  | ELookup val => typed val
  | EMasquerade val => typed val
  | EMeta val => typed val
  | ENat val => typed val
  | EPayload val => typed val
  | EReject val => typed val
  | ERt val => typed val
  end.

Lemma decode_variant_typed {T} `{Typed T} `{IntoVariant T} :
  (∀ x : T, typed x → variant_typed (into_variant x)) →
  ∀ b v, decode_variant (T := T) b = Ok v → variant_typed v.
Proof.
  intros Hx b v ([res rest] & Hres%deserialize_typed & Hv)%bind_Ok_inv.
  destruct (negb _); [done|]. injection Hv as <-. by apply Hx.
Qed.

Lemma variant_decoders_typed :
  Forall (λ e, ∀ b v, e.2 b = Ok v → variant_typed v) variant_decoders.
Proof. repeat (apply list.Forall_cons; split; [by apply decode_variant_typed|]). by apply list.Forall_nil. Qed.

Lemma decode_data_typed name b v : decode_data name b = Ok v → variant_typed v.
Proof.
  unfold decode_data. pose proof variant_decoders_typed as Hd.
  induction variant_decoders as [|[n d] l IH]; cbn [find_decoder].
  - by intros ([res rest] & _ & [= <-])%bind_Ok_inv.
  - apply list.Forall_cons in Hd as [Hd Hl]. case_decide; [apply Hd|by apply IH].
Qed.

Definition raw_typed (r : RawExpression) : Prop :=
  option_typed typed (raw_name r) ∧ option_typed variant_typed (raw_data r).

Lemma raw_decode_typed r ty b r' :
  raw_typed r → raw_decode_attribute r ty b = Ok r' → raw_typed r'.
Proof.
  intros [Hn Hd]. unfold raw_decode_attribute. destruct (ty =? NFTA_EXPR_NAME).
  { intros ([v rest] & Hv%deserialize_typed & Hr)%bind_Ok_inv. destruct (negb _); [done|].
    by injection Hr as <-. }
  destruct (ty =? NFTA_EXPR_DATA); [|done]. destruct (raw_name r) as [name|] eqn:Hname; [|done].
  intros (data & Hdata%decode_data_typed & [= <-])%bind_Ok_inv. split; [|done].
  cbn. by rewrite Hname.
Qed.

Lemma RawExpression_read_typed b (r : RawExpression) rest :
  deserialize b = Ok (r, rest) → raw_typed r.
Proof.
  intros (s & Hs & [= <- _])%bind_Ok_inv. eapply read_attributes_keeps; [..|exact Hs]; [|done].
  intros res ty b' res'. apply raw_decode_typed.
Qed.

#[global] Instance RawExpression_typed : Typed RawExpression :=
  Build_Typed RawExpression _ raw_typed RawExpression_read_typed.

(** ** Objects *)
#[global] Instance ChainPolicy_typed : Typed ChainPolicy :=
  Build_Typed ChainPolicy _ (λ _, True) (λ _ _ _ _, I).
#[global] Instance ChainType_typed : Typed ChainType :=
  Build_Typed ChainType _ (λ _, True) (λ _ _ _ _, I).

#[global] Instance Table_typed : Typed Table :=
  object_typed Table_fields Table_default ltac:(sets_typed) ltac:(empty_typed) ltac:(done).
#[global] Instance Chain_typed : Typed Chain :=
  object_typed Chain_fields Chain_default ltac:(sets_typed) ltac:(empty_typed) ltac:(done).
#[global] Instance Rule_typed : Typed Rule :=
  object_typed Rule_fields Rule_default ltac:(sets_typed) ltac:(empty_typed) ltac:(done).
#[global] Instance NfSet_typed : Typed NfSet :=
  object_typed NfSet_fields NfSet_default ltac:(sets_typed) ltac:(empty_typed) ltac:(done).
#[global] Instance SetElementList_typed : Typed SetElementList :=
  object_typed SetElementList_fields SetElementList_default ltac:(sets_typed) ltac:(empty_typed) ltac:(done).
End Instances.
