(* ===== verification/WireTheorems.v ===== *)
(** * Theorems: parsing and serialization

    What the parser, the writer of attributes and the code the macros generate
    guarantee, each with a witness on the constants and layouts of Linux. *)

From S2P Require Import Prelude Sys Errors Lib Nlmsg Parser ParserImpls Macros Codec Data Exprs.
From S2P Require Import Query Progress.
Local Open Scope Z_scope.

(** ** Alignment *)

(** [pad_netlink_object_with_variable_size] gives the least multiple of
    four that is not below its argument, for every size of an object in memory. *)
Theorem pad_rounds_up `{SysLaws} (size : Z) :
  0 ≤ size ≤ isize_max →
  pad_netlink_object_with_variable_size size mod 4 = 0
  ∧ size ≤ pad_netlink_object_with_variable_size size
  ∧ ∀ m, m mod 4 = 0 → size ≤ m → pad_netlink_object_with_variable_size size ≤ m.
Proof.
  unfold isize_max. intros Hs. pad_facts.
  assert (pad_netlink_object_with_variable_size size mod 4 = 0) as Hmod by (apply pad_mod; lia).
  split_and!; [done|lia|]. intros m Hm Hle. Z.div_mod_to_equations. lia.
Qed.

Lemma pad_rounds_up_witness :
  @pad_netlink_object_with_variable_size (linux true) 5 mod 4 = 0
  ∧ 5 ≤ @pad_netlink_object_with_variable_size (linux true) 5
  ∧ ∀ m, m mod 4 = 0 → 5 ≤ m → @pad_netlink_object_with_variable_size (linux true) 5 ≤ m.
Proof. apply (@pad_rounds_up (linux true) (linux_laws true) 5). unfold isize_max. lia. Defined.

(** ** Messages *)

(** Whatever bytes [parse_nlmsg] is given, in either build
    profile, it never reads outside of them through the pointers it casts, and it
    ends. *)
Theorem parse_nlmsg_memory_safe `{BuildProfile} `{SysLaws} (buf : bytes) : safe (parse_nlmsg buf).
Proof. apply parse_nlmsg_safe. Qed.

Lemma parse_nlmsg_memory_safe_witness :
  safe (@parse_nlmsg release_profile (linux true) [Byte.x01; Byte.x02]).
Proof.
  exact (@parse_nlmsg_memory_safe release_profile (linux true) (linux_laws true)
    [Byte.x01; Byte.x02]).
Defined.

(** C1: [parse_nlmsg] returns a netfilter message exactly when the
    buffer starts with one: the two headers and the content as the message lays them
    out, with a length that covers them, no interrupted-dump flag, a type of the
    nf_tables subsystem or of a batch, and version 0. *)
Theorem parse_nlmsg_complete `{BuildProfile} `{SysLaws} (buf content : bytes)
    (hdr : nlmsghdr) (gen : nfgenmsg) :
  parse_nlmsg buf = Ok (hdr, NlNfGenMsg gen content)
  ↔ ∃ rest, buf = message hdr gen content ++ rest ∧ parseable hdr gen content.
Proof.
  split; [apply parse_message_inv|]. intros (rest & -> & Hp). by apply parse_message.
Qed.

Lemma parse_nlmsg_complete_witness :
  let hdr := Build_nlmsghdr 24 2560 2 7 0 in
  let gen := Build_nfgenmsg 2 0 0 in
  let content := [Byte.x01; Byte.x02; Byte.x03; Byte.x04] in
  @parse_nlmsg dev_profile (linux true) (@message (linux true) hdr gen content)
  = Ok (hdr, NlNfGenMsg gen content).
Proof.
  apply (proj2 (@parse_nlmsg_complete dev_profile (linux true) (linux_laws true)
    (@message (linux true) (Build_nlmsghdr 24 2560 2 7 0) (Build_nfgenmsg 2 0 0)
       [Byte.x01; Byte.x02; Byte.x03; Byte.x04]) _ _ _)).
  exists []. split; [by rewrite app_nil_r|].
  split_and!; try done. by right.
Defined.

(** ** Attributes *)

(** C3: the loop of [read_attributes], with its positions,
    its remaining size and its machine arithmetic, computes what cutting attributes off
    the front of the buffer computes, for every decoder and every buffer and whether or
    not overflow is checked. *)
Theorem read_attributes_refines_walk `{BuildProfile} `{SysLaws} {A : Type} `{AttributeDecoder A}
    (dflt : A) (buf : bytes) :
  len buf ≤ isize_max →
  read_attributes dflt buf = walk_attributes (S (length buf)) buf dflt.
Proof. apply read_attributes_walk. Qed.

Lemma read_attributes_refines_walk_witness :
  let buf := [Byte.x05; Byte.x00; Byte.x01; Byte.x00; Byte.xff; Byte.x00; Byte.x00; Byte.x00] in
  @read_attributes release_profile (linux true) Meta (@Meta_decoder (linux true)) Meta_default buf
  = @walk_attributes (linux true) Meta (@Meta_decoder (linux true)) 9 buf Meta_default.
Proof.
  apply (@read_attributes_refines_walk release_profile (linux true) (linux_laws true)).
  unfold isize_max. vm_compute. discriminate.
Defined.

(** Debug and release builds parse attributes alike: an
    arithmetic overflow that the first reports ends, in the second, in the panic of a
    slice operation. *)
Corollary read_attributes_any_profile `{SysLaws} {A : Type} `{AttributeDecoder A} (dflt : A)
    (buf : bytes) :
  len buf ≤ isize_max →
  @read_attributes dev_profile _ A _ dflt buf = @read_attributes release_profile _ A _ dflt buf.
Proof. intros. by rewrite !read_attributes_walk. Qed.

(** [read_attributes] never reads outside its buffer and
    always ends, for every input, when the decoder of its type does so on every part of
    the buffer. *)
Theorem read_attributes_memory_safe `{BuildProfile} `{SysLaws} {A : Type} `{AttributeDecoder A}
    (dflt : A) (buf : bytes) :
  safe_decoder (A := A) → len buf ≤ isize_max → safe (read_attributes dflt buf).
Proof. apply read_attributes_safe. Qed.

Lemma read_attributes_memory_safe_witness :
  let buf := [Byte.x03; Byte.x00; Byte.x01; Byte.x00; Byte.x00; Byte.x00; Byte.x00; Byte.x00] in
  safe (@read_attributes release_profile (linux true) Meta (@Meta_decoder (linux true))
    Meta_default buf).
Proof.
  apply (@read_attributes_memory_safe release_profile (linux true) (linux_laws true)).
  - pose proof (linux_laws true).
    exact (struct_decoder_safe (@Meta_fields (linux true))
      (@fields_safe release_profile (linux true) _ (@Meta_fields (linux true)) _)).
  - unfold isize_max. vm_compute. discriminate.
Defined.

(** C20: the loops that read a buffer end.  The loop over attributes, the loop over the
    elements of a list and the loop over the messages received need no more turns than the
    buffer has bytes: with any larger bound they give the same result, which is that of the
    functions; and no buffer makes them run forever or read outside it, when the decoders of
    the attributes, of the elements and the callback do not. *)
Theorem reading_loops_end `{BuildProfile} `{SysLaws} {A E T : Type} `{AttributeDecoder A}
    `{NfNetlinkDeserializable E} (dflt : A) (max_seq : option Z)
    (cb : option (bytes → T → outcome QueryError T)) (data : T) (buf : bytes) (fuel : nat) :
  len buf < 2 ^ 62 → len buf < Z.of_nat fuel →
  ('(remaining, res) ← read_attributes_loop fuel buf (len buf) 0 dflt;
   if negb (remaining =? 0) then Err InvalidDataSize else Ok res) = read_attributes dflt buf
  ∧ ('(pos, acc) ← list_read_loop (T := E) fuel buf 0 [];
     if negb (pos =? len buf) then Err InvalidDataSize else Ok (MkList acc, [])) = list_read buf
  ∧ process_loop max_seq cb fuel buf 0 (len buf) data
    = process_loop max_seq cb (S (length buf)) buf 0 (len buf) data
  ∧ (safe_decoder (A := A) → safe (read_attributes dflt buf))
  ∧ (safe_deserializer (T := E) → safe (list_read (T := E) buf))
  ∧ (safe_callback cb → safe (process_loop max_seq cb fuel buf 0 (len buf) data)).
Proof.
  intros Hb Hf. pose proof (len_nonneg buf) as Hnn.
  assert (len buf ≤ isize_max) as Hmax by (unfold isize_max; lia). split_and!.
  - by apply read_loop_end.
  - by apply list_loop_end.
  - by apply process_loop_end.
  - intros. by apply read_attributes_safe.
  - intros. by apply list_read_safe.
  - intros. by apply process_loop_safe.
Qed.

Lemma reading_loops_end_witness :
  let buf := [Byte.x03; Byte.x00; Byte.x01; Byte.x00; Byte.x00; Byte.x00; Byte.x00; Byte.x00] in
  safe (@read_attributes release_profile (linux true) Meta (@Meta_decoder (linux true))
    Meta_default buf)
  ∧ safe (@process_loop release_profile (linux true) unit None None 9 buf 0 8 tt).
Proof.
  intros buf. pose (L := linux_laws true).
  destruct (@reading_loops_end release_profile (linux true) L Meta u32 unit
    (@Meta_decoder (linux true)) _ Meta_default None None tt buf 9)
    as (_ & _ & _ & Hr & _ & Hp); [by vm_compute..|]. split.
  - apply Hr. exact (struct_decoder_safe (@Meta_fields (linux true))
      (@fields_safe release_profile (linux true) _ (@Meta_fields (linux true)) _)).
  - by apply Hp.
Defined.

(** [write_attribute] writes the length and type of the
    attribute, then the payload, and leaves what follows alone; the nested flag is set
    for the types that ask for it. *)
Theorem write_attribute_layout `{SysLaws} {B : Type} `{NfNetlinkAttribute B}
    (ty : Z) (v : B) (rest : bytes) :
  writable v → 4 + get_size v < 2 ^ 16 →
  write_attribute ty v (zeros (4 + get_size v) ++ rest)
  = Ok (to_bytes nlattr_layout {|
          nla_len := 4 + get_size v;
          nla_type := if is_nested v then Z.lor ty (2 ^ 15) else ty |}
        ++ encode v ++ rest).
Proof.
  intros Hw Hs. rewrite write_attribute_encode by done. do 3 f_equal.
  destruct Hw as (Hp & Hl & _). unfold attr_header. cbn [value_attr at_payload at_nested at_type].
  rewrite Hl, as_u16_small by lia. by rewrite f_nested_15.
Qed.

Lemma write_attribute_layout_witness :
  @write_attribute (linux true) u32 _ 3 7 (zeros 8 ++ [Byte.xff])
  = Ok ([Byte.x08; Byte.x00; Byte.x03; Byte.x00; Byte.x00; Byte.x00; Byte.x00; Byte.x07; Byte.xff]).
Proof.
  pose proof (@write_attribute_layout (linux true) (linux_laws true) u32 _ 3 7
    [Byte.xff] (proj1 (u32_writable 7)) eq_refl) as Hw. exact Hw.
Defined.

(** C36: a sequence of attributes whose types and lengths fit their headers, the last not empty,
    is read back one by one, by any decoder: the decoder sees each type, without its flags, and
    each payload, without its padding, in the order they were written. *)
Theorem attributes_roundtrip `{BuildProfile} `{SysLaws} {A : Type} `{AttributeDecoder A}
    (dflt : A) (l : list Attr) :
  Forall attr_ok l → tail_ok l → len (encode_attrs l) ≤ isize_max →
  read_attributes dflt (encode_attrs l)
  = foldl (λ res a, r ← res; decode_or_skip r (at_type a) (at_payload a)) (Ok dflt) l.
Proof.
  intros Hok Htail Hmax. rewrite read_encode_attrs by done. clear Hok Hmax. revert dflt.
  induction l as [|a l IH]; intros dflt; [done|].
  apply tail_ok_cons in Htail as [Hne Htail]. rewrite read_back_cons by done. cbn [foldl]. obind.
  destruct (decode_or_skip dflt (at_type a) (at_payload a)) as [r| | | |]; [by apply IH|..].
  all: clear; induction l; [done|]; by cbn [foldl].
Qed.

Lemma attributes_roundtrip_witness :
  let l := [ {| at_type := 1; at_nested := false; at_payload := be_bytes 4 1 |};
             {| at_type := 2; at_nested := true; at_payload := be_bytes 4 3 |} ] in
  @read_attributes dev_profile (linux true) Meta (@Meta_decoder (linux true)) Meta_default
    (@encode_attrs (linux true) l)
  = Ok {| meta_dreg := Some Reg1; meta_key := Some MetaType_Mark; meta_sreg := None |}.
Proof.
  intros l. unfold l.
  rewrite (@attributes_roundtrip dev_profile (linux true) (linux_laws true)).
  - by vm_compute.
  - repeat constructor; vm_compute; done.
  - by vm_compute.
  - unfold isize_max. by vm_compute.
Defined.

(** An attribute without payload is read back except at
    the end of the buffer, where the loop stops before it and the function reports an
    invalid size. *)
Theorem empty_last_attribute_rejected `{BuildProfile} `{SysLaws} {A : Type} `{AttributeDecoder A}
    (dflt : A) (l : list Attr) (a : Attr) :
  Forall attr_ok (l ++ [a]) → at_payload a = [] → len (encode_attrs (l ++ [a])) ≤ isize_max →
  read_attributes dflt (encode_attrs (l ++ [a]))
  = (_ ← foldl (λ res a, r ← res; decode_or_skip r (at_type a) (at_payload a)) (Ok dflt) l;
     Err InvalidDataSize).
Proof.
  intros Hok Ha Hmax. rewrite read_encode_attrs by done. clear Hok Hmax. revert dflt.
  induction l as [|b l IH]; intros dflt; [cbn; by rewrite Ha|].
  rewrite <- app_comm_cons, read_back_cons by (right; by destruct l). cbn [foldl]. obind.
  destruct (decode_or_skip dflt (at_type b) (at_payload b)) as [r| | | |]; [by apply IH|..].
  all: clear; induction l; [done|]; by cbn [foldl].
Qed.

Lemma empty_last_attribute_rejected_witness :
  let a := {| at_type := 1; at_nested := true; at_payload := [] |} in
  @read_attributes dev_profile (linux true) Meta (@Meta_decoder (linux true)) Meta_default
    (@encode_attrs (linux true) ([] ++ [a])) = Err InvalidDataSize.
Proof.
  intros a. unfold a.
  rewrite (@empty_last_attribute_rejected dev_profile (linux true) (linux_laws true)).
  - done.
  - repeat constructor; vm_compute; done.
  - done.
  - unfold isize_max. by vm_compute.
Defined.

(** An attribute whose type the decoder does not support
    changes nothing, wherever it stands. *)
Theorem unknown_attributes_ignored `{BuildProfile} `{SysLaws} {A : Type} `{AttributeDecoder A}
    (dflt : A) (l k : list Attr) (a : Attr) :
  Forall attr_ok (l ++ a :: k) → tail_ok (l ++ a :: k) → tail_ok (l ++ k) →
  len (encode_attrs (l ++ a :: k)) ≤ isize_max → len (encode_attrs (l ++ k)) ≤ isize_max →
  (∀ res b, ∃ ty, decode_attribute res (at_type a) b = Err (UnsupportedAttributeType ty)) →
  read_attributes dflt (encode_attrs (l ++ a :: k)) = read_attributes dflt (encode_attrs (l ++ k)).
Proof.
  intros Hok Ht1 Ht2 Hm1 Hm2 Ha.
  rewrite !read_encode_attrs; [|rewrite !Forall_app, list.Forall_cons in *; tauto|done..].
  clear Hok Hm1 Hm2. revert dflt. induction l as [|b l IH]; intros dflt.
  - apply tail_ok_cons in Ht1 as [Hne _]. cbn [app]. rewrite read_back_cons by done.
    unfold decode_or_skip. by destruct (Ha dflt (at_payload a)) as [ty ->].
  - cbn [app] in *. apply tail_ok_cons in Ht1 as [Hne1 Ht1]. apply tail_ok_cons in Ht2 as [Hne2 Ht2].
    rewrite !read_back_cons by done.
    destruct (decode_or_skip dflt (at_type b) (at_payload b)); [obind; by apply IH|done..].
Qed.

Lemma unknown_attributes_ignored_witness :
  let key := {| at_type := 2; at_nested := false; at_payload := be_bytes 4 3 |} in
  let other := {| at_type := 77; at_nested := false; at_payload := be_bytes 4 3 |} in
  @read_attributes dev_profile (linux true) Meta (@Meta_decoder (linux true)) Meta_default
    (@encode_attrs (linux true) ([] ++ other :: [key]))
  = @read_attributes dev_profile (linux true) Meta (@Meta_decoder (linux true)) Meta_default
    (@encode_attrs (linux true) ([] ++ [key])).
Proof.
  intros key other. unfold key, other.
  apply (@unknown_attributes_ignored dev_profile (linux true) (linux_laws true)).
  - repeat constructor; vm_compute; done.
  - by vm_compute.
  - by vm_compute.
  - unfold isize_max. by vm_compute.
  - unfold isize_max. by vm_compute.
  - intros res b. by exists 77.
Defined.
