(* ===== verification/TypeTheorems.v ===== *)
(** * Theorems: basic types, generated enumerations and structures, lists, expressions *)

From S2P Require Import Prelude Sys Errors Lib Nlmsg Parser ParserImpls Macros Codec Data Exprs.
From S2P Require Import ExprMod Payload RuleMethods RuleBuild.
Local Open Scope Z_scope.

(** ** Basic types *)

(** The integers of each width are written big-endian in exactly
    their size and read back, whatever follows them. *)
Theorem integers_roundtrip (a b c d e : Z) (rest : bytes) :
  u8_ok a → u16_ok b → u32_ok c → u64_ok d → i32_ok e →
  deserialize (A := u8) (encode (a : u8) ++ rest) = Ok (a, rest)
  ∧ deserialize (A := u16) (encode (b : u16) ++ rest) = Ok (b, rest)
  ∧ deserialize (A := u32) (encode (c : u32) ++ rest) = Ok (c, rest)
  ∧ deserialize (A := u64) (encode (d : u64) ++ rest) = Ok (d, rest)
  ∧ deserialize (A := i32) (encode (e : i32) ++ rest) = Ok (e, rest).
Proof.
  assert (∀ n z, int_read n (be_bytes n z ++ rest) = Ok (z mod 2 ^ (Z.of_nat n * 8), rest)) as Hr.
  { intros n z. unfold int_read. rewrite len_app, len_be_bytes. pose proof (len_nonneg rest). ztest.
    assert (length (be_bytes n z) = n) as Hn.
    { pose proof (len_be_bytes n z). unfold len in *. lia. }
    rewrite take_app_length', drop_app_length' by done. by rewrite be_value_bytes. }
  intros Ha Hb Hc Hd He.
  rewrite (proj2 (u8_writable a)), (proj2 (u16_writable b)), (proj2 (u32_writable c)),
    (proj2 (u64_writable d)), (proj2 (i32_writable e)).
  cbn [deserialize u8_deserializable u16_deserializable u32_deserializable u64_deserializable
    i32_deserializable]. rewrite !Hr. split_and!; try by rewrite Z.mod_small.
  obind. unfold as_i32, i32_ok in *. change (Z.of_nat 4 * 8) with 32.
  rewrite Zplus_mod_idemp_l, Z.mod_small by lia. by rewrite Z.add_simpl_r.
Qed.

Lemma integers_roundtrip_witness :
  deserialize (A := i32) (encode (-2 : i32) ++ [Byte.x07]) = Ok (-2, [Byte.x07]).
Proof.
  destruct (integers_roundtrip 1 2 3 4 (-2) [Byte.x07]) as (_ & _ & _ & _ & H); try done.
Defined.

(** A string is read back whether or not it was sent with a
    terminating NUL. *)
Theorem string_roundtrip (s : RString) :
  string_ok s = true →
  deserialize (A := RString) (encode s) = Ok (s, [])
  ∧ deserialize (A := RString) (encode s ++ [Byte.x00]) = Ok (s, []).
Proof.
  intros Hs. split; [by apply string_roundtrips|]. rewrite (proj2 (string_writable s)).
  cbn [deserialize string_deserializable]. unfold string_deserialize.
  rewrite strip_nul_app. unfold string_ok in Hs. by apply andb_true_iff in Hs as [-> _].
Qed.

Lemma string_roundtrip_witness :
  deserialize (A := RString) (encode (rstr "filter")) = Ok (rstr "filter", [])
  ∧ deserialize (A := RString) (encode (rstr "filter") ++ [Byte.x00]) = Ok (rstr "filter", []).
Proof. apply (string_roundtrip (rstr "filter")). by vm_compute. Defined.

(** ** Generated enumerations *)

(** The [try_from] that [nfnetlink_enum] generates accepts exactly
    the discriminants and returns their variant; any other value is reported in the
    error. *)
Theorem enum_try_from_spec {E : Type} `{EnumLaws E} (val : Z) :
  (∀ x : E, try_from val = Ok x ↔ val = discriminant x)
  ∧ ((∀ x : E, val ≠ discriminant x) → try_from val = Err (unknown_variant (E := E) val)).
Proof. split; [apply try_from_Ok|apply try_from_Err]. Qed.

Lemma enum_try_from_spec_witness :
  @try_from VerdictType (@VerdictType_enum (linux true)) (-3) = Ok VerdictType_Jump
  ∧ @try_from VerdictType (@VerdictType_enum (linux true)) 77 = Err (UnknownVerdictType 77).
Proof.
  pose proof (@VerdictType_laws (linux true) (linux_laws true)) as L.
  split.
  - by apply (proj1 (@enum_try_from_spec VerdictType _ L (-3))).
  - apply (proj2 (@enum_try_from_spec VerdictType _ L 77)). by intros [].
Defined.

(** ** Generated structures *)

(** C31: the [write_payload] that [nfnetlink_struct] generates writes the
    attributes of the fields that are present, in the order of the declaration, fills
    exactly [get_size] bytes, a multiple of four, and leaves what follows alone. *)
Theorem struct_fills_size `{SysLaws} {S : Type} (fs : list (Field S)) (s : S) (rest : bytes) :
  Forall (field_writable s) fs →
  struct_write_payload fs s (zeros (struct_get_size fs s) ++ rest)
  = Ok (encode_attrs (struct_attrs fs s) ++ rest)
  ∧ len (encode_attrs (struct_attrs fs s)) = struct_get_size fs s
  ∧ struct_get_size fs s mod 4 = 0.
Proof.
  intros Hf. rewrite struct_get_size_sum. split_and!.
  - by apply struct_write_encode.
  - by apply len_struct_attrs.
  - by apply fields_size_spec.
Qed.

Lemma struct_fills_size_witness :
  let log := {| log_group := None; log_prefix := Some (rstr "abcde") |} in
  @struct_write_payload (linux true) Log (@Log_fields (linux true)) log (zeros 12 ++ [Byte.xff])
  = Ok ([Byte.x09; Byte.x00; Byte.x02; Byte.x00] ++ rstr "abcde" ++ zeros 3 ++ [Byte.xff]).
Proof.
  intros log. unfold log.
  destruct (@struct_fills_size (linux true) (linux_laws true) Log (@Log_fields (linux true))
    {| log_group := None; log_prefix := Some (rstr "abcde") |} [Byte.xff]) as [Hw _].
  - constructor; [|constructor; [|constructor]]; intros v Hv; [done|]. injection Hv as <-.
    split; [apply string_writable|by vm_compute].
  - exact Hw.
Defined.

(** C5: what the generated decoder reads from what a generated structure writes.  For every
    structure [s] whose fields are written in attributes that fit, and [s'] with the same
    fields present, each with the value its reader returns for that of [s] (its own value,
    where the field reads back): the result has exactly the fields of [s'], set in the default
    value, when the last attribute written is not empty, and reading fails with an invalid
    size when it is. *)
Theorem struct_roundtrip_generic `{BuildProfile} `{SysLaws} {S : Type} (fs : list (Field S))
    (dflt s s' : S) :
  attr_namespace (netlink_type <$> fs) → Forall (field_fits s) fs → Forall (reads_as s s') fs →
  struct_get_size fs s ≤ isize_max →
  @struct_deserialize _ _ S dflt (struct_decoder fs) (encode_attrs (struct_attrs fs s))
  = if tail_okb (struct_attrs fs s) then Ok (rebuild fs s' dflt, []) else Err InvalidDataSize.
Proof.
  intros Hns Hf Hr Hs. unfold struct_deserialize.
  destruct (struct_writable fs s false (fits_writables _ _ Hf)) as (_ & <- & _).
  destruct (tail_okb (struct_attrs fs s)) eqn:Ht.
  - rewrite (struct_reads fs s s'); [done..|by apply tail_okb_ok|done].
  - rewrite (read_attributes_encode fs s false dflt (Err InvalidDataSize)); [done..|].
    apply read_back_struct_empty with s'; [apply Hns|done..|].
    intros ?%ok_tail_okb. congruence.
Qed.

Lemma struct_roundtrip_generic_witness :
  let log prefix := {| log_group := Some 7; log_prefix := Some (rstr prefix) |} in
  let read s := @struct_deserialize dev_profile (linux true) Log Log_default
    (@struct_decoder Log (@Log_fields (linux true)))
    (@encode_attrs (linux true) (@struct_attrs Log (@Log_fields (linux true)) s)) in
  read (log "abcde") = Ok (log "abcde", []) ∧ read (log "") = Err InvalidDataSize.
Proof.
  intros log read. unfold read. pose proof (linux_laws true) as L.
  assert (∀ s, fields_ok (@Log_fields (linux true)) s = true →
    Forall (field_readable s) (@Log_fields (linux true))) as Hr
    by (intros s; apply (@fields_readable dev_profile (linux true))).
  split.
  - apply (@struct_roundtrip_generic dev_profile (linux true) L Log (@Log_fields (linux true))
      Log_default (log "abcde") (log "abcde"));
      [exact (@ns_log _ L)|apply readable_fits, Hr; by vm_compute
      |apply readable_reads, Hr; by vm_compute|unfold isize_max; by vm_compute].
  - apply (@struct_roundtrip_generic dev_profile (linux true) L Log (@Log_fields (linux true))
      Log_default (log "") (log ""));
      [exact (@ns_log _ L)|apply readable_fits, Hr; by vm_compute
      |apply readable_reads, Hr; by vm_compute|unfold isize_max; by vm_compute].
Defined.

(** The generated decoder gives an attribute to the field that
    declares its type, refuses trailing bytes, and reports the types no field declares. *)
Theorem struct_decoder_spec {S : Type} (fs : list (Field S)) (self : S) (ty : Z) (b : bytes) :
  NoDup (netlink_type <$> fs) →
  (∀ f, f ∈ fs → netlink_type f = ty →
     struct_decode_attribute fs self ty b
     = ('(val, remaining) ← deserialize (A := field_type f) b;
        if negb (len remaining =? 0) then Err InvalidDataSize else Ok (set_field f val self)))
  ∧ (ty ∉ (netlink_type <$> fs) →
     struct_decode_attribute fs self ty b = Err (UnsupportedAttributeType ty)).
Proof.
  intros Hnd. split; [|apply struct_decode_unknown].
  intros f Hf <-. by apply struct_decode_field.
Qed.

Lemma struct_decoder_spec_witness :
  @struct_decode_attribute Cmp (@Cmp_fields dev_profile (linux true)) Cmp_default 9 [Byte.x00]
  = Err (UnsupportedAttributeType 9).
Proof.
  apply (@struct_decoder_spec Cmp (@Cmp_fields dev_profile (linux true)) Cmp_default 9 [Byte.x00]).
  - exact (proj1 (@ns_cmp _ (linux_laws true))).
  - vm_compute. intros Hin. repeat (apply elem_of_cons in Hin as [?|Hin]; [done|]).
    by apply elem_of_nil in Hin.
Defined.

(** ** Lists *)

(** A list of values that fill whole words is written as one element
    attribute per value, in exactly its announced size, and read back in order. *)
Theorem list_roundtrip `{BuildProfile} `{SysLaws} {T : Type}
    `{NfNetlinkAttribute T, NfNetlinkDeserializable T, !Codec T, !AlignedCodec T}
    (l : NfNetlinkList T) :
  list_ok l = true →
  len (encode l) = list_get_size l
  ∧ encode l = encode_attrs (list_attrs (objs l))
  ∧ list_read (encode l) = Ok (l, []).
Proof.
  intros Hl. pose proof (list_ok_spec l Hl) as (Hr & _). pose proof (list_ok_writable l Hl) as Hw.
  split_and!; [apply Hw| |by apply list_ok_roundtrips].
  destruct l as [items]. by apply list_writable, readable_aligned.
Qed.

Lemma list_roundtrip_witness :
  let l := MkList [RawExpression_from (Meta_new MetaType_L4Proto);
                   RawExpression_from {| counter_nb_bytes := Some 5; counter_nb_packets := None |}] in
  @list_read dev_profile (linux true) _ (@RawExpression_deserializable dev_profile (linux true))
    (@encode _ (@list_attribute (linux true) _ (@RawExpression_attribute dev_profile (linux true))) l)
  = Ok (l, []).
Proof.
  intros l. unfold l. pose proof (linux_laws true) as L.
  apply (@list_roundtrip dev_profile (linux true) L RawExpression _ _
    (@RawExpression_codec dev_profile (linux true) L)
    (@RawExpression_aligned dev_profile (linux true) L)). by vm_compute.
Defined.

(** ** Expressions *)

(** C22: an expression of one of the types the crate knows, turned into a raw expression and
    written, is read back as itself, the name selecting the right decoder, when its own
    fields read back ([value_ok]), its data fits beside the name in an attribute, and it has
    data; one without data, such as [Masquerade] or [Counter::default()], is refused with an
    invalid size. *)
Theorem expression_roundtrip `{BuildProfile} `{SysLaws} {T : Type}
    `{NfNetlinkAttribute T, NfNetlinkDeserializable T, !Codec T}
    `{Expression T, IntoVariant T, !KnownExpression T} (val : T) :
  value_ok val = true → get_size val ≤ 65505 →
  deserialize (A := RawExpression) (encode (RawExpression_from val))
  = if 0 <? get_size val then Ok (RawExpression_from val, []) else Err InvalidDataSize.
Proof.
  intros Hv Hs. destruct (Z.ltb_spec 0 (get_size val)).
  - apply raw_roundtrips. by apply (raw_sendable val 65505).
  - apply raw_empty_refused; [done|]. destruct (codec_writable val Hv) as [? _]. lia.
Qed.

Lemma expression_roundtrip_witness :
  let e := {| reject_type := Some IcmpxUnreach; reject_icmp_code := Some PortUnreach |} in
  @deserialize _ (@RawExpression_deserializable dev_profile (linux true))
    (@encode _ (@RawExpression_attribute dev_profile (linux true)) (RawExpression_from e))
  = Ok (RawExpression_from e, [])
  ∧ @deserialize _ (@RawExpression_deserializable dev_profile (linux true))
      (@encode _ (@RawExpression_attribute dev_profile (linux true))
         (RawExpression_from Counter_default))
    = Err InvalidDataSize.
Proof.
  intros e. pose proof (linux_laws true) as L. split.
  - apply (@expression_roundtrip dev_profile (linux true) L Reject _ _
      (@Reject_codec dev_profile (linux true) L) _ _ (@Reject_known dev_profile (linux true) L)
      {| reject_type := Some IcmpxUnreach; reject_icmp_code := Some PortUnreach |}); by vm_compute.
  - apply (@expression_roundtrip dev_profile (linux true) L Counter _ _
      (@Counter_codec dev_profile (linux true) L) _ _ (@Counter_known dev_profile (linux true) L)
      Counter_default); by vm_compute.
Defined.

(** C35: the data of an expression whose name the crate does
    not know is kept byte for byte, so that sending the parsed expression again sends
    the same name and the same data. *)
Theorem unknown_expression_preserved `{BuildProfile} `{SysLaws} (name : RString) (buf : bytes) :
  name ∉ known_names →
  decode_data name buf = Ok (EExpressionRaw (MkExpressionRaw buf))
  ∧ encode (EExpressionRaw (MkExpressionRaw buf)) = buf.
Proof. intros Hn. split; [by apply decode_unknown|]. apply vec_writable. Qed.

Lemma unknown_expression_preserved_witness :
  @decode_data dev_profile (linux true) (rstr "quota") [Byte.x01; Byte.x02]
  = Ok (EExpressionRaw (MkExpressionRaw [Byte.x01; Byte.x02]))
  ∧ @encode _ (@ExpressionVariant_attribute dev_profile (linux true))
      (EExpressionRaw (MkExpressionRaw [Byte.x01; Byte.x02])) = [Byte.x01; Byte.x02].
Proof.
  apply (@unknown_expression_preserved dev_profile (linux true) (linux_laws true) (rstr "quota")).
  vm_compute. intros Hin. repeat (apply elem_of_cons in Hin as [?|Hin]; [done|]).
  by apply elem_of_nil in Hin.
Defined.

(** The [Masquerade] expression has no data, so its last
    attribute is empty and the raw expression the crate writes for it is refused by the
    crate's own reader. *)
Theorem masquerade_unreadable `{BuildProfile} `{SysLaws} :
  deserialize (A := RawExpression) (encode (RawExpression_from MkMasquerade)) = Err InvalidDataSize.
Proof. by apply raw_empty_refused. Qed.

Lemma masquerade_unreadable_witness :
  @deserialize _ (@RawExpression_deserializable release_profile (linux true))
    (@encode _ (@RawExpression_attribute release_profile (linux true)) (RawExpression_from MkMasquerade))
  = Err InvalidDataSize.
Proof. exact (@masquerade_unreadable release_profile (linux true) (linux_laws true)). Defined.

(** In each of the six tables of header fields, an offset and
    a length are recognized exactly as the field that has them, and any other pair is
    reported. *)
Theorem header_fields_read_back :
  reads_fields LLHeaderField_from_raw_data UnknownLinkLayerHeaderField
  ∧ reads_fields IPv4HeaderField_from_raw_data UnknownIPv4HeaderField
  ∧ reads_fields IPv6HeaderField_from_raw_data UnknownIPv6HeaderField
  ∧ reads_fields TCPHeaderField_from_raw_data UnknownTCPHeaderField
  ∧ reads_fields UDPHeaderField_from_raw_data UnknownUDPHeaderField
  ∧ reads_fields ICMPv6HeaderField_from_raw_data UnknownICMPv6HeaderField.
Proof.
  split_and!; [apply LL_reads|apply IPv4_reads|apply IPv6_reads|apply TCP_reads|apply UDP_reads
    |apply ICMPv6_reads].
Qed.

(** C38: the payload expression built for a header field is
    recognized as one of the right part of the packet. *)
Theorem payload_type_recovered `{SysLaws} (h : HighLevelPayload) :
  parse_from_payload (HighLevelPayload_build h) = Ok (payload_type_of h).
Proof. apply parse_built. Qed.

Lemma payload_type_recovered_witness :
  @parse_from_payload (linux true) (@HighLevelPayload_build (linux true) (HLP_LinkLayer LL_EtherType))
  = Ok (PT_LinkLayer LL_EtherType).
Proof.
  exact (@payload_type_recovered (linux true) (linux_laws true) (HLP_LinkLayer LL_EtherType)).
Defined.
