(* ===== verification/ObjectTheorems.v ===== *)
(** * Theorems: tables, chains, rules and sets *)

From stdpp Require Import vector.
From S2P Require Import Prelude Sys Errors Lib Nlmsg Parser ParserImpls Macros Codec Data Objects.
From S2P Require Import Table Chain Exprs ExprMod Payload Rule Sets RuleMethods RuleBuild.
From S2P Require Import Typed WireTheorems TypeTheorems.
Local Open Scope Z_scope.

(** C32: [add_or_remove] appends one message to the writer's buffer: a
    header whose length covers it, whose type is the operation in the nf_tables
    subsystem and whose flags ask for an acknowledgement, the family, the attributes of
    the object and its padding; the writer is left closed. *)
Theorem add_or_remove_layout `{BuildProfile} `{SysLaws} {A : Type}
    `{NfNetlinkObject A, NfNetlinkAttribute A} (self : A) (b : bytes) (mt : MsgType) (seq : Z) :
  writable self → fits self → u32_ok seq →
  add_or_remove self {| buf := b; headers := None |} mt seq
  = Ok {| buf := b ++ object_message self mt seq; headers := None |}
  ∧ len (object_message self mt seq) = nlmsg_len (object_header self mt seq)
  ∧ len (object_message self mt seq) mod 4 = 0.
Proof.
  intros Hw Hf Hs. rewrite len_object_message by done. split_and!.
  - by apply add_or_remove_message.
  - done.
  - destruct Hw as (Hsz & _). destruct Hf as [_ Hf].
    assert (pad_netlink_object_with_variable_size (get_size self) mod 4 = 0) by (apply pad_mod; lia).
    Z.div_mod_to_equations. lia.
Qed.

Definition a_table : Table := Table_new Inet |> table_with_name (rstr "nat").

Lemma add_or_remove_layout_witness :
  @add_or_remove dev_profile (linux true) Table (@Table_object (linux true)) (@Table_attribute (linux true)) a_table
    {| buf := []; headers := None |} Add 1
  = Ok {| buf := @object_message (linux true) Table (@Table_object (linux true)) (@Table_attribute (linux true)) a_table Add 1;
          headers := None |}.
Proof.
  pose proof (linux_laws true) as L.
  destruct (@object_readable_writable dev_profile (linux true) Table _ _ _
    (@Table_object_codec dev_profile (linux true) L) a_table) as [Hw Hf]; [by vm_compute|].
  exact (proj1 (@add_or_remove_layout dev_profile (linux true) L Table _ _ a_table [] Add 1 Hw Hf
    ltac:(done))).
Defined.

(** ** Round trips *)

(** A readable table is read back from its message, with its
    family, its name, its flags and its user data, and what follows is left over. *)
Theorem table_roundtrip `{BuildProfile} `{SysLaws} (t : Table) (mt : MsgType) (seq : Z)
    (rest : bytes) :
  object_readable t = true → u32_ok seq → deserialize (object_message t mt seq ++ rest) = Ok (t, rest).
Proof. apply object_roundtrips. Qed.

Lemma table_roundtrip_witness :
  @deserialize Table (@Table_deserializable dev_profile (linux true))
    (@object_message (linux true) Table (@Table_object (linux true)) (@Table_attribute (linux true)) a_table Add 1 ++ [Byte.x01])
  = Ok (a_table, [Byte.x01]).
Proof.
  apply (@table_roundtrip dev_profile (linux true) (linux_laws true) a_table Add 1 [Byte.x01]);
    by vm_compute.
Defined.

(** A readable chain is read back from its message, with its
    hook and its type.  The condition on the chain asks for a policy that is [Accept] or
    absent, since [ChainPolicy]'s own reader does not give a dropping policy back. *)
Theorem chain_roundtrip `{BuildProfile} `{SysLaws} (c : Chain) (mt : MsgType) (seq : Z)
    (rest : bytes) :
  object_readable c = true → u32_ok seq → deserialize (object_message c mt seq ++ rest) = Ok (c, rest).
Proof. apply object_roundtrips. Qed.

Definition a_chain `{Sys} : Chain :=
  Chain_new a_table
    |> chain_with_name (rstr "prerouting")
    |> chain_with_hook (Hook_new PreRouting (-100))
    |> chain_with_type ChainType_Nat
    |> chain_with_policy Policy_Accept.

Lemma chain_roundtrip_witness :
  let c := @a_chain (linux true) in
  @deserialize Chain (@Chain_deserializable dev_profile (linux true))
    (@object_message (linux true) Chain (@Chain_object (linux true)) (@Chain_attribute dev_profile (linux true)) c Add 2)
  = Ok (c, []).
Proof.
  intros c. unfold c.
  rewrite <- (app_nil_r (@object_message (linux true) Chain _ _ _ Add 2)).
  apply (@chain_roundtrip dev_profile (linux true) (linux_laws true) (@a_chain (linux true)) Add 2 []);
    by vm_compute.
Defined.

(** A policy is written as its own code, but both codes are
    read as [Accept], so a chain that drops by default is listed as one that accepts. *)
Theorem chain_policy_reads_accept `{SysLaws} (p : ChainPolicy) :
  encode p = encode (ChainPolicy_value p : i32)
  ∧ deserialize (A := ChainPolicy) (encode p) = Ok (Policy_Accept, []).
Proof. split; [apply policy_writable|apply policy_reads]. Qed.

Lemma chain_policy_reads_accept_witness :
  @deserialize ChainPolicy (@ChainPolicy_deserializable (linux true))
    (@encode ChainPolicy (@ChainPolicy_attribute (linux true)) Policy_Drop) = Ok (Policy_Accept, []).
Proof. exact (proj2 (@chain_policy_reads_accept (linux true) (linux_laws true) Policy_Drop)). Defined.

(** C6: a readable rule is read back from its message, with its expressions in order.
    [object_readable] asks for fields that are in range and read back one by one, a last
    attribute that is not empty, at the top and in every nested structure and list, and a
    message length that fits in its header.  A rule with [Masquerade] or with an empty
    [Counter] among its expressions can be sent and is not readable: it is refused when read. *)
Theorem rule_roundtrip `{BuildProfile} `{SysLaws} (r : Rule) (mt : MsgType) (seq : Z)
    (rest : bytes) :
  object_readable r = true → u32_ok seq → deserialize (object_message r mt seq ++ rest) = Ok (r, rest).
Proof. apply object_roundtrips. Qed.

Definition a_rule `{Sys} : Rule :=
  Rule_default
    |> rule_with_family Inet
    |> rule_with_table (rstr "nat")
    |> rule_with_chain (rstr "prerouting")
    |> dport 443 TCP
    |> saddr (IpAddr_V4 (MkIpv4Addr [#Byte.x0a; Byte.x00; Byte.x00; Byte.x01]))
    |> accept.

Lemma rule_roundtrip_witness :
  let r := @a_rule (linux true) in
  @deserialize Rule (@Rule_deserializable dev_profile (linux true))
    (@object_message (linux true) Rule (@Rule_object (linux true))
       (@Rule_attribute dev_profile (linux true)) r Add 3 ++ [Byte.x01])
  = Ok (r, [Byte.x01]).
Proof.
  intros r. unfold r.
  apply (@rule_roundtrip dev_profile (linux true) (linux_laws true) (@a_rule (linux true)) Add 3);
    by vm_compute.
Defined.

(** Readable sets and set element lists are read back from their messages. *)
Theorem set_roundtrip `{BuildProfile} `{SysLaws} (s : NfSet) (l : SetElementList) (mt : MsgType)
    (seq : Z) (rest : bytes) :
  object_readable s = true → object_readable l = true → u32_ok seq →
  deserialize (object_message s mt seq ++ rest) = Ok (s, rest)
  ∧ deserialize (object_message l mt seq ++ rest) = Ok (l, rest).
Proof. intros. split; by apply object_roundtrips. Qed.

Definition a_set : NfSet :=
  NfSet_default |> nfset_with_table (rstr "nat") |> nfset_with_name (rstr "hosts")
    |> nfset_with_key_type 7 |> nfset_with_key_len 4.
Definition a_set_list : SetElementList := {|
  set_list_table := Some (rstr "nat"); set_list_set := Some (rstr "hosts");
  set_list_elements := Some (MkList [set_element_of
    (MkIpv4Addr [#Byte.x0a; Byte.x00; Byte.x00; Byte.x01])]) |}.

Lemma set_roundtrip_witness :
  @deserialize NfSet (@NfSet_deserializable dev_profile (linux true))
    (@object_message (linux true) NfSet (@NfSet_object (linux true))
       (@NfSet_attribute (linux true)) a_set Add 3 ++ [])
  = Ok (a_set, [])
  ∧ @deserialize SetElementList (@SetElementList_deserializable dev_profile (linux true))
    (@object_message (linux true) SetElementList (@SetElementList_object (linux true))
       (@SetElementList_attribute dev_profile (linux true)) a_set_list Add 3 ++ [])
  = Ok (a_set_list, []).
Proof.
  apply (@set_roundtrip dev_profile (linux true) (linux_laws true) a_set a_set_list Add 3 []);
    by vm_compute.
Defined.

(** C34: readable tables, sets and lists of set elements are read back from their messages,
    with their family, and what follows is left over.  [object_readable] asks for fields that
    are in range and read back one by one, a last attribute that is not empty, at the top and
    in every nested structure and list, and a message length that fits in its header: a list
    without elements can be sent and is not readable.  A chain, with any policy, is read back
    with [Accept] for its policy, when the chain with that policy is readable: as it was
    unless it drops. *)
Theorem objects_roundtrip `{BuildProfile} `{SysLaws} (t : Table) (c : Chain) (s : NfSet)
    (l : SetElementList) (mt : MsgType) (seq : Z) (rest : bytes) :
  object_readable t = true → object_readable (chain_accepting c) = true →
  object_readable s = true → object_readable l = true → u32_ok seq →
  deserialize (object_message t mt seq ++ rest) = Ok (t, rest)
  ∧ deserialize (object_message c mt seq ++ rest) = Ok (chain_accepting c, rest)
  ∧ (chain_policy c ≠ Some Policy_Drop → chain_accepting c = c)
  ∧ deserialize (object_message s mt seq ++ rest) = Ok (s, rest)
  ∧ deserialize (object_message l mt seq ++ rest) = Ok (l, rest).
Proof.
  intros Ht Hc Hs Hl Hseq. split_and!; try by apply object_roundtrips.
  - by apply chain_reads.
  - apply chain_accepting_id.
Qed.

Lemma objects_roundtrip_witness :
  @deserialize Table (@Table_deserializable dev_profile (linux true))
    (@object_message (linux true) Table (@Table_object (linux true)) (@Table_attribute (linux true))
       a_table Add 1 ++ [Byte.x01]) = Ok (a_table, [Byte.x01])
  ∧ @deserialize Chain (@Chain_deserializable dev_profile (linux true))
      (@object_message (linux true) Chain (@Chain_object (linux true))
         (@Chain_attribute dev_profile (linux true))
         (chain_with_policy Policy_Drop (@a_chain (linux true))) Add 1 ++ [Byte.x01])
    = Ok (@a_chain (linux true), [Byte.x01]).
Proof.
  destruct (@objects_roundtrip dev_profile (linux true) (linux_laws true) a_table
    (chain_with_policy Policy_Drop (@a_chain (linux true))) a_set a_set_list Add 1 [Byte.x01])
    as (Ht & Hc & _); [by vm_compute..|]. exact (conj Ht Hc).
Defined.

(** C40: what is not read back as it was written.  A buffer whose last attribute has no
    payload is refused with an invalid size, although the attributes before it are decoded;
    so is the raw expression of [Masquerade], which has no data.  A policy is written as its
    own code and both codes are read as [Accept]: a chain that drops by default is listed as
    one that accepts. *)
Theorem not_read_back `{BuildProfile} `{SysLaws} :
  (∀ (A : Type) `{AttributeDecoder A} (dflt : A) (l : list Attr) (a : Attr),
     Forall attr_ok (l ++ [a]) → at_payload a = [] → len (encode_attrs (l ++ [a])) ≤ isize_max →
     read_attributes dflt (encode_attrs (l ++ [a]))
     = (_ ← foldl (λ res a, r ← res; decode_or_skip r (at_type a) (at_payload a)) (Ok dflt) l;
        Err InvalidDataSize))
  ∧ deserialize (A := RawExpression) (encode (RawExpression_from MkMasquerade)) = Err InvalidDataSize
  ∧ ∀ p : ChainPolicy, encode p = encode (ChainPolicy_value p : i32)
      ∧ deserialize (A := ChainPolicy) (encode p) = Ok (Policy_Accept, []).
Proof.
  split_and!.
  - intros A dec dflt l a. apply empty_last_attribute_rejected.
  - apply masquerade_unreadable.
  - apply chain_policy_reads_accept.
Qed.

Lemma not_read_back_witness :
  @deserialize RawExpression (@RawExpression_deserializable dev_profile (linux true))
    (@encode _ (@RawExpression_attribute dev_profile (linux true)) (RawExpression_from MkMasquerade))
  = Err InvalidDataSize
  ∧ @deserialize ChainPolicy (@ChainPolicy_deserializable (linux true))
      (@encode ChainPolicy (@ChainPolicy_attribute (linux true)) Policy_Drop) = Ok (Policy_Accept, []).
Proof.
  destruct (@not_read_back dev_profile (linux true) (linux_laws true)) as (_ & Hm & Hp).
  split; [exact Hm|exact (proj2 (Hp Policy_Drop))].
Defined.

(** C2: whatever bytes arrive, deserializing a table, a chain, a rule, a set or a set element
    list never reads outside of them and never loops, every nested attribute, expression and
    list included: it ends with a value, with an error or with a panic.  Panics are not
    excluded: an attribute whose length is below four or past the buffer, and an integer that
    is too short, do panic. *)
Theorem objects_memory_safe `{BuildProfile} `{SysLaws} (buf : bytes) :
  len buf ≤ isize_max →
  safe (deserialize (A := Table) buf) ∧ safe (deserialize (A := Chain) buf)
  ∧ safe (deserialize (A := Rule) buf) ∧ safe (deserialize (A := NfSet) buf)
  ∧ safe (deserialize (A := SetElementList) buf).
Proof. intros Hb. split_and!; by apply object_safe. Qed.

Lemma objects_memory_safe_witness :
  safe (@deserialize Rule (@Rule_deserializable release_profile (linux true)) (zeros 40)).
Proof.
  apply (@objects_memory_safe release_profile (linux true) (linux_laws true) (zeros 40)).
  unfold isize_max. by vm_compute.
Defined.

(** ** Builders *)

(** C21: the values read have their Rust types.  Whatever the bytes are, a table, chain, rule,
    set or list of set elements read from them has integers in the range of their widths,
    strings that are UTF-8 and parts, down to the fields of each expression, of their types. *)
Theorem objects_read_typed `{BuildProfile} `{Sys} (b rest : bytes) :
  (∀ t : Table, deserialize b = Ok (t, rest) →
     option_typed (λ s, utf8_valid s = true) (table_name t) ∧ option_typed u32_ok (table_flags t))
  ∧ (∀ c : Chain, deserialize b = Ok (c, rest) → typed c)
  ∧ (∀ r : Rule, deserialize b = Ok (r, rest) →
     typed r ∧ option_typed u64_ok (rule_handle r) ∧ option_typed u64_ok (rule_position r)
     ∧ option_typed u32_ok (rule_id r)
     ∧ option_typed (λ l : ExpressionList, Forall raw_typed (objs l)) (rule_expressions r))
  ∧ (∀ s : NfSet, deserialize b = Ok (s, rest) → typed s)
  ∧ (∀ l : SetElementList, deserialize b = Ok (l, rest) → typed l).
Proof.
  split_and!; intros x Hx; apply deserialize_typed in Hx; try done.
  - by destruct Hx as (? & ? & _).
  - pose proof Hx as (_ & _ & ? & ? & ? & _ & ? & _). done.
Qed.

Lemma objects_read_typed_witness :
  ∃ t, @deserialize Table (@Table_deserializable dev_profile (linux true))
      (@object_message (linux true) Table (@Table_object (linux true)) (@Table_attribute (linux true))
         (a_table |> table_with_flags 7) Add 1) = Ok (t, [])
    ∧ option_typed u32_ok (table_flags t).
Proof.
  eexists. assert (@deserialize Table (@Table_deserializable dev_profile (linux true))
      (@object_message (linux true) Table (@Table_object (linux true)) (@Table_attribute (linux true))
         (a_table |> table_with_flags 7) Add 1) = Ok (a_table |> table_with_flags 7, [])) as Hd
    by (vm_compute; reflexivity).
  split; [exact Hd|].
  exact (proj2 (proj1 (@objects_read_typed dev_profile (linux true) _ []) _ Hd)).
Defined.

(** C37: a set builder never panics; after any calls of [add], the set
    it finishes has the type and the length of its keys, and the element list holds
    their bytes in the order of the calls, under the same table and set names. *)
Theorem set_builder_collects {K : Type} `{DataType K} (name : RString) (table : Table)
    (b : SetBuilder K) (keys : list K) :
  SetBuilder_new name table = Ok b →
  ∃ b' t, table_name table = Some t ∧ SetBuilder_add_all keys b = Ok b'
    ∧ SetBuilder_finish b'
      = (NfSet_default |> nfset_with_key_type (TYPE (K := K)) |> nfset_with_key_len (LEN (K := K))
           |> nfset_with_table t |> nfset_with_name name,
         {| set_list_table := Some t; set_list_set := Some name;
            set_list_elements := Some (MkList (set_element_of <$> keys)) |}).
Proof.
  unfold SetBuilder_new. destruct (table_name table) as [t|] eqn:Ht; [|done]. intros [= <-].
  eexists _, t. split; [done|]. split; [by apply add_all_elements|]. done.
Qed.

Lemma set_builder_collects_witness :
  let k := MkIpv4Addr [#Byte.x0a; Byte.x00; Byte.x00; Byte.x01] in
  ∃ b b' : SetBuilder Ipv4Addr, SetBuilder_new (rstr "hosts") a_table = Ok b
    ∧ SetBuilder_add_all [k] b = Ok b' ∧ SetBuilder_finish b' = (a_set, a_set_list).
Proof.
  intros k.
  destruct (@set_builder_collects Ipv4Addr _ (rstr "hosts") a_table
    (MkSetBuilder a_set {| set_list_table := Some (rstr "nat"); set_list_set := Some (rstr "hosts");
       set_list_elements := Some (MkList []) |}) [k]) as (b' & t & Ht & Hadd & Hfin).
  - reflexivity.
  - eexists _, b'. split; [reflexivity|]. split; [exact Hadd|].
    rewrite Hfin. injection Ht as <-. reflexivity.
Defined.

(** C7: every rule obtained from a chain with names that are UTF-8, not empty and fit in an
    attribute by 1 to 150 calls of the methods of [rule_methods.rs], in any order and with any arguments,
    [masquerade] excepted, satisfies the conditions of the round trip: it can be sent
    and is read back as itself. *)
Theorem built_rules_sendable `{BuildProfile} `{SysLaws} `{IpNetworkLaws} (chain : Chain)
    (base r : Rule) (n : nat) (mt : MsgType) (seq : Z) (rest : bytes) :
  option_ok sendable_name (chain_table chain) = true →
  option_ok sendable_name (chain_name chain) = true →
  Rule_new chain = Ok base → built base n r → (0 < n ≤ 150)%nat → u32_ok seq →
  deserialize (object_message r mt seq ++ rest) = Ok (r, rest).
Proof.
  intros Ht Hc Hnew Hb Hn Hs. apply object_roundtrips; [|done]. by eapply built_object_readable.
Qed.

Lemma built_rules_sendable_witness :
  let base := Rule_default |> rule_with_family Inet |> rule_with_table (rstr "nat")
    |> rule_with_chain (rstr "prerouting") in
  let r := accept (@sport (linux true) 443 TCP base) in
  @deserialize Rule (@Rule_deserializable dev_profile (linux true))
    (@object_message (linux true) Rule (@Rule_object (linux true))
       (@Rule_attribute dev_profile (linux true)) r Add 3 ++ [])
  = Ok (r, []).
Proof.
  intros base r. unfold r.
  apply (@built_rules_sendable dev_profile (linux true) (linux_laws true) prefix_networks
    prefix_networks_laws (@a_chain (linux true)) base (accept
      (@sport (linux true) 443 TCP base)) 2 Add 3 []).
  - by vm_compute.
  - by vm_compute.
  - reflexivity.
  - eapply built_step; [eapply built_step; [apply built_base|apply step_sport]|].
    apply step_accept.
  - lia.
  - by vm_compute.
Defined.

(** [sport] builds the same rule as [dport]: it compares the
    destination port. *)
Theorem sport_matches_destination `{Sys} (port : u16) (p : Protocol) (r : Rule) :
  sport port p r = dport port p r
  ∧ exprs (sport port p r) = exprs r ++
      [ RawExpression_from (Meta_new MetaType_L4Proto);
        RawExpression_from (Cmp_new CmpOp_Eq
          (one_byte (match p with TCP => IPPROTO_TCP | UDP => IPPROTO_UDP end)));
        RawExpression_from (Payload_default
          |> payload_with_base NFT_PAYLOAD_TRANSPORT_HEADER
          |> payload_with_offset 2 |> payload_with_len 2 |> payload_with_dreg Reg1);
        RawExpression_from (Cmp_new CmpOp_Eq (be_bytes 2 port)) ].
Proof.
  split; [done|]. unfold sport, match_port, protocol, add_expr, add_raw, exprs.
  destruct p; cbn -[app]; by rewrite <- !app_assoc.
Qed.

(** [saddr] and [daddr] compare the address field of the packet's
    family, after a test of the family: the source or the destination address, at its
    offset in the header, with all the octets of the argument. *)
Theorem match_ip_expressions `{Sys} (ip : IpAddr) (source : bool) (r : Rule) :
  exprs (match_ip ip source r) = exprs r ++
    [ RawExpression_from (Meta_new MetaType_NfProto);
      RawExpression_from (Cmp_new CmpOp_Eq
        (one_byte (if ip_is_v4 ip then NFPROTO_IPV4 else NFPROTO_IPV6)));
      RawExpression_from (Payload_default
        |> payload_with_base NFT_PAYLOAD_NETWORK_HEADER
        |> payload_with_offset (if ip_is_v4 ip then (if source then 12 else 16)
                                else (if source then 8 else 24))
        |> payload_with_len (len (ip_to_vec ip)) |> payload_with_dreg Reg1);
      RawExpression_from (Cmp_new CmpOp_Eq (ip_to_vec ip)) ].
Proof.
  rewrite len_ip. unfold match_ip, add_expr, add_raw, exprs. destruct ip, source;
    cbn -[app]; by rewrite <- !app_assoc.
Qed.
