(* ===== verification/ExchangeTheorems.v ===== *)
(** * Theorems: batches, the receive loop and listings *)

From stdpp Require Import vector.
From S2P Require Import Prelude Sys Errors Lib Nlmsg Parser ParserImpls Macros Codec Data Objects.
From S2P Require Import Table Chain Exprs ExprMod Payload Rule Sets Batch Query Exchange.
From S2P Require Import Progress RuleMethods.
Local Open Scope Z_scope.

(** ** Batches *)

Section BatchExample.
Local Instance ex_profile : BuildProfile := dev_profile.
Local Instance ex_sys : Sys := linux true.
Local Instance ex_laws : SysLaws ex_sys := linux_laws true.

(** A table and a chain in it, and the chain with a policy of [Drop]. *)
Definition ex_table : Table := Table_new Inet |> table_with_name (rstr "filter").
Definition ex_chain : Chain :=
  Chain_new ex_table |> chain_with_name (rstr "in") |> chain_with_type ChainType_Filter
    |> chain_with_hook (Hook_new In 0).
Definition ex_drop : Chain := ex_chain |> chain_with_policy Policy_Drop.
Definition ex_items : list BatchItem :=
  [mk_item Table_object_laws ex_table Add; mk_item Chain_object_laws ex_drop Add].

Lemma ex_items_ok : Forall item_ok ex_items.
Proof.
  repeat apply List.Forall_cons; [| |apply List.Forall_nil].
  - apply (object_readable_sendable ex_table). by vm_compute.
  - apply (chain_sendable ex_drop). by vm_compute.
Qed.

(** A rule of the chain: the names that [list_rules_for_chain] asks for. *)
Definition ex_rule : Rule :=
  Rule_default |> rule_with_family Inet |> rule_with_table (rstr "filter")
    |> rule_with_chain (rstr "in").

Lemma ex_rule_sendable : object_sendable ex_rule.
Proof. apply object_readable_sendable. by vm_compute. Qed.

(** The batch that adds them. *)
Definition batch_of (m : outcome Empty_set Batch) : Batch :=
  match m with
  | Ok b => b
  | _ => {| batch_writer := NfNetlinkWriter_new []; batch_seq := 0 |}
  end.
Definition ex_batch0 : Batch := batch_of Batch_new.
Definition ex_batch : Batch := batch_of (Batch_add_items ex_items ex_batch0).
End BatchExample.

(** C8: a batch of any objects that can be sent, created, filled and
    finalized, consists of the begin message, one message per object with consecutive
    sequence numbers from 1, and the end message; cut into messages the way the receive
    loop cuts them, it is read back as exactly those, in order. *)
Theorem batch_parses_back `{BuildProfile} `{SysLaws} (l : list BatchItem) :
  Forall item_ok l → 1 + len l < 2 ^ 32 →
  Batch_build l = Ok (batch_bytes l)
  ∧ split_messages (length l + 3) (batch_bytes l)
    = Ok (control_parsed NFNL_MSG_BATCH_BEGIN 0 :: items_parsed l 1
          ++ [control_parsed NFNL_MSG_BATCH_END (1 + len l)]).
Proof. intros Hok Hl. split; [by apply Batch_build_spec|by apply split_batch]. Qed.

Lemma batch_parses_back_witness :
  @Batch_build dev_profile (linux true) ex_items
  = Ok (@batch_bytes (linux true) ex_items)
  ∧ @split_messages dev_profile (linux true) 5 (@batch_bytes (linux true) ex_items)
    = Ok (@control_parsed (linux true) 16 0 :: @items_parsed (linux true) ex_items 1
          ++ [@control_parsed (linux true) 17 3]).
Proof.
  apply (@batch_parses_back dev_profile (linux true) (linux_laws true) ex_items);
    [exact ex_items_ok|by vm_compute].
Defined.

(** [add_iter] appends the messages of its objects in order. *)
Lemma batch_add_iter_appends `{BuildProfile} `{SysLaws} {A : Type}
    `{NfNetlinkObject A, NfNetlinkAttribute A} (laws : object_laws (A := A))
    (l : list A) (mt : MsgType) (b : bytes) (seq : Z) :
  Forall object_sendable l → 0 ≤ seq → seq + len l < 2 ^ 32 →
  Batch_add_iter l mt {| batch_writer := {| buf := b; headers := None |}; batch_seq := seq |}
  = Ok {| batch_writer := {| buf := b ++ item_messages ((λ a, mk_item laws a mt) <$> l) seq;
                             headers := None |};
          batch_seq := seq + len l |}.
Proof.
  intros Hok. revert b seq. induction Hok as [|a l Ha Hok IH]; intros b seq Hs Hl.
  - cbn. by rewrite app_nil_r, Z.add_0_r.
  - rewrite len_cons in *. pose proof (len_nonneg l). cbn [Batch_add_iter].
    rewrite Batch_add_spec by (done || lia). obind. rewrite IH by lia.
    cbn [fmap list_fmap item_messages]. rewrite <- app_assoc. do 2 f_equal. lia.
Qed.

(** ** The receive loop *)

(** C4: the receive loop, with its shared buffer, its two positions
    and its relocation, processes each datagram as if it had been received alone in a
    buffer of its own, for datagrams up to the maximum message size: between two
    receives everything received has been consumed, so that space for a whole message
    is always left and no message is lost, repeated or cut. *)
Theorem recv_refines_datagrams `{BuildProfile} `{SysLaws} {T : Type} (max_seq : option Z)
    (cb : option (bytes → T → outcome QueryError T)) (script : list RecvResult) (data : T) :
  Forall datagram_fits script →
  recv_and_process max_seq cb script data = process_datagrams max_seq cb script data.
Proof. apply recv_and_process_datagrams. Qed.

Lemma recv_refines_datagrams_witness :
  let script := [RecvData (@done_message (linux true) 0)] in
  @recv_and_process dev_profile (linux true) unit None None script tt
  = @process_datagrams dev_profile (linux true) unit None None script tt.
Proof.
  intros script. apply (@recv_refines_datagrams dev_profile (linux true) (linux_laws true)).
  constructor; [|constructor]. by vm_compute.
Defined.

(** Whatever the socket delivers, and whatever errors it reports, the
    receive loop never reads outside its buffer and never loops without receiving, when
    the callback does neither: it ends as soon as the socket reports an error. *)
Theorem recv_memory_safe `{BuildProfile} `{SysLaws} {T : Type} (max_seq : option Z)
    (cb : option (bytes → T → outcome QueryError T)) (script : list RecvResult) (data : T) :
  safe_callback cb → Forall datagram_fits script →
  recv_and_process max_seq cb script data ≠ Ub
  ∧ ∀ errno, safe (recv_and_process max_seq cb (script ++ [RecvErr errno]) data).
Proof.
  intros Hcb Hs. split; [|intros errno]; rewrite recv_and_process_datagrams.
  - by apply process_datagrams_no_ub.
  - done.
  - by apply process_datagrams_safe.
  - apply Forall_app. split; [done|]. by constructor.
Qed.

Lemma recv_memory_safe_witness :
  safe (@recv_and_process release_profile (linux true) unit (Some 3) None
    ([RecvData (zeros 17)] ++ [RecvErr 4]) tt).
Proof.
  destruct (@recv_memory_safe release_profile (linux true) (linux_laws true) unit (Some 3) None
    [RecvData (zeros 17)] tt) as [_ Hs].
  - done.
  - constructor; [|constructor]. by vm_compute.
  - exact (Hs 4).
Defined.

(** ** Listings *)

(** C18: when the kernel answers a listing with multipart messages, in the encoding the crate
    writes for readable tables and in any number of datagrams, and the end marker, [list_tables] opens a socket, sends one
    dump request, closes the socket and returns exactly the tables, in order. *)
Theorem list_tables_complete `{BuildProfile} `{SysLaws} (pid generation count : Z)
    (groups : list (list Table)) :
  dump_ok pid generation groups →
  list_tables (working_socket [Sent count] (dump_script pid generation groups))
  = ([Opened; Sending (request_message (A := Table) (as_u16 NFT_MSG_GETTABLE) 0 None) count; Closed],
     Ok (concat groups)).
Proof.
  intros Hd. unfold list_tables.
  rewrite (list_objects_dump (λ (a : Table) t, t ++ [a])) by (done || apply as_u16_ok).
  by rewrite foldl_snoc.
Qed.

Lemma list_tables_complete_witness :
  let groups := [[ex_table; Table_new Ipv4 |> table_with_name (rstr "nat")];
                 [Table_new Ipv6 |> table_with_name (rstr "raw")]] in
  (@list_tables dev_profile (linux true) (working_socket [Sent 20]
    (@dump_script (linux true) Table (@Table_object (linux true)) (@Table_attribute (linux true))
       1000 7 groups))).2
  = Ok (concat groups).
Proof.
  intros groups. unfold groups.
  rewrite (@list_tables_complete dev_profile (linux true) (linux_laws true) 1000 7 20); [done|].
  split_and!.
  - repeat constructor; by vm_compute.
  - by vm_compute.
  - by vm_compute.
  - repeat constructor; by vm_compute.
Defined.

(** [list_chains_for_table] asks for all chains and returns exactly those of the
    answer that are in the table of that name, in order. *)
Theorem list_chains_selects `{BuildProfile} `{SysLaws} (table : Table) (pid generation count : Z)
    (groups : list (list Chain)) :
  dump_ok pid generation groups →
  list_chains_for_table table (working_socket [Sent count] (dump_script pid generation groups))
  = ([Opened; Sending (request_message (A := Chain) (as_u16 NFT_MSG_GETCHAIN) 0 None) count; Closed],
     Ok (filter (λ c, chain_table c = table_name table) (concat groups))).
Proof.
  intros Hd. unfold list_chains_for_table.
  rewrite (list_objects_dump (λ (c : Chain) t,
    if decide (chain_table c = table_name table) then t ++ [c] else t))
    by (done || apply as_u16_ok).
  by rewrite (foldl_filter (λ c, chain_table c = table_name table)).
Qed.

Lemma list_chains_selects_witness :
  let other := Chain_default |> chain_with_table (rstr "nat") |> chain_with_name (rstr "out") in
  (@list_chains_for_table dev_profile (linux true) ex_table (working_socket [Sent 20]
    (@dump_script (linux true) Chain (@Chain_object (linux true))
       (@Chain_attribute dev_profile (linux true)) 1000 7 [[ex_chain; other]]))).2
  = Ok [ex_chain].
Proof.
  intros other. unfold other.
  rewrite (@list_chains_selects dev_profile (linux true) (linux_laws true) ex_table 1000 7 20);
    [by vm_compute|].
  split_and!.
  - repeat constructor; by vm_compute.
  - by vm_compute.
  - by vm_compute.
  - repeat constructor; by vm_compute.
Defined.

(** [list_rules_for_chain] asks for the rules of the table and the
    chain with one dump request that carries their names, and returns the rules of the
    answer, in order. *)
Theorem list_rules_complete `{BuildProfile} `{SysLaws} (chain : Chain) (rule_filter : Rule)
    (pid generation count : Z) (groups : list (list Rule)) :
  Rule_new chain = Ok rule_filter → object_sendable rule_filter → dump_ok pid generation groups →
  list_rules_for_chain chain (working_socket [Sent count] (dump_script pid generation groups))
  = ([Opened; Sending (request_message (as_u16 NFT_MSG_GETRULE) 0 (Some rule_filter)) count; Closed],
     Ok (concat groups)).
Proof.
  intros Hnew Hok Hd. unfold list_rules_for_chain. rewrite Hnew. cbn [map_err]. rewrite lift_bind.
  rewrite (list_objects_dump (λ (a : Rule) t, t ++ [a]))
    by (done || apply as_u16_ok || by intros a [= <-]).
  by rewrite foldl_snoc.
Qed.

Lemma list_rules_complete_witness :
  (@list_rules_for_chain dev_profile (linux true) ex_chain (working_socket [Sent 44]
    (@dump_script (linux true) Rule (@Rule_object (linux true))
       (@Rule_attribute dev_profile (linux true)) 1000 7 [[ex_rule]; [ex_rule; ex_rule]]))).2
  = Ok [ex_rule; ex_rule; ex_rule].
Proof.
  rewrite (@list_rules_complete dev_profile (linux true) (linux_laws true) ex_chain ex_rule 1000 7 44
    [[ex_rule]; [ex_rule; ex_rule]]).
  - done.
  - reflexivity.
  - exact ex_rule_sendable.
  - split_and!; [repeat constructor; by vm_compute|by vm_compute..|repeat constructor; by vm_compute].
Defined.

(** C33: what the listings of chains and rules make of any answer of the kernel: multipart
    messages of whole words, with any headers and any payload, in any number of datagrams, then
    the end marker.  [list_chains_for_table] asks for all chains and returns exactly those in
    the table of that name among the chains the messages are read as, in order: a chain that
    drops is read as one that accepts.  [list_rules_for_chain] sends one dump request that
    carries the names of the table and the chain, when these fit in attributes, and returns the
    rules the messages are read as, in order.  Either ends with the error of the first message its reader refuses, such as
    that of a rule with [masquerade] in the crate's encoding. *)
Theorem list_chains_and_rules `{BuildProfile} `{SysLaws} (table : Table) (chain : Chain)
    (rule_filter : Rule) (count pid : Z) (cgroups : list (list Answer)) (chains : list (list Chain))
    (rgroups : list (list Answer)) (rules : list (list Rule)) (rest : bytes)
    (after : list RecvResult) :
  Rule_new chain = Ok rule_filter → object_sendable rule_filter → u32_ok pid →
  read_as cgroups chains → read_as rgroups rules →
  let finish := RecvData (done_message pid ++ rest) :: after in
  let refusal g bad := RecvData (flat_map answer_bytes g ++ answer_bytes bad ++ rest) :: after in
  let asked_chains :=
    [Opened; Sending (request_message (A := Chain) (as_u16 NFT_MSG_GETCHAIN) 0 None) count; Closed] in
  let asked_rules :=
    [Opened; Sending (request_message (as_u16 NFT_MSG_GETRULE) 0 (Some rule_filter)) count; Closed] in
  (Forall datagram_fits (answer_script cgroups ++ finish) →
   list_chains_for_table table (working_socket [Sent count] (answer_script cgroups ++ finish))
   = (asked_chains, Ok (filter (λ c, chain_table c = table_name table) (concat chains))))
  ∧ (Forall datagram_fits (answer_script rgroups ++ finish) →
     list_rules_for_chain chain (working_socket [Sent count] (answer_script rgroups ++ finish))
     = (asked_rules, Ok (concat rules)))
  ∧ (∀ g (os : list Chain) bad e,
     Forall2 answers g os → refused (A := Chain) bad e →
     Forall datagram_fits (answer_script cgroups ++ refusal g bad) →
     list_chains_for_table table (working_socket [Sent count] (answer_script cgroups ++ refusal g bad))
     = (asked_chains, Err (ProcessNetlinkError e)))
  ∧ (∀ g (os : list Rule) bad e,
     Forall2 answers g os → refused (A := Rule) bad e →
     Forall datagram_fits (answer_script rgroups ++ refusal g bad) →
     list_rules_for_chain chain (working_socket [Sent count] (answer_script rgroups ++ refusal g bad))
     = (asked_rules, Err (ProcessNetlinkError e))).
Proof.
  intros Hnew Hok Hp Hc Hr finish refusal asked_chains asked_rules.
  pose proof (as_u16_ok NFT_MSG_GETCHAIN) as Htc. pose proof (as_u16_ok NFT_MSG_GETRULE) as Htr.
  assert (∀ a, Some rule_filter = Some a → object_sendable a) as Hf by (by intros a [= <-]).
  unfold list_chains_for_table, list_rules_for_chain. rewrite Hnew. cbn [map_err]. rewrite lift_bind.
  split_and!.
  - intros Hfit. unfold finish. rewrite (list_objects_answers (λ (c : Chain) t,
      if decide (chain_table c = table_name table) then t ++ [c] else t) _ None cgroups chains) by done.
    by rewrite (foldl_filter (λ c, chain_table c = table_name table)).
  - intros Hfit. unfold finish. rewrite (list_objects_answers (λ (a : Rule) t, t ++ [a]) _ _ rgroups rules) by done.
    by rewrite foldl_snoc.
  - intros g os bad e Hg Hb Hfit. by apply (list_objects_refused (λ (c : Chain) t,
      if decide (chain_table c = table_name table) then t ++ [c] else t) _ None cgroups chains g os).
  - intros g os bad e Hg Hb Hfit. by apply (list_objects_refused (λ (a : Rule) t, t ++ [a]) _ _
      rgroups rules g os).
Qed.

(** An answer that carries the attributes of a chain (2563) or of a rule (2566). *)
Definition ex_answer (type : Z) (payload : bytes) : Answer :=
  MkAnswer (Build_nlmsghdr (20 + len payload) type 2 3 1000) (Build_nfgenmsg 1 0 7) payload.
Lemma ex_answer_ok type payload :
  type = 2563 ∨ type = 2566 → len payload < 2 ^ 16 →
  @answer_ok (linux true) (ex_answer type payload).
Proof.
  intros Ht Hl. pose proof (len_nonneg payload).
  assert (nlmsghdr_ok (answer_header (ex_answer type payload))) as Hh
    by (split_and!; cbn; unfold u32_ok, u16_ok; lia).
  split_and!; [done|by vm_compute|done|by vm_compute|cbn; lia| |done].
  right. cbn. by destruct Ht as [-> | ->].
Qed.

Lemma list_chains_and_rules_witness :
  let other := Chain_default |> chain_with_table (rstr "nat") |> chain_with_name (rstr "out") in
  let chain_answer c := ex_answer 2563 (@encode Chain (@Chain_attribute dev_profile (linux true)) c) in
  let rule_answer r := ex_answer 2566 (@encode Rule (@Rule_attribute dev_profile (linux true)) r) in
  (@list_chains_for_table dev_profile (linux true) ex_table (working_socket [Sent 20]
    (@answer_script (linux true) [[chain_answer ex_drop; chain_answer other]]
     ++ [RecvData (@done_message (linux true) 1000 ++ [])]))).2
  = Ok [ex_chain |> chain_with_policy Policy_Accept]
  ∧ (@list_rules_for_chain dev_profile (linux true) ex_chain (working_socket [Sent 20]
      (@answer_script (linux true) [[rule_answer ex_rule]]
       ++ [RecvData (flat_map (@answer_bytes (linux true)) [rule_answer ex_rule]
             ++ @answer_bytes (linux true) (rule_answer (masquerade ex_rule)) ++ [])]))).2
    = Err (ProcessNetlinkError InvalidDataSize).
Proof.
  intros other chain_answer rule_answer.
  destruct (@list_chains_and_rules dev_profile (linux true) (linux_laws true) ex_table ex_chain
    ex_rule 20 1000 [[chain_answer ex_drop; chain_answer other]]
    [[ex_chain |> chain_with_policy Policy_Accept; other |> chain_with_family Inet]]
    [[rule_answer ex_rule]] [[ex_rule]] [] []) as (Hc & _ & _ & Hr).
  - reflexivity.
  - exact ex_rule_sendable.
  - by vm_compute.
  - constructor; [|constructor]. split; [done|]. constructor; [|constructor; [|constructor]];
      (split_and!; [apply ex_answer_ok; [auto|by vm_compute]|by vm_compute..|];
       exists []; by vm_compute).
  - constructor; [|constructor]. split; [done|]. constructor; [|constructor].
    split_and!; [apply ex_answer_ok; [auto|by vm_compute]|by vm_compute..|].
    exists []. by vm_compute.
  - split.
    + rewrite Hc; [by vm_compute|]. repeat constructor; by vm_compute.
    + rewrite (Hr [rule_answer ex_rule] [ex_rule] (rule_answer (masquerade ex_rule)) InvalidDataSize).
      * done.
      * constructor; [|constructor].
        split_and!; [apply ex_answer_ok; [auto|by vm_compute]|by vm_compute..|].
        exists []. by vm_compute.
      * split; [apply ex_answer_ok; [auto|by vm_compute]|by vm_compute].
      * repeat constructor; by vm_compute.
Defined.

(** C9: a batch of objects that can be sent is written to the
    socket in as many parts as the kernel takes, all of it and nothing else; [send] then
    returns when the last object is acknowledged, and returns the kernel's error, with
    its sign removed, for the first object that is refused; the socket is closed either
    way.  An acknowledgement has any flags but that of an interrupted dump and may append
    whole words, such as the message it refuses. *)
Theorem batch_send_acknowledged `{BuildProfile} `{SysLaws} (l : list BatchItem) (b : Batch)
    (counts : list Z) (pid : Z) (acks : list Ack) :
  (b0 ← Batch_new; Batch_add_items l b0) = Ok b →
  Forall item_ok l → 1 + len l < 2 ^ 32 →
  Forall (λ c, 0 < c) counts → foldr Z.add 0 counts = len (batch_bytes l) →
  Forall (ack_ok pid) acks →
  ∃ es, Batch_send b (working_socket (map Sent counts) (ack_script pid acks))
    = ([Opened; Bound] ++ es ++ closing (acks_result (len l) acks), acks_result (len l) acks)
    ∧ wire es = batch_bytes l.
Proof. apply Batch_send_acks. Qed.

(** An acknowledgement of the message [seq]; with an error, the kernel appends the message. *)
Definition ex_ack (seq code : Z) : Ack :=
  MkAck seq code (Build_nlmsghdr 40 2560 5 seq 0) (if code =? 0 then 256 else 0)
    (if code =? 0 then [] else zeros 24).

Lemma batch_send_acknowledged_witness :
  (@Batch_send dev_profile (linux true) ex_batch
        (working_socket [Sent 20; Sent (len (@batch_bytes (linux true) ex_items) - 20)]
           (@ack_script (linux true) 9 [ex_ack 1 0; ex_ack 2 0]))).2 = Ok tt
    ∧ (@Batch_send dev_profile (linux true) ex_batch
        (working_socket [Sent (len (@batch_bytes (linux true) ex_items))]
           (@ack_script (linux true) 9 [ex_ack 1 0; ex_ack 2 (-17)]))).2
      = Err (NetlinkError {| error := 17; msg := Build_nlmsghdr 40 2560 5 2 0 |}).
Proof.
  pose proof (linux_laws true) as L. split.
  - destruct (@batch_send_acknowledged dev_profile (linux true) L ex_items ex_batch
      [20; len (@batch_bytes (linux true) ex_items) - 20] 9 [ex_ack 1 0; ex_ack 2 0])
      as (es & Hes & _);
      [by vm_compute|exact ex_items_ok|by vm_compute|repeat constructor|by vm_compute
      |repeat constructor; by vm_compute|exact (f_equal snd Hes)].
  - destruct (@batch_send_acknowledged dev_profile (linux true) L ex_items ex_batch
      [len (@batch_bytes (linux true) ex_items)] 9 [ex_ack 1 0; ex_ack 2 (-17)])
      as (es & Hes & _);
      [by vm_compute|exact ex_items_ok|by vm_compute|repeat constructor|by vm_compute
      |repeat constructor; by vm_compute|exact (f_equal snd Hes)].
Defined.

(** C19: exchanges end.  Once the kernel has acknowledged the last object of the batch, or
    refused one, [Batch::send] ends, whatever it received before and whatever comes after,
    and so does the receive loop of a listing once the end marker of the dump has arrived:
    without reading outside its buffer and without waiting for more, but it may panic on what
    came before.  When the datagrams before are whole numbers of words, no error message in
    them carries the least [i32], which has no absolute value where overflow is checked, and
    the callback returns on their messages (where any word that reads as a header counts as
    the start of a message), nothing panics: the call returns, with a value or
    an error. *)
Theorem exchanges_return `{BuildProfile} `{SysLaws} :
  (∀ (l : list BatchItem) (b : Batch) counts before pid a rest after,
     (b0 ← Batch_new; Batch_add_items l b0) = Ok b →
     Forall item_ok l → 1 + len l < 2 ^ 32 →
     Forall (λ c, 0 < c) counts → foldr Z.add 0 counts = len (batch_bytes l) →
     ack_ok pid a → len l ≤ ack_seq a ∨ ack_code a ≠ 0 →
     let script := before ++ RecvData (ack_message pid a ++ rest) :: after in
     Forall datagram_fits script →
     let result := (Batch_send b (working_socket (map Sent counts) script)).2 in
     safe result ∧ (Forall (regular_result (T := unit) None) before → returns result))
  ∧ (∀ (T : Type) max_seq (cb : option (bytes → T → outcome QueryError T)) before pid rest after t,
     safe_callback cb → u32_ok pid →
     let script := before ++ RecvData (done_message pid ++ rest) :: after in
     Forall datagram_fits script →
     let result := recv_and_process max_seq cb script t in
     safe result ∧ (Forall (regular_result cb) before → returns result)).
Proof.
  split.
  - intros l b counts before pid a rest after Hb Hok Hl Hc Hsum Ha Hend script Hs result.
    destruct (Batch_send_script l b counts script) as (es & Hsend & _); try done.
    unfold result. rewrite Hsend. cbn [snd]. apply recv_ends; [done|done|]. by apply ack_ends.
  - intros T max_seq cb before pid rest after t Hcb Hp script Hs result.
    apply recv_ends; [done|done|]. by apply done_ends.
Qed.

Lemma exchanges_return_witness :
  returns (@Batch_send dev_profile (linux true) ex_batch
    (working_socket [Sent (len (@batch_bytes (linux true) ex_items))]
       [RecvData (@ack_message (linux true) 9 (ex_ack 1 0));
        RecvData (@ack_message (linux true) 9 (ex_ack 2 0) ++ zeros 3); RecvData (zeros 5)])).2
  ∧ safe (@Batch_send dev_profile (linux true) ex_batch
      (working_socket [Sent (len (@batch_bytes (linux true) ex_items))]
         [RecvData (zeros 17); RecvData (@ack_message (linux true) 9 (ex_ack 2 0) ++ [])])).2
  ∧ returns (@recv_and_process dev_profile (linux true) unit None None
      [RecvData (@done_message (linux true) 7 ++ zeros 5); RecvErr 4] tt).
Proof.
  destruct (@exchanges_return dev_profile (linux true) (linux_laws true)) as [Hsend Hdump].
  split_and!.
  - refine (proj2 (Hsend ex_items ex_batch [len (@batch_bytes (linux true) ex_items)]
      [RecvData (@ack_message (linux true) 9 (ex_ack 1 0))] 9 (ex_ack 2 0) (zeros 3)
      [RecvData (zeros 5)] _ _ _ _ _ _ _ _) _);
      [by vm_compute|exact ex_items_ok|by vm_compute|repeat constructor|by vm_compute
      |by vm_compute|left; by vm_compute|repeat constructor; by vm_compute|].
    constructor; [|constructor]. split; [by vm_compute|]. intros n hdr Hg. split; [|done].
    do 9 (destruct n as [|n]; [intros _ _ He; by vm_compute in He|]).
    by rewrite drop_ge in Hg by (change (length (ack_message 9 (ex_ack 1 0))) with 36%nat; lia).
  - refine (proj1 (Hsend ex_items ex_batch [len (@batch_bytes (linux true) ex_items)]
      [RecvData (zeros 17)] 9 (ex_ack 2 0) [] [] _ _ _ _ _ _ _ _));
      [by vm_compute|exact ex_items_ok|by vm_compute|repeat constructor|by vm_compute
      |by vm_compute|left; by vm_compute|repeat constructor; by vm_compute].
  - refine (proj2 (Hdump unit None None [] 7 (zeros 5) [RecvErr 4] tt _ _ _) _);
      [done|by vm_compute|repeat constructor; by vm_compute|constructor].
Defined.

(** C29: whatever the kernel answers, a call that sends a batch or lists objects and
    returns has closed the socket it opened, once and at last, except when a [send]
    fails: then the socket is left open. *)
Theorem socket_lifecycle `{BuildProfile} `{Sys} (b : Batch) (table : Table) (chain : Chain)
    (s : Socket) :
  lifecycle (Batch_send b s) ∧ lifecycle (list_tables s)
  ∧ lifecycle (list_chains_for_table table s) ∧ lifecycle (list_rules_for_chain chain s).
Proof.
  split_and!; [apply lifecycle_send|by apply lifecycle_list_objects..|].
  unfold list_rules_for_chain. destruct (Rule_new chain) as [r|e| | |]; try done.
  cbn [map_err]. rewrite lift_bind. by apply lifecycle_list_objects.
Qed.
