(* ===== verification/Bindings.v ===== *)
(** * The build script: [build.rs]

    The script asks the crate bindgen for the declarations of the kernel headers, reformats
    the text and writes it to [sys.rs].  Texts are byte sequences.  The crates bindgen and
    regex are parameters: [Bindgen] gives the text, or fails, and [Regex] is [replace_all] of
    the one pattern the script uses, with the documented behaviour of a leftmost search. *)

From S2P Require Import Prelude Sys Errors Lib Nlmsg ParserImpls.
Local Open Scope Z_scope.

(** ** [str::replace] *)
Fixpoint strip_prefix (prefix s : bytes) : option bytes :=
  match prefix, s with
  | [], _ => Some s
  | p :: prefix, b :: s => if decide (p = b) then strip_prefix prefix s else None
  | _ :: _, [] => None
  end.

(** The search goes on behind a replaced part. *)
Fixpoint replace_loop (fuel : nat) (from to s : bytes) : bytes :=
  match fuel, s with
  | S fuel, b :: s' =>
      match strip_prefix from s with
      | Some rest => to ++ replace_loop fuel from to rest
      | None => b :: replace_loop fuel from to s'
      end
  | _, _ => s
  end.
Definition replace (from to s : bytes) : bytes := replace_loop (length s) from to s.

(** ** The pattern [(pub type nft[a-zA-Z_]*_attributes) = u32;] *)
Definition word_char (b : byte) : bool :=
  let z := byte.unsigned b in
  ((97 <=? z) && (z <=? 122)) || ((65 <=? z) && (z <=? 90)) || (z =? 95).

Definition type_prefix : bytes := rstr "pub type nft".
Definition type_suffix : bytes := rstr "_attributes".
Definition unit32 : bytes := rstr " = u32;".
Definition unit16 : bytes := rstr " = u16;".

(** [m] matches, and [c] is the captured part. *)
Definition pattern_matches (m c : bytes) : Prop :=
  ∃ w, Forall (λ b, word_char b = true) w ∧ c = type_prefix ++ w ++ type_suffix ∧ m = c ++ unit32.

(** [s] is cut at a match: what precedes it, the captured part and what follows. *)
Definition match_in (s pre c post : bytes) : Prop :=
  ∃ m, pattern_matches m c ∧ s = pre ++ m ++ post.

Class Regex := replace_all : (bytes → bytes) → bytes → bytes.

Class RegexLaws `{Regex} : Prop := {
  replace_all_none rep s : (∀ pre c post, ¬ match_in s pre c post) → replace_all rep s = s;
  replace_all_first rep s pre c post :
    match_in s pre c post →
    (∀ pre' c' post', match_in s pre' c' post' → (length pre ≤ length pre')%nat) →
    replace_all rep s = pre ++ rep c ++ replace_all rep post }.

Definition reformat_units `{Regex} (header : bytes) : bytes :=
  replace_all (λ captured, captured ++ unit16) header.

(** ** [generate_sys] *)
Class Bindgen := bindings : bytes → option bytes.

(** What the script finds: the variable [OUT_DIR], and whether the file can be created and
    written. *)
Record BuildEnv := {
  out_dir : option bytes;
  create_ok : bool;
  write_ok : bool }.

Definition SYS_HEADER_FILE : bytes := rstr "include/wrapper.h".

Definition or_panic {A : Type} (o : option A) : outcome Empty_set A :=
  match o with Some a => Ok a | None => Panic end.

(** [PathBuf::join]. *)
Definition path_join (dir name : bytes) : bytes :=
  match reverse dir with
  | [] => name
  | b :: _ => if decide (b = Byte.x2f) then dir ++ name else dir ++ [Byte.x2f] ++ name
  end.

(** The line for cargo, and the path and the content of the file; a failure panics. *)
Definition generate_sys `{Bindgen} `{Regex} (env : BuildEnv)
    : bytes * outcome Empty_set (bytes * bytes) :=
  (rstr "cargo:rerun-if-changed=" ++ SYS_HEADER_FILE,
   s ← or_panic (bindings SYS_HEADER_FILE);
   let s := replace (rstr " ; ") (rstr ";" ++ [Byte.x0a]) s in
   let s := reformat_units s in
   dir ← or_panic (out_dir env);
   let out_path := path_join dir (rstr "sys.rs") in
   if negb (create_ok env) then Panic
   else if negb (write_ok env) then Panic
   else Ok (out_path, s)).

(** ** A reference for the replacement *)

(** The longest run of word characters. *)
Fixpoint span_word (s : bytes) : bytes * bytes :=
  match s with
  | b :: s' => if word_char b then let '(w, r) := span_word s' in (b :: w, r) else ([], s)
  | [] => ([], [])
  end.

(** Whether the word ends as the name of a type of attributes. *)
Definition ends_with (suffix w : bytes) : bool :=
  bool_decide (drop (length w - length suffix) w = suffix).

(** The match at the front of a text, with what follows. *)
Definition match_front (s : bytes) : option (bytes * bytes) :=
  match strip_prefix type_prefix s with
  | Some r =>
      let '(w, r') := span_word r in
      if ends_with type_suffix w then
        match strip_prefix unit32 r' with
        | Some rest => Some (type_prefix ++ w, rest)
        | None => None
        end
      else None
  | None => None
  end.

Fixpoint search_loop (rep : bytes → bytes) (fuel : nat) (s : bytes) : bytes :=
  match fuel, s with
  | S fuel, b :: s' =>
      match match_front s with
      | Some (c, rest) => rep c ++ search_loop rep fuel rest
      | None => b :: search_loop rep fuel s'
      end
  | _, _ => s
  end.
Definition leftmost_search : Regex := λ rep s, search_loop rep (length s) s.

(** ** Lemmas on the parts of the pattern *)
Lemma strip_prefix_Some p s r : strip_prefix p s = Some r ↔ s = p ++ r.
Proof.
  revert s. induction p as [|x p IH]; intros s; cbn; [split; congruence|].
  destruct s as [|b s]; [done|]. case_decide as Hx.
  - subst. rewrite IH. split; [by intros ->|by intros [= ->]].
  - split; [done|]. by intros [= ->].
Qed.

Lemma span_word_spec s w r :
  span_word s = (w, r) →
  s = w ++ r ∧ Forall (λ b, word_char b = true) w.
Proof.
  revert w r. induction s as [|b s IH]; intros w r; cbn; [by intros [= <- <-]|].
  destruct (word_char b) eqn:Hb; [|by intros [= <- <-]].
  destruct (span_word s) as [w' r']. intros [= <- <-]. destruct (IH w' r') as [-> Hw]; [done|].
  split; [done|]. by constructor.
Qed.

Lemma span_word_app w r :
  Forall (λ b, word_char b = true) w → match r with b :: _ => word_char b = false | [] => True end →
  span_word (w ++ r) = (w, r).
Proof.
  intros Hw Hr. induction Hw as [|b w Hb _ IH]; cbn.
  - destruct r as [|b r]; [done|]. cbn. by rewrite Hr.
  - by rewrite Hb, IH.
Qed.

Lemma ends_with_spec suffix w : ends_with suffix w = true ↔ ∃ w', w = w' ++ suffix.
Proof.
  unfold ends_with. rewrite bool_decide_eq_true. split.
  - intros H. exists (take (length w - length suffix) w). by rewrite <- H at 2; rewrite take_drop.
  - intros [w' ->]. rewrite length_app, Nat.add_sub. apply drop_app_length.
Qed.

Lemma match_front_spec s c post : match_front s = Some (c, post) ↔ match_in s [] c post.
Proof.
  unfold match_front. split.
  - destruct (strip_prefix type_prefix s) as [r|] eqn:Hr; [|done].
    apply strip_prefix_Some in Hr as ->. destruct (span_word r) as [w r'] eqn:Hs.
    apply span_word_spec in Hs as [-> Hw].
    destruct (ends_with type_suffix w) eqn:He; [|done]. apply ends_with_spec in He as [w' ->].
    destruct (strip_prefix unit32 r') as [rest|] eqn:Hu; [|done].
    apply strip_prefix_Some in Hu as ->. intros [= <- <-].
    apply Forall_app in Hw as [Hw _]. eexists. split; [by exists w'|]. cbn [app].
    by rewrite <- !app_assoc.
  - intros (m & (w & Hw & -> & ->) & ->). cbn [app]. rewrite <- !app_assoc.
    rewrite (proj2 (strip_prefix_Some _ _ _) eq_refl), (app_assoc w).
    rewrite span_word_app; [|apply Forall_app; split; [done|by repeat constructor]|done].
    rewrite (proj2 (ends_with_spec _ _)) by (by exists w).
    by rewrite (proj2 (strip_prefix_Some _ _ _) eq_refl).
Qed.

(** A match takes bytes. *)
Lemma match_front_shorter s c post : match_front s = Some (c, post) → (length post < length s)%nat.
Proof.
  intros (m & (w & _ & -> & ->) & ->)%match_front_spec. cbn [app]. rewrite !length_app. cbn. lia.
Qed.

Lemma search_fuel rep f1 f2 s :
  (length s ≤ f1)%nat → (length s ≤ f2)%nat → search_loop rep f1 s = search_loop rep f2 s.
Proof.
  revert f2 s. induction f1 as [|f1 IH]; intros f2 [|b s]; cbn [length]; try lia; try (by destruct f2).
  destruct f2 as [|f2]; [lia|]. intros H1 H2. cbn [search_loop].
  destruct (match_front (b :: s)) as [[c rest]|] eqn:Hm.
  - apply match_front_shorter in Hm. cbn in Hm. f_equal. apply IH; lia.
  - f_equal. apply IH; lia.
Qed.

Lemma search_cons rep b s :
  leftmost_search rep (b :: s)
  = match match_front (b :: s) with
    | Some (c, rest) => rep c ++ leftmost_search rep rest
    | None => b :: leftmost_search rep s
    end.
Proof.
  unfold leftmost_search. cbn [length search_loop].
  destruct (match_front (b :: s)) as [[c rest]|] eqn:Hm; [|done].
  apply match_front_shorter in Hm. cbn in Hm. f_equal. apply search_fuel; lia.
Qed.

(** ** The first match decides the replacement *)
Lemma match_in_nil pre c post : ¬ match_in [] pre c post.
Proof.
  intros (m & (w & _ & -> & ->) & Hs). symmetry in Hs. apply app_nil in Hs as [_ Hs].
  by apply app_nil in Hs as [[Hs _]%app_nil _].
Qed.

Lemma match_in_cons b s pre c post :
  match_in (b :: s) pre c post ↔
  (pre = [] ∧ match_front (b :: s) = Some (c, post)) ∨ ∃ pre', pre = b :: pre' ∧ match_in s pre' c post.
Proof.
  rewrite match_front_spec. split.
  - intros (m & Hm & Hs). destruct pre as [|x pre]; [left; split; [done|]; by exists m|].
    injection Hs as -> ->. right. exists pre. split; [done|]. by exists m.
  - intros [[-> Hm]|(pre' & -> & m & Hm & ->)]; [done|]. by exists m.
Qed.

Definition first_match (s pre c post : bytes) : Prop :=
  match_in s pre c post
  ∧ ∀ pre' c' post', match_in s pre' c' post' → (length pre ≤ length pre')%nat.

Lemma first_match_dec s :
  (∀ pre c post, ¬ match_in s pre c post) ∨ ∃ pre c post, first_match s pre c post.
Proof.
  induction s as [|b s IH]; [left; apply match_in_nil|].
  destruct (match_front (b :: s)) as [[c post]|] eqn:Hm.
  { right. exists [], c, post. split; [by apply match_in_cons; left|]. cbn. lia. }
  destruct IH as [Hn|(pre & c & post & Hs & Hf)].
  - left. intros pre c post [[_ ?]|(pre' & _ & Hs)]%match_in_cons; [congruence|by eapply Hn].
  - right. exists (b :: pre), c, post. split; [apply match_in_cons; eauto|].
    intros pre' c' post' [[_ ?]|(pre2 & -> & Hs')]%match_in_cons; [congruence|].
    cbn. apply Hf in Hs'. lia.
Qed.

#[global] Instance leftmost_laws : RegexLaws (H := leftmost_search).
Proof.
  split; intros rep s; change (@replace_all leftmost_search) with leftmost_search.
  - induction s as [|b s IH]; intros Hn; [done|]. rewrite search_cons.
    destruct (match_front (b :: s)) as [[c post]|] eqn:Hm.
    { by destruct (Hn [] c post); apply match_front_spec. }
    f_equal. apply IH. intros pre c post Hs. apply (Hn (b :: pre) c post), match_in_cons. eauto.
  - induction s as [|b s IH]; intros pre c post Hs Hf; [by apply match_in_nil in Hs|].
    rewrite search_cons. apply match_in_cons in Hs as [[-> ->]|(pre' & -> & Hs)]; [done|].
    destruct (match_front (b :: s)) as [[c' post']|] eqn:Hm.
    { assert (length (b :: pre') ≤ length (@nil byte))%nat; [|cbn in *; lia].
      by eapply Hf, match_in_cons; left. }
    cbn [app]. f_equal. apply IH; [done|]. intros pre2 c2 post2 Hs2.
    assert (length (b :: pre') ≤ length (b :: pre2))%nat; [|cbn in *; lia].
    eapply Hf, match_in_cons. eauto.
Qed.

(** The documented behaviour leaves no choice. *)
Lemma replace_all_leftmost `{RegexLaws} rep s : replace_all rep s = leftmost_search rep s.
Proof.
  remember (length s) as n eqn:Hn. revert s Hn. induction n as [n IH] using lt_wf_ind.
  intros s ->. destruct (first_match_dec s) as [Hnone|(pre & c & post & Hs & Hf)].
  - rewrite replace_all_none by done. symmetry.
    by apply (replace_all_none (H := leftmost_search)).
  - rewrite (replace_all_first rep s pre c post) by done.
    etransitivity; [|symmetry; by apply (replace_all_first (H := leftmost_search))].
    do 2 f_equal. eapply IH; [|done].
    destruct Hs as (m & (w & _ & -> & ->) & ->). rewrite !length_app. cbn. lia.
Qed.

(** ** What the replacement does *)
Definition recast (s : bytes) : bytes := leftmost_search (λ c, c ++ unit16) s.

Lemma recast_cons b s :
  recast (b :: s) = match match_front (b :: s) with
    | Some (c, rest) => c ++ unit16 ++ recast rest
    | None => b :: recast s
    end.
Proof.
  unfold recast. rewrite search_cons. destruct (match_front _) as [[c rest]|]; [|done].
  by rewrite <- app_assoc.
Qed.

(** Induction on the search: a match at the front, or none. *)
Lemma search_ind (P : bytes → Prop) :
  P [] →
  (∀ b s c rest, match_front (b :: s) = Some (c, rest) → P rest → P (b :: s)) →
  (∀ b s, match_front (b :: s) = None → P s → P (b :: s)) →
  ∀ s, P s.
Proof.
  intros H0 H1 H2 s. remember (length s) as n eqn:Hn. revert s Hn.
  induction n as [n IH] using lt_wf_ind. intros [|b s] ->; [done|].
  destruct (match_front (b :: s)) as [[c rest]|] eqn:Hm.
  - eapply H1; [done|]. eapply IH; [|done]. by apply match_front_shorter in Hm.
  - apply H2; [done|]. eapply IH; [|done]. cbn. lia.
Qed.

(** Bytes change only from the digits 3 and 2 to 1 and 6. *)
Definition same_or_digit (a b : byte) : Prop :=
  b = a ∨ (a = Byte.x33 ∧ b = Byte.x31) ∨ (a = Byte.x32 ∧ b = Byte.x36).

Lemma same_all (l : bytes) : Forall2 same_or_digit l l.
Proof. induction l; constructor; [by left|done]. Qed.

Lemma recast_same s : Forall2 same_or_digit s (recast s).
Proof.
  revert s. apply search_ind; [constructor|intros b s c rest Hm IH|intros b s Hm IH];
    rewrite recast_cons, Hm.
  - apply match_front_spec in Hm as (m & (w & _ & -> & ->) & ->). cbn [app].
    rewrite <- (app_assoc _ unit32). apply Forall2_app; [apply same_all|].
    apply Forall2_app; [|done]. repeat constructor; (by left) || (by right; left) || by right; right.
  - constructor; [by left|done].
Qed.

(** *** Nothing is left to recast *)

(** No match starts inside a part that was replaced. *)
Lemma no_match_inside c rest i w :
  c = type_prefix ++ w ++ type_suffix → Forall (λ b, word_char b = true) w →
  (0 < i < length (c ++ unit16))%nat →
  ¬ ∃ r, drop i (c ++ unit16 ++ rest) = type_prefix ++ r.
Proof.
  intros -> Hw Hi [r Hr].
  set (t := (type_prefix ++ w ++ type_suffix) ++ unit16 ++ rest) in *.
  assert (∀ k b, type_prefix !! k = Some b → t !! (i + k)%nat = Some b) as Hk.
  { intros k b Hb. rewrite <- lookup_drop, Hr. by apply lookup_app_l_Some. }
  pose proof (Hk 0%nat Byte.x70 eq_refl) as Hp. pose proof (Hk 1%nat Byte.x75 eq_refl) as Hu.
  pose proof (Hk 3%nat Byte.x20 eq_refl) as Hsp. clear Hk Hr.
  rewrite Nat.add_0_r in Hp. unfold t in *. clear t.
  rewrite <- !app_assoc in *. rewrite !length_app in Hi. cbn in Hi.
  destruct (decide (i < 12)%nat) as [Hlt|Hge].
  - do 12 (destruct i as [|i]; [try lia; cbn in Hp, Hu; done|]). lia.
  - rewrite lookup_app_r in Hp, Hsp by (cbn; lia). cbn [length] in Hp, Hsp.
    change (length type_prefix) with 12%nat in *.
    destruct (decide (i - 12 < length w)%nat) as [Hlw|Hgw].
    + rewrite (app_assoc w), lookup_app_l in Hsp by (rewrite length_app; cbn; lia).
      assert (Forall (λ b, word_char b = true) (w ++ type_suffix)) as Hall.
      { apply Forall_app. split; [done|]. by repeat constructor. }
      by apply (Forall_lookup_1 _ _ _ _ Hall) in Hsp.
    + rewrite lookup_app_r, app_assoc, lookup_app_l in Hp by (rewrite ?length_app; cbn; lia).
      remember (i - 12 - length w)%nat as j eqn:Hj. assert (j < 18)%nat as Hj' by lia. clear -Hp Hj'.
      do 18 (destruct j as [|j]; [done|]). lia.
Qed.

Lemma replaced_done c w rest pre c' post :
  c = type_prefix ++ w ++ type_suffix → Forall (λ b, word_char b = true) w →
  (∀ pre, ¬ match_in rest pre c' post) → ¬ match_in (c ++ unit16 ++ rest) pre c' post.
Proof.
  intros Hc Hw Hrest Hm. destruct (decide (length pre = 0)%nat) as [H0|H0].
  { apply nil_length_inv in H0 as ->. apply match_front_spec in Hm. unfold match_front in Hm.
    rewrite Hc, <- !app_assoc, (proj2 (strip_prefix_Some _ _ _) eq_refl) in Hm.
    rewrite (app_assoc w), span_word_app in Hm;
      [|apply Forall_app; split; [done|by repeat constructor]|done].
    by rewrite (proj2 (ends_with_spec _ _)) in Hm by (by exists w). }
  destruct Hm as (m & (w' & Hw' & Hc' & ->) & Hs).
  destruct (decide (length pre < length (c ++ unit16))%nat) as [Hlt|Hge].
  - apply (no_match_inside c rest (length pre) w); [done|done|lia|].
    rewrite Hs, drop_app_length, Hc', <- !app_assoc. eauto.
  - rewrite app_assoc in Hs. apply (Hrest (drop (length (c ++ unit16)) pre)).
    eexists. split; [by exists w'|].
    apply (f_equal (drop (length (c ++ unit16)))) in Hs. rewrite drop_app_length in Hs.
    rewrite Hs. apply drop_app_le. lia.
Qed.

(** A match in the result is one in the text: its bytes are none of the new digits. *)
Lemma recast_match s c post : match_in (recast s) [] c post → ∃ post', match_in s [] c post'.
Proof.
  intros (m & (w & Hw & -> & ->) & Hs). cbn [app] in Hs. pose proof (recast_same s) as Hsame.
  rewrite Hs in Hsame. apply Forall2_app_inv_r in Hsame as (m' & post' & Hm & _ & ->).
  exists post'. eexists. split; [by exists w|]. cbn [app]. f_equal.
  assert (Forall (λ b, b ≠ Byte.x31 ∧ b ≠ Byte.x36)
    ((type_prefix ++ w ++ type_suffix) ++ unit32)) as Hd.
  { repeat (apply Forall_app; split); try (by repeat constructor).
    eapply Forall_impl; [|exact Hw]. intros b Hb. split; intros ->; discriminate Hb. }
  clear -Hm Hd. revert Hd. induction Hm as [|a b l k Hab _ IH]; [done|].
  intros [[H1 H6] Hl]%list.Forall_cons. f_equal; [|by apply IH].
  destruct Hab as [->|[[_ ->]|[_ ->]]]; done.
Qed.

Lemma recast_done s pre c post : ¬ match_in (recast s) pre c post.
Proof.
  revert s pre c post. apply (search_ind (λ s, ∀ pre c post, ¬ match_in (recast s) pre c post)).
  - intros pre c post. apply match_in_nil.
  - intros b s c rest Hm IH pre c' post Hs. rewrite recast_cons, Hm in Hs.
    apply match_front_spec in Hm as (m & (w & Hw & Hc & ->) & _).
    by eapply (replaced_done c w (recast rest)); eauto.
  - intros b s Hm IH pre c post Hs. pose proof Hs as Hs'. rewrite recast_cons, Hm in Hs.
    apply match_in_cons in Hs as [[-> _]|(pre' & -> & Hs)]; [|by eapply IH].
    apply recast_match in Hs' as [post' Hs']. apply match_front_spec in Hs'. congruence.
Qed.
