(* ===== verification/MacroTheorems.v ===== *)
(** * The attribute macros: their arguments, and the code they generate for the crate *)

From S2P Require Import Prelude Sys Errors Nlmsg Parser ParserImpls Macros Data Table Chain.
From S2P Require Import Expand Declarations Expansion Bindings.
Local Open Scope Z_scope.

(** C28: the arguments of the macros.  [parse_struct_args] accepts exactly the argument lists
    in which every argument is one of the three boolean parameters, and [parse_field_args] and
    [parse_enum_args] those in which every argument is a path or one of their parameters with
    a value of its type, and at most one is a path; the result has that path, and for each
    parameter the last value given, or its default. *)
Theorem macro_arguments (l : list SynMeta) fargs sargs eargs :
  (parse_field_args (Some l) = Ok fargs ↔
   Forall field_arg_ok l ∧ (length (arg_paths l) ≤ 1)%nat
   ∧ fargs = MkFieldArgs (head (arg_paths l)) (last_value (str_value "name_in_functions") l)
       (default false (last_value (bool_value "optional") l)))
  ∧ (parse_struct_args (Some l) = Ok sargs ↔
     Forall struct_arg_ok l
     ∧ sargs = MkStructArgs (default false (last_value (bool_value "nested") l))
         (default true (last_value (bool_value "derive_decoder") l))
         (default true (last_value (bool_value "derive_deserialize") l)))
  ∧ (parse_enum_args (Some l) = Ok eargs ↔
     Forall enum_arg_ok l ∧ (length (arg_paths l) ≤ 1)%nat
     ∧ eargs = MkEnumArgs (default false (last_value (bool_value "nested") l)) (head (arg_paths l))).
Proof.
  split_and!.
  - cbn [parse_field_args]. unfold FieldArgs_default. rewrite field_args_spec. cbn [option_list app].
    by destruct (last_value (str_value _) l).
  - apply struct_args_spec.
  - apply enum_args_spec.
Qed.

(** C16: the structures of the crate.  When [get_state] returns the identifiers the headers
    declare, [nfnetlink_struct] succeeds on the declaration of each of the crate's structures.
    The generated writer handles the fields that are accepted, in the order of the
    declaration, and the sizes and the derived decoder the same fields; each identifier is the
    constant whose value the field has; the trait implementations used for the structure are
    the generated ones, with the declaration's [nested], [derive_decoder] and
    [derive_deserialize]. *)
Theorem structs_expand `{BuildProfile} `{Sys} cell sys_file (m : StructModel) :
  get_state cell sys_file = Ok declared_identifiers →
  m ∈ crate_structs →
  ∃ e, nfnetlink_struct cell sys_file (Some (sm_args m)) (Some (sm_item m)) = Ok e
    ∧ map (λ w, last_ident (fst w)) (exp_write e)
      = map (λ f, Some (netlink_ident f)) (accept_fields (sm_fields m))
    ∧ map (λ w, path_value (fst w)) (exp_write e)
      = map (λ f, Some (netlink_type f)) (accept_fields (sm_fields m))
    ∧ exp_size e = map snd (exp_write e)
    ∧ sm_attribute m = struct_attribute (accept_fields (sm_fields m)) (exp_is_nested e)
    ∧ (is_Some (exp_decoder e) →
       exp_decoder e = Some (exp_write e)
       ∧ sm_decoder m = struct_decoder (accept_fields (sm_fields m)))
    ∧ (exp_deserialize e = true →
       sm_deserializable m = struct_deserializable (H1 := sm_decoder m) (sm_default m)).
Proof.
  intros Hst Hm. destruct (proj1 (list.Forall_forall _ _) crate_structs_ok m Hm)
    as (args & Hargs & Hd & Hv & Hattr & Hdec & Hdes).
  destruct (nfnetlink_struct_accept cell sys_file _ args _ _ Hst Hargs Hd)
    as (e & He & _ & Hn & Hs & Hde & Hsize & Hw).
  exists e. split_and!; try done.
  - by apply path_values.
  - by rewrite Hn.
  - rewrite Hde. destruct (args_derive_decoder args); [auto|by intros []].
  - rewrite Hs. auto.
Qed.

Lemma structs_expand_witness :
  ∃ e, nfnetlink_struct None (Some [Item_Other; Item_Const "NFTA_TABLE_USERDATA";
           Item_Const "NFTA_CHAIN_USERDATA"; Item_Const "NFTA_VERDICT_CHAIN_ID"])
         (Some Table_args) (Some Table_item) = Ok e
    ∧ map (λ w, last_ident (fst w)) (exp_write e)
      = [Some "NFTA_TABLE_NAME"%string; Some "NFTA_TABLE_FLAGS"%string;
         Some "NFTA_TABLE_USERDATA"%string].
Proof.
  pose (profile := dev_profile : BuildProfile). pose (headers := linux true : Sys).
  destruct (structs_expand None
    (Some [Item_Other; Item_Const "NFTA_TABLE_USERDATA";
           Item_Const "NFTA_CHAIN_USERDATA"; Item_Const "NFTA_VERDICT_CHAIN_ID"])
    (struct_model Table_args Table_item Table_fields Table_default)) as (e & He & Hw & _).
  - reflexivity.
  - right. left.
  - exists e. split; [exact He|]. rewrite Hw. vm_compute. reflexivity.
Defined.

(** C17: the enumerations of the crate.  [nfnetlink_enum] succeeds exactly when its arguments
    are one path, the representation, and values for [nested], and every variant has a path
    for its value; [try_from] then has an entry per variant, in order, and the discriminants
    are cast to the representation.  On the declarations of the crate's enumerations it gives
    the representation, the values of the variants and the name of the error that the model
    of each uses. *)
Theorem enums_expand `{BuildProfile} `{Sys} :
  (∀ l item e,
     nfnetlink_enum (Some l) (Some item) = Ok e ↔
     Forall enum_arg_ok l
     ∧ Forall (λ v, is_Some (variant_entry v)) (ienum_variants item)
     ∧ ∃ repr_type, arg_paths l = [repr_type] ∧ e = enum_expansion repr_type item)
  ∧ Forall enum_model_ok crate_enums.
Proof. split; [intros l item e; apply nfnetlink_enum_spec|apply crate_enums_ok]. Qed.

(** ** The build script *)

(** C30: the bindings.  [reformat_units] recasts the types of attributes from u32 to u16 and
    nothing else: it replaces the digits of the first declaration of such a type and goes on
    behind it, leaves a text without one as it is, keeps the length and every other byte, and
    leaves none of them.  [generate_sys] writes the reformatted text to [sys.rs] in [OUT_DIR]
    and panics when a step fails. *)
Theorem bindings_recast `{Bindgen} `{RegexLaws} (header : bytes) (env : BuildEnv)
    (path content : bytes) :
  let s := reformat_units header in
  (∀ pre c post, first_match header pre c post → s = pre ++ (c ++ unit16) ++ reformat_units post)
  ∧ ((∀ pre c post, ¬ match_in header pre c post) → s = header)
  ∧ Forall2 same_or_digit header s
  ∧ (∀ pre c post, ¬ match_in s pre c post)
  ∧ ((generate_sys env).2 = Ok (path, content) ↔
     ∃ text dir, bindings SYS_HEADER_FILE = Some text ∧ out_dir env = Some dir
       ∧ create_ok env = true ∧ write_ok env = true ∧ path = path_join dir (rstr "sys.rs")
       ∧ content = reformat_units (replace (rstr " ; ") (rstr ";" ++ [Byte.x0a]) text)).
Proof.
  cbv zeta. assert (reformat_units header = recast header) as Hr by apply replace_all_leftmost.
  split_and!.
  - intros pre c post [Hm Hf]. by apply (replace_all_first (λ captured, captured ++ unit16)).
  - apply replace_all_none.
  - rewrite Hr. apply recast_same.
  - rewrite Hr. apply recast_done.
  - unfold generate_sys. cbn [snd].
    destruct (bindings SYS_HEADER_FILE) as [text|], (out_dir env) as [dir|]; cbn;
      destruct (create_ok env), (write_ok env); cbn;
      (split; [by intros [= <- <-]; eauto 10|by intros (? & ? & [=] & [=] & [=] & [=] & -> & ->); subst]).
Qed.

Lemma bindings_recast_witness :
  let text := rstr "pub type nft_list_attributes = u32; pub type nft_list = u32;" in
  @reformat_units leftmost_search text
    = rstr "pub type nft_list_attributes = u16; pub type nft_list = u32;"
  ∧ ∀ pre c post, ¬ match_in (@reformat_units leftmost_search text) pre c post.
Proof.
  intros text. split; [by vm_compute|].
  exact (proj1 (proj2 (proj2 (proj2 (@bindings_recast (λ _, None) leftmost_search leftmost_laws text
    {| out_dir := None; create_ok := true; write_ok := true |} [] []))))).
Defined.
